(* ===== verification/_CoqProject ===== *)
-Q . S2P
Prelude.v
Errors.v
RteHash.v
IpAddr.v
Port.v
Graph.v
Packet.v
Fields.v
Virtsvc.v
Vnf.v
Firewall.v
Tunnel.v
TunnelTheorems.v
Ipsec.v
FlowKey.v
Nat.v
NatTheorems.v
Flow.v
FlowProofs.v
Cntrack.v
CntrackTheorems.v
Maglev.v
MaglevProofs.v
Lb.v
LbTheorems.v
NatRewrite.v
NatNodes.v
NatNodesTheorems.v
Multipath.v
VirtsvcConn.v
VirtsvcConnProofs.v
VirtsvcConnTheorems.v
VirtsvcReach.v
Rib.v
Control.v
Lpm.v
LpmTheorems.v
Iface.v
IpsecNodes.v
IpsecNodesProofs.v
IpsecProofs.v
IpsecGrpc.v
Grpc.v
GrpcFrames.v
GrpcLedger.v
GrpcCodes.v
GrpcTheorems.v
IpsecTheorems.v
IpsecNodesTheorems.v
GrpcExamples.v
Sync.v
SyncTheorems.v
SyncExamples.v
Guest.v
