(* ===== verification/Prelude.v ===== *)
(** * dpservice: a verification library

    dpservice is a virtual router on DPDK.  Guests are attached by virtual
    functions (ports), grouped into virtual networks (VNIs); packets between
    hosts travel in IPv6 tunnels over the uplinks, optionally as ESP.  A graph of
    nodes moves bursts of packets: rx, cls, conntrack, dnat or lb, the lookups,
    snat, firewall, ipip_encap, ipsec_encap, tx, and on the way in ipsec_decap
    and ipip_decap.  A control plane answers gRPC requests and changes the tables
    the nodes read.  All of it runs on one worker thread, so the model is
    sequential: a burst or a request is one step.

    ** Conventions

    The sources are those under [src/]; a definition has the name of the C
    function or structure it translates.  A function that changes state is a
    program of the monad [M] below, [S -> option (A * S)]: the result [None] is
    undefined behaviour of the C program (a dangling or null pointer, an index
    out of range, a failed assertion, a division by zero), never an error return.
    Return codes are the [Z] of the source with its signs ([Errors]).
    Machine integers are [Z] with explicit reductions ([u8] to [u64]); multi-byte
    fields of packets are little-endian memory, so [htons] and [ntohs] swap.
    Whatever the program gets from outside (memory, the timer, random numbers, a
    device, configuration) is a member of an environment record; libraries are
    classes with laws: [RteHash] for [rte_hash], [RteRib] for [rte_rib] and
    [rte_rib6], [RteMbuf] and [RteCksum] for packet buffers and checksums,
    [RteIpsecSad] for [rte_ipsec_sad], the crypto device and [rte_ipsec] in
    [IpsecNodes].  Each class has an instance in the library; the witnesses of the
    theorems are computed with these instances.

    ** Parts

    - Prelude: integers, bytes, lists, the monad, its tactics and rules.
    - Errors, RteHash, IpAddr, Port, Packet, Fields: return codes, hash tables,
      addresses, ports, packets as bytes with their metadata, and what reads and
      writes of fields do.
    - Ipsec, IpsecProofs, IpsecGrpc, IpsecTheorems: the database of Security
      Associations ([dp_ipsec.c], the SA handlers of [dp_grpc_impl.c]) with its heap
      of associations, sessions and library objects.  It is a finite map to its
      clients: each request refines an operation on the map, no history of
      requests dereferences freed memory, frees twice or leaks.
    - IpsecNodes, IpsecNodesProofs, IpsecNodesTheorems: the two nodes over a whole
      burst, with operations in flight.  A packet leaves either node only if it
      was processed with success under the association of its network.
    - Graph, Tunnel, TunnelTheorems: edges, the burst loop, [cls_node.c],
      [ipip_encap_node.c], [ipip_decap_node.c].  What one host wraps the other
      unwraps; an interface that encrypts never sends in the clear.
    - Virtsvc, VirtsvcConn, VirtsvcConnProofs, VirtsvcConnTheorems, VirtsvcReach:
      virtual services, their lookup trees, their connections and the node.
    - Vnf, Firewall: network functions behind underlay addresses; firewall rules.
    - FlowKey, Flow, FlowProofs, Cntrack, CntrackTheorems: flow keys, the flow
      table with reference counts and ageing, connection tracking.
    - Nat, NatTheorems, NatRewrite, NatNodes, NatNodesTheorems: NAT tables, the
      allocation of ports, the rewriting of headers (also between IPv6 and IPv4),
      the nodes snat, dnat, firewall and packet_relay.
    - Maglev, MaglevProofs, Lb, LbTheorems: load balancers and their lookup tables.
    - Rib, Control, Lpm, LpmTheorems, Multipath: the state of the control plane,
      networks with their reference counts ([dp_vni.c]), routes and lookups
      ([dp_lpm.c], the lookup nodes), the choice of the uplink.
    - Iface, Grpc: ports, meters, interfaces, packet capture; every handler of
      [dp_grpc_impl.c] and the dispatcher [dp_process_request].
    - GrpcFrames, GrpcLedger, GrpcCodes, GrpcTheorems, GrpcExamples: which requests
      touch what, and the theorems on all requests.

    ** What the theorems show

    The claims are numbered C1, C2, ... at their theorems.  They say that
    encryption fails closed and is changed only by those who may change it; that
    the tunnel, NAT, virtual services and echo replies return packets to where
    they belong with nothing else changed; that the tables (associations, flows,
    NAT ports, connections, networks, names, load balancers) keep their invariants
    over all histories, on error paths too; that searches find what is there and
    loops end; that optimised code (the burst loop, the lookup trees, Maglev, the
    firewall, longest-prefix routing) computes what a plain definition says.  The
    examples named in the documentation of the modules [..Example] show behaviour
    that the code does not mean to have.

    ** Bounds and fuel

    Loops over a hash table run with one unit of fuel more than the table has
    positions, which is the number of steps [rte_hash_iterate] can make.  The Maglev
    loop has the size of the lookup table as fuel, and a theorem shows that it
    fills the table within it.  Port searches run over the range of ports, polling
    of the crypto device over the retries of the source.

    ** Not modelled

    Initialisation of devices, EAL, threads, timers and queues: calls of DPDK and
    the kernel in a fixed order.  The flow rules for offloading: what they do is
    decided by the card.  The C++ side of gRPC, the configuration parser (in part
    generated), logging, telemetry, tracing and the separate tools: input and
    output of the modelled state, with no decision about packets. *)

From stdpp Require Export base prelude gmap list sorting fin_maps strings.
From Stdlib Require Export ZArith Lia Bool.

#[global] Open Scope Z_scope.

(** ** Fixed-width integers

    A [uintN_t] value is a [Z] kept in range by an explicit reduction. *)

Definition u8 (x : Z) : Z := x mod 2 ^ 8.
Definition u16 (x : Z) : Z := x mod 2 ^ 16.
Definition u32 (x : Z) : Z := x mod 2 ^ 32.
Definition u64 (x : Z) : Z := x mod 2 ^ 64.

Definition is_u8 (x : Z) : Prop := 0 <= x < 2 ^ 8.
Definition is_u16 (x : Z) : Prop := 0 <= x < 2 ^ 16.
Definition is_u32 (x : Z) : Prop := 0 <= x < 2 ^ 32.
Definition is_u64 (x : Z) : Prop := 0 <= x < 2 ^ 64.

(** Little-endian reading and writing of [n] bytes of memory. *)

Fixpoint le_join (bs : list Z) : Z :=
  match bs with
  | [] => 0
  | b :: bs' => b + 256 * le_join bs'
  end.

Fixpoint le_split (n : nat) (z : Z) : list Z :=
  match n with
  | O => []
  | S n' => z mod 256 :: le_split n' (z / 256)
  end.

(** [htons]/[ntohs] and [htonl]/[ntohl] on a little-endian machine. *)

Definition bswap16 (x : Z) : Z := le_join (rev (le_split 2 x)).
Definition bswap32 (x : Z) : Z := le_join (rev (le_split 4 x)).

Abbreviation ntohs := bswap16.
Abbreviation htons := bswap16.
Abbreviation ntohl := bswap32.
Abbreviation htonl := bswap32.

(** ** Automation *)

Create HintDb dp discriminated.

(** Case analysis on the conditions and matches of a translated function
    body, one at a time, simplifying as the branches are taken. *)

Ltac dp_case_in H :=
  match type of H with
  | context [match ?x with _ => _ end] =>
      lazymatch x with
      | context [match _ with _ => _ end] => fail
      | _ => let E := fresh "E" in destruct x eqn:E
      end
  end.

Ltac dp_case :=
  match goal with
  | |- context [match ?x with _ => _ end] =>
      lazymatch x with
      | context [match _ with _ => _ end] => fail
      | _ => let E := fresh "E" in destruct x eqn:E
      end
  end.

Ltac dp_cases := repeat (dp_case; simplify_eq/=; try done).
Ltac dp_cases_in H := repeat (dp_case_in H; simplify_eq/=; try done).

(** Turns the boolean tests of the source into propositions. *)

Ltac bools :=
  repeat match goal with
  | H : andb _ _ = true |- _ => apply andb_prop in H; destruct H
  | H : andb _ _ = false |- _ => apply andb_false_iff in H
  | H : orb _ _ = false |- _ => apply orb_false_iff in H; destruct H
  | H : orb _ _ = true |- _ => apply orb_true_iff in H
  | H : negb _ = true |- _ => apply negb_true_iff in H
  | H : negb _ = false |- _ => apply negb_false_iff in H
  | H : (_ =? _)%Z = true |- _ => apply Z.eqb_eq in H
  | H : (_ =? _)%Z = false |- _ => apply Z.eqb_neq in H
  | H : (_ <? _)%Z = true |- _ => apply Z.ltb_lt in H
  | H : (_ <? _)%Z = false |- _ => apply Z.ltb_ge in H
  | H : (_ <=? _)%Z = true |- _ => apply Z.leb_le in H
  | H : (_ <=? _)%Z = false |- _ => apply Z.leb_gt in H
  | H : (_ >? _)%Z = true |- _ => rewrite Z.gtb_ltb in H; apply Z.ltb_lt in H
  | H : (_ >? _)%Z = false |- _ => rewrite Z.gtb_ltb in H; apply Z.ltb_ge in H
  | H : (_ >=? _)%Z = true |- _ => rewrite Z.geb_leb in H; apply Z.leb_le in H
  | H : (_ >=? _)%Z = false |- _ => rewrite Z.geb_leb in H; apply Z.leb_gt in H
  | H : bool_decide _ = true |- _ => apply bool_decide_eq_true in H
  | H : bool_decide _ = false |- _ => apply bool_decide_eq_false in H
  end.

(** ** Lemmas on integers *)

Lemma u8_range x : is_u8 (u8 x).
Proof. apply Z.mod_pos_bound; lia. Qed.

Lemma u16_range x : is_u16 (u16 x).
Proof. apply Z.mod_pos_bound; lia. Qed.

Lemma u32_range x : is_u32 (u32 x).
Proof. apply Z.mod_pos_bound; lia. Qed.

Lemma u64_range x : is_u64 (u64 x).
Proof. apply Z.mod_pos_bound; lia. Qed.

Lemma u16_small x : is_u16 x -> u16 x = x.
Proof. apply Z.mod_small. Qed.

Lemma u32_small x : is_u32 x -> u32 x = x.
Proof. apply Z.mod_small. Qed.

Lemma length_le_split n z : length (le_split n z) = n.
Proof. revert z; induction n; intros; cbn; auto. Qed.

Lemma le_split_bytes n z : Forall is_u8 (le_split n z).
Proof. revert z; induction n; intros; cbn; constructor; [apply (u8_range z) | auto]. Qed.

Lemma le_join_split n z : le_join (le_split n z) = z mod 256 ^ Z.of_nat n.
Proof.
  revert z; induction n as [|n IH]; intros z; [by rewrite Z.mod_1_r|].
  cbn. rewrite IH, Nat2Z.inj_succ, Z.pow_succ_r by lia.
  rewrite Z.rem_mul_r by lia. done.
Qed.

Lemma le_join_range bs : Forall is_u8 bs -> 0 <= le_join bs < 256 ^ Z.of_nat (length bs).
Proof.
  unfold is_u8; induction 1 as [|b bs Hb _ IH]; cbn; [lia|].
  rewrite Nat2Z.inj_succ, Z.pow_succ_r by lia. lia.
Qed.

Lemma le_split_join bs : Forall is_u8 bs -> le_split (length bs) (le_join bs) = bs.
Proof.
  unfold is_u8; induction 1 as [|b bs Hb _ IH]; cbn; [done|].
  rewrite (Z.mul_comm 256), Z.mod_add, Z.div_add, Z.mod_small, Z.div_small, Z.add_0_l by lia.
  by rewrite IH.
Qed.

Lemma swap_range n z : 0 <= le_join (rev (le_split n z)) < 256 ^ Z.of_nat n.
Proof.
  pose proof (le_join_range (rev (le_split n z))) as Hr.
  rewrite length_rev, length_le_split in Hr. apply Hr. apply Forall_rev, le_split_bytes.
Qed.

Lemma swap_involutive n z :
  le_join (rev (le_split n (le_join (rev (le_split n z))))) = z mod 256 ^ Z.of_nat n.
Proof.
  rewrite <-(length_le_split n z) at 1. rewrite <-length_rev, le_split_join, rev_involutive.
  - apply le_join_split.
  - apply Forall_rev, le_split_bytes.
Qed.

Lemma bswap16_range x : is_u16 (bswap16 x).
Proof. apply (swap_range 2). Qed.

Lemma bswap32_range x : is_u32 (bswap32 x).
Proof. apply (swap_range 4). Qed.

Lemma bswap16_involutive x : is_u16 x -> bswap16 (bswap16 x) = x.
Proof. intros. unfold bswap16. rewrite swap_involutive. by apply Z.mod_small. Qed.

Lemma bswap32_involutive x : is_u32 x -> bswap32 (bswap32 x) = x.
Proof. intros. unfold bswap32. rewrite swap_involutive. by apply Z.mod_small. Qed.

Lemma land_pow2 z n : 0 <= n -> Z.land z (2 ^ n) = 0 <-> Z.testbit z n = false.
Proof.
  intros Hn. split.
  - intros H. apply (f_equal (fun y => Z.testbit y n)) in H.
    rewrite Z.land_spec, Z.pow2_bits_true, Z.bits_0, andb_true_r in H by done. done.
  - intros H. apply Z.bits_inj'. intros i Hi. rewrite Z.land_spec, Z.bits_0, Z.pow2_bits_eqb by done.
    destruct (Z.eqb_spec n i) as [<-|]; [by rewrite H | by rewrite andb_false_r].
Qed.

#[export] Hint Resolve bswap32_range u8_range u16_range u32_range u64_range bswap16_range : dp.

(** ** Lemmas on lists *)

(** First index from [i] on at which [P] holds: the shape of every
    linear scan over a fixed array in the sources. *)

Fixpoint find_index {A} (P : A -> bool) (l : list A) : option nat :=
  match l with
  | [] => None
  | x :: l' => if P x then Some 0%nat else S <$> find_index P l'
  end.

Lemma find_index_Some {A} (P : A -> bool) l i :
  find_index P l = Some i ->
  exists x, l !! i = Some x /\ P x = true
            /\ forall j y, (j < i)%nat -> l !! j = Some y -> P y = false.
Proof.
  revert i; induction l as [|x l IH]; intros i Hf; [done|]; cbn in Hf.
  destruct (P x) eqn:Hx; simplify_eq/=.
  - exists x; split_and!; [done..|]. intros; lia.
  - apply fmap_Some in Hf as (j & Hj & ->).
    destruct (IH j Hj) as (y & Hy & HP & Hmin); exists y; split_and!; [done..|].
    intros [|k] z Hk Hz; simplify_eq/=; [done|]. apply (Hmin k); [lia|done].
Qed.

Lemma find_index_None {A} (P : A -> bool) l :
  find_index P l = None <-> forall x, x ∈ l -> P x = false.
Proof.
  induction l as [|x l IH]; cbn.
  - split; [intros _ x Hx; by apply elem_of_nil in Hx | done].
  - destruct (P x) eqn:Hx.
    + split; [done|]. intros H; rewrite H in Hx; [done | apply elem_of_cons; by left].
    + rewrite fmap_None, IH. setoid_rewrite elem_of_cons. naive_solver.
Qed.

Lemma length_omap_le {A B} (f : A -> option B) (l : list A) :
  (length (omap f l) <= length l)%nat.
Proof. induction l as [|x l IH]; cbn; [done|]. destruct (f x); cbn; lia. Qed.

Lemma NoDup_take {A} n (l : list A) : NoDup l -> NoDup (take n l).
Proof. intros H. eapply sublist_NoDup; [exact H | apply sublist_take]. Qed.

Lemma take_subset {A} n (l : list A) x : x ∈ take n l -> x ∈ l.
Proof. intros (i & Hi & _)%elem_of_take. by eapply list_elem_of_lookup_2. Qed.

Lemma Forall2_elem_of_r {A B} (P : A -> B -> Prop) l k y :
  Forall2 P l k -> y ∈ k -> exists x, x ∈ l /\ P x y.
Proof.
  intros HF (i & Hi)%list_elem_of_lookup. destruct (Forall2_lookup_r _ _ _ _ _ HF Hi) as (x & Hx & ?).
  exists x. split; [by eapply list_elem_of_lookup_2 | done].
Qed.

Lemma drop_subset {A} n (l : list A) x : x ∈ drop n l -> x ∈ l.
Proof. intros H. rewrite <-(take_drop n l). apply elem_of_app. by right. Qed.

(** ** Stateful code

    A C function over a state [S] either returns a value and the new state, or
    has undefined behaviour ([None]): it follows a pointer to an object that
    is not live, frees one twice, or indexes an array past its end.  That a
    function returns is therefore a theorem about its memory safety. *)

Definition M (S A : Type) : Type := S -> option (A * S).

#[export] Instance M_ret {S} : MRet (M S) := fun A a s => Some (a, s).
#[export] Instance M_bind {S} : MBind (M S) := fun A B f m s =>
  match m s with
  | Some (a, s') => f a s'
  | None => None
  end.

Definition gets {S A} (f : S -> A) : M S A := fun s => Some (f s, s).
Definition modify {S} (f : S -> S) : M S unit := fun s => Some (tt, f s).
Definition ub {S A} : M S A := fun _ => None.
Definition get_some {S A} (o : option A) : M S A :=
  match o with Some a => mret a | None => ub end.

Lemma M_bind_Some {S A B} (f : A -> M S B) (m : M S A) s a s' :
  m s = Some (a, s') -> mbind f m s = f a s'.
Proof. unfold mbind, M_bind. by intros ->. Qed.

Ltac m_unfold := unfold gets, modify, get_some, ub, mbind, M_bind, mret, M_ret.

Lemma M_bind_inv {S A B} (f : A -> M S B) (m : M S A) s r :
  mbind f m s = Some r -> exists a s', m s = Some (a, s') /\ f a s' = Some r.
Proof. unfold mbind, M_bind. destruct (m s) as [[a s']|]; [|done]. eauto. Qed.

(** Programs that leave the state as it is. *)
Definition reads {S A} (p : M S A) : Prop := forall s a s', p s = Some (a, s') -> s' = s.

Lemma reads_ret {S A} (a : A) : reads (S := S) (mret a).
Proof. by intros s b s' [= _ ->]. Qed.

Lemma reads_gets {S A} (f : S -> A) : reads (gets f).
Proof. by intros s b s' [= _ ->]. Qed.

Lemma reads_get_some {S A} (o : option A) : reads (S := S) (get_some o).
Proof. destruct o; [apply reads_ret | done]. Qed.

Lemma reads_bind {S A B} (f : A -> M S B) (m : M S A) :
  reads m -> (forall a, reads (f a)) -> reads (mbind f m).
Proof.
  intros Hm Hf s b s' (a & s1 & Ha & Hb)%M_bind_inv. apply Hm in Ha as ->. by apply Hf in Hb.
Qed.

Lemma reads_if {S A} (b : bool) (p q : M S A) : reads p -> reads q -> reads (if b then p else q).
Proof. by destruct b. Qed.

#[export] Hint Resolve reads_ret reads_gets reads_get_some reads_bind reads_if : reads.

(** Takes a successful run apart, one statement at a time. *)
Ltac m_inv H :=
  lazymatch type of H with
  | mbind _ _ _ = Some _ =>
      let a := fresh "a" in let s := fresh "s" in let Ha := fresh "Ha" in
      apply M_bind_inv in H as (a & s & Ha & H); m_inv Ha; m_inv H
  | mret _ _ = Some _ => injection H as <- <- || injection H as H || idtac
  | gets _ _ = Some _ => injection H as <- <- || injection H as H || idtac
  | modify _ _ = Some _ => injection H as <- <- || idtac
  | get_some ?o _ = Some _ =>
      let E := fresh "E" in destruct o eqn:E; [injection H as <- <- || injection H as H | discriminate H]
  | _ => idtac
  end.

(** Programs that return from every state of [P], into [P]. *)
Definition runs {S A} (P : S -> Prop) (p : M S A) : Prop :=
  forall s, P s -> exists a s', p s = Some (a, s') /\ P s'.

Lemma runs_ret {S A} (P : S -> Prop) (a : A) : runs P (mret a).
Proof. intros s Hs. by exists a, s. Qed.

Lemma runs_gets {S A} (P : S -> Prop) (f : S -> A) : runs P (gets f).
Proof. intros s Hs. by exists (f s), s. Qed.

Lemma runs_modify {S} (P : S -> Prop) (f : S -> S) : (forall s, P s -> P (f s)) -> runs P (modify f).
Proof. intros Hf s Hs. exists tt, (f s). auto. Qed.

Lemma runs_bind {S A B} (P : S -> Prop) (f : A -> M S B) (m : M S A) :
  runs P m -> (forall a, runs P (f a)) -> runs P (mbind f m).
Proof.
  intros Hm Hf s Hs. destruct (Hm s Hs) as (a & s' & Ha & Hs'). unfold mbind, M_bind. rewrite Ha. by apply Hf.
Qed.

Lemma runs_if {S A} (P : S -> Prop) (b : bool) (p q : M S A) :
  runs P p -> runs P q -> runs P (if b then p else q).
Proof. by destruct b. Qed.

#[export] Hint Resolve runs_ret runs_gets runs_modify runs_bind runs_if : runs.

(** Programs that leave the part [f] of the state as it is. *)
Definition preserves {S A B} (f : S -> B) (p : M S A) : Prop :=
  forall s a s', p s = Some (a, s') -> f s' = f s.

Lemma preserves_reads {S A B} (f : S -> B) (p : M S A) : reads p -> preserves f p.
Proof. intros Hp s a s' H. by rewrite (Hp _ _ _ H). Qed.

Lemma preserves_ret {S A B} (f : S -> B) (a : A) : preserves f (mret a).
Proof. apply preserves_reads, reads_ret. Qed.

Lemma preserves_gets {S A B} (f : S -> B) (g : S -> A) : preserves f (gets g).
Proof. apply preserves_reads, reads_gets. Qed.

Lemma preserves_get_some {S A B} (f : S -> B) (o : option A) : preserves f (get_some o).
Proof. apply preserves_reads, reads_get_some. Qed.

Lemma preserves_modify {S B} (f : S -> B) (g : S -> S) : (forall s, f (g s) = f s) -> preserves f (modify g).
Proof. by intros Hg s a s' [= _ <-]. Qed.

Lemma preserves_bind {S A B C} (f : S -> C) (g : A -> M S B) (m : M S A) :
  preserves f m -> (forall a, preserves f (g a)) -> preserves f (mbind g m).
Proof.
  intros Hm Hg s b s' (a & s1 & Ha & Hb)%M_bind_inv. by rewrite (Hg _ _ _ _ Hb), (Hm _ _ _ Ha).
Qed.

Lemma preserves_if {S A B} (f : S -> B) (b : bool) (p q : M S A) :
  preserves f p -> preserves f q -> preserves f (if b then p else q).
Proof. by destruct b. Qed.

#[export] Hint Resolve preserves_ret preserves_gets preserves_get_some preserves_modify preserves_bind
  preserves_if : preserves.

(** Total correctness: from a state in [P] the program returns a value and a
    state related by [Q]. *)
Definition hoare {S A} (P : S -> Prop) (p : M S A) (Q : A -> S -> Prop) : Prop :=
  forall s, P s -> exists a s', p s = Some (a, s') /\ Q a s'.

Lemma hoare_ret {S A} (P : S -> Prop) (a : A) (Q : A -> S -> Prop) :
  (forall s, P s -> Q a s) -> hoare P (mret a) Q.
Proof. intros H s Hs. exists a, s. auto. Qed.

Lemma hoare_gets {S A} (P : S -> Prop) (f : S -> A) (Q : A -> S -> Prop) :
  (forall s, P s -> Q (f s) s) -> hoare P (gets f) Q.
Proof. intros H s Hs. exists (f s), s. auto. Qed.

Lemma hoare_modify {S} (P : S -> Prop) (f : S -> S) (Q : unit -> S -> Prop) :
  (forall s, P s -> Q tt (f s)) -> hoare P (modify f) Q.
Proof. intros H s Hs. exists tt, (f s). auto. Qed.

Lemma hoare_get_some {S A} (P : S -> Prop) (o : option A) (Q : A -> S -> Prop) :
  (forall s, P s -> exists a, o = Some a /\ Q a s) -> hoare P (get_some o) Q.
Proof. intros H s Hs. destruct (H s Hs) as (a & -> & Ha). by exists a, s. Qed.

Lemma hoare_bind {S A B} (P : S -> Prop) (R : A -> S -> Prop) (Q : B -> S -> Prop)
    (f : A -> M S B) (m : M S A) :
  hoare P m R -> (forall a, hoare (R a) (f a) Q) -> hoare P (mbind f m) Q.
Proof.
  intros Hm Hf s Hs. destruct (Hm s Hs) as (a & s' & Ha & HR). unfold mbind, M_bind. rewrite Ha. by apply Hf.
Qed.

Lemma hoare_weaken {S A} (P P' : S -> Prop) (Q Q' : A -> S -> Prop) (p : M S A) :
  hoare P' p Q' -> (forall s, P s -> P' s) -> (forall a s, Q' a s -> Q a s) -> hoare P p Q.
Proof. intros H HP HQ s Hs. destruct (H s (HP s Hs)) as (a & s' & ? & ?). eauto. Qed.

(** A precondition that does not mention the state may be assumed. *)
Lemma hoare_pure {S A} (P : S -> Prop) (X : Prop) (Q : A -> S -> Prop) (p : M S A) :
  (X -> hoare P p Q) -> hoare (fun s => X /\ P s) p Q.
Proof. intros H s [HX Hs]. by apply H. Qed.
