(* ===== verification/Errors.v ===== *)
(** Return codes: the model of [include/dp_error.h].

    A return value is an [int]; a negative one is a failure.  The numeric
    base of dpservice's own codes, [RTE_MAX_ERRNO], is a constant of DPDK and
    hence a parameter; what dpservice relies on is that it lies above every
    [errno] value, so that the three ranges (errno, [DP_ERROR], gRPC codes) do
    not meet. *)

From S2P Require Import Prelude.

(** [errno] values of the C library (Linux). *)
Definition ENOENT : Z := 2.
Definition ENOMEM : Z := 12.
Definition EEXIST : Z := 17.
Definition EINVAL : Z := 22.
Definition ENOSPC : Z := 28.

Class RteErrno := {
  RTE_MAX_ERRNO : Z;
  rte_max_errno_above : 134 <= RTE_MAX_ERRNO
}.

Definition DP_OK : Z := 0.
Definition DP_FAILED (ret : Z) : bool := ret <? 0.
Definition DP_SUCCESS (ret : Z) : bool := negb (DP_FAILED ret).

Inductive grpc_err :=
| BAD_REQUEST
| NOT_FOUND | ALREADY_EXISTS | WRONG_TYPE | BAD_IPVER | NO_VM | NO_VNI | ITERATOR
| OUT_OF_MEMORY | LIMIT_REACHED | ALREADY_ACTIVE | NOT_ACTIVE | ROLLBACK
| RTE_RULE_ADD | RTE_RULE_DEL
| ROUTE_EXISTS | ROUTE_NOT_FOUND | ROUTE_INSERT | ROUTE_BAD_PORT | ROUTE_RESET
| DNAT_NO_DATA | DNAT_CREATE | DNAT_EXISTS
| SNAT_NO_DATA | SNAT_CREATE | SNAT_EXISTS
| VNI_INIT4 | VNI_INIT6 | VNI_FREE4 | VNI_FREE6
| PORT_START | PORT_STOP | PORT_METER
| VNF_INSERT | VM_HANDLE | VNF_DELETE
| NO_BACKIP | NO_LB | BACKIP_ADD | BACKIP_DEL
| NO_DROP_SUPPORT
| SA_EXISTS | SA_NOT_FOUND | SA_CREATE | SA_ALGO | SA_BAD_ADDR
| IPSEC_DISABLED | SA_REPLAY_WINDOW | SA_DIRECTION.

#[export] Instance grpc_err_eq_dec : EqDecision grpc_err.
Proof. solve_decision. Defined.

Definition grpc_err_number (e : grpc_err) : Z :=
  match e with
  | BAD_REQUEST => 101
  | NOT_FOUND => 201 | ALREADY_EXISTS => 202 | WRONG_TYPE => 203 | BAD_IPVER => 204
  | NO_VM => 205 | NO_VNI => 206 | ITERATOR => 207 | OUT_OF_MEMORY => 208
  | LIMIT_REACHED => 209 | ALREADY_ACTIVE => 210 | NOT_ACTIVE => 211
  | ROLLBACK => 212 | RTE_RULE_ADD => 213 | RTE_RULE_DEL => 214
  | ROUTE_EXISTS => 301 | ROUTE_NOT_FOUND => 302 | ROUTE_INSERT => 303
  | ROUTE_BAD_PORT => 304 | ROUTE_RESET => 305
  | DNAT_NO_DATA => 321 | DNAT_CREATE => 322 | DNAT_EXISTS => 323
  | SNAT_NO_DATA => 341 | SNAT_CREATE => 342 | SNAT_EXISTS => 343
  | VNI_INIT4 => 361 | VNI_INIT6 => 362 | VNI_FREE4 => 363 | VNI_FREE6 => 364
  | PORT_START => 381 | PORT_STOP => 382 | PORT_METER => 383
  | VNF_INSERT => 401 | VM_HANDLE => 402 | VNF_DELETE => 403
  | NO_BACKIP => 421 | NO_LB => 422 | BACKIP_ADD => 423 | BACKIP_DEL => 424
  | NO_DROP_SUPPORT => 441
  | SA_EXISTS => 461 | SA_NOT_FOUND => 462 | SA_CREATE => 463 | SA_ALGO => 464
  | SA_BAD_ADDR => 465 | IPSEC_DISABLED => 466 | SA_REPLAY_WINDOW => 467
  | SA_DIRECTION => 468
  end.

Section errors.
Context `{RteErrno}.

Definition DP_ERROR : Z := - RTE_MAX_ERRNO.
Definition _DP_GRPC_ERRCODES : Z := DP_ERROR - 1.

Definition DP_GRPC_ERR (e : grpc_err) : Z := _DP_GRPC_ERRCODES - grpc_err_number e.

(** The conversion asserts that it is given a gRPC code; [None] is a failed
    assertion. *)
Definition dp_errcode_to_grpc_errcode (dp_errcode : Z) : option Z :=
  if dp_errcode <? _DP_GRPC_ERRCODES
  then Some (- (dp_errcode - _DP_GRPC_ERRCODES))
  else None.

Lemma grpc_err_number_pos e : 101 <= grpc_err_number e <= 468.
Proof. destruct e; cbn; lia. Qed.

Lemma grpc_err_number_inj e1 e2 : grpc_err_number e1 = grpc_err_number e2 -> e1 = e2.
Proof. destruct e1, e2; cbn; intros; done || lia. Qed.

Lemma dp_error_negative : DP_ERROR < 0.
Proof. unfold DP_ERROR. pose proof rte_max_errno_above. lia. Qed.

Lemma dp_grpc_err_negative e : DP_GRPC_ERR e < 0.
Proof.
  unfold DP_GRPC_ERR, _DP_GRPC_ERRCODES.
  pose proof dp_error_negative. pose proof (grpc_err_number_pos e). lia.
Qed.

Lemma dp_failed_error : DP_FAILED DP_ERROR = true.
Proof. apply Z.ltb_lt, dp_error_negative. Qed.

Lemma dp_failed_grpc_err e : DP_FAILED (DP_GRPC_ERR e) = true.
Proof. apply Z.ltb_lt, dp_grpc_err_negative. Qed.

Lemma dp_grpc_err_inj e1 e2 : DP_GRPC_ERR e1 = DP_GRPC_ERR e2 -> e1 = e2.
Proof. unfold DP_GRPC_ERR; intros; apply grpc_err_number_inj; lia. Qed.

Lemma dp_grpc_err_not_ok e : DP_GRPC_ERR e <> DP_OK.
Proof. pose proof (dp_grpc_err_negative e). unfold DP_OK. lia. Qed.

Lemma dp_grpc_err_not_error e : DP_GRPC_ERR e <> DP_ERROR.
Proof.
  unfold DP_GRPC_ERR, _DP_GRPC_ERRCODES. pose proof (grpc_err_number_pos e). lia.
Qed.

End errors.

Create Rewrite HintDb dp.
#[export] Hint Rewrite @dp_failed_error @dp_failed_grpc_err : dp.
#[export] Hint Resolve dp_grpc_err_not_ok dp_grpc_err_not_error : dp.

(** DPDK's value, used to evaluate the definitions on concrete inputs. *)
Lemma dpdk_errno_above : 134 <= 1003.
Proof. lia. Qed.

Definition dpdk_errno : RteErrno :=
  {| RTE_MAX_ERRNO := 1003; rte_max_errno_above := dpdk_errno_above |}.
