(* ===== verification/RteHash.v ===== *)
(** The interface of DPDK's [rte_hash], the table behind every map of
    dpservice ([dp_create_jhash_table] in [src/dp_util.c]).

    [rte_hash] is not part of the sources, so its operations are the fields of
    a class and what the components rely on are the laws of that class, taken
    from DPDK's documentation of each call: a lookup gives the stored data or
    [-ENOENT]; an add inserts or overwrites, or fails with [-ENOSPC] and changes nothing; a
    delete frees the position of a present key and leaves every other position
    alone; the iterator visits the occupied positions in increasing order and
    its cursor is one past the position it returned.

    [slot_hash] is a fixed-capacity implementation that satisfies the laws; it
    is what the components are evaluated with. *)

From S2P Require Import Prelude Errors.

(** The entry an iteration starting at cursor [i] stops at. *)
Fixpoint first_entry {A} (l : list (option A)) (i : nat) : option (A * nat) :=
  match l with
  | [] => None
  | o :: l' =>
      match i with
      | O => match o with
             | Some a => Some (a, 1%nat)
             | None => prod_map id S <$> first_entry l' 0
             end
      | S i' => prod_map id S <$> first_entry l' i'
      end
  end.

Definition slot_entries {K V} (l : list (option (K * V))) : list (K * V) := omap id l.

Class RteHash (K V : Type) `{Countable K} := {
  rte_hash : Type;
  rte_hash_lookup_data : rte_hash -> K -> Z + V;
  rte_hash_add_key_data : rte_hash -> K -> V -> Z * rte_hash;
  rte_hash_del_key : rte_hash -> K -> Z * rte_hash;
  rte_hash_iterate : rte_hash -> nat -> option (K * V * nat);
  rte_hash_count : rte_hash -> Z;
  rte_hash_hash : rte_hash -> K -> Z;
  hash_slots : rte_hash -> list (option (K * V));
  hash_slots_unique t : NoDup (slot_entries (hash_slots t)).*1;
  hash_lookup_law t k :
    rte_hash_lookup_data t k
    = match (list_to_map (slot_entries (hash_slots t)) : gmap K V) !! k with
      | Some v => inr v
      | None => inl (- ENOENT)
      end;
  hash_add_law t k v :
    let '(r, t') := rte_hash_add_key_data t k v in
    let m := list_to_map (slot_entries (hash_slots t)) : gmap K V in
    let m' := list_to_map (slot_entries (hash_slots t')) : gmap K V in
    (r = 0 /\ m' = <[k := v]> m) \/ (r = - ENOSPC /\ m' = m /\ m !! k = None);
  hash_del_present_law t k v i :
    hash_slots t !! i = Some (Some (k, v)) ->
    let '(r, t') := rte_hash_del_key t k in
    0 <= r /\ hash_slots t' = <[i := None]> (hash_slots t);
  hash_del_absent_law t k :
    (list_to_map (slot_entries (hash_slots t)) : gmap K V) !! k = None ->
    rte_hash_del_key t k = (- ENOENT, t);
  hash_iterate_law t i : rte_hash_iterate t i = first_entry (hash_slots t) i;
  hash_count_law t : rte_hash_count t = Z.of_nat (length (slot_entries (hash_slots t)));
  hash_hash_range t k : is_u32 (rte_hash_hash t k)
}.

Arguments rte_hash K V {_ _ _}.

Section view.
Context `{RH : RteHash K V}.

(** What a table stores, as a finite map. *)
Definition hash_view (t : rte_hash K V) : gmap K V :=
  list_to_map (slot_entries (hash_slots t)).

Lemma hash_lookup_Some t k v :
  rte_hash_lookup_data t k = inr v <-> hash_view t !! k = Some v.
Proof.
  rewrite hash_lookup_law. fold (hash_view t).
  destruct (hash_view t !! k); naive_solver.
Qed.

Lemma hash_lookup_view t k :
  rte_hash_lookup_data t k
  = match hash_view t !! k with Some v => inr v | None => inl (- ENOENT) end.
Proof. apply hash_lookup_law. Qed.

Lemma hash_add_view t k v r t' :
  rte_hash_add_key_data t k v = (r, t') ->
  (r = 0 /\ hash_view t' = <[k := v]> (hash_view t))
  \/ (r < 0 /\ hash_view t' = hash_view t /\ hash_view t !! k = None).
Proof.
  intros Ha. pose proof (hash_add_law t k v) as Hl. rewrite Ha in Hl.
  destruct Hl as [?|(-> & ? & ?)]; [by left | right; by unfold ENOSPC].
Qed.

(** The same in the form the error handling of the components needs. *)
Lemma hash_add_cases t k v :
  let '(r, t') := rte_hash_add_key_data t k v in
  (r = 0 /\ DP_FAILED r = false /\ hash_view t' = <[k := v]> (hash_view t))
  \/ (r = - ENOSPC /\ DP_FAILED r = true /\ hash_view t' = hash_view t /\ hash_view t !! k = None).
Proof.
  pose proof (hash_add_law t k v) as Hl. destruct (rte_hash_add_key_data t k v) as [r t'].
  destruct Hl as [[-> ?]|(-> & ? & ?)]; [by left | by right].
Qed.

Lemma slot_lookup_view t k v :
  hash_view t !! k = Some v <-> exists i, hash_slots t !! i = Some (Some (k, v)).
Proof.
  unfold hash_view. rewrite <-elem_of_list_to_map by apply hash_slots_unique.
  unfold slot_entries. rewrite list_elem_of_omap. setoid_rewrite list_elem_of_lookup.
  split; [intros (x & [i Hi] & Hx); simpl in Hx; subst; eauto | intros [i Hi]; eauto].
Qed.
End view.

Lemma slot_entries_insert_None {K V} (l : list (option (K * V))) i k v :
  l !! i = Some (Some (k, v)) ->
  slot_entries l ≡ₚ (k, v) :: slot_entries (<[i := None]> l).
Proof.
  revert i; induction l as [|o l IH]; intros [|i] Hi; simplify_eq/=.
  - done.
  - destruct o as [p|]; cbn; rewrite (IH i Hi); [apply Permutation_swap | done].
Qed.

Lemma first_entry_spec {A} (l : list (option A)) i a j :
  first_entry l i = Some (a, j) ->
  exists p, j = S p /\ (i <= p)%nat /\ l !! p = Some (Some a)
            /\ forall q, (i <= q < p)%nat -> l !! q = Some None.
Proof.
  revert i a j; induction l as [|o l IH]; intros [|i] a j Hf; simplify_eq/=.
  - destruct o as [b|]; simplify_eq/=.
    + exists 0%nat; split_and!; [done..|]. lia.
    + apply fmap_Some in Hf as ([b j'] & Hf & ?); simplify_eq/=.
      destruct (IH _ _ _ Hf) as (p & -> & ? & Hp & Hq).
      exists (S p); split_and!; [done|lia|done|].
      intros [|q] ?; [done|]. apply Hq; lia.
  - apply fmap_Some in Hf as ([b j'] & Hf & ?); simplify_eq/=.
    destruct (IH _ _ _ Hf) as (p & -> & ? & Hp & Hq).
    exists (S p); split_and!; [done|lia|done|].
    intros [|q] ?; [lia|]. apply Hq; lia.
Qed.

Lemma first_entry_None {A} (l : list (option A)) i :
  first_entry l i = None <-> forall p a, (i <= p)%nat -> l !! p <> Some (Some a).
Proof.
  revert i; induction l as [|o l IH]; intros i; [cbn; done|].
  destruct i as [|i]; cbn.
  - destruct o as [b|].
    + split; [done|]. intros Hn; exfalso; apply (Hn 0%nat b); [lia|done].
    + rewrite fmap_None, IH. split.
      * intros Hn [|p] a ?; cbn; [done|]. apply Hn; lia.
      * intros Hn p a ?. apply (Hn (S p)); lia.
  - rewrite fmap_None, IH. split.
    + intros Hn [|p] a ?; cbn; [lia|]. apply Hn; lia.
    + intros Hn p a ?. apply (Hn (S p)); lia.
Qed.

Section view2.
Context `{RH : RteHash K V}.

Lemma hash_del_present t k v :
  hash_view t !! k = Some v ->
  exists r t', rte_hash_del_key t k = (r, t') /\ 0 <= r
               /\ hash_view t' = delete k (hash_view t).
Proof.
  intros Hk. pose proof Hk as [i Hi]%slot_lookup_view.
  pose proof (hash_del_present_law t k v i Hi) as Hd.
  destruct (rte_hash_del_key t k) as [r t'] eqn:Hdel. destruct Hd as [Hr Hs].
  exists r, t'; split_and!; [done..|].
  unfold hash_view. rewrite Hs.
  pose proof (hash_slots_unique t) as Hnd.
  pose proof (slot_entries_insert_None _ _ _ _ Hi) as Hp.
  rewrite (list_to_map_proper _ _ Hnd Hp).
  rewrite Hp in Hnd. apply NoDup_cons in Hnd as [Hnin _].
  cbn. symmetry. apply delete_insert_id. by apply not_elem_of_list_to_map_1.
Qed.

Lemma hash_del_absent t k :
  hash_view t !! k = None -> rte_hash_del_key t k = (- ENOENT, t).
Proof. apply hash_del_absent_law. Qed.

Lemma hash_del_view t k r t' :
  rte_hash_del_key t k = (r, t') ->
  hash_view t' = delete k (hash_view t)
  /\ (0 <= r <-> is_Some (hash_view t !! k)).
Proof.
  intros Hd. destruct (hash_view t !! k) as [v|] eqn:Hk.
  - destruct (hash_del_present t k v Hk) as (r' & t'' & Hd' & ? & ?).
    rewrite Hd in Hd'; simplify_eq. naive_solver.
  - rewrite (hash_del_absent t k Hk) in Hd; simplify_eq.
    rewrite delete_id by done. split; [done|]. unfold ENOENT.
    split; [lia | intros [? ?]; done].
Qed.

Lemma hash_del_cases t k : is_Some (hash_view t !! k) ->
  let '(r, t') := rte_hash_del_key t k in DP_FAILED r = false /\ hash_view t' = delete k (hash_view t).
Proof.
  intros [v Hk]. destruct (hash_del_present t k v Hk) as (r & t' & -> & Hr & Hv). split; [|done].
  unfold DP_FAILED. by apply Z.ltb_ge.
Qed.

(** A write through the data pointer of a present entry: the table, which owns
    its data, holds the new contents. *)
Definition hash_poke (t : rte_hash K V) (k : K) (v : V) : rte_hash K V := snd (rte_hash_add_key_data t k v).

Lemma hash_poke_view t k v : is_Some (hash_view t !! k) -> hash_view (hash_poke t k v) = <[k := v]> (hash_view t).
Proof.
  intros [w Hw]. unfold hash_poke. destruct (rte_hash_add_key_data t k v) as [r t'] eqn:Ha.
  destruct (hash_add_view _ _ _ _ _ Ha) as [[_ Hv]|(_ & _ & Hv)]; [done | congruence].
Qed.

(** A loop that iterates over the table and deletes the entries [p] selects,
    as it comes across them. *)
Fixpoint sweep_loop (fuel : nat) (p : K -> V -> bool) (iter : nat) (t : rte_hash K V) : rte_hash K V :=
  match fuel with
  | O => t
  | S fuel' =>
      match rte_hash_iterate t iter with
      | None => t
      | Some (k, v, iter') => sweep_loop fuel' p iter' (if p k v then snd (rte_hash_del_key t k) else t)
      end
  end.

Definition hash_sweep (p : K -> V -> bool) (t : rte_hash K V) : rte_hash K V :=
  sweep_loop (S (length (hash_slots t))) p 0 t.

(** Deleting the entry at a position clears that position only. *)
Lemma hash_del_slot t i k v : hash_slots t !! i = Some (Some (k, v)) ->
  hash_slots (snd (rte_hash_del_key t k)) = <[i := None]> (hash_slots t).
Proof. intros Hi. pose proof (hash_del_present_law t k v i Hi) as Hl. by destruct (rte_hash_del_key t k) as [r t'] eqn:E; destruct Hl. Qed.

(** What is left of the positions when the entries from [iter] on that [p]
    selects are cleared. *)
Definition swept (p : K -> V -> bool) (iter : nat) (l : list (option (K * V))) : list (option (K * V)) :=
  imap (fun i o => match o with
                   | Some (k, v) => if (iter <=? i)%nat && p k v then None else o
                   | None => None
                   end) l.

Lemma swept_lookup p iter l i :
  swept p iter l !! i = (fun o => match o with
                                  | Some (k, v) => if (iter <=? i)%nat && p k v then None else o
                                  | None => None
                                  end) <$> l !! i.
Proof. apply list_lookup_imap. Qed.

(** Nothing is left to clear when no occupied position is left. *)
Lemma swept_done p iter l : first_entry l iter = None \/ (length l <= iter)%nat -> swept p iter l = l.
Proof.
  intros Hd. apply list_eq. intros i. rewrite swept_lookup.
  destruct (l !! i) as [[[k v]|]|] eqn:Hi; cbn; try done.
  destruct (decide (i < iter)%nat); [rewrite (proj2 (Nat.leb_gt _ _)) by lia; done|].
  destruct Hd as [Hf|Hl]; [|apply lookup_lt_Some in Hi; lia].
  destruct (proj1 (first_entry_None _ _) Hf i (k, v)); [lia | done].
Qed.

(** One step: the entry found is cleared or kept, and the rest follows. *)
Lemma swept_step p iter l k v q : first_entry l iter = Some (k, v, S q) ->
  swept p iter l = swept p (S q) (if p k v then <[q := None]> l else l).
Proof.
  intros Hf. destruct (first_entry_spec _ _ _ _ Hf) as (q' & Hq' & Hle & Hq & Hskip). injection Hq' as <-.
  apply list_eq. intros i. rewrite !swept_lookup. destruct (decide (i = q)) as [->|Hne].
  - assert ((S q <=? q)%nat = false) as Hlt by (apply Nat.leb_gt; lia). rewrite Hq. cbn [fmap option_fmap option_map].
    rewrite (proj2 (Nat.leb_le iter q)), Hlt by lia. cbn. destruct (p k v).
    + by rewrite list_lookup_insert_eq by (by eapply lookup_lt_Some).
    + by rewrite Hq.
  - assert ((if p k v then <[q := None]> l else l) !! i = l !! i) as ->.
    { destruct (p k v); [|done]. by rewrite list_lookup_insert_ne. }
    destruct (l !! i) as [[[k' v']|]|] eqn:Hi; cbn [fmap option_fmap option_map]; try done.
    destruct (decide (i < iter)%nat); [rewrite !(proj2 (Nat.leb_gt _ _)) by lia; done|].
    destruct (decide (i < q)%nat); [by rewrite Hskip in Hi by lia|].
    rewrite !(proj2 (Nat.leb_le _ _)) by lia. done.
Qed.

Lemma swept_view p t t' : hash_slots t' = swept p 0 (hash_slots t) ->
  hash_view t' = filter (fun kv => p kv.1 kv.2 = false) (hash_view t).
Proof.
  intros Hs. apply map_eq. intros k. apply option_eq. intros v. rewrite map_lookup_filter_Some, !slot_lookup_view, Hs.
  setoid_rewrite swept_lookup. split.
  - intros [i Hi]. destruct (hash_slots t !! i) as [[[k' v']|]|] eqn:Hl; cbn in Hi; try done.
    destruct (p k' v') eqn:Hp; [done|]. simplify_eq. eauto.
  - intros [[i Hi] Hp]. exists i. rewrite Hi. cbn. cbn in Hp. by rewrite Hp.
Qed.

Lemma sweep_loop_slots p fuel : forall iter t, (length (hash_slots t) < iter + fuel)%nat ->
  hash_slots (sweep_loop fuel p iter t) = swept p iter (hash_slots t).
Proof.
  induction fuel as [|fuel IH]; intros iter t Hlen; cbn.
  { symmetry. apply swept_done. right. lia. }
  rewrite hash_iterate_law. destruct (first_entry (hash_slots t) iter) as [[[k v] j]|] eqn:Hf;
    [|symmetry; apply swept_done; by left].
  destruct (first_entry_spec _ _ _ _ Hf) as (q & -> & Hle & Hq & _).
  assert (hash_slots (if p k v then snd (rte_hash_del_key t k) else t)
          = if p k v then <[q := None]> (hash_slots t) else hash_slots t) as Hs.
  { destruct (p k v); [by apply hash_del_slot with v | done]. }
  rewrite IH; [|rewrite Hs; destruct (p k v); rewrite ?length_insert; lia].
  rewrite Hs. symmetry. by apply swept_step.
Qed.

Lemma hash_sweep_view p t : hash_view (hash_sweep p t) = filter (fun kv => p kv.1 kv.2 = false) (hash_view t).
Proof. apply swept_view. unfold hash_sweep. rewrite sweep_loop_slots by lia. done. Qed.
End view2.

(** ** A concrete table *)

Section slot_hash.
Context `{Countable K} {V : Type} (hashf : K -> Z).

Definition slots_ok (l : list (option (K * V))) : Prop := NoDup (slot_entries l).*1.

Definition slot_tbl : Type := dsig slots_ok.

Definition is_key (k : K) (o : option (K * V)) : bool :=
  match o with Some (k', _) => bool_decide (k' = k) | None => false end.

Definition is_hole (o : option (K * V)) : bool :=
  match o with None => true | Some _ => false end.

Definition slot_lookup (l : list (option (K * V))) (k : K) : option V :=
  i ← find_index (is_key k) l; o ← l !! i; (snd <$> (o : option (K * V))).

Definition slot_set (l : list (option (K * V))) (k : K) (v : V) :
  option (list (option (K * V))) :=
  match find_index (is_key k) l with
  | Some i => Some (<[i := Some (k, v)]> l)
  | None => (fun i => <[i := Some (k, v)]> l) <$> find_index is_hole l
  end.

Definition slot_clear (l : list (option (K * V))) (k : K) :
  option (nat * list (option (K * V))) :=
  (fun i => (i, <[i := None]> l)) <$> find_index (is_key k) l.

Lemma slot_clear_NoDup l k i l' :
  slots_ok l -> slot_clear l k = Some (i, l') -> slots_ok l'.
Proof.
  unfold slot_clear, slots_ok. intros Hok (j & Hj & ?)%fmap_Some; simplify_eq.
  apply find_index_Some in Hj as ([[k' v]|] & Hl & Hk & _); [|done].
  rewrite (slot_entries_insert_None _ _ _ _ Hl) in Hok.
  by apply NoDup_cons in Hok as [_ ?].
Qed.

Lemma slot_entries_insert_Some (l : list (option (K * V))) i o k v :
  l !! i = Some o ->
  slot_entries (<[i := Some (k, v)]> l) ≡ₚ (k, v) :: slot_entries (<[i := None]> l).
Proof.
  revert i; induction l as [|o' l IH]; intros [|i] Hi; simplify_eq/=; [done|].
  destruct o' as [p|]; cbn; rewrite (IH i Hi); [apply Permutation_swap | done].
Qed.

Lemma insert_hole_id (l : list (option (K * V))) i :
  l !! i = Some None -> <[i := None]> l = l.
Proof. apply list_insert_id. Qed.

Lemma is_key_absent l k :
  find_index (is_key k) l = None -> k ∉ (slot_entries l).*1.
Proof.
  rewrite find_index_None. intros Hn Hin.
  apply list_elem_of_fmap in Hin as ([k' v] & ? & Hin); simplify_eq/=.
  apply list_elem_of_omap in Hin as (o & Ho & Hid); simpl in Hid; subst.
  specialize (Hn _ Ho). cbn in Hn. by rewrite bool_decide_eq_false in Hn.
Qed.

(** The slot an add writes, and what the rest of the array holds. *)
Lemma slot_set_spec l k v l' :
  slots_ok l -> slot_set l k v = Some l' ->
  exists rest, slot_entries l' ≡ₚ (k, v) :: rest /\ (k ∉ rest.*1) /\ NoDup (rest.*1)
    /\ (slot_entries l ≡ₚ rest \/ exists v0, slot_entries l ≡ₚ (k, v0) :: rest).
Proof.
  unfold slots_ok, slot_set. intros Hok Hs. destruct (find_index _ l) as [i|] eqn:Hf; simplify_eq.
  - apply find_index_Some in Hf as ([[k' v0]|] & Hl & Hk & _); [|done].
    cbn in Hk; bools; subst k'. exists (slot_entries (<[i:=None]> l)).
    pose proof (slot_entries_insert_None _ _ _ _ Hl) as Hp. rewrite Hp in Hok.
    apply NoDup_cons in Hok as [Hk Hnd].
    split_and!; [by eapply slot_entries_insert_Some | done | done | eauto].
  - apply fmap_Some in Hs as (i & Hi & ->).
    apply find_index_Some in Hi as (o & Hl & Hh & _); destruct o; [done|].
    exists (slot_entries l). rewrite (slot_entries_insert_Some _ _ _ _ _ Hl), insert_hole_id by done.
    split_and!; [done | by apply is_key_absent | done | by left].
Qed.

Lemma slot_set_NoDup l k v l' : slots_ok l -> slot_set l k v = Some l' -> slots_ok l'.
Proof.
  intros Hok Hs. destruct (slot_set_spec _ _ _ _ Hok Hs) as (rest & Hp & Hk & Hnd & _).
  unfold slots_ok. rewrite Hp. by apply NoDup_cons.
Qed.

(** Keeps the table as it is where the new array would repeat a key, which
    [slot_set_NoDup] and [slot_clear_NoDup] exclude. *)
Definition slot_pack (t : slot_tbl) (r : Z) (l' : list (option (K * V))) : Z * slot_tbl :=
  match decide (slots_ok l') with
  | left Hok => (r, dexist l' Hok)
  | right _ => (- EINVAL, t)
  end.

Definition slot_add (t : slot_tbl) (k : K) (v : V) : Z * slot_tbl :=
  match slot_set (proj1_sig t) k v with
  | Some l' => slot_pack t 0 l'
  | None => (- ENOSPC, t)
  end.

Definition slot_del (t : slot_tbl) (k : K) : Z * slot_tbl :=
  match slot_clear (proj1_sig t) k with
  | Some (i, l') => slot_pack t (Z.of_nat i) l'
  | None => (- ENOENT, t)
  end.

Lemma slot_pack_ok t r l' :
  slots_ok l' -> exists Hok, slot_pack t r l' = (r, dexist l' Hok).
Proof. intros Hok. unfold slot_pack. destruct (decide _) as [H'|]; [by eexists | done]. Qed.

Lemma slot_lookup_map l k :
  slots_ok l -> slot_lookup l k = (list_to_map (slot_entries l) : gmap K V) !! k.
Proof.
  intros Hok. unfold slot_lookup. destruct (find_index (is_key k) l) as [i|] eqn:Hf; cbn.
  - apply find_index_Some in Hf as ([[k' v]|] & Hl & Hk & _); [|done].
    cbn in Hk; bools; subst. rewrite Hl; cbn. symmetry.
    apply elem_of_list_to_map; [done|]. apply list_elem_of_omap.
    exists (Some (k, v)). split; [by eapply list_elem_of_lookup_2|done].
  - symmetry. apply not_elem_of_list_to_map_1. by apply is_key_absent.
Qed.

Lemma slot_add_law t k v :
  let '(r, t') := slot_add t k v in
  let m := list_to_map (slot_entries (proj1_sig t)) : gmap K V in
  let m' := list_to_map (slot_entries (proj1_sig t')) : gmap K V in
  (r = 0 /\ m' = <[k := v]> m) \/ (r = - ENOSPC /\ m' = m /\ m !! k = None).
Proof.
  unfold slot_add. destruct (slot_set (proj1_sig t) k v) as [l'|] eqn:Hs.
  - pose proof (proj2_dsig t) as Hok.
    destruct (slot_pack_ok t 0 l' (slot_set_NoDup _ _ _ _ Hok Hs)) as [Hok' ->].
    left; split; [done|]; cbn.
    destruct (slot_set_spec _ _ _ _ Hok Hs) as (rest & Hp & Hk & Hr & Hl).
    rewrite (list_to_map_proper _ _ Hok' Hp); cbn.
    destruct Hl as [Hl|[v0 Hl]]; rewrite (list_to_map_proper _ _ Hok Hl); cbn; [done|].
    by rewrite insert_insert_eq.
  - right; split_and!; [done | done |].
    rewrite <-slot_lookup_map by apply proj2_dsig. unfold slot_set in Hs.
    unfold slot_lookup. by destruct (find_index (is_key k) (proj1_sig t)).
Qed.

Lemma slot_del_present t k v i :
  proj1_sig t !! i = Some (Some (k, v)) ->
  let '(r, t') := slot_del t k in
  0 <= r /\ proj1_sig t' = <[i := None]> (proj1_sig t).
Proof.
  intros Hi. unfold slot_del.
  destruct (slot_clear (proj1_sig t) k) as [[j l']|] eqn:Hc.
  - destruct (slot_pack_ok t (Z.of_nat j) l' (slot_clear_NoDup _ _ _ _ (proj2_dsig t) Hc)) as [Hok' ->].
    split; [lia|]; cbn. apply fmap_Some in Hc as (j' & Hj & ?); simplify_eq.
    apply find_index_Some in Hj as ([[k' v']|] & Hl & Hk & _); [|done].
    cbn in Hk; bools; subst. f_equal.
    destruct (decide (i = j')) as [->|Hne]; [done|].
    pose proof (proj2_dsig t) as Hok. unfold slots_ok in Hok.
    rewrite (slot_entries_insert_None _ _ _ _ Hl) in Hok.
    apply NoDup_cons in Hok as [Hnin _]. destruct Hnin.
    apply list_elem_of_fmap. exists (k, v); split; [done|]. apply list_elem_of_omap.
    exists (Some (k, v)); split; [|done]. apply (list_elem_of_lookup_2 _ i).
    by rewrite list_lookup_insert_ne.
  - apply fmap_None in Hc. rewrite find_index_None in Hc.
    specialize (Hc _ (list_elem_of_lookup_2 _ _ _ Hi)). cbn in Hc.
    by rewrite bool_decide_eq_false in Hc.
Qed.

Lemma slot_del_absent t k :
  (list_to_map (slot_entries (proj1_sig t)) : gmap K V) !! k = None ->
  slot_del t k = (- ENOENT, t).
Proof.
  rewrite <-slot_lookup_map by apply proj2_dsig. intros Hn.
  unfold slot_del.
  destruct (slot_clear (proj1_sig t) k) as [[j l']|] eqn:Hc; [|done].
  exfalso. apply fmap_Some in Hc as (j' & Hj & ?); simplify_eq.
  unfold slot_lookup in Hn. rewrite Hj in Hn; cbn in Hn.
  apply find_index_Some in Hj as ([[k' v']|] & Hl & Hk & _); [|done].
  by rewrite Hl in Hn.
Qed.

Lemma slot_unique (t : slot_tbl) : NoDup (slot_entries (proj1_sig t)).*1.
Proof. apply (proj2_dsig t). Qed.

Definition slot_lookup_data (t : slot_tbl) (k : K) : Z + V :=
  match slot_lookup (proj1_sig t) k with Some v => inr v | None => inl (- ENOENT) end.

Lemma slot_lookup_law (t : slot_tbl) k :
  slot_lookup_data t k
  = match (list_to_map (slot_entries (proj1_sig t)) : gmap K V) !! k with
    | Some v => inr v
    | None => inl (- ENOENT)
    end.
Proof. unfold slot_lookup_data. by rewrite slot_lookup_map by apply proj2_dsig. Qed.

Lemma slot_hash_range (t : slot_tbl) k : is_u32 (u32 (hashf k)).
Proof. apply u32_range. Qed.

Lemma slot_iterate_law (t : slot_tbl) i : first_entry (proj1_sig t) i = first_entry (proj1_sig t) i.
Proof. done. Qed.

Lemma slot_count_law (t : slot_tbl) :
  Z.of_nat (length (slot_entries (proj1_sig t))) = Z.of_nat (length (slot_entries (proj1_sig t))).
Proof. done. Qed.

Definition slot_hash : RteHash K V :=
  {| rte_hash := slot_tbl;
     rte_hash_lookup_data := slot_lookup_data;
     rte_hash_add_key_data := slot_add;
     rte_hash_del_key := slot_del;
     rte_hash_iterate t i := first_entry (proj1_sig t) i;
     rte_hash_count t := Z.of_nat (length (slot_entries (proj1_sig t)));
     rte_hash_hash t k := u32 (hashf k);
     hash_slots t := proj1_sig t;
     hash_slots_unique := slot_unique;
     hash_lookup_law := slot_lookup_law;
     hash_add_law := slot_add_law;
     hash_del_present_law := slot_del_present;
     hash_del_absent_law := slot_del_absent;
     hash_iterate_law := slot_iterate_law;
     hash_count_law := slot_count_law;
     hash_hash_range := slot_hash_range |}.

Lemma slots_empty_ok n : slots_ok (replicate n None).
Proof. unfold slots_ok. induction n; cbn; [constructor|done]. Qed.

(** An empty table of [n] positions. *)
Definition slot_empty (n : nat) : @rte_hash K V _ _ slot_hash :=
  dexist (replicate n None) (slots_empty_ok n).
End slot_hash.
