(* ===== verification/IpAddr.v ===== *)
(** IP addresses: the model of [include/dp_ipaddr.h] and [src/dp_ipaddr.c].

    [union dp_ipv6] is its two 64-bit words; every other member of the union is
    a view of these, computed with the byte order of a little-endian machine.
    [struct dp_ip_address] overlays an IPv4 address with the first four bytes
    of an IPv6 one. *)

From S2P Require Import Prelude Errors.

Record dp_ipv6 := mk_ipv6 { _prefix : Z; _suffix : Z }.

#[export] Instance dp_ipv6_eq_dec : EqDecision dp_ipv6.
Proof. solve_decision. Defined.

#[export] Instance dp_ipv6_countable : Countable dp_ipv6.
Proof.
  refine (inj_countable' (fun a => (_prefix a, _suffix a)) (fun p => mk_ipv6 p.1 p.2) _).
  by intros [].
Defined.

Definition ipv6_ok (a : dp_ipv6) : Prop := is_u64 (_prefix a) /\ is_u64 (_suffix a).

Definition ipv6_bytes (a : dp_ipv6) : list Z := le_split 8 (_prefix a) ++ le_split 8 (_suffix a).

Definition ipv6_of_bytes (bs : list Z) : dp_ipv6 :=
  mk_ipv6 (le_join (take 8 bs)) (le_join (take 8 (drop 8 bs))).

Definition dp_empty_ipv6 : dp_ipv6 :=
  ipv6_of_bytes [0; 0; 0; 0; 0; 0; 0; 0; 0; 0; 0; 0; 0; 0; 0; 0].
Definition dp_multicast_ipv6 : dp_ipv6 :=
  ipv6_of_bytes [0xff; 0x02; 0; 0; 0; 0; 0; 0; 0; 0; 0; 0; 0; 0; 0; 0x01].
Definition dp_nat64_prefix : dp_ipv6 :=
  ipv6_of_bytes [0x00; 0x64; 0xff; 0x9b; 0; 0; 0; 0; 0; 0; 0; 0; 0; 0; 0; 0].
Definition dp_nat64_mask : dp_ipv6 :=
  ipv6_of_bytes [0xff; 0xff; 0xff; 0xff; 0xff; 0xff; 0xff; 0xff; 0xff; 0xff; 0xff; 0xff; 0; 0; 0; 0].

Definition dp_is_ipv6_zero (a : dp_ipv6) : bool := (_prefix a =? 0) && (_suffix a =? 0).

Definition dp_ipv6_match (l r : dp_ipv6) : bool :=
  (_prefix l =? _prefix r) && (_suffix l =? _suffix r).

Definition dp_masked_ipv6_match (l r mask : dp_ipv6) : bool :=
  (Z.land (_prefix l) (_prefix mask) =? Z.land (_prefix r) (_prefix mask))
  && (Z.land (_suffix l) (_suffix mask) =? Z.land (_suffix r) (_suffix mask)).

(** [__builtin_popcountll] on a 64-bit word. *)
Definition popcount64 (x : Z) : Z :=
  foldr (fun i n => Z.b2z (Z.testbit x (Z.of_nat i)) + n) 0 (seq 0 64).

Definition dp_ipv6_popcount (a : dp_ipv6) : Z := popcount64 (_prefix a) + popcount64 (_suffix a).

Definition dp_is_ipv6_nat64 (a : dp_ipv6) : bool :=
  dp_masked_ipv6_match dp_nat64_prefix a dp_nat64_mask.

(** The member [_nat64.ipv4]: bytes 12 to 15. *)
Definition nat64_ipv4 (a : dp_ipv6) : Z := _suffix a / 2 ^ 32.
Definition set_nat64_ipv4 (a : dp_ipv6) (ipv4 : Z) : dp_ipv6 :=
  mk_ipv6 (_prefix a) (_suffix a mod 2 ^ 32 + ipv4 * 2 ^ 32).

Definition dp_set_ipv6_nat64 (ipv4 : Z) : dp_ipv6 := set_nat64_ipv4 dp_nat64_prefix ipv4.
Definition dp_get_ipv6_nat64 (a : dp_ipv6) : Z := nat64_ipv4 a.

(** ** Underlay addresses *)

Definition DP_UNDERLAY_FLAG_EXTERNALLY_GENERATED : Z := 0x80.
Definition DP_UNDERLAY_FLAG_SECONDARY_POOL : Z := 0x40.
Definition DP_UNDERLAY_ADDRESS_TYPE : Z := 0xd0.

(** The members of [_ul] past the prefix, as they lie in the second word. *)
Definition ul_suffix (type subtype flags random local : Z) : Z :=
  type + subtype * 2 ^ 8 + flags * 2 ^ 16 + random * 2 ^ 24 + local * 2 ^ 32.

Definition ul_local (a : dp_ipv6) : Z := _suffix a / 2 ^ 32.

(** The compile-time switches that the generator depends on. *)
Record ul_config := {
  ENABLE_UNDERLAY_TYPE : bool;
  ENABLE_STATIC_UNDERLAY_IP : bool
}.

(** [rand1] and [rand2] are the results of the calls to [rand()]; the static
    counter is returned along with the address. *)
Definition dp_generate_ul_ipv6 (cfg : ul_config) (underlay_ip : dp_ipv6)
    (rand1 rand2 : Z) (ul_counter addr_type : Z) : dp_ipv6 * Z :=
  let subtype := if ENABLE_UNDERLAY_TYPE cfg then addr_type else 0 in
  let '(random, ul_counter) :=
    if ENABLE_STATIC_UNDERLAY_IP cfg then (1, ul_counter)
    else (u8 (rand1 mod 256), if ul_counter =? 0 then rand2 mod 256 else ul_counter) in
  let ul_counter := u32 (ul_counter + 1) in
  (mk_ipv6 (_prefix underlay_ip)
     (ul_suffix DP_UNDERLAY_ADDRESS_TYPE subtype 0 random (htonl ul_counter)),
   ul_counter).

(** Byte 11 ([random]) keeps what the destination held. *)
Definition dp_generate_virtsvc_ul_ipv6 (underlay_ip dest : dp_ipv6) (index : Z) : dp_ipv6 :=
  mk_ipv6 (_prefix underlay_ip)
    (ul_suffix DP_UNDERLAY_ADDRESS_TYPE 0xff DP_UNDERLAY_FLAG_SECONDARY_POOL
       ((_suffix dest / 2 ^ 24) mod 256) index).

(** ** Dual-stack addresses *)

Record dp_ip_address := mk_ipaddr { ipv6 : dp_ipv6; is_v6 : bool }.

#[export] Instance dp_ip_address_eq_dec : EqDecision dp_ip_address.
Proof. solve_decision. Defined.

#[export] Instance dp_ip_address_countable : Countable dp_ip_address.
Proof.
  refine (inj_countable' (fun a => (ipv6 a, is_v6 a)) (fun p => mk_ipaddr p.1 p.2) _).
  by intros [].
Defined.

(** The member [ipv4] of the union. *)
Definition ipv4 (a : dp_ip_address) : Z := _prefix (ipv6 a) mod 2 ^ 32.

Section ipaddr.
Context `{RteErrno}.

Definition dp_ipv6_from_ipaddr (addr : dp_ip_address) : Z * option dp_ipv6 :=
  if is_v6 addr then (DP_OK, Some (ipv6 addr)) else (DP_ERROR, None).
End ipaddr.

Definition dp_copy_ipaddr (src : dp_ip_address) : dp_ip_address :=
  mk_ipaddr (mk_ipv6 (_prefix (ipv6 src)) (_suffix (ipv6 src))) (is_v6 src).
Definition dp_set_ipaddr6 (a : dp_ipv6) : dp_ip_address := mk_ipaddr a true.
Definition dp_set_ipaddr4 (ipv4 : Z) : dp_ip_address := mk_ipaddr (mk_ipv6 (u32 ipv4) 0) false.
Definition dp_set_ipaddr_nat64 (ipv4 : Z) : dp_ip_address :=
  mk_ipaddr (set_nat64_ipv4 dp_nat64_prefix ipv4) true.

(** ** Lemmas *)

Lemma dp_ipv6_match_spec l r : dp_ipv6_match l r = true <-> l = r.
Proof.
  unfold dp_ipv6_match. rewrite andb_true_iff, !Z.eqb_eq.
  destruct l, r; cbn; split; [intros [-> ->]; done | intros [=]; done].
Qed.

Lemma ipv6_bytes_roundtrip a : ipv6_ok a -> ipv6_of_bytes (ipv6_bytes a) = a.
Proof.
  intros [Hp Hs]. destruct a as [p s]; cbn [_prefix _suffix] in *. unfold ipv6_of_bytes, ipv6_bytes; cbn [_prefix _suffix].
  rewrite take_app_length', drop_app_length', take_ge by (rewrite length_le_split; lia).
  rewrite !le_join_split. f_equal; apply Z.mod_small; assumption.
Qed.

Lemma set_nat64_ipv4_get a v : is_u32 v -> nat64_ipv4 (set_nat64_ipv4 a v) = v.
Proof.
  unfold nat64_ipv4, set_nat64_ipv4, is_u32; cbn [_suffix]; intros.
  rewrite Z.div_add by lia. rewrite Z.div_small by (apply Z.mod_pos_bound; lia). lia.
Qed.

(** The host part of a generated underlay address is the counter. *)
Lemma generate_ul_local cfg ul r1 r2 c t :
  is_u8 t -> ul_local (fst (dp_generate_ul_ipv6 cfg ul r1 r2 c t))
             = htonl (snd (dp_generate_ul_ipv6 cfg ul r1 r2 c t)).
Proof.
  intros Ht. unfold dp_generate_ul_ipv6.
  set (st := if ENABLE_UNDERLAY_TYPE cfg then t else 0).
  assert (is_u8 st) by (subst st; unfold is_u8 in *; destruct ENABLE_UNDERLAY_TYPE; lia).
  assert (forall x y, is_u8 x ->
    ul_local (mk_ipv6 (_prefix ul) (ul_suffix DP_UNDERLAY_ADDRESS_TYPE st 0 x y)) = y) as Hl.
  { intros x y Hx. unfold ul_local, ul_suffix, is_u8, DP_UNDERLAY_ADDRESS_TYPE in *; cbn [_suffix].
    rewrite Z.div_add by lia. rewrite Z.div_small; lia. }
  destruct (ENABLE_STATIC_UNDERLAY_IP cfg); cbn [fst snd]; apply Hl; [unfold is_u8; lia|].
  apply u8_range.
Qed.

Lemma generate_ul_prefix cfg ul r1 r2 c t :
  _prefix (fst (dp_generate_ul_ipv6 cfg ul r1 r2 c t)) = _prefix ul.
Proof. unfold dp_generate_ul_ipv6. by destruct (ENABLE_STATIC_UNDERLAY_IP cfg). Qed.
