(* ===== verification/Port.v ===== *)
(** Ports and interfaces: the data of [include/dp_port.h] and
    [include/dp_firewall.h], with the table of ports and its accessors. *)

From S2P Require Import Prelude Errors IpAddr.

(** ** Firewall rules *)

Inductive dp_fwall_action := DP_FWALL_DROP | DP_FWALL_ACCEPT.
Inductive dp_fwall_direction := DP_FWALL_INGRESS | DP_FWALL_EGRESS.

#[export] Instance dp_fwall_action_eq_dec : EqDecision dp_fwall_action.
Proof. solve_decision. Defined.
#[export] Instance dp_fwall_direction_eq_dec : EqDecision dp_fwall_direction.
Proof. solve_decision. Defined.

(** The union of a port filter and an ICMP filter: four 32-bit words, of which
    the first two are also the ICMP type and code. *)
Record dp_fwall_filter := mk_filter {
  src_port_lower : Z;
  src_port_upper : Z;
  dst_port_lower : Z;
  dst_port_upper : Z
}.
Definition filter_icmp_type (f : dp_fwall_filter) : Z := src_port_lower f.
Definition filter_icmp_code (f : dp_fwall_filter) : Z := src_port_upper f.

(** [struct dp_ip_mask] overlays an IPv6 mask with an IPv4 one. *)
Definition mask_ip4 (m : dp_ipv6) : Z := _prefix m mod 2 ^ 32.

Record dp_fwall_rule := mk_rule {
  rule_id : list Z;
  rule_src_ip : dp_ip_address;
  rule_dest_ip : dp_ip_address;
  rule_src_mask : dp_ipv6;
  rule_dest_mask : dp_ipv6;
  rule_priority : Z;
  rule_protocol : Z;
  rule_filter : dp_fwall_filter;
  rule_action : dp_fwall_action;
  rule_dir : dp_fwall_direction
}.

(** ** Interfaces *)

Record dp_iface_cfg := mk_iface_cfg {
  own_ip : Z;
  neigh_ip : Z;
  ip_depth : Z;
  own_ipv6 : dp_ipv6;
  ip6_depth : Z;
  pxe_ip : dp_ip_address;
  pxe_str : list Z;
  hostname : list Z
}.

Record dp_port_iface := mk_iface {
  fwall_head : list dp_fwall_rule;
  fwall_rule_count : Z;
  cfg : dp_iface_cfg;
  iface_vni : Z;
  encrypt : bool;
  iface_id : list Z;
  ul_ipv6 : dp_ipv6;
  nat_ip : Z;
  nat_port_min : Z;
  nat_port_max : Z;
  ready : bool;
  arp_done : bool;
  total_flow_rate_cap : Z;
  public_flow_rate_cap : Z;
  hostname_len : Z
}.

Definition set_fwall_head (x : list dp_fwall_rule) (r : dp_port_iface) : dp_port_iface :=
  mk_iface x (fwall_rule_count r) (cfg r) (iface_vni r) (encrypt r) (iface_id r) (ul_ipv6 r)
    (nat_ip r) (nat_port_min r) (nat_port_max r) (ready r) (arp_done r)
    (total_flow_rate_cap r) (public_flow_rate_cap r) (hostname_len r).
Definition set_fwall_rule_count (x : Z) (r : dp_port_iface) : dp_port_iface :=
  mk_iface (fwall_head r) x (cfg r) (iface_vni r) (encrypt r) (iface_id r) (ul_ipv6 r)
    (nat_ip r) (nat_port_min r) (nat_port_max r) (ready r) (arp_done r)
    (total_flow_rate_cap r) (public_flow_rate_cap r) (hostname_len r).
Definition set_cfg (x : dp_iface_cfg) (r : dp_port_iface) : dp_port_iface :=
  mk_iface (fwall_head r) (fwall_rule_count r) x (iface_vni r) (encrypt r) (iface_id r)
    (ul_ipv6 r) (nat_ip r) (nat_port_min r) (nat_port_max r) (ready r) (arp_done r)
    (total_flow_rate_cap r) (public_flow_rate_cap r) (hostname_len r).
Definition set_iface_vni (x : Z) (r : dp_port_iface) : dp_port_iface :=
  mk_iface (fwall_head r) (fwall_rule_count r) (cfg r) x (encrypt r) (iface_id r) (ul_ipv6 r)
    (nat_ip r) (nat_port_min r) (nat_port_max r) (ready r) (arp_done r)
    (total_flow_rate_cap r) (public_flow_rate_cap r) (hostname_len r).
Definition set_encrypt (x : bool) (r : dp_port_iface) : dp_port_iface :=
  mk_iface (fwall_head r) (fwall_rule_count r) (cfg r) (iface_vni r) x (iface_id r) (ul_ipv6 r)
    (nat_ip r) (nat_port_min r) (nat_port_max r) (ready r) (arp_done r)
    (total_flow_rate_cap r) (public_flow_rate_cap r) (hostname_len r).
Definition set_iface_id (x : list Z) (r : dp_port_iface) : dp_port_iface :=
  mk_iface (fwall_head r) (fwall_rule_count r) (cfg r) (iface_vni r) (encrypt r) x (ul_ipv6 r)
    (nat_ip r) (nat_port_min r) (nat_port_max r) (ready r) (arp_done r)
    (total_flow_rate_cap r) (public_flow_rate_cap r) (hostname_len r).
Definition set_ul_ipv6 (x : dp_ipv6) (r : dp_port_iface) : dp_port_iface :=
  mk_iface (fwall_head r) (fwall_rule_count r) (cfg r) (iface_vni r) (encrypt r) (iface_id r) x
    (nat_ip r) (nat_port_min r) (nat_port_max r) (ready r) (arp_done r)
    (total_flow_rate_cap r) (public_flow_rate_cap r) (hostname_len r).
Definition set_nat_ip (x : Z) (r : dp_port_iface) : dp_port_iface :=
  mk_iface (fwall_head r) (fwall_rule_count r) (cfg r) (iface_vni r) (encrypt r) (iface_id r)
    (ul_ipv6 r) x (nat_port_min r) (nat_port_max r) (ready r) (arp_done r)
    (total_flow_rate_cap r) (public_flow_rate_cap r) (hostname_len r).
Definition set_nat_port_min (x : Z) (r : dp_port_iface) : dp_port_iface :=
  mk_iface (fwall_head r) (fwall_rule_count r) (cfg r) (iface_vni r) (encrypt r) (iface_id r)
    (ul_ipv6 r) (nat_ip r) x (nat_port_max r) (ready r) (arp_done r)
    (total_flow_rate_cap r) (public_flow_rate_cap r) (hostname_len r).
Definition set_nat_port_max (x : Z) (r : dp_port_iface) : dp_port_iface :=
  mk_iface (fwall_head r) (fwall_rule_count r) (cfg r) (iface_vni r) (encrypt r) (iface_id r)
    (ul_ipv6 r) (nat_ip r) (nat_port_min r) x (ready r) (arp_done r)
    (total_flow_rate_cap r) (public_flow_rate_cap r) (hostname_len r).
Definition set_ready (x : bool) (r : dp_port_iface) : dp_port_iface :=
  mk_iface (fwall_head r) (fwall_rule_count r) (cfg r) (iface_vni r) (encrypt r) (iface_id r)
    (ul_ipv6 r) (nat_ip r) (nat_port_min r) (nat_port_max r) x (arp_done r)
    (total_flow_rate_cap r) (public_flow_rate_cap r) (hostname_len r).
Definition set_arp_done (x : bool) (r : dp_port_iface) : dp_port_iface :=
  mk_iface (fwall_head r) (fwall_rule_count r) (cfg r) (iface_vni r) (encrypt r) (iface_id r)
    (ul_ipv6 r) (nat_ip r) (nat_port_min r) (nat_port_max r) (ready r) x
    (total_flow_rate_cap r) (public_flow_rate_cap r) (hostname_len r).
Definition set_total_flow_rate_cap (x : Z) (r : dp_port_iface) : dp_port_iface :=
  mk_iface (fwall_head r) (fwall_rule_count r) (cfg r) (iface_vni r) (encrypt r) (iface_id r)
    (ul_ipv6 r) (nat_ip r) (nat_port_min r) (nat_port_max r) (ready r) (arp_done r) x
    (public_flow_rate_cap r) (hostname_len r).
Definition set_public_flow_rate_cap (x : Z) (r : dp_port_iface) : dp_port_iface :=
  mk_iface (fwall_head r) (fwall_rule_count r) (cfg r) (iface_vni r) (encrypt r) (iface_id r)
    (ul_ipv6 r) (nat_ip r) (nat_port_min r) (nat_port_max r) (ready r) (arp_done r)
    (total_flow_rate_cap r) x (hostname_len r).
Definition set_hostname_len (x : Z) (r : dp_port_iface) : dp_port_iface :=
  mk_iface (fwall_head r) (fwall_rule_count r) (cfg r) (iface_vni r) (encrypt r) (iface_id r)
    (ul_ipv6 r) (nat_ip r) (nat_port_min r) (nat_port_max r) (ready r) (arp_done r)
    (total_flow_rate_cap r) (public_flow_rate_cap r) x.

(** ** Ports *)

Record dp_port := mk_port {
  is_pf : bool;
  port_id : Z;
  socket_id : Z;
  link_status : Z;
  allocated : bool;
  peer_pf_hairpin_tx_rx_queue_offset : Z;
  peer_pf_port_id : Z;
  own_mac : list Z;
  neigh_mac : list Z;
  iface : dp_port_iface;
  captured : bool;
  neighmac_period : Z
}.

Definition set_is_pf (x : bool) (r : dp_port) : dp_port :=
  mk_port x (port_id r) (socket_id r) (link_status r) (allocated r)
    (peer_pf_hairpin_tx_rx_queue_offset r) (peer_pf_port_id r) (own_mac r) (neigh_mac r)
    (iface r) (captured r) (neighmac_period r).
Definition set_port_id (x : Z) (r : dp_port) : dp_port :=
  mk_port (is_pf r) x (socket_id r) (link_status r) (allocated r)
    (peer_pf_hairpin_tx_rx_queue_offset r) (peer_pf_port_id r) (own_mac r) (neigh_mac r)
    (iface r) (captured r) (neighmac_period r).
Definition set_socket_id (x : Z) (r : dp_port) : dp_port :=
  mk_port (is_pf r) (port_id r) x (link_status r) (allocated r)
    (peer_pf_hairpin_tx_rx_queue_offset r) (peer_pf_port_id r) (own_mac r) (neigh_mac r)
    (iface r) (captured r) (neighmac_period r).
Definition set_link_status (x : Z) (r : dp_port) : dp_port :=
  mk_port (is_pf r) (port_id r) (socket_id r) x (allocated r)
    (peer_pf_hairpin_tx_rx_queue_offset r) (peer_pf_port_id r) (own_mac r) (neigh_mac r)
    (iface r) (captured r) (neighmac_period r).
Definition set_allocated (x : bool) (r : dp_port) : dp_port :=
  mk_port (is_pf r) (port_id r) (socket_id r) (link_status r) x
    (peer_pf_hairpin_tx_rx_queue_offset r) (peer_pf_port_id r) (own_mac r) (neigh_mac r)
    (iface r) (captured r) (neighmac_period r).
Definition set_peer_pf_hairpin_tx_rx_queue_offset (x : Z) (r : dp_port) : dp_port :=
  mk_port (is_pf r) (port_id r) (socket_id r) (link_status r) (allocated r) x
    (peer_pf_port_id r) (own_mac r) (neigh_mac r) (iface r) (captured r)
    (neighmac_period r).
Definition set_peer_pf_port_id (x : Z) (r : dp_port) : dp_port :=
  mk_port (is_pf r) (port_id r) (socket_id r) (link_status r) (allocated r)
    (peer_pf_hairpin_tx_rx_queue_offset r) x (own_mac r) (neigh_mac r) (iface r)
    (captured r) (neighmac_period r).
Definition set_own_mac (x : list Z) (r : dp_port) : dp_port :=
  mk_port (is_pf r) (port_id r) (socket_id r) (link_status r) (allocated r)
    (peer_pf_hairpin_tx_rx_queue_offset r) (peer_pf_port_id r) x (neigh_mac r) (iface r)
    (captured r) (neighmac_period r).
Definition set_neigh_mac (x : list Z) (r : dp_port) : dp_port :=
  mk_port (is_pf r) (port_id r) (socket_id r) (link_status r) (allocated r)
    (peer_pf_hairpin_tx_rx_queue_offset r) (peer_pf_port_id r) (own_mac r) x (iface r)
    (captured r) (neighmac_period r).
Definition set_iface (x : dp_port_iface) (r : dp_port) : dp_port :=
  mk_port (is_pf r) (port_id r) (socket_id r) (link_status r) (allocated r)
    (peer_pf_hairpin_tx_rx_queue_offset r) (peer_pf_port_id r) (own_mac r)
    (neigh_mac r) x (captured r) (neighmac_period r).
Definition set_captured (x : bool) (r : dp_port) : dp_port :=
  mk_port (is_pf r) (port_id r) (socket_id r) (link_status r) (allocated r)
    (peer_pf_hairpin_tx_rx_queue_offset r) (peer_pf_port_id r) (own_mac r) (neigh_mac r)
    (iface r) x (neighmac_period r).
Definition set_neighmac_period (x : Z) (r : dp_port) : dp_port :=
  mk_port (is_pf r) (port_id r) (socket_id r) (link_status r) (allocated r)
    (peer_pf_hairpin_tx_rx_queue_offset r) (peer_pf_port_id r) (own_mac r) (neigh_mac r)
    (iface r) (captured r) x.

Definition DP_MAX_PF_PORTS : Z := 2.
Definition DP_MAX_VF_PORTS : Z := 126.
Definition DP_MAX_PORTS : Z := DP_MAX_PF_PORTS + DP_MAX_VF_PORTS.

(** [_dp_port_table]: a port where the entry is not [NULL]. *)
Abbreviation port_table := (gmap Z dp_port).

(** Reading the table without the range check, as [dp_get_in_port] and
    [dp_get_out_port] do: an index past its end is undefined behaviour (the
    outer [None]), an empty entry is [NULL]. *)
Definition port_table_at (ports : port_table) (id : Z) : option (option dp_port) :=
  if (0 <=? id) && (id <? DP_MAX_PORTS) then Some (ports !! id) else None.

Definition dp_get_port_by_id (ports : port_table) (id : Z) : option dp_port :=
  if id >=? DP_MAX_PORTS then None else ports !! id.

Definition dp_arp_cycle_needed (port : dp_port) : bool :=
  ready (iface port) && negb (arp_done (iface port)).

Definition dp_get_port_ul_ipv6 (underlay_ip : dp_ipv6) (port : dp_port) : dp_ipv6 :=
  if ready (iface port) then ul_ipv6 (iface port) else underlay_ip.

(** The table as start-up fills it: each port under its own number. *)
Definition ports_ok (ports : port_table) : Prop :=
  forall id p, ports !! id = Some p -> port_id p = id /\ 0 <= id < DP_MAX_PORTS.

Lemma dp_get_port_by_id_table ports id p :
  ports_ok ports -> 0 <= id -> dp_get_port_by_id ports id = Some p ->
  port_table_at ports id = Some (Some p) /\ port_id p = id.
Proof.
  intros Hok Hid Hp. unfold dp_get_port_by_id, port_table_at in *.
  destruct (id >=? DP_MAX_PORTS) eqn:E; [done|]. bools.
  rewrite (proj2 (Z.leb_le 0 id) Hid), (proj2 (Z.ltb_lt _ _) E), Hp. split; [done|].
  by apply Hok.
Qed.
