(* ===== verification/Graph.v ===== *)
(** The packet graph: [include/nodes/common_node.h], [src/nodes/common_node.c]
    and [dp_graph_init_nodes] of [src/dp_graph.c].

    A node's edges are the list of the names of its next nodes; an edge number
    is an index into it, edge 0 being the drop node of every node.  The second
    part models how a node hands the packets of a burst to its next nodes. *)

From stdpp Require Import pretty.
From S2P Require Import Prelude Errors IpAddr Port.

(** ** Edges *)

(** [rte_node_edge_update] appending one edge: the number of edges added and
    the new edges. *)
Class RteNode := {
  rte_node_edge_update : list string -> string -> Z * list string;
  edge_update_law edges name :
    let '(r, edges') := rte_node_edge_update edges name in
    (r = 1 /\ edges' = edges ++ [name]) \/ (r <> 1 /\ edges' = edges)
}.

Record graph_state := mk_graph {
  (** edges of each registered node *)
  node_edges : gmap string (list string);
  (** the static arrays of edge numbers, by node and name; zero-initialised *)
  next_indices : gmap (string * string) (gmap Z Z);
  (** [next_ipsec_decap_index] of the cls node *)
  next_ipsec_decap_index : Z;
  (** ports an Rx and a Tx node was created for *)
  rx_nodes : list Z;
  tx_nodes : list Z
}.

(** [DP_NODE_REGISTER]: "drop" first, then the listed next nodes. *)
Definition registered_nodes : gmap string (list string) :=
  list_to_map [
    ("cls", ["drop"; "arp"; "ipv6_nd"; "conntrack"; "ipip_decap"; "virtsvc"]);
    ("arp", ["drop"]); ("ipv6_nd", ["drop"]); ("dhcp", ["drop"]); ("dhcpv6", ["drop"]);
    ("virtsvc", ["drop"]); ("rx_periodic", ["drop"]); ("rx", ["drop"; "cls"]);
    ("tx", ["drop"]); ("sync", ["drop"]);
    ("conntrack", ["drop"; "lb"; "dhcp"; "dhcpv6"; "dnat"; "firewall"]);
    ("ipip_decap", ["drop"; "conntrack"]); ("ipsec_decap", ["drop"; "ipip_decap"]);
    ("ipip_encap", ["drop"; "cls"]); ("ipsec_encap", ["drop"]);
    ("lb", ["drop"; "ipip_encap"; "packet_relay"; "dnat"]);
    ("dnat", ["drop"; "ipv4_lookup"; "ipv6_lookup"; "packet_relay"]);
    ("ipv4_lookup", ["drop"; "snat"]); ("ipv6_lookup", ["drop"; "snat"]);
    ("snat", ["drop"; "firewall"]); ("packet_relay", ["drop"; "ipip_encap"]);
    ("firewall", ["drop"; "ipip_encap"])]%string.

Definition graph_boot : graph_state := mk_graph registered_nodes ∅ 0 [] [].

Definition next_index_table (st : graph_state) (node array : string) : gmap Z Z :=
  default ∅ (next_indices st !! (node, array)).

(** Reading such an array: [None] past its end. *)
Definition edge_at (table : gmap Z Z) (port_id : Z) : option Z :=
  if (0 <=? port_id) && (port_id <? DP_MAX_PORTS) then Some (default 0 (table !! port_id)) else None.

Section wiring.
Context `{ERR : RteErrno} `{NODE : RteNode}.
Implicit Types (st : graph_state) (node array name : string) (port_id : Z).

(** The new edge's number is handed to [store]. *)
Definition dp_node_append_edge node name (store : Z -> graph_state -> graph_state) st
  : Z * graph_state :=
  let '(r, edges) := rte_node_edge_update (default [] (node_edges st !! node)) name in
  let st := mk_graph (<[node := edges]> (node_edges st)) (next_indices st)
              (next_ipsec_decap_index st) (rx_nodes st) (tx_nodes st) in
  if negb (r =? 1) then (DP_ERROR, st)
  else
    let count := u16 (Z.of_nat (length edges)) in
    if count <=? 0 then (DP_ERROR, st)
    else (DP_OK, store (count - 1) st).

Definition store_index node array port_id (i : Z) st : graph_state :=
  mk_graph (node_edges st)
    (<[(node, array) := <[port_id := i]> (next_index_table st node array)]> (next_indices st))
    (next_ipsec_decap_index st) (rx_nodes st) (tx_nodes st).

Definition dp_node_append_tx node array port_id name st : Z * graph_state :=
  if port_id >=? DP_MAX_PORTS then (DP_ERROR, st)
  else dp_node_append_edge node name (store_index node array port_id) st.

Definition dp_node_append_vf_tx (ports : port_table) node array port_id name st : Z * graph_state :=
  match dp_get_port_by_id ports port_id with
  | None => (DP_ERROR, st)
  | Some port => if is_pf port then (DP_ERROR, st) else dp_node_append_tx node array port_id name st
  end.

Definition dp_node_append_pf_tx (ports : port_table) node array port_id name st : Z * graph_state :=
  match dp_get_port_by_id ports port_id with
  | None => (DP_ERROR, st)
  | Some port => if negb (is_pf port) then (DP_ERROR, st) else dp_node_append_tx node array port_id name st
  end.

Definition cls_node_append_ipsec_decap st : Z * graph_state :=
  dp_node_append_edge "cls" "ipsec_decap"
    (fun i st => mk_graph (node_edges st) (next_indices st) i (rx_nodes st) (tx_nodes st)) st.

(** [rx_node_create], [tx_node_create]; [clone] says whether [rte_node_clone]
    gave a node. *)
Definition rx_node_create (clone : bool) port_id st : Z * graph_state :=
  if port_id >=? DP_MAX_PORTS then (DP_ERROR, st)
  else if negb clone then (DP_ERROR, st)
  else (DP_OK, mk_graph (node_edges st) (next_indices st) (next_ipsec_decap_index st)
                 (rx_nodes st ++ [port_id]) (tx_nodes st)).

Definition tx_node_create (clone : bool) port_id st : Z * graph_state :=
  if port_id >=? DP_MAX_PORTS then (DP_ERROR, st)
  else if negb clone then (DP_ERROR, st)
  else (DP_OK, mk_graph (node_edges st) (next_indices st) (next_ipsec_decap_index st)
                 (rx_nodes st) (tx_nodes st ++ [port_id])).

(** [DP_FAILED(f1) || DP_FAILED(f2) || ...]: stops at the first failure. *)
Fixpoint until_failed (steps : list (graph_state -> Z * graph_state)) st : bool * graph_state :=
  match steps with
  | [] => (false, st)
  | f :: steps' =>
      let '(r, st') := f st in
      if DP_FAILED r then (true, st') else until_failed steps' st'
  end.

Definition tx_name port_id : string := "tx-" +:+ pretty port_id.

(** The calls of one iteration of the loop over the ports, in order; each
    failure returns, so the blocks of the source form one chain. *)
Definition port_steps (ports : port_table) (ipsec : bool) (rx_clone tx_clone : Z -> bool) (port : dp_port)
  : list (graph_state -> Z * graph_state) :=
  let port_id := port_id port in
  let name := tx_name port_id in
  [rx_node_create (rx_clone port_id) port_id; tx_node_create (tx_clone port_id) port_id]
  ++ (if is_pf port then
        [dp_node_append_pf_tx ports "ipip_encap" "next_tx_index" port_id name]
        ++ (if ipsec then
              [dp_node_append_pf_tx ports "ipip_encap" "next_ipsec_index" port_id "ipsec_encap";
               dp_node_append_pf_tx ports "ipsec_encap" "next_tx_index" port_id name]
            else [])
      else
        [dp_node_append_vf_tx ports "arp" "next_tx_index" port_id name;
         dp_node_append_vf_tx ports "dhcp" "next_tx_index" port_id name;
         dp_node_append_vf_tx ports "dhcpv6" "next_tx_index" port_id name;
         dp_node_append_vf_tx ports "ipv6_nd" "next_tx_index" port_id name;
         dp_node_append_vf_tx ports "firewall" "next_tx_index" port_id name;
         dp_node_append_vf_tx ports "rx_periodic" "next_tx_index" port_id name])
  ++ [dp_node_append_tx "virtsvc" "next_tx_index" port_id name].

Definition dp_graph_init_nodes (ports : port_table) (port_list : list dp_port) (ipsec : bool)
    (rx_clone tx_clone : Z -> bool) st : Z * graph_state :=
  let '(failed, st) :=
    until_failed ((if ipsec then [cls_node_append_ipsec_decap] else [])
                  ++ flat_map (port_steps ports ipsec rx_clone tx_clone) port_list) st in
  (if failed then DP_ERROR else DP_OK, st).

(** ** Correctness of the wiring *)

(** Where the entry of an array is to lead. *)
Definition name_of array port_id : string :=
  if String.eqb array "next_ipsec_index" then "ipsec_encap" else tx_name port_id.

Inductive edge_key := KTx (node array : string) (port_id : Z) | KCls.

Definition defined st (k : edge_key) : Prop :=
  match k with
  | KTx node array port_id => is_Some (next_index_table st node array !! port_id)
  | KCls => next_ipsec_decap_index st <> 0
  end.

(** Entry [i] of [node]'s edges is [name], and not the drop edge. *)
Definition leads_to st node (i : Z) name : Prop :=
  0 < i /\ exists edges, node_edges st !! node = Some edges /\ edges !! Z.to_nat i = Some name.

Record wired (n : nat) st : Prop := {
  wired_edges node edges : node_edges st !! node = Some edges -> (1 <= length edges <= n)%nat;
  wired_nodes node edges : registered_nodes !! node = Some edges ->
    exists new, node_edges st !! node = Some (edges ++ new);
  wired_tx node array port_id i :
    next_index_table st node array !! port_id = Some i -> leads_to st node i (name_of array port_id);
  wired_cls : next_ipsec_decap_index st <> 0 ->
    leads_to st "cls" (next_ipsec_decap_index st) "ipsec_decap"
}.

(** What every step guarantees, and what a successful one establishes. *)
Definition keeps (f : graph_state -> Z * graph_state) : Prop :=
  forall n st r st', wired n st -> Z.of_nat n < 65535 -> f st = (r, st') ->
    wired (S n) st' /\ forall k, defined st k -> defined st' k.

Definition establishes (f : graph_state -> Z * graph_state) (k : edge_key) : Prop :=
  forall n st r st', wired n st -> Z.of_nat n < 65535 -> f st = (r, st') -> DP_FAILED r = false -> defined st' k.

Lemma wired_S n st : wired n st -> wired (S n) st.
Proof. intros [H1 H2 H3 H4]. split; auto. intros ? ? H. apply H1 in H. lia. Qed.

Lemma leads_to_append st st' node i name node' edges new :
  leads_to st node i name -> node_edges st !! node' = Some edges ->
  node_edges st' = <[node' := edges ++ new]> (node_edges st) -> leads_to st' node i name.
Proof.
  intros (Hi & es & He & Hl) Hn Hst'. split; [done|]. rewrite Hst'. destruct (decide (node = node')) as [->|Hne].
  - exists (edges ++ new). rewrite lookup_insert_eq. simplify_eq. split; [done|]. by apply lookup_app_l_Some.
  - exists es. by rewrite lookup_insert_ne.
Qed.

(** Appending an edge: nothing else changes, and the number stored is that of
    the new edge. *)
Lemma append_edge_spec n st node name store r st' :
  wired n st -> Z.of_nat n < 65535 -> node ∈ dom registered_nodes ->
  dp_node_append_edge node name store st = (r, st') ->
  exists edges new st1, node_edges st !! node = Some edges /\ (length new <= 1)%nat
    /\ st1 = mk_graph (<[node := edges ++ new]> (node_edges st)) (next_indices st)
               (next_ipsec_decap_index st) (rx_nodes st) (tx_nodes st)
    /\ ((DP_FAILED r = true /\ st' = st1)
        \/ (r = DP_OK /\ st' = store (Z.of_nat (length edges)) st1
            /\ leads_to st1 node (Z.of_nat (length edges)) name)).
Proof.
  intros Hw Hn Hreg H. unfold dp_node_append_edge in H.
  apply elem_of_dom in Hreg as [edges0 Hreg]. destruct (wired_nodes _ _ Hw _ _ Hreg) as [new0 He].
  set (edges := edges0 ++ new0) in *. rewrite He in H. cbn [default id] in H.
  pose proof (wired_edges _ _ Hw _ _ He) as Hlen.
  pose proof (edge_update_law edges name) as Hlaw.
  destruct (rte_node_edge_update edges name) as [k edges']. exists edges.
  destruct Hlaw as [[-> ->]|[Hk ->]].
  - cbn [Z.eqb Pos.eqb negb] in H. rewrite List.length_app in H. cbn [length] in H.
    assert (u16 (Z.of_nat (length edges + 1)) = Z.of_nat (length edges) + 1) as Hu.
    { rewrite u16_small; unfold is_u16; lia. }
    rewrite Hu in H. destruct (_ <=? 0) eqn:E; bools; [lia|].
    replace (Z.of_nat (length edges) + 1 - 1) with (Z.of_nat (length edges)) in H by lia.
    simplify_eq. eexists [name], _. split_and!; [done | cbn; lia | done |]. right.
    split_and!; [done..|]. split; [lia|]. eexists. cbn. rewrite lookup_insert_eq. split; [done|].
    rewrite Nat2Z.id. apply list_lookup_middle. done.
  - rewrite (proj2 (Z.eqb_neq _ _) Hk) in H. cbn [negb] in H. simplify_eq.
    eexists [], _. rewrite app_nil_r. split_and!; [done | cbn; lia | done |]. left.
    by rewrite dp_failed_error.
Qed.

Lemma wired_append n st node edges (new : list string) :
  wired n st -> node_edges st !! node = Some edges -> (length new <= 1)%nat ->
  wired (S n) (mk_graph (<[node := edges ++ new]> (node_edges st)) (next_indices st)
                 (next_ipsec_decap_index st) (rx_nodes st) (tx_nodes st)).
Proof.
  intros Hw He Hnew. split; cbn.
  - intros node' es. rewrite lookup_insert_Some, <-?Some_inj. intros [[<- <-]|[_ H]].
    + apply (wired_edges _ _ Hw) in He. rewrite List.length_app. lia.
    + apply (wired_edges _ _ Hw) in H. lia.
  - intros node' es Hreg. destruct (wired_nodes _ _ Hw _ _ Hreg) as [new' He'].
    rewrite lookup_insert. case_decide; subst; [|by eauto]. exists (new' ++ new).
    rewrite app_assoc. congruence.
  - intros node' array port_id i H. eapply leads_to_append; [by eapply wired_tx | done | done].
  - intros H. eapply leads_to_append; [by eapply wired_cls | done | done].
Qed.

Lemma store_index_table node array port_id i st node' array' :
  next_index_table (store_index node array port_id i st) node' array'
  = if decide ((node', array') = (node, array)) then <[port_id := i]> (next_index_table st node array)
    else next_index_table st node' array'.
Proof.
  unfold next_index_table at 1. cbn. rewrite lookup_insert. repeat case_decide; congruence || done.
Qed.

Lemma append_tx_keeps node array port_id name :
  node ∈ dom registered_nodes -> name = name_of array port_id ->
  keeps (dp_node_append_tx node array port_id name)
  /\ establishes (dp_node_append_tx node array port_id name) (KTx node array port_id).
Proof.
  intros Hreg ->. unfold dp_node_append_tx. destruct (port_id >=? DP_MAX_PORTS).
  { split; intros n st r st' Hw Hn [= <- <-]; [by split; [apply wired_S|]|]. by rewrite dp_failed_error. }
  split; intros n st r st' Hw Hn H;
    destruct (append_edge_spec _ _ _ _ _ _ _ Hw Hn Hreg H)
      as (edges & new & st1 & He & Hnew & Hst1 & [[Hr ->]|(-> & -> & Hlead)]);
    pose proof (wired_append n st node edges new Hw He Hnew) as Hw1; rewrite <-Hst1 in Hw1.
  - split; [done|]. intros []; subst st1; done.
  - split.
    + split; cbn; [apply Hw1 | apply Hw1 | | apply Hw1].
      intros node' array' port' i. rewrite store_index_table.
      case_decide as Heq; simplify_eq; [|by apply (wired_tx _ _ Hw1)].
      rewrite lookup_insert_Some. intros [[<- <-]|[_ Hi]]; [done|]. by apply (wired_tx _ _ Hw1).
    + intros [node' array' port'|]; subst st1; [|done]. cbn [defined]. rewrite store_index_table.
      case_decide; simplify_eq; [|done]. rewrite lookup_insert_is_Some. destruct (decide (port_id = port')); auto.
  - by rewrite Hr.
  - intros _. cbn [defined]. rewrite store_index_table, decide_True by done. by rewrite lookup_insert_eq.
Qed.

Lemma guarded_keeps (b : bool) f k :
  keeps f /\ establishes f k ->
  keeps (fun st => if b then (DP_ERROR, st) else f st)
  /\ establishes (fun st => if b then (DP_ERROR, st) else f st) k.
Proof.
  intros [Hk He]. destruct b; [|done]. split; intros n st r st' Hw Hn [= <- <-].
  - by split; [apply wired_S|].
  - by rewrite dp_failed_error.
Qed.

Lemma append_vf_tx_keeps ports node array port_id name :
  node ∈ dom registered_nodes -> name = name_of array port_id ->
  keeps (dp_node_append_vf_tx ports node array port_id name)
  /\ establishes (dp_node_append_vf_tx ports node array port_id name) (KTx node array port_id).
Proof.
  intros Hreg Hname. pose proof (append_tx_keeps node array port_id name Hreg Hname) as H.
  unfold dp_node_append_vf_tx. destruct (dp_get_port_by_id ports port_id) as [port|].
  - by apply (guarded_keeps (is_pf port)).
  - by apply (guarded_keeps true _ _ H).
Qed.

Lemma append_pf_tx_keeps ports node array port_id name :
  node ∈ dom registered_nodes -> name = name_of array port_id ->
  keeps (dp_node_append_pf_tx ports node array port_id name)
  /\ establishes (dp_node_append_pf_tx ports node array port_id name) (KTx node array port_id).
Proof.
  intros Hreg Hname. pose proof (append_tx_keeps node array port_id name Hreg Hname) as H.
  unfold dp_node_append_pf_tx. destruct (dp_get_port_by_id ports port_id) as [port|].
  - by apply (guarded_keeps (negb (is_pf port))).
  - by apply (guarded_keeps true _ _ H).
Qed.

Lemma cls_append_keeps :
  keeps cls_node_append_ipsec_decap /\ establishes cls_node_append_ipsec_decap KCls.
Proof.
  assert ("cls"%string ∈ dom registered_nodes) as Hreg by (apply elem_of_dom; eexists; reflexivity).
  split; intros n st r st' Hw Hn H;
    destruct (append_edge_spec _ _ _ _ _ _ _ Hw Hn Hreg H)
      as (edges & new & st1 & He & Hnew & Hst1 & [[Hr ->]|(-> & -> & Hlead)]);
    pose proof (wired_append n st "cls" edges new Hw He Hnew) as Hw1; rewrite <-Hst1 in Hw1.
  - split; [done|]. intros []; subst st1; done.
  - destruct Hlead as [Hpos Hlead]. split.
    + split; cbn; [apply Hw1 | apply Hw1 | apply (wired_tx _ _ Hw1) | by intros _; split].
    + intros [node' array' port'|]; subst st1; cbn; [done|lia].
  - by rewrite Hr.
  - intros _. destruct Hlead as [Hpos _]. cbn. lia.
Qed.

Lemma node_create_keeps clone port_id :
  keeps (rx_node_create clone port_id) /\ keeps (tx_node_create clone port_id).
Proof.
  split; intros n st r st' Hw Hn; unfold rx_node_create, tx_node_create; intros H; dp_cases_in H;
    (split; [apply wired_S in Hw as [H1 H2 H3 H4]; by split | by intros []]).
Qed.

Lemma until_failed_spec steps n st failed st' :
  Forall keeps steps -> wired n st -> Z.of_nat (n + length steps) < 65535 ->
  until_failed steps st = (failed, st') ->
  wired (n + length steps) st' /\ (forall k, defined st k -> defined st' k)
  /\ (failed = false -> forall f k, f ∈ steps -> establishes f k -> defined st' k).
Proof.
  intros Hk; revert n st; induction Hk as [|f steps Hf _ IH]; intros n st Hw Hn H; cbn in H.
  - simplify_eq/=. rewrite Nat.add_0_r. split_and!; [done..|]. intros _ f k Hin. by apply elem_of_nil in Hin.
  - cbn [length] in Hn. destruct (f st) as [r st1] eqn:Ef.
    destruct (Hf n st r st1 Hw ltac:(lia) Ef) as [Hw1 Hd1]. cbn [length]. rewrite <-Nat.add_succ_comm.
    destruct (DP_FAILED r) eqn:Er; simplify_eq.
    + split_and!; [|done..]. clear -Hw1.
      induction steps as [|? ? IH]; cbn; [by rewrite Nat.add_0_r|]. rewrite Nat.add_succ_r. by apply wired_S.
    + destruct (IH _ _ Hw1 ltac:(lia) H) as (Hw2 & Hd2 & He2). split_and!; [done | auto |].
      intros Hok g k [-> | Hg]%elem_of_cons Hest; [|by eapply He2]. apply Hd2. apply (Hest n st r st1); [done | lia | done | done].
Qed.

Lemma registered node : bool_decide (is_Some (registered_nodes !! node)) = true -> node ∈ dom registered_nodes.
Proof. intros H%bool_decide_eq_true. by apply elem_of_dom. Qed.

(** The arrays one port is entered in, with the step that does it. *)
Definition port_keys (ipsec : bool) (port : dp_port) : list edge_key :=
  let port_id := port_id port in
  (if is_pf port then
     [KTx "ipip_encap" "next_tx_index" port_id]
     ++ (if ipsec then [KTx "ipip_encap" "next_ipsec_index" port_id;
                        KTx "ipsec_encap" "next_tx_index" port_id] else [])
   else [KTx "arp" "next_tx_index" port_id; KTx "dhcp" "next_tx_index" port_id;
         KTx "dhcpv6" "next_tx_index" port_id; KTx "ipv6_nd" "next_tx_index" port_id;
         KTx "firewall" "next_tx_index" port_id; KTx "rx_periodic" "next_tx_index" port_id])
  ++ [KTx "virtsvc" "next_tx_index" port_id].

Lemma port_steps_keep ports ipsec rx_clone tx_clone port :
  Forall keeps (port_steps ports ipsec rx_clone tx_clone port).
Proof.
  unfold port_steps. apply Forall_app; split; [|apply Forall_app; split].
  - rewrite !Forall_cons, Forall_nil. split_and!; [apply node_create_keeps.. | done].
  - destruct (is_pf port); [destruct ipsec|]; cbn [app]; rewrite !Forall_cons, Forall_nil; split_and!; try done;
      (apply append_pf_tx_keeps || apply append_vf_tx_keeps); by try apply registered.
  - rewrite Forall_cons, Forall_nil. split; [|done]. apply append_tx_keeps; by try apply registered.
Qed.

Ltac list_member :=
  right; left; cbn [app]; solve [repeat (apply elem_of_cons; (left; reflexivity) || right)].

Lemma port_steps_establish ports ipsec rx_clone tx_clone port k :
  k ∈ port_keys ipsec port ->
  exists f, f ∈ port_steps ports ipsec rx_clone tx_clone port /\ establishes f k.
Proof.
  unfold port_keys, port_steps. setoid_rewrite elem_of_app. setoid_rewrite elem_of_app.
  intros [Hk|Hk].
  - destruct (is_pf port); [destruct ipsec|]; cbn in Hk; rewrite ?elem_of_cons, elem_of_nil in Hk;
      decompose [or] Hk; try done; subst k; eexists;
      solve [split; [|apply (append_pf_tx_keeps ports); by try apply registered]; list_member
            |split; [|apply (append_vf_tx_keeps ports); by try apply registered]; list_member].
  - apply list_elem_of_singleton in Hk as ->. eexists.
    split; [|apply append_tx_keeps; by try apply registered]. do 2 right. apply elem_of_cons. left. reflexivity.
Qed.

Lemma port_steps_length ports ipsec rx_clone tx_clone port :
  (length (port_steps ports ipsec rx_clone tx_clone port) <= 10)%nat.
Proof. unfold port_steps. rewrite !List.length_app. destruct (is_pf port), ipsec; cbn; lia. Qed.

Lemma boot_wired : wired 6 graph_boot.
Proof.
  split; cbn [graph_boot node_edges next_indices next_ipsec_decap_index].
  - intros node edges H. apply elem_of_list_to_map_2 in H.
    repeat (apply elem_of_cons in H as [[= -> ->]|H]; [cbn; lia|]). by apply elem_of_nil in H.
  - intros node edges H. exists []. by rewrite app_nil_r.
  - intros node array port_id i H. by unfold next_index_table in H.
  - done.
Qed.

Lemma init_nodes_spec ports port_list ipsec rx_clone tx_clone r st :
  (length port_list <= Z.to_nat DP_MAX_PORTS)%nat ->
  dp_graph_init_nodes ports port_list ipsec rx_clone tx_clone graph_boot = (r, st) ->
  exists n, wired n st
    /\ (r = DP_OK -> forall f k,
          f ∈ (if ipsec then [cls_node_append_ipsec_decap] else [])
              ++ flat_map (port_steps ports ipsec rx_clone tx_clone) port_list ->
          establishes f k -> defined st k).
Proof.
  intros Hlen H. unfold dp_graph_init_nodes in H.
  set (steps := (if ipsec then _ else _) ++ _) in *.
  destruct (until_failed steps graph_boot) as [failed st'] eqn:Hu. injection H as Hr ->.
  assert (length steps <= 1 + 10 * length port_list)%nat as Hsteps.
  { subst steps. rewrite List.length_app. apply Nat.add_le_mono; [destruct ipsec; cbn; lia|]. clear.
    induction port_list as [|p l IH]; cbn [flat_map length]; [done|]. rewrite List.length_app.
    pose proof (port_steps_length ports ipsec rx_clone tx_clone p). lia. }
  change (Z.to_nat DP_MAX_PORTS) with 128%nat in Hlen.
  destruct (until_failed_spec steps 6 graph_boot failed st) as (Hw & _ & Hest); [| |lia|done|].
  { subst steps. apply Forall_app; split; [destruct ipsec; [apply Forall_singleton, cls_append_keeps | constructor]|].
    clear. induction port_list as [|p l IH]; cbn [flat_map]; [constructor|]. apply Forall_app.
    split; [apply port_steps_keep | exact IH]. }
  { apply boot_wired. }
  eexists; split; [exact Hw|]. intros Hok. apply Hest. destruct failed; [|done].
  pose proof dp_failed_error as Hf. by rewrite Hr, Hok in Hf.
Qed.

(** C16: If the graph's edges are set up without an error, every port is
    connected from every node that sends to it, by the Tx node of that very
    port and never by the drop edge: physical ports from ipip_encap (directly,
    and with IPsec through ipsec_encap and its own Tx edge), virtual ones from
    the nodes that answer guests, both from virtsvc; and with IPsec the
    classifier has its edge to ipsec_decap. *)
Theorem graph_edges_lead_to_ports ports port_list ipsec rx_clone tx_clone st :
  (length port_list <= Z.to_nat DP_MAX_PORTS)%nat ->
  dp_graph_init_nodes ports port_list ipsec rx_clone tx_clone graph_boot = (DP_OK, st) ->
  (ipsec = true -> leads_to st "cls" (next_ipsec_decap_index st) "ipsec_decap")
  /\ forall port, port ∈ port_list -> forall node array id,
       KTx node array id ∈ port_keys ipsec port ->
       exists i, next_index_table st node array !! id = Some i
                 /\ leads_to st node i (name_of array id).
Proof.
  intros Hlen H. destruct (init_nodes_spec _ _ _ _ _ _ _ Hlen H) as (n & Hw & Hest).
  specialize (Hest eq_refl). split.
  - intros ->. apply (wired_cls _ _ Hw). apply (Hest cls_node_append_ipsec_decap KCls).
    + apply elem_of_app. left. by apply list_elem_of_singleton.
    + apply cls_append_keeps.
  - intros port Hp node array id Hk.
    destruct (port_steps_establish ports ipsec rx_clone tx_clone port _ Hk) as (f & Hf & Hfk).
    destruct (Hest f (KTx node array id)) as [i Hi]; [|done|].
    + apply elem_of_app. right. apply list_elem_of_In, in_flat_map. exists port. by rewrite <-!list_elem_of_In.
    + exists i. split; [done|]. by apply (wired_tx _ _ Hw).
Qed.
End wiring.

(** ** Handing over a burst *)

Section foreach.
Context {obj : Type}.

(** What the next nodes are handed, edge by edge; [rte_node_enqueue_x1],
    [rte_node_next_stream_put] and [rte_node_next_stream_move] all append to
    the stream of an edge. *)
Abbreviation streams := (gmap Z (list obj)).

Definition stream (s : streams) (edge : Z) : list obj := default [] (s !! edge).
Definition enqueue (s : streams) (edge : Z) (objs : list obj) : streams :=
  <[edge := stream s edge ++ objs]> s.

(** State of the loop with a speculated edge.  [from] is the index the pointer
    of that name stands at, [to_next] what has been copied to the speculated
    node's stream so far, which [held] counts. *)
Record spec_loop := mk_loop {
  from : nat; last_spec : nat; held : nat; to_next : list obj; out : streams
}.

(** [rte_memcpy(to_next, from, last_spec * sizeof(from[0]))] *)
Definition copied (objs : list obj) (l : spec_loop) : list obj :=
  take (last_spec l) (drop (from l) objs).

Definition spec_step (objs : list obj) (speculated next_index : Z) (l : spec_loop) : option spec_loop :=
  if negb (next_index =? speculated) then
    let from' := (from l + last_spec l)%nat in
    pkt ← objs !! from';
    Some (mk_loop (from' + 1) 0 (held l + last_spec l) (to_next l ++ copied objs l)
            (enqueue (out l) next_index [pkt]))
  else Some (mk_loop (from l) (last_spec l + 1) (held l) (to_next l) (out l)).

Fixpoint spec_loop_run (objs : list obj) (speculated : Z) (edges : list Z) (l : spec_loop)
  : option spec_loop :=
  match edges with
  | [] => Some l
  | e :: edges' => spec_step objs speculated e l ≫= spec_loop_run objs speculated edges'
  end.

(** [dp_foreach_graph_packet] on the packets [objs], for which
    [get_next_index] answers [edges].  [rte_node_next_stream_put] appends the
    first [held] entries written to the stream. *)
Definition dp_foreach_graph_packet (objs : list obj) (speculated_node : Z) (edges : list Z)
    (s : streams) : option streams :=
  if speculated_node >=? 0 then
    l ← spec_loop_run objs speculated_node edges (mk_loop 0 0 0 [] s);
    if (last_spec l =? length objs)%nat then Some (enqueue (out l) speculated_node objs)
    else
      let held := (held l + last_spec l)%nat in
      Some (enqueue (out l) speculated_node (take held (to_next l ++ copied objs l)))
  else
    Some (foldl (fun s p => enqueue s p.2 [p.1]) s (zip objs edges)).

(** The packets of the burst that go over [edge], in order. *)
Definition packets_for (edge : Z) (objs : list obj) (edges : list Z) : list obj :=
  (filter (fun p => p.2 = edge) (zip objs edges)).*1.

Lemma stream_enqueue s e l e' :
  stream (enqueue s e l) e' = stream s e' ++ (if decide (e = e') then l else []).
Proof.
  unfold stream at 1, enqueue. rewrite lookup_insert. case_decide; subst; [done|]. by rewrite app_nil_r.
Qed.

Lemma packets_for_cons edge x objs e edges :
  packets_for edge (x :: objs) (e :: edges)
  = (if decide (e = edge) then [x] else []) ++ packets_for edge objs edges.
Proof. unfold packets_for. cbn [zip zip_with]. rewrite filter_cons. cbn [snd]. by case_decide. Qed.

Lemma foldl_enqueue s objs edges e :
  stream (foldl (fun s p => enqueue s p.2 [p.1]) s (zip objs edges)) e
  = stream s e ++ packets_for e objs edges.
Proof.
  revert s edges; induction objs as [|x objs IH]; intros s [|e' edges]; cbn [zip zip_with foldl];
    [by rewrite app_nil_r..|].
  rewrite IH, stream_enqueue, packets_for_cons, <-app_assoc. done.
Qed.

(** The loop invariant: the packets seen so far are the ones handed over, the
    ones copied and the [last_spec] ones still to copy. *)
Record loop_ok (objs : list obj) (n : nat) (l : spec_loop) : Prop := {
  lo_pos : (from l + last_spec l)%nat = n;
  lo_bound : (n <= length objs)%nat;
  lo_held : held l = length (to_next l);
  lo_le : (held l <= from l)%nat
}.

Lemma length_copied objs n l : loop_ok objs n l -> length (copied objs l) = last_spec l.
Proof. intros [? ? ? ?]. unfold copied. rewrite length_take, length_drop. lia. Qed.

Lemma spec_step_ok objs speculated n l x e :
  loop_ok objs n l -> objs !! n = Some x ->
  exists l', spec_step objs speculated e l = Some l' /\ loop_ok objs (S n) l'
    /\ (forall e', stream (out l') e'
          = stream (out l) e' ++ (if decide (e = e' /\ e <> speculated) then [x] else []))
    /\ to_next l' ++ copied objs l'
       = (to_next l ++ copied objs l) ++ (if decide (e = speculated) then [x] else []).
Proof.
  intros Hok Hx. pose proof (length_copied _ _ _ Hok) as Hlen. destruct Hok as [Hp Hb Hh Hle].
  pose proof (lookup_lt_Some _ _ _ Hx) as Hlt. unfold spec_step.
  destruct (e =? speculated) eqn:E; bools; cbn [negb].
  - subst e. eexists; split_and!; [done| | |].
    + split; cbn; lia.
    + intros e'. cbn. rewrite decide_False by tauto. by rewrite app_nil_r.
    + cbn [to_next]. rewrite decide_True, <-app_assoc by done. f_equal. unfold copied. cbn [from last_spec].
      rewrite Nat.add_1_r. apply take_S_r. rewrite lookup_drop. by rewrite Hp.
  - rewrite Hp, Hx. cbn. eexists; split_and!; [done| | |].
    + split; cbn; rewrite ?length_app; lia.
    + intros e'. cbn. rewrite stream_enqueue. f_equal. repeat case_decide; tauto.
    + cbn. rewrite decide_False by done. unfold copied at 2. cbn. by rewrite !app_nil_r.
Qed.

Lemma spec_loop_run_ok objs speculated edges n l :
  loop_ok objs n l -> length objs = (n + length edges)%nat ->
  exists l', spec_loop_run objs speculated edges l = Some l' /\ loop_ok objs (length objs) l'
    /\ (forall e, e <> speculated -> stream (out l') e = stream (out l) e ++ packets_for e (drop n objs) edges)
    /\ stream (out l') speculated = stream (out l) speculated
    /\ to_next l' ++ copied objs l'
       = (to_next l ++ copied objs l) ++ packets_for speculated (drop n objs) edges.
Proof.
  revert n l; induction edges as [|e edges IH]; intros n l Hok Hn; cbn [length] in Hn.
  - assert (drop n objs = []) as -> by (apply drop_ge; lia). exists l.
    replace (length objs) with n by lia. cbn. split_and!; try done; [intros ? _|]; by rewrite app_nil_r.
  - destruct (lookup_lt_is_Some_2 objs n) as [x Hx]; [lia|].
    destruct (spec_step_ok objs speculated n l x e Hok Hx) as (l1 & H1 & Hok1 & Hs1 & Hc1).
    destruct (IH (S n) l1 Hok1 ltac:(lia)) as (l' & H' & Hok' & Hs' & Hsp' & Hc').
    exists l'. cbn. rewrite H1. cbn. rewrite (drop_S _ _ _ Hx). split_and!; [done | done | | |].
    + intros e' He'. rewrite Hs', Hs1, packets_for_cons, <-app_assoc by done. do 2 f_equal.
      repeat case_decide; try tauto; subst; tauto.
    + rewrite Hsp', Hs1, decide_False by (intros [-> ?]; done). by rewrite app_nil_r.
    + by rewrite Hc', Hc1, packets_for_cons, <-app_assoc.
Qed.

(** C17: Handing a burst over with a speculated edge (copying runs of packets
    that keep to it, moving the whole stream if all do) delivers exactly what
    handing the packets over one by one does: every next node receives the
    packets whose [get_next_index] named it, in their order, and no others. *)
Theorem foreach_graph_packet_delivers objs speculated edges s :
  length objs = length edges ->
  exists s', dp_foreach_graph_packet objs speculated edges s = Some s'
    /\ forall e, stream s' e = stream s e ++ packets_for e objs edges.
Proof.
  intros Hlen. unfold dp_foreach_graph_packet. destruct (speculated >=? 0) eqn:E; bools.
  2: { eexists; split; [done|]. intros e. apply foldl_enqueue. }
  destruct (spec_loop_run_ok objs speculated edges 0 (mk_loop 0 0 0 [] s)) as (l & Hr & Hok & Hs & Hsp & Hc).
  { by split; cbn; lia. } { cbn. lia. }
  rewrite Hr. cbn [mbind option_bind]. cbn in Hs, Hsp, Hc. rewrite drop_0 in Hs, Hc. rewrite take_0 in Hc. cbn in Hc.
  pose proof (length_copied _ _ _ Hok) as Hl. destruct Hok as [Hp _ Hh Hle].
  assert (take (held l + last_spec l) (to_next l ++ copied objs l) = packets_for speculated objs edges) as Hall.
  { rewrite take_ge; [done|]. rewrite length_app. lia. }
  assert (last_spec l = length objs -> objs = packets_for speculated objs edges) as Hfull.
  { intros Hf. rewrite <-Hc. assert (from l = 0%nat) as Hz by lia.
    assert (to_next l = []) as -> by (apply length_zero_iff_nil; lia).
    unfold copied. rewrite Hz, Hf. cbn. by rewrite firstn_all. }
  destruct (last_spec l =? length objs)%nat eqn:El; eexists; (split; [done|]); intros e; rewrite stream_enqueue.
  - apply Nat.eqb_eq in El. case_decide; subst; [by rewrite Hsp, <-Hfull | by rewrite app_nil_r, Hs].
  - rewrite Hall. case_decide; subst; [by rewrite Hsp | by rewrite app_nil_r, Hs].
Qed.
End foreach.

(** ** A concrete graph *)
Module GraphExample.
Lemma append_law (edges : list string) (name : string) :
  let '(r, edges') := (1, edges ++ [name]) in
  (r = 1 /\ edges' = edges ++ [name]) \/ (r <> 1 /\ edges' = edges).
Proof. by left. Qed.

#[export] Instance node_append : RteNode :=
  {| rte_node_edge_update edges name := (1, edges ++ [name]); edge_update_law := append_law |}.

Definition some_iface : dp_port_iface :=
  mk_iface [] 0 (mk_iface_cfg 0 0 0 dp_empty_ipv6 0 (dp_set_ipaddr4 0) [] []) 100 false [] dp_empty_ipv6
    0 0 0 true false 0 0 0.
Definition some_port (pf : bool) (n : Z) : dp_port := mk_port pf n 0 1 true 0 0 [] [] some_iface false 0.
Definition port_list : list dp_port := [some_port true 0; some_port true 1; some_port false 2].
Definition ports : port_table := list_to_map ((fun p => (port_id p, p)) <$> port_list).
Definition graph : graph_state :=
  snd (dp_graph_init_nodes (ERR := dpdk_errno) ports port_list true (fun _ => true) (fun _ => true) graph_boot).

Lemma graph_edges_lead_to_ports_witness :
  (true = true -> leads_to graph "cls" (next_ipsec_decap_index graph) "ipsec_decap")
  /\ forall port, port ∈ port_list -> forall node array id,
       KTx node array id ∈ port_keys true port ->
       exists i, next_index_table graph node array !! id = Some i /\ leads_to graph node i (name_of array id).
Proof.
  apply (graph_edges_lead_to_ports (ERR := dpdk_errno) ports port_list true (fun _ => true) (fun _ => true));
    vm_compute; [lia | reflexivity].
Defined.

Lemma foreach_graph_packet_delivers_witness :
  exists s', dp_foreach_graph_packet [10; 11; 12; 13] 3 [3; 3; 0; 3] ∅ = Some s'
    /\ forall e, stream s' e = stream ∅ e ++ packets_for e [10; 11; 12; 13] [3; 3; 0; 3].
Proof. apply (foreach_graph_packet_delivers [10; 11; 12; 13]). reflexivity. Defined.
End GraphExample.
