(* ===== verification/Packet.v ===== *)
(** Packets: the model of [include/dp_mbuf_dyn.h] and of the parts of
    [struct rte_mbuf] the graph nodes use.

    A packet is its buffer (the bytes before, in and after the data), the
    metadata of the mbuf, and the two structures dpservice keeps in the mbuf's
    private area: [struct dp_flow] and [struct dp_pkt_mark].  Headers are read
    from and written to the bytes.  [rte_pktmbuf_adj] and [rte_pktmbuf_prepend]
    belong to DPDK and are the class [RteMbuf]. *)

From S2P Require Import Prelude Errors IpAddr Port.

(** ** Protocol numbers *)

Definition RTE_ETHER_TYPE_IPV4 : Z := 0x0800.
Definition RTE_ETHER_TYPE_IPV6 : Z := 0x86DD.
Definition IPPROTO_ICMP : Z := 1.
Definition IPPROTO_IPIP : Z := 4.
Definition IPPROTO_TCP : Z := 6.
Definition IPPROTO_UDP : Z := 17.
Definition IPPROTO_IPV6 : Z := 41.
Definition IPPROTO_ESP : Z := 50.
Definition IPPROTO_ICMPV6 : Z := 58.

(** ** Flow data *)

Inductive dp_flow_type := DP_FLOW_WEST_EAST | DP_FLOW_SOUTH_NORTH.
Inductive dp_pkt_offload_state :=
| DP_FLOW_NON_OFFLOAD | DP_FLOW_OFFLOAD_INSTALL | DP_FLOW_OFFLOADED.
Inductive dp_flow_dir := DP_FLOW_DIR_ORG | DP_FLOW_DIR_REPLY.
Inductive dp_nat_type :=
| DP_NAT_CHG_NONE | DP_NAT_CHG_SRC_IP | DP_NAT_CHG_DST_IP | DP_CHG_UL_DST_IP
| DP_LB_RECIRC | DP_NAT_64_CHG_SRC_IP | DP_NAT_64_CHG_DST_IP.
Inductive dp_vnf_type :=
| DP_VNF_TYPE_UNDEFINED | DP_VNF_TYPE_INTERFACE_IP | DP_VNF_TYPE_VIP | DP_VNF_TYPE_NAT
| DP_VNF_TYPE_LB | DP_VNF_TYPE_LB_ALIAS_PFX | DP_VNF_TYPE_ALIAS_PFX.

#[export] Instance dp_flow_dir_eq_dec : EqDecision dp_flow_dir.
Proof. solve_decision. Defined.
#[export] Instance dp_flow_type_eq_dec : EqDecision dp_flow_type.
Proof. solve_decision. Defined.
#[export] Instance dp_nat_type_eq_dec : EqDecision dp_nat_type.
Proof. solve_decision. Defined.
#[export] Instance dp_pkt_offload_state_eq_dec : EqDecision dp_pkt_offload_state.
Proof. solve_decision. Defined.
#[export] Instance dp_vnf_type_eq_dec : EqDecision dp_vnf_type.
Proof. solve_decision. Defined.

Record dp_flow := mk_flow {
  flow_type : dp_flow_type;
  nat_type : dp_nat_type;
  flow_dir : dp_flow_dir;
  offload_state : dp_pkt_offload_state;
  df_vnf_type : dp_vnf_type;
  tun_dst_resolved : bool;
  l3_type : Z;
  l3_payload_length : Z;
  df_dst : dp_ipv6;
  df_src : dp_ipv6;
  nat_addr : Z;
  nat_port : Z;
  l4_type : Z;
  l4_dst_port : Z;
  l4_src_port : Z;
  dp_flow_hash : Z;
  ul_src_addr6 : dp_ipv6;
  ul_dst_addr6 : dp_ipv6;
  tun_l3_type : Z;
  proto_id : Z;
  dst_vni : Z;
  nxt_hop : Z;
  conntrack : option positive;
  df_virtsvc : option nat
}.

Definition set_flow_type (x : dp_flow_type) (r : dp_flow) : dp_flow :=
  mk_flow x (nat_type r) (flow_dir r) (offload_state r) (df_vnf_type r) (tun_dst_resolved r)
    (l3_type r) (l3_payload_length r) (df_dst r) (df_src r) (nat_addr r) (nat_port r)
    (l4_type r) (l4_dst_port r) (l4_src_port r) (dp_flow_hash r) (ul_src_addr6 r)
    (ul_dst_addr6 r) (tun_l3_type r) (proto_id r) (dst_vni r) (nxt_hop r) (conntrack r)
    (df_virtsvc r).
Definition set_nat_type (x : dp_nat_type) (r : dp_flow) : dp_flow :=
  mk_flow (flow_type r) x (flow_dir r) (offload_state r) (df_vnf_type r) (tun_dst_resolved r)
    (l3_type r) (l3_payload_length r) (df_dst r) (df_src r) (nat_addr r) (nat_port r)
    (l4_type r) (l4_dst_port r) (l4_src_port r) (dp_flow_hash r) (ul_src_addr6 r)
    (ul_dst_addr6 r) (tun_l3_type r) (proto_id r) (dst_vni r) (nxt_hop r) (conntrack r)
    (df_virtsvc r).
Definition set_flow_dir (x : dp_flow_dir) (r : dp_flow) : dp_flow :=
  mk_flow (flow_type r) (nat_type r) x (offload_state r) (df_vnf_type r) (tun_dst_resolved r)
    (l3_type r) (l3_payload_length r) (df_dst r) (df_src r) (nat_addr r) (nat_port r)
    (l4_type r) (l4_dst_port r) (l4_src_port r) (dp_flow_hash r) (ul_src_addr6 r)
    (ul_dst_addr6 r) (tun_l3_type r) (proto_id r) (dst_vni r) (nxt_hop r) (conntrack r)
    (df_virtsvc r).
Definition set_offload_state (x : dp_pkt_offload_state) (r : dp_flow) : dp_flow :=
  mk_flow (flow_type r) (nat_type r) (flow_dir r) x (df_vnf_type r) (tun_dst_resolved r)
    (l3_type r) (l3_payload_length r) (df_dst r) (df_src r) (nat_addr r) (nat_port r)
    (l4_type r) (l4_dst_port r) (l4_src_port r) (dp_flow_hash r) (ul_src_addr6 r)
    (ul_dst_addr6 r) (tun_l3_type r) (proto_id r) (dst_vni r) (nxt_hop r) (conntrack r)
    (df_virtsvc r).
Definition set_df_vnf_type (x : dp_vnf_type) (r : dp_flow) : dp_flow :=
  mk_flow (flow_type r) (nat_type r) (flow_dir r) (offload_state r) x (tun_dst_resolved r)
    (l3_type r) (l3_payload_length r) (df_dst r) (df_src r) (nat_addr r) (nat_port r)
    (l4_type r) (l4_dst_port r) (l4_src_port r) (dp_flow_hash r) (ul_src_addr6 r)
    (ul_dst_addr6 r) (tun_l3_type r) (proto_id r) (dst_vni r) (nxt_hop r) (conntrack r)
    (df_virtsvc r).
Definition set_tun_dst_resolved (x : bool) (r : dp_flow) : dp_flow :=
  mk_flow (flow_type r) (nat_type r) (flow_dir r) (offload_state r) (df_vnf_type r) x
    (l3_type r) (l3_payload_length r) (df_dst r) (df_src r) (nat_addr r) (nat_port r)
    (l4_type r) (l4_dst_port r) (l4_src_port r) (dp_flow_hash r) (ul_src_addr6 r)
    (ul_dst_addr6 r) (tun_l3_type r) (proto_id r) (dst_vni r) (nxt_hop r) (conntrack r)
    (df_virtsvc r).
Definition set_l3_type (x : Z) (r : dp_flow) : dp_flow :=
  mk_flow (flow_type r) (nat_type r) (flow_dir r) (offload_state r) (df_vnf_type r)
    (tun_dst_resolved r) x (l3_payload_length r) (df_dst r) (df_src r) (nat_addr r)
    (nat_port r) (l4_type r) (l4_dst_port r) (l4_src_port r) (dp_flow_hash r)
    (ul_src_addr6 r) (ul_dst_addr6 r) (tun_l3_type r) (proto_id r) (dst_vni r)
    (nxt_hop r) (conntrack r) (df_virtsvc r).
Definition set_l3_payload_length (x : Z) (r : dp_flow) : dp_flow :=
  mk_flow (flow_type r) (nat_type r) (flow_dir r) (offload_state r) (df_vnf_type r)
    (tun_dst_resolved r) (l3_type r) x (df_dst r) (df_src r) (nat_addr r) (nat_port r)
    (l4_type r) (l4_dst_port r) (l4_src_port r) (dp_flow_hash r) (ul_src_addr6 r)
    (ul_dst_addr6 r) (tun_l3_type r) (proto_id r) (dst_vni r) (nxt_hop r) (conntrack r)
    (df_virtsvc r).
Definition set_df_dst (x : dp_ipv6) (r : dp_flow) : dp_flow :=
  mk_flow (flow_type r) (nat_type r) (flow_dir r) (offload_state r) (df_vnf_type r)
    (tun_dst_resolved r) (l3_type r) (l3_payload_length r) x (df_src r) (nat_addr r)
    (nat_port r) (l4_type r) (l4_dst_port r) (l4_src_port r) (dp_flow_hash r)
    (ul_src_addr6 r) (ul_dst_addr6 r) (tun_l3_type r) (proto_id r) (dst_vni r)
    (nxt_hop r) (conntrack r) (df_virtsvc r).
Definition set_df_src (x : dp_ipv6) (r : dp_flow) : dp_flow :=
  mk_flow (flow_type r) (nat_type r) (flow_dir r) (offload_state r) (df_vnf_type r)
    (tun_dst_resolved r) (l3_type r) (l3_payload_length r) (df_dst r) x (nat_addr r)
    (nat_port r) (l4_type r) (l4_dst_port r) (l4_src_port r) (dp_flow_hash r)
    (ul_src_addr6 r) (ul_dst_addr6 r) (tun_l3_type r) (proto_id r) (dst_vni r)
    (nxt_hop r) (conntrack r) (df_virtsvc r).
Definition set_nat_addr (x : Z) (r : dp_flow) : dp_flow :=
  mk_flow (flow_type r) (nat_type r) (flow_dir r) (offload_state r) (df_vnf_type r)
    (tun_dst_resolved r) (l3_type r) (l3_payload_length r) (df_dst r) (df_src r) x
    (nat_port r) (l4_type r) (l4_dst_port r) (l4_src_port r) (dp_flow_hash r)
    (ul_src_addr6 r) (ul_dst_addr6 r) (tun_l3_type r) (proto_id r) (dst_vni r)
    (nxt_hop r) (conntrack r) (df_virtsvc r).
Definition set_nat_port (x : Z) (r : dp_flow) : dp_flow :=
  mk_flow (flow_type r) (nat_type r) (flow_dir r) (offload_state r) (df_vnf_type r)
    (tun_dst_resolved r) (l3_type r) (l3_payload_length r) (df_dst r) (df_src r)
    (nat_addr r) x (l4_type r) (l4_dst_port r) (l4_src_port r) (dp_flow_hash r)
    (ul_src_addr6 r) (ul_dst_addr6 r) (tun_l3_type r) (proto_id r) (dst_vni r)
    (nxt_hop r) (conntrack r) (df_virtsvc r).
Definition set_l4_type (x : Z) (r : dp_flow) : dp_flow :=
  mk_flow (flow_type r) (nat_type r) (flow_dir r) (offload_state r) (df_vnf_type r)
    (tun_dst_resolved r) (l3_type r) (l3_payload_length r) (df_dst r) (df_src r)
    (nat_addr r) (nat_port r) x (l4_dst_port r) (l4_src_port r) (dp_flow_hash r)
    (ul_src_addr6 r) (ul_dst_addr6 r) (tun_l3_type r) (proto_id r) (dst_vni r)
    (nxt_hop r) (conntrack r) (df_virtsvc r).
Definition set_l4_dst_port (x : Z) (r : dp_flow) : dp_flow :=
  mk_flow (flow_type r) (nat_type r) (flow_dir r) (offload_state r) (df_vnf_type r)
    (tun_dst_resolved r) (l3_type r) (l3_payload_length r) (df_dst r) (df_src r)
    (nat_addr r) (nat_port r) (l4_type r) x (l4_src_port r) (dp_flow_hash r)
    (ul_src_addr6 r) (ul_dst_addr6 r) (tun_l3_type r) (proto_id r) (dst_vni r)
    (nxt_hop r) (conntrack r) (df_virtsvc r).
Definition set_l4_src_port (x : Z) (r : dp_flow) : dp_flow :=
  mk_flow (flow_type r) (nat_type r) (flow_dir r) (offload_state r) (df_vnf_type r)
    (tun_dst_resolved r) (l3_type r) (l3_payload_length r) (df_dst r) (df_src r)
    (nat_addr r) (nat_port r) (l4_type r) (l4_dst_port r) x (dp_flow_hash r)
    (ul_src_addr6 r) (ul_dst_addr6 r) (tun_l3_type r) (proto_id r) (dst_vni r)
    (nxt_hop r) (conntrack r) (df_virtsvc r).
Definition set_dp_flow_hash (x : Z) (r : dp_flow) : dp_flow :=
  mk_flow (flow_type r) (nat_type r) (flow_dir r) (offload_state r) (df_vnf_type r)
    (tun_dst_resolved r) (l3_type r) (l3_payload_length r) (df_dst r) (df_src r)
    (nat_addr r) (nat_port r) (l4_type r) (l4_dst_port r) (l4_src_port r) x
    (ul_src_addr6 r) (ul_dst_addr6 r) (tun_l3_type r) (proto_id r) (dst_vni r)
    (nxt_hop r) (conntrack r) (df_virtsvc r).
Definition set_ul_src_addr6 (x : dp_ipv6) (r : dp_flow) : dp_flow :=
  mk_flow (flow_type r) (nat_type r) (flow_dir r) (offload_state r) (df_vnf_type r)
    (tun_dst_resolved r) (l3_type r) (l3_payload_length r) (df_dst r) (df_src r)
    (nat_addr r) (nat_port r) (l4_type r) (l4_dst_port r) (l4_src_port r)
    (dp_flow_hash r) x (ul_dst_addr6 r) (tun_l3_type r) (proto_id r) (dst_vni r)
    (nxt_hop r) (conntrack r) (df_virtsvc r).
Definition set_ul_dst_addr6 (x : dp_ipv6) (r : dp_flow) : dp_flow :=
  mk_flow (flow_type r) (nat_type r) (flow_dir r) (offload_state r) (df_vnf_type r)
    (tun_dst_resolved r) (l3_type r) (l3_payload_length r) (df_dst r) (df_src r)
    (nat_addr r) (nat_port r) (l4_type r) (l4_dst_port r) (l4_src_port r)
    (dp_flow_hash r) (ul_src_addr6 r) x (tun_l3_type r) (proto_id r) (dst_vni r)
    (nxt_hop r) (conntrack r) (df_virtsvc r).
Definition set_tun_l3_type (x : Z) (r : dp_flow) : dp_flow :=
  mk_flow (flow_type r) (nat_type r) (flow_dir r) (offload_state r) (df_vnf_type r)
    (tun_dst_resolved r) (l3_type r) (l3_payload_length r) (df_dst r) (df_src r)
    (nat_addr r) (nat_port r) (l4_type r) (l4_dst_port r) (l4_src_port r)
    (dp_flow_hash r) (ul_src_addr6 r) (ul_dst_addr6 r) x (proto_id r) (dst_vni r)
    (nxt_hop r) (conntrack r) (df_virtsvc r).
Definition set_proto_id (x : Z) (r : dp_flow) : dp_flow :=
  mk_flow (flow_type r) (nat_type r) (flow_dir r) (offload_state r) (df_vnf_type r)
    (tun_dst_resolved r) (l3_type r) (l3_payload_length r) (df_dst r) (df_src r)
    (nat_addr r) (nat_port r) (l4_type r) (l4_dst_port r) (l4_src_port r)
    (dp_flow_hash r) (ul_src_addr6 r) (ul_dst_addr6 r) (tun_l3_type r) x (dst_vni r)
    (nxt_hop r) (conntrack r) (df_virtsvc r).
Definition set_dst_vni (x : Z) (r : dp_flow) : dp_flow :=
  mk_flow (flow_type r) (nat_type r) (flow_dir r) (offload_state r) (df_vnf_type r)
    (tun_dst_resolved r) (l3_type r) (l3_payload_length r) (df_dst r) (df_src r)
    (nat_addr r) (nat_port r) (l4_type r) (l4_dst_port r) (l4_src_port r)
    (dp_flow_hash r) (ul_src_addr6 r) (ul_dst_addr6 r) (tun_l3_type r) (proto_id r) x
    (nxt_hop r) (conntrack r) (df_virtsvc r).
Definition set_nxt_hop (x : Z) (r : dp_flow) : dp_flow :=
  mk_flow (flow_type r) (nat_type r) (flow_dir r) (offload_state r) (df_vnf_type r)
    (tun_dst_resolved r) (l3_type r) (l3_payload_length r) (df_dst r) (df_src r)
    (nat_addr r) (nat_port r) (l4_type r) (l4_dst_port r) (l4_src_port r)
    (dp_flow_hash r) (ul_src_addr6 r) (ul_dst_addr6 r) (tun_l3_type r) (proto_id r)
    (dst_vni r) x (conntrack r) (df_virtsvc r).
Definition set_conntrack (x : option positive) (r : dp_flow) : dp_flow :=
  mk_flow (flow_type r) (nat_type r) (flow_dir r) (offload_state r) (df_vnf_type r)
    (tun_dst_resolved r) (l3_type r) (l3_payload_length r) (df_dst r) (df_src r)
    (nat_addr r) (nat_port r) (l4_type r) (l4_dst_port r) (l4_src_port r)
    (dp_flow_hash r) (ul_src_addr6 r) (ul_dst_addr6 r) (tun_l3_type r) (proto_id r)
    (dst_vni r) (nxt_hop r) x (df_virtsvc r).
Definition set_df_virtsvc (x : option nat) (r : dp_flow) : dp_flow :=
  mk_flow (flow_type r) (nat_type r) (flow_dir r) (offload_state r) (df_vnf_type r)
    (tun_dst_resolved r) (l3_type r) (l3_payload_length r) (df_dst r) (df_src r)
    (nat_addr r) (nat_port r) (l4_type r) (l4_dst_port r) (l4_src_port r)
    (dp_flow_hash r) (ul_src_addr6 r) (ul_dst_addr6 r) (tun_l3_type r) (proto_id r)
    (dst_vni r) (nxt_hop r) (conntrack r) x.

(** The members that share storage: an IPv4 address with the first four bytes
    of an IPv6 one, the ICMP fields with the ports. *)
Definition dst_addr (df : dp_flow) : Z := _prefix (df_dst df) mod 2 ^ 32.
Definition src_addr (df : dp_flow) : Z := _prefix (df_src df) mod 2 ^ 32.
Definition put_ipv4 (a : dp_ipv6) (ip : Z) : dp_ipv6 :=
  mk_ipv6 (_prefix a - _prefix a mod 2 ^ 32 + u32 ip) (_suffix a).
Definition set_dst_addr (ip : Z) (df : dp_flow) : dp_flow := set_df_dst (put_ipv4 (df_dst df) ip) df.
Definition set_src_addr (ip : Z) (df : dp_flow) : dp_flow := set_df_src (put_ipv4 (df_src df) ip) df.
Definition icmp_type (df : dp_flow) : Z := l4_dst_port df mod 2 ^ 8.
Definition icmp_code (df : dp_flow) : Z := (l4_dst_port df / 2 ^ 8) mod 2 ^ 8.
Definition icmp_identifier (df : dp_flow) : Z := l4_src_port df.
Definition set_icmp (type code ident : Z) (df : dp_flow) : dp_flow :=
  set_l4_src_port ident (set_l4_dst_port (type + code * 2 ^ 8) df).

(** [dp_init_flow_ptr]: all zero. *)
Definition dp_init_flow : dp_flow :=
  mk_flow DP_FLOW_WEST_EAST DP_NAT_CHG_NONE DP_FLOW_DIR_ORG DP_FLOW_NON_OFFLOAD
    DP_VNF_TYPE_UNDEFINED false 0 0 (mk_ipv6 0 0) (mk_ipv6 0 0) 0 0 0 0 0 0
    (mk_ipv6 0 0) (mk_ipv6 0 0) 0 0 0 0 None None.

Record dp_pkt_mark := mk_mark { mark_id : Z; is_recirc : bool; crypto_failed : bool }.

(** [dp_init_pkt_mark]; the counter is global. *)
Definition dp_init_pkt_mark (dp_pkt_id_counter : Z) : dp_pkt_mark * Z :=
  let id := u32 (dp_pkt_id_counter + 1) in
  (mk_mark id false false, id).

(** ** Buffers *)

Record rte_buf := mk_buf { headroom : list Z; data : list Z; tailroom : list Z }.

Record rte_mbuf := mk_mbuf {
  buf : rte_buf;
  m_port : Z;
  packet_type : Z;
  ol_flags : Z;
  l2_len : Z;
  l3_len : Z;
  l4_len : Z;
  outer_l2_len : Z;
  outer_l3_len : Z;
  flow : dp_flow;
  mark : dp_pkt_mark
}.

Definition set_buf (x : rte_buf) (r : rte_mbuf) : rte_mbuf :=
  mk_mbuf x (m_port r) (packet_type r) (ol_flags r) (l2_len r) (l3_len r) (l4_len r)
    (outer_l2_len r) (outer_l3_len r) (flow r) (mark r).
Definition set_m_port (x : Z) (r : rte_mbuf) : rte_mbuf :=
  mk_mbuf (buf r) x (packet_type r) (ol_flags r) (l2_len r) (l3_len r) (l4_len r)
    (outer_l2_len r) (outer_l3_len r) (flow r) (mark r).
Definition set_packet_type (x : Z) (r : rte_mbuf) : rte_mbuf :=
  mk_mbuf (buf r) (m_port r) x (ol_flags r) (l2_len r) (l3_len r) (l4_len r) (outer_l2_len r)
    (outer_l3_len r) (flow r) (mark r).
Definition set_ol_flags (x : Z) (r : rte_mbuf) : rte_mbuf :=
  mk_mbuf (buf r) (m_port r) (packet_type r) x (l2_len r) (l3_len r) (l4_len r)
    (outer_l2_len r) (outer_l3_len r) (flow r) (mark r).
Definition set_l2_len (x : Z) (r : rte_mbuf) : rte_mbuf :=
  mk_mbuf (buf r) (m_port r) (packet_type r) (ol_flags r) x (l3_len r) (l4_len r)
    (outer_l2_len r) (outer_l3_len r) (flow r) (mark r).
Definition set_l3_len (x : Z) (r : rte_mbuf) : rte_mbuf :=
  mk_mbuf (buf r) (m_port r) (packet_type r) (ol_flags r) (l2_len r) x (l4_len r)
    (outer_l2_len r) (outer_l3_len r) (flow r) (mark r).
Definition set_l4_len (x : Z) (r : rte_mbuf) : rte_mbuf :=
  mk_mbuf (buf r) (m_port r) (packet_type r) (ol_flags r) (l2_len r) (l3_len r) x
    (outer_l2_len r) (outer_l3_len r) (flow r) (mark r).
Definition set_outer_l2_len (x : Z) (r : rte_mbuf) : rte_mbuf :=
  mk_mbuf (buf r) (m_port r) (packet_type r) (ol_flags r) (l2_len r) (l3_len r) (l4_len r) x
    (outer_l3_len r) (flow r) (mark r).
Definition set_outer_l3_len (x : Z) (r : rte_mbuf) : rte_mbuf :=
  mk_mbuf (buf r) (m_port r) (packet_type r) (ol_flags r) (l2_len r) (l3_len r) (l4_len r)
    (outer_l2_len r) x (flow r) (mark r).
Definition set_flow (x : dp_flow) (r : rte_mbuf) : rte_mbuf :=
  mk_mbuf (buf r) (m_port r) (packet_type r) (ol_flags r) (l2_len r) (l3_len r) (l4_len r)
    (outer_l2_len r) (outer_l3_len r) x (mark r).
Definition set_mark (x : dp_pkt_mark) (r : rte_mbuf) : rte_mbuf :=
  mk_mbuf (buf r) (m_port r) (packet_type r) (ol_flags r) (l2_len r) (l3_len r) (l4_len r)
    (outer_l2_len r) (outer_l3_len r) (flow r) x.

Definition pkt_len (m : rte_mbuf) : Z := Z.of_nat (length (data (buf m))).

(** DPDK's buffer operations.  [None] is a [NULL] result, which leaves the
    packet as it was. *)
Class RteMbuf := {
  rte_pktmbuf_adj : rte_buf -> nat -> option rte_buf;
  rte_pktmbuf_prepend : rte_buf -> nat -> option rte_buf;
  adj_law b n :
    rte_pktmbuf_adj b n
    = if decide (n <= length (data b))%nat
      then Some (mk_buf (headroom b ++ take n (data b)) (drop n (data b)) (tailroom b))
      else None;
  prepend_law b n :
    rte_pktmbuf_prepend b n
    = if decide (n <= length (headroom b))%nat
      then Some (mk_buf (take (length (headroom b) - n) (headroom b))
                   (drop (length (headroom b) - n) (headroom b) ++ data b) (tailroom b))
      else None
}.

(** ** Reading and writing headers *)

Definition bytes_at (off n : nat) (l : list Z) : list Z := take n (drop off l).

(** The memory a pointer into the packet reaches: the data and the tailroom
    behind it.  A read past the end of the data sees whatever lies there; one
    past the end of the buffer is undefined ([None]). *)
Definition memory (b : rte_buf) : list Z := data b ++ tailroom b.

Definition read_bytes (b : rte_buf) (off n : nat) : option (list Z) :=
  if decide (off + n <= length (memory b))%nat then Some (bytes_at off n (memory b)) else None.

Definition read_le (b : rte_buf) (off n : nat) : option Z := le_join <$> read_bytes b off n.

Definition read_ipv6 (b : rte_buf) (off : nat) : option dp_ipv6 :=
  ipv6_of_bytes <$> read_bytes b off 16.

Definition write_list (off : nat) (bs l : list Z) : list Z :=
  take off l ++ bs ++ drop (off + length bs) l.

Definition write_bytes (b : rte_buf) (off : nat) (bs : list Z) : option rte_buf :=
  if decide (off + length bs <= length (memory b))%nat
  then let l := write_list off bs (memory b) in
       Some (mk_buf (headroom b) (take (length (data b)) l) (drop (length (data b)) l))
  else None.

Definition sizeof_ether : nat := 14.
Definition sizeof_ipv4 : nat := 20.
Definition sizeof_ipv6 : nat := 40.
Definition sizeof_esp : nat := 8.
Definition sizeof_tcp : nat := 20.
Definition sizeof_udp : nat := 8.
Definition sizeof_icmp : nat := 8.

(** Offsets of the fields of a header at [off]. *)
Definition ether_type_off : nat := 12.
Definition ipv6_payload_len_off : nat := 4.
Definition ipv6_proto_off : nat := 6.
Definition ipv6_hop_off : nat := 7.
Definition ipv6_src_off : nat := 8.
Definition ipv6_dst_off : nat := 24.
Definition ipv4_total_length_off : nat := 2.
Definition ipv4_ttl_off : nat := 8.
Definition ipv4_proto_off : nat := 9.
Definition ipv4_cksum_off : nat := 10.
Definition ipv4_src_off : nat := 12.
Definition ipv4_dst_off : nat := 16.
Definition l4_src_port_off : nat := 0.
Definition l4_dst_port_off : nat := 2.
Definition tcp_flags_off : nat := 13.
Definition tcp_cksum_off : nat := 16.
Definition udp_cksum_off : nat := 6.
Definition icmp_type_off : nat := 0.
Definition icmp_code_off : nat := 1.
Definition icmp_cksum_off : nat := 2.
Definition icmp_ident_off : nat := 4.

(** ** Access by the nodes *)

(** A node works on one packet: the state of its monad. *)
Definition rd (off n : nat) : M rte_mbuf Z := m ← gets buf; get_some (read_le m off n).
Definition rd_ipv6 (off : nat) : M rte_mbuf dp_ipv6 := m ← gets buf; get_some (read_ipv6 m off).
Definition wr_bytes (off : nat) (bs : list Z) : M rte_mbuf unit :=
  b ← gets buf; b' ← get_some (write_bytes b off bs); modify (set_buf b').
Definition wr (off n : nat) (x : Z) : M rte_mbuf unit := wr_bytes off (le_split n x).
Definition wr_ipv6 (off : nat) (a : dp_ipv6) : M rte_mbuf unit := wr_bytes off (ipv6_bytes a).
Definition upd_flow (f : dp_flow -> dp_flow) : M rte_mbuf unit := modify (fun m => set_flow (f (flow m)) m).

Definition get_in_port (ports : port_table) : M rte_mbuf dp_port :=
  id ← gets m_port; o ← get_some (port_table_at ports id); get_some o.
Definition get_out_port (ports : port_table) : M rte_mbuf dp_port :=
  id ← gets (fun m => nxt_hop (flow m)); o ← get_some (port_table_at ports id); get_some o.

(** [dp_extract_*] with the header at offset [off]. *)
Definition dp_extract_ipv4_header (off : nat) : M rte_mbuf unit :=
  src ← rd (off + ipv4_src_off) 4;
  upd_flow (set_src_addr src) ;;
  dst ← rd (off + ipv4_dst_off) 4;
  upd_flow (set_dst_addr dst) ;;
  proto ← rd (off + ipv4_proto_off) 1;
  upd_flow (set_l4_type proto).

Definition dp_extract_ipv6_header (off : nat) : M rte_mbuf unit :=
  dst ← rd_ipv6 (off + ipv6_dst_off);
  upd_flow (set_df_dst dst) ;;
  src ← rd_ipv6 (off + ipv6_src_off);
  upd_flow (set_df_src src) ;;
  proto ← rd (off + ipv6_proto_off) 1;
  upd_flow (set_l4_type proto).

Definition dp_extract_l4_header `{RteErrno} (off : nat) : M rte_mbuf Z :=
  l4 ← gets (fun m => l4_type (flow m));
  if (l4 =? IPPROTO_TCP) || (l4 =? IPPROTO_UDP) then
    dport ← rd (off + l4_dst_port_off) 2;
    upd_flow (set_l4_dst_port dport) ;;
    sport ← rd (off + l4_src_port_off) 2;
    upd_flow (set_l4_src_port sport) ;;
    mret DP_OK
  else if (l4 =? IPPROTO_ICMP) || (l4 =? IPPROTO_ICMPV6) then
    type ← rd (off + icmp_type_off) 1;
    code ← rd (off + icmp_code_off) 1;
    ident ← rd (off + icmp_ident_off) 2;
    upd_flow (set_icmp type code ident) ;;
    mret DP_OK
  else mret DP_ERROR.

Definition dp_extract_underlay_header (off : nat) : M rte_mbuf unit :=
  src ← rd_ipv6 (off + ipv6_src_off);
  upd_flow (set_ul_src_addr6 src) ;;
  dst ← rd_ipv6 (off + ipv6_dst_off);
  upd_flow (set_ul_dst_addr6 dst) ;;
  proto ← rd (off + ipv6_proto_off) 1;
  upd_flow (set_proto_id proto).

(** [dp_fill_ether_hdr] of [include/dp_iface.h], at the start of the data. *)
Definition dp_fill_ether_hdr (port : dp_port) (ether_type : Z) : M rte_mbuf unit :=
  wr_bytes 0 (neigh_mac port) ;;
  wr_bytes 6 (own_mac port) ;;
  wr ether_type_off 2 (htons ether_type).

(** ** Lemmas on buffers *)

Lemma length_write_list off bs l :
  (off + length bs <= length l)%nat -> length (write_list off bs l) = length l.
Proof. intros. unfold write_list. rewrite !length_app, length_take, length_drop. lia. Qed.

(** Reading in bounds, and what a write changes. *)
Lemma read_bytes_ok b off n :
  (off + n <= length (memory b))%nat -> read_bytes b off n = Some (bytes_at off n (memory b)).
Proof. intros. unfold read_bytes. by rewrite decide_True. Qed.

Lemma memory_write b off bs b' : write_bytes b off bs = Some b' ->
  memory b' = write_list off bs (memory b) /\ headroom b' = headroom b
  /\ length (data b') = length (data b) /\ length (tailroom b') = length (tailroom b).
Proof.
  unfold write_bytes. case_decide as Hl; [|done]. intros [= <-]. unfold memory at 1. cbn.
  rewrite take_drop. pose proof (length_write_list off bs (memory b) Hl) as Hw.
  unfold memory in Hw at 2. rewrite length_app in Hw.
  split_and!; [done|done| |]; rewrite ?length_take, ?length_drop; lia.
Qed.

Lemma bytes_at_write_eq off bs l :
  (off + length bs <= length l)%nat -> bytes_at off (length bs) (write_list off bs l) = bs.
Proof.
  intros. unfold bytes_at, write_list. rewrite drop_app_length' by (rewrite length_take; lia).
  by rewrite take_app_length.
Qed.

Lemma bytes_at_write_before off bs l off' n :
  (off' + n <= off)%nat -> (off <= length l)%nat ->
  bytes_at off' n (write_list off bs l) = bytes_at off' n l.
Proof.
  intros. unfold bytes_at, write_list. rewrite drop_app_le by (rewrite length_take; lia).
  rewrite take_app_le by (rewrite length_drop, length_take; lia).
  by rewrite take_drop_commute, take_take, Nat.min_l, <-take_drop_commute by lia.
Qed.

Lemma drop_write_after off bs l off' :
  (off + length bs <= off')%nat -> (off + length bs <= length l)%nat ->
  drop off' (write_list off bs l) = drop off' l.
Proof.
  intros. unfold write_list. rewrite app_assoc, drop_app_ge by (rewrite length_app, length_take; lia).
  rewrite drop_drop, length_app, length_take. f_equal. lia.
Qed.

(** A header as the concatenation of its fields: writing or reading one field
    touches one segment. *)
Definition seg_off (segs : list (list Z)) (i : nat) : nat := length (concat (take i segs)).

Lemma concat_split (segs : list (list Z)) i s : segs !! i = Some s ->
  concat segs = concat (take i segs) ++ s ++ concat (drop (S i) segs).
Proof.
  intros Hs. rewrite <-(take_drop_middle segs i s Hs) at 1. rewrite concat_app. done.
Qed.

Lemma write_seg segs i s bs off : segs !! i = Some s -> off = seg_off segs i -> length bs = length s ->
  write_list off bs (concat segs) = concat (<[i := bs]> segs).
Proof.
  intros Hs -> Hl. unfold write_list, seg_off. pose proof (lookup_lt_Some _ _ _ Hs) as Hi.
  rewrite (concat_split _ _ _ Hs), insert_take_drop, concat_app by done. cbn.
  rewrite take_app_length. f_equal. f_equal.
  by rewrite Hl, app_assoc, <-length_app, drop_app_length.
Qed.

Lemma read_seg segs i s off : segs !! i = Some s -> off = seg_off segs i ->
  bytes_at off (length s) (concat segs) = s.
Proof.
  intros Hs ->. unfold bytes_at, seg_off. rewrite (concat_split _ _ _ Hs).
  by rewrite drop_app_length, take_app_length.
Qed.

(** Any list long enough is such a concatenation, for given field widths. *)
Fixpoint segments (widths : list nat) (l : list Z) : list (list Z) :=
  match widths with
  | [] => [l]
  | w :: ws => take w l :: segments ws (drop w l)
  end.

Lemma concat_segments ws l : concat (segments ws l) = l.
Proof. revert l; induction ws as [|w ws IH]; intros l; cbn; [by rewrite app_nil_r|]. by rewrite IH, take_drop. Qed.

Lemma write_list_app off bs l l' : (off + length bs <= length l)%nat ->
  write_list off bs (l ++ l') = write_list off bs l ++ l'.
Proof. intros. unfold write_list. by rewrite take_app_le, drop_app_le, <-!app_assoc by lia. Qed.

Lemma wr_bytes_data off bs m :
  (off + length bs <= length (data (buf m)))%nat ->
  wr_bytes off bs m
  = Some (tt, set_buf (mk_buf (headroom (buf m)) (write_list off bs (data (buf m))) (tailroom (buf m))) m).
Proof.
  intros Hl. unfold wr_bytes, gets, modify, get_some, mbind, M_bind, write_bytes, memory.
  rewrite decide_True by (rewrite length_app; lia). cbn. rewrite write_list_app by done.
  rewrite <-(length_write_list off bs (data (buf m))) by done.
  by rewrite take_app_length, drop_app_length.
Qed.
