(* ===== verification/Fields.v ===== *)
(** Fields of packets: what reads return and writes change, for packets
    that are long enough.  The lemmas the nodes that rewrite headers share. *)

From S2P Require Import Prelude Errors IpAddr Port Packet.

Implicit Types (m : rte_mbuf) (off n : nat) (W : list (nat * nat)).

Definition msize m : nat := length (memory (buf m)).
Definition field m off n : Z := le_join (bytes_at off n (memory (buf m))).
#[global] Arguments msize : simpl never.
#[global] Arguments field : simpl never.

Lemma rd_field off n m : (off + n <= msize m)%nat -> rd off n m = Some (field m off n, m).
Proof. intros H. unfold rd, read_le. m_unfold. by rewrite read_bytes_ok. Qed.

Lemma rd_field_inv off n m x m' : rd off n m = Some (x, m') -> m' = m /\ x = field m off n /\ (off + n <= msize m)%nat.
Proof.
  unfold rd, read_le, read_bytes. m_unfold. case_decide; [|done]. by intros [= <- <-].
Qed.

(** The packet after [wr_bytes]. *)
Definition put_bytes off (bs : list Z) m : rte_mbuf :=
  let l := write_list off bs (memory (buf m)) in
  set_buf (mk_buf (headroom (buf m)) (take (length (data (buf m))) l) (drop (length (data (buf m))) l)) m.
Definition put off n (x : Z) m : rte_mbuf := put_bytes off (le_split n x) m.

Lemma wr_bytes_put off bs m : (off + length bs <= msize m)%nat -> wr_bytes off bs m = Some (tt, put_bytes off bs m).
Proof. intros H. unfold wr_bytes, write_bytes. m_unfold. by rewrite decide_True. Qed.

Lemma wr_put off n x m : (off + n <= msize m)%nat -> wr off n x m = Some (tt, put off n x m).
Proof. intros H. apply wr_bytes_put. by rewrite length_le_split. Qed.

Lemma memory_put off bs m : memory (buf (put_bytes off bs m)) = write_list off bs (memory (buf m)).
Proof. unfold memory at 1. cbn. apply take_drop. Qed.

(** ** Frames *)

(** [m'] is [m] with other contents in the ranges [W] at most; the flow and the
    lengths for the NIC may differ. *)
Record frame W m m' : Prop := {
  fr_head : headroom (buf m') = headroom (buf m);
  fr_data : length (data (buf m')) = length (data (buf m));
  fr_size : msize m' = msize m;
  fr_port : m_port m' = m_port m;
  fr_mark : mark m' = mark m;
  fr_type : packet_type m' = packet_type m;
  fr_byte i : Forall (fun w => (i < w.1)%nat \/ (w.1 + w.2 <= i)%nat) W -> memory (buf m') !! i = memory (buf m) !! i
}.

(** The field lies outside of the ranges. *)
Definition outside W off n : bool := forallb (fun w => ((off + n <=? w.1) || (w.1 + w.2 <=? off))%nat) W.

Lemma frame_refl W m : frame W m m.
Proof. by split. Qed.

Lemma frame_trans W m1 m2 m3 : frame W m1 m2 -> frame W m2 m3 -> frame W m1 m3.
Proof. intros [] []. split; try congruence. intros i Hi. rewrite fr_byte1, fr_byte0 by done. done. Qed.

Lemma frame_weaken W W' m m' : frame W m m' -> W ⊆ W' -> frame W' m m'.
Proof.
  intros [] Hs. split; try done. intros i Hi. apply fr_byte0. rewrite Forall_forall in *. auto.
Qed.

Lemma bytes_at_lookup off n (l : list Z) i : bytes_at off n l !! i = if decide (i < n)%nat then l !! (off + i)%nat else None.
Proof.
  unfold bytes_at. case_decide; [by rewrite lookup_take_lt, lookup_drop by done|].
  apply lookup_ge_None_2. rewrite length_take. lia.
Qed.

Lemma frame_bytes W m m' off n : frame W m m' -> outside W off n = true ->
  bytes_at off n (memory (buf m')) = bytes_at off n (memory (buf m)).
Proof.
  intros F HW. apply list_eq. intros i. rewrite !bytes_at_lookup. case_decide as Hi; [|done].
  apply (fr_byte _ _ _ F). unfold outside in HW. rewrite forallb_forall in HW. apply Forall_forall. intros w Hw.
  specialize (HW w). rewrite orb_true_iff, !Nat.leb_le in HW. apply list_elem_of_In in Hw. destruct (HW Hw); lia.
Qed.

Lemma frame_field W m m' off n : frame W m m' -> outside W off n = true -> field m' off n = field m off n.
Proof. intros F HW. unfold field. by rewrite (frame_bytes _ _ _ _ _ F HW). Qed.

Lemma lookup_write_outside off bs (l : list Z) i : (off + length bs <= length l)%nat -> (i < off \/ off + length bs <= i)%nat ->
  write_list off bs l !! i = l !! i.
Proof.
  intros Hl [Hi|Hi]; unfold write_list.
  - rewrite lookup_app_l by (rewrite length_take; lia). by apply lookup_take_lt.
  - rewrite app_assoc, lookup_app_r by (rewrite length_app, length_take; lia).
    rewrite lookup_drop, length_app, length_take. f_equal. lia.
Qed.

Lemma put_bytes_frame off bs m : (off + length bs <= msize m)%nat -> frame [(off, length bs)] m (put_bytes off bs m).
Proof.
  intros Hl. pose proof (memory_put off bs m) as Hm. unfold msize in *.
  split; try done.
  - cbn. rewrite length_take, length_write_list by done. unfold memory. rewrite length_app. lia.
  - unfold msize. by rewrite Hm, length_write_list.
  - intros i Hi. inversion_clear Hi as [|? ? Hi1 _]. rewrite Hm. apply lookup_write_outside; [done|]. exact Hi1.
Qed.

Lemma put_frame off n x m : (off + n <= msize m)%nat -> frame [(off, n)] m (put off n x m).
Proof. intros H. unfold put. rewrite <-(length_le_split n x) at 1. apply put_bytes_frame. by rewrite length_le_split. Qed.

Lemma field_put off n x m : (off + n <= msize m)%nat -> field (put off n x m) off n = x mod 256 ^ Z.of_nat n.
Proof.
  intros H. unfold field, put. rewrite memory_put. rewrite <-(length_le_split n x) at 1.
  rewrite bytes_at_write_eq by (by rewrite length_le_split). apply le_join_split.
Qed.

Lemma field_put_other off n x m off' n' : (off + n <= msize m)%nat -> outside [(off, n)] off' n' = true ->
  field (put off n x m) off' n' = field m off' n'.
Proof. intros H. by apply frame_field, put_frame. Qed.

Lemma msize_put off n x m : (off + n <= msize m)%nat -> msize (put off n x m) = msize m.
Proof. intros H. apply (fr_size _ _ _ (put_frame off n x m H)). Qed.

Lemma flow_put off n x m : flow (put off n x m) = flow m.
Proof. done. Qed.

(** Changes of the other members. *)
Lemma same_buf_frame W m m' : buf m' = buf m -> m_port m' = m_port m -> mark m' = mark m -> packet_type m' = packet_type m ->
  frame W m m'.
Proof. intros Hb. split; unfold msize; by rewrite ?Hb. Qed.

(** ** Programs that stay within a frame *)

(** On every packet of at least [k] bytes with a flow in [P] the program
    returns, and writes to [W] only and not to the flow. *)
Definition edits (k : nat) (P : dp_flow -> Prop) W {A} (p : M rte_mbuf A) : Prop :=
  forall m, (k <= msize m)%nat -> P (flow m) -> exists a m', p m = Some (a, m') /\ frame W m m' /\ flow m' = flow m.

Section edits.
Context (k : nat) (P : dp_flow -> Prop) (W : list (nat * nat)).

Lemma edits_ret {A} (a : A) : edits k P W (mret a).
Proof. intros m _ _. exists a, m. split_and!; [done | apply frame_refl | done]. Qed.

Lemma edits_gets {A} (f : rte_mbuf -> A) : edits k P W (gets f).
Proof. intros m _ _. exists (f m), m. split_and!; [done | apply frame_refl | done]. Qed.

Lemma edits_bind {A B} (f : A -> M rte_mbuf B) (p : M rte_mbuf A) :
  edits k P W p -> (forall a, edits k P W (f a)) -> edits k P W (mbind f p).
Proof.
  intros Hp Hf m Hm HP. destruct (Hp m Hm HP) as (a & m1 & Ha & F1 & Hd1).
  destruct (Hf a m1) as (b & m2 & Hb & F2 & Hd2); [by rewrite (fr_size _ _ _ F1) | by rewrite Hd1|].
  exists b, m2. split_and!; [by rewrite (M_bind_Some _ _ _ _ _ Ha) | by eapply frame_trans | congruence].
Qed.

Lemma edits_flow {B} (f : dp_flow -> M rte_mbuf B) : (forall df, P df -> edits k P W (f df)) -> edits k P W (mbind f (gets flow)).
Proof. intros Hf m Hm HP. by apply (Hf (flow m) HP m). Qed.

Lemma edits_if {A} (b : bool) (p q : M rte_mbuf A) : edits k P W p -> edits k P W q -> edits k P W (if b then p else q).
Proof. by destruct b. Qed.

Lemma edits_rd off n : (off + n <= k)%nat -> edits k P W (rd off n).
Proof.
  intros Hk m Hm _. exists (field m off n), m. split_and!; [apply rd_field; lia | apply frame_refl | done].
Qed.

Lemma edits_wr off n x : (off + n <= k)%nat -> (off, n) ∈ W -> edits k P W (wr off n x).
Proof.
  intros Hk HW m Hm _. exists tt, (put off n x m). split_and!; [apply wr_put; lia | | done].
  eapply frame_weaken; [apply put_frame; lia|]. by intros w ->%list_elem_of_singleton.
Qed.

(** Changes of members other than the bytes and the flow. *)
Lemma edits_modify f :
  (forall m, buf (f m) = buf m /\ m_port (f m) = m_port m /\ mark (f m) = mark m /\ packet_type (f m) = packet_type m /\ flow (f m) = flow m) ->
  edits k P W (modify f).
Proof. intros Hf m _ _. destruct (Hf m) as (? & ? & ? & ? & ?). exists tt, (f m). split_and!; try done. by apply same_buf_frame. Qed.
End edits.

Lemma edits_weaken k P W W' {A} (p : M rte_mbuf A) : edits k P W p -> W ⊆ W' -> edits k P W' p.
Proof.
  intros Hp HW m Hm HP. destruct (Hp m Hm HP) as (a & m' & ? & F & ?). exists a, m'. split_and!; try done. by eapply frame_weaken.
Qed.

Create HintDb edits.
#[export] Hint Resolve edits_ret edits_gets edits_if : edits.

(** Walks through a program that edits. *)
Ltac edits :=
  repeat first
    [ progress intros | apply edits_rd; cbn; lia | apply edits_wr; [cbn; lia | cbn; set_solver] | apply edits_flow
    | apply edits_bind | apply edits_ret | apply edits_gets | apply edits_if | apply edits_modify; done ].

(** A field lies inside of a packet that was written to. *)
Ltac in_packet := repeat (rewrite msize_put by in_packet); cbn; lia.

(** ** Ranges *)

Definition bytes_ok (m : rte_mbuf) : Prop := Forall is_u8 (memory (buf m)).

Lemma field_u16 m off : bytes_ok m -> (off + 2 <= msize m)%nat -> is_u16 (field m off 2).
Proof.
  intros Hb Hl. unfold field. pose proof (le_join_range (bytes_at off 2 (memory (buf m)))) as Hr.
  replace (length (bytes_at off 2 (memory (buf m)))) with 2%nat in Hr
    by (unfold bytes_at; rewrite length_take, length_drop; unfold msize in Hl; lia).
  apply Hr. by apply Forall_take, Forall_drop.
Qed.

Lemma field_ip_range m off : bytes_ok m -> (off + 4 <= msize m)%nat -> is_u32 (field m off 4).
Proof.
  intros Hb Hl. unfold field. pose proof (le_join_range (bytes_at off 4 (memory (buf m)))) as Hr.
  replace (length (bytes_at off 4 (memory (buf m)))) with 4%nat in Hr
    by (unfold bytes_at; rewrite length_take, length_drop; unfold msize in Hl; lia).
  apply Hr. by apply Forall_take, Forall_drop.
Qed.

Lemma forallb_Forall_is_u8 l : forallb (fun b => (0 <=? b) && (b <? 256)) l = true -> Forall is_u8 l.
Proof. rewrite forallb_forall, Forall_forall. intros H x Hx%list_elem_of_In. specialize (H x Hx). unfold is_u8. lia. Qed.
