(* ===== verification/Virtsvc.v ===== *)
(** Virtual services, lookup trees: [include/dp_virtsvc.h], the tree
    construction of [src/dp_virtsvc.c] and the searches of
    [src/nodes/cls_node.c].

    Services are found per packet in a balanced binary tree built once from a
    sorted array.  The comparison functions return [int] differences, so the
    model keeps them at 32 bits. *)

From S2P Require Import Prelude Errors IpAddr Packet.

(** ** Data *)

(** The first member stands for the address of the service: its index in the
    array of services. *)
Record dp_virtsvc := mk_virtsvc {
  virtsvc_index : nat;
  virtual_addr : Z;
  service_addr : dp_ipv6;
  virtual_port : Z;
  service_port : Z;
  virtsvc_proto : Z;
  virtsvc_ul_addr : dp_ipv6
}.

#[export] Instance dp_virtsvc_eq_dec : EqDecision dp_virtsvc.
Proof. solve_decision. Defined.

(** [struct dp_virtsvc_lookup_entry]; a [NULL] pointer is the empty tree. *)
Inductive dp_virtsvc_lookup_entry :=
| VNull
| VEntry (tl : dp_virtsvc_lookup_entry) (virtsvc : dp_virtsvc) (tr : dp_virtsvc_lookup_entry).

(** ** Comparison *)

(** Conversion of a 32-bit pattern to [int]. *)
Definition to_int (x : Z) : Z := if u32 x <? 2 ^ 31 then u32 x else u32 x - 2 ^ 32.

Definition dp_virtsvc_ipv4_cmp (proto1 addr1 port1 proto2 addr2 port2 : Z) : Z :=
  let diff := proto1 - proto2 in
  if negb (diff =? 0) then diff
  else
    let diff := to_int (addr1 - addr2) in
    if negb (diff =? 0) then diff
    else port1 - port2.

(** [memcmp]: the sign of the first difference. *)
Fixpoint memcmp (a b : list Z) : Z :=
  match a, b with
  | x :: a', y :: b' => if x <? y then -1 else if y <? x then 1 else memcmp a' b'
  | _, _ => 0
  end.

Definition dp_virtsvc_ipv6_cmp (proto1 : Z) (addr1 : dp_ipv6) (port1 : Z)
    (proto2 : Z) (addr2 : dp_ipv6) (port2 : Z) : Z :=
  let diff := proto1 - proto2 in
  if negb (diff =? 0) then diff
  else
    let diff := memcmp (ipv6_bytes addr1) (ipv6_bytes addr2) in
    if negb (diff =? 0) then diff
    else port1 - port2.

Definition dp_virtsvc_ipv4_comparator (l r : dp_virtsvc) : Z :=
  dp_virtsvc_ipv4_cmp (virtsvc_proto l) (virtual_addr l) (virtual_port l)
    (virtsvc_proto r) (virtual_addr r) (virtual_port r).

Definition dp_virtsvc_ipv6_comparator (l r : dp_virtsvc) : Z :=
  dp_virtsvc_ipv6_cmp (virtsvc_proto l) (service_addr l) (service_port l)
    (virtsvc_proto r) (service_addr r) (service_port r).

(** ** Building the trees *)

Section trees.
Context `{ERR : RteErrno}.

(** [malloc mid] says whether the node for index [mid] can be allocated.  The
    recursion is on the length of the range, for which the fuel stands; reading
    the array out of range is undefined ([None]). *)
Fixpoint dp_virtsvc_array_to_tree (fuel : nat) (malloc : Z -> bool) (array : list dp_virtsvc)
    (start end_ : Z) : option (Z * dp_virtsvc_lookup_entry) :=
  match fuel with
  | O => None
  | S fuel' =>
      if start >? end_ then Some (DP_OK, VNull)
      else
        let mid := Z.quot (start + end_) 2 in
        if negb (malloc mid) then Some (DP_ERROR, VNull)
        else
          v ← array !! Z.to_nat mid;
          '(r1, tl) ← dp_virtsvc_array_to_tree fuel' malloc array start (mid - 1);
          if DP_FAILED r1 then Some (DP_ERROR, VNull)
          else
            '(r2, tr) ← dp_virtsvc_array_to_tree fuel' malloc array (mid + 1) end_;
            if DP_FAILED r2 then Some (DP_ERROR, VNull)
            else Some (DP_OK, VEntry tl v tr)
  end.

(** [qsort] of the C library is given by its result. *)
Definition dp_virtsvc_create_trees
    (qsort : (dp_virtsvc -> dp_virtsvc -> Z) -> list dp_virtsvc -> list dp_virtsvc)
    (malloc_array : bool) (malloc4 malloc6 : Z -> bool) (services : list dp_virtsvc)
  : option (Z * dp_virtsvc_lookup_entry * dp_virtsvc_lookup_entry) :=
  let count := Z.of_nat (length services) in
  if count <=? 0 then Some (DP_ERROR, VNull, VNull)
  else if negb malloc_array then Some (DP_ERROR, VNull, VNull)
  else
    let array := qsort dp_virtsvc_ipv4_comparator services in
    '(r4, t4) ← dp_virtsvc_array_to_tree (S (length services)) malloc4 array 0 (count - 1);
    if DP_FAILED r4 then Some (DP_ERROR, t4, VNull)
    else
      let array := qsort dp_virtsvc_ipv6_comparator array in
      '(r6, t6) ← dp_virtsvc_array_to_tree (S (length services)) malloc6 array 0 (count - 1);
      if DP_FAILED r6 then Some (DP_ERROR, t4, t6) else Some (DP_OK, t4, t6).
End trees.

(** ** Searching *)

(** The loop of [get_outgoing_virtsvc] and [get_incoming_virtsvc]. *)
Fixpoint virtsvc_search (cmp : dp_virtsvc -> Z) (entry : dp_virtsvc_lookup_entry) : option dp_virtsvc :=
  match entry with
  | VNull => None
  | VEntry tl v tr =>
      let diff := cmp v in
      if diff =? 0 then Some v
      else if diff <? 0 then virtsvc_search cmp tl else virtsvc_search cmp tr
  end.

(** [port] is the destination port of the TCP or UDP header. *)
Definition get_outgoing_virtsvc (tree : dp_virtsvc_lookup_entry) (addr proto port : Z)
  : option dp_virtsvc :=
  if (proto =? IPPROTO_TCP) || (proto =? IPPROTO_UDP)
  then virtsvc_search (fun v => dp_virtsvc_ipv4_cmp proto addr port
                                  (virtsvc_proto v) (virtual_addr v) (virtual_port v)) tree
  else None.

(** [port] is the source port of the TCP or UDP header. *)
Definition get_incoming_virtsvc (tree : dp_virtsvc_lookup_entry) (src : dp_ipv6) (proto port : Z)
  : option dp_virtsvc :=
  if (proto =? IPPROTO_TCP) || (proto =? IPPROTO_UDP)
  then virtsvc_search (fun v => dp_virtsvc_ipv6_cmp proto src port
                                  (virtsvc_proto v) (service_addr v) (service_port v)) tree
  else None.

(** ** Correctness of tree and search *)

Section search.
Context `{ERR : RteErrno}.

Lemma mid_range start end_ : 0 <= start <= end_ -> start <= Z.quot (start + end_) 2 <= end_.
Proof. intros. Z.to_euclidean_division_equations. lia. Qed.

(** With enough memory the construction returns a tree, which holds exactly
    the entries of the range. *)
Fixpoint tree_elements (t : dp_virtsvc_lookup_entry) : list dp_virtsvc :=
  match t with
  | VNull => []
  | VEntry tl v tr => tree_elements tl ++ v :: tree_elements tr
  end.

Definition range (array : list dp_virtsvc) (start end_ : Z) : list dp_virtsvc :=
  take (Z.to_nat (end_ - start + 1)) (drop (Z.to_nat start) array).

Lemma range_split array start mid end_ v :
  0 <= start <= mid -> mid <= end_ < Z.of_nat (length array) ->
  array !! Z.to_nat mid = Some v ->
  range array start end_ = range array start (mid - 1) ++ v :: range array (mid + 1) end_.
Proof.
  intros Hs He Hv. unfold range.
  replace (Z.to_nat (mid - 1 - start + 1)) with (Z.to_nat mid - Z.to_nat start)%nat by lia.
  replace (Z.to_nat (end_ - start + 1))
    with ((Z.to_nat mid - Z.to_nat start) + S (Z.to_nat (end_ - (mid + 1) + 1)))%nat by lia.
  rewrite <-take_take_drop, drop_drop.
  replace (Z.to_nat start + (Z.to_nat mid - Z.to_nat start))%nat with (Z.to_nat mid) by lia.
  f_equal. rewrite (drop_S _ _ _ Hv). cbn [take]. do 3 f_equal. lia.
Qed.

Lemma array_to_tree_total fuel array start end_ :
  0 <= start -> end_ < Z.of_nat (length array) -> (Z.to_nat (end_ - start + 1) < fuel)%nat ->
  exists t, dp_virtsvc_array_to_tree fuel (fun _ => true) array start end_ = Some (DP_OK, t)
            /\ tree_elements t = range array start end_.
Proof.
  revert start end_; induction fuel as [|fuel IH]; intros start end_ Hs He Hf; [lia|].
  cbn [dp_virtsvc_array_to_tree]. destruct (start >? end_) eqn:E; bools.
  - exists VNull. split; [done|]. unfold range. replace (Z.to_nat (end_ - start + 1)) with 0%nat by lia. done.
  - pose proof (mid_range start end_ ltac:(lia)) as Hm. set (mid := Z.quot (start + end_) 2) in *.
    destruct (lookup_lt_is_Some_2 array (Z.to_nat mid)) as [v Hv]; [lia|]. cbn [negb]. rewrite Hv.
    destruct (IH start (mid - 1)) as (tl & Hl & El); [lia..|].
    destruct (IH (mid + 1) end_) as (tr & Hr & Er); [lia..|].
    cbn. rewrite Hl; cbn. rewrite Hr; cbn. exists (VEntry tl v tr). split; [done|].
    cbn. rewrite El, Er. symmetry. apply range_split; [lia..|done].
Qed.

(** The search finds what is placed in the range a tree was built from. *)
Lemma search_placed cmp t l v r :
  tree_elements t = l ++ v :: r -> cmp v = 0 ->
  Forall (fun w => 0 < cmp w) l -> Forall (fun w => cmp w < 0) r ->
  virtsvc_search cmp t = Some v.
Proof.
  revert l r; induction t as [|tl IHl w tr IHr]; intros l r Ht Hv Hl Hr; cbn in *.
  - by destruct l.
  - apply app_eq_inv in Ht as [(k & Hl' & Hk)|(k & Hl' & Hk)]; destruct k as [|x k]; simplify_eq/=.
    + by rewrite Hv.
    + apply Forall_app in Hr as [Hk Hx]. apply Forall_cons in Hx as [Hx _].
      rewrite (proj2 (Z.eqb_neq _ _)), (proj2 (Z.ltb_lt _ _)) by lia. by eapply IHl.
    + by rewrite Hv.
    + apply Forall_app in Hl as [_ Hx]. apply Forall_cons in Hx as [Hx Hk].
      rewrite (proj2 (Z.eqb_neq _ _)), (proj2 (Z.ltb_ge _ _)) by lia. by eapply IHr.
Qed.

(** Whatever the search returns is in the tree and compares equal. *)
Lemma search_sound cmp t v : virtsvc_search cmp t = Some v -> v ∈ tree_elements t /\ cmp v = 0.
Proof.
  induction t as [|tl IHl w tr IHr]; cbn; [done|]. rewrite elem_of_app, elem_of_cons.
  destruct (cmp w =? 0) eqn:E0; bools; [intros [=->]; auto|].
  destruct (cmp w <? 0); naive_solver.
Qed.
End search.

(** ** Comparisons *)

Lemma to_int_zero a b : is_u32 a -> is_u32 b -> to_int (a - b) = 0 <-> a = b.
Proof.
  unfold to_int, is_u32, u32. intros Ha Hb.
  destruct (decide (a = b)) as [->|Hne]; [rewrite Z.sub_diag; done|].
  split; [|done]. intros H. exfalso. apply Hne.
  destruct (Z.le_gt_cases b a).
  - rewrite Z.mod_small in H by lia. destruct (a - b <? 2 ^ 31); lia.
  - replace ((a - b) mod 2 ^ 32) with (a - b + 2 ^ 32) in H
      by (apply (Z.mod_unique _ _ (-1)); lia).
    destruct (_ <? _); lia.
Qed.

Lemma ipv4_cmp_zero p1 a1 q1 p2 a2 q2 : is_u32 a1 -> is_u32 a2 ->
  dp_virtsvc_ipv4_cmp p1 a1 q1 p2 a2 q2 = 0 <-> p1 = p2 /\ a1 = a2 /\ q1 = q2.
Proof.
  intros H1 H2. unfold dp_virtsvc_ipv4_cmp. pose proof (to_int_zero a1 a2 H1 H2).
  destruct (p1 - p2 =? 0) eqn:Ep; cbn [negb]; bools; [|split; [done|lia]].
  destruct (to_int (a1 - a2) =? 0) eqn:Ea; cbn [negb]; bools; naive_solver lia.
Qed.

Lemma memcmp_antisym a b : memcmp b a = - memcmp a b.
Proof.
  revert b; induction a as [|x a IH]; intros [|y b]; cbn; [done..|].
  destruct (x <? y) eqn:E1, (y <? x) eqn:E2; bools; try lia. apply IH.
Qed.

Lemma memcmp_zero a b : length a = length b -> memcmp a b = 0 <-> a = b.
Proof.
  revert b; induction a as [|x a IH]; intros [|y b] Hl; cbn in *; [done|done|done|].
  destruct (x <? y) eqn:E1, (y <? x) eqn:E2; bools; try (split; [lia|intros [= -> ->]; lia]).
  rewrite IH by lia. assert (x = y) by lia. subst. naive_solver.
Qed.

Lemma ipv6_cmp_antisym p1 a1 q1 p2 a2 q2 :
  dp_virtsvc_ipv6_cmp p2 a2 q2 p1 a1 q1 = - dp_virtsvc_ipv6_cmp p1 a1 q1 p2 a2 q2.
Proof.
  unfold dp_virtsvc_ipv6_cmp. rewrite (memcmp_antisym (ipv6_bytes a1)).
  destruct (p1 - p2 =? 0) eqn:E1, (p2 - p1 =? 0) eqn:E2; cbn [negb]; bools; try lia.
  destruct (memcmp (ipv6_bytes a1) (ipv6_bytes a2) =? 0) eqn:E3,
    (- memcmp (ipv6_bytes a1) (ipv6_bytes a2) =? 0) eqn:E4; cbn [negb]; bools; lia.
Qed.

Lemma ipv6_bytes_inj a b : ipv6_ok a -> ipv6_ok b -> ipv6_bytes a = ipv6_bytes b -> a = b.
Proof. intros Ha Hb He. rewrite <-(ipv6_bytes_roundtrip a Ha), <-(ipv6_bytes_roundtrip b Hb). by rewrite He. Qed.

Lemma ipv6_cmp_zero p1 a1 q1 p2 a2 q2 : ipv6_ok a1 -> ipv6_ok a2 ->
  dp_virtsvc_ipv6_cmp p1 a1 q1 p2 a2 q2 = 0 <-> p1 = p2 /\ a1 = a2 /\ q1 = q2.
Proof.
  intros H1 H2. unfold dp_virtsvc_ipv6_cmp.
  assert (memcmp (ipv6_bytes a1) (ipv6_bytes a2) = 0 <-> a1 = a2).
  { rewrite memcmp_zero by (unfold ipv6_bytes; by rewrite !length_app, !length_le_split).
    split; [by apply ipv6_bytes_inj | by intros ->]. }
  destruct (p1 - p2 =? 0) eqn:Ep; cbn [negb]; bools; [|split; [done|lia]].
  destruct (memcmp (ipv6_bytes a1) (ipv6_bytes a2) =? 0) eqn:Ea; cbn [negb]; bools; naive_solver lia.
Qed.

(** ** Properties *)

(** The array position of a service splits a sorted array into the services
    before it and those after it. *)
Lemma sorted_split (R : dp_virtsvc -> dp_virtsvc -> Prop) array v :
  StronglySorted R array -> v ∈ array ->
  exists l r, array = l ++ v :: r /\ Forall (fun w => R w v) l /\ Forall (fun w => R v w) r.
Proof.
  intros Hs Hv. apply list_elem_of_split in Hv as (l & r & ->). exists l, r.
  split; [done|]. induction l as [|x l IH]; cbn in Hs; apply StronglySorted_inv in Hs as [Hs Hx].
  - split; [constructor|done].
  - destruct (IH Hs) as [Hl Hr]. split; [|done]. constructor; [|done].
    apply Forall_app in Hx as [_ Hx]. by apply Forall_cons in Hx as [Hx _].
Qed.

Section properties.
Context `{ERR : RteErrno}.

Lemma tree_search_exact (R : dp_virtsvc -> dp_virtsvc -> Prop) (cmp : dp_virtsvc -> dp_virtsvc -> Z) array :
  StronglySorted R array ->
  (forall v w, R v w -> cmp v w < 0 /\ 0 < cmp w v) -> (forall v, v ∈ array -> cmp v v = 0) ->
  exists t, dp_virtsvc_array_to_tree (S (length array)) (fun _ => true) array 0
              (Z.of_nat (length array) - 1) = Some (DP_OK, t)
    /\ tree_elements t = array
    /\ forall v, v ∈ array -> virtsvc_search (cmp v) t = Some v.
Proof.
  intros Hs HR Hrefl.
  destruct (array_to_tree_total (S (length array)) array 0 (Z.of_nat (length array) - 1))
    as (t & Ht & Et); [lia..|].
  assert (range array 0 (Z.of_nat (length array) - 1) = array) as Hr.
  { unfold range. cbn [drop Z.to_nat]. apply take_ge. lia. }
  rewrite Hr in Et. exists t. split_and!; [done..|]. intros v Hv.
  destruct (sorted_split R array v Hs Hv) as (l & r & -> & Hl & Hr').
  eapply search_placed; [exact Et | by apply Hrefl | |]; eapply Forall_impl; try done; intros w Hw; by apply HR.
Qed.


End properties.

(** ** Concrete services *)
Module VirtsvcExample.

(** [a.b.c.d] in network byte order. *)
Definition ip4 (a b c d : Z) : Z := le_join [a; b; c; d].

Definition svc (ip : Z) (service : Z) : dp_virtsvc :=
  mk_virtsvc (Z.to_nat service) ip (mk_ipv6 1 service) (bswap16 53) (bswap16 53) IPPROTO_UDP (mk_ipv6 0 0).

(** Two DNS services at 10.0.0.1 and 10.0.0.129. *)
Definition svc1 : dp_virtsvc := svc (ip4 10 0 0 1) 1.
Definition svc129 : dp_virtsvc := svc (ip4 10 0 0 129) 2.

Definition finds (t : dp_virtsvc_lookup_entry) (v : dp_virtsvc) : Prop :=
  get_outgoing_virtsvc t (virtual_addr v) (virtsvc_proto v) (virtual_port v) = Some v.

(** With virtual services of one protocol at 10.0.0.1 and 10.0.0.129, one
    of the two is never found, whatever the order [qsort] gives them: the two
    addresses differ by 2^31, and the [int] difference is negative both ways. *)
Theorem virtsvc_half_range_missed `{ERR : RteErrno}
    (qsort : (dp_virtsvc -> dp_virtsvc -> Z) -> list dp_virtsvc -> list dp_virtsvc) :
  (forall cmp l, Permutation l (qsort cmp l)) ->
  exists t4 t6,
    dp_virtsvc_create_trees qsort true (fun _ => true) (fun _ => true) [svc1; svc129]
      = Some (DP_OK, t4, t6)
    /\ (~ finds t4 svc1 \/ ~ finds t4 svc129).
Proof.
  intros Hq. unfold dp_virtsvc_create_trees.
  cbn [length negb].
  pose proof (Hq dp_virtsvc_ipv4_comparator [svc1; svc129]) as P4.
  generalize dependent (qsort dp_virtsvc_ipv4_comparator [svc1; svc129]). intros a4 P4.
  pose proof (Hq dp_virtsvc_ipv6_comparator a4) as P6.
  generalize dependent (qsort dp_virtsvc_ipv6_comparator a4). intros a6 P6.
  assert (length a6 = 2%nat) as L6 by (rewrite <-P6, <-P4; done).
  destruct (array_to_tree_total 3 a6 0 1) as (t6 & E6 & _); [lia..|].
  change (Z.of_nat 2 - 1) with 1. change (Z.of_nat 2 <=? 0) with false. clear Hq P6 L6.
  destruct (array_to_tree_total 3 a4 0 1) as (t4 & E4 & _); [rewrite <-?P4; cbn; lia..|].
  exists t4, t6. split; [by rewrite E4; cbn -[dp_virtsvc_array_to_tree]; rewrite E6|]. clear E6.
  apply Permutation_length_2_inv in P4 as [-> | ->]; vm_compute in E4; injection E4 as <-;
    unfold finds; vm_compute; naive_solver.
Qed.

Lemma virtsvc_half_range_missed_witness : exists t4 t6,
  dp_virtsvc_create_trees (ERR := dpdk_errno) (fun _ l => l) true (fun _ => true) (fun _ => true) [svc1; svc129]
    = Some (DP_OK, t4, t6) /\ (~ finds t4 svc1 \/ ~ finds t4 svc129).
Proof. apply virtsvc_half_range_missed. intros _ l. apply Permutation_refl. Defined.

Definition services : list dp_virtsvc := [svc (ip4 10 0 0 1) 1; svc (ip4 10 0 0 2) 2; svc (ip4 10 0 0 3) 3].



End VirtsvcExample.
