(* ===== verification/Vnf.v ===== *)
(** Network functions behind underlay addresses: the model of [src/dp_vnf.c].

    Two tables: from an underlay address to the function it stands for, and
    back.  [malloc] results are arguments; an entry of a table owns its value,
    so values are stored in place. *)

From S2P Require Import Prelude Errors RteHash IpAddr Port Packet.

(** ** Data *)

Record dp_vnf := mk_vnf {
  vnf_type : dp_vnf_type;
  vnf_vni : Z;
  vnf_port_id : Z;
  alias_pfx_ol : dp_ip_address;
  alias_pfx_length : Z
}.

#[export] Instance dp_vnf_eq_dec : EqDecision dp_vnf.
Proof. solve_decision. Defined.

Definition vnf_type_number (t : dp_vnf_type) : nat :=
  match t with
  | DP_VNF_TYPE_UNDEFINED => 0 | DP_VNF_TYPE_INTERFACE_IP => 1 | DP_VNF_TYPE_VIP => 2
  | DP_VNF_TYPE_NAT => 3 | DP_VNF_TYPE_LB => 4 | DP_VNF_TYPE_LB_ALIAS_PFX => 5
  | DP_VNF_TYPE_ALIAS_PFX => 6
  end.

Definition vnf_type_of_number (n : nat) : option dp_vnf_type :=
  match n with
  | 0 => Some DP_VNF_TYPE_UNDEFINED | 1 => Some DP_VNF_TYPE_INTERFACE_IP
  | 2 => Some DP_VNF_TYPE_VIP | 3 => Some DP_VNF_TYPE_NAT | 4 => Some DP_VNF_TYPE_LB
  | 5 => Some DP_VNF_TYPE_LB_ALIAS_PFX | 6 => Some DP_VNF_TYPE_ALIAS_PFX | _ => None
  end%nat.

#[export] Instance dp_vnf_type_countable : Countable dp_vnf_type.
Proof. refine (inj_countable vnf_type_number vnf_type_of_number _). by intros []. Defined.

#[export] Instance dp_vnf_countable : Countable dp_vnf.
Proof.
  refine (inj_countable'
    (fun v => (vnf_type v, vnf_vni v, vnf_port_id v, alias_pfx_ol v, alias_pfx_length v))
    (fun p => mk_vnf p.1.1.1.1 p.1.1.1.2 p.1.1.2 p.1.2 p.2) _).
  by intros [].
Defined.

Definition DP_VNF_MATCH_ALL_PORT_IDS : Z := 0xFFFF.

Section vnf.
Context `{ERR : RteErrno} {HT : RteHash dp_ipv6 dp_vnf} {VT : RteHash dp_vnf dp_ipv6}.

Record vnf_state := mk_vnf_state {
  vnf_handle_tbl : rte_hash dp_ipv6 dp_vnf;
  vnf_value_tbl : rte_hash dp_vnf dp_ipv6
}.
Implicit Types (st : vnf_state) (ul : dp_ipv6) (vnf : dp_vnf).

(** ** Operations *)

Definition dp_fill_vnf_data (type : dp_vnf_type) (port_id vni : Z) (src : dp_ip_address)
    (prefix_len : Z) : dp_vnf :=
  mk_vnf type vni port_id (dp_copy_ipaddr src) prefix_len.

Definition dp_add_vnf_value (malloc : bool) vnf ul st : Z * vnf_state :=
  if negb malloc then (DP_ERROR, st)
  else
    let '(ret, t) := rte_hash_add_key_data (vnf_value_tbl st) vnf ul in
    if DP_FAILED ret then (DP_ERROR, mk_vnf_state (vnf_handle_tbl st) t)
    else (DP_OK, mk_vnf_state (vnf_handle_tbl st) t).

Definition dp_delete_vnf_value vnf st : Z * vnf_state :=
  match rte_hash_lookup_data (vnf_value_tbl st) vnf with
  | inl _ => (DP_ERROR, st)
  | inr _ =>
      let '(ret, t) := rte_hash_del_key (vnf_value_tbl st) vnf in
      if DP_FAILED ret then (ret, mk_vnf_state (vnf_handle_tbl st) t)
      else (DP_OK, mk_vnf_state (vnf_handle_tbl st) t)
  end.

Definition dp_vnf_value_exists vnf st : bool :=
  match rte_hash_lookup_data (vnf_value_tbl st) vnf with
  | inl _ => false
  | inr _ => true
  end.

Definition dp_get_vnf ul st : option dp_vnf :=
  match rte_hash_lookup_data (vnf_handle_tbl st) ul with
  | inl _ => None
  | inr vnf => Some vnf
  end.

Definition dp_del_vnf ul st : Z * vnf_state :=
  match rte_hash_lookup_data (vnf_handle_tbl st) ul with
  | inl ret => (ret, st)
  | inr vnf =>
      let '(ret, t) := rte_hash_del_key (vnf_handle_tbl st) ul in
      let st := mk_vnf_state t (vnf_value_tbl st) in
      if DP_FAILED ret then (ret, st)
      else
        let '(ret, st) := dp_delete_vnf_value vnf st in
        if DP_FAILED ret then (ret, st) else (DP_OK, st)
  end.

(** [malloc1] allocates the handle, [malloc2] the reverse entry. *)
Definition dp_add_vnf (malloc1 malloc2 : bool) ul (type : dp_vnf_type) (port_id vni : Z)
    (prefix : dp_ip_address) (prefix_len : Z) st : Z * vnf_state :=
  match rte_hash_lookup_data (vnf_handle_tbl st) ul with
  | inr _ => (DP_ERROR, st)
  | inl ret =>
      if negb (ret =? - ENOENT) then (DP_ERROR, st)
      else if negb malloc1 then (DP_ERROR, st)
      else
        let vnf := dp_fill_vnf_data type port_id vni prefix prefix_len in
        let '(ret, t) := rte_hash_add_key_data (vnf_handle_tbl st) ul vnf in
        let st := mk_vnf_state t (vnf_value_tbl st) in
        if DP_FAILED ret then (DP_ERROR, st)
        else
          let '(ret, st) := dp_add_vnf_value malloc2 vnf ul st in
          if DP_FAILED ret then (DP_ERROR, snd (dp_del_vnf ul st)) else (DP_OK, st)
  end.

Definition dp_vnf_lbprefix_exists (port_id vni : Z) (prefix_ip : dp_ip_address) (prefix_len : Z) st
  : bool :=
  dp_vnf_value_exists (dp_fill_vnf_data DP_VNF_TYPE_LB_ALIAS_PFX port_id vni prefix_ip prefix_len) st.

Definition dp_del_vnf_by_value (type : dp_vnf_type) (port_id vni : Z) (prefix_ip : dp_ip_address)
    (prefix_len : Z) st : Z * vnf_state :=
  let target_vnf := dp_fill_vnf_data type port_id vni prefix_ip prefix_len in
  match rte_hash_lookup_data (vnf_value_tbl st) target_vnf with
  | inl ret =>
      if ret =? - ENOENT then (DP_GRPC_ERR NOT_FOUND, st) else (DP_GRPC_ERR VNF_DELETE, st)
  | inr ul =>
      let '(ret, st) := dp_del_vnf ul st in
      if DP_FAILED ret then
        if ret =? - ENOENT then (DP_GRPC_ERR NOT_FOUND, st) else (DP_GRPC_ERR VNF_DELETE, st)
      else (DP_OK, st)
  end.

(** A reply of [dp_list_vnf_alias_prefixes]: prefix, length, underlay target. *)
Record vnf_reply := mk_vnf_reply {
  reply_pfx_addr : dp_ip_address;
  reply_pfx_length : Z;
  reply_trgt_addr : dp_ip_address
}.

(** The iteration from cursor [iter]; [reply_ok n] says whether the responder
    has room for reply number [n]. *)
Fixpoint list_alias_loop (fuel : nat) (reply_ok : nat -> bool) (port_id : Z) (type : dp_vnf_type)
    (iter : nat) (replies : list vnf_reply) st : Z * list vnf_reply :=
  match fuel with
  | O => (DP_OK, replies)
  | S fuel' =>
      match rte_hash_iterate (vnf_handle_tbl st) iter with
      | None => (DP_OK, replies)
      | Some (ul, vnf, iter') =>
          if negb (port_id =? vnf_port_id vnf) || negb (bool_decide (vnf_type vnf = type))
          then list_alias_loop fuel' reply_ok port_id type iter' replies st
          else if negb (reply_ok (length replies)) then (DP_GRPC_ERR OUT_OF_MEMORY, replies)
          else
            let reply := mk_vnf_reply (dp_copy_ipaddr (alias_pfx_ol vnf)) (alias_pfx_length vnf)
                           (dp_set_ipaddr6 ul) in
            list_alias_loop fuel' reply_ok port_id type iter' (replies ++ [reply]) st
      end
  end.

Definition dp_list_vnf_alias_prefixes (reply_ok : nat -> bool) (port_id : Z) (type : dp_vnf_type) st
  : Z * list vnf_reply :=
  if rte_hash_count (vnf_handle_tbl st) =? 0 then (DP_OK, [])
  else list_alias_loop (S (length (hash_slots (vnf_handle_tbl st)))) reply_ok port_id type 0 [] st.

(** Resolves the destination of a tunnel packet, once per packet. *)
Definition dp_vnf_resolve_tunnel_dst (ports : port_table) st (m : rte_mbuf)
  : option dp_port * rte_mbuf :=
  let df := flow m in
  if tun_dst_resolved df then (dp_get_port_by_id ports (nxt_hop df), m)
  else
    match dp_get_vnf (ul_dst_addr6 df) st with
    | None => (None, m)
    | Some vnf =>
        match dp_get_port_by_id ports (vnf_port_id vnf) with
        | None => (None, m)
        | Some dst_port =>
            (Some dst_port,
             set_flow (set_tun_dst_resolved true (set_nxt_hop (vnf_port_id vnf)
               (set_df_vnf_type (vnf_type vnf) (set_dst_vni (vnf_vni vnf) df)))) m)
        end
    end.

(** ** Correctness *)

Definition handle_map st : gmap dp_ipv6 dp_vnf := hash_view (vnf_handle_tbl st).
Definition value_map st : gmap dp_vnf dp_ipv6 := hash_view (vnf_value_tbl st).

(** The two tables are inverse to each other. *)
Definition vnf_consistent st : Prop :=
  forall ul vnf, handle_map st !! ul = Some vnf <-> value_map st !! vnf = Some ul.

Lemma dp_get_vnf_view ul st : dp_get_vnf ul st = handle_map st !! ul.
Proof.
  unfold dp_get_vnf, handle_map. rewrite hash_lookup_view. by destruct (hash_view _ !! ul).
Qed.

Lemma del_value_view vnf st :
  exists ret st', dp_delete_vnf_value vnf st = (ret, st')
    /\ handle_map st' = handle_map st /\ value_map st' = delete vnf (value_map st)
    /\ (DP_FAILED ret = false <-> is_Some (value_map st !! vnf)).
Proof.
  unfold dp_delete_vnf_value, handle_map, value_map. rewrite hash_lookup_view.
  destruct (hash_view (vnf_value_tbl st) !! vnf) as [ul|] eqn:Hv.
  - destruct (hash_del_present _ _ _ Hv) as (r & t & Hd & Hr & Ht). rewrite Hd.
    unfold DP_FAILED. rewrite (proj2 (Z.ltb_ge _ _) Hr). eexists _, _; split; [done|].
    split_and!; [done|done|]. split; [by eexists|done].
  - eexists _, _; split; [done|]. rewrite delete_id by done.
    split_and!; [done..|]. rewrite dp_failed_error. split; [done | intros [? ?]; done].
Qed.

Lemma del_vnf_view ul st vnf : handle_map st !! ul = Some vnf ->
  exists ret st', dp_del_vnf ul st = (ret, st')
    /\ handle_map st' = delete ul (handle_map st) /\ value_map st' = delete vnf (value_map st)
    /\ (DP_FAILED ret = false <-> is_Some (value_map st !! vnf)).
Proof.
  intros Hh. unfold dp_del_vnf. rewrite hash_lookup_view. unfold handle_map in Hh. rewrite Hh.
  destruct (hash_del_present _ _ _ Hh) as (r & t & Hd & Hr & Ht). rewrite Hd.
  unfold DP_FAILED at 1. rewrite (proj2 (Z.ltb_ge _ _) Hr).
  destruct (del_value_view vnf (mk_vnf_state t (vnf_value_tbl st))) as (r' & st' & Hd' & Hh' & Hv' & Hiff).
  rewrite Hd'. destruct (DP_FAILED r') eqn:E; eexists _, _; (split; [done|]);
    rewrite Hh', Hv'; (split_and!; [exact Ht | done | rewrite ?E; exact Hiff]).
Qed.

Lemma add_vnf_value_view malloc vnf ul st :
  exists ret st', dp_add_vnf_value malloc vnf ul st = (ret, st') /\ handle_map st' = handle_map st
    /\ ((ret = DP_OK /\ value_map st' = <[vnf := ul]> (value_map st))
        \/ (DP_FAILED ret = true /\ value_map st' = value_map st)).
Proof.
  unfold dp_add_vnf_value, handle_map, value_map. destruct malloc; cbn [negb].
  - destruct (rte_hash_add_key_data (vnf_value_tbl st) vnf ul) as [r t] eqn:Ha.
    apply hash_add_view in Ha as [[-> Hv]|(Hr & Hv & _)].
    + eexists _, _; split; [done|]. auto.
    + unfold DP_FAILED at 1. rewrite (proj2 (Z.ltb_lt _ _) Hr).
      eexists _, _; split; [done|]. rewrite dp_failed_error. auto.
  - eexists _, _; split; [done|]. rewrite dp_failed_error. auto.
Qed.

(** Adding a function whose value is not registered yet. *)
Lemma add_vnf_view m1 m2 ul type port_id vni prefix prefix_len st :
  let vnf := dp_fill_vnf_data type port_id vni prefix prefix_len in
  value_map st !! vnf = None ->
  exists ret st', dp_add_vnf m1 m2 ul type port_id vni prefix prefix_len st = (ret, st')
    /\ ((ret = DP_OK /\ handle_map st !! ul = None
         /\ handle_map st' = <[ul := vnf]> (handle_map st) /\ value_map st' = <[vnf := ul]> (value_map st))
        \/ (ret = DP_ERROR /\ handle_map st' = handle_map st /\ value_map st' = value_map st)).
Proof.
  intros vnf Hnew. unfold dp_add_vnf. rewrite hash_lookup_view. fold (handle_map st).
  destruct (handle_map st !! ul) as [v0|] eqn:Hu; [by eauto 10|].
  rewrite Z.eqb_refl. cbn [negb]. destruct m1; cbn [negb]; [|by eauto 10].
  fold vnf. destruct (rte_hash_add_key_data (vnf_handle_tbl st) ul vnf) as [r t] eqn:Ha.
  apply hash_add_view in Ha as [[-> Hv]|(Hr & Hv & _)].
  - change (DP_FAILED 0) with false; cbv iota.
    set (st1 := mk_vnf_state t (vnf_value_tbl st)).
    destruct (add_vnf_value_view m2 vnf ul st1) as (r & st2 & Ha & Hh & [[-> Hv2]|[Hf Hv2]]); rewrite Ha.
    + change (DP_FAILED DP_OK) with false; cbv iota. eexists _, _; split; [done|].
      left. rewrite Hh. split_and!; done.
    + rewrite Hf. assert (handle_map st2 !! ul = Some vnf) as Hst2.
      { rewrite Hh. unfold handle_map; cbn. rewrite Hv. apply lookup_insert_eq. }
      destruct (del_vnf_view ul st2 vnf Hst2) as (r' & st3 & Hd & Hh3 & Hv3 & _). rewrite Hd; cbn [snd].
      eexists _, _; split; [done|]. right. split_and!; [done| |].
      * rewrite Hh3, Hh. unfold handle_map; cbn. rewrite Hv. by rewrite delete_insert_id.
      * rewrite Hv3, Hv2. by rewrite delete_id.
  - unfold DP_FAILED. rewrite (proj2 (Z.ltb_lt _ _) Hr). eexists _, _; split; [done|]. by auto.
Qed.

Lemma vnf_consistent_insert st st' ul vnf :
  vnf_consistent st -> handle_map st !! ul = None -> value_map st !! vnf = None ->
  handle_map st' = <[ul := vnf]> (handle_map st) -> value_map st' = <[vnf := ul]> (value_map st) ->
  vnf_consistent st'.
Proof.
  intros Hc Hu Hv Hh' Hv' ul' vnf'. pose proof (Hc ul' vnf'). pose proof (Hc ul' vnf).
  pose proof (Hc ul vnf'). rewrite Hh', Hv', !lookup_insert. repeat case_decide; naive_solver.
Qed.

Lemma vnf_consistent_delete st st' ul vnf :
  vnf_consistent st -> handle_map st !! ul = Some vnf ->
  handle_map st' = delete ul (handle_map st) -> value_map st' = delete vnf (value_map st) ->
  vnf_consistent st'.
Proof.
  intros Hc Hu Hh' Hv' ul' vnf'. rewrite Hh', Hv'. pose proof (Hc ul' vnf'). pose proof (Hc ul' vnf).
  pose proof (Hc ul vnf'). rewrite !lookup_delete_Some. naive_solver.
Qed.
(** ** Properties *)


(** The endpoint of a tunnel packet is looked up once.  A successful
    resolution records the port, the VNI and the kind of the function that the
    underlay destination stands for, and resolving the packet again, in
    whichever node, gives the same port and changes nothing, even if the
    function has been unregistered in between. *)
Theorem resolve_tunnel_dst_once ports st st' m port m' :
  tun_dst_resolved (flow m) = false ->
  dp_vnf_resolve_tunnel_dst ports st m = (Some port, m') ->
  (exists vnf, handle_map st !! ul_dst_addr6 (flow m) = Some vnf
     /\ dp_get_port_by_id ports (vnf_port_id vnf) = Some port
     /\ dst_vni (flow m') = vnf_vni vnf /\ df_vnf_type (flow m') = vnf_type vnf
     /\ nxt_hop (flow m') = vnf_port_id vnf)
  /\ buf m' = buf m /\ mark m' = mark m
  /\ dp_vnf_resolve_tunnel_dst ports st' m' = (Some port, m').
Proof.
  unfold dp_vnf_resolve_tunnel_dst. intros Hr H. rewrite Hr, dp_get_vnf_view in H.
  destruct (handle_map st !! _) as [vnf|] eqn:Hv; [|done].
  destruct (dp_get_port_by_id ports (vnf_port_id vnf)) as [p|] eqn:Hp; [|done].
  simplify_eq. cbn. split; [|rewrite Hp; done]. exists vnf. done.
Qed.
End vnf.

(** ** Concrete tables *)

Module VnfExample.
#[export] Instance errno : RteErrno := dpdk_errno.
#[export] Instance handle_hash : RteHash dp_ipv6 dp_vnf := slot_hash (fun _ => 0).
#[export] Instance value_hash : RteHash dp_vnf dp_ipv6 := slot_hash (fun _ => 0).

Definition empty : vnf_state := mk_vnf_state (slot_empty _ 4) (slot_empty _ 4).
Definition addr (n : Z) : dp_ipv6 := mk_ipv6 1 n.

Definition lb_pfx : dp_ip_address := dp_set_ipaddr4 0.

Lemma empty_consistent : vnf_consistent empty.
Proof. intros ul vnf. unfold handle_map, value_map. cbn. by rewrite !lookup_empty. Qed.


Definition one : vnf_state := snd (dp_add_vnf true true (addr 1) DP_VNF_TYPE_NAT 3 100 lb_pfx 32 empty).

Definition blank_cfg : dp_iface_cfg :=
  mk_iface_cfg 0 0 0 dp_empty_ipv6 0 (dp_set_ipaddr4 0) [] [].
Definition blank_iface : dp_port_iface :=
  mk_iface [] 0 blank_cfg 100 false [] dp_empty_ipv6 0 0 0 true false 0 0 0.
Definition vf (n : Z) : dp_port := mk_port false n 0 1 true 0 0 [] [] blank_iface false 0.
Definition ports : port_table := {[ 3 := vf 3 ]}.
Definition packet : rte_mbuf :=
  mk_mbuf (mk_buf [] [] []) 0 0 0 0 0 0 0 0 (set_ul_dst_addr6 (addr 1) dp_init_flow) (mk_mark 1 false false).

Lemma resolve_tunnel_dst_once_witness :
  dp_vnf_resolve_tunnel_dst ports empty (snd (dp_vnf_resolve_tunnel_dst ports one packet))
  = (Some (vf 3), snd (dp_vnf_resolve_tunnel_dst ports one packet)).
Proof.
  assert (dp_vnf_resolve_tunnel_dst ports one packet
          = (Some (vf 3), snd (dp_vnf_resolve_tunnel_dst ports one packet))) as H
    by (vm_compute; reflexivity).
  apply (resolve_tunnel_dst_once ports one empty packet (vf 3) _ eq_refl H).
Defined.

Definition two : vnf_state := snd (dp_add_vnf true true (addr 2) DP_VNF_TYPE_NAT 3 100 lb_pfx 32 one).

(** Registering the same value under a second underlay address succeeds
    but overwrites the reverse entry; removing the second address then leaves
    the first one registered with no reverse entry, so it can no longer be
    removed by value and removing it by address reports an error. *)
Theorem vnf_duplicate_value_orphans_first :
  fst (dp_add_vnf true true (addr 2) DP_VNF_TYPE_NAT 3 100 lb_pfx 32 one) = DP_OK
  /\ (let st := snd (dp_del_vnf (addr 2) two) in
      dp_get_vnf (addr 1) st <> None
      /\ fst (dp_del_vnf_by_value DP_VNF_TYPE_NAT 3 100 lb_pfx 32 st) = DP_GRPC_ERR NOT_FOUND
      /\ fst (dp_del_vnf (addr 1) st) = DP_ERROR
      /\ dp_get_vnf (addr 1) (snd (dp_del_vnf (addr 1) st)) = None).
Proof. vm_compute. split_and!; done. Qed.
End VnfExample.
