(* ===== verification/Firewall.v ===== *)
(** The per-interface firewall: [src/dp_firewall.c].

    A rule list is a [TAILQ] owned by the interface; it is the list of its
    rules, first to last.  [None] as the result of a lookup is undefined
    behaviour, a write through a null pointer. *)

From S2P Require Import Prelude Errors IpAddr Port Packet.

Definition DP_FWALL_MATCH_ANY_PORT : Z := 0xFFFFFFFF.
Definition DP_FWALL_MATCH_ANY_ICMP_TYPE : Z := 0xFFFFFFFF.
Definition DP_FWALL_MATCH_ANY_ICMP_CODE : Z := 0xFFFFFFFF.
Definition DP_FWALL_MATCH_ANY_PROTOCOL : Z := 0.

Section firewall.
Context `{ERR : RteErrno}.
Implicit Types (df : dp_flow) (rule : dp_fwall_rule) (port : dp_port).

(** ** The rules of an interface *)

Definition upd_iface (f : dp_port_iface -> dp_port_iface) port : dp_port := set_iface (f (iface port)) port.

Definition dp_init_firewall_rules port : dp_port :=
  upd_iface (fun i => set_fwall_rule_count 0 (set_fwall_head [] i)) port.

(** [zmalloc_ok] is whether the allocator finds memory. *)
Definition dp_add_firewall_rule (zmalloc_ok : bool) (new_rule : dp_fwall_rule) port : Z * dp_port :=
  if negb zmalloc_ok then (DP_ERROR, port)
  else (DP_OK, upd_iface (fun i => set_fwall_rule_count (u32 (fwall_rule_count i + 1))
                                     (set_fwall_head (fwall_head i ++ [new_rule]) i)) port).

Definition same_id (id : list Z) rule : bool := bool_decide (rule_id rule = id).

Fixpoint remove_first (p : dp_fwall_rule -> bool) (l : list dp_fwall_rule) : option (list dp_fwall_rule) :=
  match l with
  | [] => None
  | r :: l' => if p r then Some l' else cons r <$> remove_first p l'
  end.

Definition dp_delete_firewall_rule (id : list Z) port : Z * dp_port :=
  match remove_first (same_id id) (fwall_head (iface port)) with
  | Some l => (DP_OK, upd_iface (fun i => set_fwall_rule_count (u32 (fwall_rule_count i - 1)) (set_fwall_head l i)) port)
  | None => (DP_ERROR, port)
  end.

Definition dp_get_firewall_rule (id : list Z) port : option dp_fwall_rule :=
  List.find (same_id id) (fwall_head (iface port)).

(** The replies added before memory ran out are returned along with the
    error. *)
Fixpoint list_rules_loop (add_reply : nat -> bool) (n : nat) (l : list dp_fwall_rule) : Z * list dp_fwall_rule :=
  match l with
  | [] => (DP_OK, [])
  | r :: l' =>
      if negb (add_reply n) then (DP_GRPC_ERR OUT_OF_MEMORY, [])
      else let '(ret, rs) := list_rules_loop add_reply (S n) l' in (ret, r :: rs)
  end.

Definition dp_list_firewall_rules (add_reply : nat -> bool) port : Z * list dp_fwall_rule :=
  list_rules_loop add_reply 0 (fwall_head (iface port)).

Fixpoint del_all_loop (fuel : nat) (l : list dp_fwall_rule) : list dp_fwall_rule :=
  match fuel, l with
  | S fuel', _ :: l' => del_all_loop fuel' l'
  | _, _ => l
  end.

Definition dp_del_all_firewall_rules port : dp_port :=
  upd_iface (fun i => set_fwall_rule_count 0
    (set_fwall_head (del_all_loop (length (fwall_head i)) (fwall_head i)) i)) port.

(** ** Matching *)

Definition ipv4_rule_match rule df : bool :=
  negb (is_v6 (rule_src_ip rule) || is_v6 (rule_dest_ip rule)
    || negb (Z.land (ntohl (src_addr df)) (mask_ip4 (rule_src_mask rule))
             =? Z.land (ipv4 (rule_src_ip rule)) (mask_ip4 (rule_src_mask rule)))
    || negb (Z.land (ntohl (dst_addr df)) (mask_ip4 (rule_dest_mask rule))
             =? Z.land (ipv4 (rule_dest_ip rule)) (mask_ip4 (rule_dest_mask rule)))).

Definition ipv6_rule_match rule df : bool :=
  match dp_ipv6_from_ipaddr (rule_src_ip rule), dp_ipv6_from_ipaddr (rule_dest_ip rule) with
  | (_, Some r_src), (_, Some r_dest) =>
      dp_masked_ipv6_match (df_src df) r_src (rule_src_mask rule)
      && dp_masked_ipv6_match (df_dst df) r_dest (rule_dest_mask rule)
  | _, _ => false
  end.

Definition in_range (lower upper x : Z) : bool :=
  (lower =? DP_FWALL_MATCH_ANY_PORT) || ((x >=? lower) && (x <=? upper)).

Definition proto_match rule (protocol : Z) : bool :=
  (rule_protocol rule =? DP_FWALL_MATCH_ANY_PROTOCOL) || (rule_protocol rule =? protocol).

(** The part after the switch: addresses, then ports. *)
Definition address_port_match rule df (protocol : Z) : bool :=
  let f := rule_filter rule in
  (if l3_type df =? RTE_ETHER_TYPE_IPV4 then ipv4_rule_match rule df
   else if l3_type df =? RTE_ETHER_TYPE_IPV6 then ipv6_rule_match rule df
   else false)
  && (in_range (src_port_lower f) (src_port_upper f) (ntohs (l4_src_port df))
      && in_range (dst_port_lower f) (dst_port_upper f) (ntohs (l4_dst_port df))
      && proto_match rule protocol).

Definition icmp_rule_match rule df (protocol : Z) : bool :=
  let f := rule_filter rule in
  ((filter_icmp_type f =? DP_FWALL_MATCH_ANY_ICMP_TYPE) || (icmp_type df =? filter_icmp_type f))
  && ((filter_icmp_code f =? DP_FWALL_MATCH_ANY_ICMP_CODE) || (icmp_code df =? filter_icmp_code f))
  && proto_match rule protocol.

Definition dp_is_rule_matching rule df : bool :=
  let protocol := l4_type df in
  if l4_type df =? IPPROTO_TCP then
    if negb (rule_protocol rule =? IPPROTO_TCP) && negb (rule_protocol rule =? DP_FWALL_MATCH_ANY_PROTOCOL)
    then false else address_port_match rule df protocol
  else if l4_type df =? IPPROTO_UDP then
    if negb (rule_protocol rule =? IPPROTO_UDP) && negb (rule_protocol rule =? DP_FWALL_MATCH_ANY_PROTOCOL)
    then false else address_port_match rule df protocol
  else if (l4_type df =? IPPROTO_ICMP) || (l4_type df =? IPPROTO_ICMPV6) then
    if negb (rule_protocol rule =? IPPROTO_ICMP) && negb (rule_protocol rule =? DP_FWALL_MATCH_ANY_PROTOCOL)
    then false
    else
      let protocol := if l3_type df =? RTE_ETHER_TYPE_IPV6 then IPPROTO_ICMP else protocol in
      if icmp_rule_match rule df protocol then true else address_port_match rule df protocol
  else false.

(** [egress_rule_count] is a pointer: [None] when it is [NULL], and then
    counting an egress rule is undefined. *)
Fixpoint dp_is_matched_in_fwall_list df (rules : list dp_fwall_rule) (dir : dp_fwall_direction)
    (egress_rule_count : option Z) : option (option dp_fwall_rule * option Z) :=
  match rules with
  | [] => Some (None, egress_rule_count)
  | rule :: rules' =>
      egress_rule_count ←
        (if bool_decide (rule_dir rule = DP_FWALL_EGRESS)
         then match egress_rule_count with Some n => Some (Some (u32 (n + 1))) | None => None end
         else Some egress_rule_count);
      if bool_decide (dir = rule_dir rule) && dp_is_rule_matching rule df
      then Some (Some rule, egress_rule_count)
      else dp_is_matched_in_fwall_list df rules' dir egress_rule_count
  end.

Definition dp_get_egress_action df (rules : list dp_fwall_rule) : option dp_fwall_action :=
  r ← dp_is_matched_in_fwall_list df rules DP_FWALL_EGRESS (Some 0);
  match r with
  | (Some rule, _) => Some (rule_action rule)
  | (None, Some n) => Some (if n =? 0 then DP_FWALL_ACCEPT else DP_FWALL_DROP)
  | (None, None) => None
  end.

Definition dp_get_firewall_action df (in_port out_port : dp_port) : option dp_fwall_action :=
  if is_pf out_port then dp_get_egress_action df (fwall_head (iface in_port))
  else
    egress_action ← (if is_pf in_port then Some DP_FWALL_ACCEPT
                     else dp_get_egress_action df (fwall_head (iface in_port)));
    if negb (bool_decide (egress_action = DP_FWALL_ACCEPT)) then Some DP_FWALL_DROP
    else
      r ← dp_is_matched_in_fwall_list df (fwall_head (iface out_port)) DP_FWALL_INGRESS None;
      match fst r with
      | Some rule => Some (if bool_decide (rule_action rule = DP_FWALL_ACCEPT) then DP_FWALL_ACCEPT else DP_FWALL_DROP)
      | None => Some DP_FWALL_DROP
      end.

(** ** The policy *)

(** The first rule of a direction that matches decides. *)
Definition first_match dir df (rules : list dp_fwall_rule) : option dp_fwall_rule :=
  List.find (fun r => bool_decide (dir = rule_dir r) && dp_is_rule_matching r df) rules.

Definition is_egress rule : bool := bool_decide (rule_dir rule = DP_FWALL_EGRESS).

(** Traffic an interface originates: accepted by default only while it has no
    egress rule at all. *)
Definition egress_policy df rules : dp_fwall_action :=
  match first_match DP_FWALL_EGRESS df rules with
  | Some r => rule_action r
  | None => if existsb is_egress rules then DP_FWALL_DROP else DP_FWALL_ACCEPT
  end.

(** Traffic to an interface: dropped unless an ingress rule accepts it. *)
Definition ingress_policy df rules : dp_fwall_action :=
  match first_match DP_FWALL_INGRESS df rules with
  | Some r => rule_action r
  | None => DP_FWALL_DROP
  end.

Definition firewall_policy df (in_port out_port : dp_port) : dp_fwall_action :=
  let egress := if is_pf in_port then DP_FWALL_ACCEPT else egress_policy df (fwall_head (iface in_port)) in
  if is_pf out_port then egress_policy df (fwall_head (iface in_port))
  else match egress with
       | DP_FWALL_DROP => DP_FWALL_DROP
       | DP_FWALL_ACCEPT => ingress_policy df (fwall_head (iface out_port))
       end.

(** An egress rule in front of the first matching ingress rule. *)
Fixpoint egress_in_front df (rules : list dp_fwall_rule) : bool :=
  match rules with
  | [] => false
  | r :: rules' => is_egress r || (negb (dp_is_rule_matching r df) && egress_in_front df rules')
  end.

(** When the ingress lookup is reached. *)
Definition ingress_consulted df (in_port out_port : dp_port) : bool :=
  negb (is_pf out_port)
  && (is_pf in_port || bool_decide (egress_policy df (fwall_head (iface in_port)) = DP_FWALL_ACCEPT)).

(** ** Correctness *)

Lemma matched_counted df rules dir n : 0 <= n -> n + Z.of_nat (length rules) < 2 ^ 32 ->
  exists n', dp_is_matched_in_fwall_list df rules dir (Some n) = Some (first_match dir df rules, Some n')
    /\ n <= n' /\ (first_match dir df rules = None -> (n' = n <-> existsb is_egress rules = false)).
Proof.
  revert n; induction rules as [|r rules IH]; intros n Hn Hlen; [by exists n|].
  cbn [length] in Hlen. cbn [dp_is_matched_in_fwall_list first_match List.find existsb]. fold (is_egress r).
  set (n1 := if is_egress r then n + 1 else n).
  assert ((if is_egress r then Some (Some (u32 (n + 1))) else Some (Some n)) = Some (Some n1)) as ->.
  { unfold n1. destruct (is_egress r); [|done]. rewrite u32_small; [done|]. unfold is_u32. lia. }
  cbn [mbind option_bind]. assert (n <= n1 <= n + 1 /\ (n1 = n <-> is_egress r = false)) as [Hn1 Hiff].
  { unfold n1. destruct (is_egress r); split; try lia; split; intros; (lia || done). }
  destruct (bool_decide (dir = rule_dir r) && dp_is_rule_matching r df); [exists n1; split_and!; [done | lia | done]|].
  destruct (IH n1) as (n' & Hrun & Hle & Hno); [lia | lia |]. exists n'. split_and!; [exact Hrun | lia |].
  intros Hnone. specialize (Hno Hnone). rewrite orb_false_iff, <-Hiff. split.
  - intros ->. assert (n1 = n) as -> by lia. tauto.
  - intros [Heq He]. rewrite Heq in Hno. tauto.
Qed.

Lemma matched_uncounted df rules :
  dp_is_matched_in_fwall_list df rules DP_FWALL_INGRESS None
  = if egress_in_front df rules then None else Some (first_match DP_FWALL_INGRESS df rules, None).
Proof.
  induction rules as [|r rules IH]; [done|].
  cbn [dp_is_matched_in_fwall_list first_match List.find egress_in_front]. unfold is_egress.
  destruct (rule_dir r) eqn:Hd; cbn; [|done]. destruct (dp_is_rule_matching r df); cbn; [done | exact IH].
Qed.

Lemma egress_action_policy df rules : Z.of_nat (length rules) < 2 ^ 32 ->
  dp_get_egress_action df rules = Some (egress_policy df rules).
Proof.
  intros Hlen. unfold dp_get_egress_action, egress_policy.
  destruct (matched_counted df rules DP_FWALL_EGRESS 0) as (n' & -> & Hle & Hno); [done | lia |]. cbn.
  destruct (first_match _ _ _); [done|]. specialize (Hno eq_refl).
  destruct (n' =? 0) eqn:E; bools.
  - by rewrite (proj1 Hno E).
  - destruct (existsb is_egress rules); [done|]. by destruct E; apply Hno.
Qed.

End firewall.

(** ** Concrete rules *)

Module FirewallExample.
#[export] Instance errno : RteErrno := dpdk_errno.

Definition everywhere : dp_ip_address := dp_set_ipaddr4 0.
Definition no_mask : dp_ipv6 := mk_ipv6 0 0.
Definition any_port : dp_fwall_filter := mk_filter DP_FWALL_MATCH_ANY_PORT 0 DP_FWALL_MATCH_ANY_PORT 0.
Definition rule_of (id protocol : Z) (src mask : Z) (f : dp_fwall_filter) (dir : dp_fwall_direction) : dp_fwall_rule :=
  mk_rule [id] (dp_set_ipaddr4 src) everywhere (mk_ipv6 mask 0) no_mask 1000 protocol f DP_FWALL_ACCEPT dir.
Definition allow_tcp (id : Z) (dir : dp_fwall_direction) : dp_fwall_rule := rule_of id IPPROTO_TCP 0 0 any_port dir.

Definition iface_with (rules : list dp_fwall_rule) : dp_port_iface :=
  mk_iface rules (Z.of_nat (length rules)) (mk_iface_cfg 0 0 0 no_mask 0 everywhere [] []) 100 false [] no_mask
    0 0 0 true false 0 0 0.
Definition vf (n : Z) (rules : list dp_fwall_rule) : dp_port :=
  mk_port false n 0 1 true 0 0 [] [] (iface_with rules) false 0.

Definition packet (proto src : Z) : dp_flow :=
  set_src_addr (htonl src) (set_l4_type proto (set_l3_type RTE_ETHER_TYPE_IPV4 dp_init_flow)).


(** Two accepting rules on the destination interface, egress before
    ingress, and every packet from another interface dereferences a null
    pointer; with the rules in the other order it is accepted. *)
Theorem firewall_null_dereference :
  dp_get_firewall_action (packet IPPROTO_TCP 0x0a000001) (vf 2 [])
    (vf 3 [allow_tcp 1 DP_FWALL_EGRESS; allow_tcp 2 DP_FWALL_INGRESS]) = None
  /\ dp_get_firewall_action (packet IPPROTO_TCP 0x0a000001) (vf 2 [])
    (vf 3 [allow_tcp 2 DP_FWALL_INGRESS; allow_tcp 1 DP_FWALL_EGRESS]) = Some DP_FWALL_ACCEPT.
Proof. vm_compute. split; reflexivity. Qed.

(** The source prefix of a rule is not applied to ICMP: a rule that
    accepts ICMP from 10.0.0.0/8 accepts it from 192.168.0.1, while the same
    rule for TCP does not. *)
Theorem icmp_rule_ignores_source :
  let rule proto := rule_of 1 proto 0x0a000000 0xff000000 any_port DP_FWALL_INGRESS in
  let icmp := mk_filter DP_FWALL_MATCH_ANY_ICMP_TYPE DP_FWALL_MATCH_ANY_ICMP_CODE 0 0 in
  dp_is_rule_matching (rule_of 1 IPPROTO_ICMP 0x0a000000 0xff000000 icmp DP_FWALL_INGRESS)
    (packet IPPROTO_ICMP 0xc0a80001) = true
  /\ dp_is_rule_matching (rule IPPROTO_TCP) (packet IPPROTO_TCP 0xc0a80001) = false
  /\ dp_is_rule_matching (rule IPPROTO_TCP) (packet IPPROTO_TCP 0x0a000001) = true.
Proof. vm_compute. split_and!; reflexivity. Qed.
End FirewallExample.
