(* ===== verification/Tunnel.v ===== *)
(** The nodes at both ends of the underlay tunnel: [src/nodes/cls_node.c],
    [src/nodes/ipip_encap_node.c] and [src/nodes/ipip_decap_node.c].

    Each [get_next_index] is a function on the packet it is called for; its
    result is the number of the edge the packet leaves by. *)

From S2P Require Import Prelude Errors RteHash IpAddr Port Graph Packet Virtsvc Vnf.

(** ** Packet types (DPDK) *)

Definition RTE_PTYPE_L2_MASK : Z := 0x0000000f.
Definition RTE_PTYPE_L2_ETHER : Z := 0x00000001.
Definition RTE_PTYPE_L3_MASK : Z := 0x000000f0.
Definition RTE_PTYPE_L3_IPV4 : Z := 0x00000010.
Definition RTE_PTYPE_L3_IPV6 : Z := 0x00000040.
Definition RTE_PTYPE_L4_MASK : Z := 0x00000f00.
Definition RTE_PTYPE_TUNNEL_IP : Z := 0x00001000.
Definition RTE_PTYPE_INNER_L3_IPV4 : Z := 0x00100000.
Definition RTE_PTYPE_INNER_L3_IPV6 : Z := 0x00300000.
Definition RTE_PTYPE_INNER_L4_MASK : Z := 0x0f000000.
Definition RTE_ETH_IS_IPV4_HDR (ptype : Z) : bool := negb (Z.land ptype RTE_PTYPE_L3_IPV4 =? 0).
Definition RTE_ETH_IS_IPV6_HDR (ptype : Z) : bool := negb (Z.land ptype RTE_PTYPE_L3_IPV6 =? 0).

Definition RTE_MBUF_F_TX_OUTER_IPV6 : Z := 2 ^ 60.
Definition RTE_MBUF_F_TX_TUNNEL_IP : Z := 0xD * 2 ^ 45.

Definition DP_IP6_HOP_LIMIT : Z := 0x40.
Definition DP_IP6_VTC_FLOW : Z := 0x60000000.

Definition NDISC_ROUTER_SOLICITATION : Z := 133.
Definition NDISC_NEIGHBOUR_SOLICITATION : Z := 135.
Definition RTE_ARP_HRD_ETHER : Z := 1.

(** ** cls *)

Definition CLS_NEXT_DROP : Z := 0.
Definition CLS_NEXT_ARP : Z := 1.
Definition CLS_NEXT_IPV6_ND : Z := 2.
Definition CLS_NEXT_CONNTRACK : Z := 3.
Definition CLS_NEXT_IPIP_DECAP : Z := 4.
Definition CLS_NEXT_VIRTSVC : Z := 5.

Section nodes.
Context `{ERR : RteErrno} {HT : RteHash dp_ipv6 dp_vnf} {VT : RteHash dp_vnf dp_ipv6} `{MB : RteMbuf}.

(** The tables the nodes read, and the static variables of cls and
    ipip_encap. *)
Record tunnel_env := mk_tunnel_env {
  env_ports : port_table;
  env_vnf : vnf_state;
  env_underlay : dp_ipv6;
  virtsvc_present : bool;
  virtsvc_ipv4_tree : dp_virtsvc_lookup_entry;
  virtsvc_ipv6_tree : dp_virtsvc_lookup_entry;
  ipsec_enabled : bool;
  cls_ipsec_decap_index : Z;
  encap_tx_index : gmap Z Z;
  encap_ipsec_index : gmap Z Z
}.
Implicit Types (e : tunnel_env) (m : rte_mbuf).

(** [is_arp]: the header behind the Ethernet one; the tests short-circuit. *)
Definition is_arp : M rte_mbuf bool :=
  hw ← rd 14 2;
  if negb (hw =? htons RTE_ARP_HRD_ETHER) then mret false
  else
    hlen ← rd 18 1;
    if negb (hlen =? 6) then mret false
    else
      prot ← rd 16 2;
      if negb (prot =? htons RTE_ETHER_TYPE_IPV4) then mret false
      else plen ← rd 19 1; mret (plen =? 4).

Definition is_ipv6_nd : M rte_mbuf bool :=
  proto ← rd (14 + ipv6_proto_off) 1;
  if negb (proto =? IPPROTO_ICMPV6) then mret false
  else
    type ← rd (14 + sizeof_ipv6) 1;
    mret ((type =? NDISC_NEIGHBOUR_SOLICITATION) || (type =? NDISC_ROUTER_SOLICITATION)).

(** The lookups of [get_outgoing_virtsvc] and [get_incoming_virtsvc] with the
    header fields they read; the port is only read for TCP and UDP. *)
Definition outgoing_virtsvc e : M rte_mbuf (option dp_virtsvc) :=
  addr ← rd (14 + ipv4_dst_off) 4;
  proto ← rd (14 + ipv4_proto_off) 1;
  if (proto =? IPPROTO_TCP) || (proto =? IPPROTO_UDP) then
    port ← rd (14 + sizeof_ipv4 + l4_dst_port_off) 2;
    mret (get_outgoing_virtsvc (virtsvc_ipv4_tree e) addr proto port)
  else mret None.

Definition incoming_virtsvc e : M rte_mbuf (option dp_virtsvc) :=
  src ← rd_ipv6 (14 + ipv6_src_off);
  proto ← rd (14 + ipv6_proto_off) 1;
  if (proto =? IPPROTO_TCP) || (proto =? IPPROTO_UDP) then
    port ← rd (14 + sizeof_ipv6 + l4_src_port_off) 2;
    mret (get_incoming_virtsvc (virtsvc_ipv6_tree e) src proto port)
  else mret None.

Definition resolve_tunnel_dst e : M rte_mbuf (option dp_port) :=
  fun m => Some (dp_vnf_resolve_tunnel_dst (env_ports e) (env_vnf e) m).

(** What follows the endpoint lookup for a tunnel packet. *)
Definition cls_tunnel_type : M rte_mbuf Z :=
  proto ← rd (14 + ipv6_proto_off) 1;
  if proto =? IPPROTO_IPIP then upd_flow (set_l3_type RTE_ETHER_TYPE_IPV4) ;; mret CLS_NEXT_IPIP_DECAP
  else if proto =? IPPROTO_IPV6 then upd_flow (set_l3_type RTE_ETHER_TYPE_IPV6) ;; mret CLS_NEXT_IPIP_DECAP
  else mret CLS_NEXT_DROP.

(** The inbound policy: the protection of the packet has to match that of the
    destination interface. *)
Definition cls_policy e : M rte_mbuf Z :=
  if ipsec_enabled e then
    dst_port ← resolve_tunnel_dst e;
    match dst_port with
    | None => mret CLS_NEXT_DROP
    | Some port =>
        proto ← rd (14 + ipv6_proto_off) 1;
        if negb (Bool.eqb (encrypt (iface port)) (proto =? IPPROTO_ESP)) then mret CLS_NEXT_DROP
        else if encrypt (iface port) then mret (cls_ipsec_decap_index e)
        else cls_tunnel_type
    end
  else cls_tunnel_type.

(** The branch for IPv6 packets from a physical port. *)
Definition cls_underlay e : M rte_mbuf Z :=
  nd ← is_ipv6_nd;
  if nd : bool then mret CLS_NEXT_DROP
  else
    virtsvc ← (if virtsvc_present e then incoming_virtsvc e else mret None);
    match virtsvc with
    | Some v => upd_flow (set_df_virtsvc (Some (virtsvc_index v))) ;; mret CLS_NEXT_VIRTSVC
    | None =>
        type ← rd ether_type_off 2;
        upd_flow (set_tun_l3_type (ntohs type)) ;;
        dp_extract_underlay_header 14 ;;
        cls_policy e
    end.

Definition cls_get_next_index e : M rte_mbuf Z :=
  ptype ← gets packet_type;
  if negb (Z.land ptype RTE_PTYPE_L2_MASK =? RTE_PTYPE_L2_ETHER) then mret CLS_NEXT_DROP
  else
    let l3_type := Z.land ptype RTE_PTYPE_L3_MASK in
    modify (set_flow dp_init_flow) ;;
    if l3_type =? 0 then
      arp ← is_arp;
      mret (if arp : bool then CLS_NEXT_ARP else CLS_NEXT_DROP)
    else
      id ← gets m_port;
      match dp_get_port_by_id (env_ports e) id with
      | None => mret CLS_NEXT_DROP
      | Some port =>
          if RTE_ETH_IS_IPV4_HDR l3_type then
            if is_pf port then mret CLS_NEXT_DROP
            else
              virtsvc ← (if virtsvc_present e then outgoing_virtsvc e else mret None);
              match virtsvc with
              | Some v => upd_flow (set_df_virtsvc (Some (virtsvc_index v))) ;; mret CLS_NEXT_VIRTSVC
              | None =>
                  type ← rd ether_type_off 2;
                  upd_flow (set_l3_type (ntohs type)) ;;
                  len ← gets pkt_len;
                  upd_flow (set_l3_payload_length (u32 (len - 14))) ;;
                  mret CLS_NEXT_CONNTRACK
              end
          else if RTE_ETH_IS_IPV6_HDR l3_type then
            if is_pf port then cls_underlay e
            else
              nd ← is_ipv6_nd;
              if nd : bool then mret CLS_NEXT_IPV6_ND
              else
                type ← rd ether_type_off 2;
                upd_flow (set_l3_type (ntohs type)) ;;
                mret CLS_NEXT_CONNTRACK
          else mret CLS_NEXT_DROP
      end.

(** ** ipip_encap *)

Definition IPIP_ENCAP_NEXT_DROP : Z := 0.
Definition IPIP_ENCAP_NEXT_CLS : Z := 1.

(** Protocol number, payload length (network byte order) and packet type of
    the outer header; [None] for a packet that is neither IPv4 nor IPv6. *)
Definition encap_fields (l3 : Z) : M rte_mbuf (option (Z * Z * Z)) :=
  if l3 =? RTE_ETHER_TYPE_IPV4 then
    upd_flow (set_proto_id IPPROTO_IPIP) ;;
    len ← rd (14 + ipv4_total_length_off) 2;
    mret (Some (IPPROTO_IPIP, len,
      Z.lor (Z.lor (Z.lor RTE_PTYPE_L3_IPV6 RTE_PTYPE_TUNNEL_IP) RTE_PTYPE_INNER_L3_IPV4) RTE_PTYPE_L2_ETHER))
  else if l3 =? RTE_ETHER_TYPE_IPV6 then
    upd_flow (set_proto_id IPPROTO_IPV6) ;;
    len ← rd (14 + ipv6_payload_len_off) 2;
    mret (Some (IPPROTO_IPV6, htons (u16 (ntohs len + 40)),
      Z.lor (Z.lor (Z.lor RTE_PTYPE_L3_IPV6 RTE_PTYPE_TUNNEL_IP) RTE_PTYPE_INNER_L3_IPV6) RTE_PTYPE_L2_ETHER))
  else mret None.

(** Replaces the Ethernet header by room for a new one and an IPv6 header;
    [false] where the headroom does not suffice (the old header is gone then). *)
Definition make_room : M rte_mbuf bool :=
  b ← gets buf;
  let b := default b (rte_pktmbuf_adj b sizeof_ether) in
  modify (set_buf b) ;;
  match rte_pktmbuf_prepend b (sizeof_ether + sizeof_ipv6) with
  | None => mret false
  | Some b' => modify (set_buf b') ;; mret true
  end.

Definition outer_src e : M rte_mbuf dp_ipv6 :=
  df ← gets flow;
  if bool_decide (nat_type df = DP_LB_RECIRC) then mret (ul_src_addr6 df)
  else port ← get_in_port (env_ports e); mret (dp_get_port_ul_ipv6 (env_underlay e) port).

(** The writes into the outer header, in order. *)
Definition write_outer e (payload_len : Z) : M rte_mbuf unit :=
  out ← get_out_port (env_ports e);
  dp_fill_ether_hdr out RTE_ETHER_TYPE_IPV6 ;;
  wr (14 + ipv6_hop_off) 1 DP_IP6_HOP_LIMIT ;;
  wr (14 + ipv6_payload_len_off) 2 payload_len ;;
  wr 14 4 (htonl DP_IP6_VTC_FLOW) ;;
  src ← outer_src e;
  wr_ipv6 (14 + ipv6_src_off) src ;;
  df ← gets flow;
  wr_ipv6 (14 + ipv6_dst_off) (ul_dst_addr6 df) ;;
  wr (14 + ipv6_proto_off) 1 (proto_id df).

Definition ipip_encap_get_next_index e : M rte_mbuf Z :=
  df ← gets flow;
  fields ← encap_fields (l3_type df);
  match fields with
  | None => mret IPIP_ENCAP_NEXT_DROP
  | Some (_, payload_len, ptype) =>
      modify (set_outer_l2_len 14) ;;
      modify (set_outer_l3_len 40) ;;
      modify (set_l2_len 0) ;;
      room ← make_room;
      if negb room then mret IPIP_ENCAP_NEXT_DROP
      else
        write_outer e payload_len ;;
        modify (set_packet_type ptype) ;;
        modify (fun m => set_ol_flags (Z.lor (ol_flags m) RTE_MBUF_F_TX_OUTER_IPV6) m) ;;
        modify (fun m => set_ol_flags (Z.lor (ol_flags m) RTE_MBUF_F_TX_TUNNEL_IP) m) ;;
        df ← gets flow;
        if bool_decide (nat_type df = DP_LB_RECIRC) then
          modify (fun m => set_mark (mk_mark (mark_id (mark m)) true (crypto_failed (mark m))) m) ;;
          mret IPIP_ENCAP_NEXT_CLS
        else
          port ← get_in_port (env_ports e);
          get_some (edge_at (if encrypt (iface port) then encap_ipsec_index e else encap_tx_index e)
                            (nxt_hop df))
  end.

(** ** ipip_decap *)

Definition IPIP_DECAP_NEXT_DROP : Z := 0.
Definition IPIP_DECAP_NEXT_CONNTRACK : Z := 1.

Definition ipip_decap_get_next_index e : M rte_mbuf Z :=
  dst_port ← resolve_tunnel_dst e;
  match dst_port with
  | None => mret IPIP_DECAP_NEXT_DROP
  | Some port =>
      df ← gets flow;
      let l3 := if proto_id df =? IPPROTO_IPIP then Some RTE_PTYPE_L3_IPV4
                else if proto_id df =? IPPROTO_IPV6 then Some RTE_PTYPE_L3_IPV6
                else None in
      match l3 with
      | None => mret IPIP_DECAP_NEXT_DROP
      | Some l3 =>
          b ← gets buf;
          let b := default b (rte_pktmbuf_adj b (sizeof_ether + sizeof_ipv6)) in
          b' ← get_some (rte_pktmbuf_prepend b sizeof_ether);
          modify (set_buf b') ;;
          dp_fill_ether_hdr port (l3_type df) ;;
          modify (fun m => set_packet_type
            (Z.lor (Z.lor (Z.shiftr (Z.land (packet_type m) RTE_PTYPE_INNER_L4_MASK) 16) l3)
               RTE_PTYPE_L2_ETHER) m) ;;
          mret IPIP_DECAP_NEXT_CONNTRACK
      end
  end.

(** ** Classification of underlay packets *)

Lemma reads_rd off n : reads (rd off n).
Proof. unfold rd. auto with reads. Qed.
Lemma reads_rd_ipv6 off : reads (rd_ipv6 off).
Proof. unfold rd_ipv6. auto with reads. Qed.
Hint Resolve reads_rd reads_rd_ipv6 : reads.

Lemma reads_is_arp : reads is_arp.
Proof. unfold is_arp. auto 20 with reads. Qed.
Lemma reads_is_ipv6_nd : reads is_ipv6_nd.
Proof. unfold is_ipv6_nd. auto 20 with reads. Qed.
Lemma reads_incoming_virtsvc e : reads (incoming_virtsvc e).
Proof. unfold incoming_virtsvc. auto 20 with reads. Qed.
Lemma reads_outgoing_virtsvc e : reads (outgoing_virtsvc e).
Proof. unfold outgoing_virtsvc. auto 20 with reads. Qed.

(** What the policy demands of a packet that leaves the classifier by [edge]
    towards the tunnel's end. *)
Definition policy_ok e m m' (edge : Z) : Prop :=
  exists dst proto,
    read_le (buf m) (14 + ipv6_proto_off) 1 = Some proto
    /\ tun_dst_resolved (flow m') = true
    /\ dp_get_port_by_id (env_ports e) (nxt_hop (flow m')) = Some dst
    /\ proto_id (flow m') = proto
    /\ read_ipv6 (buf m) (14 + ipv6_dst_off) = Some (ul_dst_addr6 (flow m'))
    /\ ((edge = cls_ipsec_decap_index e /\ encrypt (iface dst) = true /\ proto = IPPROTO_ESP)
        \/ (edge = CLS_NEXT_IPIP_DECAP /\ encrypt (iface dst) = false
            /\ (proto = IPPROTO_IPIP /\ l3_type (flow m') = RTE_ETHER_TYPE_IPV4
                \/ proto = IPPROTO_IPV6 /\ l3_type (flow m') = RTE_ETHER_TYPE_IPV6))).

Lemma rd_inv off n m x m' : rd off n m = Some (x, m') -> m' = m /\ read_le (buf m) off n = Some x.
Proof. unfold rd. intros H. m_inv H. done. Qed.

Lemma rd_ipv6_inv off m x m' : rd_ipv6 off m = Some (x, m') -> m' = m /\ read_ipv6 (buf m) off = Some x.
Proof. unfold rd_ipv6. intros H. m_inv H. done. Qed.

Lemma extract_underlay_inv off m u m' : dp_extract_underlay_header off m = Some (u, m') ->
  exists src dst proto,
    read_ipv6 (buf m) (off + ipv6_src_off) = Some src /\ read_ipv6 (buf m) (off + ipv6_dst_off) = Some dst
    /\ read_le (buf m) (off + ipv6_proto_off) 1 = Some proto
    /\ m' = set_flow (set_proto_id proto (set_ul_dst_addr6 dst (set_ul_src_addr6 src (flow m)))) m.
Proof.
  unfold dp_extract_underlay_header, upd_flow. intros H. m_inv H.
  repeat match goal with
  | H : rd_ipv6 _ _ = Some _ |- _ => apply rd_ipv6_inv in H as [-> ?]
  | H : rd _ _ _ = Some _ |- _ => apply rd_inv in H as [-> ?]
  end.
  destruct m. cbn in *. eauto 10.
Qed.
Lemma tunnel_type_inv m edge m' : cls_tunnel_type m = Some (edge, m') ->
  buf m' = buf m
  /\ exists proto, read_le (buf m) (14 + ipv6_proto_off) 1 = Some proto
      /\ ((edge = CLS_NEXT_DROP)
          \/ (edge = CLS_NEXT_IPIP_DECAP /\ proto = IPPROTO_IPIP
              /\ m' = set_flow (set_l3_type RTE_ETHER_TYPE_IPV4 (flow m)) m)
          \/ (edge = CLS_NEXT_IPIP_DECAP /\ proto = IPPROTO_IPV6
              /\ m' = set_flow (set_l3_type RTE_ETHER_TYPE_IPV6 (flow m)) m)).
Proof.
  unfold cls_tunnel_type, upd_flow. intros H. m_inv H. apply rd_inv in Ha as [-> Hr].
  destruct (a =? IPPROTO_IPIP) eqn:E1; [|destruct (a =? IPPROTO_IPV6) eqn:E2]; m_inv H; bools;
    (split; [done|]); exists a; subst; eauto 10.
Qed.

Lemma resolve_inv e m o m' : resolve_tunnel_dst e m = Some (o, m') ->
  tun_dst_resolved (flow m) = false ->
  buf m' = buf m /\ proto_id (flow m') = proto_id (flow m) /\ ul_dst_addr6 (flow m') = ul_dst_addr6 (flow m)
  /\ forall dst, o = Some dst ->
       tun_dst_resolved (flow m') = true /\ dp_get_port_by_id (env_ports e) (nxt_hop (flow m')) = Some dst.
Proof.
  unfold resolve_tunnel_dst, dp_vnf_resolve_tunnel_dst. intros [= H] Hr. rewrite Hr in H.
  destruct (dp_get_vnf _ _) as [vnf|]; [|by simplify_eq].
  destruct (dp_get_port_by_id (env_ports e) (vnf_port_id vnf)) as [p|] eqn:Hp; [|by simplify_eq].
  simplify_eq. cbn. split_and!; [done..|]. intros dst [= <-]. done.
Qed.

(** Every tunnel packet the branch lets through satisfies the policy. *)
Lemma cls_underlay_inv e m edge m' :
  ipsec_enabled e = true -> tun_dst_resolved (flow m) = false -> cls_underlay e m = Some (edge, m') ->
  buf m' = buf m /\ (edge = CLS_NEXT_DROP \/ edge = CLS_NEXT_VIRTSVC \/ policy_ok e m m' edge).
Proof.
  intros Hon Hres. unfold cls_underlay. intros H. m_inv H. apply reads_is_ipv6_nd in Ha as ->.
  destruct a; [m_inv H; auto|]. m_inv H.
  assert (s = m) as -> by (destruct (virtsvc_present e); [by eapply reads_incoming_virtsvc | by eapply reads_ret]).
  destruct a as [v|]; [unfold upd_flow in H; m_inv H; auto|]. unfold cls_policy in H. rewrite Hon in H. unfold upd_flow in H.
  m_inv H. apply rd_inv in Ha0 as [-> _].
  apply extract_underlay_inv in Ha1 as (src & dst & proto & _ & Hdst & Hproto & ->). cbn in Hdst, Hproto.
  apply resolve_inv in Ha2 as (Hbuf & Hpid & Hul & Hport); [|done]. cbn in Hbuf, Hpid, Hul.
  destruct a1 as [port|]; [|m_inv H; rewrite Hbuf; auto]. destruct (Hport port eq_refl) as [Hr Hp].
  apply M_bind_inv in H as (proto' & s2 & Hrd & H). apply rd_inv in Hrd as [-> Hproto2].
  rewrite Hbuf in Hproto2. simplify_eq/=.
  destruct (negb _) eqn:Epol; [m_inv H; rewrite Hbuf; auto|]. bools. apply eqb_prop in Epol.
  destruct (encrypt (iface port)) eqn:Eenc.
  - m_inv H. rewrite Hbuf. split; [done|]. do 2 right. symmetry in Epol. bools.
    exists port, (proto_id (flow s1)). split_and!; auto.
  - apply tunnel_type_inv in H as (Hbuf' & proto' & Hproto3 & Hcase). rewrite Hbuf', Hbuf. split; [done|].
    rewrite Hbuf in Hproto3. simplify_eq/=.
    destruct Hcase as [->|[(-> & Hpr & ->)|(-> & Hpr & ->)]]; [by auto | do 2 right..];
      exists port, (proto_id (flow s1)); cbn; split_and!; auto 10.
Qed.

(** Classification reads no further than the first four bytes behind the
    IPv6 header. *)
Definition room (m : rte_mbuf) : Prop := (58 <= length (memory (buf m)))%nat.

Lemma runs_rd off n : (off + n <= 58)%nat -> runs room (rd off n).
Proof.
  intros Hn m Hm. unfold rd, gets, mbind, M_bind, read_le. unfold room in Hm.
  rewrite read_bytes_ok by lia. by eexists _, m.
Qed.

Lemma runs_rd_ipv6 off : (off + 16 <= 58)%nat -> runs room (rd_ipv6 off).
Proof.
  intros Hn m Hm. unfold rd_ipv6, gets, mbind, M_bind, read_ipv6. unfold room in Hm.
  rewrite read_bytes_ok by lia. by eexists _, m.
Qed.

Lemma runs_upd_flow f : runs room (upd_flow f).
Proof. by apply runs_modify. Qed.

Lemma runs_resolve e : runs room (resolve_tunnel_dst e).
Proof.
  intros m Hm. unfold resolve_tunnel_dst. destruct (dp_vnf_resolve_tunnel_dst _ _ m) as [o m'] eqn:E.
  eexists _, _; split; [done|]. revert E. unfold dp_vnf_resolve_tunnel_dst. intros E.
  dp_cases_in E.
Qed.

Ltac runs_solve := repeat first
  [ apply runs_ret | apply runs_gets | apply runs_upd_flow | apply runs_resolve
  | apply runs_rd; vm_compute; lia | apply runs_rd_ipv6; vm_compute; lia
  | apply runs_bind; [|intros ?] | apply runs_if | by apply runs_modify | case_match ].

Lemma cls_returns e : runs room (cls_get_next_index e).
Proof.
  unfold cls_get_next_index, cls_underlay, cls_policy, cls_tunnel_type, is_arp, is_ipv6_nd, incoming_virtsvc,
    outgoing_virtsvc, dp_extract_underlay_header. runs_solve.
Qed.

(** C15: The inbound policy.  Of the packets received from the fabric with
    IPsec on, the classifier hands to the decapsulating node only those whose
    underlay destination stands for an interface that does not encrypt, and
    only in the clear (IPv4 or IPv6 in IPv6); to ipsec_decap only ESP packets
    for an interface that does.  The endpoint is recorded in the packet, the
    packet's bytes are untouched, and no other edge than drop and virtual
    services is taken.  Classification returns for every buffer of 58 bytes. *)
Theorem cls_inbound_policy e m port :
  ipsec_enabled e = true ->
  dp_get_port_by_id (env_ports e) (m_port m) = Some port -> is_pf port = true ->
  Z.land (packet_type m) RTE_PTYPE_L3_MASK <> 0 -> room m ->
  exists edge m', cls_get_next_index e m = Some (edge, m') /\ buf m' = buf m
    /\ (edge = CLS_NEXT_DROP \/ edge = CLS_NEXT_VIRTSVC \/ policy_ok e m m' edge).
Proof.
  intros Hon Hport Hpf Hl3 Hroom. destruct (cls_returns e m Hroom) as (edge & m' & H & _).
  exists edge, m'. split; [done|]. unfold cls_get_next_index in H. m_inv H.
  destruct (negb _); [m_inv H; auto|]. m_inv H.
  rewrite (proj2 (Z.eqb_neq _ _) Hl3) in H. m_inv H. cbn in H. rewrite Hport, Hpf in H.
  destruct (RTE_ETH_IS_IPV4_HDR _); [m_inv H; auto|].
  destruct (RTE_ETH_IS_IPV6_HDR _); [|m_inv H; auto].
  by apply cls_underlay_inv in H.
Qed.

End nodes.
