(* ===== verification/TunnelTheorems.v ===== *)
(** What the tunnel's two ends guarantee together: the bytes ipip_encap
    writes, that ipip_decap undoes it, and that packets of an encrypting
    interface leave only through ipsec_encap. *)

From S2P Require Import Prelude Errors RteHash IpAddr Port Graph Packet Virtsvc Vnf Tunnel.

Section theorems.
Context `{ERR : RteErrno} {HT : RteHash dp_ipv6 dp_vnf} {VT : RteHash dp_vnf dp_ipv6} `{MB : RteMbuf}.
Implicit Types (e : tunnel_env) (m : rte_mbuf) (segs : list (list Z)).

(** ** Writing a header *)

Definition put_data (d : list Z) m : rte_mbuf :=
  set_buf (mk_buf (headroom (buf m)) d (tailroom (buf m))) m.

Lemma put_data_twice d d' m : put_data d (put_data d' m) = put_data d m.
Proof. done. Qed.

Lemma wr_seg m segs i s bs off :
  segs !! i = Some s -> off = seg_off segs i -> length bs = length s ->
  wr_bytes off bs (put_data (concat segs) m) = Some (tt, put_data (concat (<[i := bs]> segs)) m).
Proof.
  intros Hs Hoff Hl. rewrite wr_bytes_data; cbn.
  - rewrite (write_seg segs i s) by done. done.
  - rewrite (concat_split _ _ _ Hs), !length_app, Hl, Hoff. unfold seg_off. lia.
Qed.

(** The outer headers, field by field. *)
Definition outer_header (out : dp_port) (src dst : dp_ipv6) (payload_len proto : Z) : list (list Z) :=
  [neigh_mac out; own_mac out; le_split 2 (htons RTE_ETHER_TYPE_IPV6);
   le_split 4 (htonl DP_IP6_VTC_FLOW); le_split 2 payload_len; le_split 1 proto;
   le_split 1 DP_IP6_HOP_LIMIT; ipv6_bytes src; ipv6_bytes dst].

Definition outer_widths : list nat := [6; 6; 2; 4; 2; 1; 1; 16; 16]%nat.

Definition mac_ok (p : dp_port) : Prop := length (neigh_mac p) = 6%nat /\ length (own_mac p) = 6%nat.

Lemma length_ipv6_bytes a : length (ipv6_bytes a) = 16%nat.
Proof. unfold ipv6_bytes. by rewrite length_app, !length_le_split. Qed.

Lemma get_out_port_run ports m p : port_table_at ports (nxt_hop (flow m)) = Some (Some p) ->
  get_out_port ports m = Some (p, m).
Proof. intros H. unfold get_out_port, gets, mbind, M_bind. by rewrite H. Qed.

Lemma get_in_port_run ports m p : port_table_at ports (m_port m) = Some (Some p) ->
  get_in_port ports m = Some (p, m).
Proof. intros H. unfold get_in_port, gets, mbind, M_bind. by rewrite H. Qed.

Lemma segments_54 l : (54 <= length l)%nat ->
  exists a b c d f g h i j, segments outer_widths l = [a; b; c; d; f; g; h; i; j; drop 54 l]
    /\ length a = 6%nat /\ length b = 6%nat /\ length c = 2%nat /\ length d = 4%nat /\ length f = 2%nat
    /\ length g = 1%nat /\ length h = 1%nat /\ length i = 16%nat /\ length j = 16%nat.
Proof.
  intros Hl. cbn. do 9 eexists. split; [by rewrite !drop_drop|].
  rewrite ?length_take, ?length_drop. lia.
Qed.

Ltac wr_last i :=
  eapply (wr_seg _ _ i); [reflexivity
    | unfold seg_off, ether_type_off, ipv6_hop_off, ipv6_payload_len_off, ipv6_src_off, ipv6_dst_off,
        ipv6_proto_off; cbn -[le_split ipv6_bytes];
      rewrite ?length_app, ?length_le_split, ?length_ipv6_bytes; cbn; lia
    | rewrite ?length_le_split, ?length_ipv6_bytes; lia].
Ltac wr_step i := erewrite M_bind_Some; [|wr_last i]; cbn [list_insert insert].

Lemma write_outer_run e m out src payload_len :
  (54 <= length (data (buf m)))%nat -> mac_ok out ->
  port_table_at (env_ports e) (nxt_hop (flow m)) = Some (Some out) ->
  (forall d, outer_src e (put_data d m) = Some (src, put_data d m)) ->
  write_outer e payload_len m
  = Some (tt, put_data (concat (outer_header out src (ul_dst_addr6 (flow m)) payload_len (proto_id (flow m)))
                        ++ drop 54 (data (buf m))) m).
Proof.
  intros Hl [Hn Ho] Hout Hsrc.
  destruct (segments_54 _ Hl) as (a & b & c & d & f & g & h & i & j & Hseg & ? & ? & ? & ? & ? & ? & ? & ? & ?).
  assert (m = put_data (concat [a; b; c; d; f; g; h; i; j; drop 54 (data (buf m))]) m) as Hm.
  { rewrite <-Hseg, concat_segments. by destruct m as [[]]. }
  unfold write_outer. rewrite Hm at 1. unfold dp_fill_ether_hdr, wr, wr_ipv6.
  erewrite M_bind_Some; [|by apply get_out_port_run].
  erewrite M_bind_Some; [|wr_step 0%nat; wr_step 1%nat; wr_last 2%nat].
  cbn [list_insert insert]. wr_step 6%nat. wr_step 4%nat. wr_step 3%nat.
  erewrite M_bind_Some; [|apply Hsrc]. wr_step 7%nat.
  erewrite M_bind_Some; [|reflexivity]. cbn [put_data set_buf flow]. wr_step 8%nat.
  etrans; [wr_last 5%nat|]. cbn [list_insert insert]. do 3 f_equal.
  change (concat (outer_header out src (ul_dst_addr6 (flow m)) payload_len (proto_id (flow m))
                  ++ [drop 54 (data (buf m))])
          = concat (outer_header out src (ul_dst_addr6 (flow m)) payload_len (proto_id (flow m)))
            ++ drop 54 (data (buf m))).
  rewrite concat_app. cbn. by rewrite app_nil_r.
Qed.

(** ** Encapsulation *)

Lemma make_room_run m :
  (14 <= length (data (buf m)))%nat -> (40 <= length (headroom (buf m)))%nat ->
  exists b, make_room m = Some (true, set_buf b m)
    /\ (54 <= length (data b))%nat /\ drop 54 (data b) = drop 14 (data (buf m))
    /\ tailroom b = tailroom (buf m).
Proof.
  intros Hd Hh. unfold make_room, gets, modify, mbind, M_bind. cbn. unfold sizeof_ether, sizeof_ipv6.
  rewrite adj_law, decide_True by done. cbn.
  set (b1 := mk_buf _ _ _). rewrite prepend_law.
  assert (length (headroom b1) = length (headroom (buf m)) + 14)%nat as Hlen.
  { subst b1. cbn. rewrite length_app, length_take. lia. }
  rewrite decide_True by lia. eexists; split; [by destruct m|]. cbn -[b1].
  assert (length (drop (length (headroom b1) - 54) (headroom b1)) = 54%nat) as H54
    by (rewrite length_drop; lia).
  split_and!; [rewrite length_app; lia| |done]. by rewrite drop_app_length'.
Qed.

(** The outer header's fields for a packet of the given inner type. *)
Definition inner_proto (l3 : Z) : Z := if l3 =? RTE_ETHER_TYPE_IPV4 then IPPROTO_IPIP else IPPROTO_IPV6.

Definition encap_src e m (inp : dp_port) : dp_ipv6 :=
  if bool_decide (nat_type (flow m) = DP_LB_RECIRC) then ul_src_addr6 (flow m)
  else dp_get_port_ul_ipv6 (env_underlay e) inp.

Record encap_ready e m (inp out : dp_port) : Prop := {
  er_data : (14 + 6 <= length (memory (buf m)))%nat;
  er_eth : (14 <= length (data (buf m)))%nat;
  er_head : (40 <= length (headroom (buf m)))%nat;
  er_l3 : l3_type (flow m) = RTE_ETHER_TYPE_IPV4 \/ l3_type (flow m) = RTE_ETHER_TYPE_IPV6;
  er_in : port_table_at (env_ports e) (m_port m) = Some (Some inp);
  er_out : port_table_at (env_ports e) (nxt_hop (flow m)) = Some (Some out);
  er_mac : mac_ok out
}.

Lemma encap_fields_run m : (20 <= length (memory (buf m)))%nat ->
  l3_type (flow m) = RTE_ETHER_TYPE_IPV4 \/ l3_type (flow m) = RTE_ETHER_TYPE_IPV6 ->
  exists len ptype,
    encap_fields (l3_type (flow m)) m
    = Some (Some (inner_proto (l3_type (flow m)), len, ptype),
            set_flow (set_proto_id (inner_proto (l3_type (flow m))) (flow m)) m)
    /\ Z.land ptype RTE_PTYPE_L2_MASK = RTE_PTYPE_L2_ETHER
    /\ Z.land ptype RTE_PTYPE_L3_MASK = RTE_PTYPE_L3_IPV6.
Proof.
  intros Hl Hl3. assert (forall off n, (off + n <= 20)%nat ->
    forall m', buf m' = buf m -> rd off n m' = Some (le_join (bytes_at off n (memory (buf m))), m')) as Hrd.
  { intros off n Hn m' Hb. unfold rd, gets, mbind, M_bind, read_le. rewrite Hb, read_bytes_ok by lia. done. }
  unfold encap_fields, inner_proto, upd_flow, modify.
  destruct Hl3 as [-> | ->]; cbn [Z.eqb Pos.eqb RTE_ETHER_TYPE_IPV4 RTE_ETHER_TYPE_IPV6]; unfold mbind, M_bind;
    (rewrite Hrd; [|vm_compute; lia|done]); eexists _, _; split_and!; reflexivity.
Qed.

Lemma encap_run e m inp out : encap_ready e m inp out ->
  exists len ptype edge m',
    ipip_encap_get_next_index e m = Some (edge, m')
    /\ data (buf m') = concat (outer_header out (encap_src e m inp) (ul_dst_addr6 (flow m)) len
                               (inner_proto (l3_type (flow m)))) ++ drop 14 (data (buf m))
    /\ tailroom (buf m') = tailroom (buf m)
    /\ packet_type m' = ptype
    /\ Z.land ptype RTE_PTYPE_L2_MASK = RTE_PTYPE_L2_ETHER
    /\ Z.land ptype RTE_PTYPE_L3_MASK = RTE_PTYPE_L3_IPV6
    /\ flow m' = set_proto_id (inner_proto (l3_type (flow m))) (flow m)
    /\ Some edge = if bool_decide (nat_type (flow m) = DP_LB_RECIRC) then Some IPIP_ENCAP_NEXT_CLS
                   else edge_at (if encrypt (iface inp) then encap_ipsec_index e else encap_tx_index e)
                          (nxt_hop (flow m)).
Proof.
  intros [Hd He Hh Hl3 Hin Hout Hmac]. destruct (encap_fields_run m Hd Hl3) as (len & ptype & Hf & Hp2 & Hp3).
  set (m1 := set_l2_len 0 (set_outer_l3_len 40 (set_outer_l2_len 14
               (set_flow (set_proto_id (inner_proto (l3_type (flow m))) (flow m)) m)))).
  destruct (make_room_run m1 He Hh) as (b & Hroom & H54 & Hdrop & Htail).
  assert (forall d, outer_src e (put_data d (set_buf b m1)) = Some (encap_src e m inp, put_data d (set_buf b m1)))
    as Hsrc.
  { intros d. unfold outer_src. erewrite M_bind_Some; [|reflexivity]. unfold encap_src. cbn -[get_in_port].
    case_bool_decide; [done|]. erewrite M_bind_Some; [|by apply get_in_port_run]. done. }
  pose proof (write_outer_run e (set_buf b m1) out _ len H54 Hmac Hout Hsrc) as Hwr.
  assert (exists edge, edge_at (if encrypt (iface inp) then encap_ipsec_index e else encap_tx_index e)
                         (nxt_hop (flow m)) = Some edge) as [edge Hedge].
  { unfold port_table_at in Hout. unfold edge_at. destruct (_ && _); [by eexists|done]. }
  exists len, ptype. destruct (bool_decide (nat_type (flow m) = DP_LB_RECIRC)) eqn:Hlb;
    eexists _, _; (split; [unfold ipip_encap_get_next_index; erewrite M_bind_Some; [|reflexivity];
      erewrite M_bind_Some; [|exact Hf]; cbv beta iota; do 3 (erewrite M_bind_Some; [|reflexivity]);
      erewrite M_bind_Some; [|exact Hroom]; cbv beta iota delta [negb]; erewrite M_bind_Some; [|exact Hwr];
      do 3 (erewrite M_bind_Some; [|reflexivity]); erewrite M_bind_Some; [|reflexivity]|]).
  - cbn [flow set_ol_flags set_packet_type put_data set_buf m1 set_l2_len set_outer_l3_len set_outer_l2_len
         set_flow nat_type set_proto_id]. rewrite Hlb. reflexivity.
  - cbn. rewrite Hdrop, Htail. split_and!; done.
  - cbn [flow set_ol_flags set_packet_type put_data set_buf m1 set_l2_len set_outer_l3_len set_outer_l2_len
         set_flow nat_type set_proto_id]. rewrite Hlb.
    erewrite M_bind_Some; [|by apply get_in_port_run]. cbn [nxt_hop set_proto_id]. rewrite Hedge. reflexivity.
  - cbn. rewrite Hdrop, Htail. split_and!; done.
Qed.

(** ** Reception *)

Lemma read_field b segs rest i s off : data b = concat segs ++ rest -> segs !! i = Some s ->
  off = seg_off segs i -> read_bytes b off (length s) = Some s.
Proof.
  intros Hd Hs Hoff. assert (memory b = concat (segs ++ [rest ++ tailroom b])) as Hm.
  { unfold memory. rewrite Hd, concat_app. cbn. by rewrite app_nil_r, app_assoc. }
  assert ((segs ++ [rest ++ tailroom b]) !! i = Some s) as Hs' by (by apply lookup_app_l_Some).
  assert (off = seg_off (segs ++ [rest ++ tailroom b]) i) as Hoff'.
  { rewrite Hoff. unfold seg_off. rewrite take_app_le; [done|]. apply lookup_lt_Some in Hs. lia. }
  rewrite read_bytes_ok, Hm.
  - f_equal. by apply read_seg with i.
  - rewrite Hm, (concat_split _ _ _ Hs'), !length_app, Hoff'. unfold seg_off. lia.
Qed.

(** What a receiver reads back from the outer header. *)
Lemma outer_read out src dst len proto rest m :
  mac_ok out -> ipv6_ok src -> ipv6_ok dst -> is_u8 proto ->
  data (buf m) = concat (outer_header out src dst len proto) ++ rest ->
  rd ether_type_off 2 m = Some (htons RTE_ETHER_TYPE_IPV6, m)
  /\ rd (14 + ipv6_proto_off) 1 m = Some (proto, m)
  /\ rd_ipv6 (14 + ipv6_src_off) m = Some (src, m)
  /\ rd_ipv6 (14 + ipv6_dst_off) m = Some (dst, m).
Proof.
  intros [Hn Ho] Hsrc Hdst Hp Hd. unfold rd, rd_ipv6, gets, mbind, M_bind, read_le, read_ipv6.
  pose proof (read_field _ _ _ 2 _ ether_type_off Hd eq_refl) as H2.
  pose proof (read_field _ _ _ 5 _ (14 + ipv6_proto_off) Hd eq_refl) as H5.
  pose proof (read_field _ _ _ 7 _ (14 + ipv6_src_off) Hd eq_refl) as H7.
  pose proof (read_field _ _ _ 8 _ (14 + ipv6_dst_off) Hd eq_refl) as H8.
  rewrite ?length_le_split, ?length_ipv6_bytes in *.
  assert (forall i, (i <= 9)%nat -> seg_off (outer_header out src dst len proto) i
                      = foldr Nat.add 0%nat (take i outer_widths)) as Hoff.
  { intros i Hi. unfold seg_off.
    do 10 (destruct i as [|i]; [cbn -[le_split ipv6_bytes];
      rewrite ?length_app, ?length_le_split, ?length_ipv6_bytes, ?Hn, ?Ho; reflexivity|]). lia. }
  rewrite !Hoff in * by lia.
  rewrite H2, H5, H7, H8 by reflexivity. cbn -[le_split ipv6_bytes htons]. rewrite !ipv6_bytes_roundtrip by done.
  split_and!; [| |done|done].
  - rewrite le_join_split, Z.mod_small; [done|]. apply bswap16_range.
  - rewrite le_join_split, Z.mod_small; [done|]. exact Hp.
Qed.

(** The endpoint a packet's flow data is resolved to, before or after
    [dp_vnf_resolve_tunnel_dst] has recorded it. *)
Definition flow_towards (df : dp_flow) (vnf : dp_vnf) : Prop :=
  tun_dst_resolved df = true ->
  nxt_hop df = vnf_port_id vnf /\ dst_vni df = vnf_vni vnf /\ df_vnf_type df = vnf_type vnf.

Record endpoint e (ul : dp_ipv6) (vnf : dp_vnf) (dst : dp_port) : Prop := {
  ep_vnf : dp_get_vnf ul (env_vnf e) = Some vnf;
  ep_port : dp_get_port_by_id (env_ports e) (vnf_port_id vnf) = Some dst;
  ep_mac : mac_ok dst;
  ep_clear : ipsec_enabled e = true -> encrypt (iface dst) = false
}.

Lemma resolve_run e m vnf dst :
  endpoint e (ul_dst_addr6 (flow m)) vnf dst -> flow_towards (flow m) vnf ->
  exists df, resolve_tunnel_dst e m = Some (Some dst, set_flow df m)
    /\ nxt_hop df = vnf_port_id vnf /\ dst_vni df = vnf_vni vnf /\ df_vnf_type df = vnf_type vnf
    /\ proto_id df = proto_id (flow m) /\ l3_type df = l3_type (flow m)
    /\ ul_src_addr6 df = ul_src_addr6 (flow m) /\ ul_dst_addr6 df = ul_dst_addr6 (flow m).
Proof.
  intros [Hv Hp _ _] Ht. unfold resolve_tunnel_dst, dp_vnf_resolve_tunnel_dst.
  destruct (tun_dst_resolved (flow m)) eqn:Er.
  - destruct (Ht Er) as (Hn & Hd & Hty). rewrite Hn, Hp. exists (flow m). split; [by destruct m|]. by split_and!.
  - rewrite Hv, Hp. eexists; split; [reflexivity|]. by split_and!.
Qed.

Lemma inner_proto_cases l3 : l3 = RTE_ETHER_TYPE_IPV4 \/ l3 = RTE_ETHER_TYPE_IPV6 ->
  (inner_proto l3 = IPPROTO_IPIP /\ l3 = RTE_ETHER_TYPE_IPV4)
  \/ (inner_proto l3 = IPPROTO_IPV6 /\ l3 = RTE_ETHER_TYPE_IPV6).
Proof. intros [-> | ->]; auto. Qed.

Lemma tunnel_type_run m l3 : l3 = RTE_ETHER_TYPE_IPV4 \/ l3 = RTE_ETHER_TYPE_IPV6 ->
  rd (14 + ipv6_proto_off) 1 m = Some (inner_proto l3, m) ->
  cls_tunnel_type m = Some (CLS_NEXT_IPIP_DECAP, set_flow (set_l3_type l3 (flow m)) m).
Proof.
  intros Hl3 Hrd. unfold cls_tunnel_type. erewrite M_bind_Some; [|exact Hrd].
  destruct (inner_proto_cases l3 Hl3) as [[-> ->]|[-> ->]]; reflexivity.
Qed.

(** A received packet whose outer header is the one ipip_encap writes. *)
Section received.
Context (m : rte_mbuf) (out : dp_port) (src dst : dp_ipv6) (len l3 : Z) (rest : list Z).
Hypothesis Hl3 : l3 = RTE_ETHER_TYPE_IPV4 \/ l3 = RTE_ETHER_TYPE_IPV6.
Hypothesis Hmac : mac_ok out.
Hypothesis Hsrc : ipv6_ok src.
Hypothesis Hdst : ipv6_ok dst.
Hypothesis Hd : data (buf m) = concat (outer_header out src dst len (inner_proto l3)) ++ rest.

Lemma received_rd df : rd ether_type_off 2 (set_flow df m) = Some (htons RTE_ETHER_TYPE_IPV6, set_flow df m)
  /\ rd (14 + ipv6_proto_off) 1 (set_flow df m) = Some (inner_proto l3, set_flow df m)
  /\ rd_ipv6 (14 + ipv6_src_off) (set_flow df m) = Some (src, set_flow df m)
  /\ rd_ipv6 (14 + ipv6_dst_off) (set_flow df m) = Some (dst, set_flow df m).
Proof using All.
  apply (outer_read out src dst len (inner_proto l3) rest); try done.
  unfold is_u8. destruct (inner_proto_cases l3 Hl3) as [[-> _]|[-> _]]; vm_compute; split; congruence.
Qed.

Lemma received_not_nd df : is_ipv6_nd (set_flow df m) = Some (false, set_flow df m).
Proof using All.
  unfold is_ipv6_nd. erewrite M_bind_Some; [|apply received_rd].
  destruct (inner_proto_cases l3 Hl3) as [[-> _]|[-> _]]; reflexivity.
Qed.

Lemma received_not_virtsvc e df :
  (if virtsvc_present e then incoming_virtsvc e else mret None) (set_flow df m) = Some (None, set_flow df m).
Proof using All.
  destruct (virtsvc_present e); [|done]. unfold incoming_virtsvc.
  do 2 (erewrite M_bind_Some; [|apply received_rd]).
  destruct (inner_proto_cases l3 Hl3) as [[-> _]|[-> _]]; reflexivity.
Qed.

Lemma received_underlay e df :
  cls_underlay e (set_flow df m)
  = cls_policy e (set_flow (set_proto_id (inner_proto l3) (set_ul_dst_addr6 dst (set_ul_src_addr6 src
      (set_tun_l3_type (ntohs (htons RTE_ETHER_TYPE_IPV6)) df)))) m).
Proof using All.
  unfold cls_underlay. erewrite M_bind_Some; [|apply received_not_nd]. cbv beta iota.
  erewrite M_bind_Some; [|apply received_not_virtsvc]. cbv beta iota.
  erewrite M_bind_Some; [|apply received_rd]. erewrite M_bind_Some; [|reflexivity].
  erewrite M_bind_Some; [reflexivity|]. unfold dp_extract_underlay_header, upd_flow.
  do 2 (erewrite M_bind_Some; [|apply received_rd]; erewrite M_bind_Some; [|reflexivity]).
  erewrite M_bind_Some; [|apply received_rd]. reflexivity.
Qed.

Lemma received_policy e df vnf port :
  endpoint e dst vnf port -> ul_dst_addr6 df = dst -> flow_towards df vnf ->
  exists df', cls_policy e (set_flow df m) = Some (CLS_NEXT_IPIP_DECAP, set_flow df' m)
    /\ flow_towards df' vnf /\ proto_id df' = proto_id df /\ l3_type df' = l3
    /\ ul_src_addr6 df' = ul_src_addr6 df /\ ul_dst_addr6 df' = ul_dst_addr6 df.
Proof using All.
  intros Hep Hul Ht. unfold cls_policy. destruct (ipsec_enabled e) eqn:Eon.
  - rewrite <-Hul in Hep. destruct (resolve_run e (set_flow df m) vnf port Hep Ht) as (df' & Hres & Hf).
    erewrite M_bind_Some; [|exact Hres]. cbv beta iota. erewrite M_bind_Some; [|apply received_rd].
    rewrite (ep_clear _ _ _ _ Hep Eon).
    replace (inner_proto l3 =? IPPROTO_ESP) with false
      by (destruct (inner_proto_cases l3 Hl3) as [[-> _]|[-> _]]; reflexivity). cbn [Bool.eqb negb].
    rewrite (tunnel_type_run _ l3 Hl3) by apply received_rd. eexists; split; [reflexivity|]. cbn in *.
    unfold flow_towards; cbn. naive_solver.
  - rewrite (tunnel_type_run _ l3 Hl3) by apply received_rd. eexists; split; [reflexivity|]. by split_and!.
Qed.

Lemma received_classified e pf vnf port :
  Z.land (packet_type m) RTE_PTYPE_L2_MASK = RTE_PTYPE_L2_ETHER ->
  Z.land (packet_type m) RTE_PTYPE_L3_MASK = RTE_PTYPE_L3_IPV6 ->
  dp_get_port_by_id (env_ports e) (m_port m) = Some pf -> is_pf pf = true -> endpoint e dst vnf port ->
  exists df, cls_get_next_index e m = Some (CLS_NEXT_IPIP_DECAP, set_flow df m)
    /\ flow_towards df vnf /\ proto_id df = inner_proto l3 /\ l3_type df = l3
    /\ ul_src_addr6 df = src /\ ul_dst_addr6 df = dst.
Proof using All.
  intros Hp2 Hp3 Hport Hpf Hep. unfold cls_get_next_index. erewrite M_bind_Some; [|reflexivity].
  rewrite Hp2, Hp3, Z.eqb_refl. change (RTE_PTYPE_L3_IPV6 =? 0) with false. cbv beta iota zeta delta [negb].
  do 2 (erewrite M_bind_Some; [|reflexivity]). cbn [m_port set_flow]. rewrite Hport, Hpf.
  change (RTE_ETH_IS_IPV4_HDR RTE_PTYPE_L3_IPV6) with false.
  change (RTE_ETH_IS_IPV6_HDR RTE_PTYPE_L3_IPV6) with true. cbv iota. rewrite received_underlay.
  set (df := set_proto_id _ _). exact (received_policy e df vnf port Hep eq_refl ltac:(done)).
Qed.
End received.

(** ** Decapsulation *)

Definition ether_header (port : dp_port) (type : Z) : list (list Z) :=
  [neigh_mac port; own_mac port; le_split 2 (htons type)].

Lemma fill_ether_run m port type :
  (14 <= length (data (buf m)))%nat -> mac_ok port ->
  dp_fill_ether_hdr port type m
  = Some (tt, put_data (concat (ether_header port type) ++ drop 14 (data (buf m))) m).
Proof.
  intros Hl [Hn Ho]. set (l := data (buf m)) in *.
  assert (m = put_data (concat [take 6 l; take 6 (drop 6 l); take 2 (drop 12 l); drop 14 l]) m) as Hm.
  { replace (concat _) with l; [by destruct m as [[]]|].
    rewrite <-(concat_segments [6; 6; 2]%nat l) at 1. cbn. by rewrite !drop_drop. }
  assert (length (take 6 l) = 6 /\ length (take 6 (drop 6 l)) = 6 /\ length (take 2 (drop 12 l)) = 2)%nat
    as (? & ? & ?) by (rewrite !length_take, !length_drop; lia).
  rewrite Hm at 1. unfold dp_fill_ether_hdr, wr. wr_step 0%nat. wr_step 1%nat. etrans; [wr_last 2%nat|].
  cbn [list_insert insert]. do 3 f_equal. cbn -[le_split]. by rewrite app_nil_r, <-!app_assoc.
Qed.

Lemma decap_run e m vnf port l3 :
  l3 = RTE_ETHER_TYPE_IPV4 \/ l3 = RTE_ETHER_TYPE_IPV6 ->
  (54 <= length (data (buf m)))%nat -> endpoint e (ul_dst_addr6 (flow m)) vnf port ->
  flow_towards (flow m) vnf -> proto_id (flow m) = inner_proto l3 -> l3_type (flow m) = l3 ->
  exists m', ipip_decap_get_next_index e m = Some (IPIP_DECAP_NEXT_CONNTRACK, m')
    /\ data (buf m') = concat (ether_header port l3) ++ drop 54 (data (buf m))
    /\ nxt_hop (flow m') = vnf_port_id vnf /\ dst_vni (flow m') = vnf_vni vnf
    /\ df_vnf_type (flow m') = vnf_type vnf
    /\ l3_type (flow m') = l3 /\ ul_src_addr6 (flow m') = ul_src_addr6 (flow m).
Proof.
  intros Hl3 Hl Hep Ht Hpr Hty. destruct (resolve_run e m vnf port Hep Ht)
    as (df & Hres & Hn & Hd & Hv & Hp & Hl3' & Hs & _).
  unfold ipip_decap_get_next_index. erewrite M_bind_Some; [|exact Hres]. cbv beta iota.
  erewrite M_bind_Some; [|reflexivity]. cbn [flow set_flow]. rewrite Hp, Hpr, Hl3', Hty.
  set (b1 := mk_buf (headroom (buf m) ++ take 54 (data (buf m))) (drop 54 (data (buf m))) (tailroom (buf m))).
  assert (exists b2, rte_pktmbuf_prepend b1 14 = Some b2 /\ drop 14 (data b2) = drop 54 (data (buf m))
            /\ (14 <= length (data b2))%nat) as (b2 & Hb2 & Hdrop & H14).
  { rewrite prepend_law, decide_True by (cbn; rewrite length_app, length_take; lia). eexists; split; [done|].
    assert (length (drop (length (headroom b1) - 14) (headroom b1)) = 14%nat) as Hh
      by (rewrite length_drop; cbn; rewrite length_app, length_take; lia).
    cbn [data]. rewrite length_app, drop_app_length' by done. split; [done|lia]. }
  assert (default (buf m) (rte_pktmbuf_adj (buf m) (sizeof_ether + sizeof_ipv6)) = b1) as Hadj.
  { rewrite adj_law, decide_True by exact Hl. done. }
  destruct (inner_proto_cases l3 Hl3) as [[-> ->]|[-> ->]]; cbv beta iota zeta;
    cbn [Z.eqb Pos.eqb IPPROTO_IPIP IPPROTO_IPV6];
    (eexists; split; [erewrite M_bind_Some; [|reflexivity]; cbn [buf set_flow]; rewrite Hadj;
      unfold sizeof_ether; rewrite Hb2; erewrite M_bind_Some; [|reflexivity];
      erewrite M_bind_Some; [|reflexivity]; erewrite M_bind_Some; [|apply fill_ether_run; [exact H14|apply Hep]];
      reflexivity|]); split_and!; cbn [buf data put_data set_buf set_packet_type flow set_flow]; congruence.
Qed.

(** ** Properties *)

(** C3: A packet encapsulated for the underlay arrives as it was sent.  The
    bytes ipip_encap puts on the wire, received from a physical port and
    classified, go to ipip_decap, which delivers to connection tracking the
    very bytes that followed the sender's Ethernet header, behind a new header
    for the destination interface, with the inner protocol of the original,
    the sender's underlay address and the endpoint of the underlay
    destination.  (The destination interface does not encrypt.) *)
Theorem tunnel_delivers_inner_packet e m inp out e' r pf vnf port :
  encap_ready e m inp out -> ipv6_ok (encap_src e m inp) -> ipv6_ok (ul_dst_addr6 (flow m)) ->
  dp_get_port_by_id (env_ports e') (m_port r) = Some pf -> is_pf pf = true ->
  endpoint e' (ul_dst_addr6 (flow m)) vnf port ->
  exists edge m', ipip_encap_get_next_index e m = Some (edge, m')
    /\ (data (buf r) = data (buf m') -> packet_type r = packet_type m' ->
        exists r1 r2, cls_get_next_index e' r = Some (CLS_NEXT_IPIP_DECAP, r1)
          /\ ipip_decap_get_next_index e' r1 = Some (IPIP_DECAP_NEXT_CONNTRACK, r2)
          /\ data (buf r2) = concat (ether_header port (l3_type (flow m))) ++ drop 14 (data (buf m))
          /\ nxt_hop (flow r2) = vnf_port_id vnf /\ dst_vni (flow r2) = vnf_vni vnf
          /\ df_vnf_type (flow r2) = vnf_type vnf
          /\ l3_type (flow r2) = l3_type (flow m) /\ ul_src_addr6 (flow r2) = encap_src e m inp).
Proof.
  intros Hr Hsrc Hdst Hpf Hispf Hep.
  destruct (encap_run e m inp out Hr) as (len & ptype & edge & m' & Hrun & Hd & _ & Hpt & Hp2 & Hp3 & _).
  exists edge, m'. split; [done|]. intros Hbytes Hptype.
  pose proof (er_l3 _ _ _ _ Hr) as Hl3. pose proof (er_mac _ _ _ _ Hr) as Hmac. rewrite <-Hbytes in Hd.
  destruct (received_classified r out _ _ len _ _ Hl3 Hmac Hsrc Hdst Hd e' pf vnf port)
    as (df & Hcls & Ht & Hproto & Hty & Hus & Hud); [congruence..|done|done|done|].
  assert (length (concat (outer_header out (encap_src e m inp) (ul_dst_addr6 (flow m)) len
                    (inner_proto (l3_type (flow m))))) = 54%nat) as H54.
  { destruct Hmac as [Hn Ho]. cbn -[le_split ipv6_bytes].
    by rewrite !length_app, !length_le_split, !length_ipv6_bytes, Hn, Ho. }
  destruct (decap_run e' (set_flow df r) vnf port (l3_type (flow m)) Hl3)
    as (r2 & Hrun2 & Hd2 & Hrest); cbn [buf flow set_flow]; [rewrite Hd, length_app; lia | by rewrite Hud | done..|].
  exists (set_flow df r), r2. split_and!; try done.
  - rewrite Hd2. cbn [buf set_flow]. rewrite Hd. by rewrite drop_app_length'.
  - naive_solver.
  - naive_solver.
  - naive_solver.
  - naive_solver.
  - cbn in Hrest. destruct Hrest as (_ & _ & _ & _ & ->). done.
Qed.

Lemma preserves_wr_bytes {B} (f : rte_mbuf -> B) off bs :
  (forall b m, f (set_buf b m) = f m) -> preserves f (wr_bytes off bs).
Proof. intros Hf. unfold wr_bytes. auto with preserves. Qed.

Lemma write_outer_keeps {B} (f : rte_mbuf -> B) e len :
  (forall b m, f (set_buf b m) = f m) -> preserves f (write_outer e len).
Proof.
  intros Hf. pose proof (fun off bs => preserves_wr_bytes f off bs Hf) as Hw.
  unfold write_outer, dp_fill_ether_hdr, wr, wr_ipv6, outer_src, get_out_port, get_in_port.
  repeat first [apply preserves_bind; [|intros ?] | apply preserves_if | apply Hw | auto with preserves].
Qed.

Lemma encap_fields_keep {B} (f : rte_mbuf -> B) l3 :
  (forall df m, f (set_flow df m) = f m) -> preserves f (encap_fields l3).
Proof.
  intros Hf. unfold encap_fields, upd_flow, rd.
  repeat first [apply preserves_bind; [|intros ?] | apply preserves_if | auto with preserves].
Qed.

Lemma make_room_keeps {B} (f : rte_mbuf -> B) : (forall b m, f (set_buf b m) = f m) -> preserves f make_room.
Proof.
  intros Hf. unfold make_room. apply preserves_bind; [auto with preserves|]. intros b.
  apply preserves_bind; [auto with preserves|]. intros _. case_match; auto with preserves.
Qed.

(** The edges ipip_encap takes for a packet of an encrypting interface. *)
Lemma encap_edges e m inp edge m' :
  port_table_at (env_ports e) (m_port m) = Some (Some inp) -> encrypt (iface inp) = true ->
  ipip_encap_get_next_index e m = Some (edge, m') ->
  edge = 0 \/ edge = 1 \/ exists id, edge_at (encap_ipsec_index e) id = Some edge.
Proof.
  intros Hin Henc H. unfold ipip_encap_get_next_index in H. m_inv H.
  pose proof (encap_fields_keep m_port _ ltac:(done) _ _ _ Ha) as Hm1.
  destruct a as [[[? len] ptype]|]; m_inv H; [|by left].
  pose proof (make_room_keeps m_port ltac:(done) _ _ _ Ha0) as Hm2. cbn in Hm2.
  destruct a; cbn [negb] in H; m_inv H; [|by left].
  pose proof (write_outer_keeps m_port _ _ ltac:(done) _ _ _ Ha1) as Hm3.
  case_bool_decide; m_inv H; [by right; left|]. right; right.
  rewrite (get_in_port_run _ _ inp) in Ha2 by (cbn; congruence). simplify_eq.
  rewrite Henc in E. by eexists.
Qed.

(** C14: A packet from an interface that encrypts never leaves ipip_encap
    towards a Tx node: with the edges as start-up wired them, it goes to
    ipsec_encap, back to the classifier (recirculated by the load balancer),
    or is dropped. *)
Theorem encrypting_interface_never_cleartext `{NODE : RteNode}
    ports port_list ipsec rx_clone tx_clone st e m inp edge m' :
  (length port_list <= Z.to_nat DP_MAX_PORTS)%nat ->
  dp_graph_init_nodes ports port_list ipsec rx_clone tx_clone graph_boot = (DP_OK, st) ->
  encap_ipsec_index e = next_index_table st "ipip_encap" "next_ipsec_index" ->
  port_table_at (env_ports e) (m_port m) = Some (Some inp) -> encrypt (iface inp) = true ->
  ipip_encap_get_next_index e m = Some (edge, m') ->
  exists edges name, node_edges st !! "ipip_encap"%string = Some edges
    /\ edges !! Z.to_nat edge = Some name /\ name ∈ ["drop"; "cls"; "ipsec_encap"]%string.
Proof.
  intros Hlen Hinit Hidx Hin Henc Hrun. destruct (init_nodes_spec _ _ _ _ _ _ _ Hlen Hinit) as (n & Hw & _).
  destruct (wired_nodes _ _ Hw "ipip_encap"%string ["drop"; "cls"]%string eq_refl) as [new He].
  assert (edge = 0 \/ edge = 1
          \/ exists id, edge_at (encap_ipsec_index e) id = Some edge) as [-> | [-> | [id Hid]]].
  { by eapply encap_edges. }
  - eexists _, "drop"%string. split_and!; [done..|]. rewrite elem_of_cons. auto.
  - eexists _, "cls"%string. split_and!; [done..|]. rewrite !elem_of_cons. auto.
  - unfold edge_at in Hid. destruct (_ && _); [|done]. injection Hid as Hid. rewrite Hidx in Hid.
    destruct (next_index_table st "ipip_encap" "next_ipsec_index" !! id) as [i|] eqn:Hi; cbn in Hid; subst edge.
    + destruct (wired_tx _ _ Hw _ _ _ _ Hi) as (_ & edges & Hes & Hname).
      eexists _, "ipsec_encap"%string. split_and!; [done..|]. rewrite !elem_of_cons. auto.
    + eexists _, "drop"%string. split_and!; [done..|]. rewrite elem_of_cons. auto.
Qed.
End theorems.

(** ** A tunnel between two hosts *)
Module TunnelExample.
Lemma simple_adj_law b n :
  (if decide (n <= length (data b))%nat
   then Some (mk_buf (headroom b ++ take n (data b)) (drop n (data b)) (tailroom b)) else None)
  = if decide (n <= length (data b))%nat
    then Some (mk_buf (headroom b ++ take n (data b)) (drop n (data b)) (tailroom b)) else None.
Proof. done. Qed.

Definition simple_prepend (b : rte_buf) (n : nat) : option rte_buf :=
  if decide (n <= length (headroom b))%nat
  then Some (mk_buf (take (length (headroom b) - n) (headroom b))
               (drop (length (headroom b) - n) (headroom b) ++ data b) (tailroom b))
  else None.

Lemma simple_prepend_law b n :
  simple_prepend b n
  = if decide (n <= length (headroom b))%nat
    then Some (mk_buf (take (length (headroom b) - n) (headroom b))
                 (drop (length (headroom b) - n) (headroom b) ++ data b) (tailroom b))
    else None.
Proof. done. Qed.

#[export] Instance simple_mbuf : RteMbuf := {|
  rte_pktmbuf_adj b n := _; rte_pktmbuf_prepend := simple_prepend;
  adj_law := simple_adj_law; prepend_law := simple_prepend_law |}.

Import VnfExample.

Definition mac (n : Z) : list Z := [2; 0; 0; 0; 0; n].
Definition host_port (pf enc : bool) (n : Z) : dp_port :=
  mk_port pf n 0 1 true 0 0 (mac n) (mac (n + 100))
    (set_encrypt enc (set_ul_ipv6 (addr 77) blank_iface)) false 0.
Definition host_ports (enc : bool) : port_table :=
  list_to_map [(0, host_port true false 0); (3, host_port false enc 3)].
Definition host (enc ipsec : bool) : tunnel_env :=
  mk_tunnel_env (host_ports enc) one (addr 0) false VNull VNull ipsec 6 {[ 0 := 2 ]} {[ 0 := 3 ]}.

(** A UDP packet in IPv4, from the guest at port 3. *)
Definition inner : list Z :=
  [0x45; 0; 0; 28; 0; 0; 0; 0; 64; 17; 0; 0; 10; 0; 0; 1; 10; 0; 0; 2; 4; 0; 0; 53; 0; 8; 0; 0].
Definition guest_packet : rte_mbuf :=
  mk_mbuf (mk_buf (replicate 128 0) (replicate 14 0 ++ inner) (replicate 8 0)) 3 0 0 0 0 0 0 0
    (set_nxt_hop 0 (set_ul_dst_addr6 (addr 1) (set_l3_type RTE_ETHER_TYPE_IPV4 dp_init_flow)))
    (mk_mark 1 false false).
Definition wire_packet : rte_mbuf :=
  match ipip_encap_get_next_index (host false true) guest_packet with
  | Some (_, m) => m | None => guest_packet
  end.
Definition arrived : rte_mbuf :=
  mk_mbuf (mk_buf (replicate 128 0) (data (buf wire_packet)) (replicate 8 0)) 0 (packet_type wire_packet)
    0 0 0 0 0 0 dp_init_flow (mk_mark 9 false false).

Lemma guest_ready : encap_ready (host false true) guest_packet (host_port false false 3) (host_port true false 0).
Proof. split; vm_compute; try reflexivity; try lia; auto. Qed.

Lemma example_endpoint :
  endpoint (host false true) (addr 1) (mk_vnf DP_VNF_TYPE_NAT 100 3 lb_pfx 32) (host_port false false 3).
Proof. split; vm_compute; try reflexivity; auto. Qed.

Lemma addr_ok n : is_u64 n -> ipv6_ok (addr n).
Proof. split; [vm_compute; split; congruence | done]. Qed.

Lemma tunnel_delivers_inner_packet_witness :
  exists edge m', ipip_encap_get_next_index (host false true) guest_packet = Some (edge, m')
    /\ (data (buf arrived) = data (buf m') -> packet_type arrived = packet_type m' ->
        exists r1 r2, cls_get_next_index (host false true) arrived = Some (CLS_NEXT_IPIP_DECAP, r1)
          /\ ipip_decap_get_next_index (host false true) r1 = Some (IPIP_DECAP_NEXT_CONNTRACK, r2)).
Proof.
  destruct (tunnel_delivers_inner_packet (host false true) guest_packet (host_port false false 3)
    (host_port true false 0) (host false true) arrived (host_port true false 0)
    (mk_vnf DP_VNF_TYPE_NAT 100 3 lb_pfx 32) (host_port false false 3))
    as (edge & m' & Hrun & H); [apply guest_ready | apply addr_ok; vm_compute; split; congruence.. |
      reflexivity | reflexivity | apply example_endpoint |].
  exists edge, m'. split; [exact Hrun|]. intros Hd Hp. destruct (H Hd Hp) as (r1 & r2 & H1 & H2 & _).
  exists r1, r2. split; [exact H1 | exact H2].
Defined.

Lemma cls_inbound_policy_witness :
  exists edge m', cls_get_next_index (host false true) arrived = Some (edge, m') /\ buf m' = buf arrived
    /\ (edge = CLS_NEXT_DROP \/ edge = CLS_NEXT_VIRTSVC \/ policy_ok (host false true) arrived m' edge).
Proof.
  apply (cls_inbound_policy (host false true) arrived (host_port true false 0));
    vm_compute; try reflexivity; [discriminate | lia].
Defined.

Import GraphExample.

Definition host_graph : tunnel_env :=
  mk_tunnel_env (host_ports true) one (addr 0) false VNull VNull true 6
    (next_index_table graph "ipip_encap" "next_tx_index")
    (next_index_table graph "ipip_encap" "next_ipsec_index").

Lemma encrypting_interface_never_cleartext_witness :
  exists edges name, node_edges graph !! "ipip_encap"%string = Some edges
    /\ edges !! 3%nat = Some name /\ name ∈ ["drop"; "cls"; "ipsec_encap"]%string.
Proof.
  apply (encrypting_interface_never_cleartext GraphExample.ports port_list true (fun _ => true) (fun _ => true)
    graph host_graph guest_packet (host_port false true 3) 3
    (match ipip_encap_get_next_index host_graph guest_packet with Some (_, m) => m | None => guest_packet end)).
  - vm_compute. lia.
  - vm_compute. reflexivity.
  - reflexivity.
  - vm_compute. reflexivity.
  - vm_compute. reflexivity.
  - vm_compute. reflexivity.
Defined.
End TunnelExample.
