(* ===== verification/Ipsec.v ===== *)
(** Security Associations: the model of [src/dp_ipsec.c] and
    [include/dp_ipsec.h].

    The state is the file's static variables together with the heap the
    associations, the crypto sessions and librte_ipsec's own state live in.
    Pointers are explicit: the database ([dp_ipsec_sad]) and the array of
    owning references ([dp_ipsec_sas]) hold pointers into that heap, so that
    dangling references, leaks and double frees are visible.  What librte_ipsec,
    the crypto device and the allocator answer is a parameter of each call
    ([ipsec_env]); the database is the class [RteIpsecSad]. *)

From S2P Require Import Prelude Errors IpAddr Port Packet.

(** ** Data *)

Definition ptr : Type := positive.

Inductive dp_ipsec_dir := DP_IPSEC_DIR_INGRESS | DP_IPSEC_DIR_EGRESS.

Inductive dp_ipsec_algo :=
| DP_IPSEC_ALGO_AES_128_GCM
| DP_IPSEC_ALGO_AES_256_GCM
| DP_IPSEC_ALGO_MAX.

#[export] Instance dp_ipsec_dir_eq_dec : EqDecision dp_ipsec_dir.
Proof. solve_decision. Defined.
#[export] Instance dp_ipsec_algo_eq_dec : EqDecision dp_ipsec_algo.
Proof. solve_decision. Defined.

Definition DP_IPSEC_MAX_KEY_LEN : Z := 32.
Definition DP_IPSEC_MAX_SALT_LEN : Z := 4.
Definition DP_IPSEC_IV_LEN : Z := 8.
Definition DP_IPSEC_ICV_LEN : Z := 16.
Definition DP_IPSEC_AAD_LEN : Z := 8.
Definition DP_IPSEC_AAD_LEN_ESN : Z := 12.
Definition DP_IPSEC_MAX_SA : nat := 64.
Definition DP_IPSEC_REPLAY_WINDOW_MAX : Z := 4096.
Definition DP_IPSEC_DEQUEUE_RETRIES : nat := 32.

Inductive rte_crypto_aead_algorithm := RTE_CRYPTO_AEAD_AES_GCM.
Inductive rte_crypto_aead_operation := RTE_CRYPTO_AEAD_OP_ENCRYPT | RTE_CRYPTO_AEAD_OP_DECRYPT.
Inductive rte_security_ipsec_sa_direction :=
| RTE_SECURITY_IPSEC_SA_DIR_EGRESS
| RTE_SECURITY_IPSEC_SA_DIR_INGRESS.
Inductive rte_security_ipsec_sa_mode := RTE_SECURITY_IPSEC_SA_MODE_TRANSPORT.
Inductive rte_security_ipsec_sa_protocol := RTE_SECURITY_IPSEC_SA_PROTO_ESP.
Inductive rte_security_session_action_type := RTE_SECURITY_ACTION_TYPE_NONE.



Record dp_ipsec_algo_spec := {
  aead_algo : rte_crypto_aead_algorithm;
  algo_key_len : Z;
  algo_salt_len : Z;
  algo_icv_len : Z
}.

(** The table [dp_ipsec_algos]; there is no row past its end. *)
Definition dp_ipsec_algos (algo : dp_ipsec_algo) : option dp_ipsec_algo_spec :=
  match algo with
  | DP_IPSEC_ALGO_AES_128_GCM =>
      Some {| aead_algo := RTE_CRYPTO_AEAD_AES_GCM; algo_key_len := 16;
              algo_salt_len := 4; algo_icv_len := DP_IPSEC_ICV_LEN |}
  | DP_IPSEC_ALGO_AES_256_GCM =>
      Some {| aead_algo := RTE_CRYPTO_AEAD_AES_GCM; algo_key_len := 32;
              algo_salt_len := 4; algo_icv_len := DP_IPSEC_ICV_LEN |}
  | DP_IPSEC_ALGO_MAX => None
  end.

(** [struct rte_ipsec_session], as far as dpservice fills it in. *)
Record rte_ipsec_session := mk_session {
  session_sa : option ptr;
  session_type : option rte_security_session_action_type;
  session_crypto_ses : option ptr
}.

Record dp_ipsec_sa := mk_sa {
  sa_spi : Z;
  sa_vni : Z;
  sa_algo : dp_ipsec_algo;
  sa_dir : dp_ipsec_dir;
  sa_src : dp_ipv6;
  sa_dst : dp_ipv6;
  sa_key : list Z;
  sa_salt : list Z;
  sa_salt_len : Z;
  sa_replay_window : Z;
  sa_esn : bool;
  sa_session : option ptr;
  sa_ipsec_sa : option ptr;
  sa_ipsec_session : rte_ipsec_session
}.

Record dp_ipsec_sa_spec := mk_spec {
  spec_spi : Z;
  spec_vni : Z;
  spec_dir : dp_ipsec_dir;
  spec_src : dp_ipv6;
  spec_dst : dp_ipv6
}.

(** The IPv6 member of [union rte_ipsec_sad_key]. *)
Record rte_ipsec_sad_key := mk_sad_key { key_spi : Z; key_dip : dp_ipv6; key_sip : dp_ipv6 }.

#[export] Instance sad_key_eq_dec : EqDecision rte_ipsec_sad_key.
Proof. solve_decision. Defined.
#[export] Instance sad_key_countable : Countable rte_ipsec_sad_key.
Proof.
  refine (inj_countable' (fun k => (key_spi k, key_dip k, key_sip k))
            (fun p => mk_sad_key p.1.1 p.1.2 p.2) _).
  by intros [].
Defined.

Record rte_crypto_sym_xform := mk_xform {
  xform_op : rte_crypto_aead_operation;
  xform_algo : rte_crypto_aead_algorithm;
  xform_key_data : list Z;
  xform_key_length : Z;
  xform_iv_offset : Z;
  xform_iv_length : Z;
  xform_digest_length : Z;
  xform_aad_length : Z
}.

Record rte_ipsec_sa_prm := mk_prm {
  prm_spi : Z;
  prm_salt : Z;
  prm_proto : rte_security_ipsec_sa_protocol;
  prm_mode : rte_security_ipsec_sa_mode;
  prm_direction : rte_security_ipsec_sa_direction;
  prm_replay_win_sz : Z;
  prm_esn : Z;
  prm_crypto_xform : rte_crypto_sym_xform;
  prm_trs_proto : Z
}.

(** What a live pointer points to. *)
Inductive ipsec_obj :=
| ObjSa (sa : dp_ipsec_sa)
| ObjIpsecSa (prm : option rte_ipsec_sa_prm)
| ObjSession (xform : rte_crypto_sym_xform).

(** ** Libraries *)

(** librte_ipsec's Security Association Database, restricted to the rules
    dpservice adds ([RTE_IPSEC_SAD_SPI_DIP_SIP], all sixteen bytes of both
    addresses significant): a finite map whose add overwrites. *)
Class RteIpsecSad := {
  rte_ipsec_sad : Type;
  rte_ipsec_sad_lookup : rte_ipsec_sad -> rte_ipsec_sad_key -> option ptr;
  rte_ipsec_sad_add : rte_ipsec_sad -> rte_ipsec_sad_key -> ptr -> Z * rte_ipsec_sad;
  rte_ipsec_sad_del : rte_ipsec_sad -> rte_ipsec_sad_key -> Z * rte_ipsec_sad;
  sad_view : rte_ipsec_sad -> gmap rte_ipsec_sad_key ptr;
  sad_lookup_law t k : rte_ipsec_sad_lookup t k = sad_view t !! k;
  sad_add_law t k p :
    let '(r, t') := rte_ipsec_sad_add t k p in
    (0 <= r /\ sad_view t' = <[k := p]> (sad_view t)) \/ (r < 0 /\ sad_view t' = sad_view t);
  sad_del_law t k :
    let '(r, t') := rte_ipsec_sad_del t k in
    (0 <= r /\ is_Some (sad_view t !! k) /\ sad_view t' = delete k (sad_view t))
    \/ (r < 0 /\ sad_view t !! k = None /\ sad_view t' = sad_view t)
}.

(** The answers of the rest of DPDK to one call into this file, and the
    configuration it reads. *)
Record ipsec_env `{RteIpsecSad} := {
  env_underlay_ip : dp_ipv6;
  env_ipsec_enabled : bool;
  env_hotplug_add : Z;
  env_get_dev_id : Z;
  env_cryptodev_configure : Z;
  env_queue_pair_setup : Z;
  env_session_pool_create : bool;
  env_op_pool_create : bool;
  env_sad_create : option rte_ipsec_sad;
  env_cryptodev_start : Z;
  env_iv_offset : Z;
  env_zmalloc : gset ptr -> option ptr;
  env_sym_session_create : rte_crypto_sym_xform -> gset ptr -> option ptr;
  env_ipsec_sa_size : rte_ipsec_sa_prm -> Z;
  env_ipsec_sa_alloc : Z -> gset ptr -> option ptr;
  env_ipsec_sa_init : rte_ipsec_sa_prm -> Z -> Z;
  env_session_prepare : rte_ipsec_session -> Z
}.

(** Allocators never hand out the address of a live object, and a new
    database is empty. *)
Record ipsec_env_ok `{RteIpsecSad} (e : ipsec_env) : Prop := {
  zmalloc_fresh l p : env_zmalloc e l = Some p -> p ∉ l;
  session_fresh x l p : env_sym_session_create e x l = Some p -> p ∉ l;
  ipsec_sa_fresh n l p : env_ipsec_sa_alloc e n l = Some p -> p ∉ l;
  sad_create_empty t : env_sad_create e = Some t -> sad_view t = ∅
}.

(** ** State *)

Record ipsec_state `{RteIpsecSad} := mk_ipsec_state {
  dp_ipsec_active : bool;
  dp_ipsec_session_pool : bool;
  dp_ipsec_op_pool : bool;
  dp_ipsec_sad : option rte_ipsec_sad;
  dp_ipsec_sas : list (option ptr);
  ipsec_heap : gmap ptr ipsec_obj
}.

Section ops.
Context `{ERR : RteErrno} `{SAD : RteIpsecSad}.
Implicit Types (s : ipsec_state) (e : ipsec_env) (p : ptr) (sa request : dp_ipsec_sa).

Definition set_active b s := mk_ipsec_state _ b (dp_ipsec_session_pool s) (dp_ipsec_op_pool s)
  (dp_ipsec_sad s) (dp_ipsec_sas s) (ipsec_heap s).
Definition set_session_pool b s := mk_ipsec_state _ (dp_ipsec_active s) b (dp_ipsec_op_pool s)
  (dp_ipsec_sad s) (dp_ipsec_sas s) (ipsec_heap s).
Definition set_op_pool b s := mk_ipsec_state _ (dp_ipsec_active s) (dp_ipsec_session_pool s) b
  (dp_ipsec_sad s) (dp_ipsec_sas s) (ipsec_heap s).
Definition set_sad t s := mk_ipsec_state _ (dp_ipsec_active s) (dp_ipsec_session_pool s)
  (dp_ipsec_op_pool s) t (dp_ipsec_sas s) (ipsec_heap s).
Definition set_sas l s := mk_ipsec_state _ (dp_ipsec_active s) (dp_ipsec_session_pool s)
  (dp_ipsec_op_pool s) (dp_ipsec_sad s) l (ipsec_heap s).
Definition set_heap h s := mk_ipsec_state _ (dp_ipsec_active s) (dp_ipsec_session_pool s)
  (dp_ipsec_op_pool s) (dp_ipsec_sad s) (dp_ipsec_sas s) h.

(** The state before [dp_ipsec_init]: static variables are zero. *)
Definition ipsec_boot : ipsec_state :=
  mk_ipsec_state _ false false false None (replicate DP_IPSEC_MAX_SA None) ∅.

(** ** Memory *)

Definition new_obj (where_ : gset ptr -> option ptr) (o : ipsec_obj) : M ipsec_state (option ptr) :=
  h ← gets ipsec_heap;
  match where_ (dom h) with
  | Some p => modify (set_heap (<[p := o]> h)) ;; mret (Some p)
  | None => mret None
  end.

Definition free_obj p : M ipsec_state unit :=
  h ← gets ipsec_heap;
  match h !! p with
  | Some _ => modify (set_heap (delete p h))
  | None => ub
  end.

Definition load_sa p : M ipsec_state dp_ipsec_sa :=
  h ← gets ipsec_heap;
  match h !! p with
  | Some (ObjSa sa) => mret sa
  | _ => ub
  end.

Definition store_obj p (o : ipsec_obj) : M ipsec_state unit :=
  h ← gets ipsec_heap;
  match h !! p with
  | Some _ => modify (set_heap (<[p := o]> h))
  | None => ub
  end.

(** ** Field updates of an association *)

Definition with_session ses sa := mk_sa (sa_spi sa) (sa_vni sa) (sa_algo sa) (sa_dir sa)
  (sa_src sa) (sa_dst sa) (sa_key sa) (sa_salt sa) (sa_salt_len sa) (sa_replay_window sa)
  (sa_esn sa) ses (sa_ipsec_sa sa) (sa_ipsec_session sa).
Definition with_ipsec_sa isa sa := mk_sa (sa_spi sa) (sa_vni sa) (sa_algo sa) (sa_dir sa)
  (sa_src sa) (sa_dst sa) (sa_key sa) (sa_salt sa) (sa_salt_len sa) (sa_replay_window sa)
  (sa_esn sa) (sa_session sa) isa (sa_ipsec_session sa).
Definition with_ipsec_session iss sa := mk_sa (sa_spi sa) (sa_vni sa) (sa_algo sa) (sa_dir sa)
  (sa_src sa) (sa_dst sa) (sa_key sa) (sa_salt sa) (sa_salt_len sa) (sa_replay_window sa)
  (sa_esn sa) (sa_session sa) (sa_ipsec_sa sa) iss.
Definition with_salt_len n sa := mk_sa (sa_spi sa) (sa_vni sa) (sa_algo sa) (sa_dir sa)
  (sa_src sa) (sa_dst sa) (sa_key sa) (sa_salt sa) n (sa_replay_window sa)
  (sa_esn sa) (sa_session sa) (sa_ipsec_sa sa) (sa_ipsec_session sa).
Definition with_addrs a b sa := mk_sa (sa_spi sa) (sa_vni sa) (sa_algo sa) (sa_dir sa)
  a b (sa_key sa) (sa_salt sa) (sa_salt_len sa) (sa_replay_window sa)
  (sa_esn sa) (sa_session sa) (sa_ipsec_sa sa) (sa_ipsec_session sa).

Definition zero_sa : dp_ipsec_sa :=
  mk_sa 0 0 DP_IPSEC_ALGO_AES_128_GCM DP_IPSEC_DIR_INGRESS dp_empty_ipv6 dp_empty_ipv6
    (replicate 32 0) (replicate 4 0) 0 0 false None None (mk_session None None None).

(** ** Algorithms *)

Definition algo_out_of_range (a : dp_ipsec_algo) : bool :=
  bool_decide (a = DP_IPSEC_ALGO_MAX).

Definition dp_ipsec_get_key_len (a : dp_ipsec_algo) : Z :=
  match dp_ipsec_algos a with Some r => algo_key_len r | None => DP_ERROR end.

Definition dp_ipsec_get_salt_len (a : dp_ipsec_algo) : Z :=
  match dp_ipsec_algos a with Some r => algo_salt_len r | None => DP_ERROR end.

(** ** Start-up *)

Definition dp_ipsec_create_device e : Z :=
  if DP_FAILED (env_hotplug_add e) then DP_ERROR
  else if DP_FAILED (env_get_dev_id e) then DP_ERROR
  else if DP_FAILED (env_cryptodev_configure e) then DP_ERROR
  else if DP_FAILED (env_queue_pair_setup e) then DP_ERROR
  else DP_OK.

Definition dp_ipsec_create_pools e : M ipsec_state Z :=
  modify (set_session_pool (env_session_pool_create e)) ;;
  if negb (env_session_pool_create e) then mret DP_ERROR
  else
    modify (set_op_pool (env_op_pool_create e)) ;;
    if negb (env_op_pool_create e) then mret DP_ERROR else mret DP_OK.

Definition dp_ipsec_create_sad e : M ipsec_state Z :=
  modify (set_sad (env_sad_create e)) ;;
  match env_sad_create e with
  | None => mret DP_ERROR
  | Some _ => mret DP_OK
  end.

Definition dp_ipsec_init e : M ipsec_state Z :=
  if negb (env_ipsec_enabled e) then mret DP_OK
  else if DP_FAILED (dp_ipsec_create_device e) then mret DP_ERROR
  else
    r1 ← dp_ipsec_create_pools e;
    if DP_FAILED r1 then mret DP_ERROR
    else
      r2 ← dp_ipsec_create_sad e;
      if DP_FAILED r2 then mret DP_ERROR
      else if DP_FAILED (env_cryptodev_start e) then mret DP_ERROR
      else modify (set_active true) ;; mret DP_OK.

Definition dp_ipsec_is_enabled s : bool := dp_ipsec_active s.

(** ** Building associations *)

Definition dp_ipsec_fill_xform e sa : option rte_crypto_sym_xform :=
  (fun spec =>
     mk_xform
       (match sa_dir sa with
        | DP_IPSEC_DIR_EGRESS => RTE_CRYPTO_AEAD_OP_ENCRYPT
        | DP_IPSEC_DIR_INGRESS => RTE_CRYPTO_AEAD_OP_DECRYPT
        end)
       (aead_algo spec) (sa_key sa) (algo_key_len spec) (env_iv_offset e)
       (algo_salt_len spec + DP_IPSEC_IV_LEN) (algo_icv_len spec)
       (if sa_esn sa then DP_IPSEC_AAD_LEN_ESN else DP_IPSEC_AAD_LEN))
  <$> dp_ipsec_algos (sa_algo sa).

(** The parameter block of [dp_ipsec_create_ipsec_sa]. *)
Definition ipsec_sa_prm (xform : rte_crypto_sym_xform) sa : rte_ipsec_sa_prm :=
  mk_prm (sa_spi sa) (le_join (take 4 (sa_salt sa))) RTE_SECURITY_IPSEC_SA_PROTO_ESP
    RTE_SECURITY_IPSEC_SA_MODE_TRANSPORT
    (match sa_dir sa with
     | DP_IPSEC_DIR_EGRESS => RTE_SECURITY_IPSEC_SA_DIR_EGRESS
     | DP_IPSEC_DIR_INGRESS => RTE_SECURITY_IPSEC_SA_DIR_INGRESS
     end)
    (sa_replay_window sa) (if sa_esn sa then 1 else 0) xform IPPROTO_IPV6.

Definition dp_ipsec_create_ipsec_sa e p (xform : rte_crypto_sym_xform) : M ipsec_state Z :=
  sa ← load_sa p;
  let prm := ipsec_sa_prm xform sa in
  let size := env_ipsec_sa_size e prm in
  if DP_FAILED size then mret DP_ERROR
  else
    isa ← new_obj (env_ipsec_sa_alloc e size) (ObjIpsecSa None);
    store_obj p (ObjSa (with_ipsec_sa isa sa)) ;;
    match isa with
    | None => mret DP_ERROR
    | Some q =>
        let ret := env_ipsec_sa_init e prm size in
        if DP_FAILED ret then mret DP_ERROR
        else
          store_obj q (ObjIpsecSa (Some prm)) ;;
          let iss := mk_session isa (Some RTE_SECURITY_ACTION_TYPE_NONE) (sa_session sa) in
          store_obj p (ObjSa (with_ipsec_session iss (with_ipsec_sa isa sa))) ;;
          if DP_FAILED (env_session_prepare e iss) then mret DP_ERROR else mret DP_OK
    end.

Definition dp_ipsec_free_sa p : M ipsec_state unit :=
  sa ← load_sa p;
  match sa_ipsec_sa sa with Some q => free_obj q | None => mret tt end ;;
  match sa_session sa with Some q => free_obj q | None => mret tt end ;;
  free_obj p.

(** [dp_ipsec_sas[slot] = o] *)
Definition write_slot (slot : nat) (o : option ptr) : M ipsec_state unit :=
  l ← gets dp_ipsec_sas;
  if (slot <? length l)%nat then modify (set_sas (<[slot := o]> l)) else ub.

(** The loop of [dp_ipsec_free] over the slots [slots]. *)
Fixpoint free_slots (slots : list nat) : M ipsec_state unit :=
  match slots with
  | [] => mret tt
  | i :: slots' =>
      l ← gets dp_ipsec_sas;
      o ← get_some (l !! i);
      match o with
      | None => free_slots slots'
      | Some p => dp_ipsec_free_sa p ;; write_slot i None ;; free_slots slots'
      end
  end.

(** The two pools are freed at the end; the variables keep their values. *)
Definition dp_ipsec_free : M ipsec_state unit :=
  modify (fun s => if dp_ipsec_active s then set_active false s else s) ;;
  free_slots (seq 0 DP_IPSEC_MAX_SA) ;;
  modify (set_sad None).

(** ** Keys and lookups *)

Definition dp_ipsec_build_key (lookup_spi : Z) (a b : dp_ipv6) : rte_ipsec_sad_key :=
  let masked_src := mk_ipv6 (_prefix a) 0 in
  let masked_dst := mk_ipv6 (_prefix b) 0 in
  mk_sad_key lookup_spi masked_dst masked_src.

(** One entry of the burst [dp_ipsec_lookup_sa] looks up; a database that was
    never created is a null pointer. *)
Definition dp_ipsec_lookup_sa (keys : list rte_ipsec_sad_key) : M ipsec_state (list (option ptr)) :=
  sad ← gets dp_ipsec_sad;
  match sad with
  | Some t => mret (rte_ipsec_sad_lookup t <$> keys)
  | None => ub
  end.

Definition dp_ipsec_get_lookup_spi (spec : dp_ipsec_sa_spec) : Z :=
  match spec_dir spec with
  | DP_IPSEC_DIR_EGRESS => spec_vni spec
  | DP_IPSEC_DIR_INGRESS => spec_spi spec
  end.

(** The key an association's identity is filed under. *)
Definition spec_key (spec : dp_ipsec_sa_spec) : rte_ipsec_sad_key :=
  dp_ipsec_build_key (dp_ipsec_get_lookup_spi spec) (spec_src spec) (spec_dst spec).

Definition dp_ipsec_lookup_one (spec : dp_ipsec_sa_spec) : M ipsec_state (option ptr) :=
  sas ← dp_ipsec_lookup_sa [spec_key spec];
  match sas with
  | [sa] => mret sa
  | _ => ub
  end.

Definition dp_ipsec_find_sa (spec : dp_ipsec_sa_spec) : M ipsec_state (option ptr) :=
  o ← dp_ipsec_lookup_one spec;
  match o with
  | None => mret None
  | Some p =>
      sa ← load_sa p;
      if negb (bool_decide (sa_dir sa = spec_dir spec)) || negb (sa_vni sa =? spec_vni spec)
         || negb (sa_spi sa =? spec_spi spec)
      then mret None
      else mret (Some p)
  end.

(** ** Validation *)

Definition dp_ipsec_is_local_side_valid e request : bool :=
  let local := match sa_dir request with
               | DP_IPSEC_DIR_EGRESS => sa_src request
               | DP_IPSEC_DIR_INGRESS => sa_dst request
               end in
  _prefix local =? _prefix (env_underlay_ip e).

Definition dp_ipsec_is_replay_window_valid request : bool :=
  match sa_dir request with
  | DP_IPSEC_DIR_EGRESS => sa_replay_window request =? 0
  | DP_IPSEC_DIR_INGRESS => sa_replay_window request <=? DP_IPSEC_REPLAY_WINDOW_MAX
  end.

Definition dp_ipsec_build_sa e request (lookup_spi : Z) : M ipsec_state (Z * option ptr) :=
  o ← new_obj (env_zmalloc e) (ObjSa zero_sa);
  match o with
  | None => mret (DP_GRPC_ERR OUT_OF_MEMORY, None)
  | Some p =>
      row ← get_some (dp_ipsec_algos (sa_algo request));
      let sa := with_session None (with_ipsec_sa None
                  (with_salt_len (u16 (algo_salt_len row)) request)) in
      store_obj p (ObjSa sa) ;;
      xform ← get_some (dp_ipsec_fill_xform e sa);
      ses ← new_obj (env_sym_session_create e xform) (ObjSession xform);
      store_obj p (ObjSa (with_session ses sa)) ;;
      match ses with
      | None => dp_ipsec_free_sa p ;; mret (DP_GRPC_ERR SA_CREATE, None)
      | Some _ =>
          r ← dp_ipsec_create_ipsec_sa e p xform;
          if DP_FAILED r then dp_ipsec_free_sa p ;; mret (DP_GRPC_ERR SA_CREATE, None)
          else
            sa ← load_sa p;
            let k := dp_ipsec_build_key lookup_spi (sa_src sa) (sa_dst sa) in
            store_obj p (ObjSa (with_addrs (key_sip k) (key_dip k) sa)) ;;
            mret (DP_OK, Some p)
      end
  end.

(** ** Slots *)

Definition ptr_is (q : option ptr) (o : option ptr) : bool := bool_decide (o = q).

(** [RTE_DIM(dp_ipsec_sas)] where there is no such slot. *)
Definition dp_ipsec_get_slot (l : list (option ptr)) p : nat :=
  default (length l) (find_index (ptr_is (Some p)) l).

Definition free_slot (l : list (option ptr)) : nat :=
  default (length l) (find_index (ptr_is None) l).

(** ** Operations *)

Definition request_spec request : dp_ipsec_sa_spec :=
  mk_spec (sa_spi request) (sa_vni request) (sa_dir request) (sa_src request) (sa_dst request).

(** [rte_ipsec_sad_add] on the database of the state. *)
Definition sad_add (k : rte_ipsec_sad_key) p : M ipsec_state Z :=
  sad ← gets dp_ipsec_sad;
  match sad with
  | Some t => let '(r, t') := rte_ipsec_sad_add t k p in modify (set_sad (Some t')) ;; mret r
  | None => ub
  end.

Definition sad_del (k : rte_ipsec_sad_key) : M ipsec_state Z :=
  sad ← gets dp_ipsec_sad;
  match sad with
  | Some t => let '(r, t') := rte_ipsec_sad_del t k in modify (set_sad (Some t')) ;; mret r
  | None => ub
  end.

Definition sad_missing : M ipsec_state bool :=
  gets (fun s => match dp_ipsec_sad s with None => true | Some _ => false end).

Definition dp_ipsec_create_sa e request : M ipsec_state Z :=
  let spec := request_spec request in
  off ← sad_missing;
  if off : bool then mret (DP_GRPC_ERR IPSEC_DISABLED)
  else if algo_out_of_range (sa_algo request) then mret (DP_GRPC_ERR SA_ALGO)
  else if negb (dp_ipsec_is_local_side_valid e request) then mret (DP_GRPC_ERR SA_BAD_ADDR)
  else if negb (dp_ipsec_is_replay_window_valid request) then mret (DP_GRPC_ERR SA_REPLAY_WINDOW)
  else
    found ← dp_ipsec_lookup_one spec;
    match found with
    | Some _ => mret (DP_GRPC_ERR SA_EXISTS)
    | None =>
        l ← gets dp_ipsec_sas;
        let slot := free_slot l in
        if (slot =? length l)%nat then mret (DP_GRPC_ERR LIMIT_REACHED)
        else
          built ← dp_ipsec_build_sa e request (dp_ipsec_get_lookup_spi spec);
          if DP_FAILED (fst built) then mret (fst built)
          else
            p ← get_some (snd built);
            sa ← load_sa p;
            let k := dp_ipsec_build_key (dp_ipsec_get_lookup_spi spec) (sa_src sa) (sa_dst sa) in
            ret ← sad_add k p;
            if DP_FAILED ret then dp_ipsec_free_sa p ;; mret (DP_GRPC_ERR SA_CREATE)
            else write_slot slot (Some p) ;; mret DP_OK
    end.

Definition dp_ipsec_update_sa e (spec : dp_ipsec_sa_spec) request : M ipsec_state Z :=
  off ← sad_missing;
  if off : bool then mret (DP_GRPC_ERR IPSEC_DISABLED)
  else if negb (bool_decide (spec_dir spec = DP_IPSEC_DIR_EGRESS)) then mret (DP_GRPC_ERR SA_DIRECTION)
  else if algo_out_of_range (sa_algo request) then mret (DP_GRPC_ERR SA_ALGO)
  else if negb (dp_ipsec_is_local_side_valid e request) then mret (DP_GRPC_ERR SA_BAD_ADDR)
  else if negb (dp_ipsec_is_replay_window_valid request) then mret (DP_GRPC_ERR SA_REPLAY_WINDOW)
  else
    found ← dp_ipsec_find_sa spec;
    match found with
    | None => mret (DP_GRPC_ERR SA_NOT_FOUND)
    | Some old_sa =>
        l ← gets dp_ipsec_sas;
        let slot := dp_ipsec_get_slot l old_sa in
        if (slot =? length l)%nat then mret (DP_GRPC_ERR SA_NOT_FOUND)
        else
          built ← dp_ipsec_build_sa e request (dp_ipsec_get_lookup_spi spec);
          if DP_FAILED (fst built) then mret (fst built)
          else
            new_sa ← get_some (snd built);
            sa ← load_sa new_sa;
            let k := dp_ipsec_build_key (dp_ipsec_get_lookup_spi spec) (sa_src sa) (sa_dst sa) in
            ret ← sad_add k new_sa;
            if DP_FAILED ret then dp_ipsec_free_sa new_sa ;; mret (DP_GRPC_ERR SA_CREATE)
            else
              write_slot slot (Some new_sa) ;;
              dp_ipsec_free_sa old_sa ;;
              mret DP_OK
    end.

Definition dp_ipsec_delete_sa (spec : dp_ipsec_sa_spec) : M ipsec_state Z :=
  off ← sad_missing;
  if off : bool then mret (DP_GRPC_ERR IPSEC_DISABLED)
  else
    found ← dp_ipsec_find_sa spec;
    match found with
    | None => mret (DP_GRPC_ERR SA_NOT_FOUND)
    | Some p =>
        ret ← sad_del (spec_key spec);
        if DP_FAILED ret then mret (DP_GRPC_ERR SA_NOT_FOUND)
        else
          l ← gets dp_ipsec_sas;
          let slot := dp_ipsec_get_slot l p in
          (if (slot <? length l)%nat then write_slot slot None else mret tt) ;;
          dp_ipsec_free_sa p ;;
          mret DP_OK
    end.

Definition dp_ipsec_get_sa (spec : dp_ipsec_sa_spec) : M ipsec_state (Z * option dp_ipsec_sa) :=
  off ← sad_missing;
  if off : bool then mret (DP_GRPC_ERR IPSEC_DISABLED, None)
  else
    found ← dp_ipsec_find_sa spec;
    match found with
    | None => mret (DP_GRPC_ERR SA_NOT_FOUND, None)
    | Some p => sa ← load_sa p; mret (DP_OK, Some sa)
    end.

End ops.
