(* ===== verification/FlowKey.v ===== *)
(** Flow keys and connection-tracking entries: the data of [include/dp_flow.h],
    and the inversion of a key ([dp_invert_flow_key] of [src/dp_flow.c]). *)

From S2P Require Import Prelude Errors IpAddr Port Packet Ipsec Vnf.

Definition DP_FLOW_FLAG_NONE : Z := 0x00.
Definition DP_FLOW_FLAG_SRC_NAT : Z := 0x01.
Definition DP_FLOW_FLAG_DST_NAT : Z := 0x02.
Definition DP_FLOW_FLAG_DST_LB : Z := 0x04.
Definition DP_FLOW_FLAG_FIREWALL : Z := 0x08.
Definition DP_FLOW_FLAG_SRC_NAT64 : Z := 0x10.
Definition DP_FLOW_FLAG_DEFAULT : Z := 0x20.
Definition DP_FLOW_FLAG_DST_NAT_FWD : Z := 0x40.

(** The macros [DP_FLOW_HAS_FLAG_*]. *)
Definition has_flag (flags flag : Z) : bool := negb (Z.land flags flag =? 0).

Definition DP_FLOW_DEFAULT_TIMEOUT : Z := 30.
Definition DP_FLOW_TCP_EXTENDED_TIMEOUT : Z := 60 * 60 * 24.
Definition DP_FLOW_VAL_AGE_CTX_CAPACITY : nat := 6.

Inductive dp_flow_nat_type :=
| DP_FLOW_NAT_TYPE_NONE
| DP_FLOW_NAT_TYPE_VIP
| DP_FLOW_NAT_TYPE_NETWORK_LOCAL
| DP_FLOW_NAT_TYPE_NETWORK_NEIGH
| DP_FLOW_NAT_AS_TARGET
| DP_FLOW_LB_TYPE_LOCAL_NEIGH_TRAFFIC
| DP_FLOW_LB_TYPE_RECIRC
| DP_FLOW_LB_TYPE_FORWARD.

#[export] Instance dp_flow_nat_type_eq_dec : EqDecision dp_flow_nat_type.
Proof. solve_decision. Defined.

Inductive dp_flow_tcp_state :=
| DP_FLOW_TCP_STATE_NONE
| DP_FLOW_TCP_STATE_NEW_SYN
| DP_FLOW_TCP_STATE_NEW_SYNACK
| DP_FLOW_TCP_STATE_ESTABLISHED
| DP_FLOW_TCP_STATE_FINWAIT
| DP_FLOW_TCP_STATE_RST_FIN.

#[export] Instance dp_flow_tcp_state_eq_dec : EqDecision dp_flow_tcp_state.
Proof. solve_decision. Defined.

Record flow_key := mk_flow_key {
  l3_dst : dp_ip_address;
  key_proto : Z;
  port_dst : Z;
  l3_src : dp_ip_address;
  key_vnf_type : dp_vnf_type;
  port_src : Z;
  key_vni : Z
}.

Definition set_l3_dst (x : dp_ip_address) (r : flow_key) : flow_key :=
  mk_flow_key x (key_proto r) (port_dst r) (l3_src r) (key_vnf_type r) (port_src r) (key_vni r).
Definition set_key_proto (x : Z) (r : flow_key) : flow_key :=
  mk_flow_key (l3_dst r) x (port_dst r) (l3_src r) (key_vnf_type r) (port_src r) (key_vni r).
Definition set_port_dst (x : Z) (r : flow_key) : flow_key :=
  mk_flow_key (l3_dst r) (key_proto r) x (l3_src r) (key_vnf_type r) (port_src r) (key_vni r).
Definition set_l3_src (x : dp_ip_address) (r : flow_key) : flow_key :=
  mk_flow_key (l3_dst r) (key_proto r) (port_dst r) x (key_vnf_type r) (port_src r) (key_vni r).
Definition set_key_vnf_type (x : dp_vnf_type) (r : flow_key) : flow_key :=
  mk_flow_key (l3_dst r) (key_proto r) (port_dst r) (l3_src r) x (port_src r) (key_vni r).
Definition set_port_src (x : Z) (r : flow_key) : flow_key :=
  mk_flow_key (l3_dst r) (key_proto r) (port_dst r) (l3_src r) (key_vnf_type r) x (key_vni r).
Definition set_key_vni (x : Z) (r : flow_key) : flow_key :=
  mk_flow_key (l3_dst r) (key_proto r) (port_dst r) (l3_src r) (key_vnf_type r) (port_src r) x.

#[export] Instance flow_key_eq_dec : EqDecision flow_key.
Proof. solve_decision. Defined.

#[export] Instance flow_key_countable : Countable flow_key.
Proof.
  refine (inj_countable'
    (fun k => (l3_dst k, key_proto k, port_dst k, l3_src k, key_vnf_type k, port_src k, key_vni k))
    (fun p => mk_flow_key p.1.1.1.1.1.1 p.1.1.1.1.1.2 p.1.1.1.1.2 p.1.1.1.2 p.1.1.2 p.1.2 p.2) _).
  by intros [].
Defined.

(** The 44 bytes of the two keys, compared word by word. *)
Definition dp_are_flows_identical (key1 key2 : flow_key) : bool := bool_decide (key1 = key2).

Definition empty_key : flow_key :=
  mk_flow_key (dp_set_ipaddr4 0) 0 0 (dp_set_ipaddr4 0) DP_VNF_TYPE_UNDEFINED 0 0.

(** [union dp_ref] is its count; the release function is always [dp_free_flow]. *)
Record flow_value := mk_flow_value {
  key_org : flow_key;
  key_reply : flow_key;
  rte_age_ctxs : list (option ptr);
  nf_vni : Z;
  nf_icmp_err_ip_cksum : Z;
  nf_nat_type : dp_flow_nat_type;
  nf_underlay_dst : dp_ipv6;
  nf_l4_type : Z;
  timestamp : Z;
  timeout_value : Z;
  created_port_id : Z;
  flow_flags : Z;
  fwall_org : dp_fwall_action;
  fwall_reply : dp_fwall_action;
  offload_orig : dp_pkt_offload_state;
  offload_reply : dp_pkt_offload_state;
  offloaded_pf0 : bool;
  offloaded_pf1 : bool;
  ref_count : Z;
  tcp_state : dp_flow_tcp_state;
  first_syn_flow_dir : dp_flow_dir;
  aged : bool
}.

Definition set_key_org (x : flow_key) (r : flow_value) : flow_value :=
  mk_flow_value x (key_reply r) (rte_age_ctxs r) (nf_vni r) (nf_icmp_err_ip_cksum r) (nf_nat_type r)
    (nf_underlay_dst r) (nf_l4_type r) (timestamp r) (timeout_value r)
    (created_port_id r) (flow_flags r) (fwall_org r) (fwall_reply r) (offload_orig r)
    (offload_reply r) (offloaded_pf0 r) (offloaded_pf1 r) (ref_count r) (tcp_state r)
    (first_syn_flow_dir r) (aged r).
Definition set_key_reply (x : flow_key) (r : flow_value) : flow_value :=
  mk_flow_value (key_org r) x (rte_age_ctxs r) (nf_vni r) (nf_icmp_err_ip_cksum r) (nf_nat_type r)
    (nf_underlay_dst r) (nf_l4_type r) (timestamp r) (timeout_value r)
    (created_port_id r) (flow_flags r) (fwall_org r) (fwall_reply r) (offload_orig r)
    (offload_reply r) (offloaded_pf0 r) (offloaded_pf1 r) (ref_count r) (tcp_state r)
    (first_syn_flow_dir r) (aged r).
Definition set_rte_age_ctxs (x : list (option ptr)) (r : flow_value) : flow_value :=
  mk_flow_value (key_org r) (key_reply r) x (nf_vni r) (nf_icmp_err_ip_cksum r) (nf_nat_type r)
    (nf_underlay_dst r) (nf_l4_type r) (timestamp r) (timeout_value r)
    (created_port_id r) (flow_flags r) (fwall_org r) (fwall_reply r) (offload_orig r)
    (offload_reply r) (offloaded_pf0 r) (offloaded_pf1 r) (ref_count r) (tcp_state r)
    (first_syn_flow_dir r) (aged r).
Definition set_nf_vni (x : Z) (r : flow_value) : flow_value :=
  mk_flow_value (key_org r) (key_reply r) (rte_age_ctxs r) x (nf_icmp_err_ip_cksum r) (nf_nat_type r)
    (nf_underlay_dst r) (nf_l4_type r) (timestamp r) (timeout_value r)
    (created_port_id r) (flow_flags r) (fwall_org r) (fwall_reply r) (offload_orig r)
    (offload_reply r) (offloaded_pf0 r) (offloaded_pf1 r) (ref_count r) (tcp_state r)
    (first_syn_flow_dir r) (aged r).
Definition set_nf_icmp_err_ip_cksum (x : Z) (r : flow_value) : flow_value :=
  mk_flow_value (key_org r) (key_reply r) (rte_age_ctxs r) (nf_vni r) x (nf_nat_type r)
    (nf_underlay_dst r) (nf_l4_type r) (timestamp r) (timeout_value r)
    (created_port_id r) (flow_flags r) (fwall_org r) (fwall_reply r) (offload_orig r)
    (offload_reply r) (offloaded_pf0 r) (offloaded_pf1 r) (ref_count r) (tcp_state r)
    (first_syn_flow_dir r) (aged r).
Definition set_nf_nat_type (x : dp_flow_nat_type) (r : flow_value) : flow_value :=
  mk_flow_value (key_org r) (key_reply r) (rte_age_ctxs r) (nf_vni r) (nf_icmp_err_ip_cksum r) x
    (nf_underlay_dst r) (nf_l4_type r) (timestamp r) (timeout_value r)
    (created_port_id r) (flow_flags r) (fwall_org r) (fwall_reply r) (offload_orig r)
    (offload_reply r) (offloaded_pf0 r) (offloaded_pf1 r) (ref_count r) (tcp_state r)
    (first_syn_flow_dir r) (aged r).
Definition set_nf_underlay_dst (x : dp_ipv6) (r : flow_value) : flow_value :=
  mk_flow_value (key_org r) (key_reply r) (rte_age_ctxs r) (nf_vni r) (nf_icmp_err_ip_cksum r)
    (nf_nat_type r) x (nf_l4_type r) (timestamp r) (timeout_value r) (created_port_id r)
    (flow_flags r) (fwall_org r) (fwall_reply r) (offload_orig r) (offload_reply r)
    (offloaded_pf0 r) (offloaded_pf1 r) (ref_count r) (tcp_state r)
    (first_syn_flow_dir r) (aged r).
Definition set_nf_l4_type (x : Z) (r : flow_value) : flow_value :=
  mk_flow_value (key_org r) (key_reply r) (rte_age_ctxs r) (nf_vni r) (nf_icmp_err_ip_cksum r)
    (nf_nat_type r) (nf_underlay_dst r) x (timestamp r) (timeout_value r)
    (created_port_id r) (flow_flags r) (fwall_org r) (fwall_reply r) (offload_orig r)
    (offload_reply r) (offloaded_pf0 r) (offloaded_pf1 r) (ref_count r) (tcp_state r)
    (first_syn_flow_dir r) (aged r).
Definition set_timestamp (x : Z) (r : flow_value) : flow_value :=
  mk_flow_value (key_org r) (key_reply r) (rte_age_ctxs r) (nf_vni r) (nf_icmp_err_ip_cksum r)
    (nf_nat_type r) (nf_underlay_dst r) (nf_l4_type r) x (timeout_value r)
    (created_port_id r) (flow_flags r) (fwall_org r) (fwall_reply r) (offload_orig r)
    (offload_reply r) (offloaded_pf0 r) (offloaded_pf1 r) (ref_count r) (tcp_state r)
    (first_syn_flow_dir r) (aged r).
Definition set_timeout_value (x : Z) (r : flow_value) : flow_value :=
  mk_flow_value (key_org r) (key_reply r) (rte_age_ctxs r) (nf_vni r) (nf_icmp_err_ip_cksum r)
    (nf_nat_type r) (nf_underlay_dst r) (nf_l4_type r) (timestamp r) x
    (created_port_id r) (flow_flags r) (fwall_org r) (fwall_reply r) (offload_orig r)
    (offload_reply r) (offloaded_pf0 r) (offloaded_pf1 r) (ref_count r) (tcp_state r)
    (first_syn_flow_dir r) (aged r).
Definition set_created_port_id (x : Z) (r : flow_value) : flow_value :=
  mk_flow_value (key_org r) (key_reply r) (rte_age_ctxs r) (nf_vni r) (nf_icmp_err_ip_cksum r)
    (nf_nat_type r) (nf_underlay_dst r) (nf_l4_type r) (timestamp r) (timeout_value r) x
    (flow_flags r) (fwall_org r) (fwall_reply r) (offload_orig r) (offload_reply r)
    (offloaded_pf0 r) (offloaded_pf1 r) (ref_count r) (tcp_state r)
    (first_syn_flow_dir r) (aged r).
Definition set_flow_flags (x : Z) (r : flow_value) : flow_value :=
  mk_flow_value (key_org r) (key_reply r) (rte_age_ctxs r) (nf_vni r) (nf_icmp_err_ip_cksum r)
    (nf_nat_type r) (nf_underlay_dst r) (nf_l4_type r) (timestamp r) (timeout_value r)
    (created_port_id r) x (fwall_org r) (fwall_reply r) (offload_orig r)
    (offload_reply r) (offloaded_pf0 r) (offloaded_pf1 r) (ref_count r) (tcp_state r)
    (first_syn_flow_dir r) (aged r).
Definition set_fwall_org (x : dp_fwall_action) (r : flow_value) : flow_value :=
  mk_flow_value (key_org r) (key_reply r) (rte_age_ctxs r) (nf_vni r) (nf_icmp_err_ip_cksum r)
    (nf_nat_type r) (nf_underlay_dst r) (nf_l4_type r) (timestamp r) (timeout_value r)
    (created_port_id r) (flow_flags r) x (fwall_reply r) (offload_orig r)
    (offload_reply r) (offloaded_pf0 r) (offloaded_pf1 r) (ref_count r) (tcp_state r)
    (first_syn_flow_dir r) (aged r).
Definition set_fwall_reply (x : dp_fwall_action) (r : flow_value) : flow_value :=
  mk_flow_value (key_org r) (key_reply r) (rte_age_ctxs r) (nf_vni r) (nf_icmp_err_ip_cksum r)
    (nf_nat_type r) (nf_underlay_dst r) (nf_l4_type r) (timestamp r) (timeout_value r)
    (created_port_id r) (flow_flags r) (fwall_org r) x (offload_orig r) (offload_reply r)
    (offloaded_pf0 r) (offloaded_pf1 r) (ref_count r) (tcp_state r)
    (first_syn_flow_dir r) (aged r).
Definition set_offload_orig (x : dp_pkt_offload_state) (r : flow_value) : flow_value :=
  mk_flow_value (key_org r) (key_reply r) (rte_age_ctxs r) (nf_vni r) (nf_icmp_err_ip_cksum r)
    (nf_nat_type r) (nf_underlay_dst r) (nf_l4_type r) (timestamp r) (timeout_value r)
    (created_port_id r) (flow_flags r) (fwall_org r) (fwall_reply r) x (offload_reply r)
    (offloaded_pf0 r) (offloaded_pf1 r) (ref_count r) (tcp_state r)
    (first_syn_flow_dir r) (aged r).
Definition set_offload_reply (x : dp_pkt_offload_state) (r : flow_value) : flow_value :=
  mk_flow_value (key_org r) (key_reply r) (rte_age_ctxs r) (nf_vni r) (nf_icmp_err_ip_cksum r)
    (nf_nat_type r) (nf_underlay_dst r) (nf_l4_type r) (timestamp r) (timeout_value r)
    (created_port_id r) (flow_flags r) (fwall_org r) (fwall_reply r) (offload_orig r) x
    (offloaded_pf0 r) (offloaded_pf1 r) (ref_count r) (tcp_state r)
    (first_syn_flow_dir r) (aged r).
Definition set_offloaded_pf0 (x : bool) (r : flow_value) : flow_value :=
  mk_flow_value (key_org r) (key_reply r) (rte_age_ctxs r) (nf_vni r) (nf_icmp_err_ip_cksum r)
    (nf_nat_type r) (nf_underlay_dst r) (nf_l4_type r) (timestamp r) (timeout_value r)
    (created_port_id r) (flow_flags r) (fwall_org r) (fwall_reply r) (offload_orig r)
    (offload_reply r) x (offloaded_pf1 r) (ref_count r) (tcp_state r)
    (first_syn_flow_dir r) (aged r).
Definition set_offloaded_pf1 (x : bool) (r : flow_value) : flow_value :=
  mk_flow_value (key_org r) (key_reply r) (rte_age_ctxs r) (nf_vni r) (nf_icmp_err_ip_cksum r)
    (nf_nat_type r) (nf_underlay_dst r) (nf_l4_type r) (timestamp r) (timeout_value r)
    (created_port_id r) (flow_flags r) (fwall_org r) (fwall_reply r) (offload_orig r)
    (offload_reply r) (offloaded_pf0 r) x (ref_count r) (tcp_state r)
    (first_syn_flow_dir r) (aged r).
Definition set_ref_count (x : Z) (r : flow_value) : flow_value :=
  mk_flow_value (key_org r) (key_reply r) (rte_age_ctxs r) (nf_vni r) (nf_icmp_err_ip_cksum r)
    (nf_nat_type r) (nf_underlay_dst r) (nf_l4_type r) (timestamp r) (timeout_value r)
    (created_port_id r) (flow_flags r) (fwall_org r) (fwall_reply r) (offload_orig r)
    (offload_reply r) (offloaded_pf0 r) (offloaded_pf1 r) x (tcp_state r)
    (first_syn_flow_dir r) (aged r).
Definition set_tcp_state (x : dp_flow_tcp_state) (r : flow_value) : flow_value :=
  mk_flow_value (key_org r) (key_reply r) (rte_age_ctxs r) (nf_vni r) (nf_icmp_err_ip_cksum r)
    (nf_nat_type r) (nf_underlay_dst r) (nf_l4_type r) (timestamp r) (timeout_value r)
    (created_port_id r) (flow_flags r) (fwall_org r) (fwall_reply r) (offload_orig r)
    (offload_reply r) (offloaded_pf0 r) (offloaded_pf1 r) (ref_count r) x
    (first_syn_flow_dir r) (aged r).
Definition set_first_syn_flow_dir (x : dp_flow_dir) (r : flow_value) : flow_value :=
  mk_flow_value (key_org r) (key_reply r) (rte_age_ctxs r) (nf_vni r) (nf_icmp_err_ip_cksum r)
    (nf_nat_type r) (nf_underlay_dst r) (nf_l4_type r) (timestamp r) (timeout_value r)
    (created_port_id r) (flow_flags r) (fwall_org r) (fwall_reply r) (offload_orig r)
    (offload_reply r) (offloaded_pf0 r) (offloaded_pf1 r) (ref_count r) (tcp_state r) x
    (aged r).
Definition set_aged (x : bool) (r : flow_value) : flow_value :=
  mk_flow_value (key_org r) (key_reply r) (rte_age_ctxs r) (nf_vni r) (nf_icmp_err_ip_cksum r)
    (nf_nat_type r) (nf_underlay_dst r) (nf_l4_type r) (timestamp r) (timeout_value r)
    (created_port_id r) (flow_flags r) (fwall_org r) (fwall_reply r) (offload_orig r)
    (offload_reply r) (offloaded_pf0 r) (offloaded_pf1 r) (ref_count r) (tcp_state r)
    (first_syn_flow_dir r) x.

(** A zeroed entry. *)
Definition zero_flow_value : flow_value :=
  mk_flow_value empty_key empty_key (replicate DP_FLOW_VAL_AGE_CTX_CAPACITY None) 0 0 DP_FLOW_NAT_TYPE_NONE
    (mk_ipv6 0 0) 0 0 0 0 DP_FLOW_FLAG_NONE DP_FWALL_DROP DP_FWALL_DROP DP_FLOW_NON_OFFLOAD DP_FLOW_NON_OFFLOAD
    false false 0 DP_FLOW_TCP_STATE_NONE DP_FLOW_DIR_ORG false.

(** ** Inversion *)

Definition RTE_ICMP_TYPE_ECHO_REPLY : Z := 0.
Definition RTE_ICMP_TYPE_ECHO_REQUEST : Z := 8.
Definition DP_ICMPV6_ECHO_REQUEST : Z := 128.
Definition DP_ICMPV6_ECHO_REPLY : Z := 129.

Definition invert_type (request reply type : Z) : Z :=
  if type =? reply then request else if type =? request then reply else 0.

Definition dp_invert_flow_key (key : flow_key) : flow_key :=
  let ports :=
    if (key_proto key =? IPPROTO_TCP) || (key_proto key =? IPPROTO_UDP) then (port_src key, port_dst key)
    else if key_proto key =? IPPROTO_ICMP then
      (port_dst key, invert_type RTE_ICMP_TYPE_ECHO_REQUEST RTE_ICMP_TYPE_ECHO_REPLY (port_src key))
    else if key_proto key =? IPPROTO_ICMPV6 then
      (port_dst key, invert_type DP_ICMPV6_ECHO_REQUEST DP_ICMPV6_ECHO_REPLY (port_src key))
    else (0, 0) in
  mk_flow_key (dp_copy_ipaddr (l3_src key)) (key_proto key) (fst ports) (dp_copy_ipaddr (l3_dst key))
    (key_vnf_type key) (snd ports) (key_vni key).

(** Keys that name one direction of a connection: TCP, UDP and ICMP echo. *)
Definition connection_key (k : flow_key) : Prop :=
  key_proto k = IPPROTO_TCP \/ key_proto k = IPPROTO_UDP
  \/ (key_proto k = IPPROTO_ICMP /\ (port_src k = RTE_ICMP_TYPE_ECHO_REQUEST \/ port_src k = RTE_ICMP_TYPE_ECHO_REPLY))
  \/ (key_proto k = IPPROTO_ICMPV6 /\ (port_src k = DP_ICMPV6_ECHO_REQUEST \/ port_src k = DP_ICMPV6_ECHO_REPLY)).

Lemma invert_involutive k : connection_key k ->
  dp_invert_flow_key (dp_invert_flow_key k) = k /\ connection_key (dp_invert_flow_key k).
Proof.
  destruct k as [[[dp ds] d6] proto pd [[sp ss] s6] vt ps vni]. unfold connection_key. cbn [key_proto port_src].
  intros [-> | [-> | [[-> [-> | ->]] | [-> [-> | ->]]]]]; (split; [reflexivity|]); cbn; auto 6.
Qed.
