(* ===== verification/Nat.v ===== *)
(** Network address translation: the tables and port allocation of
    [src/dp_nat.c].

    The data a table entry points to is owned by the table, so an entry is
    modelled as holding it, and a write through its pointer replaces it in place
    ([hash_poke]).  The counters that telemetry reads and the messages for the
    backup instance are kept in the state; whether they can be sent is ignored
    by the code. *)

From S2P Require Import Prelude Errors RteHash IpAddr Port Packet Ipsec Vnf FlowKey.

(** ** Data *)

Record nat_key := mk_nat_key { nk_ip : Z; nk_vni : Z }.
#[export] Instance nat_key_eq_dec : EqDecision nat_key.
Proof. solve_decision. Defined.
#[export] Instance nat_key_countable : Countable nat_key.
Proof. refine (inj_countable' (fun k => (nk_ip k, nk_vni k)) (fun p => mk_nat_key p.1 p.2) _). by intros []. Defined.

Record nat_entry := mk_nat_entry { ne_nat_ip : Z; ne_min_port : Z; ne_max_port : Z; ne_vni : Z; ne_dst_ipv6 : dp_ipv6 }.

Record snat_data := mk_snat_data {
  vip_ip : Z;
  snat_ip : Z;
  snat_min_port : Z;
  snat_max_port : Z;
  ul_vip_ip6 : dp_ipv6;
  ul_nat_ip6 : dp_ipv6;
  log_timestamp : Z
}.

Definition set_vip_ip (x : Z) (r : snat_data) : snat_data :=
  mk_snat_data x (snat_ip r) (snat_min_port r) (snat_max_port r) (ul_vip_ip6 r) (ul_nat_ip6 r)
    (log_timestamp r).
Definition set_snat_ip (x : Z) (r : snat_data) : snat_data :=
  mk_snat_data (vip_ip r) x (snat_min_port r) (snat_max_port r) (ul_vip_ip6 r) (ul_nat_ip6 r)
    (log_timestamp r).
Definition set_snat_min_port (x : Z) (r : snat_data) : snat_data :=
  mk_snat_data (vip_ip r) (snat_ip r) x (snat_max_port r) (ul_vip_ip6 r) (ul_nat_ip6 r)
    (log_timestamp r).
Definition set_snat_max_port (x : Z) (r : snat_data) : snat_data :=
  mk_snat_data (vip_ip r) (snat_ip r) (snat_min_port r) x (ul_vip_ip6 r) (ul_nat_ip6 r)
    (log_timestamp r).
Definition set_ul_vip_ip6 (x : dp_ipv6) (r : snat_data) : snat_data :=
  mk_snat_data (vip_ip r) (snat_ip r) (snat_min_port r) (snat_max_port r) x (ul_nat_ip6 r)
    (log_timestamp r).
Definition set_ul_nat_ip6 (x : dp_ipv6) (r : snat_data) : snat_data :=
  mk_snat_data (vip_ip r) (snat_ip r) (snat_min_port r) (snat_max_port r) (ul_vip_ip6 r) x
    (log_timestamp r).
Definition set_log_timestamp (x : Z) (r : snat_data) : snat_data :=
  mk_snat_data (vip_ip r) (snat_ip r) (snat_min_port r) (snat_max_port r) (ul_vip_ip6 r)
    (ul_nat_ip6 r) x.

Definition zero_snat_data : snat_data := mk_snat_data 0 0 0 0 (mk_ipv6 0 0) (mk_ipv6 0 0) 0.

Record dnat_data := mk_dnat_data { dnat_ip : Z }.

Record netnat_portmap_key := mk_portmap_key { pk_vni : Z; pk_src_ip : dp_ip_address; pk_iface_src_port : Z }.
#[export] Instance netnat_portmap_key_eq_dec : EqDecision netnat_portmap_key.
Proof. solve_decision. Defined.
#[export] Instance netnat_portmap_key_countable : Countable netnat_portmap_key.
Proof. refine (inj_countable' (fun k => (pk_vni k, pk_src_ip k, pk_iface_src_port k)) (fun p => mk_portmap_key p.1.1 p.1.2 p.2) _). by intros []. Defined.

Record netnat_portmap_data := mk_portmap_data { pm_nat_ip : Z; pm_nat_port : Z; pm_flow_cnt : Z }.

Record netnat_portoverload_tbl_key := mk_overload_key {
  po_nat_ip : Z; po_nat_port : Z; po_dst_ip : Z; po_dst_port : Z; po_l4_type : Z
}.
#[export] Instance netnat_portoverload_tbl_key_eq_dec : EqDecision netnat_portoverload_tbl_key.
Proof. solve_decision. Defined.
#[export] Instance netnat_portoverload_tbl_key_countable : Countable netnat_portoverload_tbl_key.
Proof. refine (inj_countable' (fun k => (po_nat_ip k, po_nat_port k, po_dst_ip k, po_dst_port k, po_l4_type k)) (fun p => mk_overload_key p.1.1.1.1 p.1.1.1.2 p.1.1.2 p.1.2 p.2) _). by intros []. Defined.

Definition set_po_nat_port (port : Z) (k : netnat_portoverload_tbl_key) : netnat_portoverload_tbl_key :=
  mk_overload_key (po_nat_ip k) port (po_dst_ip k) (po_dst_port k) (po_l4_type k).

Record netnat_portoverload_sync_metadata := mk_sync_metadata {
  sm_portmap_key : netnat_portmap_key; sm_created_port_id : Z; sm_icmp_type_src : Z; sm_icmp_err_ip_cksum : Z
}.

(** What is sent to the backup instance. *)
Inductive nat_sync :=
| SyncNatCreate (pk : netnat_portmap_key) (po : netnat_portoverload_tbl_key) (port_id icmp_type icmp_err_ip_cksum : Z)
| SyncNatDelete (pk : netnat_portmap_key) (po : netnat_portoverload_tbl_key).

Section nat.
Context `{ERR : RteErrno} {ST : RteHash nat_key snat_data} {DT : RteHash nat_key dnat_data}
  {PM : RteHash netnat_portmap_key netnat_portmap_data}
  {PO : RteHash netnat_portoverload_tbl_key (option netnat_portoverload_sync_metadata)}.

Record nat_state := mk_nat_state {
  ipv4_snat_tbl : rte_hash nat_key snat_data;
  ipv4_dnat_tbl : rte_hash nat_key dnat_data;
  portmap_tbl : rte_hash netnat_portmap_key netnat_portmap_data;
  portoverload_tbl : rte_hash netnat_portoverload_tbl_key (option netnat_portoverload_sync_metadata);
  neighnat_head : list nat_entry;
  used_port_cnt : gmap Z Z;
  nat_sync_out : list nat_sync
}.

Definition set_ipv4_snat_tbl (x : rte_hash nat_key snat_data) (r : nat_state) : nat_state :=
  mk_nat_state x (ipv4_dnat_tbl r) (portmap_tbl r) (portoverload_tbl r) (neighnat_head r)
    (used_port_cnt r) (nat_sync_out r).
Definition set_ipv4_dnat_tbl (x : rte_hash nat_key dnat_data) (r : nat_state) : nat_state :=
  mk_nat_state (ipv4_snat_tbl r) x (portmap_tbl r) (portoverload_tbl r) (neighnat_head r)
    (used_port_cnt r) (nat_sync_out r).
Definition set_portmap_tbl (x : rte_hash netnat_portmap_key netnat_portmap_data) (r : nat_state) : nat_state :=
  mk_nat_state (ipv4_snat_tbl r) (ipv4_dnat_tbl r) x (portoverload_tbl r) (neighnat_head r)
    (used_port_cnt r) (nat_sync_out r).
Definition set_portoverload_tbl (x : rte_hash netnat_portoverload_tbl_key (option netnat_portoverload_sync_metadata)) (r : nat_state) : nat_state :=
  mk_nat_state (ipv4_snat_tbl r) (ipv4_dnat_tbl r) (portmap_tbl r) x (neighnat_head r)
    (used_port_cnt r) (nat_sync_out r).
Definition set_neighnat_head (x : list nat_entry) (r : nat_state) : nat_state :=
  mk_nat_state (ipv4_snat_tbl r) (ipv4_dnat_tbl r) (portmap_tbl r) (portoverload_tbl r) x
    (used_port_cnt r) (nat_sync_out r).
Definition set_used_port_cnt (x : gmap Z Z) (r : nat_state) : nat_state :=
  mk_nat_state (ipv4_snat_tbl r) (ipv4_dnat_tbl r) (portmap_tbl r) (portoverload_tbl r)
    (neighnat_head r) x (nat_sync_out r).
Definition set_nat_sync_out (x : list nat_sync) (r : nat_state) : nat_state :=
  mk_nat_state (ipv4_snat_tbl r) (ipv4_dnat_tbl r) (portmap_tbl r) (portoverload_tbl r)
    (neighnat_head r) (used_port_cnt r) x.

Implicit Types (st : nat_state) (pk : netnat_portmap_key) (po : netnat_portoverload_tbl_key).

(** ** Interface addresses *)

Definition dp_get_iface_snat_data (iface_ip vni : Z) st : option snat_data :=
  match rte_hash_lookup_data (ipv4_snat_tbl st) (mk_nat_key iface_ip vni) with
  | inl _ => None
  | inr data => Some data
  end.

Definition dp_create_snat_data (zmalloc_ok : bool) (iface_ip vni : Z) st : option snat_data * nat_state :=
  if negb zmalloc_ok then (None, st)
  else
    let '(ret, t) := rte_hash_add_key_data (ipv4_snat_tbl st) (mk_nat_key iface_ip vni) zero_snat_data in
    let st := set_ipv4_snat_tbl t st in
    if DP_FAILED ret then (None, st) else (Some zero_snat_data, st).

Definition dp_delete_snat_data (iface_ip vni : Z) st : nat_state :=
  set_ipv4_snat_tbl (snd (rte_hash_del_key (ipv4_snat_tbl st) (mk_nat_key iface_ip vni))) st.

(** A write through the pointer [dp_get_iface_snat_data] returned. *)
Definition write_snat_data (iface_ip vni : Z) (data : snat_data) st : nat_state :=
  set_ipv4_snat_tbl (hash_poke (ipv4_snat_tbl st) (mk_nat_key iface_ip vni) data) st.

Definition dp_set_iface_vip_ip (zmalloc_ok : bool) (iface_ip vip vni : Z) (ul : dp_ipv6) st : Z * nat_state :=
  let write data st := (DP_OK, write_snat_data iface_ip vni (set_ul_vip_ip6 ul (set_vip_ip vip data)) st) in
  match dp_get_iface_snat_data iface_ip vni st with
  | None =>
      match dp_create_snat_data zmalloc_ok iface_ip vni st with
      | (None, st) => (DP_GRPC_ERR SNAT_CREATE, st)
      | (Some data, st) => write data st
      end
  | Some data => if negb (vip_ip data =? 0) then (DP_GRPC_ERR SNAT_EXISTS, st) else write data st
  end.

Definition dp_set_iface_nat_ip (zmalloc_ok : bool) (iface_ip ip vni min_port max_port : Z) (ul : dp_ipv6) st
  : Z * nat_state :=
  let write data st := (DP_OK, write_snat_data iface_ip vni
    (set_snat_max_port max_port (set_snat_min_port min_port (set_snat_ip ip (set_ul_nat_ip6 ul data)))) st) in
  match dp_get_iface_snat_data iface_ip vni st with
  | None =>
      match dp_create_snat_data zmalloc_ok iface_ip vni st with
      | (None, st) => (DP_GRPC_ERR SNAT_CREATE, st)
      | (Some data, st) => write data st
      end
  | Some data => if negb (snat_ip data =? 0) then (DP_GRPC_ERR SNAT_EXISTS, st) else write data st
  end.

Definition dp_del_iface_vip_ip (iface_ip vni : Z) st : Z * nat_state :=
  match dp_get_iface_snat_data iface_ip vni st with
  | None => (DP_GRPC_ERR SNAT_NO_DATA, st)
  | Some data =>
      if negb (snat_ip data =? 0) then (DP_OK, write_snat_data iface_ip vni (set_vip_ip 0 data) st)
      else (DP_OK, dp_delete_snat_data iface_ip vni st)
  end.

Definition dp_del_iface_nat_ip (iface_ip vni : Z) st : Z * nat_state :=
  match dp_get_iface_snat_data iface_ip vni st with
  | None => (DP_GRPC_ERR SNAT_NO_DATA, st)
  | Some data =>
      if negb (vip_ip data =? 0)
      then (DP_OK, write_snat_data iface_ip vni (set_snat_max_port 0 (set_snat_min_port 0 (set_snat_ip 0 data))) st)
      else (DP_OK, dp_delete_snat_data iface_ip vni st)
  end.

Definition dp_get_dnat_data (d_ip vni : Z) st : option dnat_data :=
  match rte_hash_lookup_data (ipv4_dnat_tbl st) (mk_nat_key d_ip vni) with
  | inl _ => None
  | inr data => Some data
  end.

Definition dp_set_dnat_ip (zmalloc_ok : bool) (d_ip dnat vni : Z) st : Z * nat_state :=
  match dp_get_dnat_data d_ip vni st with
  | Some _ => (DP_GRPC_ERR DNAT_EXISTS, st)
  | None =>
      if negb zmalloc_ok then (DP_GRPC_ERR DNAT_CREATE, st)
      else
        let '(ret, t) := rte_hash_add_key_data (ipv4_dnat_tbl st) (mk_nat_key d_ip vni) (mk_dnat_data 0) in
        if DP_FAILED ret then (DP_GRPC_ERR DNAT_CREATE, set_ipv4_dnat_tbl t st)
        else (DP_OK, set_ipv4_dnat_tbl (hash_poke t (mk_nat_key d_ip vni) (mk_dnat_data dnat)) st)
  end.

Definition dp_del_dnat_ip (d_ip vni : Z) st : Z * nat_state :=
  match dp_get_dnat_data d_ip vni st with
  | None => (DP_GRPC_ERR DNAT_NO_DATA, st)
  | Some _ => (DP_OK, set_ipv4_dnat_tbl (snd (rte_hash_del_key (ipv4_dnat_tbl st) (mk_nat_key d_ip vni))) st)
  end.

(** ** Ranges announced by neighbours *)

Definition dp_is_same_network_nat_entry (entry : nat_entry) (ip vni min_port max_port : Z) : bool :=
  (ne_vni entry =? vni) && (ne_nat_ip entry =? ip) && (ne_min_port entry =? min_port) && (ne_max_port entry =? max_port).

Definition dp_is_network_nat_entry_port_overlap (entry : nat_entry) (ip min_port max_port : Z) : bool :=
  (ne_nat_ip entry =? ip) && (max_port >? ne_min_port entry) && (min_port <? ne_max_port entry).

Definition dp_is_network_nat_port (entry : nat_entry) (ip vni port : Z) : bool :=
  (ne_vni entry =? vni) && (ne_nat_ip entry =? ip) && (ne_min_port entry <=? port) && (ne_max_port entry >? port).

Definition dp_del_vip_from_dnat (d_ip vni : Z) st : nat_state :=
  if existsb (fun entry => (ne_vni entry =? vni) && (ne_nat_ip entry =? d_ip)) (neighnat_head st) then st
  else snd (dp_del_dnat_ip d_ip vni st).

Definition dp_add_neighnat_entry (zmalloc_ok : bool) (ip vni min_port max_port : Z) (ul : dp_ipv6) st : Z * nat_state :=
  if existsb (fun next => dp_is_network_nat_entry_port_overlap next ip min_port max_port) (neighnat_head st)
  then (DP_GRPC_ERR ALREADY_EXISTS, st)
  else if negb zmalloc_ok then (DP_GRPC_ERR OUT_OF_MEMORY, st)
  else (DP_OK, set_neighnat_head (neighnat_head st ++ [mk_nat_entry ip min_port max_port vni ul]) st).

Fixpoint remove_entry (p : nat_entry -> bool) (l : list nat_entry) : option (list nat_entry) :=
  match l with
  | [] => None
  | item :: l' => if p item then Some l' else cons item <$> remove_entry p l'
  end.

Definition dp_del_neighnat_entry (ip vni min_port max_port : Z) st : Z * nat_state :=
  match remove_entry (fun item => dp_is_same_network_nat_entry item ip vni min_port max_port) (neighnat_head st) with
  | Some l => (DP_OK, set_neighnat_head l st)
  | None => (DP_GRPC_ERR NOT_FOUND, st)
  end.

Definition is_icmp (l4 : Z) : bool := (l4 =? IPPROTO_ICMP) || (l4 =? IPPROTO_ICMPV6).

Definition dp_lookup_neighnat_underlay_ip (df : dp_flow) st : option dp_ipv6 :=
  let dst_ip := ntohl (dst_addr df) in
  let dst_port := if is_icmp (l4_type df) then ntohs (icmp_identifier df) else ntohs (l4_dst_port df) in
  ne_dst_ipv6 <$> List.find (fun entry => dp_is_network_nat_port entry dst_ip (dst_vni df) dst_port) (neighnat_head st).

(** ** Port allocation *)

(** The search of [dp_find_new_port] from offset [p] on: the index is computed
    in 32 bits, the port in 16.  [n] offsets remain. *)
Fixpoint find_port_loop (n : nat) (p hash min_port port_range : Z) po st : Z * netnat_portoverload_tbl_key :=
  match n with
  | O => (- ENOENT, po)
  | S n' =>
      let tmp_port := u16 (min_port + u16 (u32 (hash + p) mod port_range)) in
      let po := set_po_nat_port tmp_port po in
      match rte_hash_lookup_data (portoverload_tbl st) po with
      | inl ret => if ret =? - ENOENT then (DP_OK, po) else (ret, po)
      | inr _ => find_port_loop n' (p + 1) hash min_port port_range po st
      end
  end.

(** [sk] is the entry [snat_data] points to; [now] is the time stamp counter. *)
Definition dp_find_new_port (now full_log_delay : Z) (sk : nat_key) (data : snat_data) pk po st
  : Z * netnat_portoverload_tbl_key * nat_state :=
  let min_port := snat_min_port data in
  let max_port := snat_max_port data in
  let port_range := u16 (max_port - min_port) in
  let hash := u32 (rte_hash_hash (portmap_tbl st) pk) in
  let '(ret, po) := find_port_loop (Z.to_nat port_range) 0 hash min_port port_range po st in
  let st := if (ret =? - ENOENT) && (now >? u64 (log_timestamp data + full_log_delay))
            then write_snat_data (nk_ip sk) (nk_vni sk) (set_log_timestamp now data) st else st in
  (ret, po, st).

Definition dp_create_new_portmap_entry (zmalloc_ok : bool) pk po (metadata : option netnat_portoverload_sync_metadata) st
  : Z * nat_state :=
  let '(ret, t) := rte_hash_add_key_data (portoverload_tbl st) po metadata in
  let st := set_portoverload_tbl t st in
  if DP_FAILED ret then (ret, st)
  else
    let undo st := set_portoverload_tbl (snd (rte_hash_del_key (portoverload_tbl st) po)) st in
    if negb zmalloc_ok then (DP_ERROR, undo st)
    else
      let data := mk_portmap_data (po_nat_ip po) (po_nat_port po) 1 in
      let '(ret, t) := rte_hash_add_key_data (portmap_tbl st) pk data in
      let st := set_portmap_tbl t st in
      if DP_FAILED ret then (ret, undo st) else (DP_OK, st).

Definition dp_use_existing_portmap_entry pk po (metadata : option netnat_portoverload_sync_metadata) st
  : Z * netnat_portoverload_tbl_key * nat_state :=
  match rte_hash_lookup_data (portmap_tbl st) pk with
  | inl ret => (ret, po, st)
  | inr data =>
      let po := set_po_nat_port (pm_nat_port data) po in
      match rte_hash_lookup_data (portoverload_tbl st) po with
      | inr _ => (- EEXIST, po, st)
      | inl ret =>
          if negb (ret =? - ENOENT) then (ret, po, st)
          else
            let '(ret, t) := rte_hash_add_key_data (portoverload_tbl st) po metadata in
            let st := set_portoverload_tbl t st in
            if DP_FAILED ret then (ret, po, st)
            else
              let data := mk_portmap_data (pm_nat_ip data) (pm_nat_port data) (u16 (pm_flow_cnt data + 1)) in
              (DP_OK, po, set_portmap_tbl (hash_poke (portmap_tbl st) pk data) st)
      end
  end.

Definition add_used_ports (port_id n : Z) st : nat_state :=
  set_used_port_cnt (<[port_id := u16 (default 0 (used_port_cnt st !! port_id) + n)]> (used_port_cnt st)) st.

Definition send_sync (enabled : bool) (msg : nat_sync) st : nat_state :=
  if enabled then set_nat_sync_out (nat_sync_out st ++ [msg]) st else st.

(** The keys of a packet's translation; the NAT port is still to be chosen. *)
Definition snat_keys (data : snat_data) (df : dp_flow) (vni : Z) : option (netnat_portmap_key * netnat_portoverload_tbl_key) :=
  addrs ← (if l3_type df =? RTE_ETHER_TYPE_IPV4 then Some (dp_set_ipaddr4 (ntohl (src_addr df)), ntohl (dst_addr df))
           else if l3_type df =? RTE_ETHER_TYPE_IPV6
           then Some (dp_set_ipaddr6 (df_src df), ntohl (dp_get_ipv6_nat64 (df_dst df)))
           else None);
  let src_port := if is_icmp (l4_type df) then ntohs (icmp_identifier df) else ntohs (l4_src_port df) in
  let dst_port := if is_icmp (l4_type df) then ntohs (icmp_identifier df) else ntohs (l4_dst_port df) in
  Some (mk_portmap_key vni (fst addrs) src_port, mk_overload_key (snat_ip data) 0 (snd addrs) dst_port (l4_type df)).

(** The parts of the environment an allocation depends on. *)
Record nat_env := mk_nat_env {
  nat_zmalloc_ok : bool; nat_now : Z; nat_full_log_delay : Z; conf_is_sync_enabled : bool
}.

Definition dp_allocate_network_snat_port (env : nat_env) (sk : nat_key) (data : snat_data) (df : dp_flow)
    (port : dp_port) (icmp_err_ip_cksum : Z) st : Z * nat_state :=
  match snat_keys data df (iface_vni (iface port)) with
  | None => (DP_ERROR, st)
  | Some (pk, po) =>
      let finish po st :=
        let st := send_sync (conf_is_sync_enabled env)
                    (SyncNatCreate pk po (port_id port) (icmp_type df) icmp_err_ip_cksum) st in
        (po_nat_port po, add_used_ports (port_id port) 1 st) in
      let '(ret, po, st) := dp_use_existing_portmap_entry pk po None st in
      if DP_FAILED ret then
        if negb (ret =? - ENOENT) then (ret, st)
        else
          let '(ret, po, st) := dp_find_new_port (nat_now env) (nat_full_log_delay env) sk data pk po st in
          if DP_FAILED ret then (ret, st)
          else
            let '(ret, st) := dp_create_new_portmap_entry (nat_zmalloc_ok env) pk po None st in
            if DP_FAILED ret then (ret, st) else finish po st
      else finish po st
  end.

Definition dp_allocate_sync_snat_port (malloc_ok zmalloc_ok : bool) pk po (created icmp_type_src icmp_err_ip_cksum : Z) st
  : Z * nat_state :=
  if negb malloc_ok then (DP_ERROR, st)
  else
    let metadata := Some (mk_sync_metadata pk created icmp_type_src icmp_err_ip_cksum) in
    let '(ret, po, st) := dp_use_existing_portmap_entry pk po metadata st in
    if DP_FAILED ret then
      if ret =? - EEXIST then (DP_OK, st)
      else if negb (ret =? - ENOENT) then (ret, st)
      else
        let '(ret, st) := dp_create_new_portmap_entry zmalloc_ok pk po metadata st in
        if DP_FAILED ret then (ret, st) else (DP_OK, st)
    else (DP_OK, st).

(** ** Releasing ports *)

Definition delete_portmap pk (data : netnat_portmap_data) st : Z * nat_state :=
  let cnt := u16 (pm_flow_cnt data - 1) in
  let put n st := set_portmap_tbl (hash_poke (portmap_tbl st) pk (mk_portmap_data (pm_nat_ip data) (pm_nat_port data) n)) st in
  let st := put cnt st in
  if cnt =? 0 then
    let '(ret, t) := rte_hash_del_key (portmap_tbl st) pk in
    let st := set_portmap_tbl t st in
    if DP_FAILED ret then (DP_ERROR, put (u16 (cnt + 1)) st) else (DP_OK, st)
  else (DP_OK, st).

Definition dp_delete_snat_entries pk po st : Z * nat_state :=
  let next st :=
    match rte_hash_lookup_data (portmap_tbl st) pk with
    | inl ret => if ret =? - ENOENT then (DP_OK, st) else (ret, st)
    | inr data => delete_portmap pk data st
    end in
  match rte_hash_lookup_data (portoverload_tbl st) po with
  | inr _ =>
      let '(ret, t) := rte_hash_del_key (portoverload_tbl st) po in
      let st := set_portoverload_tbl t st in
      if DP_FAILED ret then (ret, st) else next st
  | inl ret => if negb (ret =? - ENOENT) then (ret, st) else next st
  end.

Definition dp_flow_to_snat_keys (flow_val : flow_value) : Z * option (netnat_portmap_key * netnat_portoverload_tbl_key) :=
  let org := key_org flow_val in
  let reply := key_reply flow_val in
  if is_v6 (l3_dst reply) then (DP_ERROR, None)
  else
    let dst_ip := match dp_ipv6_from_ipaddr (l3_dst org) with
                  | (_, Some dst_nat64) => ntohl (dp_get_ipv6_nat64 dst_nat64)
                  | (_, None) => ipv4 (l3_dst org)
                  end in
    let src_port := if is_icmp (key_proto org) then port_dst org else port_src org in
    (DP_OK, Some (mk_portmap_key (nf_vni flow_val) (dp_copy_ipaddr (l3_src org)) src_port,
                  mk_overload_key (ipv4 (l3_dst reply)) (port_dst reply) dst_ip (port_dst org) (key_proto org))).

Definition dp_remove_network_snat_port (sync_enabled : bool) (ports : port_table) (cntrack : flow_value) st : Z * nat_state :=
  match dp_flow_to_snat_keys cntrack with
  | (_, None) => (DP_ERROR, st)
  | (_, Some (pk, po)) =>
      let '(ret, st) := dp_delete_snat_entries pk po st in
      if DP_FAILED ret then (DP_ERROR, st)
      else
        let st := send_sync sync_enabled (SyncNatDelete pk po) st in
        match dp_get_port_by_id ports (created_port_id cntrack) with
        | None => (DP_ERROR, st)
        | Some created_port => (DP_OK, add_used_ports (port_id created_port) (-1) st)
        end
  end.

Definition dp_remove_sync_snat_port pk po st : Z * nat_state :=
  let '(ret, st) := dp_delete_snat_entries pk po st in
  if DP_FAILED ret then (ret, st) else (DP_OK, st).

(** [sent] is the result of sending the message. *)
Definition dp_sync_snat_flow (sent : Z) (flow_val : flow_value) st : Z * nat_state :=
  match dp_flow_to_snat_keys flow_val with
  | (_, None) => (DP_ERROR, st)
  | (_, Some (pk, po)) =>
      (sent, send_sync true (SyncNatCreate pk po (created_port_id flow_val) (port_src (key_org flow_val))
                                (nf_icmp_err_ip_cksum flow_val)) st)
  end.

(** ** Listing and resetting *)

Record nat_reply := mk_nat_reply {
  nr_min_port : Z; nr_max_port : Z; nr_vni : Z; nr_natted_ip : dp_ip_address; nr_addr : dp_ip_address; nr_ul_addr6 : dp_ipv6
}.

(** [reply_ok n]: the responder has room for reply number [n]. *)
Fixpoint list_local_loop (fuel : nat) (reply_ok : nat -> bool) (ip : Z) (iter : nat) (replies : list nat_reply) st
  : Z * list nat_reply :=
  match fuel with
  | O => (DP_OK, replies)
  | S fuel' =>
      match rte_hash_iterate (ipv4_snat_tbl st) iter with
      | None => (DP_OK, replies)
      | Some (nkey, data, iter') =>
          if negb (snat_ip data =? 0) && ((ip =? 0) || (snat_ip data =? ip)) then
            if negb (reply_ok (length replies)) then (DP_GRPC_ERR OUT_OF_MEMORY, replies)
            else list_local_loop fuel' reply_ok ip iter'
                   (replies ++ [mk_nat_reply (snat_min_port data) (snat_max_port data) (nk_vni nkey)
                                  (dp_set_ipaddr4 (nk_ip nkey)) (dp_set_ipaddr4 (snat_ip data)) (mk_ipv6 0 0)]) st
          else list_local_loop fuel' reply_ok ip iter' replies st
      end
  end.

Definition dp_list_nat_local_entries (reply_ok : nat -> bool) (ip : Z) st : Z * list nat_reply :=
  if rte_hash_count (ipv4_snat_tbl st) =? 0 then (DP_OK, [])
  else list_local_loop (S (length (hash_slots (ipv4_snat_tbl st)))) reply_ok ip 0 [] st.

Fixpoint list_neigh_loop (reply_ok : nat -> bool) (ip : Z) (l : list nat_entry) (replies : list nat_reply)
  : Z * list nat_reply :=
  match l with
  | [] => (DP_OK, replies)
  | current :: l' =>
      if (ip =? 0) || (ne_nat_ip current =? ip) then
        if negb (reply_ok (length replies)) then (DP_GRPC_ERR OUT_OF_MEMORY, replies)
        else list_neigh_loop reply_ok ip l'
               (replies ++ [mk_nat_reply (ne_min_port current) (ne_max_port current) (ne_vni current)
                              (dp_set_ipaddr4 0) (dp_set_ipaddr4 (ne_nat_ip current)) (ne_dst_ipv6 current)])
      else list_neigh_loop reply_ok ip l' replies
  end.

Definition dp_list_nat_neigh_entries (reply_ok : nat -> bool) (ip : Z) st : Z * list nat_reply :=
  list_neigh_loop reply_ok ip (neighnat_head st) [].

Definition dp_del_dnat_by_vni (vni : Z) st : nat_state :=
  set_ipv4_dnat_tbl (hash_sweep (fun key _ => nk_vni key =? vni) (ipv4_dnat_tbl st)) st.

Definition DP_NETWORK_NAT_ALL_VNI : Z := 0.

Definition dp_del_all_neigh_nat_entries_in_vni (vni : Z) st : nat_state :=
  dp_del_dnat_by_vni vni
    (set_neighnat_head
       (List.filter (fun item => negb ((ne_vni item =? vni) || (vni =? DP_NETWORK_NAT_ALL_VNI))) (neighnat_head st)) st).
End nat.
