(* ===== verification/NatTheorems.v ===== *)
(** Correctness of port allocation and of the neighbours' ranges. *)

From S2P Require Import Prelude Errors RteHash IpAddr Port Packet Ipsec Vnf FlowKey Nat.

Section theorems.
Context `{ERR : RteErrno} {ST : RteHash nat_key snat_data} {DT : RteHash nat_key dnat_data}
  {PM : RteHash netnat_portmap_key netnat_portmap_data}
  {PO : RteHash netnat_portoverload_tbl_key (option netnat_portoverload_sync_metadata)}.
Implicit Types (st : nat_state) (pk : netnat_portmap_key) (po : netnat_portoverload_tbl_key).

Definition portmaps st : gmap netnat_portmap_key netnat_portmap_data := hash_view (portmap_tbl st).
Definition overloads st : gmap netnat_portoverload_tbl_key (option netnat_portoverload_sync_metadata) :=
  hash_view (portoverload_tbl st).

(** The NAT port is in use towards this destination. *)
Definition in_use st po (port : Z) : Prop := is_Some (overloads st !! set_po_nat_port port po).

(** ** The search *)

Definition candidate (hash min_port port_range i : Z) : Z := u16 (min_port + u16 (u32 (hash + i) mod port_range)).

Lemma set_nat_port_twice a b po : set_po_nat_port a (set_po_nat_port b po) = set_po_nat_port a po.
Proof. done. Qed.

Lemma find_port_loop_spec n p hash min_port range po st :
  let '(ret, po') := find_port_loop n p hash min_port range po st in
  (ret = DP_OK /\ exists i, p <= i < p + Z.of_nat n
     /\ po' = set_po_nat_port (candidate hash min_port range i) po /\ overloads st !! po' = None)
  \/ (ret = - ENOENT /\ forall i, p <= i < p + Z.of_nat n -> in_use st po (candidate hash min_port range i)).
Proof.
  revert p po; induction n as [|n IH]; intros p po; cbn [find_port_loop].
  { right. split; [done|]. lia. }
  fold (candidate hash min_port range p). rewrite hash_lookup_view. fold (overloads st).
  destruct (overloads st !! _) as [md|] eqn:Hl; [|left; split; [done|]; exists p; split_and!; [lia | lia | done | done]].
  specialize (IH (p + 1) (set_po_nat_port (candidate hash min_port range p) po)).
  destruct (find_port_loop _ _ _ _ _ _ _) as [ret po'].
  destruct IH as [(-> & i & Hi & Heq & Hno)|(-> & Hall)].
  - left. split; [done|]. exists i. split_and!; [lia | lia | by rewrite Heq | done].
  - right. split; [done|]. intros i Hi. destruct (decide (i = p)) as [->|Hne]; [by eexists|].
    apply (Hall i). lia.
Qed.

Lemma candidate_range hash min_port max_port i : is_u16 min_port -> is_u16 max_port -> min_port < max_port ->
  min_port <= candidate hash min_port (u16 (max_port - min_port)) i < max_port.
Proof.
  unfold is_u16, candidate. intros Hmin Hmax Hlt. rewrite (u16_small (max_port - min_port)) by (unfold is_u16; lia).
  pose proof (Z.mod_pos_bound (u32 (hash + i)) (max_port - min_port)) as Hm.
  rewrite (u16_small (u32 (hash + i) mod _)) by (unfold is_u16; lia).
  rewrite u16_small by (unfold is_u16; lia). lia.
Qed.

(** Without wrap-around of the 32-bit index, every port of the range is
    tried. *)
Lemma candidate_covers hash min_port max_port port : is_u16 min_port -> is_u16 max_port ->
  0 <= hash -> hash + (max_port - min_port) <= 2 ^ 32 -> min_port <= port < max_port ->
  exists i, 0 <= i < max_port - min_port /\ candidate hash min_port (u16 (max_port - min_port)) i = port.
Proof.
  unfold is_u16, candidate. intros Hmin Hmax Hh Hwrap Hp. rewrite (u16_small (max_port - min_port)) by (unfold is_u16; lia).
  set (r := max_port - min_port) in *. exists ((port - min_port - hash) mod r).
  pose proof (Z.mod_pos_bound (port - min_port - hash) r) as Hm. split; [lia|].
  rewrite (u32_small (hash + _)) by (unfold is_u32; lia).
  rewrite Zplus_mod_idemp_r. replace (hash + (port - min_port - hash)) with (port - min_port) by lia.
  rewrite Z.mod_small by lia. rewrite (u16_small (port - min_port)) by (unfold is_u16; lia).
  rewrite u16_small by (unfold is_u16; lia). lia.
Qed.

(** The part of the state the search may change. *)
Lemma write_snat_keeps a b d st :
  portmap_tbl (write_snat_data a b d st) = portmap_tbl st /\ portoverload_tbl (write_snat_data a b d st) = portoverload_tbl st.
Proof. done. Qed.

Lemma find_new_port_spec now delay sk data pk po st :
  is_u16 (snat_min_port data) -> is_u16 (snat_max_port data) -> snat_min_port data < snat_max_port data ->
  let '(ret, po', st') := dp_find_new_port now delay sk data pk po st in
  portmap_tbl st' = portmap_tbl st /\ portoverload_tbl st' = portoverload_tbl st
  /\ ((ret = DP_OK /\ snat_min_port data <= po_nat_port po' < snat_max_port data
       /\ po' = set_po_nat_port (po_nat_port po') po /\ overloads st !! po' = None)
      \/ (ret = - ENOENT
          /\ (u32 (rte_hash_hash (portmap_tbl st) pk) + (snat_max_port data - snat_min_port data) <= 2 ^ 32 ->
              forall port, snat_min_port data <= port < snat_max_port data -> in_use st po port))).
Proof.
  intros Hmin Hmax Hlt. unfold dp_find_new_port.
  set (hash := u32 (rte_hash_hash (portmap_tbl st) pk)). set (range := u16 (snat_max_port data - snat_min_port data)).
  pose proof (find_port_loop_spec (Z.to_nat range) 0 hash (snat_min_port data) range po st) as Hs.
  assert (range = snat_max_port data - snat_min_port data) as Hr by (apply u16_small; unfold is_u16 in *; lia).
  destruct (find_port_loop _ _ _ _ _ _ _) as [ret po']. split_and!; [by destruct (_ && _) | by destruct (_ && _) |].
  destruct Hs as [(-> & i & Hi & -> & Hno)|(-> & Hall)].
  - left. split_and!; [done | | | done | done]; by apply candidate_range.
  - right. split; [done|]. intros Hwrap port Hp.
    destruct (candidate_covers hash (snat_min_port data) (snat_max_port data) port) as (i & Hi & <-); [done | done | | done | done |].
    { apply u32_range. }
    apply Hall. rewrite Z2Nat.id; fold range in Hi |- *; lia.
Qed.

(** ** Allocation *)

(** Values kept in the tables fit their fields. *)
Definition nat_ok st : Prop :=
  forall pk d, portmaps st !! pk = Some d -> is_u16 (pm_nat_port d) /\ is_u16 (pm_flow_cnt d).

Definition bump (n : Z) (d : netnat_portmap_data) : netnat_portmap_data :=
  mk_portmap_data (pm_nat_ip d) (pm_nat_port d) (u16 (pm_flow_cnt d + n)).

Lemma use_existing_spec pk po md st :
  let '(ret, po', st') := dp_use_existing_portmap_entry pk po md st in
  match portmaps st !! pk with
  | None => ret = - ENOENT /\ st' = st /\ po' = po
  | Some d =>
      po' = set_po_nat_port (pm_nat_port d) po
      /\ ((ret = DP_OK /\ overloads st !! po' = None /\ overloads st' = <[po' := md]> (overloads st)
            /\ portmaps st' = <[pk := bump 1 d]> (portmaps st))
          \/ (ret = - EEXIST /\ is_Some (overloads st !! po') /\ st' = st)
          \/ (ret = - ENOSPC /\ overloads st' = overloads st /\ portmaps st' = portmaps st))
  end.
Proof.
  unfold dp_use_existing_portmap_entry. rewrite hash_lookup_view. fold (portmaps st).
  destruct (portmaps st !! pk) as [d|] eqn:Hpk; [|done].
  rewrite hash_lookup_view. fold (overloads st). destruct (overloads st !! _) as [o|] eqn:Ho.
  { split; [done|]. right. left. by rewrite Ho. }
  replace (- ENOENT =? - ENOENT) with true by done. cbn [negb].
  pose proof (hash_add_cases (portoverload_tbl st) (set_po_nat_port (pm_nat_port d) po) md) as Ha.
  destruct (rte_hash_add_key_data _ _ _) as [r t]. destruct Ha as [(-> & Hf & Hv)|(-> & Hf & Hv & Hn)]; rewrite Hf.
  - split; [done|]. left. split_and!; try done. unfold portmaps. cbn. rewrite hash_poke_view; [done|].
    change (is_Some (portmaps st !! pk)). by rewrite Hpk.
  - split; [done|]. right. right. by split_and!.
Qed.

Lemma create_new_spec ok pk po md st : overloads st !! po = None -> portmaps st !! pk = None ->
  let '(ret, st') := dp_create_new_portmap_entry ok pk po md st in
  (ret = DP_OK /\ overloads st' = <[po := md]> (overloads st)
     /\ portmaps st' = <[pk := mk_portmap_data (po_nat_ip po) (po_nat_port po) 1]> (portmaps st))
  \/ (DP_FAILED ret = true /\ ret < 0 /\ overloads st' = overloads st /\ portmaps st' = portmaps st).
Proof.
  intros Hpo Hpk. unfold dp_create_new_portmap_entry.
  pose proof (hash_add_cases (portoverload_tbl st) po md) as Ha.
  destruct (rte_hash_add_key_data (portoverload_tbl st) po md) as [r t].
  destruct Ha as [(-> & Hf & Hv)|(-> & Hf & Hv & _)]; rewrite Hf; [|right; by split_and!].
  assert (hash_view (snd (rte_hash_del_key t po)) = overloads st) as Hundo.
  { pose proof (hash_del_cases t po) as Hd. destruct (rte_hash_del_key t po) as [r' t']. cbn.
    destruct Hd as [_ ->]; [rewrite Hv, lookup_insert_eq; by eexists|]. rewrite Hv, delete_insert_id; done. }
  destruct ok; cbn [negb]; [|right; rewrite dp_failed_error; split_and!; [done | apply dp_error_negative | exact Hundo | done]].
  cbn [portmap_tbl set_portoverload_tbl].
  pose proof (hash_add_cases (portmap_tbl st) pk (mk_portmap_data (po_nat_ip po) (po_nat_port po) 1)) as Ha.
  destruct (rte_hash_add_key_data (portmap_tbl st) pk _) as [r2 t2].
  destruct Ha as [(-> & Hf2 & Hv2)|(-> & Hf2 & Hv2 & _)]; rewrite Hf2; [left; by split_and!|].
  right. split_and!; [done | done | exact Hundo | exact Hv2].
Qed.

Lemma finish_keeps pid n b msg st :
  portmaps (add_used_ports pid n (send_sync b msg st)) = portmaps st
  /\ overloads (add_used_ports pid n (send_sync b msg st)) = overloads st.
Proof. unfold send_sync. by destruct b. Qed.


(** ** Release *)

Lemma delete_portmap_spec pk d st : portmaps st !! pk = Some d ->
  let '(ret, st') := delete_portmap pk d st in
  ret = DP_OK /\ overloads st' = overloads st
  /\ portmaps st' = (if u16 (pm_flow_cnt d - 1) =? 0 then delete pk else <[pk := bump (-1) d]>) (portmaps st).
Proof.
  intros Hpk. unfold delete_portmap. set (cnt := u16 (pm_flow_cnt d - 1)).
  set (t := hash_poke (portmap_tbl st) pk (mk_portmap_data (pm_nat_ip d) (pm_nat_port d) cnt)).
  assert (hash_view t = <[pk := bump (-1) d]> (portmaps st)) as Ht.
  { unfold t. rewrite hash_poke_view; [done|]. change (is_Some (portmaps st !! pk)). by rewrite Hpk. }
  destruct (cnt =? 0); [|by split_and!]. cbn [portmap_tbl set_portmap_tbl].
  pose proof (hash_del_cases t pk) as Hd. destruct (rte_hash_del_key t pk) as [r t'].
  destruct Hd as [-> Hv]; [rewrite Ht, lookup_insert_eq; by eexists|].
  split_and!; [done..|]. change (hash_view t' = delete pk (portmaps st)). by rewrite Hv, Ht, delete_insert_eq.
Qed.

Lemma delete_snat_entries_spec pk po st d o : overloads st !! po = Some o -> portmaps st !! pk = Some d ->
  let '(ret, st') := dp_delete_snat_entries pk po st in
  ret = DP_OK /\ overloads st' = delete po (overloads st)
  /\ portmaps st' = (if u16 (pm_flow_cnt d - 1) =? 0 then delete pk else <[pk := bump (-1) d]>) (portmaps st).
Proof.
  intros Hpo Hpk. unfold dp_delete_snat_entries. rewrite hash_lookup_view. fold (overloads st). rewrite Hpo.
  pose proof (hash_del_cases (portoverload_tbl st) po) as Hd. destruct (rte_hash_del_key (portoverload_tbl st) po) as [r t].
  destruct Hd as [-> Hv]; [change (is_Some (overloads st !! po)); by rewrite Hpo|].
  rewrite hash_lookup_view. cbn [portmap_tbl set_portoverload_tbl]. fold (portmaps st). rewrite Hpk.
  pose proof (delete_portmap_spec pk d (set_portoverload_tbl t st) Hpk) as Hdel.
  destruct (delete_portmap pk d (set_portoverload_tbl t st)) as [ret st']. destruct Hdel as (-> & Ho & Hp).
  split_and!; [done | by rewrite Ho | done].
Qed.

(** Releasing what an allocation made leaves the tables as they were. *)
Lemma release_restores st st' pk po (d : option netnat_portmap_data) ip port :
  portmaps st !! pk = d -> overloads st !! po = None ->
  (forall d', d = Some d' -> 1 <= pm_flow_cnt d' < 2 ^ 16 - 1) ->
  overloads st' = <[po := None]> (overloads st) ->
  portmaps st' = <[pk := match d with Some d' => bump 1 d' | None => mk_portmap_data ip port 1 end]> (portmaps st) ->
  let '(ret, st'') := dp_delete_snat_entries pk po st' in
  ret = DP_OK /\ overloads st'' = overloads st /\ portmaps st'' = portmaps st.
Proof.
  intros Hpk Hpo Hcnt Ho Hp.
  pose proof (delete_snat_entries_spec pk po st' (match d with Some d' => bump 1 d' | None => mk_portmap_data ip port 1 end) None) as Hs.
  rewrite Ho, Hp, !lookup_insert_eq in Hs. specialize (Hs eq_refl eq_refl).
  destruct (dp_delete_snat_entries pk po st') as [ret st'']. destruct Hs as (-> & Ho2 & Hp2).
  split_and!; [done | by rewrite Ho2, delete_insert_id |]. rewrite Hp2. clear Hp2. destruct d as [d|].
  - cbn [pm_flow_cnt bump]. specialize (Hcnt d eq_refl). assert (u16 (u16 (pm_flow_cnt d + 1) - 1) = pm_flow_cnt d) as Hcan.
    { rewrite (u16_small (pm_flow_cnt d + 1)) by (unfold is_u16; lia). rewrite u16_small by (unfold is_u16; lia). lia. }
    rewrite Hcan. destruct (pm_flow_cnt d =? 0) eqn:E; bools; [lia|].
    rewrite insert_insert_eq. apply insert_id. rewrite Hpk. unfold bump.
    cbn [pm_nat_ip pm_nat_port pm_flow_cnt]. change (u16 (pm_flow_cnt d + 1) + -1) with (u16 (pm_flow_cnt d + 1) - 1).
    rewrite Hcan. by destruct d.
  - change (u16 (pm_flow_cnt (mk_portmap_data ip port 1) - 1) =? 0) with true. cbv iota. by rewrite delete_insert_id.
Qed.

(** ** Neighbours' ranges *)

(** Every list of ranges the gRPC requests can build. *)
Inductive neighnat_reachable : list nat_entry -> Prop :=
| neigh_empty : neighnat_reachable []
| neigh_add st ok ip vni min_port max_port ul ret st' :
    neighnat_reachable (neighnat_head st) ->
    dp_add_neighnat_entry ok ip vni min_port max_port ul st = (ret, st') -> neighnat_reachable (neighnat_head st')
| neigh_del st ip vni min_port max_port ret st' :
    neighnat_reachable (neighnat_head st) ->
    dp_del_neighnat_entry ip vni min_port max_port st = (ret, st') -> neighnat_reachable (neighnat_head st')
| neigh_del_all st vni :
    neighnat_reachable (neighnat_head st) -> neighnat_reachable (neighnat_head (dp_del_all_neigh_nat_entries_in_vni vni st)).

Definition covers (e : nat_entry) (ip port : Z) : Prop := ne_nat_ip e = ip /\ ne_min_port e <= port < ne_max_port e.

(** No address and port is announced twice. *)
Definition apart (e e' : nat_entry) : Prop := forall ip port, covers e ip port -> covers e' ip port -> False.

Lemma remove_entry_sublist p l l' : remove_entry p l = Some l' -> l' `sublist_of` l.
Proof.
  revert l'; induction l as [|e l IH]; intros l' Hr; cbn in Hr; [done|].
  destruct (p e); [simplify_eq; by apply sublist_cons|]. apply fmap_Some in Hr as (l0 & Hr & ->).
  apply sublist_skip. by apply IH.
Qed.

Lemma neighnat_apart l : neighnat_reachable l -> ForallOrdPairs apart l.
Proof.
  induction 1 as [|st ok ip vni mn mx ul ret st' _ IH Ha|st ip vni mn mx ret st' _ IH Hd|st vni _ IH].
  - constructor.
  - unfold dp_add_neighnat_entry in Ha. destruct (existsb _ _) eqn:Hov; [by simplify_eq|]. destruct ok; cbn in Ha; [|by simplify_eq].
    simplify_eq/=. revert IH Hov. induction (neighnat_head st) as [|e l IHl]; intros IH Hov; cbn.
    { by constructor; constructor. }
    inversion IH as [|? ? Hall Hrest]; subst. cbn in Hov. apply orb_false_iff in Hov as [He Hl].
    constructor; [|by apply IHl]. apply Forall_app. split; [done|]. constructor; [|constructor].
    intros a q [<- Hq] [Hip Hq']. cbn in *. subst ip. unfold dp_is_network_nat_entry_port_overlap in He.
    rewrite Z.eqb_refl in He. cbn in He. bools. destruct He; bools; lia.
  - unfold dp_del_neighnat_entry in Hd. destruct (remove_entry _ _) as [l|] eqn:Hr; simplify_eq/=; [|done].
    apply remove_entry_sublist in Hr. revert l Hr. induction IH as [|e l Hall _ IHl]; intros l' Hs.
    { apply sublist_nil_r in Hs as ->. constructor. }
    apply sublist_cons_r in Hs as [Hs|(l0 & -> & Hs)]; [by apply IHl|]. constructor; [|by apply IHl].
    eapply Forall_sublist; [exact Hall | exact Hs] || (rewrite Forall_forall in *; intros x Hx; apply Hall; by eapply elem_of_sublist).
  - cbn. induction IH as [|e l Hall _ IHl]; [constructor|]. cbn. destruct (negb _); [|done]. constructor; [|done].
    rewrite Forall_forall in *. intros x Hx. apply Hall. apply list_elem_of_In in Hx. apply filter_In in Hx as [Hx _].
    by apply list_elem_of_In.
Qed.

Lemma ordered_unique {A} (R : A -> A -> Prop) (P : A -> Prop) l : ForallOrdPairs R l ->
  (forall a b, R a b -> P a -> P b -> False) -> forall a b, a ∈ l -> b ∈ l -> P a -> P b -> a = b.
Proof.
  intros Ho HR. induction Ho as [|x l Hall _ IH]; intros a b Ha Hb HPa HPb; [by apply elem_of_nil in Ha|].
  rewrite Forall_forall in Hall. apply elem_of_cons in Ha as [->|Ha], Hb as [->|Hb]; [done | | | by apply IH].
  - exfalso. by apply (HR x b); auto.
  - exfalso. by apply (HR x a); auto.
Qed.

(** C26: A packet for a NAT address and port is forwarded to the neighbour that
    announced it, and there is at most one: the ranges that requests can
    register never share an address and port. *)
Theorem neighnat_lookup_unique st df ul :
  neighnat_reachable (neighnat_head st) ->
  dp_lookup_neighnat_underlay_ip df st = Some ul
  <-> exists e, e ∈ neighnat_head st /\ ne_vni e = dst_vni df /\ ne_dst_ipv6 e = ul
        /\ covers e (ntohl (dst_addr df))
             (ntohs (if is_icmp (l4_type df) then icmp_identifier df else l4_dst_port df)).
Proof.
  intros Hr%neighnat_apart. unfold dp_lookup_neighnat_underlay_ip.
  set (ip := ntohl (dst_addr df)).
  replace (if is_icmp (l4_type df) then ntohs (icmp_identifier df) else ntohs (l4_dst_port df))
    with (ntohs (if is_icmp (l4_type df) then icmp_identifier df else l4_dst_port df)) by (by destruct (is_icmp _)).
  set (port := ntohs _).
  assert (forall e, dp_is_network_nat_port e ip (dst_vni df) port = true
            <-> ne_vni e = dst_vni df /\ covers e ip port) as Hmatch.
  { intros e. unfold dp_is_network_nat_port, covers. rewrite !andb_true_iff, !Z.eqb_eq, Z.leb_le, Z.gtb_lt. tauto. }
  split.
  - intros Hf. apply fmap_Some in Hf as (e & Hf & ->). apply List.find_some in Hf as [Hin Hm]. apply Hmatch in Hm as [? ?].
    exists e. split; [by apply list_elem_of_In | done].
  - intros (e & Hin & Hv & <- & Hc). destruct (List.find _ _) as [e'|] eqn:Hf.
    + apply List.find_some in Hf as [Hin' [_ Hc']%Hmatch]. cbn. f_equal. f_equal.
      apply (ordered_unique apart (fun e => covers e ip port) (neighnat_head st)); try done; [|by apply list_elem_of_In].
      intros a c Hap Ha Hc0. by apply (Hap ip port).
    + pose proof (List.find_none _ _ Hf e (proj1 (list_elem_of_In _ _) Hin)) as Hno. cbv beta in Hno.
      by rewrite (proj2 (Hmatch e)) in Hno.
Qed.

(** C25: The search for a free port is exhaustive as long as its 32-bit index
    does not wrap around: it gives up exactly when every port of the interface's
    range is in use towards the destination. *)
Theorem snat_port_search_complete now delay sk data pk po st :
  is_u16 (snat_min_port data) -> is_u16 (snat_max_port data) -> snat_min_port data < snat_max_port data ->
  u32 (rte_hash_hash (portmap_tbl st) pk) + (snat_max_port data - snat_min_port data) <= 2 ^ 32 ->
  fst (fst (dp_find_new_port now delay sk data pk po st)) = - ENOENT
  <-> forall port, snat_min_port data <= port < snat_max_port data -> in_use st po port.
Proof.
  intros Hmin Hmax Hlt Hwrap. pose proof (find_new_port_spec now delay sk data pk po st Hmin Hmax Hlt) as Hs.
  destruct (dp_find_new_port now delay sk data pk po st) as [[ret po'] st']. cbn.
  destruct Hs as (_ & _ & [(-> & Hr & Hpo & Hno)|(-> & Hall)]).
  - split; [done|]. intros Hall. exfalso. destruct (Hall (po_nat_port po') Hr) as [x Hx]. unfold overloads in *.
    rewrite <-Hpo in Hx. congruence.
  - split; [|done]. intros _. by apply Hall.
Qed.
End theorems.

(** ** Concrete tables *)

Module NatExample.
#[export] Instance errno : RteErrno := dpdk_errno.
#[export] Instance snat_hash : RteHash nat_key snat_data := slot_hash (fun _ => 0).
#[export] Instance dnat_hash : RteHash nat_key dnat_data := slot_hash (fun _ => 0).
#[export] Instance overload_hash : RteHash netnat_portoverload_tbl_key (option netnat_portoverload_sync_metadata) :=
  slot_hash (fun _ => 0).
(** Sources hash to their port number. *)
#[export] Instance portmap_hash : RteHash netnat_portmap_key netnat_portmap_data := slot_hash pk_iface_src_port.

Definition empty : nat_state := mk_nat_state (slot_empty _ 8) (slot_empty _ 8) (slot_empty _ 8) (slot_empty _ 8) [] ∅ [].

Definition nat_address : Z := 0xcb007101.
Definition nat_data : snat_data :=
  mk_snat_data 0 nat_address 1000 1003 (mk_ipv6 0 0) (mk_ipv6 1 1) 0.
Definition vm_iface : dp_port_iface :=
  mk_iface [] 0 (mk_iface_cfg 0 0 0 (mk_ipv6 0 0) 0 (dp_set_ipaddr4 0) [] []) 100 false [] (mk_ipv6 1 1)
    nat_address 1000 1003 true false 0 0 0.
Definition vm : dp_port := mk_port false 3 0 1 true 0 0 [] [] vm_iface false 0.
Definition env : nat_env := mk_nat_env true 100 5 false.
Definition sk : nat_key := mk_nat_key 0x0a000001 100.

(** A UDP packet from port [sport] of the interface to port 53 of [dst]. *)
Definition udp (sport dst : Z) : dp_flow :=
  set_l4_dst_port (htons 53) (set_l4_src_port (htons sport) (set_l4_type IPPROTO_UDP
    (set_dst_addr (htonl dst) (set_src_addr (htonl 0x0a000001) (set_l3_type RTE_ETHER_TYPE_IPV4 dp_init_flow))))).

#[local] Notation allocate df st := (dp_allocate_network_snat_port env sk nat_data df vm 0 st).

Lemma empty_ok : nat_ok empty.
Proof. intros pk d H. unfold portmaps, hash_view in H. cbn in H. by rewrite lookup_empty in H. Qed.


Definition announced : nat_state := snd (dp_add_neighnat_entry true nat_address 100 2000 3000 (mk_ipv6 5 5) empty).

Lemma neighnat_lookup_unique_witness :
  dp_lookup_neighnat_underlay_ip
    (set_dst_vni 100 (set_l4_dst_port (htons 2500) (set_dst_addr (htonl nat_address) dp_init_flow))) announced
  = Some (mk_ipv6 5 5).
Proof.
  apply (neighnat_lookup_unique announced
    (set_dst_vni 100 (set_l4_dst_port (htons 2500) (set_dst_addr (htonl nat_address) dp_init_flow))) (mk_ipv6 5 5)).
  - apply (neigh_add empty true nat_address 100 2000 3000 (mk_ipv6 5 5) DP_OK); [constructor | reflexivity].
  - exists (mk_nat_entry nat_address 2000 3000 100 (mk_ipv6 5 5)).
    split; [by left|]. split; [reflexivity|]. split; [reflexivity|]. vm_compute. split; [reflexivity | split; discriminate || reflexivity].
Defined.

Definition no_port_yet : netnat_portoverload_tbl_key := mk_overload_key nat_address 0 0x08080808 53 IPPROTO_UDP.
Definition source (sport : Z) : netnat_portmap_key := mk_portmap_key 100 (dp_set_ipaddr4 0x0a000001) sport.

Lemma snat_port_search_complete_witness :
  ~ (forall port, 1000 <= port < 1003 -> in_use empty no_port_yet port).
Proof.
  intros H.
  apply (snat_port_search_complete 0 0 sk nat_data (source 7) no_port_yet empty
    ltac:(split; reflexivity || done) ltac:(split; reflexivity || done) eq_refl) in H; [|vm_compute; discriminate].
  vm_compute in H. discriminate.
Defined.

(** Two of the three ports in use towards the destination. *)
Definition nearly_full : nat_state := snd (allocate (udp 7 0x08080808) (snd (allocate (udp 6 0x08080808) empty))).

(** With a hash at the end of the 32-bit range the index wraps around and
    a free port is missed: ports 1000 and 1001 are in use, 1002 is free, and the
    search gives up. *)
Theorem snat_port_search_wraps :
  let po := mk_overload_key nat_address 0 0x08080808 53 IPPROTO_UDP in
  find_port_loop 3 0 (2 ^ 32 - 1) 1000 3 po nearly_full = (- ENOENT, set_po_nat_port 1001 po)
  /\ fst (rte_hash_add_key_data (portoverload_tbl nearly_full) (set_po_nat_port 1002 po) None) = 0
  /\ rte_hash_lookup_data (portoverload_tbl nearly_full) (set_po_nat_port 1002 po) = inl (- ENOENT).
Proof. vm_compute. split_and!; reflexivity. Qed.

(** A source port that was given a NAT port for one destination is refused
    for another destination where that NAT port is taken by another source,
    although free NAT ports remain; the comment calls the case impossible. *)
Theorem snat_conflict_refused :
  let st1 := allocate (udp 6 0x08080808) empty in
  let st2 := allocate (udp 9 0x01010101) (snd st1) in
  fst st1 = 1000 /\ fst st2 = 1000
  /\ fst (allocate (udp 6 0x01010101) (snd st2)) = - EEXIST
  /\ fst (allocate (udp 7 0x01010101) (snd st2)) = 1001.
Proof. vm_compute. split_and!; reflexivity. Qed.

Definition with_dnat : nat_state := snd (dp_set_dnat_ip true nat_address 0 100 announced).

(** Resetting the neighbours' ranges of all VNIs removes the ranges but
    leaves the destination entries of every VNI but 0, so registering the
    address again is refused. *)
Theorem dnat_survives_full_reset :
  let st := dp_del_all_neigh_nat_entries_in_vni DP_NETWORK_NAT_ALL_VNI with_dnat in
  neighnat_head st = [] /\ dp_get_dnat_data nat_address 100 st = Some (mk_dnat_data 0)
  /\ fst (dp_set_dnat_ip true nat_address 0 100 st) = DP_GRPC_ERR DNAT_EXISTS.
Proof. vm_compute. split_and!; reflexivity. Qed.
End NatExample.
