(* ===== verification/Flow.v ===== *)
(** The flow table: [src/dp_flow.c], and the cache of the last flow that
    [src/dp_cntrack.c] keeps.

    Entries are shared -- both directions of a connection, the cache and the
    hardware age contexts point to one [struct flow_value] -- so they live in a
    heap and are counted references.  A dereference of an address that is not
    live is undefined behaviour ([None]). *)

From S2P Require Import Prelude Errors RteHash IpAddr Port Packet Ipsec Vnf FlowKey Nat.

Record flow_age_ctx := mk_age_ctx {
  ctx_cntrack : option ptr; ctx_rte_flow : bool; ctx_ref_index : Z; ctx_port_id : Z; ctx_handle : bool
}.

Section flow.
Context `{ERR : RteErrno} {HT : RteHash dp_ipv6 dp_vnf} {VT : RteHash dp_vnf dp_ipv6}
  {ST : RteHash nat_key snat_data} {DT : RteHash nat_key dnat_data}
  {PM : RteHash netnat_portmap_key netnat_portmap_data}
  {PO : RteHash netnat_portoverload_tbl_key (option netnat_portoverload_sync_metadata)}
  {FT : RteHash flow_key ptr}.

(** [curr_key] and [prev_key] point into the two-entry array [key_cache];
    [cache_at] says which. *)
Record flow_state := mk_flow_state {
  flow_table : rte_hash flow_key ptr;
  flow_heap : gmap ptr flow_value;
  age_ctxs : gmap ptr flow_age_ctx;
  nat_tables : nat_state;
  key_cache : flow_key * flow_key;
  curr_key : bool;
  prev_key : option bool;
  cached_flow_val : option ptr
}.

Definition set_flow_table (x : rte_hash flow_key ptr) (r : flow_state) : flow_state :=
  mk_flow_state x (flow_heap r) (age_ctxs r) (nat_tables r) (key_cache r) (curr_key r) (prev_key r)
    (cached_flow_val r).
Definition set_flow_heap (x : gmap ptr flow_value) (r : flow_state) : flow_state :=
  mk_flow_state (flow_table r) x (age_ctxs r) (nat_tables r) (key_cache r) (curr_key r) (prev_key r)
    (cached_flow_val r).
Definition set_age_ctxs (x : gmap ptr flow_age_ctx) (r : flow_state) : flow_state :=
  mk_flow_state (flow_table r) (flow_heap r) x (nat_tables r) (key_cache r) (curr_key r) (prev_key r)
    (cached_flow_val r).
Definition set_nat_tables (x : nat_state) (r : flow_state) : flow_state :=
  mk_flow_state (flow_table r) (flow_heap r) (age_ctxs r) x (key_cache r) (curr_key r) (prev_key r)
    (cached_flow_val r).
Definition set_key_cache (x : flow_key * flow_key) (r : flow_state) : flow_state :=
  mk_flow_state (flow_table r) (flow_heap r) (age_ctxs r) (nat_tables r) x (curr_key r) (prev_key r)
    (cached_flow_val r).
Definition set_curr_key (x : bool) (r : flow_state) : flow_state :=
  mk_flow_state (flow_table r) (flow_heap r) (age_ctxs r) (nat_tables r) (key_cache r) x (prev_key r)
    (cached_flow_val r).
Definition set_prev_key (x : option bool) (r : flow_state) : flow_state :=
  mk_flow_state (flow_table r) (flow_heap r) (age_ctxs r) (nat_tables r) (key_cache r) (curr_key r) x
    (cached_flow_val r).
Definition set_cached_flow_val (x : option ptr) (r : flow_state) : flow_state :=
  mk_flow_state (flow_table r) (flow_heap r) (age_ctxs r) (nat_tables r) (key_cache r) (curr_key r)
    (prev_key r) x.

(** What the code reads besides: the configuration, the ports and the
    functions behind underlay addresses. *)
Record flow_env := mk_flow_env {
  offload_mode_enabled : bool;
  flow_timeout : Z;
  fenv_sync_enabled : bool;
  fenv_ports : port_table;
  fenv_vnf : vnf_state
}.
Implicit Types (e : flow_env) (st : flow_state) (p : ptr) (key : flow_key).

Abbreviation FM := (M flow_state).

(** ** Keys *)

Definition DP_IP_ICMP_TYPE_ERROR : Z := 3.
Definition DP_IP_ICMP_CODE_DST_PROTO_UNREACHABLE : Z := 2.
Definition DP_IP_ICMP_CODE_DST_PORT_UNREACHABLE : Z := 3.
Definition DP_IP_ICMP_CODE_FRAGMENT_NEEDED : Z := 4.

(** The IPv4 header quoted in an ICMP error message. *)
Definition err_hdr_off : nat := 14 + sizeof_ipv4 + sizeof_icmp.

(** [struct dp_icmp_err_ip_info]: whether there is a quoted header, and the
    ports behind it. *)
Record dp_icmp_err_ip_info := mk_err_info { err_ipv4_hdr : bool; err_l4_src_port : Z; err_l4_dst_port : Z }.

Definition dp_get_icmp_err_ip_hdr : M rte_mbuf dp_icmp_err_ip_info :=
  df ← gets flow;
  if l4_type df =? IPPROTO_ICMP then
    type ← rd (14 + sizeof_ipv4 + icmp_type_off) 1;
    if type =? DP_IP_ICMP_TYPE_ERROR then
      proto ← rd (err_hdr_off + ipv4_proto_off) 1;
      if (proto =? IPPROTO_TCP) || (proto =? IPPROTO_UDP) then
        version_ihl ← rd err_hdr_off 1;
        let l4_off := (err_hdr_off + Z.to_nat (version_ihl mod 16 * 4))%nat in
        src ← rd l4_off 2;
        dst ← rd (l4_off + 2) 2;
        mret (mk_err_info true src dst)
      else mret (mk_err_info true 0 0)
    else mret (mk_err_info false 0 0)
  else mret (mk_err_info false 0 0).

Definition dp_build_icmp_flow_key (df : dp_flow) key : M rte_mbuf (Z * flow_key) :=
  let type := icmp_type df in
  let code := icmp_code df in
  if (type =? RTE_ICMP_TYPE_ECHO_REPLY) || (type =? RTE_ICMP_TYPE_ECHO_REQUEST) then
    mret (DP_OK, set_port_src type (set_port_dst (ntohs (icmp_identifier df)) key))
  else if type =? DP_IP_ICMP_TYPE_ERROR then
    if negb (code =? DP_IP_ICMP_CODE_DST_PROTO_UNREACHABLE) && negb (code =? DP_IP_ICMP_CODE_DST_PORT_UNREACHABLE)
       && negb (code =? DP_IP_ICMP_CODE_FRAGMENT_NEEDED)
    then mret (DP_ERROR, key)
    else
      info ← dp_get_icmp_err_ip_hdr;
      if negb (err_ipv4_hdr info) || (err_l4_src_port info =? 0) || (err_l4_dst_port info =? 0)
      then mret (DP_ERROR, key)
      else
        src ← rd (err_hdr_off + ipv4_src_off) 4;
        dst ← rd (err_hdr_off + ipv4_dst_off) 4;
        proto ← rd (err_hdr_off + ipv4_proto_off) 1;
        mret (DP_OK,
          set_port_src (ntohs (err_l4_dst_port info)) (set_port_dst (ntohs (err_l4_src_port info))
            (set_key_proto proto (set_l3_src (dp_set_ipaddr4 (ntohl dst)) (set_l3_dst (dp_set_ipaddr4 (ntohl src)) key)))))
  else mret (DP_ERROR, key).

(** The field keeps its old contents for an IPv6 packet of an interface whose
    destination is not a NAT64 address. *)
Definition dp_mark_vnf_type e (nat : nat_state) (df : dp_flow) (port : dp_port) key : flow_key :=
  if is_pf port then
    match df_vnf_type df with
    | DP_VNF_TYPE_NAT | DP_VNF_TYPE_LB_ALIAS_PFX => set_key_vnf_type (df_vnf_type df) key
    | _ => set_key_vnf_type DP_VNF_TYPE_UNDEFINED key
    end
  else
    match dp_ipv6_from_ipaddr (l3_dst key) with
    | (_, Some dst_ipv6) => if dp_is_ipv6_nat64 dst_ipv6 then set_key_vnf_type DP_VNF_TYPE_NAT key else key
    | (_, None) =>
        let natted := match dp_get_iface_snat_data (ipv4 (l3_src key)) (key_vni key) nat with
                      | Some s_data => negb (snat_ip s_data =? 0)
                      | None => false
                      end in
        if natted then set_key_vnf_type DP_VNF_TYPE_NAT key
        else if dp_vnf_lbprefix_exists (port_id port) (key_vni key) (l3_src key) 32 (fenv_vnf e)
        then set_key_vnf_type DP_VNF_TYPE_LB_ALIAS_PFX key
        else set_key_vnf_type DP_VNF_TYPE_UNDEFINED key
    end.

(** [key] holds what the memory held before. *)
Definition dp_build_flow_key e (nat : nat_state) key : M rte_mbuf (Z * flow_key) :=
  df ← gets flow;
  port ← get_in_port (fenv_ports e);
  let l3 :=
    if l3_type df =? RTE_ETHER_TYPE_IPV4 then
      Some (set_l3_src (dp_set_ipaddr4 (ntohl (src_addr df))) (set_l3_dst (dp_set_ipaddr4 (ntohl (dst_addr df))) key))
    else if l3_type df =? RTE_ETHER_TYPE_IPV6 then
      Some (set_l3_src (dp_set_ipaddr6 (df_src df)) (set_l3_dst (dp_set_ipaddr6 (df_dst df)) key))
    else None in
  match l3 with
  | None => mret (DP_ERROR, key)
  | Some key =>
      let key := set_key_proto (l4_type df) key in
      let key := set_key_vni (if is_pf port then dst_vni df else iface_vni (iface port)) key in
      let key := dp_mark_vnf_type e nat df port key in
      if (l4_type df =? IPPROTO_TCP) || (l4_type df =? IPPROTO_UDP) then
        mret (DP_OK, set_port_src (ntohs (l4_src_port df)) (set_port_dst (ntohs (l4_dst_port df)) key))
      else if l4_type df =? IPPROTO_ICMP then dp_build_icmp_flow_key df key
      else if l4_type df =? IPPROTO_ICMPV6 then
        mret (DP_OK, set_port_src (icmp_type df) (set_port_dst (ntohs (icmp_identifier df)) key))
      else mret (DP_ERROR, key)
  end.

(** ** Entries and references *)

Definition load_flow p : FM flow_value := h ← gets flow_heap; get_some (h !! p).

Definition upd_flow_val p (f : flow_value -> flow_value) : FM unit :=
  v ← load_flow p; h ← gets flow_heap; modify (set_flow_heap (<[p := f v]> h)).

Definition dp_cntrack_flush_cache : FM unit := modify (fun st => set_cached_flow_val None (set_prev_key None st)).

Definition dp_free_network_nat_port e (cntrack : flow_value) : FM unit :=
  if bool_decide (nf_nat_type cntrack = DP_FLOW_NAT_TYPE_NETWORK_LOCAL) then
    modify (fun st => set_nat_tables
      (snd (dp_remove_network_snat_port (fenv_sync_enabled e) (fenv_ports e) cntrack (nat_tables st))) st)
  else mret tt.

Definition dp_free_flow e p : FM unit :=
  cntrack ← load_flow p;
  dp_free_network_nat_port e cntrack ;;
  dp_cntrack_flush_cache ;;
  h ← gets flow_heap;
  modify (set_flow_heap (delete p h)).

(** [RTE_VERIFY] aborts on a count of zero. *)
Definition dp_ref_inc p : FM unit :=
  v ← load_flow p;
  if ref_count v =? 0 then ub else upd_flow_val p (set_ref_count (ref_count v + 1)).

Definition dp_ref_dec e p : FM unit :=
  v ← load_flow p;
  upd_flow_val p (set_ref_count (ref_count v - 1)) ;;
  if ref_count v - 1 =? 0 then dp_free_flow e p else mret tt.

Definition dp_delete_flow e key p : FM Z :=
  t ← gets flow_table;
  let '(ret, t') := rte_hash_del_key t key in
  modify (set_flow_table t') ;;
  if DP_FAILED ret then mret ret
  else
    dp_ref_dec e p ;;
    dp_cntrack_flush_cache ;;
    mret DP_OK.

Definition dp_add_flow key p : FM Z :=
  t ← gets flow_table;
  let '(ret, t') := rte_hash_add_key_data t key p in
  modify (set_flow_table t') ;;
  if DP_FAILED ret then mret ret else mret DP_OK.

Definition dp_get_flow key : FM (Z + ptr) :=
  t ← gets flow_table; mret (rte_hash_lookup_data t key).

(** ** Age contexts of offloaded flows *)

Definition load_ctx (c : ptr) : FM flow_age_ctx := h ← gets age_ctxs; get_some (h !! c).

Definition dp_add_rte_age_ctx p (c : ptr) : FM Z :=
  v ← load_flow p;
  ctx ← load_ctx c;
  match find_index (fun o => match o with None => true | Some _ => false end) (rte_age_ctxs v) with
  | None => mret DP_ERROR
  | Some i =>
      upd_flow_val p (set_rte_age_ctxs (<[i := Some c]> (rte_age_ctxs v))) ;;
      h ← gets age_ctxs;
      modify (set_age_ctxs (<[c := mk_age_ctx (ctx_cntrack ctx) (ctx_rte_flow ctx) (Z.of_nat i) (ctx_port_id ctx)
                                     (ctx_handle ctx)]> h)) ;;
      mret DP_OK
  end.

Definition dp_del_rte_age_ctx p (ctx : flow_age_ctx) : FM Z :=
  v ← load_flow p;
  if ctx_ref_index ctx >=? Z.of_nat DP_FLOW_VAL_AGE_CTX_CAPACITY then mret DP_ERROR
  else
    upd_flow_val p (set_rte_age_ctxs (<[Z.to_nat (ctx_ref_index ctx) := None]> (rte_age_ctxs v))) ;;
    mret DP_OK.

(** The rules and actions of the hardware are removed whatever it answers; a
    null context is ignored. *)
Definition dp_destroy_rte_flow_agectx e (agectx : option ptr) : FM unit :=
  match agectx with
  | None => mret tt
  | Some c =>
      ctx ← load_ctx c;
      match ctx_cntrack ctx with
      | Some p => dp_del_rte_age_ctx p ctx ;; dp_ref_dec e p
      | None => mret tt
      end ;;
      h ← gets age_ctxs;
      modify (set_age_ctxs (delete c h))
  end.

Fixpoint for_all {A} (body : A -> FM unit) (l : list A) : FM unit :=
  match l with
  | [] => mret tt
  | x :: l' => body x ;; for_all body l'
  end.

(** [contexts] is what [rte_flow_get_aged_flows] returns the second time it is
    asked. *)
Definition dp_process_aged_flows e (total : Z) (zmalloc_ok : bool) (contexts : list ptr) : FM unit :=
  if total <=? 0 then mret tt
  else if negb zmalloc_ok then mret tt
  else for_all (fun c => dp_destroy_rte_flow_agectx e (Some c)) contexts.

Definition slot_at (i : nat) (v : flow_value) : FM (option ptr) := get_some (rte_age_ctxs v !! i).

Definition dp_rte_flow_remove e p : FM unit :=
  for_all (fun i => v ← load_flow p; c ← slot_at i v; dp_destroy_rte_flow_agectx e c)
    (seq 0 DP_FLOW_VAL_AGE_CTX_CAPACITY).

(** [query] is the answer of the hardware on an action: an error or the
    seconds since the last packet. *)
Fixpoint query_loop e (query : ptr -> Z + Z) p (l : list nat) : FM Z :=
  match l with
  | [] => mret DP_OK
  | i :: l' =>
      v ← load_flow p;
      c ← slot_at i v;
      match c with
      | None => query_loop e query p l'
      | Some c' =>
          ctx ← load_ctx c';
          if negb (ctx_handle ctx) then query_loop e query p l'
          else match query c' with
               | inl ret => mret ret
               | inr sec =>
                   (if sec >=? timeout_value v then dp_destroy_rte_flow_agectx e (Some c') else mret tt) ;;
                   query_loop e query p l'
               end
      end
  end.

Definition dp_rte_flow_query_and_remove e (query : ptr -> Z + Z) p : FM Z :=
  query_loop e query p (seq 0 DP_FLOW_VAL_AGE_CTX_CAPACITY).

(** ** Loops over the table *)

(** The table is read again at every step, since the body deletes from it. *)
Fixpoint flow_iter (fuel : nat) (body : flow_key -> ptr -> FM unit) (iter : nat) : FM unit :=
  match fuel with
  | O => mret tt
  | S fuel' =>
      t ← gets flow_table;
      match rte_hash_iterate t iter with
      | None => mret tt
      | Some (key, p, iter') => body key p ;; flow_iter fuel' body iter'
      end
  end.

Definition for_each_flow (body : flow_key -> ptr -> FM unit) : FM unit :=
  t ← gets flow_table; flow_iter (S (length (hash_slots t))) body 0.

Definition dp_remove_flow e p key : FM unit :=
  (if offload_mode_enabled e then dp_rte_flow_remove e p else mret tt) ;;
  dp_delete_flow e key p ;;
  mret tt.

Definition dp_process_aged_flows_non_offload e (query : ptr -> Z + Z) (now timer_hz : Z) : FM unit :=
  for_each_flow (fun key p =>
    (if offload_mode_enabled e && (key_proto key =? IPPROTO_TCP)
     then dp_rte_flow_query_and_remove e query p ;; mret tt else mret tt) ;;
    v ← load_flow p;
    if u64 (now - timestamp v) >? u64 (timer_hz * timeout_value v) then dp_delete_flow e key p ;; mret tt
    else mret tt).

(** Removal of the flows that [sel] selects. *)
Definition remove_flows e (sel : flow_key -> flow_value -> bool) : FM unit :=
  for_each_flow (fun key p => v ← load_flow p; if sel key v then dp_remove_flow e p key else mret tt).

Definition nat_flow_sel (port_id : Z) (nat_type : dp_flow_nat_type) (_ : flow_key) (v : flow_value) : bool :=
  (created_port_id v =? port_id) && bool_decide (nf_nat_type v = nat_type).

Definition dp_remove_nat_flows e (port_id : Z) (nat_type : dp_flow_nat_type) : FM unit :=
  remove_flows e (nat_flow_sel port_id nat_type).

Definition neighnat_flow_sel (ip vni min_port max_port : Z) (key : flow_key) (_ : flow_value) : bool :=
  (key_vni key =? vni) && negb (is_v6 (l3_dst key)) && (ipv4 (l3_dst key) =? ip)
  && (port_dst key >=? min_port) && (port_dst key <? max_port).

Definition dp_remove_neighnat_flows e (ip vni min_port max_port : Z) : FM unit :=
  remove_flows e (neighnat_flow_sel ip vni min_port max_port).

Definition iface_flow_sel (port_id ip vni : Z) (key : flow_key) (v : flow_value) : bool :=
  (created_port_id v =? port_id)
  || ((key_vni key =? vni) && negb (is_v6 (l3_dst (key_org v))) && (ipv4 (l3_dst (key_org v)) =? ip)).

Definition dp_remove_iface_flows e (port_id ip vni : Z) : FM unit :=
  remove_flows e (iface_flow_sel port_id ip vni).

Definition lbtarget_flow_sel (ul : dp_ipv6) (_ : flow_key) (v : flow_value) : bool := dp_ipv6_match (nf_underlay_dst v) ul.

Definition dp_remove_lbtarget_flows e (ul : dp_ipv6) : FM unit := remove_flows e (lbtarget_flow_sel ul).

(** Each entry is met twice; only the original direction is sent. *)
Definition dp_synchronize_local_nat_flows (sent : Z) : FM unit :=
  for_each_flow (fun key p =>
    v ← load_flow p;
    if bool_decide (nf_nat_type v = DP_FLOW_NAT_TYPE_NETWORK_LOCAL) && dp_are_flows_identical key (key_org v)
    then modify (fun st => set_nat_tables (snd (dp_sync_snat_flow sent v (nat_tables st))) st)
    else mret tt).
End flow.
