(* ===== verification/FlowProofs.v ===== *)
(** The flow table keeps its references right: lemmas and theorems on
    [Flow]. *)

From S2P Require Import Prelude Errors RteHash IpAddr Port Packet Ipsec Vnf FlowKey Nat Flow.

(** ** Counting the entries that point to an address *)

Definition refs (m : gmap flow_key ptr) (p : ptr) : nat := size (filter (fun kv => kv.2 = p) m).

Lemma refs_insert m k p q : m !! k = None ->
  refs (<[k := p]> m) q = if decide (p = q) then S (refs m q) else refs m q.
Proof.
  intros Hk. unfold refs. rewrite map_filter_insert. case_decide as Hd; cbn in Hd; case_decide; try done.
  - rewrite map_size_insert_None; [done|]. apply map_lookup_filter_None. by left.
  - f_equal. rewrite delete_id; [done|]. done.
Qed.

Lemma refs_delete m k p q : m !! k = Some p ->
  refs m q = if decide (p = q) then S (refs (delete k m) q) else refs (delete k m) q.
Proof.
  intros Hk. rewrite <-(insert_delete_id m k p Hk) at 1. apply refs_insert. apply lookup_delete_eq.
Qed.

Lemma refs_pos m p : (0 < refs m p)%nat <-> exists k, m !! k = Some p.
Proof.
  unfold refs. split.
  - intros Hs. destruct (decide (filter (fun kv => kv.2 = p) m = ∅)) as [He|Hne].
    { rewrite He, map_size_empty in Hs. lia. }
    apply map_choose in Hne as (k & q & Hk). apply map_lookup_filter_Some in Hk as [Hk Hq]. cbn in Hq. subst. by exists k.
  - intros [k Hk]. assert (filter (fun kv => kv.2 = p) m !! k = Some p) as Hf.
    { by apply map_lookup_filter_Some. }
    destruct (size (filter (fun kv => kv.2 = p) m)) eqn:E; [|lia].
    apply map_size_empty_inv in E. by rewrite E, lookup_empty in Hf.
Qed.

Section proofs.
Context `{ERR : RteErrno} {HT : RteHash dp_ipv6 dp_vnf} {VT : RteHash dp_vnf dp_ipv6}
  {ST : RteHash nat_key snat_data} {DT : RteHash nat_key dnat_data}
  {PM : RteHash netnat_portmap_key netnat_portmap_data}
  {PO : RteHash netnat_portoverload_tbl_key (option netnat_portoverload_sync_metadata)}
  {FT : RteHash flow_key ptr}.
Implicit Types (e : flow_env) (st : flow_state) (p q : ptr) (key : flow_key) (v : flow_value).

Definition flows st : gmap flow_key ptr := hash_view (flow_table st).

Definition cache_at (i : bool) st : flow_key := if i then snd (key_cache st) else fst (key_cache st).

(** The table points to live entries, each counts the table entries that
    point to it and there is at least one, the cached flow is the one the table
    has under the cached key, and no age context is in use (the flows are not
    offloaded). *)
Record flow_inv st : Prop := {
  fi_live key p : flows st !! key = Some p -> is_Some (flow_heap st !! p);
  fi_refs p v : flow_heap st !! p = Some v -> ref_count v = Z.of_nat (refs (flows st) p) /\ (0 < refs (flows st) p)%nat;
  fi_cache i : prev_key st = Some i ->
    curr_key st = negb i /\ exists p, cached_flow_val st = Some p /\ flows st !! cache_at i st = Some p;
  fi_ctxs p v : flow_heap st !! p = Some v -> rte_age_ctxs v = replicate DP_FLOW_VAL_AGE_CTX_CAPACITY None
}.

(** The same connection, whatever the number of references. *)
Definition same_flow v v' : Prop := set_ref_count 0 v = set_ref_count 0 v'.

Lemma same_flow_fields v v' : same_flow v v' -> v' = set_ref_count (ref_count v') v.
Proof. destruct v, v'. unfold same_flow. cbn. intros [= ]. by subst. Qed.

(** ** Deleting an entry *)

(** The heap after the reference of [p] has been dropped. *)
Definition dropped p v (h : gmap ptr flow_value) : gmap ptr flow_value :=
  if ref_count v - 1 =? 0 then delete p h else <[p := set_ref_count (ref_count v - 1) v]> h.

Lemma load_flow_run p v st : flow_heap st !! p = Some v -> load_flow p st = Some (v, st).
Proof. intros Hp. unfold load_flow. m_unfold. by rewrite Hp. Qed.

Lemma upd_flow_val_run p v f st : flow_heap st !! p = Some v ->
  upd_flow_val p f st = Some (tt, set_flow_heap (<[p := f v]> (flow_heap st)) st).
Proof. intros Hp. unfold upd_flow_val. erewrite M_bind_Some; [|by apply load_flow_run]. done. Qed.

Lemma free_flow_run e p v st : flow_heap st !! p = Some v ->
  exists st', dp_free_flow e p st = Some (tt, st') /\ flow_heap st' = delete p (flow_heap st)
    /\ flow_table st' = flow_table st /\ key_cache st' = key_cache st /\ curr_key st' = curr_key st /\ prev_key st' = None.
Proof.
  intros Hp. unfold dp_free_flow. erewrite M_bind_Some; [|by apply load_flow_run]. unfold dp_free_network_nat_port.
  destruct (bool_decide _); (erewrite M_bind_Some; [|reflexivity]); (erewrite M_bind_Some; [|reflexivity]);
    (eexists; split; [reflexivity|]); by split_and!.
Qed.

Lemma ref_dec_run e p v st : flow_heap st !! p = Some v ->
  exists st', dp_ref_dec e p st = Some (tt, st') /\ flow_heap st' = dropped p v (flow_heap st)
    /\ flow_table st' = flow_table st /\ key_cache st' = key_cache st /\ curr_key st' = curr_key st
    /\ (prev_key st' = prev_key st /\ cached_flow_val st' = cached_flow_val st \/ prev_key st' = None).
Proof.
  intros Hp. unfold dp_ref_dec. erewrite M_bind_Some; [|by apply load_flow_run].
  erewrite M_bind_Some; [|by eapply upd_flow_val_run]. unfold dropped. destruct (ref_count v - 1 =? 0).
  - destruct (free_flow_run e p (set_ref_count (ref_count v - 1) v)
      (set_flow_heap (<[p := set_ref_count (ref_count v - 1) v]> (flow_heap st)) st)) as (st' & Hr & Hh & ? & ? & ? & ?);
      [apply lookup_insert_eq|].
    exists st'. split_and!; try done; [|by right]. rewrite Hh. cbn. apply delete_insert_eq.
  - eexists. split; [reflexivity|]. split_and!; try done. by left.
Qed.

Lemma delete_flow_run e key p v st : flows st !! key = Some p -> flow_heap st !! p = Some v ->
  exists st', dp_delete_flow e key p st = Some (DP_OK, st') /\ flow_heap st' = dropped p v (flow_heap st)
    /\ flow_table st' = snd (rte_hash_del_key (flow_table st) key) /\ key_cache st' = key_cache st /\ prev_key st' = None.
Proof.
  intros Hk Hp. unfold dp_delete_flow. erewrite M_bind_Some; [|reflexivity].
  pose proof (hash_del_cases (flow_table st) key) as Hd.
  destruct (rte_hash_del_key (flow_table st) key) as [r t]. destruct Hd as [Hr _]; [change (is_Some (flows st !! key)); by rewrite Hk|].
  erewrite M_bind_Some; [|reflexivity]. rewrite Hr.
  destruct (ref_dec_run e p v (set_flow_table t st) Hp) as (st1 & Hrun & Hh & Ht & Hc & _ & _).
  erewrite M_bind_Some; [|exact Hrun]. eexists. split; [reflexivity|]. by split_and!.
Qed.

Lemma deleted_flows st st' key p : flows st !! key = Some p ->
  flow_table st' = snd (rte_hash_del_key (flow_table st) key) -> flows st' = delete key (flows st).
Proof.
  intros Hk Ht. unfold flows. rewrite Ht. pose proof (hash_del_cases (flow_table st) key) as Hd.
  destruct (rte_hash_del_key (flow_table st) key) as [r t]. apply Hd. change (is_Some (flows st !! key)). by rewrite Hk.
Qed.

(** A key that is not in the table: nothing happens. *)
Lemma delete_absent_run e key p st : flows st !! key = None -> exists ret, dp_delete_flow e key p st = Some (ret, st) /\ DP_FAILED ret = true.
Proof.
  intros Hk. unfold dp_delete_flow. erewrite M_bind_Some; [|reflexivity]. rewrite (hash_del_absent _ _ Hk).
  exists (- ENOENT). split; [|done]. erewrite M_bind_Some; [|reflexivity]. by destruct st.
Qed.

Lemma dropped_lookup p v h q : dropped p v h !! q
  = if decide (p = q) then (if ref_count v - 1 =? 0 then None else Some (set_ref_count (ref_count v - 1) v)) else h !! q.
Proof.
  unfold dropped. destruct (ref_count v - 1 =? 0); case_decide; subst;
    by rewrite ?lookup_delete_eq, ?lookup_insert_eq, ?lookup_delete_ne, ?lookup_insert_ne.
Qed.

Lemma delete_keeps_inv st st' key p v :
  flow_inv st -> flows st !! key = Some p -> flow_heap st !! p = Some v ->
  flow_heap st' = dropped p v (flow_heap st) -> flows st' = delete key (flows st) -> prev_key st' = None ->
  flow_inv st'.
Proof.
  intros [Hl Hr Hc Hx] Hk Hp Hh Ht Hprev. destruct (Hr p v Hp) as [Hcount _].
  pose proof (refs_delete (flows st) key p p Hk) as Hself. rewrite decide_True in Hself by done.
  split.
  - intros k q Hq. rewrite Ht in Hq. apply lookup_delete_Some in Hq as [Hne Hq]. rewrite Hh, dropped_lookup.
    case_decide; subst; [|by eapply Hl]. destruct (ref_count v - 1 =? 0) eqn:E; [|by eexists]. bools.
    assert (0 < refs (delete key (flows st)) q)%nat; [|lia].
    apply refs_pos. exists k. by rewrite lookup_delete_ne.
  - intros q w Hq. rewrite Hh, dropped_lookup in Hq. rewrite Ht.
    pose proof (refs_delete (flows st) key p q Hk) as Hother. destruct (decide (p = q)) as [<-|Hne].
    + destruct (ref_count v - 1 =? 0) eqn:E; [done|]. bools. injection Hq as <-. cbn. lia.
    + destruct (Hr q w Hq) as [-> ?]. rewrite <-Hother. done.
  - rewrite Hprev. done.
  - intros q w Hq. rewrite Hh, dropped_lookup in Hq. case_decide; [|by eapply Hx].
    destruct (ref_count v - 1 =? 0); [done|]. injection Hq as <-. cbn. by apply (Hx p).
Qed.

(** ** Loops over the table *)

Lemma flow_iter_slots (I : flow_state -> Prop) (D : flow_key -> ptr -> bool) body :
  (forall st i key p, I st -> hash_slots (flow_table st) !! i = Some (Some (key, p)) ->
     exists st', body key p st = Some (tt, st') /\ I st'
       /\ hash_slots (flow_table st') = if D key p then <[i := None]> (hash_slots (flow_table st)) else hash_slots (flow_table st)) ->
  forall fuel iter st, I st -> (length (hash_slots (flow_table st)) < iter + fuel)%nat ->
  exists st', flow_iter fuel body iter st = Some (tt, st') /\ I st'
    /\ hash_slots (flow_table st') = swept D iter (hash_slots (flow_table st)).
Proof.
  intros Hbody. induction fuel as [|fuel IH]; intros iter st HI Hlen.
  { exists st. split_and!; try done. symmetry. apply swept_done. right. lia. }
  cbn [flow_iter]. erewrite M_bind_Some; [|reflexivity]. rewrite hash_iterate_law.
  destruct (first_entry (hash_slots (flow_table st)) iter) as [[[key p] j]|] eqn:Hf.
  - destruct (first_entry_spec _ _ _ _ Hf) as (i & -> & Hle & Hi & _).
    destruct (Hbody st i key p HI Hi) as (st1 & Hrun & HI1 & Hs). erewrite M_bind_Some; [|exact Hrun].
    destruct (IH (S i) st1 HI1) as (st' & Hrun' & HI' & Hs'); [rewrite Hs; destruct (D key p); rewrite ?length_insert; lia|].
    exists st'. split_and!; try done. rewrite Hs', Hs. symmetry. by apply swept_step.
  - exists st. split_and!; try done. symmetry. apply swept_done. by left.
Qed.

Lemma for_each_flow_run (I : flow_state -> Prop) (D : flow_key -> ptr -> bool) body st :
  (forall st i key p, I st -> hash_slots (flow_table st) !! i = Some (Some (key, p)) ->
     exists st', body key p st = Some (tt, st') /\ I st'
       /\ hash_slots (flow_table st') = if D key p then <[i := None]> (hash_slots (flow_table st)) else hash_slots (flow_table st)) ->
  I st ->
  exists st', for_each_flow body st = Some (tt, st') /\ I st'
    /\ flows st' = filter (fun kv => D kv.1 kv.2 = false) (flows st).
Proof.
  intros Hbody HI. unfold for_each_flow. erewrite M_bind_Some; [|reflexivity].
  destruct (flow_iter_slots I D body Hbody (S (length (hash_slots (flow_table st)))) 0 st HI) as (st' & Hrun & HI' & Hs); [lia|].
  exists st'. split_and!; try done. by apply swept_view.
Qed.

(** Entries only disappear, and those that stay are still the same
    connections. *)
Definition shrunk st0 st : Prop :=
  flow_inv st /\ forall p v, flow_heap st !! p = Some v -> exists v0, flow_heap st0 !! p = Some v0 /\ same_flow v0 v.

Lemma shrunk_refl st : flow_inv st -> shrunk st st.
Proof. intros Hi. split; [done|]. intros p v Hp. by exists v. Qed.

Definition sel_stable (sel : flow_key -> flow_value -> bool) : Prop :=
  forall key v n, sel key (set_ref_count n v) = sel key v.

Definition selects (sel : flow_key -> flow_value -> bool) st key p : bool :=
  match flow_heap st !! p with Some v => sel key v | None => false end.

Lemma slot_flow st i key p : flow_inv st -> hash_slots (flow_table st) !! i = Some (Some (key, p)) ->
  flows st !! key = Some p /\ exists v, flow_heap st !! p = Some v.
Proof.
  intros Hi Hs. assert (flows st !! key = Some p) as Hk by (apply slot_lookup_view; by exists i).
  split; [done|]. by apply (fi_live _ Hi key).
Qed.

(** Deleting the entry a loop has come to. *)
Lemma delete_step e st0 st i key p : shrunk st0 st -> hash_slots (flow_table st) !! i = Some (Some (key, p)) ->
  exists st', dp_delete_flow e key p st = Some (DP_OK, st') /\ shrunk st0 st'
    /\ hash_slots (flow_table st') = <[i := None]> (hash_slots (flow_table st)).
Proof.
  intros [Hinv Hsame] Hi. destruct (slot_flow st i key p Hinv Hi) as [Hk [v Hp]].
  destruct (delete_flow_run e key p v st Hk Hp) as (st' & Hrun & Hh & Ht & _ & Hprev).
  exists st'. split_and!; [done | | rewrite Ht; by apply hash_del_slot with p].
  pose proof (deleted_flows st st' key p Hk Ht) as Hv.
  split; [by eapply delete_keeps_inv|]. intros q w Hq. rewrite Hh, dropped_lookup in Hq.
  case_decide; [|by apply Hsame]. subst q. destruct (ref_count v - 1 =? 0); [done|]. injection Hq as <-.
  destruct (Hsame p v Hp) as (v0 & ? & Hv0). exists v0. split; [done|]. by unfold same_flow in *; rewrite Hv0.
Qed.

Lemma selects_stable sel st0 st key p v : sel_stable sel -> shrunk st0 st -> flow_heap st !! p = Some v ->
  selects sel st0 key p = sel key v.
Proof.
  intros Hst [_ Hsame] Hp. destruct (Hsame p v Hp) as (v0 & Hv0 & Hs). unfold selects. rewrite Hv0.
  rewrite (same_flow_fields _ _ Hs). by rewrite Hst.
Qed.

Lemma remove_flows_run e sel st : offload_mode_enabled e = false -> sel_stable sel -> flow_inv st ->
  exists st', remove_flows e sel st = Some (tt, st') /\ shrunk st st'
    /\ flows st' = filter (fun kv => selects sel st kv.1 kv.2 = false) (flows st).
Proof.
  intros Hoff Hst Hinv. apply for_each_flow_run; [|by apply shrunk_refl].
  intros st1 i key p Hsh Hi. destruct (slot_flow st1 i key p (proj1 Hsh) Hi) as [_ [v Hp]].
  rewrite (selects_stable sel st st1 key p v Hst Hsh Hp). erewrite M_bind_Some; [|by apply load_flow_run].
  destruct (sel key v); [|by exists st1].
  destruct (delete_step e st st1 i key p Hsh Hi) as (st' & Hrun & Hsh' & Hs). exists st'. split_and!; try done.
  unfold dp_remove_flow. rewrite Hoff. erewrite M_bind_Some; [|reflexivity]. erewrite M_bind_Some; [|exact Hrun]. done.
Qed.

(** The requests that remove flows. *)
Inductive flow_removal :=
| RemoveNat (port_id : Z) (nat_type : dp_flow_nat_type)
| RemoveNeighnat (ip vni min_port max_port : Z)
| RemoveIface (port_id ip vni : Z)
| RemoveLbTarget (ul : dp_ipv6).

Definition run_removal e (r : flow_removal) : M flow_state unit :=
  match r with
  | RemoveNat port_id nat_type => dp_remove_nat_flows e port_id nat_type
  | RemoveNeighnat ip vni min_port max_port => dp_remove_neighnat_flows e ip vni min_port max_port
  | RemoveIface port_id ip vni => dp_remove_iface_flows e port_id ip vni
  | RemoveLbTarget ul => dp_remove_lbtarget_flows e ul
  end.

Definition removal_sel (r : flow_removal) : flow_key -> flow_value -> bool :=
  match r with
  | RemoveNat port_id nat_type => nat_flow_sel port_id nat_type
  | RemoveNeighnat ip vni min_port max_port => neighnat_flow_sel ip vni min_port max_port
  | RemoveIface port_id ip vni => iface_flow_sel port_id ip vni
  | RemoveLbTarget ul => lbtarget_flow_sel ul
  end.


(** A flow that no packet has used for its timeout. *)
Definition expired (now timer_hz : Z) (_ : flow_key) v : bool := u64 (now - timestamp v) >? u64 (timer_hz * timeout_value v).

End proofs.
