(* ===== verification/Cntrack.v ===== *)
(** Connection tracking: [src/dp_cntrack.c] and the node that calls it,
    [src/nodes/conntrack_node.c].

    A step works on a packet and on the flow table. *)

From S2P Require Import Prelude Errors RteHash IpAddr Port Packet Ipsec Vnf FlowKey Nat Flow.

(** ** TCP flags: [include/dp_util.h] *)

Definition RTE_TCP_ACK_FLAG : Z := 0x10.
Definition RTE_TCP_RST_FLAG : Z := 0x04.
Definition RTE_TCP_SYN_FLAG : Z := 0x02.
Definition RTE_TCP_FIN_FLAG : Z := 0x01.

Definition DP_TCP_PKT_FLAG_RST (flags : Z) : bool := has_flag flags RTE_TCP_RST_FLAG.
Definition DP_TCP_PKT_FLAG_FIN (flags : Z) : bool := has_flag flags RTE_TCP_FIN_FLAG.
Definition DP_TCP_PKT_FLAG_EXACT (flags required : Z) : bool := Z.land flags 0xFF =? required.
Definition DP_TCP_PKT_FLAG_ONLY_SYN (flags : Z) : bool := DP_TCP_PKT_FLAG_EXACT flags RTE_TCP_SYN_FLAG.
Definition DP_TCP_PKT_FLAG_ONLY_ACK (flags : Z) : bool := DP_TCP_PKT_FLAG_EXACT flags RTE_TCP_ACK_FLAG.
Definition DP_TCP_PKT_FLAG_ONLY_SYNACK (flags : Z) : bool :=
  DP_TCP_PKT_FLAG_EXACT flags (Z.lor RTE_TCP_SYN_FLAG RTE_TCP_ACK_FLAG).

Section cntrack.
Context `{ERR : RteErrno} {HT : RteHash dp_ipv6 dp_vnf} {VT : RteHash dp_vnf dp_ipv6}
  {ST : RteHash nat_key snat_data} {DT : RteHash nat_key dnat_data}
  {PM : RteHash netnat_portmap_key netnat_portmap_data}
  {PO : RteHash netnat_portoverload_tbl_key (option netnat_portoverload_sync_metadata)}
  {FT : RteHash flow_key ptr}.
Implicit Types (e : flow_env) (p : ptr) (key : flow_key) (v : flow_value) (df : dp_flow).

(** ** The state of a connection *)

Definition dp_cntrack_tcp_state (dir : dp_flow_dir) (tcp_flags : Z) v : flow_value :=
  if DP_TCP_PKT_FLAG_RST tcp_flags then set_tcp_state DP_FLOW_TCP_STATE_RST_FIN v
  else if DP_TCP_PKT_FLAG_FIN tcp_flags then
    match tcp_state v with
    | DP_FLOW_TCP_STATE_ESTABLISHED => set_tcp_state DP_FLOW_TCP_STATE_FINWAIT v
    | _ => set_tcp_state DP_FLOW_TCP_STATE_RST_FIN v
    end
  else
    match tcp_state v with
    | DP_FLOW_TCP_STATE_NONE | DP_FLOW_TCP_STATE_RST_FIN =>
        if DP_TCP_PKT_FLAG_ONLY_SYN tcp_flags
        then set_first_syn_flow_dir dir (set_tcp_state DP_FLOW_TCP_STATE_NEW_SYN v) else v
    | DP_FLOW_TCP_STATE_NEW_SYN =>
        if DP_TCP_PKT_FLAG_ONLY_SYNACK tcp_flags && negb (bool_decide (dir = first_syn_flow_dir v))
        then set_tcp_state DP_FLOW_TCP_STATE_NEW_SYNACK v else v
    | DP_FLOW_TCP_STATE_NEW_SYNACK =>
        if DP_TCP_PKT_FLAG_ONLY_ACK tcp_flags && bool_decide (dir = first_syn_flow_dir v)
        then set_tcp_state DP_FLOW_TCP_STATE_ESTABLISHED v else v
    | _ => v
    end.

Definition dp_cntrack_init_flow_offload_flags e (l4 : Z) v : flow_value :=
  if negb (offload_mode_enabled e) then v
  else set_offload_reply DP_FLOW_NON_OFFLOAD
         (set_offload_orig (if negb (l4 =? IPPROTO_TCP) then DP_FLOW_OFFLOAD_INSTALL else DP_FLOW_NON_OFFLOAD) v).

Definition next_offload_state (other_pf : bool) (s : dp_pkt_offload_state) : dp_pkt_offload_state :=
  if bool_decide (s = DP_FLOW_NON_OFFLOAD) || other_pf then DP_FLOW_OFFLOAD_INSTALL
  else if bool_decide (s = DP_FLOW_OFFLOAD_INSTALL) then DP_FLOW_OFFLOADED else s.

(** [port] is the port the packet came in by; the first physical port is
    number 0 of [_dp_pf_ports]. *)
Definition dp_cntrack_change_flow_offload_flags e (pf0 : Z) (port : dp_port) (dir : dp_flow_dir) v : flow_value :=
  let offload_other_pf :=
    is_pf port && (if port_id port =? pf0 then negb (offloaded_pf0 v) else negb (offloaded_pf1 v)) in
  if negb (offload_mode_enabled e) then v
  else match dir with
       | DP_FLOW_DIR_ORG => set_offload_orig (next_offload_state offload_other_pf (offload_orig v)) v
       | DP_FLOW_DIR_REPLY => set_offload_reply (next_offload_state offload_other_pf (offload_reply v)) v
       end.

Definition dp_cntrack_set_timeout_tcp_flow e (pf0 : Z) (port : dp_port) (dir : dp_flow_dir) v : flow_value :=
  match tcp_state v with
  | DP_FLOW_TCP_STATE_ESTABLISHED =>
      dp_cntrack_change_flow_offload_flags e pf0 port dir (set_timeout_value DP_FLOW_TCP_EXTENDED_TIMEOUT v)
  | DP_FLOW_TCP_STATE_FINWAIT | DP_FLOW_TCP_STATE_RST_FIN =>
      dp_cntrack_change_flow_offload_flags e pf0 port dir (set_timeout_value (flow_timeout e) v)
  | _ => set_timeout_value (flow_timeout e) v
  end.

Definition dp_set_flow_offload_flag e (pf0 : Z) (port : dp_port) df v : flow_value :=
  match nf_nat_type v with
  | DP_FLOW_NAT_TYPE_NETWORK_NEIGH | DP_FLOW_LB_TYPE_FORWARD | DP_FLOW_LB_TYPE_LOCAL_NEIGH_TRAFFIC =>
      dp_cntrack_change_flow_offload_flags e pf0 port (flow_dir df) v
  | _ =>
      if bool_decide (df_vnf_type df = DP_VNF_TYPE_LB) then v
      else if negb (l4_type df =? IPPROTO_TCP) then dp_cntrack_change_flow_offload_flags e pf0 port (flow_dir df) v
      else v
  end.

(** ** Packets and the table *)

Record node_state := mk_node { n_mbuf : rte_mbuf; n_flow : flow_state }.
Abbreviation NM := (M node_state).

Definition on_pkt {A} (f : M rte_mbuf A) : NM A :=
  fun s => r ← f (n_mbuf s); Some (fst r, mk_node (snd r) (n_flow s)).
Definition on_flow {A} (f : M flow_state A) : NM A :=
  fun s => r ← f (n_flow s); Some (fst r, mk_node (n_mbuf s) (snd r)).

Definition get_df : NM dp_flow := on_pkt (gets flow).

(** The world besides: the configuration and ports, the first physical port's
    number, the time stamp counter and the allocator. *)
Record cntrack_env := mk_cntrack_env {
  cn_flow : flow_env;
  cn_pf0 : Z;
  cn_rdtsc : Z;
  cn_zmalloc : gset ptr -> option ptr
}.
Implicit Types (ce : cntrack_env).

Definition write_cache (i : bool) key (st : flow_state) : flow_state :=
  set_key_cache (if i then (fst (key_cache st), key) else (key, snd (key_cache st))) st.
Definition read_cache (i : bool) (st : flow_state) : flow_key :=
  if i then snd (key_cache st) else fst (key_cache st).

Definition dp_cache_flow_val p : M flow_state unit :=
  modify (fun st => set_cached_flow_val (Some p) (set_curr_key (negb (curr_key st)) (set_prev_key (Some (curr_key st)) st))).

Definition new_flow_value ce key df (port : dp_port) : flow_value :=
  let e := cn_flow ce in
  let nat_type :=
    if offload_mode_enabled e && negb (is_pf port) && negb (is_v6 (l3_dst key))
       && dp_vnf_lbprefix_exists DP_VNF_MATCH_ALL_PORT_IDS (key_vni key) (l3_dst key) 32 (fenv_vnf e)
    then DP_FLOW_LB_TYPE_LOCAL_NEIGH_TRAFFIC else DP_FLOW_NAT_TYPE_NONE in
  let v := set_nf_nat_type nat_type (set_created_port_id (port_id port) (set_timeout_value (flow_timeout e)
             (set_flow_flags DP_FLOW_FLAG_NONE (set_key_org key zero_flow_value)))) in
  let v := dp_cntrack_init_flow_offload_flags e (l4_type df) v in
  let v := if l4_type df =? IPPROTO_TCP then set_tcp_state DP_FLOW_TCP_STATE_NONE v else v in
  set_ref_count 1 v.

(** [rte_free] of an entry that is not referenced any more. *)
Definition free_entry p : M flow_state unit := h ← gets flow_heap; modify (set_flow_heap (delete p h)).

Definition flow_table_insert_entry ce key (port : dp_port) : NM (option ptr) :=
  h ← on_flow (gets flow_heap);
  match cn_zmalloc ce (dom h) with
  | None => mret None
  | Some p =>
      df ← get_df;
      on_flow (modify (set_flow_heap (<[p := new_flow_value ce key df port]> h))) ;;
      on_pkt (upd_flow (set_flow_dir DP_FLOW_DIR_ORG)) ;;
      ret ← on_flow (dp_add_flow key p);
      if DP_FAILED ret then on_flow (free_entry p) ;; mret None
      else
        t ← on_flow (gets flow_table);
        on_pkt (upd_flow (set_dp_flow_hash (rte_hash_hash t key))) ;;
        let inverted_key := dp_invert_flow_key key in
        on_flow (upd_flow_val p (set_key_reply inverted_key)) ;;
        ret ← on_flow (dp_add_flow inverted_key p);
        if DP_FAILED ret then
          ret ← on_flow (dp_delete_flow (cn_flow ce) key p);
          (if DP_FAILED ret then on_flow (free_entry p) else mret tt) ;;
          mret None
        else
          on_flow (dp_ref_inc p) ;;
          mret (Some p)
  end.

Definition dp_set_pkt_flow_direction key p : NM unit :=
  v ← on_flow (load_flow p);
  (if dp_are_flows_identical key (key_reply v) then on_pkt (upd_flow (set_flow_dir DP_FLOW_DIR_REPLY)) else mret tt) ;;
  (if dp_are_flows_identical key (key_org v) then on_pkt (upd_flow (set_flow_dir DP_FLOW_DIR_ORG)) else mret tt) ;;
  t ← on_flow (gets flow_table);
  on_pkt (upd_flow (set_dp_flow_hash (rte_hash_hash t key))).

(** Both steps on a flow that is already known. *)
Definition known_flow ce key p : NM unit :=
  dp_set_pkt_flow_direction key p ;;
  df ← get_df;
  port ← on_pkt (get_in_port (fenv_ports (cn_flow ce)));
  on_flow (upd_flow_val p (dp_set_flow_offload_flag (cn_flow ce) (cn_pf0 ce) port df)).

Definition dp_get_flow_val ce : NM (Z + ptr) :=
  st ← on_flow (gets id);
  r ← on_pkt (dp_build_flow_key (cn_flow ce) (nat_tables st) (read_cache (curr_key st) st));
  let '(ret, key) := r in
  on_flow (modify (write_cache (curr_key st) key)) ;;
  if DP_FAILED ret then mret (inl ret)
  else
    st ← on_flow (gets id);
    let hit := match prev_key st with Some i => dp_are_flows_identical key (read_cache i st) | None => false end in
    if hit then
      p ← on_flow (get_some (cached_flow_val st));
      known_flow ce key p ;;
      mret (inr p)
    else
      r ← on_flow (dp_get_flow key);
      match r with
      | inr p =>
          known_flow ce key p ;;
          on_flow (dp_cache_flow_val p) ;;
          mret (inr p)
      | inl ret =>
          if negb (ret =? - ENOENT) then mret (inl ret)
          else
            port ← on_pkt (get_in_port (fenv_ports (cn_flow ce)));
            o ← flow_table_insert_entry ce key port;
            match o with
            | None => mret (inl DP_ERROR)
            | Some p => on_flow (dp_cache_flow_val p) ;; mret (inr p)
            end
      end.

Definition tcp_hdr_off df : option nat :=
  if l3_type df =? RTE_ETHER_TYPE_IPV4 then Some (14 + sizeof_ipv4)%nat
  else if l3_type df =? RTE_ETHER_TYPE_IPV6 then Some (14 + sizeof_ipv6)%nat
  else None.

Definition dp_cntrack_handle ce : NM Z :=
  r ← dp_get_flow_val ce;
  match r with
  | inl ret => mret ret
  | inr p =>
      on_flow (upd_flow_val p (set_timestamp (cn_rdtsc ce))) ;;
      df ← get_df;
      let finish : NM Z :=
        v ← on_flow (load_flow p);
        df ← get_df;
        let one_way := match nf_nat_type v with
                       | DP_FLOW_NAT_TYPE_NETWORK_NEIGH | DP_FLOW_LB_TYPE_FORWARD => true
                       | _ => false
                       end in
        if one_way && bool_decide (flow_dir df = DP_FLOW_DIR_REPLY) then mret DP_ERROR
        else
          on_pkt (upd_flow (fun df => set_offload_state
            (match flow_dir df with DP_FLOW_DIR_ORG => offload_orig v | DP_FLOW_DIR_REPLY => offload_reply v end)
            (set_conntrack (Some p) df))) ;;
          mret DP_OK in
      if (l4_type df =? IPPROTO_TCP) && negb (bool_decide (df_vnf_type df = DP_VNF_TYPE_LB)) then
        match tcp_hdr_off df with
        | None => mret DP_ERROR
        | Some off =>
            flags ← on_pkt (rd (off + tcp_flags_off) 1);
            port ← on_pkt (get_in_port (fenv_ports (cn_flow ce)));
            on_flow (upd_flow_val p (fun v =>
              dp_cntrack_set_timeout_tcp_flow (cn_flow ce) (cn_pf0 ce) port (flow_dir df)
                (dp_cntrack_tcp_state (flow_dir df) flags v))) ;;
            finish
        end
      else finish
  end.

(** ** Flows of a failed peer *)

Definition sync_key (po : netnat_portoverload_tbl_key) (md : netnat_portoverload_sync_metadata) : flow_key :=
  let pk := sm_portmap_key md in
  mk_flow_key (dp_set_ipaddr4 (po_dst_ip po)) (po_l4_type po) (po_dst_port po) (dp_copy_ipaddr (pk_src_ip pk))
    DP_VNF_TYPE_NAT (if is_icmp (po_l4_type po) then sm_icmp_type_src md else pk_iface_src_port pk) (pk_vni pk).

Definition nat64_icmp_type (type : Z) : Z :=
  if type =? DP_ICMPV6_ECHO_REQUEST then RTE_ICMP_TYPE_ECHO_REQUEST
  else if type =? DP_ICMPV6_ECHO_REPLY then RTE_ICMP_TYPE_ECHO_REPLY else 0.

Definition sync_reply_key (po : netnat_portoverload_tbl_key) key : flow_key :=
  let inverted := set_port_dst (po_nat_port po) (set_l3_dst (dp_set_ipaddr4 (po_nat_ip po)) (dp_invert_flow_key key)) in
  if key_proto key =? IPPROTO_ICMPV6
  then set_port_src (nat64_icmp_type (port_src inverted)) (set_key_proto IPPROTO_ICMP inverted)
  else inverted.

Definition sync_flow_value e (po : netnat_portoverload_tbl_key) (md : netnat_portoverload_sync_metadata)
    (now : Z) key : flow_value :=
  let v := set_flow_flags (if is_v6 (l3_src key) then DP_FLOW_FLAG_SRC_NAT64 else DP_FLOW_FLAG_SRC_NAT)
             (set_key_org key zero_flow_value) in
  let v := set_created_port_id (sm_created_port_id md) (set_timeout_value (flow_timeout e) (set_timestamp now v)) in
  let v := set_nf_l4_type (key_proto key) (set_nf_vni (key_vni key)
             (set_nf_nat_type DP_FLOW_NAT_TYPE_NETWORK_LOCAL v)) in
  let v := dp_cntrack_init_flow_offload_flags e (key_proto key) v in
  let v := if key_proto key =? IPPROTO_TCP then set_tcp_state DP_FLOW_TCP_STATE_NONE v
           else if is_icmp (key_proto key) then
             set_nf_icmp_err_ip_cksum (sm_icmp_err_ip_cksum md)
               (set_offload_reply DP_FLOW_OFFLOADED (set_offload_orig DP_FLOW_OFFLOADED v))
           else v in
  set_key_reply (sync_reply_key po key) (set_ref_count 1 v).

(** A flow that is there already is reported as success. *)
Definition dp_cntrack_from_sync_nat ce (po : netnat_portoverload_tbl_key) (md : netnat_portoverload_sync_metadata)
    (now : Z) : M flow_state Z :=
  let key := sync_key po md in
  r ← dp_get_flow key;
  match r with
  | inr _ => mret DP_OK
  | inl _ =>
      h ← gets flow_heap;
      match cn_zmalloc ce (dom h) with
      | None => mret DP_ERROR
      | Some p =>
          modify (set_flow_heap (<[p := sync_flow_value (cn_flow ce) po md now key]> h)) ;;
          let inverted_key := sync_reply_key po key in
          let key := if is_v6 (l3_src key) then set_l3_dst (dp_set_ipaddr_nat64 (htonl (ipv4 (l3_dst key)))) key else key in
          ret ← dp_add_flow key p;
          if DP_FAILED ret then free_entry p ;; mret DP_ERROR
          else
            ret ← dp_add_flow inverted_key p;
            if DP_FAILED ret then
              ret ← dp_delete_flow (cn_flow ce) key p;
              (if DP_FAILED ret then free_entry p else mret tt) ;;
              mret DP_ERROR
            else dp_ref_inc p ;; mret DP_OK
      end
  end.

(** The metadata belongs to the entry of the table: it is freed with it. *)
Fixpoint sync_loop ce (fuel : nat) (now : Z) (iter : nat) : M flow_state unit :=
  match fuel with
  | O => mret tt
  | S fuel' =>
      t ← gets (fun st => portoverload_tbl (nat_tables st));
      match rte_hash_iterate t iter with
      | None => mret tt
      | Some (po, data, iter') =>
          md ← get_some data;
          dp_cntrack_from_sync_nat ce po md now ;;
          t ← gets (fun st => portoverload_tbl (nat_tables st));
          md ← get_some (match rte_hash_lookup_data t po with inr data => data | inl _ => None end);
          (match dp_get_port_by_id (fenv_ports (cn_flow ce)) (sm_created_port_id md) with
           | Some port => modify (fun st => set_nat_tables (add_used_ports (port_id port) 1 (nat_tables st)) st)
           | None => mret tt
           end) ;;
          sync_loop ce fuel' now iter'
      end
  end.

Definition dp_create_sync_snat_flows ce : M flow_state Z :=
  t ← gets (fun st => portoverload_tbl (nat_tables st));
  sync_loop ce (S (length (hash_slots t))) (cn_rdtsc ce) 0 ;;
  mret DP_OK.

(** ** The node *)

Definition CONNTRACK_NEXT_DROP : Z := 0.
Definition CONNTRACK_NEXT_DNAT : Z := 4.
Definition CONNTRACK_NEXT_LB : Z := 1.
Definition CONNTRACK_NEXT_DHCP : Z := 2.
Definition CONNTRACK_NEXT_DHCPV6 : Z := 3.
Definition CONNTRACK_NEXT_FIREWALL : Z := 5.
Definition DP_BOOTP_SRV_PORT : Z := 67.
Definition DHCPV6_SERVER_PORT : Z := 547.

(** The headers; [Some edge] ends the processing. *)
Definition conntrack_parse : M rte_mbuf (option Z) :=
  df ← gets flow;
  if l3_type df =? RTE_ETHER_TYPE_IPV4 then
    dp_extract_ipv4_header 14 ;;
    ret ← dp_extract_l4_header (14 + sizeof_ipv4);
    if DP_FAILED ret then mret (Some CONNTRACK_NEXT_DROP)
    else
      df ← gets flow;
      mret (if (l4_type df =? IPPROTO_UDP) && (l4_dst_port df =? htons DP_BOOTP_SRV_PORT)
            then Some CONNTRACK_NEXT_DHCP else None)
  else if l3_type df =? RTE_ETHER_TYPE_IPV6 then
    dp_extract_ipv6_header 14 ;;
    ret ← dp_extract_l4_header (14 + sizeof_ipv6);
    if DP_FAILED ret then mret (Some CONNTRACK_NEXT_DROP)
    else
      df ← gets flow;
      mret (if (l4_type df =? IPPROTO_UDP) && (l4_dst_port df =? htons DHCPV6_SERVER_PORT)
            then Some CONNTRACK_NEXT_DHCPV6 else None)
  else mret None.

Definition conntrack_dispatch (port : dp_port) df : Z :=
  if negb (is_pf port) then CONNTRACK_NEXT_DNAT
  else match df_vnf_type df with
       | DP_VNF_TYPE_LB => CONNTRACK_NEXT_LB
       | DP_VNF_TYPE_VIP | DP_VNF_TYPE_NAT => CONNTRACK_NEXT_DNAT
       | DP_VNF_TYPE_LB_ALIAS_PFX | DP_VNF_TYPE_INTERFACE_IP | DP_VNF_TYPE_ALIAS_PFX => CONNTRACK_NEXT_FIREWALL
       | DP_VNF_TYPE_UNDEFINED => CONNTRACK_NEXT_DROP
       end.

Definition conntrack_get_next_index ce : NM Z :=
  early ← on_pkt conntrack_parse;
  match early with
  | Some edge => mret edge
  | None =>
      df ← get_df;
      if (l4_type df =? IPPROTO_TCP) || (l4_type df =? IPPROTO_UDP) || is_icmp (l4_type df) then
        ret ← dp_cntrack_handle ce;
        if DP_FAILED ret then mret CONNTRACK_NEXT_DROP
        else
          port ← on_pkt (get_in_port (fenv_ports (cn_flow ce)));
          df ← get_df;
          mret (conntrack_dispatch port df)
      else mret CONNTRACK_NEXT_DROP
  end.
End cntrack.
