(* ===== verification/CntrackTheorems.v ===== *)
(** Theorems on connection tracking ([Cntrack]): the TCP state machine, the
    flow a packet is attached to, and what the cache may do. *)

From S2P Require Import Prelude Errors RteHash IpAddr Port Packet Ipsec Vnf FlowKey Nat Flow FlowProofs Cntrack.

(** ** The TCP state machine *)

Section tcp.
Context `{ERR : RteErrno} {HT : RteHash dp_ipv6 dp_vnf} {VT : RteHash dp_vnf dp_ipv6}
  {ST : RteHash nat_key snat_data} {DT : RteHash nat_key dnat_data}
  {PM : RteHash netnat_portmap_key netnat_portmap_data}
  {PO : RteHash netnat_portoverload_tbl_key (option netnat_portoverload_sync_metadata)}
  {FT : RteHash flow_key ptr}.
Context (e : flow_env) (pf0 : Z).
Implicit Types (v : flow_value) (l : list (dp_flow_dir * Z * dp_port)).

(** A TCP packet of a known flow: its direction, flags and port. *)
Definition tcp_packet v (x : dp_flow_dir * Z * dp_port) : flow_value :=
  let '(dir, flags, port) := x in
  dp_cntrack_set_timeout_tcp_flow e pf0 port dir (dp_cntrack_tcp_state dir flags v).

Definition tcp_packets v l : flow_value := foldl tcp_packet v l.

Definition closes (flags : Z) : bool := DP_TCP_PKT_FLAG_RST flags || DP_TCP_PKT_FLAG_FIN flags.
Definition quiet l : Prop := Forall (fun x => closes x.1.2 = false) l.
Definition idle v : Prop := tcp_state v = DP_FLOW_TCP_STATE_NONE \/ tcp_state v = DP_FLOW_TCP_STATE_RST_FIN.

(** The beginnings of a connection in a sequence of packets: the first segment
    of the direction [d], then the answer, then the confirmation, and nothing
    that closes the connection in between or since. *)
Definition syn_seen v (d : dp_flow_dir) l : Prop :=
  exists l1 l2 f p, l = l1 ++ (d, f, p) :: l2 /\ idle (tcp_packets v l1)
    /\ DP_TCP_PKT_FLAG_ONLY_SYN f = true /\ quiet l2.
Definition synack_seen v (d : dp_flow_dir) l : Prop :=
  exists l1 l2 d' f p, l = l1 ++ (d', f, p) :: l2 /\ syn_seen v d l1 /\ d' <> d
    /\ DP_TCP_PKT_FLAG_ONLY_SYNACK f = true /\ quiet l2.
Definition handshake v l : Prop :=
  exists d l1 l2 f p, l = l1 ++ (d, f, p) :: l2 /\ synack_seen v d l1
    /\ DP_TCP_PKT_FLAG_ONLY_ACK f = true /\ quiet l2.

Lemma exact_not_closing flags required : Z.land required (Z.lor RTE_TCP_RST_FLAG RTE_TCP_FIN_FLAG) = 0 ->
  DP_TCP_PKT_FLAG_EXACT flags required = true -> closes flags = false.
Proof.
  unfold DP_TCP_PKT_FLAG_EXACT, closes, DP_TCP_PKT_FLAG_RST, DP_TCP_PKT_FLAG_FIN, has_flag. intros Hr He. bools.
  assert (forall bit, Z.land 0xFF bit = bit -> Z.land (Z.lor RTE_TCP_RST_FLAG RTE_TCP_FIN_FLAG) bit = bit ->
    Z.land flags bit = 0) as Hbit.
  { intros bit Hb Hb'. rewrite <-Hb at 1. rewrite Z.land_assoc, He. rewrite <-Hb', Z.land_assoc, Hr. done. }
  rewrite !Hbit by done. done.
Qed.

Lemma timeout_keeps port dir v :
  tcp_state (dp_cntrack_set_timeout_tcp_flow e pf0 port dir v) = tcp_state v
  /\ first_syn_flow_dir (dp_cntrack_set_timeout_tcp_flow e pf0 port dir v) = first_syn_flow_dir v.
Proof.
  unfold dp_cntrack_set_timeout_tcp_flow, dp_cntrack_change_flow_offload_flags.
  destruct v as [? ? ? ? ? ? ? ? ? ? ? ? ? ? ? ? ? ? ? ts ? ?]. destruct ts, (offload_mode_enabled e), dir; done.
Qed.

Lemma tcp_packets_snoc v l x : tcp_packets v (l ++ [x]) = tcp_packet (tcp_packets v l) x.
Proof. unfold tcp_packets. by rewrite foldl_app. Qed.

Lemma quiet_snoc l x : quiet l -> closes x.1.2 = false -> quiet (l ++ [x]).
Proof. intros. apply Forall_app. split; [done|]. by constructor. Qed.

Lemma syn_seen_snoc v d l x : syn_seen v d l -> closes x.1.2 = false -> syn_seen v d (l ++ [x]).
Proof.
  intros (l1 & l2 & f & p & -> & ? & ? & ?) ?. exists l1, (l2 ++ [x]), f, p. rewrite <-app_assoc.
  split_and!; try done. by apply quiet_snoc.
Qed.
Lemma synack_seen_snoc v d l x : synack_seen v d l -> closes x.1.2 = false -> synack_seen v d (l ++ [x]).
Proof.
  intros (l1 & l2 & d' & f & p & -> & ? & ? & ? & ?) ?. exists l1, (l2 ++ [x]), d', f, p. rewrite <-app_assoc.
  split_and!; try done. by apply quiet_snoc.
Qed.
Lemma handshake_snoc v l x : handshake v l -> closes x.1.2 = false -> handshake v (l ++ [x]).
Proof.
  intros (d & l1 & l2 & f & p & -> & ? & ? & ?) ?. exists d, l1, (l2 ++ [x]), f, p. rewrite <-app_assoc.
  split_and!; try done. by apply quiet_snoc.
Qed.

(** What the packets of a state show. *)
Definition shows v l : Prop :=
  let w := tcp_packets v l in
  match tcp_state w with
  | DP_FLOW_TCP_STATE_NEW_SYN => syn_seen v (first_syn_flow_dir w) l
  | DP_FLOW_TCP_STATE_NEW_SYNACK => synack_seen v (first_syn_flow_dir w) l
  | DP_FLOW_TCP_STATE_ESTABLISHED => handshake v l
  | _ => True
  end.

Lemma shows_snoc v l x : shows v l -> shows v (l ++ [x]).
Proof.
  unfold shows. rewrite tcp_packets_snoc. destruct x as [[dir flags] port]. cbn [tcp_packet].
  rewrite (proj1 (timeout_keeps _ _ _)), (proj2 (timeout_keeps _ _ _)). intros Hs.
  unfold dp_cntrack_tcp_state. destruct (closes flags) eqn:Hc; unfold closes in Hc.
  { destruct (DP_TCP_PKT_FLAG_RST flags); [done|]. cbn in Hc. rewrite Hc. destruct (tcp_state (tcp_packets v l)) eqn:E; done. }
  assert (closes (dir, flags, port).1.2 = false) as Hq by exact Hc.
  apply orb_false_iff in Hc as [-> ->]. destruct (tcp_state (tcp_packets v l)) eqn:E; rewrite ?E.
  - destruct (DP_TCP_PKT_FLAG_ONLY_SYN flags) eqn:Hf; [|by rewrite E]. cbn.
    exists l, [], flags, port. split_and!; try done; [by left | constructor].
  - destruct (DP_TCP_PKT_FLAG_ONLY_SYNACK flags) eqn:Hf; cbn [andb]; [|rewrite E; by apply syn_seen_snoc].
    case_bool_decide; cbn; rewrite ?E; [by apply syn_seen_snoc|].
    exists l, [], dir, flags, port. split_and!; try done. constructor.
  - destruct (DP_TCP_PKT_FLAG_ONLY_ACK flags) eqn:Hf; cbn [andb]; [|rewrite E; by apply synack_seen_snoc].
    case_bool_decide as Hd; cbn; rewrite ?E; [|by apply synack_seen_snoc].
    exists (first_syn_flow_dir (tcp_packets v l)), l, [], flags, port. rewrite Hd. split_and!; try done. constructor.
  - by apply handshake_snoc.
  - done.
  - destruct (DP_TCP_PKT_FLAG_ONLY_SYN flags) eqn:Hf; [|by rewrite E]. cbn.
    exists l, [], flags, port. split_and!; try done; [by right | constructor].
Qed.

Lemma shows_always v l : idle v -> shows v l.
Proof.
  intros Hi. induction l as [|x l IH] using rev_ind; [|by apply shows_snoc].
  unfold shows. cbn. by destruct Hi as [-> | ->].
Qed.

(** How far a connection of the direction [d] has come. *)
Definition progress (n : nat) (d : dp_flow_dir) v : Prop :=
  match tcp_state v with
  | DP_FLOW_TCP_STATE_NEW_SYN => (n <= 1)%nat /\ first_syn_flow_dir v = d
  | DP_FLOW_TCP_STATE_NEW_SYNACK => (n <= 2)%nat /\ first_syn_flow_dir v = d
  | DP_FLOW_TCP_STATE_ESTABLISHED => (n <= 3)%nat
  | _ => False
  end.

(** A packet that does not close the connection does not set it back; the
    packet that is due takes it further. *)
Lemma progress_packet n d v dir flags port : closes flags = false -> progress n d v ->
  progress n d (tcp_packet v (dir, flags, port)).
Proof.
  unfold progress. cbn [tcp_packet]. rewrite (proj1 (timeout_keeps _ _ _)), (proj2 (timeout_keeps _ _ _)).
  unfold closes, dp_cntrack_tcp_state. intros Hc. apply orb_false_iff in Hc as [-> ->].
  destruct (tcp_state v) eqn:E; try done; intros Hp; rewrite ?E; try done.
  - destruct (_ && _); cbn; rewrite ?E; [lia || (split; [lia | apply Hp]) | done].
  - destruct (_ && _); cbn; rewrite ?E; [lia | done].
Qed.

Lemma progress_quiet n d v l : quiet l -> progress n d v -> progress n d (tcp_packets v l).
Proof.
  intros Hq. revert v. induction Hq as [|[[dir flags] port] l Hx Hq IH]; intros v Hp; [done|].
  apply IH. by apply progress_packet.
Qed.

Lemma tcp_packets_app v l l' : tcp_packets v (l ++ l') = tcp_packets (tcp_packets v l) l'.
Proof. apply foldl_app. Qed.

Lemma syn_progress v d l : syn_seen v d l -> progress 1 d (tcp_packets v l).
Proof.
  intros (l1 & l2 & f & p & -> & Hi & Hf & Hq). rewrite tcp_packets_app. cbn. apply progress_quiet; [done|].
  unfold progress. cbn [tcp_packet]. rewrite (proj1 (timeout_keeps _ _ _)), (proj2 (timeout_keeps _ _ _)).
  pose proof (exact_not_closing f RTE_TCP_SYN_FLAG eq_refl Hf) as Hc. unfold closes, dp_cntrack_tcp_state in *.
  apply orb_false_iff in Hc as [-> ->]. rewrite Hf. destruct Hi as [-> | ->]; cbn; auto.
Qed.

Lemma synack_progress v d l : synack_seen v d l -> progress 2 d (tcp_packets v l).
Proof.
  intros (l1 & l2 & d' & f & p & -> & Hs & Hd & Hf & Hq). rewrite tcp_packets_app. cbn. apply progress_quiet; [done|].
  apply syn_progress in Hs. unfold progress in *. cbn [tcp_packet].
  rewrite (proj1 (timeout_keeps _ _ _)), (proj2 (timeout_keeps _ _ _)).
  pose proof (exact_not_closing f (Z.lor RTE_TCP_SYN_FLAG RTE_TCP_ACK_FLAG) eq_refl Hf) as Hc.
  unfold closes, dp_cntrack_tcp_state in *. apply orb_false_iff in Hc as [-> ->].
  destruct (tcp_state (tcp_packets v l1)) eqn:E; try done; rewrite ?E; try done.
  - destruct Hs as [_ Hs]. rewrite Hf, Hs, bool_decide_eq_false_2 by done. cbn. by split.
  - destruct Hs as [_ Hs]. destruct (_ && _); cbn; rewrite ?E; [lia | by split].
  - lia.
Qed.

Lemma handshake_progress v l : handshake v l -> tcp_state (tcp_packets v l) = DP_FLOW_TCP_STATE_ESTABLISHED.
Proof.
  intros (d & l1 & l2 & f & p & -> & Hs & Hf & Hq). rewrite tcp_packets_app. cbn.
  enough (progress 3 d (tcp_packets (tcp_packet (tcp_packets v l1) (d, f, p)) l2)) as Hp.
  { unfold progress in Hp. destruct (tcp_state _); try done; lia. }
  apply progress_quiet; [done|]. apply synack_progress in Hs. unfold progress in *. cbn [tcp_packet].
  rewrite (proj1 (timeout_keeps _ _ _)). pose proof (exact_not_closing f RTE_TCP_ACK_FLAG eq_refl Hf) as Hc.
  unfold closes, dp_cntrack_tcp_state in *. apply orb_false_iff in Hc as [-> ->].
  destruct (tcp_state (tcp_packets v l1)) eqn:E; try done; rewrite ?E; try done; destruct Hs as [? Hs]; [lia|].
  rewrite Hf, Hs, bool_decide_eq_true_2 by done. cbn. lia.
Qed.

Lemma timeout_extended v x : flow_timeout e <> DP_FLOW_TCP_EXTENDED_TIMEOUT ->
  timeout_value (tcp_packet v x) = DP_FLOW_TCP_EXTENDED_TIMEOUT <-> tcp_state (tcp_packet v x) = DP_FLOW_TCP_STATE_ESTABLISHED.
Proof.
  destruct x as [[dir flags] port]. intros Ht. cbn [tcp_packet]. rewrite (proj1 (timeout_keeps _ _ _)).
  generalize (dp_cntrack_tcp_state dir flags v). intros w.
  unfold dp_cntrack_set_timeout_tcp_flow, dp_cntrack_change_flow_offload_flags.
  destruct w as [? ? ? ? ? ? ? ? ? ? ? ? ? ? ? ? ? ? ? ts ? ?].
  destruct ts, (offload_mode_enabled e), dir; cbn; naive_solver.
Qed.

End tcp.

(** ** The flow of a packet *)

Section attach.
Context `{ERR : RteErrno} {HT : RteHash dp_ipv6 dp_vnf} {VT : RteHash dp_vnf dp_ipv6}
  {ST : RteHash nat_key snat_data} {DT : RteHash nat_key dnat_data}
  {PM : RteHash netnat_portmap_key netnat_portmap_data}
  {PO : RteHash netnat_portoverload_tbl_key (option netnat_portoverload_sync_metadata)}
  {FT : RteHash flow_key ptr}.
Implicit Types (ce : cntrack_env) (ns : node_state) (st : flow_state) (m : rte_mbuf) (p : ptr) (key : flow_key)
  (v : flow_value).

(** The allocator does not hand out memory that is in use. *)
Definition allocator_fresh ce : Prop := forall used p, cn_zmalloc ce used = Some p -> p ∉ used.

Lemma on_flow_run {A} (f : M flow_state A) m st a st' : f st = Some (a, st') ->
  on_flow f (mk_node m st) = Some (a, mk_node m st').
Proof. intros H. unfold on_flow. cbn. by rewrite H. Qed.
Lemma on_pkt_run {A} (f : M rte_mbuf A) m st a m' : f m = Some (a, m') ->
  on_pkt f (mk_node m st) = Some (a, mk_node m' st).
Proof. intros H. unfold on_pkt. cbn. by rewrite H. Qed.

Lemma get_df_run m st : get_df (mk_node m st) = Some (flow m, mk_node m st).
Proof. done. Qed.

Lemma flow_inv_ext st st' : flow_inv st -> flow_heap st' = flow_heap st -> flows st' = flows st ->
  (prev_key st' = prev_key st /\ curr_key st' = curr_key st /\ cached_flow_val st' = cached_flow_val st
     /\ (forall i, prev_key st = Some i -> cache_at i st' = cache_at i st)
   \/ prev_key st' = None) -> flow_inv st'.
Proof.
  intros [Hl Hr Hc Hx] Hh Hf Hcache. split; rewrite ?Hh, ?Hf; try done.
  intros i Hi. destruct Hcache as [(Hp & -> & -> & Hat)|Hp]; [|congruence].
  rewrite Hp in Hi. rewrite (Hat i Hi). by apply Hc.
Qed.

Lemma upd_keeps_inv st p v f : flow_inv st -> flow_heap st !! p = Some v ->
  ref_count (f v) = ref_count v -> rte_age_ctxs (f v) = rte_age_ctxs v ->
  flow_inv (set_flow_heap (<[p := f v]> (flow_heap st)) st).
Proof.
  intros [Hl Hr Hc Hx] Hp Hrc Hct. split; cbn.
  - intros k q Hq. destruct (decide (p = q)) as [->|Hne]; [rewrite lookup_insert_eq; by eexists|].
    rewrite lookup_insert_ne by done. by apply (Hl k).
  - intros q w Hq. apply lookup_insert_Some in Hq as [[<- <-]|[_ Hq]]; [|by apply Hr]. rewrite Hrc. by apply Hr.
  - apply Hc.
  - intros q w Hq. apply lookup_insert_Some in Hq as [[<- <-]|[_ Hq]]; [|by apply (Hx q)]. rewrite Hct. by apply (Hx p).
Qed.

Lemma insert_keeps_inv st st' p v key key' :
  flow_inv st -> flow_heap st !! p = None -> flows st !! key = None -> flows st !! key' = None -> key' <> key ->
  ref_count v = 2 -> rte_age_ctxs v = replicate DP_FLOW_VAL_AGE_CTX_CAPACITY None ->
  flow_heap st' = <[p := v]> (flow_heap st) -> flows st' = <[key' := p]> (<[key := p]> (flows st)) ->
  prev_key st' = prev_key st -> curr_key st' = curr_key st -> cached_flow_val st' = cached_flow_val st ->
  key_cache st' = key_cache st -> flow_inv st'.
Proof.
  intros [Hl Hr Hc Hx] Hp Hk Hk' Hne Hrc Hct Hh Hf Hprev Hcurr Hval Hcache.
  assert (forall k, flows st !! k <> Some p) as Hno.
  { intros k Hkp. destruct (Hl k p Hkp) as [w Hw]. congruence. }
  assert (refs (flows st) p = 0%nat) as H0.
  { destruct (refs (flows st) p) eqn:E; [done|]. destruct (proj1 (refs_pos (flows st) p) ltac:(lia)) as [k Hkp]. by destruct (Hno k). }
  assert (forall q, refs (flows st') q = if decide (p = q) then 2%nat else refs (flows st) q) as Hrefs.
  { intros q. rewrite Hf, refs_insert by (by rewrite lookup_insert_ne). rewrite refs_insert by done.
    case_decide; [|done]. subst. by rewrite H0. }
  split.
  - intros k q. rewrite Hf, Hh. intros Hq. destruct (decide (p = q)) as [->|Hpq]; [rewrite lookup_insert_eq; by eexists|].
    rewrite lookup_insert_ne by done. apply lookup_insert_Some in Hq as [[_ ?]|[_ Hq]]; [done|].
    apply lookup_insert_Some in Hq as [[_ ?]|[_ Hq]]; [done | by apply (Hl k)].
  - intros q w. rewrite Hh, Hrefs. intros Hq. apply lookup_insert_Some in Hq as [[<- <-]|[Hpq Hq]].
    + rewrite decide_True by done. lia.
    + rewrite decide_False by done. by apply Hr.
  - intros i. rewrite Hprev, Hcurr, Hval. intros Hi. destruct (Hc i Hi) as [? (q & ? & Hq)]. split; [done|].
    exists q. split; [done|]. unfold cache_at in *. rewrite Hcache, Hf.
    rewrite !lookup_insert_ne; [done | |]; intros Heq; rewrite <-Heq in Hq; congruence.
  - intros q w. rewrite Hh. intros Hq. apply lookup_insert_Some in Hq as [[_ <-]|[_ Hq]]; [done | by apply (Hx q)].
Qed.

Lemma add_flow_cases key p st : exists ret t, dp_add_flow key p st = Some (ret, set_flow_table t st)
  /\ (DP_FAILED ret = false /\ hash_view t = <[key := p]> (flows st)
      \/ DP_FAILED ret = true /\ hash_view t = flows st).
Proof.
  unfold dp_add_flow. erewrite M_bind_Some; [|reflexivity]. pose proof (hash_add_cases (flow_table st) key p) as Ha.
  destruct (rte_hash_add_key_data (flow_table st) key p) as [r t].
  destruct Ha as [(_ & Hr & Hv)|(_ & Hr & Hv & _)].
  - exists DP_OK, t. split; [|by left]. erewrite M_bind_Some; [|reflexivity]. by rewrite Hr.
  - exists r, t. split; [|by right]. erewrite M_bind_Some; [|reflexivity]. by rewrite Hr.
Qed.

Lemma new_flow_value_fields ce key df port :
  key_org (new_flow_value ce key df port) = key /\ ref_count (new_flow_value ce key df port) = 1
  /\ rte_age_ctxs (new_flow_value ce key df port) = replicate DP_FLOW_VAL_AGE_CTX_CAPACITY None
  /\ nf_nat_type (new_flow_value ce key df port) <> DP_FLOW_NAT_TYPE_NETWORK_NEIGH
  /\ nf_nat_type (new_flow_value ce key df port) <> DP_FLOW_LB_TYPE_FORWARD.
Proof.
  unfold new_flow_value, dp_cntrack_init_flow_offload_flags.
  repeat case_match; cbn; by split_and!.
Qed.

(** The packet after its flow has been looked up: only the direction and the
    hash have been written. *)
Definition directed m (dir : dp_flow_dir) (h : Z) : rte_mbuf := set_flow (set_dp_flow_hash h (set_flow_dir dir (flow m))) m.

Definition created st st' p key v : Prop :=
  flow_heap st !! p = None /\ flows st' = <[dp_invert_flow_key key := p]> (<[key := p]> (flows st))
  /\ flow_heap st' !! p = Some v /\ key_org v = key /\ key_reply v = dp_invert_flow_key key
  /\ nf_nat_type v <> DP_FLOW_NAT_TYPE_NETWORK_NEIGH /\ nf_nat_type v <> DP_FLOW_LB_TYPE_FORWARD.

Lemma insert_entry_run ce key port m st :
  flow_inv st -> allocator_fresh ce ->
  flows st !! key = None -> flows st !! dp_invert_flow_key key = None -> dp_invert_flow_key key <> key ->
  exists o m' st', flow_table_insert_entry ce key port (mk_node m st) = Some (o, mk_node m' st') /\ flow_inv st'
    /\ match o with
       | Some p => exists v h, created st st' p key v /\ m' = directed m DP_FLOW_DIR_ORG h
                     /\ key_cache st' = key_cache st /\ curr_key st' = curr_key st
       | None => flows st' = flows st
       end.
Proof.
  intros Hinv Hfresh Hk Hk' Hne. unfold flow_table_insert_entry.
  erewrite M_bind_Some; [|by apply on_flow_run]. destruct (cn_zmalloc ce (dom (flow_heap st))) as [p|] eqn:Hz.
  2: { exists None, m, st. by split_and!. }
  apply Hfresh, not_elem_of_dom in Hz.
  do 3 (erewrite M_bind_Some; [|reflexivity]). cbn [n_mbuf n_flow fst snd id].
  set (v := new_flow_value ce key (flow m) port). set (st1 := set_flow_heap (<[p := v]> (flow_heap st)) st).
  set (m1 := set_flow (set_flow_dir DP_FLOW_DIR_ORG (flow m)) m).
  destruct (new_flow_value_fields ce key (flow m) port) as (Hko & Hrc & Hct & Hn1 & Hn2). fold v in Hko, Hrc, Hct, Hn1, Hn2.
  destruct (add_flow_cases key p st1) as (ret & t & Hadd & Hcases).
  erewrite M_bind_Some; [|apply on_flow_run, Hadd]. destruct Hcases as [[-> Ht]|[-> Ht]].
  2: { do 1 (erewrite M_bind_Some; [|reflexivity]). exists None. eexists _, _. split; [reflexivity|].
       split; [|exact Ht]. apply flow_inv_ext with st; try done; [|left; by split_and!].
       cbn. by apply delete_insert_id. }
  do 2 (erewrite M_bind_Some; [|reflexivity]). cbn [n_mbuf n_flow fst snd].
  set (st2 := set_flow_table t st1). set (inv := dp_invert_flow_key key) in *.
  assert (flow_heap st2 !! p = Some v) as Hp2 by apply lookup_insert_eq.
  erewrite M_bind_Some; [|apply on_flow_run; by eapply upd_flow_val_run].
  set (st3 := set_flow_heap _ st2).
  assert (flow_heap st3 !! p = Some (set_key_reply inv v)) as Hp3 by apply lookup_insert_eq.
  destruct (add_flow_cases inv p st3) as (ret' & t' & Hadd' & Hcases').
  erewrite M_bind_Some; [|apply on_flow_run, Hadd']. destruct Hcases' as [[-> Ht']|[-> Ht']].
  - assert (dp_ref_inc p (set_flow_table t' st3)
      = Some (tt, set_flow_heap (<[p := set_ref_count 2 (set_key_reply inv v)]> (flow_heap st3)) (set_flow_table t' st3))) as Href.
    { unfold dp_ref_inc. erewrite M_bind_Some; [|by apply load_flow_run]. cbn [ref_count set_key_reply]. rewrite Hrc. cbn.
      by apply upd_flow_val_run. }
    erewrite M_bind_Some; [|apply on_flow_run, Href]. exists (Some p). eexists _, _. split; [reflexivity|].
    assert (flow_heap st3 = <[p := set_key_reply inv v]> (flow_heap st)) as Hh3 by (cbn; apply insert_insert_eq).
    assert (hash_view t' = <[inv := p]> (<[key := p]> (flows st))) as Hft by (rewrite Ht'; f_equal; exact Ht).
    split.
    + apply (insert_keeps_inv st _ p (set_ref_count 2 (set_key_reply inv v)) key inv); try done.
      cbn [flow_heap set_flow_heap]. rewrite Hh3. apply insert_insert_eq.
    + exists (set_ref_count 2 (set_key_reply inv v)). eexists. split; [|split; [reflexivity | done]].
      split_and!; try done. cbn. apply lookup_insert_eq.
  - assert (flows (set_flow_table t' st3) = <[key := p]> (flows st)) as Hf3 by (transitivity (hash_view t); [exact Ht' | exact Ht]).
    destruct (delete_flow_run (cn_flow ce) key p (set_key_reply inv v) (set_flow_table t' st3)) as (st' & Hdel & Hh & Htab & _ & Hprev);
      [by rewrite Hf3, lookup_insert_eq | exact Hp3 |].
    erewrite M_bind_Some; [|apply on_flow_run, Hdel]. exists None. eexists _, _. split; [reflexivity|].
    assert (flows st' = flows st) as Hfin.
    { rewrite (deleted_flows _ st' key p ltac:(by rewrite Hf3, lookup_insert_eq) Htab), Hf3. by apply delete_insert_id. }
    split; [|done]. apply flow_inv_ext with st; try done; [|by right].
    rewrite Hh. unfold dropped. cbn [ref_count set_key_reply]. rewrite Hrc. cbn.
    rewrite insert_insert_eq. by apply delete_insert_id.
Qed.

(** The direction a packet with the key [key] has in the flow [v]; a key of
    neither direction leaves it as it was. *)
Definition direction_of key v (old : dp_flow_dir) : dp_flow_dir :=
  if bool_decide (key = key_org v) then DP_FLOW_DIR_ORG
  else if bool_decide (key = key_reply v) then DP_FLOW_DIR_REPLY else old.

Lemma set_direction_run key p v m st : flow_heap st !! p = Some v ->
  exists h, dp_set_pkt_flow_direction key p (mk_node m st)
    = Some (tt, mk_node (directed m (direction_of key v (flow_dir (flow m))) h) st).
Proof.
  intros Hp. exists (rte_hash_hash (flow_table st) key). unfold dp_set_pkt_flow_direction, direction_of, dp_are_flows_identical.
  erewrite M_bind_Some; [|by apply on_flow_run, load_flow_run].
  destruct (bool_decide (key = key_reply v)); (erewrite M_bind_Some; [|reflexivity]);
    destruct (bool_decide (key = key_org v)); (erewrite M_bind_Some; [|reflexivity]);
    destruct m as [? ? ? ? ? ? ? ? ? df ?]; by destruct df.
Qed.

Lemma in_port_run ports m port : port_table_at ports (m_port m) = Some (Some port) ->
  get_in_port ports m = Some (port, m).
Proof. intros H. unfold get_in_port. m_unfold. by rewrite H. Qed.

Lemma offload_flag_fields e pf0 port df v :
  let w := dp_set_flow_offload_flag e pf0 port df v in
  ref_count w = ref_count v /\ rte_age_ctxs w = rte_age_ctxs v /\ key_org w = key_org v /\ key_reply w = key_reply v
  /\ nf_nat_type w = nf_nat_type v.
Proof.
  unfold dp_set_flow_offload_flag, dp_cntrack_change_flow_offload_flags. cbn zeta.
  destruct (offload_mode_enabled e), (flow_dir df); cbn [negb]; repeat case_match; done.
Qed.

Lemma known_flow_run ce key p v port m st :
  flow_inv st -> flow_heap st !! p = Some v ->
  port_table_at (fenv_ports (cn_flow ce)) (m_port m) = Some (Some port) ->
  exists h w, known_flow ce key p (mk_node m st)
      = Some (tt, mk_node (directed m (direction_of key v (flow_dir (flow m))) h) (set_flow_heap (<[p := w]> (flow_heap st)) st))
    /\ flow_inv (set_flow_heap (<[p := w]> (flow_heap st)) st)
    /\ key_org w = key_org v /\ key_reply w = key_reply v /\ nf_nat_type w = nf_nat_type v.
Proof.
  intros Hinv Hp Hport. unfold known_flow. destruct (set_direction_run key p v m st Hp) as [h Hdir].
  erewrite M_bind_Some; [|exact Hdir]. erewrite M_bind_Some; [|reflexivity].
  erewrite M_bind_Some; [|apply on_pkt_run, in_port_run, Hport].
  exists h. eexists. split; [apply on_flow_run; by apply upd_flow_val_run|].
  edestruct offload_flag_fields as (Hrc & Hct & Ho & Hr & Hn). split_and!; [|exact Ho | exact Hr | exact Hn].
  by apply upd_keeps_inv.
Qed.

Lemma write_cache_inv key st : flow_inv st -> flow_inv (write_cache (curr_key st) key st).
Proof.
  intros Hinv. apply flow_inv_ext with st; try done. left. split_and!; try done.
  intros i Hi. destruct (fi_cache _ Hinv i Hi) as [-> _]. by destruct i.
Qed.

Lemma cache_flow_inv key p st : flow_inv st -> flows st !! key = Some p -> read_cache (curr_key st) st = key ->
  exists st', dp_cache_flow_val p st = Some (tt, st') /\ flow_inv st' /\ flow_table st' = flow_table st /\ flow_heap st' = flow_heap st.
Proof.
  intros [Hl Hr Hc Hx] Hk Hkey. eexists. split; [reflexivity|]. split; [|done]. split; try done.
  cbn. intros i [= <-]. split; [done|]. exists p. split; [done|]. rewrite <-Hk, <-Hkey. done.
Qed.

Lemma read_write_cache i key st : read_cache i (write_cache i key st) = key.
Proof. by destruct i. Qed.

(** The packet [m'] belongs to the flow the table has for its key, which is
    the one it had before or a new one. *)
Definition attached st m key p st' m' : Prop :=
  exists v h, flows st' !! key = Some p /\ flow_heap st' !! p = Some v
    /\ m' = directed m (direction_of key v (flow_dir (flow m))) h
    /\ (flows st !! key = Some p /\ flows st' = flows st \/ flows st !! key = None /\ created st st' p key v).

Lemma known_attached ce key p port m st :
  flow_inv st -> flows st !! key = Some p -> port_table_at (fenv_ports (cn_flow ce)) (m_port m) = Some (Some port) ->
  exists m' w, known_flow ce key p (mk_node m st) = Some (tt, mk_node m' (set_flow_heap (<[p := w]> (flow_heap st)) st))
    /\ flow_inv (set_flow_heap (<[p := w]> (flow_heap st)) st)
    /\ attached st m key p (set_flow_heap (<[p := w]> (flow_heap st)) st) m'.
Proof.
  intros Hinv Hk Hport. destruct (fi_live _ Hinv key p Hk) as [v Hp].
  destruct (known_flow_run ce key p v port m st Hinv Hp Hport) as (h & w & Hrun & Hinv' & Ho & Hr & Hn).
  eexists _, w. split; [exact Hrun|]. split; [done|]. exists w, h. split_and!; try done.
  - apply lookup_insert_eq.
  - unfold direction_of. by rewrite Ho, Hr.
  - by left.
Qed.

Lemma attached_cached st m key p st1 st' m' : attached st m key p st1 m' ->
  flow_table st' = flow_table st1 -> flow_heap st' = flow_heap st1 -> attached st m key p st' m'.
Proof.
  unfold attached, created, flows. intros (v & h & H) Ht Hh. exists v, h. by rewrite Ht, Hh.
Qed.

Lemma get_flow_val_run ce key port m st :
  flow_inv st -> allocator_fresh ce -> port_table_at (fenv_ports (cn_flow ce)) (m_port m) = Some (Some port) ->
  dp_build_flow_key (cn_flow ce) (nat_tables st) (read_cache (curr_key st) st) m = Some ((DP_OK, key), m) ->
  dp_invert_flow_key key <> key -> (flows st !! key = None -> flows st !! dp_invert_flow_key key = None) ->
  exists r m' st', dp_get_flow_val ce (mk_node m st) = Some (r, mk_node m' st') /\ flow_inv st'
    /\ match r with
       | inr p => attached st m key p st' m'
       | inl ret => DP_FAILED ret = true /\ flows st' = flows st
       end.
Proof.
  intros Hinv Hfresh Hport Hkey Hself Hfree. unfold dp_get_flow_val.
  erewrite M_bind_Some; [|reflexivity]. cbn [n_mbuf n_flow fst snd id]. erewrite M_bind_Some; [|by apply on_pkt_run].
  cbv beta iota. erewrite M_bind_Some; [|reflexivity]. change (DP_FAILED DP_OK) with false. cbn [n_mbuf n_flow fst snd].
  erewrite M_bind_Some; [|reflexivity]. cbn [n_mbuf n_flow fst snd id].
  pose proof (write_cache_inv key st Hinv) as Hinv1. set (st1 := write_cache (curr_key st) key st) in *.
  assert (prev_key st1 = prev_key st) as Hprev by done.
  destruct (match prev_key st1 with Some i => dp_are_flows_identical key (read_cache i st1) | None => false end) eqn:Hhit.
  { destruct (prev_key st1) as [i|] eqn:Hi; [|done]. apply bool_decide_eq_true in Hhit.
    destruct (fi_cache _ Hinv1 i Hi) as [_ (p & Hval & Hp)]. change (cache_at i st1) with (read_cache i st1) in Hp.
    rewrite <-Hhit in Hp. change (cached_flow_val st1) with (cached_flow_val st) in *. rewrite Hval.
    erewrite M_bind_Some; [|reflexivity].
    destruct (known_attached ce key p port m st1 Hinv1 Hp Hport) as (m' & w & Hrun & Hinv' & Hat).
    erewrite M_bind_Some; [|exact Hrun]. by exists (inr p), m', (set_flow_heap (<[p := w]> (flow_heap st1)) st1). }
  erewrite M_bind_Some; [|reflexivity]. cbn [n_mbuf n_flow fst snd].
  rewrite hash_lookup_view. change (hash_view (flow_table st1)) with (flows st). destruct (flows st !! key) as [p|] eqn:Hk.
  - destruct (known_attached ce key p port m st1 Hinv1 Hk Hport) as (m' & w & Hrun & Hinv' & Hat).
    erewrite M_bind_Some; [|exact Hrun].
    destruct (cache_flow_inv key p _ Hinv' Hk (read_write_cache _ _ _)) as (st' & Hc & Hinv'' & Ht & Hh).
    erewrite M_bind_Some; [|apply on_flow_run, Hc]. exists (inr p), m', st'. split_and!; try done. by eapply attached_cached.
  - replace (negb (- ENOENT =? - ENOENT)) with false by (by rewrite Z.eqb_refl).
    erewrite M_bind_Some; [|apply on_pkt_run, in_port_run, Hport].
    destruct (insert_entry_run ce key port m st1 Hinv1 Hfresh Hk (Hfree eq_refl) Hself) as (o & m' & st2 & Hrun & Hinv2 & Ho).
    erewrite M_bind_Some; [|exact Hrun]. destruct o as [p|].
    + destruct Ho as (v & h & Hcr & -> & Hcache & Hcurr).
      assert (flows st2 !! key = Some p) as Hk2.
      { destruct Hcr as (_ & -> & _). rewrite lookup_insert_ne by done. apply lookup_insert_eq. }
      destruct (cache_flow_inv key p st2 Hinv2 Hk2) as (st' & Hc & Hinv'' & Ht & Hh).
      { unfold read_cache. rewrite Hcache, Hcurr. apply (read_write_cache (curr_key st) key st). }
      erewrite M_bind_Some; [|apply on_flow_run, Hc]. eexists (inr p), _, st'. split; [reflexivity|]. split; [done|].
      apply attached_cached with st2; [|done|done]. exists v, h. split_and!; try done; [by apply Hcr | | by right].
      unfold direction_of. rewrite (proj1 (proj2 (proj2 (proj2 Hcr)))), bool_decide_eq_true_2; done.
    + eexists (inl DP_ERROR), m', st2. split; [reflexivity|]. split_and!; [done | apply dp_failed_error | done].
Qed.

(** Updates of a flow that leave alone what identifies it. *)
Definition keeps_identity (f : flow_value -> flow_value) : Prop :=
  forall v, ref_count (f v) = ref_count v /\ rte_age_ctxs (f v) = rte_age_ctxs v /\ key_org (f v) = key_org v
    /\ key_reply (f v) = key_reply v /\ nf_nat_type (f v) = nf_nat_type v.

Lemma tcp_keeps_identity e pf0 port dir flags :
  keeps_identity (fun v => dp_cntrack_set_timeout_tcp_flow e pf0 port dir (dp_cntrack_tcp_state dir flags v)).
Proof.
  intros v. unfold dp_cntrack_set_timeout_tcp_flow, dp_cntrack_change_flow_offload_flags, dp_cntrack_tcp_state.
  destruct (offload_mode_enabled e), dir; cbn [negb]; repeat case_match; done.
Qed.

Lemma touch_attached st m key p st1 m1 f : flow_inv st1 -> attached st m key p st1 m1 -> keeps_identity f ->
  exists v, flow_heap st1 !! p = Some v /\ upd_flow_val p f st1 = Some (tt, set_flow_heap (<[p := f v]> (flow_heap st1)) st1)
    /\ flow_inv (set_flow_heap (<[p := f v]> (flow_heap st1)) st1)
    /\ attached st m key p (set_flow_heap (<[p := f v]> (flow_heap st1)) st1) m1.
Proof.
  intros Hinv (v & h & Hk & Hp & -> & Hcase) Hf. destruct (Hf v) as (Hrc & Hct & Ho & Hr & Hn).
  exists v. split_and!; [done | by apply upd_flow_val_run | by apply upd_keeps_inv|].
  exists (f v), h. split_and!; try done; [apply lookup_insert_eq | unfold direction_of; by rewrite Ho, Hr |].
  destruct Hcase as [Hold|[Hnone (? & ? & ? & ? & ? & ? & ?)]]; [by left | right]. split; [done|].
  split_and!; try done; [apply lookup_insert_eq | by rewrite Ho | by rewrite Hr | by rewrite Hn | by rewrite Hn].
Qed.

Definition conntrack_result ce key m st (ret : Z) m' st' : Prop :=
  if DP_FAILED ret then flows st' = flows st
  else exists p v, conntrack (flow m') = Some p /\ flows st' !! key = Some p /\ flow_heap st' !! p = Some v
    /\ timestamp v = cn_rdtsc ce /\ flow_dir (flow m') = direction_of key v (flow_dir (flow m))
    /\ (flows st !! key = Some p /\ flows st' = flows st
        \/ flows st !! key = None /\ flow_heap st !! p = None
           /\ flows st' = <[dp_invert_flow_key key := p]> (<[key := p]> (flows st))).

(** The rest of [dp_cntrack_handle] once the flow has been updated. *)
Definition finish_handle p : M node_state Z :=
  v ← on_flow (load_flow p);
  df ← get_df;
  let one_way := match nf_nat_type v with
                 | DP_FLOW_NAT_TYPE_NETWORK_NEIGH | DP_FLOW_LB_TYPE_FORWARD => true
                 | _ => false
                 end in
  if one_way && bool_decide (flow_dir df = DP_FLOW_DIR_REPLY) then mret DP_ERROR
  else
    on_pkt (upd_flow (fun df => set_offload_state
      (match flow_dir df with DP_FLOW_DIR_ORG => offload_orig v | DP_FLOW_DIR_REPLY => offload_reply v end)
      (set_conntrack (Some p) df))) ;;
    mret DP_OK.

Lemma finish_handle_run ce key p v m st m1 st1 : flow_inv st1 -> attached st m key p st1 m1 ->
  flow_heap st1 !! p = Some v -> timestamp v = cn_rdtsc ce ->
  exists ret m', finish_handle p (mk_node m1 st1) = Some (ret, mk_node m' st1) /\ conntrack_result ce key m st ret m' st1.
Proof.
  intros Hinv (v' & h & Hk & Hp & -> & Hcase) Hv Hts. assert (v' = v) as -> by congruence. unfold finish_handle.
  erewrite M_bind_Some; [|by apply on_flow_run, load_flow_run]. erewrite M_bind_Some; [|reflexivity].
  cbn zeta. destruct (_ && _) eqn:Hone.
  - exists DP_ERROR. eexists. split; [reflexivity|]. unfold conntrack_result. rewrite dp_failed_error.
    destruct Hcase as [[_ ?]|[_ (_ & _ & Hv' & _ & _ & Hn1 & Hn2)]]; [done|]. assert (nf_nat_type v = nf_nat_type v) by done.
    by destruct (nf_nat_type v).
  - exists DP_OK. eexists. split; [reflexivity|]. unfold conntrack_result. change (DP_FAILED DP_OK) with false.
    exists p, v. split_and!; try done. destruct Hcase as [?|[? (? & ? & _)]]; [by left | by right].
Qed.

Lemma tcp_keeps_timestamp e pf0 port dir flags v :
  timestamp (dp_cntrack_set_timeout_tcp_flow e pf0 port dir (dp_cntrack_tcp_state dir flags v)) = timestamp v.
Proof.
  unfold dp_cntrack_set_timeout_tcp_flow, dp_cntrack_change_flow_offload_flags, dp_cntrack_tcp_state.
  destruct (offload_mode_enabled e), dir; cbn [negb]; repeat case_match; done.
Qed.

Lemma build_key_offset e nat key0 m key m' : dp_build_flow_key e nat key0 m = Some ((DP_OK, key), m') ->
  exists off, tcp_hdr_off (flow m) = Some off /\ (off + tcp_flags_off + 1 <= 68)%nat.
Proof.
  unfold dp_build_flow_key, tcp_hdr_off. intros H. m_inv H.
  destruct (l3_type (flow m) =? RTE_ETHER_TYPE_IPV4); [eexists; split; [done | cbn; lia]|].
  destruct (l3_type (flow m) =? RTE_ETHER_TYPE_IPV6); [eexists; split; [done | cbn; lia]|].
  injection H as H _ _. pose proof dp_error_negative. unfold DP_OK in H. lia.
Qed.

Lemma rd_in_memory off n m : (off + n <= length (memory (buf m)))%nat -> exists x, rd off n m = Some (x, m).
Proof.
  intros Hlen. unfold rd, read_le. m_unfold. rewrite read_bytes_ok by done. by eexists.
Qed.

End attach.

Module CntrackExample.
#[export] Instance errno : RteErrno := dpdk_errno.
#[export] Instance handle_hash : RteHash dp_ipv6 dp_vnf := slot_hash (fun _ => 0).
#[export] Instance value_hash : RteHash dp_vnf dp_ipv6 := slot_hash (fun _ => 0).
#[export] Instance snat_hash : RteHash nat_key snat_data := slot_hash (fun _ => 0).
#[export] Instance dnat_hash : RteHash nat_key dnat_data := slot_hash (fun _ => 0).
#[export] Instance portmap_hash : RteHash netnat_portmap_key netnat_portmap_data := slot_hash (fun _ => 0).
#[export] Instance overload_hash : RteHash netnat_portoverload_tbl_key (option netnat_portoverload_sync_metadata) :=
  slot_hash (fun _ => 0).
#[export] Instance flow_hash : RteHash flow_key ptr := slot_hash (fun _ => 0).

Definition no_nat : nat_state := mk_nat_state (slot_empty _ 4) (slot_empty _ 4) (slot_empty _ 4) (slot_empty _ 4) [] ∅ [].

Definition vm_iface : dp_port_iface :=
  mk_iface [] 0 (mk_iface_cfg 0 0 0 (mk_ipv6 0 0) 0 (dp_set_ipaddr4 0) [] []) 100 false [] (mk_ipv6 1 1) 0 0 0 true false 0 0 0.
Definition vm : dp_port := mk_port false 3 0 1 true 0 0 [] [] vm_iface false 0.

Definition env : flow_env := mk_flow_env false 30 false {[3 := vm]} (mk_vnf_state (slot_empty _ 4) (slot_empty _ 4)).

(** An allocator that hands out the first free address. *)
Definition malloc (used : gset ptr) : option ptr := Some (fresh used).
Definition cenv : cntrack_env := mk_cntrack_env env 0 5000 malloc.

Lemma malloc_fresh : allocator_fresh cenv.
Proof. intros used p [= <-]. apply is_fresh. Qed.

Definition start (slots : nat) : flow_state :=
  mk_flow_state (slot_empty _ slots) ∅ ∅ no_nat (empty_key, empty_key) false None None.

Lemma start_empty slots : flows (start slots) = ∅.
Proof.
  unfold flows, hash_view. cbn.
  induction slots as [|n IH]; [done | exact IH].
Qed.

Lemma start_inv slots : flow_inv (start slots).
Proof. split; try done. intros key p. by rewrite start_empty, lookup_empty. Qed.

(** A UDP packet of the interface; the headers have been read. *)
Definition packet (src dst sport dport : Z) : rte_mbuf :=
  mk_mbuf (mk_buf [] (replicate 80 0) []) 3 0 0 0 0 0 0 0
    (set_l4_dst_port (htons dport) (set_l4_src_port (htons sport) (set_l4_type IPPROTO_UDP
      (set_dst_addr (htonl dst) (set_src_addr (htonl src) (set_l3_type RTE_ETHER_TYPE_IPV4 dp_init_flow))))))
    (mk_mark 0 false false).

Definition request : rte_mbuf := packet 0x0a000001 0x08080808 5000 53.
Definition request_key : flow_key :=
  mk_flow_key (dp_set_ipaddr4 0x08080808) IPPROTO_UDP 53 (dp_set_ipaddr4 0x0a000001) DP_VNF_TYPE_UNDEFINED 5000 100.


Definition SYN : Z := 0x02.
Definition SYN_ACK : Z := 0x12.
Definition ACK : Z := 0x10.


(** A connection that negotiates ECN (RFC 3168) sets the flags ECE and CWR in
    its SYN: the comparison of the whole flag byte does not take it for a SYN and
    the established connection keeps the short timeout. *)
Example ecn_connection_not_established :
  timeout_value (tcp_packets env 0 zero_flow_value
    [(DP_FLOW_DIR_ORG, 0xC2, vm); (DP_FLOW_DIR_REPLY, 0x52, vm); (DP_FLOW_DIR_ORG, ACK, vm); (DP_FLOW_DIR_ORG, ACK, vm)])
  = flow_timeout env.
Proof. reflexivity. Qed.

(** The table with the flow of [request]. *)
Definition one_flow : flow_state :=
  match flow_table_insert_entry cenv request_key vm (mk_node request (start 8)) with
  | Some (_, ns) => n_flow ns
  | None => start 8
  end.

Lemma one_flow_inv : flow_inv one_flow.
Proof.
  unfold one_flow.
  destruct (insert_entry_run cenv request_key vm request (start 8) (start_inv 8) malloc_fresh) as (o & m' & st' & -> & Hinv & _).
  - by rewrite start_empty, lookup_empty.
  - by rewrite start_empty, lookup_empty.
  - vm_compute. discriminate.
  - exact Hinv.
Qed.



(** What is left after a packet has been tracked and all flows have aged: the
    entries of the table and of the heap. *)
Definition left_after_ageing (m : rte_mbuf) : option (Z * nat) :=
  (fun r => (rte_hash_count (flow_table (n_flow r.2)), size (flow_heap (n_flow r.2)))) <$>
    (dp_cntrack_handle cenv ;; on_flow (dp_process_aged_flows_non_offload env (fun _ => inr 0) 1000000 1000)) (mk_node m (start 8)).

(** A packet whose two ends are equal has one key for both directions.  The
    entry is counted twice and entered once, so it is never freed. *)
Example self_connection_leaks :
  left_after_ageing request = Some (0, 0%nat)
  /\ left_after_ageing (packet 0x0a000001 0x0a000001 7 7) = Some (0, 1%nat).
Proof. vm_compute. by split. Qed.

(** A backup with the NAT entry of one flow of its peer. *)
Definition peer_source : netnat_portmap_key := mk_portmap_key 100 (dp_set_ipaddr4 0x0a000001) 5000.
Definition backup (slots : nat) : flow_state :=
  set_nat_tables (snd (dp_allocate_sync_snat_port true true peer_source
    (mk_overload_key 0xcb007101 1024 0x08080808 53 IPPROTO_UDP) 3 0 0 no_nat)) (start slots).

(** When a backup takes over and the flow table has no room for the second
    direction of a flow, the flow is released with its NAT entry and with the
    metadata of the entry, which is read afterwards. *)
Example takeover_reads_freed_metadata :
  (match dp_create_sync_snat_flows cenv (backup 2) with Some (ret, _) => Some ret | None => None end) = Some DP_OK
  /\ (match dp_create_sync_snat_flows cenv (backup 1) with Some (ret, _) => Some ret | None => None end) = None.
Proof. vm_compute. by split. Qed.
End CntrackExample.
