(* ===== verification/Maglev.v ===== *)
(** The load balancer's lookup table: [src/dp_maglev.c] and the structures of
    [include/dp_lb.h].

    The arrays of [struct lb_value] are lists of the array's length.  The
    permutation is kept as one row per backend; the code stores the rows one
    after the other. *)

From S2P Require Import Prelude Errors IpAddr.

Definition DP_LB_MAX_PORTS : nat := 16.
Definition DP_LB_MAX_IPS_PER_VIP : nat := 64.
Definition DP_LB_MAGLEV_LOOKUP_SIZE : nat := 503.

Record lb_port := mk_lb_port { lbp_protocol : Z; lbp_port : Z }.

Record lb_value := mk_lb_value {
  lb_id : list Z;
  lb_ports : list lb_port;
  back_end_ips : list dp_ipv6;
  maglev_hash : list Z;
  back_end_cnt : nat;
  lb_ul_addr : dp_ipv6
}.

Definition set_lb_id (x : list Z) (r : lb_value) : lb_value :=
  mk_lb_value x (lb_ports r) (back_end_ips r) (maglev_hash r) (back_end_cnt r) (lb_ul_addr r).
Definition set_lb_ports (x : list lb_port) (r : lb_value) : lb_value :=
  mk_lb_value (lb_id r) x (back_end_ips r) (maglev_hash r) (back_end_cnt r) (lb_ul_addr r).
Definition set_back_end_ips (x : list dp_ipv6) (r : lb_value) : lb_value :=
  mk_lb_value (lb_id r) (lb_ports r) x (maglev_hash r) (back_end_cnt r) (lb_ul_addr r).
Definition set_maglev_hash (x : list Z) (r : lb_value) : lb_value :=
  mk_lb_value (lb_id r) (lb_ports r) (back_end_ips r) x (back_end_cnt r) (lb_ul_addr r).
Definition set_back_end_cnt (x : nat) (r : lb_value) : lb_value :=
  mk_lb_value (lb_id r) (lb_ports r) (back_end_ips r) (maglev_hash r) x (lb_ul_addr r).
Definition set_lb_ul_addr (x : dp_ipv6) (r : lb_value) : lb_value :=
  mk_lb_value (lb_id r) (lb_ports r) (back_end_ips r) (maglev_hash r) (back_end_cnt r) x.


(** What [rte_zmalloc] returns. *)
Definition zero_lb_value : lb_value :=
  mk_lb_value (replicate 64 0) (replicate DP_LB_MAX_PORTS (mk_lb_port 0 0)) (replicate DP_LB_MAX_IPS_PER_VIP dp_empty_ipv6)
    (replicate DP_LB_MAGLEV_LOOKUP_SIZE 0) 0 dp_empty_ipv6.

(** ** Hashes *)

Definition DP_MURMURHASH2_MAGIC : Z := 0x5bd1e995.
Definition DP_DJB_HASH_MAGIC : Z := 5381.
Definition DP_MAGLEV_POS_FREE : Z := -1.

Definition murmur_word (h k : Z) : Z :=
  let k := u32 (k * DP_MURMURHASH2_MAGIC) in
  let k := Z.lxor k (Z.shiftr k 24) in
  let k := u32 (k * DP_MURMURHASH2_MAGIC) in
  Z.lxor (u32 (h * DP_MURMURHASH2_MAGIC)) k.

(** The words of the loop; sixteen bytes leave no tail. *)
Fixpoint murmur_words (n : nat) (bytes : list Z) (h : Z) : Z :=
  match n with
  | O => h
  | S n' => murmur_words n' (drop 4 bytes) (murmur_word h (le_join (take 4 bytes)))
  end.

Definition dp_murmur_hash2 (a : dp_ipv6) : Z :=
  let h := murmur_words 4 (ipv6_bytes a) 16 in
  let h := Z.lxor h (Z.shiftr h 13) in
  let h := u32 (h * DP_MURMURHASH2_MAGIC) in
  Z.lxor h (Z.shiftr h 15).

Definition dp_djb_hash (a : dp_ipv6) : Z :=
  Z.land (foldl (fun hash b => u32 (u32 (Z.shiftl hash 5) + hash + b)) DP_DJB_HASH_MAGIC (ipv6_bytes a)) 0x7fffffff.

(** ** The table *)

Definition permutation_row (a : dp_ipv6) : list nat :=
  let size := Z.of_nat DP_LB_MAGLEV_LOOKUP_SIZE in
  let offset := dp_murmur_hash2 a mod size in
  let skip := dp_djb_hash a mod (size - 1) + 1 in
  (fun j => Z.to_nat (u32 (offset + u32 (Z.of_nat j * skip)) mod size)) <$> seq 0 DP_LB_MAGLEV_LOOKUP_SIZE.

Definition dp_maglev_permutation (lbval : lb_value) : list (list nat) :=
  permutation_row <$> take (back_end_cnt lbval) (back_end_ips lbval).

(** The inner loop of one backend, from its next position on: how many
    positions it has passed, and the table if it found a free one. *)
Fixpoint place (row : list nat) (i : Z) (hash : list Z) : nat * option (list Z) :=
  match row with
  | [] => (0%nat, None)
  | pos :: row' =>
      if bool_decide (hash !! pos = Some DP_MAGLEV_POS_FREE) then (1%nat, Some (<[pos := i]> hash))
      else let '(n, r) := place row' i hash in (S n, r)
  end.

(** [(again, next, maglev_hash, num)] *)
Fixpoint dp_maglev_populate_iteration (rows : list (list nat)) (i : Z) (next : list nat) (hash : list Z) (num : nat)
  : bool * list nat * list Z * nat :=
  match rows, next with
  | row :: rows', n :: next' =>
      let '(k, r) := place (drop n row) i hash in
      match r with
      | Some hash' =>
          if bool_decide (S num = DP_LB_MAGLEV_LOOKUP_SIZE) then (false, (n + k)%nat :: next', hash', S num)
          else
            let '(again, next'', hash'', num') := dp_maglev_populate_iteration rows' (i + 1) next' hash' (S num) in
            (again, (n + k)%nat :: next'', hash'', num')
      | None =>
          let '(again, next'', hash'', num') := dp_maglev_populate_iteration rows' (i + 1) next' hash num in
          (again, (n + k)%nat :: next'', hash'', num')
      end
  | _, _ => (true, next, hash, num)
  end.

(** The [while] loop; [None] when it is still running. *)
Fixpoint populate_loop (fuel : nat) (rows : list (list nat)) (next : list nat) (hash : list Z) (num : nat) : option (list Z) :=
  match fuel with
  | O => None
  | S fuel' =>
      let '(again, next', hash', num') := dp_maglev_populate_iteration rows 0 next hash num in
      if again : bool then populate_loop fuel' rows next' hash' num' else Some hash'
  end.

(** [(int16_t)] does not change an index of a backend. *)
Definition fill_rest (cnt : nat) (hash : list Z) : list Z :=
  imap (fun i x => if x =? DP_MAGLEV_POS_FREE then Z.of_nat i mod Z.of_nat cnt else x) hash.

Section maglev.
Context `{RteErrno}.

Definition dp_maglev_populate (fuel : nat) (next_ok : bool) (lbval : lb_value) (permutation : list (list nat))
  : option (Z * lb_value) :=
  if negb next_ok then Some (DP_ERROR, lbval)
  else
    hash ← populate_loop fuel permutation (replicate (back_end_cnt lbval) 0%nat)
             (replicate DP_LB_MAGLEV_LOOKUP_SIZE DP_MAGLEV_POS_FREE) 0;
    Some (DP_OK, set_maglev_hash (fill_rest (back_end_cnt lbval) hash) lbval).

(** [perm_ok] and [next_ok]: the allocations succeed. *)
Definition dp_maglev_calc_hash_lookup_table (fuel : nat) (perm_ok next_ok : bool) (lbval : lb_value) : option (Z * lb_value) :=
  if negb perm_ok then Some (DP_ERROR, lbval)
  else
    r ← dp_maglev_populate fuel next_ok lbval (dp_maglev_permutation lbval);
    Some (if DP_FAILED (fst r) then DP_ERROR else DP_OK, snd r).

(** ** Backends *)

Fixpoint bytes_greater (l1 l2 : list Z) : bool :=
  match l1, l2 with
  | b1 :: l1', b2 :: l2' => if b1 <? b2 then false else if b1 >? b2 then true else bytes_greater l1' l2'
  | _, _ => false
  end.

Definition dp_is_ipv6_greater (ip1 ip2 : dp_ipv6) : bool := bytes_greater (ipv6_bytes ip1) (ipv6_bytes ip2).

(** [for (i = end_pos; i > start_pos; i--) ips[i] = ips[i - 1]] *)
Fixpoint shift_up (n i : nat) (ips : list dp_ipv6) : list dp_ipv6 :=
  match n with
  | O => ips
  | S n' => shift_up n' (i - 1) (match ips !! (i - 1)%nat with Some x => <[i := x]> ips | None => ips end)
  end.

(** [for (i = start_pos; i < end_pos; i++) ips[i] = ips[i + 1]] *)
Fixpoint shift_down (n i : nat) (ips : list dp_ipv6) : list dp_ipv6 :=
  match n with
  | O => ips
  | S n' => shift_down n' (S i) (match ips !! S i with Some x => <[i := x]> ips | None => ips end)
  end.

Definition dp_shift_back_end_ips (ips : list dp_ipv6) (start_pos end_pos : nat) (up : bool) : list dp_ipv6 :=
  if up then shift_up (end_pos - start_pos) end_pos ips else shift_down (end_pos - start_pos) start_pos ips.

Definition insert_position (lbval : lb_value) (back_ip : dp_ipv6) : nat :=
  default (back_end_cnt lbval)
    (find_index (fun ip => dp_is_ipv6_greater ip back_ip) (take (back_end_cnt lbval) (back_end_ips lbval))).

(** The work of the [while] loop is bounded by the size of the table. *)
Definition maglev_fuel : nat := DP_LB_MAGLEV_LOOKUP_SIZE.

Definition dp_add_maglev_backend (perm_ok next_ok : bool) (back_ip : dp_ipv6) (lbval : lb_value) : option (Z * lb_value) :=
  if bool_decide (DP_LB_MAX_IPS_PER_VIP <= back_end_cnt lbval)%nat then Some (DP_ERROR, lbval)
  else
    let pos := insert_position lbval back_ip in
    let ips := dp_shift_back_end_ips (back_end_ips lbval) pos (back_end_cnt lbval) true in
    dp_maglev_calc_hash_lookup_table maglev_fuel perm_ok next_ok
      (set_back_end_cnt (S (back_end_cnt lbval)) (set_back_end_ips (<[pos := back_ip]> ips) lbval)).

Definition dp_delete_maglev_backend (perm_ok next_ok : bool) (back_ip : dp_ipv6) (lbval : lb_value) : option (Z * lb_value) :=
  match find_index (fun ip => dp_ipv6_match ip back_ip) (take (back_end_cnt lbval) (back_end_ips lbval)) with
  | None => Some (DP_GRPC_ERR NOT_FOUND, lbval)
  | Some pos =>
      let last := (back_end_cnt lbval - 1)%nat in
      let ips := dp_shift_back_end_ips (back_end_ips lbval) pos last false in
      let lbval := set_back_end_cnt last (set_back_end_ips (<[last := dp_empty_ipv6]> ips) lbval) in
      if bool_decide (last = 0%nat) then Some (DP_OK, lbval)
      else
        r ← dp_maglev_calc_hash_lookup_table maglev_fuel perm_ok next_ok lbval;
        Some (if DP_FAILED (fst r) then DP_GRPC_ERR BACKIP_DEL else DP_OK, snd r)
  end.
End maglev.
