(* ===== verification/MaglevProofs.v ===== *)
(** The lookup table of [Maglev] is filled completely and evenly. *)

From stdpp Require Import sorting.
From S2P Require Import Prelude Errors IpAddr Maglev.

#[local] Notation N := DP_LB_MAGLEV_LOOKUP_SIZE.
#[local] Notation FREE := DP_MAGLEV_POS_FREE.

(** ** Rows are permutations *)

(** The size of the table is a prime. *)
Lemma skip_coprime s : 1 <= s <= 502 -> Z.gcd 503 s = 1.
Proof.
  intros Hs. assert (forallb (fun s => Z.gcd 503 (Z.of_nat s) =? 1) (seq 1 502) = true) as Hall by (vm_compute; reflexivity).
  rewrite forallb_forall in Hall. specialize (Hall (Z.to_nat s)). rewrite Z2Nat.id in Hall by lia.
  apply Z.eqb_eq, Hall. apply in_seq. lia.
Qed.

Lemma row_step o s j : 0 <= o < 503 -> 1 <= s <= 502 -> (j < 503)%nat ->
  u32 (o + u32 (Z.of_nat j * s)) = o + Z.of_nat j * s.
Proof. intros. unfold u32. rewrite (Z.mod_small (Z.of_nat j * s)) by nia. apply Z.mod_small. nia. Qed.

Lemma row_inj o s j k : 0 <= o < 503 -> 1 <= s <= 502 -> (j < 503)%nat -> (k < 503)%nat ->
  (o + Z.of_nat j * s) mod 503 = (o + Z.of_nat k * s) mod 503 -> j = k.
Proof.
  intros Ho Hs Hj Hk He.
  assert ((503 | (Z.of_nat j - Z.of_nat k) * s)) as Hd.
  { apply Z.mod_divide; [lia|]. replace ((Z.of_nat j - Z.of_nat k) * s) with ((o + Z.of_nat j * s) - (o + Z.of_nat k * s)) by ring.
    rewrite Zminus_mod, He, Z.sub_diag. done. }
  rewrite Z.mul_comm in Hd. apply Z.gauss in Hd; [|by apply skip_coprime]. destruct Hd as [q Hq]. nia.
Qed.

Lemma permutation_row_ok a : permutation_row a ≡ₚ seq 0 N.
Proof.
  unfold permutation_row. set (o := _ mod _). set (s := _ + 1).
  assert (0 <= o < 503) as Ho by (apply Z.mod_pos_bound; done).
  assert (1 <= s <= 502) as Hs.
  { pose proof (Z.mod_pos_bound (dp_djb_hash a) (Z.of_nat N - 1) ltac:(done)). change (Z.of_nat N - 1) with 502 in *. lia. }
  apply submseteq_length_Permutation; [|by rewrite length_fmap].
  apply NoDup_submseteq.
  - apply NoDup_fmap_2_strong; [|apply NoDup_seq]. intros j k Hj%elem_of_seq Hk%elem_of_seq He.
    change (0 + N)%nat with 503%nat in *. change (Z.of_nat N) with 503 in He. rewrite !row_step in He by (done || lia).
    apply (row_inj o s); [done | done | lia | lia |].
    apply Z2Nat.inj; [apply Z.mod_pos_bound; lia | apply Z.mod_pos_bound; lia | done].
  - intros x Hx. apply list_elem_of_fmap in Hx as (j & -> & _). apply elem_of_seq.
    pose proof (Z.mod_pos_bound (u32 (o + u32 (Z.of_nat j * s))) (Z.of_nat N) ltac:(done)). lia.
Qed.

(** ** Counting entries *)

Definition count (x : Z) (l : list Z) : nat := length (filter (fun y => y = x) l).

Lemma count_app x l1 l2 : count x (l1 ++ l2) = (count x l1 + count x l2)%nat.
Proof. unfold count. by rewrite filter_app, length_app. Qed.

Lemma count_cons x y l : count x (y :: l) = ((if decide (y = x) then 1 else 0) + count x l)%nat.
Proof. unfold count. rewrite filter_cons. case_decide; done. Qed.

Lemma count_insert x y z l pos : l !! pos = Some y ->
  (count x (<[pos := z]> l) + (if decide (y = x) then 1 else 0) = count x l + (if decide (z = x) then 1 else 0))%nat.
Proof.
  intros Hy. rewrite <-(take_drop_middle l pos y Hy) at 2. rewrite insert_take_drop by (by eapply lookup_lt_Some).
  rewrite !count_app, !count_cons. lia.
Qed.

Lemma count_pos x l : (0 < count x l)%nat -> x ∈ l.
Proof.
  unfold count. intros Hc. destruct (filter (fun y => y = x) l) as [|y l'] eqn:E; [cbn in Hc; lia|].
  assert (y ∈ filter (fun y => y = x) l) as Hy by (rewrite E; constructor). by apply list_elem_of_filter in Hy as [-> ?].
Qed.

(** The turns of backend [i] among the first [num] when [cnt] backends take
    turns. *)
Definition turns (cnt i num : nat) : nat := length (filter (fun k : nat => (k mod cnt)%nat = i) (seq 0 num)).

Lemma turns_S cnt i num : turns cnt i (S num) = (turns cnt i num + if decide (num mod cnt = i) then 1 else 0)%nat.
Proof.
  unfold turns. rewrite seq_S, filter_app, length_app. f_equal. cbn [Nat.add]. rewrite filter_cons, filter_nil.
  by case_decide.
Qed.

Lemma turns_share cnt i num : (i < cnt)%nat ->
  turns cnt i num = (num / cnt + if decide (i < num mod cnt) then 1 else 0)%nat.
Proof.
  intros Hi. induction num as [|num IH].
  { rewrite Nat.Div0.div_0_l, Nat.Div0.mod_0_l. done. }
  rewrite turns_S, IH. pose proof (Nat.div_mod_eq num cnt). pose proof (Nat.mod_upper_bound num cnt ltac:(lia)).
  destruct (decide (S (num mod cnt) = cnt)) as [Hw|Hw].
  - assert (S num / cnt = S (num / cnt) /\ S num mod cnt = 0)%nat as [-> ->].
    { assert (S num = 0 + S (num / cnt) * cnt)%nat as -> by nia. rewrite Nat.div_add, Nat.Div0.mod_add by lia.
      rewrite Nat.Div0.div_0_l, Nat.Div0.mod_0_l. lia. }
    repeat case_decide; lia.
  - assert (S num / cnt = num / cnt /\ S num mod cnt = S (num mod cnt))%nat as [-> ->].
    { assert (S num = S (num mod cnt) + num / cnt * cnt)%nat as -> by nia. rewrite Nat.div_add, Nat.Div0.mod_add by lia.
      rewrite Nat.div_small, Nat.mod_small by lia. lia. }
    repeat case_decide; lia.
Qed.

(** ** Filling the table *)

(** [next] of the rows have been passed, [num] positions are taken, in turns. *)
Record filling (rows : list (list nat)) (next : list nat) (hash : list Z) (num : nat) : Prop := {
  fl_length : length hash = N;
  fl_passed : Forall2 (fun row n => Forall (fun q => hash !! q <> Some FREE) (take n row)) rows next;
  fl_num : (num + count FREE hash = N)%nat;
  fl_share i : (i < length rows)%nat -> count (Z.of_nat i) hash = turns (length rows) i num;
  fl_range : Forall (fun x => x = FREE \/ 0 <= x < Z.of_nat (length rows)) hash
}.

Definition rows_ok (rows : list (list nat)) : Prop := Forall (fun row => row ≡ₚ seq 0 N) rows.

Lemma place_spec row i hash : (exists pos, pos ∈ row /\ hash !! pos = Some FREE) ->
  exists k pos, place row i hash = (S k, Some (<[pos := i]> hash)) /\ row !! k = Some pos /\ hash !! pos = Some FREE
    /\ Forall (fun q => hash !! q <> Some FREE) (take k row).
Proof.
  induction row as [|q row IH]; intros (pos & Hin & Hpos); [by apply not_elem_of_nil in Hin|]. cbn [place].
  case_bool_decide as Hq.
  - exists 0%nat, q. by split_and!.
  - apply elem_of_cons in Hin as [->|Hin]; [done|]. destruct IH as (k & p & -> & Hk & Hp & Hall); [by exists pos|].
    exists (S k), p. split_and!; try done. by constructor.
Qed.

(** As long as the table is not full, a backend finds a free position among
    those it has not passed. *)
Lemma free_ahead rows next hash num row n : filling rows next hash num -> (num < N)%nat -> row ≡ₚ seq 0 N ->
  Forall (fun q => hash !! q <> Some FREE) (take n row) ->
  exists pos, pos ∈ drop n row /\ hash !! pos = Some FREE.
Proof.
  intros Hf Hnum Hrow Hpassed. assert (FREE ∈ hash) as Hin by (apply count_pos; pose proof (fl_num _ _ _ _ Hf); lia).
  apply list_elem_of_lookup in Hin as [pos Hpos]. exists pos. split; [|done].
  assert (pos ∈ row) as Hin.
  { rewrite Hrow. apply elem_of_seq. pose proof (lookup_lt_Some _ _ _ Hpos). rewrite (fl_length _ _ _ _ Hf) in *. lia. }
  rewrite <-(take_drop n row) in Hin. apply elem_of_app in Hin as [Hin|]; [|done].
  rewrite Forall_forall in Hpassed. by destruct (Hpassed pos Hin).
Qed.

Lemma passed_mono (hash : list Z) (pos : nat) (i : Z) (row : list nat) n : i <> FREE ->
  Forall (fun q => hash !! q <> Some FREE) (take n row) ->
  Forall (fun q => <[pos := i]> hash !! q <> Some FREE) (take n row).
Proof.
  intros Hi Hall. eapply Forall_impl; [exact Hall|]. intros q Hq. destruct (decide (pos = q)) as [->|Hne].
  - destruct (decide (q < length hash)%nat); [rewrite list_lookup_insert_eq by done; congruence|].
    rewrite list_insert_ge by lia. done.
  - by rewrite list_lookup_insert_ne.
Qed.

Lemma passed_step (hash : list Z) (pos : nat) (row : list nat) n k :
  Forall (fun q => hash !! q <> Some FREE) (take n row) -> Forall (fun q => hash !! q <> Some FREE) (take k (drop n row)) ->
  drop n row !! k = Some pos -> hash !! pos <> Some FREE ->
  Forall (fun q => hash !! q <> Some FREE) (take (n + S k) row).
Proof.
  intros H1 H2 Hk Hp. rewrite <-take_take_drop. apply Forall_app. split; [done|].
  rewrite (take_S_r _ _ pos) by done. apply Forall_app. split; [done|]. by constructor.
Qed.

(** One backend, [length rows1]-th in turn, takes its next position. *)
Lemma place_step rows1 row rows2 next1 n next2 hash num :
  let rows := rows1 ++ row :: rows2 in
  rows_ok rows -> filling rows (next1 ++ n :: next2) hash num -> length next1 = length rows1 ->
  (num < N)%nat -> (num mod length rows)%nat = length rows1 ->
  exists k hash', place (drop n row) (Z.of_nat (length rows1)) hash = (k, Some hash')
    /\ filling rows (next1 ++ (n + k)%nat :: next2) hash' (S num).
Proof.
  intros rows Hrows Hf Hlen Hnum Hturn.
  pose proof (fl_passed _ _ _ _ Hf) as Hp. apply Forall2_app_inv in Hp as [Hp1 Hp2]; [|done].
  apply Forall2_cons in Hp2 as [Hp Hp2].
  apply Forall_app in Hrows as [_ Hrow]. apply Forall_cons in Hrow as [Hrow _].
  destruct (place_spec (drop n row) (Z.of_nat (length rows1)) hash) as (k & pos & Hplace & Hk & Hpos & Hbefore);
    [by eapply free_ahead|].
  exists (S k), (<[pos := Z.of_nat (length rows1)]> hash). split; [done|].
  assert (Z.of_nat (length rows1) <> FREE) as Hi by (unfold FREE; lia).
  assert (length rows1 < length rows)%nat as Hlt by (unfold rows; rewrite length_app; cbn; lia).
  split.
  - rewrite length_insert. apply Hf.
  - apply Forall2_app; [eapply Forall2_impl; [exact Hp1|]; intros; by apply passed_mono|].
    constructor; [|eapply Forall2_impl; [exact Hp2|]; intros; by apply passed_mono].
    apply passed_step with pos; [by apply passed_mono | by apply passed_mono | done |].
    rewrite list_lookup_insert_eq by (by eapply lookup_lt_Some). congruence.
  - pose proof (count_insert FREE FREE (Z.of_nat (length rows1)) hash pos Hpos) as Hc.
    rewrite decide_True, decide_False in Hc by done. pose proof (fl_num _ _ _ _ Hf). lia.
  - intros i Hi'. pose proof (count_insert (Z.of_nat i) FREE (Z.of_nat (length rows1)) hash pos Hpos) as Hc.
    rewrite turns_S, <-(fl_share _ _ _ _ Hf i Hi'), Hturn. rewrite (decide_False (P := FREE = Z.of_nat i)) in Hc by (unfold FREE; lia).
    destruct (decide (length rows1 = i)) as [<-|Hne]; [rewrite decide_True in Hc by done; lia|].
    rewrite (decide_False (P := Z.of_nat _ = _)) in Hc by lia. lia.
  - apply Forall_insert; [apply Hf|]. right. lia.
Qed.

Lemma iteration_fills rows2 : forall rows1 next1 next2 hash num,
  let rows := rows1 ++ rows2 in
  rows_ok rows -> filling rows (next1 ++ next2) hash num -> length next1 = length rows1 ->
  (num < N)%nat -> (rows2 <> [] -> (num mod length rows)%nat = length rows1) ->
  exists again next' hash' num',
    dp_maglev_populate_iteration rows2 (Z.of_nat (length rows1)) next2 hash num = (again, next', hash', num')
    /\ filling rows (next1 ++ next') hash' num'
    /\ (if again : bool then (num' < N)%nat /\ num' = (num + length rows2)%nat else num' = N).
Proof.
  induction rows2 as [|row rows2 IH]; intros rows1 next1 next2 hash num rows Hrows Hf Hlen Hnum Hturn.
  { exists true, next2, hash, num. cbn. split_and!; try done; lia. }
  assert (exists n next2', next2 = n :: next2') as (n & next2' & ->).
  { pose proof (Forall2_length _ _ _ (fl_passed _ _ _ _ Hf)) as Hl. unfold rows in Hl. rewrite !length_app in Hl. cbn in Hl.
    destruct next2 as [|n next2']; [cbn in Hl; lia | by exists n, next2']. }
  destruct (place_step rows1 row rows2 next1 n next2' hash num Hrows Hf Hlen Hnum (Hturn ltac:(done))) as (k & hash' & Hplace & Hf').
  cbn [dp_maglev_populate_iteration]. rewrite Hplace. case_bool_decide as Hfull.
  { eexists false, _, hash', (S num). split; [reflexivity|]. by split. }
  destruct (IH (rows1 ++ [row]) (next1 ++ [(n + k)%nat]) next2' hash' (S num)) as (again & next' & hash'' & num' & Hrun & Hf'' & Hagain).
  - unfold rows in Hrows. by rewrite <-app_assoc.
  - rewrite <-!app_assoc. exact Hf'.
  - rewrite !length_app. cbn. lia.
  - lia.
  - intros Hne. rewrite <-app_assoc. cbn [app]. fold rows. specialize (Hturn ltac:(done)). rewrite length_app. cbn [length].
    assert (S (S (length rows1)) <= length rows)%nat.
    { unfold rows. rewrite length_app. cbn. destruct rows2; [done|]. cbn. lia. }
    pose proof (Nat.div_mod_eq num (length rows)). symmetry. apply (Nat.mod_unique _ _ (num / length rows)); lia.
  - replace (Z.of_nat (length (rows1 ++ [row]))) with (Z.of_nat (length rows1) + 1) in Hrun by (rewrite length_app; cbn; lia).
    rewrite Hrun. eexists again, _, hash'', num'. split; [reflexivity|]. rewrite <-!app_assoc in Hf''. split; [exact Hf''|].
    destruct again; [|done]. cbn. lia.
Qed.

Lemma populate_fills rows : rows <> [] -> rows_ok rows -> forall fuel next hash num,
  filling rows next hash num -> (num < N)%nat -> (num mod length rows = 0)%nat -> (N <= num + fuel)%nat ->
  exists hash' next', populate_loop fuel rows next hash num = Some hash' /\ filling rows next' hash' N.
Proof.
  intros Hne Hrows. induction fuel as [|fuel IH]; intros next hash num Hf Hnum Hturn Hfuel; [lia|].
  destruct (iteration_fills rows [] [] next hash num Hrows Hf eq_refl Hnum (fun _ => Hturn))
    as (again & next' & hash' & num' & Hrun & Hf' & Hagain).
  cbn [populate_loop]. cbn [length] in Hrun. change (Z.of_nat 0) with 0 in Hrun. rewrite Hrun.
  assert (0 < length rows)%nat by (destruct rows; [done | cbn; lia]). destruct again.
  - destruct Hagain as [Hlt ->]. apply IH; [done | done | | lia].
    rewrite <-(Nat.mul_1_l (length rows)) at 1. by rewrite Nat.Div0.mod_add.
  - subst num'. by exists hash', next'.
Qed.

Lemma fill_rest_full cnt hash : count FREE hash = 0%nat -> fill_rest cnt hash = hash.
Proof.
  intros Hc. unfold fill_rest. apply list_eq. intros i. rewrite list_lookup_imap.
  destruct (hash !! i) as [x|] eqn:Hx; [|done]. cbn. destruct (x =? FREE) eqn:E; [|done]. bools.
  exfalso. apply list_elem_of_lookup_2 in Hx. unfold count in Hc. apply nil_length_inv in Hc.
  assert (x ∈ filter (fun y => y = FREE) hash) as Hin by (by apply list_elem_of_filter). rewrite Hc in Hin. by apply not_elem_of_nil in Hin.
Qed.

(** ** The table of a list of backends *)

Definition maglev_table (backends : list dp_ipv6) : list Z :=
  default [] (populate_loop maglev_fuel (permutation_row <$> backends) (replicate (length backends) 0%nat) (replicate N FREE) 0).

Record balanced (cnt : nat) (hash : list Z) : Prop := {
  bal_length : length hash = N;
  bal_range : Forall (fun x => 0 <= x < Z.of_nat cnt) hash;
  bal_share i : (i < cnt)%nat -> count (Z.of_nat i) hash = (N / cnt + if decide (i < N mod cnt) then 1 else 0)%nat
}.

Lemma count_replicate_eq x n : count x (replicate n x) = n.
Proof. induction n as [|n IH]; [done|]. cbn [replicate]. rewrite count_cons, decide_True, IH; done. Qed.
Lemma count_replicate_ne x y n : y <> x -> count x (replicate n y) = 0%nat.
Proof. intros Hne. induction n as [|n IH]; [done|]. cbn [replicate]. by rewrite count_cons, decide_False, IH. Qed.

Lemma filling_start rows : filling rows (replicate (length rows) 0%nat) (replicate N FREE) 0.
Proof.
  split.
  - apply length_replicate.
  - induction rows as [|row rows IH]; cbn; constructor; try done.
  - by rewrite count_replicate_eq.
  - intros i Hi. rewrite count_replicate_ne by (unfold FREE; lia). done.
  - apply Forall_replicate. by left.
Qed.

Lemma maglev_table_spec backends : backends <> [] ->
  populate_loop maglev_fuel (permutation_row <$> backends) (replicate (length backends) 0%nat) (replicate N FREE) 0
    = Some (maglev_table backends)
  /\ count FREE (maglev_table backends) = 0%nat /\ balanced (length backends) (maglev_table backends).
Proof.
  intros Hne. set (rows := permutation_row <$> backends).
  assert (length rows = length backends) as Hl by apply length_fmap.
  destruct (populate_fills rows ltac:(by destruct backends)) with (fuel := maglev_fuel) (next := replicate (length rows) 0%nat)
    (hash := replicate N FREE) (num := 0%nat) as (hash & next & Hrun & Hf).
  - apply Forall_fmap, Forall_true. apply permutation_row_ok.
  - apply filling_start.
  - unfold DP_LB_MAGLEV_LOOKUP_SIZE. lia.
  - apply Nat.Div0.mod_0_l.
  - unfold maglev_fuel. lia.
  - rewrite <-Hl. unfold maglev_table. fold rows. rewrite <-Hl, Hrun. cbn [default from_option id].
    assert (count FREE hash = 0%nat) as H0 by (pose proof (fl_num _ _ _ _ Hf); lia).
    split_and!; [done | done |]. split; [apply Hf | |].
    + pose proof (fl_range _ _ _ _ Hf) as Hr. rewrite Forall_forall in Hr |- *. intros x Hx. destruct (Hr x Hx) as [->|]; [|done].
      exfalso. unfold count in H0. apply nil_length_inv in H0.
      assert (FREE ∈ filter (fun y => y = FREE) hash) as Hin by (by apply list_elem_of_filter). rewrite H0 in Hin. by apply not_elem_of_nil in Hin.
    + intros i Hi. rewrite (fl_share _ _ _ _ Hf i Hi). by apply turns_share.
Qed.

Definition backends (lbval : lb_value) : list dp_ipv6 := take (back_end_cnt lbval) (back_end_ips lbval).

Section backends.
Context `{RteErrno}.

Lemma calc_table lbval : (0 < back_end_cnt lbval <= length (back_end_ips lbval))%nat ->
  dp_maglev_calc_hash_lookup_table maglev_fuel true true lbval = Some (DP_OK, set_maglev_hash (maglev_table (backends lbval)) lbval).
Proof.
  intros Hc. assert (length (backends lbval) = back_end_cnt lbval) as Hl by (unfold backends; rewrite length_take; lia).
  destruct (maglev_table_spec (backends lbval)) as (Hrun & H0 & _); [by intros He; rewrite He in Hl; cbn in Hl; lia|].
  unfold dp_maglev_calc_hash_lookup_table, dp_maglev_populate, dp_maglev_permutation. fold (backends lbval). cbn [negb].
  rewrite <-Hl, Hrun. cbn [mbind option_bind fst snd]. rewrite fill_rest_full by done. done.
Qed.

(** ** The sorted array of backends *)

Lemma shift_up_insert pre mid y post ip :
  <[length pre := ip]> (shift_up (length mid) (length pre + length mid) (pre ++ mid ++ y :: post)) = pre ++ ip :: mid ++ post.
Proof.
  revert y post. induction mid as [|m mid IH] using rev_ind; intros y post.
  { cbn. by rewrite insert_app_r_alt, Nat.sub_diag by lia. }
  rewrite length_app. cbn [length]. rewrite Nat.add_1_r. cbn [shift_up].
  replace (length pre + S (length mid) - 1)%nat with (length pre + length mid)%nat by lia.
  assert ((pre ++ (mid ++ [m]) ++ y :: post) !! (length pre + length mid)%nat = Some m) as Hm.
  { rewrite lookup_app_r by lia. replace (length pre + length mid - length pre)%nat with (length mid) by lia.
    rewrite <-app_assoc, lookup_app_r by lia. by rewrite Nat.sub_diag. }
  rewrite Hm, insert_app_r_alt by lia. replace (length pre + S (length mid) - length pre)%nat with (S (length mid)) by lia.
  rewrite <-app_assoc, insert_app_r_alt by lia. replace (S (length mid) - length mid)%nat with 1%nat by lia.
  cbn [app insert list_insert]. rewrite IH. by rewrite <-!app_assoc.
Qed.

Lemma shift_down_insert pre x mid post e :
  <[(length pre + length mid)%nat := e]> (shift_down (length mid) (length pre) (pre ++ x :: mid ++ post)) = pre ++ mid ++ e :: post.
Proof.
  revert pre x. induction mid as [|m mid IH]; intros pre x.
  { cbn. by rewrite insert_app_r_alt, Nat.add_0_r, Nat.sub_diag by lia. }
  cbn [length shift_down]. rewrite lookup_app_r by lia. replace (S (length pre) - length pre)%nat with 1%nat by lia. cbn [lookup list_lookup app].
  rewrite insert_app_r_alt, Nat.sub_diag by lia. cbn [insert list_insert].
  specialize (IH (pre ++ [m]) m). rewrite length_app in IH. cbn [length] in IH. rewrite <-!app_assoc in IH. cbn [app] in IH.
  rewrite Nat.add_1_r in IH. rewrite Nat.add_succ_r. exact IH.
Qed.

(** The order of the addresses, byte by byte. *)
Definition ip_lt (a b : dp_ipv6) : Prop := dp_is_ipv6_greater b a = true.

Lemma bytes_greater_irrefl l : bytes_greater l l = false.
Proof. induction l as [|b l IH]; [done|]. cbn. rewrite Z.ltb_irrefl, Z.gtb_ltb, Z.ltb_irrefl. done. Qed.

Lemma bytes_greater_trans l1 l2 l3 : bytes_greater l1 l2 = true -> bytes_greater l2 l3 = true -> bytes_greater l1 l3 = true.
Proof.
  revert l2 l3. induction l1 as [|b1 l1 IH]; intros [|b2 l2] [|b3 l3]; cbn; try done. rewrite !Z.gtb_ltb.
  destruct (b1 <? b2) eqn:E1, (b2 <? b1) eqn:E2, (b2 <? b3) eqn:E3, (b3 <? b2) eqn:E4,
    (b1 <? b3) eqn:E5, (b3 <? b1) eqn:E6; bools; try done; try lia. apply IH.
Qed.

Lemma bytes_greater_total l1 l2 : length l1 = length l2 -> bytes_greater l1 l2 = false -> bytes_greater l2 l1 = false -> l1 = l2.
Proof.
  revert l2. induction l1 as [|b1 l1 IH]; intros [|b2 l2]; cbn; try done. intros [= Hl]. rewrite !Z.gtb_ltb.
  destruct (b1 <? b2) eqn:E1, (b2 <? b1) eqn:E2; bools; try done; try lia. intros. f_equal; [lia | by apply IH].
Qed.

Lemma ip_lt_total a b : ipv6_ok a -> ipv6_ok b -> ~ ip_lt a b -> a <> b -> ip_lt b a.
Proof.
  unfold ip_lt, dp_is_ipv6_greater. intros Ha Hb Hn Hne.
  destruct (bytes_greater (ipv6_bytes a) (ipv6_bytes b)) eqn:E; [done|]. destruct Hne.
  rewrite <-(ipv6_bytes_roundtrip a Ha), <-(ipv6_bytes_roundtrip b Hb). f_equal.
  apply bytes_greater_total; [|done | by apply not_true_is_false].
  unfold ipv6_bytes. by rewrite !length_app, !length_le_split.
Qed.

#[local] Instance ip_lt_antisymm : AntiSymm eq ip_lt.
Proof.
  intros a b Hab Hba. pose proof (bytes_greater_trans _ _ _ Hab Hba) as H1. by rewrite bytes_greater_irrefl in H1.
Qed.

Lemma ip_lt_trans a b c : ip_lt a b -> ip_lt b c -> ip_lt a c.
Proof. intros Hab Hbc. exact (bytes_greater_trans _ _ _ Hbc Hab). Qed.
Lemma ip_greater_irrefl a : dp_is_ipv6_greater a a = false.
Proof. apply bytes_greater_irrefl. Qed.
#[local] Opaque dp_is_ipv6_greater.

Lemma StronglySorted_app_lt l1 x l2 : StronglySorted ip_lt (l1 ++ l2) ->
  Forall (fun a => ip_lt a x) l1 -> Forall (ip_lt x) l2 -> StronglySorted ip_lt (l1 ++ x :: l2).
Proof.
  rewrite !StronglySorted_app. intros (H12 & Hs1 & Hs2) H1 H2. rewrite Forall_forall in H1, H2. split_and!.
  - intros a b Ha Hb. apply elem_of_cons in Hb as [->|Hb]; auto.
  - exact Hs1.
  - apply SSorted_cons; [exact Hs2|]. by apply Forall_forall.
Qed.

(** ** The invariant *)

(** The backends are sorted, without repetition, in front of the array and the
    table is theirs. *)
Record lb_ok (lbval : lb_value) : Prop := {
  lbo_cnt : (back_end_cnt lbval <= DP_LB_MAX_IPS_PER_VIP)%nat;
  lbo_len : length (back_end_ips lbval) = DP_LB_MAX_IPS_PER_VIP;
  lbo_ips : back_end_ips lbval
    = backends lbval ++ replicate (DP_LB_MAX_IPS_PER_VIP - back_end_cnt lbval) dp_empty_ipv6;
  lbo_addr : Forall ipv6_ok (backends lbval);
  lbo_sorted : StronglySorted ip_lt (backends lbval);
  lbo_table : backends lbval <> [] -> maglev_hash lbval = maglev_table (backends lbval)
}.

Lemma backends_length lbval : lb_ok lbval -> length (backends lbval) = back_end_cnt lbval.
Proof.
  intros Hok. unfold backends. rewrite length_take, (lbo_len _ Hok). pose proof (lbo_cnt _ Hok). lia.
Qed.

(** A value whose array holds [l] and whose table is that of [l]. *)
Lemma lb_ok_of l lbval : (length l <= DP_LB_MAX_IPS_PER_VIP)%nat -> Forall ipv6_ok l -> StronglySorted ip_lt l ->
  back_end_cnt lbval = length l -> back_end_ips lbval = l ++ replicate (DP_LB_MAX_IPS_PER_VIP - length l) dp_empty_ipv6 ->
  (l <> [] -> maglev_hash lbval = maglev_table l) -> lb_ok lbval /\ backends lbval = l.
Proof.
  intros Hlen Hok Hs Hc Hips Ht. assert (backends lbval = l) as Hb.
  { unfold backends. rewrite Hc, Hips. by rewrite take_app_length. }
  split; [|exact Hb]. split; rewrite ?Hb, ?Hc; try assumption. rewrite Hips, length_app, length_replicate. lia.
Qed.

Lemma insert_position_spec b ip : Forall ipv6_ok b -> StronglySorted ip_lt b -> ipv6_ok ip -> ip ∉ b ->
  let pos := default (length b) (find_index (fun x => dp_is_ipv6_greater x ip) b) in
  (pos <= length b)%nat /\ Forall (fun x => ip_lt x ip) (take pos b) /\ Forall (ip_lt ip) (drop pos b).
Proof.
  intros Hok Hs Hip Hnot. rewrite Forall_forall in Hok.
  assert (forall x, x ∈ b -> dp_is_ipv6_greater x ip = false -> ip_lt x ip) as Hless.
  { intros x Hx Hg. apply ip_lt_total; [done | by apply Hok | | by intros ->]. unfold ip_lt. by rewrite Hg. }
  destruct (find_index _ b) as [i|] eqn:Hf; cbn [default from_option id].
  - apply find_index_Some in Hf as (x & Hi & Hx & Hbefore). pose proof (lookup_lt_Some _ _ _ Hi). split_and!; [lia | |].
    + apply Forall_forall. intros y Hy. apply list_elem_of_lookup in Hy as [j Hj]. apply lookup_take_Some in Hj as [Hj Hlt].
      apply Hless; [by eapply list_elem_of_lookup_2 | by eapply Hbefore].
    + rewrite (drop_S b x i Hi). apply Forall_cons. split; [exact Hx|].
      rewrite <-(take_drop_middle b i x Hi) in Hs. apply StronglySorted_app_1_r in Hs. apply StronglySorted_inv in Hs as [_ Hs].
      eapply Forall_impl; [exact Hs|]. intros y Hy. exact (ip_lt_trans ip x y Hx Hy).
  - rewrite find_index_None in Hf. rewrite firstn_all, drop_all. split_and!; [done | | by constructor].
    apply Forall_forall. intros x Hx. apply Hless; auto.
Qed.

Lemma add_backend lbval ip : lb_ok lbval -> ipv6_ok ip -> ip ∉ backends lbval ->
  (back_end_cnt lbval < DP_LB_MAX_IPS_PER_VIP)%nat ->
  exists lbval', dp_add_maglev_backend true true ip lbval = Some (DP_OK, lbval') /\ lb_ok lbval'
    /\ backends lbval' ≡ₚ ip :: backends lbval.
Proof.
  intros Hok Hip Hnot Hroom. pose proof (backends_length _ Hok) as Hlen. pose proof (lbo_ips _ Hok) as Hips.
  set (b := backends lbval) in *.
  destruct (insert_position_spec b ip (lbo_addr _ Hok) (lbo_sorted _ Hok) Hip Hnot) as (Hpos & Hbefore & Hafter).
  unfold dp_add_maglev_backend. rewrite bool_decide_eq_false_2 by lia.
  change (insert_position lbval ip) with (default (back_end_cnt lbval) (find_index (fun x => dp_is_ipv6_greater x ip) b)).
  rewrite <-Hlen in *. set (pos := default (length b) _) in *.
  set (l := take pos b ++ ip :: drop pos b).
  assert (length l = S (length b)) as Hl by (unfold l; rewrite length_app, length_take; cbn [length]; rewrite length_drop; lia).
  assert (<[pos := ip]> (dp_shift_back_end_ips (back_end_ips lbval) pos (length b) true)
          = l ++ replicate (DP_LB_MAX_IPS_PER_VIP - S (length b)) dp_empty_ipv6) as Hshift.
  { rewrite Hips. replace (DP_LB_MAX_IPS_PER_VIP - length b)%nat with (S (DP_LB_MAX_IPS_PER_VIP - S (length b))) by lia.
    cbn [replicate]. unfold l. rewrite <-(take_drop pos b) at 1. rewrite <-app_assoc, <-app_assoc. cbn [app].
    rewrite <-shift_up_insert with (y := dp_empty_ipv6). unfold dp_shift_back_end_ips. rewrite length_take, length_drop.
    replace (Nat.min pos (length b)) with pos by lia. replace (pos + (length b - pos))%nat with (length b) by lia. done. }
  rewrite Hshift, calc_table.
  2: { cbn [back_end_cnt back_end_ips set_back_end_cnt set_back_end_ips]. rewrite length_app. lia. }
  eexists. split; [reflexivity|].
  match goal with |- lb_ok ?x /\ _ => destruct (lb_ok_of l x) as [Hok' Hb'] end.
  - lia.
  - unfold l. apply Forall_app. split; [apply Forall_take, Hok|]. apply Forall_cons. split; [done | apply Forall_drop, Hok].
  - unfold l. apply StronglySorted_app_lt; [rewrite take_drop; apply Hok | done | done].
  - cbn. by rewrite Hl.
  - cbn [back_end_ips set_maglev_hash set_back_end_cnt set_back_end_ips]. by rewrite Hl.
  - intros _. cbn [maglev_hash set_maglev_hash]. f_equal. unfold backends.
    cbn [back_end_cnt back_end_ips set_back_end_cnt set_back_end_ips]. rewrite <-Hl. apply take_app_length.
  - split; [exact Hok'|]. rewrite Hb'. unfold l. rewrite <-Permutation_middle, take_drop. done.
Qed.

Lemma delete_backend lbval ip : lb_ok lbval -> ip ∈ backends lbval ->
  exists lbval', dp_delete_maglev_backend true true ip lbval = Some (DP_OK, lbval') /\ lb_ok lbval'
    /\ backends lbval ≡ₚ ip :: backends lbval'.
Proof.
  intros Hok Hin. pose proof (backends_length _ Hok) as Hlen. pose proof (lbo_ips _ Hok) as Hips. pose proof (lbo_cnt _ Hok) as Hcnt.
  set (b := backends lbval) in *. unfold dp_delete_maglev_backend. change (take (back_end_cnt lbval) (back_end_ips lbval)) with b.
  destruct (find_index _ b) as [pos|] eqn:Hf.
  2: { rewrite find_index_None in Hf. specialize (Hf ip Hin). by rewrite (proj2 (dp_ipv6_match_spec ip ip) eq_refl) in Hf. }
  apply find_index_Some in Hf as (x & Hi & Hx & _). apply dp_ipv6_match_spec in Hx as ->.
  pose proof (lookup_lt_Some _ _ _ Hi) as Hlt. pose proof (take_drop_middle b pos ip Hi) as Hb.
  set (pre := take pos b) in *. set (mid := drop (S pos) b) in *. set (l := pre ++ mid).
  assert (length pre = pos) as Hp by (unfold pre; rewrite length_take; lia).
  assert (length mid = (length b - S pos)%nat) as Hm by (unfold mid; by rewrite length_drop).
  rewrite <-Hlen in *. assert (length l = (length b - 1)%nat) as Hl by (unfold l; rewrite length_app; lia).
  assert (<[(length b - 1)%nat := dp_empty_ipv6]> (dp_shift_back_end_ips (back_end_ips lbval) pos (length b - 1) false)
          = l ++ replicate (DP_LB_MAX_IPS_PER_VIP - (length b - 1)) dp_empty_ipv6) as Hshift.
  { rewrite Hips. replace (DP_LB_MAX_IPS_PER_VIP - (length b - 1))%nat with (S (DP_LB_MAX_IPS_PER_VIP - length b)) by lia.
    cbn [replicate]. unfold l. rewrite <-app_assoc, <-(shift_down_insert pre ip). unfold dp_shift_back_end_ips.
    replace (length pre + length mid)%nat with (length b - 1)%nat by lia. replace (length b - 1 - pos)%nat with (length mid) by lia.
    rewrite <-Hb at 2. by rewrite <-app_assoc, Hp. }
  rewrite Hshift.
  assert (Forall ipv6_ok l /\ StronglySorted ip_lt l) as [Hlok Hls].
  { pose proof (lbo_addr _ Hok) as Ha. pose proof (lbo_sorted _ Hok) as Hs. fold b in Ha, Hs. rewrite <-Hb in Ha, Hs.
    apply Forall_app in Ha as [? [_ ?]%Forall_cons]. apply StronglySorted_app in Hs as (H12 & ? & [? _]%StronglySorted_inv).
    split; [by apply Forall_app|]. apply StronglySorted_app. split_and!; try assumption. intros u v Hu Hv.
    apply H12; [done|]. apply elem_of_cons. by right. }
  assert (b ≡ₚ ip :: l) as Hperm by (rewrite <-Hb; unfold l; by rewrite <-Permutation_middle).
  case_bool_decide as Hz.
  - eexists. split; [reflexivity|]. destruct (lb_ok_of l (set_back_end_cnt (length b - 1)
      (set_back_end_ips (l ++ replicate (DP_LB_MAX_IPS_PER_VIP - (length b - 1)) dp_empty_ipv6) lbval))) as [Hok' Hb'];
      [lia | done | done | cbn; lia | cbn [back_end_ips set_back_end_cnt set_back_end_ips]; by rewrite Hl | |].
    { intros Hne. destruct l; [done|]. cbn in Hl. lia. }
    split; [exact Hok'|]. by rewrite Hb'.
  - rewrite calc_table by (cbn [back_end_cnt back_end_ips set_back_end_cnt set_back_end_ips]; rewrite length_app; lia).
    cbn [mbind option_bind fst snd]. change (DP_FAILED DP_OK) with false. eexists. split; [reflexivity|].
    match goal with |- lb_ok ?x /\ _ => destruct (lb_ok_of l x) as [Hok' Hb'] end;
      [lia | done | done | cbn; lia | cbn [back_end_ips set_maglev_hash set_back_end_cnt set_back_end_ips]; by rewrite Hl | |].
    { intros _. cbn [maglev_hash set_maglev_hash]. f_equal. unfold backends.
      cbn [back_end_cnt back_end_ips set_back_end_cnt set_back_end_ips]. rewrite <-Hl. apply take_app_length. }
    split; [exact Hok'|]. by rewrite Hb'.
Qed.

Lemma sorted_NoDup l : StronglySorted ip_lt l -> NoDup l.
Proof.
  induction 1 as [|x l Hs IH Hx]; [apply NoDup_nil_2|]. apply NoDup_cons. split; [|exact IH].
  intros Hin. rewrite Forall_forall in Hx. pose proof (Hx x Hin) as Hxx. unfold ip_lt in Hxx. by rewrite ip_greater_irrefl in Hxx.
Qed.

(** A sorted list is determined by its elements. *)
Lemma sorted_same_elements l1 l2 : StronglySorted ip_lt l1 -> StronglySorted ip_lt l2 ->
  (forall ip, ip ∈ l1 <-> ip ∈ l2) -> l1 = l2.
Proof.
  intros H1 H2 He. apply (StronglySorted_unique ip_lt); [exact H1 | exact H2|].
  apply NoDup_Permutation; [by apply sorted_NoDup | by apply sorted_NoDup | exact He].
Qed.
End backends.
