(* ===== verification/Lb.v ===== *)
(** Load balancers: [src/dp_lb.c] and [src/nodes/lb_node.c].

    A load balancer is filed under its VNI and address; its entry lives in a
    heap, since the table holds a pointer to it.  A second table leads from the
    identifier to the key; it owns its data. *)

From S2P Require Import Prelude Errors RteHash IpAddr Port Packet Ipsec Vnf FlowKey Nat Flow Cntrack Maglev.

Record lb_key := mk_lb_key { lbk_vni : Z; lbk_ip : dp_ip_address }.
#[export] Instance lb_key_eq_dec : EqDecision lb_key.
Proof. solve_decision. Defined.
#[export] Instance lb_key_countable : Countable lb_key.
Proof. refine (inj_countable' (fun k => (lbk_vni k, lbk_ip k)) (fun p => mk_lb_key p.1 p.2) _). by intros []. Defined.

(** [struct dpgrpc_lb]; ports in host byte order. *)
Record dpgrpc_lb := mk_grpc_lb { glb_id : list Z; glb_addr : dp_ip_address; glb_vni : Z; glb_ports : list lb_port; glb_ul : dp_ipv6 }.

Section lb.
Context `{ERR : RteErrno} {LT : RteHash lb_key ptr} {IT : RteHash (list Z) lb_key}.

Record lb_state := mk_lb_state {
  lb_table : rte_hash lb_key ptr;
  lb_heap : gmap ptr lb_value;
  id_map_lb_tbl : rte_hash (list Z) lb_key
}.
Definition set_lb_table (x : rte_hash lb_key ptr) (r : lb_state) : lb_state := mk_lb_state x (lb_heap r) (id_map_lb_tbl r).
Definition set_lb_heap (x : gmap ptr lb_value) (r : lb_state) : lb_state := mk_lb_state (lb_table r) x (id_map_lb_tbl r).
Definition set_id_map (x : rte_hash (list Z) lb_key) (r : lb_state) : lb_state := mk_lb_state (lb_table r) (lb_heap r) x.
Implicit Types (st : lb_state) (id : list Z) (ip : dp_ipv6).

Definition load_lb (p : ptr) : M lb_state lb_value := h ← gets lb_heap; get_some (h !! p).
Definition store_lb (p : ptr) (v : lb_value) : M lb_state unit := load_lb p ;; h ← gets lb_heap; modify (set_lb_heap (<[p := v]> h)).
(** [rte_free] *)
Definition free_lb (p : ptr) : M lb_state unit := load_lb p ;; h ← gets lb_heap; modify (set_lb_heap (delete p h)).

(** ** Requests *)

Definition dp_map_lb_handle (malloc_ok : bool) id (l_key : lb_key) (p : ptr) : M lb_state Z :=
  if negb malloc_ok then mret DP_ERROR
  else
    v ← load_lb p;
    store_lb p (set_lb_id id v) ;;
    t ← gets id_map_lb_tbl;
    let '(ret, t') := rte_hash_add_key_data t id l_key in
    modify (set_id_map t') ;;
    mret (if DP_FAILED ret then ret else DP_OK).

(** [zmalloc] hands out the address of the entry, [malloc_ok] tells whether
    there is memory for the key. *)
Definition dp_create_lb (zmalloc : gset ptr -> option ptr) (malloc_ok : bool) (lb : dpgrpc_lb) ip : M lb_state Z :=
  let key := mk_lb_key (glb_vni lb) (dp_copy_ipaddr (glb_addr lb)) in
  t ← gets lb_table;
  match rte_hash_lookup_data t key with
  | inr p => load_lb p ;; mret (DP_GRPC_ERR ALREADY_EXISTS)
  | inl _ =>
      h ← gets lb_heap;
      match zmalloc (dom h) with
      | None => mret (DP_GRPC_ERR OUT_OF_MEMORY)
      | Some p =>
          modify (set_lb_heap (<[p := zero_lb_value]> h)) ;;
          let '(ret, t') := rte_hash_add_key_data t key p in
          modify (set_lb_table t') ;;
          if DP_FAILED ret then free_lb p ;; mret (DP_GRPC_ERR OUT_OF_MEMORY)
          else
            ret ← dp_map_lb_handle malloc_ok (glb_id lb) key p;
            if DP_FAILED ret then free_lb p ;; mret (DP_GRPC_ERR OUT_OF_MEMORY)
            else
              v ← load_lb p;
              store_lb p (set_lb_ports ((fun lp => mk_lb_port (lbp_protocol lp) (htons (lbp_port lp))) <$> glb_ports lb)
                            (set_lb_ul_addr ip v)) ;;
              mret DP_OK
      end
  end.

Definition lb_reply (id : list Z) (key : lb_key) (v : lb_value) : dpgrpc_lb :=
  mk_grpc_lb id (dp_copy_ipaddr (lbk_ip key)) (lbk_vni key)
    ((fun lp => mk_lb_port (lbp_protocol lp) (ntohs (lbp_port lp))) <$> lb_ports v) (lb_ul_addr v).

(** The identifier is not written. *)
Definition dp_get_lb id : M lb_state (Z * option dpgrpc_lb) :=
  it ← gets id_map_lb_tbl;
  match rte_hash_lookup_data it id with
  | inl _ => mret (DP_GRPC_ERR NOT_FOUND, None)
  | inr key =>
      t ← gets lb_table;
      match rte_hash_lookup_data t key with
      | inl _ => mret (DP_GRPC_ERR NO_BACKIP, None)
      | inr p => v ← load_lb p; mret (DP_OK, Some (lb_reply [] key v))
      end
  end.

Definition dp_delete_lb id : M lb_state Z :=
  it ← gets id_map_lb_tbl;
  match rte_hash_lookup_data it id with
  | inl _ => mret (DP_GRPC_ERR NOT_FOUND)
  | inr key =>
      t ← gets lb_table;
      match rte_hash_lookup_data t key with
      | inl _ => mret tt
      | inr p => free_lb p ;; modify (set_lb_table (snd (rte_hash_del_key t key)))
      end ;;
      modify (fun st => set_id_map (snd (rte_hash_del_key (id_map_lb_tbl st) id)) st) ;;
      mret DP_OK
  end.

(** [reply_ok n]: the responder has room for reply number [n]. *)
Fixpoint list_lbs_loop (fuel : nat) (reply_ok : nat -> bool) (iter : nat) (replies : list dpgrpc_lb)
  : M lb_state (Z * list dpgrpc_lb) :=
  match fuel with
  | O => mret (DP_OK, replies)
  | S fuel' =>
      t ← gets lb_table;
      match rte_hash_iterate t iter with
      | None => mret (DP_OK, replies)
      | Some (key, p, iter') =>
          if negb (reply_ok (length replies)) then mret (DP_GRPC_ERR OUT_OF_MEMORY, replies)
          else v ← load_lb p; list_lbs_loop fuel' reply_ok iter' (replies ++ [lb_reply (lb_id v) key v])
      end
  end.

Definition dp_list_lbs (reply_ok : nat -> bool) : M lb_state (Z * list dpgrpc_lb) :=
  it ← gets id_map_lb_tbl;
  t ← gets lb_table;
  if rte_hash_count it =? 0 then mret (DP_OK, [])
  else list_lbs_loop (S (length (hash_slots t))) reply_ok 0 [].

(** ** Targets *)

Definition dp_lb_is_back_ip_inserted (v : lb_value) ip : bool := existsb (fun b => dp_ipv6_match b ip) (back_end_ips v).

(** The entry of an identifier. *)
Definition find_lb id : M lb_state (Z + ptr) :=
  it ← gets id_map_lb_tbl;
  match rte_hash_lookup_data it id with
  | inl _ => mret (inl (DP_GRPC_ERR NO_LB))
  | inr key =>
      t ← gets lb_table;
      match rte_hash_lookup_data t key with
      | inl _ => mret (inl (DP_GRPC_ERR NO_BACKIP))
      | inr p => mret (inr p)
      end
  end.

(** [perm_ok] and [next_ok]: the allocations of the lookup table succeed. *)
Definition dp_add_lb_back_ip (perm_ok next_ok : bool) id ip : M lb_state Z :=
  r ← find_lb id;
  match r with
  | inl ret => mret ret
  | inr p =>
      v ← load_lb p;
      if dp_lb_is_back_ip_inserted v ip then mret (DP_GRPC_ERR ALREADY_EXISTS)
      else
        r ← get_some (dp_add_maglev_backend perm_ok next_ok ip v);
        store_lb p (snd r) ;;
        mret (if DP_FAILED (fst r) then DP_GRPC_ERR BACKIP_ADD else DP_OK)
  end.

Definition dp_del_lb_back_ip (perm_ok next_ok : bool) id ip : M lb_state Z :=
  r ← find_lb id;
  match r with
  | inl ret => mret ret
  | inr p =>
      v ← load_lb p;
      r ← get_some (dp_delete_maglev_backend perm_ok next_ok ip v);
      store_lb p (snd r) ;;
      mret (fst r)
  end.

Fixpoint single_back_ips (reply_ok : nat -> bool) (ips : list dp_ipv6) (replies : list dp_ip_address) : Z * list dp_ip_address :=
  match ips with
  | [] => (DP_OK, replies)
  | b :: ips' =>
      if dp_is_ipv6_zero b then single_back_ips reply_ok ips' replies
      else if negb (reply_ok (length replies)) then (DP_GRPC_ERR OUT_OF_MEMORY, replies)
      else single_back_ips reply_ok ips' (replies ++ [dp_set_ipaddr6 b])
  end.

Definition dp_get_single_lb_back_ips (reply_ok : nat -> bool) (v : lb_value) (replies : list dp_ip_address) : Z * list dp_ip_address :=
  single_back_ips reply_ok (back_end_ips v) replies.

Fixpoint all_back_ips_loop (fuel : nat) (reply_ok : nat -> bool) (iter : nat) (replies : list dp_ip_address)
  : M lb_state (Z * list dp_ip_address) :=
  match fuel with
  | O => mret (DP_OK, replies)
  | S fuel' =>
      t ← gets lb_table;
      match rte_hash_iterate t iter with
      | None => mret (DP_OK, replies)
      | Some (_, p, iter') =>
          v ← load_lb p;
          all_back_ips_loop fuel' reply_ok iter' (snd (dp_get_single_lb_back_ips reply_ok v replies))
      end
  end.

Definition dp_get_all_lb_back_ips (reply_ok : nat -> bool) : M lb_state (Z * list dp_ip_address) :=
  it ← gets id_map_lb_tbl;
  t ← gets lb_table;
  if rte_hash_count it =? 0 then mret (DP_OK, [])
  else all_back_ips_loop (S (length (hash_slots t))) reply_ok 0 [].

(** An empty identifier asks for all. *)
Definition dp_get_lb_back_ips (reply_ok : nat -> bool) id : M lb_state (Z * list dp_ip_address) :=
  if match id with c :: _ => c =? 0 | [] => true end then dp_get_all_lb_back_ips reply_ok
  else
    r ← find_lb id;
    match r with
    | inl ret => mret (ret, [])
    | inr p => v ← load_lb p; mret (dp_get_single_lb_back_ips reply_ok v [])
    end.

(** ** Packets *)

Definition dp_is_lb_enabled st : bool := rte_hash_count (lb_table st) >? 0.

Definition dp_is_ip_lb (df : dp_flow) (vni : Z) st : bool :=
  let lookup addr := match rte_hash_lookup_data (lb_table st) (mk_lb_key vni addr) with inr _ => true | inl _ => false end in
  if l3_type df =? RTE_ETHER_TYPE_IPV4 then lookup (dp_set_ipaddr4 (ntohl (dst_addr df)))
  else if l3_type df =? RTE_ETHER_TYPE_IPV6 then lookup (dp_set_ipaddr6 (df_dst df))
  else false.

Fixpoint dp_lb_port_match (ports : list lb_port) (port_dst proto : Z) : bool :=
  match ports with
  | [] => false
  | lp :: ports' =>
      if lbp_port lp =? 0 then false
      else if (lbp_port lp =? port_dst) && (lbp_protocol lp =? proto) then true
      else dp_lb_port_match ports' port_dst proto
  end.

(** [hash] is [dp_get_conntrack_flow_hash_value]. *)
Definition dp_lb_get_backend_ip (hash : flow_key -> Z) (key : flow_key) (vni : Z) : M lb_state (option dp_ipv6) :=
  t ← gets lb_table;
  match rte_hash_lookup_data t (mk_lb_key vni (dp_copy_ipaddr (l3_dst key))) with
  | inl _ => mret None
  | inr p =>
      v ← load_lb p;
      if bool_decide (back_end_cnt v = 0%nat) then mret None
      else if negb (dp_lb_port_match (lb_ports v) (htons (port_dst key)) (key_proto key)) then mret None
      else
        pos ← get_some (maglev_hash v !! Z.to_nat (hash key mod Z.of_nat DP_LB_MAGLEV_LOOKUP_SIZE));
        ip ← (if 0 <=? pos then get_some (back_end_ips v !! Z.to_nat pos) else ub);
        mret (Some ip)
  end.

(** ** The node *)

Context {HT : RteHash dp_ipv6 dp_vnf} {VT : RteHash dp_vnf dp_ipv6}
  {ST : RteHash nat_key snat_data} {DT : RteHash nat_key dnat_data}
  {PM : RteHash netnat_portmap_key netnat_portmap_data}
  {PO : RteHash netnat_portoverload_tbl_key (option netnat_portoverload_sync_metadata)}
  {FT : RteHash flow_key ptr}.

Definition LB_NEXT_DROP : Z := 0.
Definition LB_NEXT_IPIP_ENCAP : Z := 1.
Definition LB_NEXT_PACKET_RELAY : Z := 2.
Definition LB_NEXT_DNAT : Z := 3.

Definition dp_lb_set_next_hop (vnf : vnf_state) (port_id : Z) (df : dp_flow) : dp_flow :=
  if match dp_get_vnf (ul_dst_addr6 df) vnf with
     | Some v => bool_decide (vnf_type v = DP_VNF_TYPE_LB_ALIAS_PFX)
     | None => false
     end
  then set_nat_type DP_LB_RECIRC df
  else set_nat_type DP_CHG_UL_DST_IP (set_nxt_hop port_id df).

Definition has_no_flags (flags : Z) : bool := flags =? 0.

(** The underlay source becomes the balancer's own address. *)
Definition lb_redirect (vnf : vnf_state) (target : dp_ipv6) : M node_state unit :=
  port ← on_pkt (gets m_port);
  on_pkt (upd_flow (fun df => dp_lb_set_next_hop vnf port (set_ul_dst_addr6 target (set_ul_src_addr6 (ul_dst_addr6 df) df)))).

(** A packet for a load balancer that has no flow yet. *)
Definition lb_new_flow (vnf : vnf_state) st (vni : Z) (p : ptr) : M node_state Z :=
  df ← get_df;
  let icmp := is_icmp (l4_type df) in
  if icmp && ((icmp_type df =? RTE_ICMP_TYPE_ECHO_REQUEST) || (icmp_type df =? DP_ICMPV6_ECHO_REQUEST)) then
    on_pkt (upd_flow (set_nat_type DP_CHG_UL_DST_IP)) ;;
    on_flow (upd_flow_val p (fun v => set_offload_reply DP_FLOW_OFFLOADED (set_offload_orig DP_FLOW_OFFLOADED v))) ;;
    on_pkt (upd_flow (set_offload_state DP_FLOW_NON_OFFLOAD)) ;;
    mret LB_NEXT_PACKET_RELAY
  else if icmp && negb (icmp_type df =? DP_IP_ICMP_TYPE_ERROR) then mret LB_NEXT_DROP
  else
    v ← on_flow (load_flow p);
    t ← on_flow (gets flow_table);
    r ← get_some (dp_lb_get_backend_ip (rte_hash_hash t) (key_org v) vni st);
    match fst r with
    | None => mret LB_NEXT_DROP
    | Some target =>
        on_flow (upd_flow_val p (fun v => set_flow_flags (Z.lor (flow_flags v) DP_FLOW_FLAG_DST_LB) (set_nf_underlay_dst target v))) ;;
        lb_redirect vnf target ;;
        df ← get_df;
        on_flow (upd_flow_val p (set_nf_nat_type (if bool_decide (nat_type df = DP_LB_RECIRC)
                                                   then DP_FLOW_LB_TYPE_RECIRC else DP_FLOW_LB_TYPE_FORWARD))) ;;
        mret LB_NEXT_IPIP_ENCAP
    end.

(** [assert(cntrack)] *)
Definition lb_get_next_index e st : M node_state Z :=
  df ← get_df;
  p ← get_some (conntrack df);
  vni ← (if dst_vni df =? 0 then port ← on_pkt (get_in_port (fenv_ports e)); mret (iface_vni (iface port)) else mret (dst_vni df));
  v ← on_flow (load_flow p);
  if has_no_flags (flow_flags v) && bool_decide (flow_dir df = DP_FLOW_DIR_ORG) && dp_is_ip_lb df vni st
  then lb_new_flow (fenv_vnf e) st vni p
  else if has_flag (flow_flags v) DP_FLOW_FLAG_DST_LB && bool_decide (flow_dir df = DP_FLOW_DIR_ORG) then
    lb_redirect (fenv_vnf e) (nf_underlay_dst v) ;;
    mret LB_NEXT_IPIP_ENCAP
  else if has_flag (flow_flags v) DP_FLOW_FLAG_DEFAULT && is_icmp (l4_type df) then
    on_pkt (upd_flow (set_nat_type DP_CHG_UL_DST_IP)) ;;
    mret LB_NEXT_PACKET_RELAY
  else mret LB_NEXT_DNAT.
End lb.
