(* ===== verification/LbTheorems.v ===== *)
(** Theorems on the load balancer ([Maglev], [Lb]). *)

From stdpp Require Import sorting.
From S2P Require Import Prelude Errors RteHash IpAddr Port Packet Ipsec Vnf FlowKey Nat Flow Cntrack Maglev MaglevProofs Lb.

Section values.
Context `{ERR : RteErrno}.
Implicit Types (v : lb_value) (ip : dp_ipv6).

(** The entry of a load balancer over the requests that changed its targets. *)
Inductive lb_history : lb_value -> Prop :=
| lbh_new v : back_end_cnt v = 0%nat -> back_end_ips v = replicate DP_LB_MAX_IPS_PER_VIP dp_empty_ipv6 -> lb_history v
| lbh_add v ip v' : lb_history v -> ipv6_ok ip -> dp_lb_is_back_ip_inserted v ip = false ->
    dp_add_maglev_backend true true ip v = Some (DP_OK, v') -> lb_history v'
| lbh_delete v ip v' : lb_history v -> dp_delete_maglev_backend true true ip v = Some (DP_OK, v') -> lb_history v'.

Lemma not_inserted v ip : dp_lb_is_back_ip_inserted v ip = false -> ip ∉ backends v.
Proof.
  unfold dp_lb_is_back_ip_inserted, backends. intros Hf Hin. apply take_subset in Hin.
  apply not_true_iff_false in Hf. apply Hf. apply existsb_exists. exists ip. split.
  - by apply list_elem_of_In.
  - by apply dp_ipv6_match_spec.
Qed.

Lemma add_full v ip : ~ (back_end_cnt v < DP_LB_MAX_IPS_PER_VIP)%nat -> dp_add_maglev_backend true true ip v = Some (DP_ERROR, v).
Proof. intros Hc. unfold dp_add_maglev_backend. by rewrite bool_decide_eq_true_2 by lia. Qed.

Lemma delete_absent v ip : ip ∉ backends v -> dp_delete_maglev_backend true true ip v = Some (DP_GRPC_ERR NOT_FOUND, v).
Proof.
  intros Hnot. unfold dp_delete_maglev_backend. fold (backends v). rewrite (proj2 (find_index_None _ _)); [done|].
  intros x Hx. apply not_true_is_false. intros Hm. apply dp_ipv6_match_spec in Hm. congruence.
Qed.

Lemma history_ok v : lb_history v -> lb_ok v.
Proof.
  induction 1 as [v Hc Hi | v ip v' _ IH Hip Hnew Hadd | v ip v' _ IH Hdel].
  - apply (lb_ok_of [] v); [cbn; lia | constructor | constructor | exact Hc | exact Hi | done].
  - destruct (decide (back_end_cnt v < DP_LB_MAX_IPS_PER_VIP)%nat) as [Hlt|Hge].
    + destruct (add_backend v ip IH Hip (not_inserted _ _ Hnew) Hlt) as (w & Hw & Hok & _). assert (v' = w) as -> by congruence. exact Hok.
    + rewrite add_full in Hadd by done. injection Hadd as He _. pose proof dp_error_negative. unfold DP_OK in He. lia.
  - destruct (decide (ip ∈ backends v)) as [Hin|Hnot].
    + destruct (delete_backend v ip IH Hin) as (w & Hw & Hok & _). assert (v' = w) as -> by congruence. exact Hok.
    + rewrite delete_absent in Hdel by done. injection Hdel as He _. pose proof (dp_grpc_err_negative NOT_FOUND). unfold DP_OK in He. lia.
Qed.

(** C31: Filling the lookup table ends: adding a target to a load balancer and
    removing one always return, and a target that is not yet there is added as
    long as there is room. *)
Theorem maglev_update_terminates v ip : lb_history v -> ipv6_ok ip ->
  (exists ret v', dp_delete_maglev_backend true true ip v = Some (ret, v'))
  /\ (dp_lb_is_back_ip_inserted v ip = false ->
      exists v', dp_add_maglev_backend true true ip v
        = Some (if decide (back_end_cnt v < DP_LB_MAX_IPS_PER_VIP)%nat then DP_OK else DP_ERROR, v')).
Proof.
  intros Hh Hip. pose proof (history_ok v Hh) as Hok. split.
  - destruct (decide (ip ∈ backends v)) as [Hin|Hnot].
    + destruct (delete_backend v ip Hok Hin) as (w & Hw & _). by exists DP_OK, w.
    + rewrite delete_absent by done. by eexists _, _.
  - intros Hnew. case_decide as Hlt; [|rewrite add_full by done; by eexists].
    destruct (add_backend v ip Hok Hip (not_inserted _ _ Hnew) Hlt) as (w & Hw & _). by exists w.
Qed.


End values.

Section states.
Context `{ERR : RteErrno} {LT : RteHash lb_key ptr} {IT : RteHash (list Z) lb_key}.
Implicit Types (st : lb_state) (id : list Z) (ip : dp_ipv6) (key : lb_key) (p : ptr) (v : lb_value).

Definition lbs st : gmap lb_key ptr := hash_view (lb_table st).

(** The table points to entries of its own, each with its history. *)
Record lb_inv st : Prop := {
  lbi_live key p : lbs st !! key = Some p -> exists v, lb_heap st !! p = Some v /\ lb_history v;
  lbi_inj key key' p : lbs st !! key = Some p -> lbs st !! key' = Some p -> key = key'
}.

Inductive lb_request :=
| LbCreate (zmalloc : gset ptr -> option ptr) (lb : dpgrpc_lb) (ul : dp_ipv6)
| LbDelete (id : list Z)
| LbAddTarget (id : list Z) (ip : dp_ipv6)
| LbDelTarget (id : list Z) (ip : dp_ipv6).

(** Requests with an allocator that has memory. *)
Definition run_lb (r : lb_request) : M lb_state Z :=
  match r with
  | LbCreate zmalloc lb ul => dp_create_lb zmalloc true lb ul
  | LbDelete id => dp_delete_lb id
  | LbAddTarget id ip => dp_add_lb_back_ip true true id ip
  | LbDelTarget id ip => dp_del_lb_back_ip true true id ip
  end.

Definition lb_request_ok (r : lb_request) : Prop :=
  match r with
  | LbCreate zmalloc _ _ => forall used p, zmalloc used = Some p -> p ∉ used
  | LbAddTarget _ ip => ipv6_ok ip
  | _ => True
  end.

Lemma load_lb_run p v st : lb_heap st !! p = Some v -> load_lb p st = Some (v, st).
Proof. intros Hp. unfold load_lb. m_unfold. by rewrite Hp. Qed.
Lemma store_lb_run p v w st : lb_heap st !! p = Some v -> store_lb p w st = Some (tt, set_lb_heap (<[p := w]> (lb_heap st)) st).
Proof. intros Hp. unfold store_lb. erewrite M_bind_Some; [|by apply load_lb_run]. done. Qed.
Lemma free_lb_run p v st : lb_heap st !! p = Some v -> free_lb p st = Some (tt, set_lb_heap (delete p (lb_heap st)) st).
Proof. intros Hp. unfold free_lb. erewrite M_bind_Some; [|by apply load_lb_run]. done. Qed.

Lemma store_keeps_inv st p w : lb_inv st -> lb_history w -> lb_inv (set_lb_heap (<[p := w]> (lb_heap st)) st).
Proof.
  intros [Hl Hi] Hw. split; [|exact Hi]. cbn [lb_heap set_lb_heap]. intros key q Hq.
  destruct (decide (p = q)) as [->|Hne]; [exists w; by rewrite lookup_insert_eq|].
  rewrite lookup_insert_ne by done. by apply (Hl key).
Qed.

Lemma find_lb_run id st : exists r, find_lb id st = Some (r, st)
  /\ match r with inl ret => DP_FAILED ret = true | inr p => exists key, lbs st !! key = Some p end.
Proof.
  unfold find_lb. erewrite M_bind_Some; [|reflexivity]. destruct (rte_hash_lookup_data _ id) as [?|key].
  { eexists. split; [reflexivity|]. apply dp_failed_grpc_err. }
  erewrite M_bind_Some; [|reflexivity]. destruct (rte_hash_lookup_data _ key) as [?|p] eqn:Hk.
  { eexists. split; [reflexivity|]. apply dp_failed_grpc_err. }
  apply hash_lookup_Some in Hk. eexists. split; [reflexivity|]. by exists key.
Qed.

Lemma add_target_keeps id ip st : lb_inv st -> ipv6_ok ip ->
  exists ret st', dp_add_lb_back_ip true true id ip st = Some (ret, st') /\ lb_inv st'.
Proof.
  intros Hinv Hip. unfold dp_add_lb_back_ip. destruct (find_lb_run id st) as (r & Hf & Hr).
  erewrite M_bind_Some; [|exact Hf]. destruct r as [ret|p]; [by exists ret, st|]. destruct Hr as [key Hk].
  destruct (lbi_live _ Hinv key p Hk) as (v & Hp & Hh). erewrite M_bind_Some; [|by apply load_lb_run].
  destruct (dp_lb_is_back_ip_inserted v ip) eqn:Hnew; [by eexists _, st|].
  destruct (decide (back_end_cnt v < DP_LB_MAX_IPS_PER_VIP)%nat) as [Hlt|Hge].
  - destruct (add_backend v ip (history_ok v Hh) Hip (not_inserted _ _ Hnew) Hlt) as (w & Hw & _). rewrite Hw.
    erewrite M_bind_Some; [|reflexivity]. erewrite M_bind_Some; [|by eapply store_lb_run]. eexists _, _. split; [reflexivity|].
    apply store_keeps_inv; [done|]. by eapply lbh_add.
  - rewrite add_full by done. erewrite M_bind_Some; [|reflexivity]. erewrite M_bind_Some; [|by eapply store_lb_run].
    eexists _, _. split; [reflexivity|]. by apply store_keeps_inv.
Qed.

Lemma del_target_keeps id ip st : lb_inv st ->
  exists ret st', dp_del_lb_back_ip true true id ip st = Some (ret, st') /\ lb_inv st'.
Proof.
  intros Hinv. unfold dp_del_lb_back_ip. destruct (find_lb_run id st) as (r & Hf & Hr).
  erewrite M_bind_Some; [|exact Hf]. destruct r as [ret|p]; [by exists ret, st|]. destruct Hr as [key Hk].
  destruct (lbi_live _ Hinv key p Hk) as (v & Hp & Hh). erewrite M_bind_Some; [|by apply load_lb_run].
  destruct (decide (ip ∈ backends v)) as [Hin|Hnot].
  - destruct (delete_backend v ip (history_ok v Hh) Hin) as (w & Hw & _). rewrite Hw.
    erewrite M_bind_Some; [|reflexivity]. erewrite M_bind_Some; [|by eapply store_lb_run]. eexists _, _. split; [reflexivity|].
    apply store_keeps_inv; [done|]. by eapply lbh_delete.
  - rewrite delete_absent by done. erewrite M_bind_Some; [|reflexivity]. erewrite M_bind_Some; [|by eapply store_lb_run].
    eexists _, _. split; [reflexivity|]. by apply store_keeps_inv.
Qed.

Lemma delete_lb_keeps id st : lb_inv st -> exists ret st', dp_delete_lb id st = Some (ret, st') /\ lb_inv st'.
Proof.
  intros Hinv. unfold dp_delete_lb. erewrite M_bind_Some; [|reflexivity].
  destruct (rte_hash_lookup_data _ id) as [?|key]; [by eexists _, st|].
  erewrite M_bind_Some; [|reflexivity]. destruct (rte_hash_lookup_data _ key) as [?|p] eqn:Hk.
  { erewrite M_bind_Some; [|reflexivity]. eexists _, _. split; [reflexivity|]. by destruct Hinv. }
  apply hash_lookup_Some in Hk. destruct (lbi_live _ Hinv key p Hk) as (v & Hp & _).
  erewrite M_bind_Some; [|erewrite M_bind_Some; [|by eapply free_lb_run]; reflexivity].
  eexists _, _. split; [reflexivity|].
  assert (forall t', hash_view t' = delete key (lbs st) ->
    lb_inv (set_id_map (snd (rte_hash_del_key (id_map_lb_tbl st) id)) (set_lb_table t' (set_lb_heap (delete p (lb_heap st)) st)))) as Hk'.
  { intros t' Ht'. split.
    - intros k q Hq. change (hash_view t' !! k = Some q) in Hq. rewrite Ht' in Hq. apply lookup_delete_Some in Hq as [Hne Hq].
      cbn. rewrite lookup_delete_ne by (intros ->; apply Hne; by eapply (lbi_inj _ Hinv)). by apply (lbi_live _ Hinv k).
    - intros k k' q Hq Hq'. change (hash_view t' !! k = Some q) in Hq. change (hash_view t' !! k' = Some q) in Hq'.
      rewrite Ht' in Hq, Hq'. apply lookup_delete_Some in Hq as [_ Hq]. apply lookup_delete_Some in Hq' as [_ Hq'].
      by apply (lbi_inj _ Hinv k k' q). }
  apply Hk'. pose proof (hash_del_cases (lb_table st) key) as Hd. destruct (rte_hash_del_key (lb_table st) key) as [r t'].
  apply Hd. by rewrite Hk.
Qed.

Lemma create_lb_keeps zmalloc lb ul st : lb_inv st -> (forall used p, zmalloc used = Some p -> p ∉ used) ->
  exists ret st', dp_create_lb zmalloc true lb ul st = Some (ret, st')
    /\ (ret <> DP_GRPC_ERR OUT_OF_MEMORY -> lb_inv st').
Proof.
  intros Hinv Hfresh. unfold dp_create_lb. set (key := mk_lb_key _ _). erewrite M_bind_Some; [|reflexivity].
  destruct (rte_hash_lookup_data _ key) as [?|q] eqn:Hk.
  2: { apply hash_lookup_Some in Hk. destruct (lbi_live _ Hinv key q Hk) as (v & Hq & _).
       erewrite M_bind_Some; [|by apply load_lb_run]. by eexists _, st. }
  erewrite M_bind_Some; [|reflexivity]. destruct (zmalloc (dom (lb_heap st))) as [p|] eqn:Hz; [|by eexists _, st].
  apply Hfresh, not_elem_of_dom in Hz. erewrite M_bind_Some; [|reflexivity].
  set (st1 := set_lb_heap (<[p := zero_lb_value]> (lb_heap st)) st).
  assert (lb_heap st1 !! p = Some zero_lb_value) as Hp1 by apply lookup_insert_eq.
  pose proof (hash_add_cases (lb_table st) key p) as Ha. destruct (rte_hash_add_key_data (lb_table st) key p) as [r t'].
  erewrite M_bind_Some; [|reflexivity]. destruct Ha as [(_ & -> & Ht)|(_ & -> & _)].
  2: { erewrite M_bind_Some; [|by eapply free_lb_run]. eexists _, _. split; [reflexivity|]. done. }
  unfold dp_map_lb_handle. cbn [negb].
  set (st2 := set_lb_heap (<[p := set_lb_id (glb_id lb) zero_lb_value]> (lb_heap st1)) (set_lb_table t' st1)).
  destruct (rte_hash_add_key_data (id_map_lb_tbl st) (glb_id lb) key) as [r2 t2] eqn:Hid.
  erewrite M_bind_Some.
  2: { erewrite M_bind_Some; [|by apply load_lb_run]. erewrite M_bind_Some; [|by eapply store_lb_run].
       erewrite M_bind_Some; [|reflexivity]. cbn [id_map_lb_tbl set_lb_heap set_lb_table st1]. rewrite Hid.
       erewrite M_bind_Some; [|reflexivity]. reflexivity. }
  fold st2. assert (lb_heap (set_id_map t2 st2) !! p = Some (set_lb_id (glb_id lb) zero_lb_value)) as Hp2 by apply lookup_insert_eq.
  destruct (DP_FAILED r2) eqn:Hr2; [rewrite Hr2|change (DP_FAILED DP_OK) with false; cbv iota].
  { erewrite M_bind_Some; [|by eapply free_lb_run]. eexists _, _. split; [reflexivity|]. done. }
  erewrite M_bind_Some; [|by apply load_lb_run]. erewrite M_bind_Some; [|by eapply store_lb_run].
  eexists _, _. split; [reflexivity|]. intros _. split.
  - intros k q Hq. change (hash_view t' !! k = Some q) in Hq. rewrite Ht in Hq. cbn [lb_heap set_lb_heap set_id_map st2 set_lb_table st1].
    rewrite !insert_insert_eq. apply lookup_insert_Some in Hq as [[_ <-]|[_ Hq]].
    + rewrite lookup_insert_eq. eexists. split; [reflexivity|]. by apply lbh_new.
    + destruct (lbi_live _ Hinv k q Hq) as (w & Hw & ?). exists w. rewrite lookup_insert_ne by congruence. done.
  - intros k k' q Hq Hq'. change (hash_view t' !! k = Some q) in Hq. change (hash_view t' !! k' = Some q) in Hq'.
    assert (forall k0 q0, lbs st !! k0 = Some q0 -> q0 <> p) as Hnew.
    { intros k0 q0 H0 ->. destruct (lbi_live _ Hinv k0 p H0) as (w & Hw & _). congruence. }
    rewrite Ht in Hq, Hq'. apply lookup_insert_Some in Hq as [[<- <-]|[_ Hq]]; apply lookup_insert_Some in Hq' as [[<- ?]|[_ Hq']].
    + done.
    + by destruct (Hnew _ _ Hq').
    + subst q. by destruct (Hnew _ _ Hq).
    + by apply (lbi_inj _ Hinv k k' q).
Qed.


(** The load balancer of a flow serves its protocol and port. *)
Definition serves v (key : flow_key) : Prop :=
  dp_lb_port_match (lb_ports v) (htons (port_dst key)) (key_proto key) = true /\ backends v <> [].

End states.

Module LbExample.
#[export] Instance errno : RteErrno := dpdk_errno.
#[export] Instance lb_hash : RteHash lb_key ptr := slot_hash (fun _ => 0).
#[export] Instance id_hash : RteHash (list Z) lb_key := slot_hash (fun _ => 0).

Definition a : dp_ipv6 := mk_ipv6 5 77.
Definition b : dp_ipv6 := mk_ipv6 5 78.
Definition c : dp_ipv6 := mk_ipv6 6 99.

Definition with_target (ip : dp_ipv6) (v : lb_value) : lb_value :=
  match dp_add_maglev_backend true true ip v with Some (_, w) => w | None => v end.
Definition without_target (ip : dp_ipv6) (v : lb_value) : lb_value :=
  match dp_delete_maglev_backend true true ip v with Some (_, w) => w | None => v end.

Lemma with_target_history ip v : lb_history v -> ipv6_ok ip -> dp_lb_is_back_ip_inserted v ip = false ->
  (fst <$> dp_add_maglev_backend true true ip v) = Some DP_OK -> lb_history (with_target ip v).
Proof.
  intros Hh Hip Hnew Hr. unfold with_target. destruct (dp_add_maglev_backend true true ip v) as [[r w]|] eqn:E; [|done].
  cbn in Hr. injection Hr as ->. by eapply lbh_add.
Qed.
Lemma without_target_history ip v : lb_history v -> (fst <$> dp_delete_maglev_backend true true ip v) = Some DP_OK ->
  lb_history (without_target ip v).
Proof.
  intros Hh Hr. unfold without_target. destruct (dp_delete_maglev_backend true true ip v) as [[r w]|] eqn:E; [|done].
  cbn in Hr. injection Hr as ->. by eapply lbh_delete.
Qed.

Definition one_way : lb_value := with_target b (with_target a zero_lb_value).
Definition other_way : lb_value := without_target c (with_target a (with_target c (with_target b zero_lb_value))).

Lemma zero_history : lb_history zero_lb_value.
Proof. by apply lbh_new. Qed.
Lemma small_ok n m : 0 <= n < 1000 -> 0 <= m < 1000 -> ipv6_ok (mk_ipv6 n m).
Proof. intros. unfold ipv6_ok, is_u64. cbn. lia. Qed.

Lemma one_way_history : lb_history one_way.
Proof.
  repeat (apply with_target_history; [ | apply small_ok; lia | vm_compute; reflexivity | vm_compute; reflexivity]). apply zero_history.
Qed.
Lemma other_way_history : lb_history other_way.
Proof.
  apply without_target_history; [|vm_compute; reflexivity].
  repeat (apply with_target_history; [ | apply small_ok; lia | vm_compute; reflexivity | vm_compute; reflexivity]). apply zero_history.
Qed.

Lemma one_way_backends : backends one_way = [a; b].
Proof. vm_compute. reflexivity. Qed.
Lemma other_way_backends : backends other_way = [a; b].
Proof. vm_compute. reflexivity. Qed.

Lemma maglev_update_terminates_witness :
  exists v', dp_add_maglev_backend true true c one_way = Some (DP_OK, v').
Proof.
  destruct (maglev_update_terminates one_way c one_way_history (small_ok 6 99 ltac:(lia) ltac:(lia))) as [_ H].
  destruct (H ltac:(vm_compute; reflexivity)) as [v' Hv]. exists v'. rewrite Hv.
  rewrite decide_True; [reflexivity | vm_compute; lia].
Defined.



Definition empty (slots ids : nat) : lb_state := mk_lb_state (slot_empty _ slots) ∅ (slot_empty _ ids).
Definition malloc (used : gset ptr) : option ptr := Some (fresh used).
Definition vip : dp_ip_address := dp_set_ipaddr4 0x0a000001.
Definition web : dpgrpc_lb := mk_grpc_lb [119] vip 100 [mk_lb_port IPPROTO_TCP 80] dp_empty_ipv6.

Lemma empty_inv slots ids : lb_inv (empty slots ids).
Proof.
  assert (lbs (empty slots ids) = ∅) as He.
  { unfold lbs, hash_view. cbn. induction slots as [|n IH]; [done | exact IH]. }
  split; intros *; rewrite He, lookup_empty; done.
Qed.


Definition flow_to_web : flow_key := mk_flow_key vip IPPROTO_TCP 80 (dp_set_ipaddr4 0x01010101) DP_VNF_TYPE_UNDEFINED 5000 100.


(** When there is no room for the identifier, the entry is freed but stays in
    the table, and the next packet to the address reads it. *)
Example lb_create_failure_dangles :
  (match (dp_create_lb malloc true web dp_empty_ipv6 ;; dp_lb_get_backend_ip (fun _ => 7) flow_to_web 100) (empty 4 0) with
   | Some _ => true | None => false end) = false
  /\ (match (dp_create_lb malloc true web dp_empty_ipv6 ;; dp_lb_get_backend_ip (fun _ => 7) flow_to_web 100) (empty 4 4) with
      | Some _ => true | None => false end) = true.
Proof. vm_compute. by split. Qed.

(** When a target is removed and there is no memory for the new lookup table,
    the old one stays and sends flows to the empty address. *)
Definition removed_without_memory : option lb_value := snd <$> dp_delete_maglev_backend false true b one_way.

Example lb_stale_table_after_failure :
  (fst <$> dp_delete_maglev_backend false true b one_way) = Some (DP_GRPC_ERR BACKIP_DEL)
  /\ (backends <$> removed_without_memory) = Some [a]
  /\ (count 1 ∘ maglev_hash <$> removed_without_memory) = Some 251%nat
  /\ ((fun v => back_end_ips v !! 1%nat) <$> removed_without_memory) = Some (Some dp_empty_ipv6).
Proof. vm_compute. by split_and!. Qed.
End LbExample.
