(* ===== verification/NatRewrite.v ===== *)
(** Rewriting packets for address translation: [dp_nat_chg_ip],
    [dp_nat_chg_ipv6_to_ipv4_hdr] and [dp_nat_chg_ipv4_to_ipv6_hdr] of
    [src/dp_nat.c] and the port rewriting of [src/rte_flow/dp_rte_flow.c].

    DPDK's checksum functions are the class [RteCksum]; each is given the memory
    from the header on. *)

From S2P Require Import Prelude Errors IpAddr Port Packet RteHash Ipsec Vnf FlowKey Nat Flow Tunnel.

Class RteCksum := {
  rte_ipv4_cksum : list Z -> Z;
  rte_ipv4_udptcp_cksum : list Z -> list Z -> Z;
  rte_ipv6_udptcp_cksum : list Z -> list Z -> Z;
  ipv4_cksum_range hdr : is_u16 (rte_ipv4_cksum hdr);
  ipv4_udptcp_cksum_range hdr l4 : is_u16 (rte_ipv4_udptcp_cksum hdr l4);
  ipv6_udptcp_cksum_range hdr l4 : is_u16 (rte_ipv6_udptcp_cksum hdr l4)
}.

Definition RTE_MBUF_F_TX_TCP_CKSUM : Z := 2 ^ 52.
Definition RTE_MBUF_F_TX_UDP_CKSUM : Z := 3 * 2 ^ 52.
Definition RTE_MBUF_F_TX_IP_CKSUM : Z := 2 ^ 54.
Definition RTE_MBUF_F_TX_IPV4 : Z := 2 ^ 55.
Definition RTE_MBUF_F_TX_IPV6 : Z := 2 ^ 56.

Definition or_ol_flags (flags : Z) : M rte_mbuf unit := modify (fun m => set_ol_flags (Z.lor (ol_flags m) flags) m).
(** The lengths are fields of the union [tx_offload]. *)
Definition clear_tx_offload : M rte_mbuf unit :=
  modify (fun m => set_l2_len 0 (set_l3_len 0 (set_l4_len 0 (set_outer_l2_len 0 (set_outer_l3_len 0 m))))).

Definition tcp_data_off_off : nat := 12.
(** [DP_TCP_HDR_LEN] with the header at [off]. *)
Definition tcp_hdr_len (off : nat) : M rte_mbuf Z := data_off ← rd (off + tcp_data_off_off) 1; mret (Z.shiftr (Z.land data_off 0xf0) 2).
Definition ipv4_hdr_len (off : nat) : M rte_mbuf Z := version_ihl ← rd off 1; mret (Z.land version_ihl 0xf * 4).
Definition memory_from (off : nat) : M rte_mbuf (list Z) := gets (fun m => drop off (memory (buf m))).

(** ** Ports and identifiers *)

Inductive l4_port_dir := DP_L4_PORT_DIR_SRC | DP_L4_PORT_DIR_DST.

Definition dp_change_l4_hdr_port (dir : l4_port_dir) (new_val : Z) : M rte_mbuf unit :=
  match dir with
  | DP_L4_PORT_DIR_SRC => wr (34 + l4_src_port_off) 2 (htons new_val)
  | DP_L4_PORT_DIR_DST => wr (34 + l4_dst_port_off) 2 (htons new_val)
  end.

Definition icmp_cksum_update (cksum old_word new_word : Z) : Z :=
  let sum := Z.land (Z.lnot cksum) 0xffff in
  let sum := u32 (sum + Z.land (Z.lnot old_word) 0xffff) in
  let sum := u32 (sum + Z.land new_word 0xffff) in
  let sum := u32 (Z.land sum 0xffff + Z.shiftr sum 16) in
  let sum := u32 (Z.land sum 0xffff + Z.shiftr sum 16) in
  Z.land (Z.lnot sum) 0xffff.

Definition dp_change_icmp_identifier (new_val : Z) : M rte_mbuf unit :=
  old_identifier ← rd (34 + icmp_ident_off) 2;
  wr (34 + icmp_ident_off) 2 (htons new_val) ;;
  cksum ← rd (34 + icmp_cksum_off) 2;
  ident ← rd (34 + icmp_ident_off) 2;
  wr (34 + icmp_cksum_off) 2 (icmp_cksum_update cksum old_identifier ident).

(** The quoted header is the one [dp_get_icmp_err_ip_hdr] has found. *)
Definition dp_change_icmp_err_l4_src_port (new_val : Z) : M rte_mbuf unit :=
  type ← rd (34 + icmp_type_off) 1;
  if type =? DP_IP_ICMP_TYPE_ERROR then
    proto ← rd (err_hdr_off + ipv4_proto_off) 1;
    if (proto =? IPPROTO_TCP) || (proto =? IPPROTO_UDP) then
      version_ihl ← rd err_hdr_off 1;
      wr (err_hdr_off + Z.to_nat (version_ihl mod 16 * 4)) 2 (htons new_val)
    else mret tt
  else mret tt.

Section rewrite.
Context `{ERR : RteErrno} {MB : RteMbuf} {CK : RteCksum}.

(** ** New addresses in an IPv4 header *)

(** [no_offload]: the NIC cannot see the header, since it is a tap device or
    the packet will be encrypted. *)
Definition chg_l4 (no_offload : bool) (l4 : Z) : M rte_mbuf unit :=
  if l4 =? IPPROTO_TCP then
    len ← tcp_hdr_len 34;
    modify (set_l4_len len) ;;
    wr (34 + tcp_cksum_off) 2 0 ;;
    if no_offload : bool then hdr ← memory_from 14; tcp ← memory_from 34; wr (34 + tcp_cksum_off) 2 (rte_ipv4_udptcp_cksum hdr tcp)
    else or_ol_flags RTE_MBUF_F_TX_TCP_CKSUM
  else if l4 =? IPPROTO_UDP then
    modify (set_l4_len 8) ;;
    wr (34 + udp_cksum_off) 2 0 ;;
    if no_offload then hdr ← memory_from 14; udp ← memory_from 34; wr (34 + udp_cksum_off) 2 (rte_ipv4_udptcp_cksum hdr udp)
    else or_ol_flags RTE_MBUF_F_TX_UDP_CKSUM
  else if l4 =? IPPROTO_ICMP then modify (set_l4_len 8)
  else mret tt.

Definition dp_nat_chg_ip (no_offload : bool) : M rte_mbuf unit :=
  wr (14 + ipv4_cksum_off) 2 0 ;;
  or_ol_flags RTE_MBUF_F_TX_IPV4 ;;
  clear_tx_offload ;;
  modify (set_l2_len 14) ;;
  len ← ipv4_hdr_len 14;
  modify (set_l3_len len) ;;
  modify (set_l4_len 0) ;;
  df ← gets flow;
  chg_l4 no_offload (l4_type df) ;;
  if no_offload then hdr ← memory_from 14; wr (14 + ipv4_cksum_off) 2 (rte_ipv4_cksum hdr)
  else or_ol_flags RTE_MBUF_F_TX_IP_CKSUM.

(** ** ICMP checksum *)

Fixpoint icmp_sum (n : nat) (off : nat) (sum : Z) : M rte_mbuf Z :=
  match n with
  | O => mret sum
  | S n' => word ← rd off 2; icmp_sum n' (off + 2) (u32 (sum + word))
  end.

(** [while (sum >> 16)]: two turns are enough for 32 bits. *)
Fixpoint fold_carries (fuel : nat) (sum : Z) : Z :=
  match fuel with
  | O => sum
  | S fuel' => if Z.shiftr sum 16 =? 0 then sum else fold_carries fuel' (u32 (Z.land sum 0xffff + Z.shiftr sum 16))
  end.

(** The last word of an odd message takes a byte from behind it. *)
Definition dp_calculate_icmp_checksum (off icmp_len : nat) : M rte_mbuf unit :=
  wr (off + icmp_cksum_off) 2 0 ;;
  sum ← icmp_sum ((icmp_len + 1) / 2) off 0;
  wr (off + icmp_cksum_off) 2 (Z.land (Z.lnot (fold_carries 3 sum)) 0xffff).

(** ** From IPv6 to IPv4 and back *)

(** Memory in front of the data: [n] bytes, [back] bytes before it. *)
Definition rd_before (back n : nat) : M rte_mbuf (list Z) :=
  b ← gets buf;
  if decide (back <= length (headroom b))%nat then mret (bytes_at (length (headroom b) - back) n (headroom b)) else ub.

Definition to_ipv4_type (type : Z) : option Z :=
  if type =? DP_ICMPV6_ECHO_REQUEST then Some RTE_ICMP_TYPE_ECHO_REQUEST
  else if type =? DP_ICMPV6_ECHO_REPLY then Some RTE_ICMP_TYPE_ECHO_REPLY else None.

Definition nat64_l4_to_ipv4 : M rte_mbuf Z :=
  df ← gets flow;
  if l4_type df =? IPPROTO_TCP then
    wr (34 + tcp_cksum_off) 2 0 ;;
    or_ol_flags RTE_MBUF_F_TX_TCP_CKSUM ;;
    len ← tcp_hdr_len 34;
    modify (set_l4_len len) ;;
    mret DP_OK
  else if l4_type df =? IPPROTO_UDP then
    wr (34 + udp_cksum_off) 2 0 ;;
    or_ol_flags RTE_MBUF_F_TX_UDP_CKSUM ;;
    modify (set_l4_len 8) ;;
    mret DP_OK
  else if l4_type df =? IPPROTO_ICMPV6 then
    upd_flow (set_l4_type IPPROTO_ICMP) ;;
    wr (14 + ipv4_proto_off) 1 IPPROTO_ICMP ;;
    modify (set_l4_len 8) ;;
    modify (fun m => set_packet_type (Z.lor (Z.land (packet_type m) (Z.lnot 0xf00)) (IPPROTO_ICMP * 2 ^ 8)) m) ;;
    wr (34 + icmp_code_off) 1 0 ;;
    type ← rd (34 + icmp_type_off) 1;
    match to_ipv4_type type with
    | None => mret DP_ERROR
    | Some type4 =>
        wr (34 + icmp_type_off) 1 type4 ;;
        total ← rd (14 + ipv4_total_length_off) 2;
        if ntohs total <? 20 then ub
        else dp_calculate_icmp_checksum 34 (Z.to_nat (ntohs total - 20)) ;; mret DP_OK
    end
  else mret DP_ERROR.

(** The old headers stay in the headroom, except for the part of them that the
    Ethernet header is moved over. *)
Definition dp_nat_chg_ipv6_to_ipv4_hdr (nat_ip : Z) : M rte_mbuf (Z * Z) :=
  wr ether_type_off 2 (htons RTE_ETHER_TYPE_IPV4) ;;
  dst ← rd_ipv6 (14 + ipv6_dst_off);
  let dest_ip := dp_get_ipv6_nat64 dst in
  l4_proto ← rd (14 + ipv6_proto_off) 1;
  b ← gets buf;
  match rte_pktmbuf_adj b 20 with
  | None => mret (DP_ERROR, dest_ip)
  | Some b' =>
      modify (set_buf b') ;;
      eth ← rd_before 20 14;
      wr_bytes 0 eth ;;
      wr 14 1 0x45 ;;
      vtc_flow ← rd_before 6 4;
      wr 15 1 (Z.land (Z.shiftr (ntohl (le_join vtc_flow)) 20) 0xff) ;;
      len ← gets pkt_len;
      wr (14 + ipv4_total_length_off) 2 (htons (u16 (len - 14))) ;;
      wr 18 2 0 ;;
      wr 20 2 0 ;;
      hop_limits ← rd 1 1;
      wr (14 + ipv4_ttl_off) 1 hop_limits ;;
      wr (14 + ipv4_proto_off) 1 l4_proto ;;
      wr (14 + ipv4_src_off) 4 (htonl nat_ip) ;;
      wr (14 + ipv4_dst_off) 4 dest_ip ;;
      wr (14 + ipv4_cksum_off) 2 0 ;;
      modify (fun m => set_packet_type (Z.lor (Z.land (packet_type m) (Z.lnot RTE_PTYPE_L3_MASK)) RTE_PTYPE_L3_IPV4) m) ;;
      or_ol_flags RTE_MBUF_F_TX_IPV4 ;;
      or_ol_flags RTE_MBUF_F_TX_IP_CKSUM ;;
      clear_tx_offload ;;
      modify (set_l2_len 14) ;;
      hlen ← ipv4_hdr_len 14;
      modify (set_l3_len hlen) ;;
      modify (set_l4_len 0) ;;
      upd_flow (set_l3_type RTE_ETHER_TYPE_IPV4) ;;
      ret ← nat64_l4_to_ipv4;
      mret (ret, dest_ip)
  end.

Definition to_ipv6_type (type : Z) : option Z :=
  if type =? RTE_ICMP_TYPE_ECHO_REQUEST then Some DP_ICMPV6_ECHO_REQUEST
  else if type =? RTE_ICMP_TYPE_ECHO_REPLY then Some DP_ICMPV6_ECHO_REPLY else None.

Definition nat64_l4_to_ipv6 : M rte_mbuf Z :=
  df ← gets flow;
  if l4_type df =? IPPROTO_TCP then
    wr (54 + tcp_cksum_off) 2 0 ;;
    or_ol_flags RTE_MBUF_F_TX_TCP_CKSUM ;;
    len ← tcp_hdr_len 54;
    modify (set_l4_len len) ;;
    mret DP_OK
  else if l4_type df =? IPPROTO_UDP then
    wr (54 + udp_cksum_off) 2 0 ;;
    or_ol_flags RTE_MBUF_F_TX_UDP_CKSUM ;;
    modify (set_l4_len 8) ;;
    mret DP_OK
  else if l4_type df =? IPPROTO_ICMP then
    upd_flow (set_l4_type IPPROTO_ICMPV6) ;;
    modify (set_l4_len 8) ;;
    wr (14 + ipv6_proto_off) 1 IPPROTO_ICMPV6 ;;
    wr (54 + icmp_code_off) 1 0 ;;
    wr (54 + icmp_cksum_off) 2 0 ;;
    type ← rd (54 + icmp_type_off) 1;
    match to_ipv6_type type with
    | None => mret DP_ERROR
    | Some type6 =>
        wr (54 + icmp_type_off) 1 type6 ;;
        hdr ← memory_from 14;
        icmp ← memory_from 54;
        wr (54 + icmp_cksum_off) 2 (rte_ipv6_udptcp_cksum hdr icmp) ;;
        mret DP_OK
    end
  else mret DP_ERROR.

Definition dp_nat_chg_ipv4_to_ipv6_hdr (ipv6_addr : dp_ipv6) : M rte_mbuf Z :=
  wr ether_type_off 2 (htons RTE_ETHER_TYPE_IPV6) ;;
  src_ipv4 ← rd (14 + ipv4_src_off) 4;
  l4_proto ← rd (14 + ipv4_proto_off) 1;
  b ← gets buf;
  match rte_pktmbuf_prepend b 20 with
  | None => mret DP_ERROR
  | Some b' =>
      modify (set_buf b') ;;
      eth ← (b ← gets buf; get_some (read_bytes b 20 14));
      wr_bytes 0 eth ;;
      tos ← rd 35 1;
      wr 14 4 (htonl (Z.lor (6 * 2 ^ 28) (tos * 2 ^ 20))) ;;
      len ← gets pkt_len;
      wr (14 + ipv6_payload_len_off) 2 (htons (u16 (len - 14 - 40))) ;;
      wr (14 + ipv6_proto_off) 1 l4_proto ;;
      ttl ← rd (34 + ipv4_ttl_off) 1;
      wr (14 + ipv6_hop_off) 1 ttl ;;
      wr_ipv6 (14 + ipv6_src_off) (dp_set_ipv6_nat64 src_ipv4) ;;
      wr_ipv6 (14 + ipv6_dst_off) ipv6_addr ;;
      upd_flow (set_df_dst ipv6_addr) ;;
      modify (fun m => set_packet_type (Z.lor (Z.land (packet_type m) (Z.lnot RTE_PTYPE_L3_MASK)) RTE_PTYPE_L3_IPV6) m) ;;
      or_ol_flags RTE_MBUF_F_TX_IPV6 ;;
      modify (set_l2_len 14) ;;
      modify (set_l3_len 40) ;;
      modify (set_l4_len 0) ;;
      nat64_l4_to_ipv6
  end.
End rewrite.
