(* ===== verification/NatNodes.v ===== *)
(** The nodes of the graph that translate and forward tracked packets:
    [src/nodes/snat_node.c], [src/nodes/dnat_node.c], [src/nodes/firewall_node.c]
    and [src/nodes/packet_relay_node.c]. *)

From S2P Require Import Prelude Errors RteHash IpAddr Port Graph Packet Ipsec Vnf Firewall FlowKey Nat Flow Cntrack Lb NatRewrite.

Section nodes.
Context `{ERR : RteErrno} {MB : RteMbuf} {CK : RteCksum} {HT : RteHash dp_ipv6 dp_vnf} {VT : RteHash dp_vnf dp_ipv6}
  {ST : RteHash nat_key snat_data} {DT : RteHash nat_key dnat_data}
  {PM : RteHash netnat_portmap_key netnat_portmap_data}
  {PO : RteHash netnat_portoverload_tbl_key (option netnat_portoverload_sync_metadata)}
  {FT : RteHash flow_key ptr}.
Implicit Types (p : ptr) (v : flow_value) (df : dp_flow) (port : dp_port).

(** The configuration and ports, what an allocation depends on, whether
    checksums are computed in software, and whether the meter of a port marks a
    packet red. *)
Record nat_node_env := mk_nat_node_env {
  nn_flow : flow_env;
  nn_nat : nat_env;
  nn_no_offload : bool;
  nn_red : dp_port -> Z -> bool
}.
Implicit Types (e : nat_node_env).

Abbreviation NM := (M node_state).
Definition upd_cntrack p (f : flow_value -> flow_value) : NM unit := on_flow (upd_flow_val p f).
Definition get_cntrack p : NM flow_value := on_flow (load_flow p).
Definition set_df (f : dp_flow -> dp_flow) : NM unit := on_pkt (upd_flow f).
Definition on_nat {A} (f : nat_state -> A * nat_state) : NM A :=
  on_flow (fun st => let '(a, nat') := f (nat_tables st) in Some (a, set_nat_tables nat' st)).
Definition or_flow_flags (flags : Z) v : flow_value := set_flow_flags (Z.lor (flow_flags v) flags) v.
(** [assert(cntrack)] *)
Definition tracked : NM ptr := df ← get_df; get_some (conntrack df).

(** The release that the node itself asks for. *)
Definition release_port e p : NM unit :=
  v ← get_cntrack p;
  on_nat (dp_remove_network_snat_port (fenv_sync_enabled (nn_flow e)) (fenv_ports (nn_flow e)) v) ;;
  mret tt.

(** The reply key is taken out, changed and filed again. *)
Definition refile_reply e p (f : flow_key -> flow_key) : NM bool :=
  v ← get_cntrack p;
  on_flow (dp_delete_flow (nn_flow e) (key_reply v) p) ;;
  upd_cntrack p (fun v => set_key_reply (f (key_reply v)) v) ;;
  v ← get_cntrack p;
  ret ← on_flow (dp_add_flow (key_reply v) p);
  if DP_FAILED ret then mret false
  else on_flow (dp_ref_inc p) ;; mret true.

(** ** Source translation *)

Definition SNAT_NEXT_DROP : Z := 0.
Definition SNAT_NEXT_FIREWALL : Z := 1.

(** Echo requests are not offloaded. *)
Definition snat_port (nat_port : Z) p : NM unit :=
  df ← get_df;
  if l4_type df =? IPPROTO_ICMP then
    on_pkt (dp_change_icmp_identifier nat_port) ;;
    upd_cntrack p (fun v => set_offload_reply DP_FLOW_OFFLOADED (set_offload_orig DP_FLOW_OFFLOADED v)) ;;
    set_df (set_offload_state DP_FLOW_NON_OFFLOAD)
  else on_pkt (dp_change_l4_hdr_port DP_L4_PORT_DIR_SRC nat_port).

(** [cksum_off] is where the code finds the checksum of the IPv4 header. *)
Definition network_local (cksum_off : nat) port p : NM unit :=
  df ← get_df;
  upd_cntrack p (fun v => set_nf_l4_type (l4_type df) (set_nf_vni (iface_vni (iface port))
                   (set_nf_nat_type DP_FLOW_NAT_TYPE_NETWORK_LOCAL v))) ;;
  cksum ← on_pkt (rd cksum_off 2);
  upd_cntrack p (set_nf_icmp_err_ip_cksum cksum).

(** The flow gets the new source, and the packet its checksums. *)
Definition snat_finish e : NM unit :=
  set_df (set_nat_type DP_NAT_CHG_SRC_IP) ;;
  src ← on_pkt (rd (14 + ipv4_src_off) 4);
  set_df (set_nat_addr src) ;;
  on_pkt (dp_nat_chg_ip (nn_no_offload e)).

(** [sk] is the key of [data] in the table.  [false]: no port was allocated. *)
Definition snat_allocate e p port (sk : nat_key) (data : snat_data) : NM bool :=
  df ← get_df;
  cksum ← on_pkt (rd (14 + ipv4_cksum_off) 2);
  ret ← on_nat (dp_allocate_network_snat_port (nn_nat e) sk data df port cksum);
  if DP_FAILED ret then mret false
  else
    let nat_port := u16 ret in
    on_pkt (wr (14 + ipv4_src_off) 4 (htonl (snat_ip data))) ;;
    snat_port nat_port p ;;
    network_local (14 + ipv4_cksum_off) port p ;;
    set_df (set_nat_port nat_port) ;;
    mret true.

Definition dp_process_ipv4_snat e p port (sk : nat_key) (data : snat_data) : NM Z :=
  (if negb (vip_ip data =? 0) then
     on_pkt (wr (14 + ipv4_src_off) 4 (htonl (vip_ip data))) ;;
     upd_cntrack p (set_nf_nat_type DP_FLOW_NAT_TYPE_VIP)
   else mret tt) ;;
  allocated ← (if negb (snat_ip data =? 0) then snat_allocate e p port sk data else mret true);
  if negb allocated then mret DP_ERROR
  else
    snat_finish e ;;
    upd_cntrack p (or_flow_flags DP_FLOW_FLAG_SRC_NAT) ;;
    src ← on_pkt (rd (14 + ipv4_src_off) 4);
    df ← get_df;
    ok ← refile_reply e p (fun k =>
           let k := set_l3_dst (dp_set_ipaddr4 (ntohl src)) k in
           if negb (snat_ip data =? 0) then set_port_dst (nat_port df) k else k);
    if negb ok then
      (if negb (snat_ip data =? 0) then release_port e p else mret tt) ;;
      mret DP_ERROR
    else mret DP_OK.

(** The translation data of NAT64 is a local variable: the table of the
    interfaces keeps its contents. *)
Definition allocate_nat64 e port (data : snat_data) df (cksum : Z) (nat : nat_state) : Z * nat_state :=
  let '(ret, nat') := dp_allocate_network_snat_port (nn_nat e) (mk_nat_key 0 0) data df port cksum nat in
  (ret, set_ipv4_snat_tbl (ipv4_snat_tbl nat) nat').

(** The pointer to the header is taken before the packet loses 20 bytes. *)
Definition dp_process_ipv6_nat64 e p port : NM Z :=
  let ifc := iface port in
  let data := mk_snat_data 0 (nat_ip ifc) (nat_port_min ifc) (nat_port_max ifc) dp_empty_ipv6 dp_empty_ipv6 0 in
  df ← get_df;
  cksum ← on_pkt (rd (14 + ipv4_cksum_off) 2);
  ret ← on_nat (allocate_nat64 e port data df cksum);
  if DP_FAILED ret then mret DP_ERROR
  else
    let nat_port := u16 ret in
    set_df (set_nat_port nat_port) ;;
    set_df (set_nat_type DP_NAT_64_CHG_SRC_IP) ;;
    set_df (set_nat_addr (nat_ip ifc)) ;;
    r ← on_pkt (dp_nat_chg_ipv6_to_ipv4_hdr (nat_ip ifc));
    let '(ret, dest_ip4) := r in
    if DP_FAILED ret then release_port e p ;; mret DP_ERROR
    else
      snat_port nat_port p ;;
      network_local (14 + ipv4_cksum_off - 20) port p ;;
      upd_cntrack p (or_flow_flags DP_FLOW_FLAG_SRC_NAT64) ;;
      df ← get_df;
      ok ← refile_reply e p (fun k =>
             let k := if l4_type df =? IPPROTO_ICMP then set_port_src (nat64_icmp_type (port_src k)) k else k in
             set_key_proto (l4_type df) (set_port_dst nat_port
               (set_l3_dst (dp_set_ipaddr4 (nat_ip ifc)) (set_l3_src (dp_set_ipaddr4 (ntohl dest_ip4)) k))));
      if negb ok then release_port e p ;; mret DP_ERROR else mret DP_OK.

(** A packet of a flow that is translated already. *)
Definition snat_known_port p v : NM unit :=
  if bool_decide (nf_nat_type v = DP_FLOW_NAT_TYPE_NETWORK_LOCAL) then
    set_df (set_nat_port (port_dst (key_reply v))) ;;
    df ← get_df;
    if l4_type df =? IPPROTO_ICMP then on_pkt (dp_change_icmp_identifier (port_dst (key_reply v)))
    else on_pkt (dp_change_l4_hdr_port DP_L4_PORT_DIR_SRC (port_dst (key_reply v)))
  else mret tt.

Definition set_src_ip (ip : Z) : NM unit :=
  on_pkt (wr (14 + ipv4_src_off) 4 (htonl ip)).

(** A flow that has not been through a translation yet; [Some edge] ends the
    processing. *)
Definition snat_new_flow e p port : NM (option Z) :=
  df ← get_df;
  nat ← on_flow (gets nat_tables);
  let src_ip := ntohl (src_addr df) in
  let data := if l3_type df =? RTE_ETHER_TYPE_IPV4 then dp_get_iface_snat_data src_ip (iface_vni (iface port)) nat else None in
  let public := bool_decide (flow_type df = DP_FLOW_SOUTH_NORTH) in
  failed ←
    match data with
    | Some d =>
        if (negb (vip_ip d =? 0) || negb (snat_ip d =? 0)) && public then
          ret ← dp_process_ipv4_snat e p port (mk_nat_key src_ip (iface_vni (iface port))) d;
          mret (DP_FAILED ret)
        else mret false
    | None => mret false
    end;
  if failed : bool then mret (Some SNAT_NEXT_DROP)
  else
    df ← get_df;
    if (l3_type df =? RTE_ETHER_TYPE_IPV6) && negb (nat_ip (iface port) =? 0) && public && dp_is_ipv6_nat64 (df_dst df) then
      ret ← dp_process_ipv6_nat64 e p port;
      mret (Some (if DP_FAILED ret then SNAT_NEXT_DROP else SNAT_NEXT_FIREWALL))
    else mret None.

Definition snat_known_flow e p port : NM Z :=
  v ← get_cntrack p;
  df ← get_df;
  let org := bool_decide (flow_dir df = DP_FLOW_DIR_ORG) in
  ok ←
    (if has_flag (flow_flags v) DP_FLOW_FLAG_SRC_NAT && org then
       if is_v6 (l3_dst (key_reply v)) then mret false
       else
         set_src_ip (ipv4 (l3_dst (key_reply v))) ;;
         snat_known_port p v ;;
         snat_finish e ;;
         mret true
     else mret true);
  if negb ok then mret SNAT_NEXT_DROP
  else
    ok ←
      (if (has_flag (flow_flags v) DP_FLOW_FLAG_DST_NAT || has_flag (flow_flags v) DP_FLOW_FLAG_DST_LB) && negb org then
         if is_v6 (l3_dst (key_org v)) then mret false
         else
           src ← on_pkt (rd (14 + ipv4_src_off) 4);
           set_df (set_src_addr src) ;;
           set_src_ip (ipv4 (l3_dst (key_org v))) ;;
           src ← on_pkt (rd (14 + ipv4_src_off) 4);
           set_df (set_nat_addr src) ;;
           set_df (set_nat_type DP_NAT_CHG_SRC_IP) ;;
           on_pkt (dp_nat_chg_ip (nn_no_offload e)) ;;
           mret true
       else mret true);
    if negb ok then mret SNAT_NEXT_DROP
    else if has_flag (flow_flags v) DP_FLOW_FLAG_SRC_NAT64 && org then
      r ← on_pkt (dp_nat_chg_ipv6_to_ipv4_hdr (nat_ip (iface port)));
      if DP_FAILED (fst r) then mret SNAT_NEXT_DROP
      else
        snat_known_port p v ;;
        set_df (set_nat_type DP_NAT_64_CHG_SRC_IP) ;;
        set_df (set_nat_addr (nat_ip (iface port))) ;;
        mret SNAT_NEXT_FIREWALL
    else mret SNAT_NEXT_FIREWALL.

Definition snat_get_next_index e : NM Z :=
  port ← on_pkt (get_in_port (fenv_ports (nn_flow e)));
  df ← get_df;
  let metered := negb (is_pf port) && negb (public_flow_rate_cap (iface port) =? 0)
                 && bool_decide (flow_type df = DP_FLOW_SOUTH_NORTH)
                 && ((l3_type df =? RTE_ETHER_TYPE_IPV4) || (l3_type df =? RTE_ETHER_TYPE_IPV6)) in
  if metered && nn_red e port (l3_payload_length df) then mret SNAT_NEXT_DROP
  else
    p ← tracked;
    v ← get_cntrack p;
    early ← (if has_no_flags (flow_flags v) && bool_decide (flow_dir df = DP_FLOW_DIR_ORG) then snat_new_flow e p port else mret None);
    match early with
    | Some edge => mret edge
    | None => snat_known_flow e p port
    end.
(** ** Destination translation *)

Definition DNAT_NEXT_DROP : Z := 0.
Definition DNAT_NEXT_IPV4_LOOKUP : Z := 1.
Definition DNAT_NEXT_IPV6_LOOKUP : Z := 2.
Definition DNAT_NEXT_PACKET_RELAY : Z := 3.

(** The new destination goes into the header and the flow; what was there is
    kept as the translated address. *)
Definition set_dst_ip (ip : Z) : NM unit := on_pkt (wr (14 + ipv4_dst_off) 4 (htonl ip)).
Definition dnat_finish e : NM unit :=
  set_df (set_nat_type DP_NAT_CHG_DST_IP) ;;
  set_df (fun df => set_nat_addr (dst_addr df) df) ;;
  dst ← on_pkt (rd (14 + ipv4_dst_off) 4);
  set_df (set_dst_addr dst) ;;
  on_pkt (dp_nat_chg_ip (nn_no_offload e)).

Definition dnat_new_flow e p : NM Z :=
  df ← get_df;
  vni ← (if dst_vni df =? 0 then port ← on_pkt (get_in_port (fenv_ports (nn_flow e))); mret (iface_vni (iface port)) else mret (dst_vni df));
  nat ← on_flow (gets nat_tables);
  match dp_get_dnat_data (ntohl (dst_addr df)) vni nat with
  | None => mret DNAT_NEXT_IPV4_LOOKUP
  | Some data =>
      if dnat_ip data =? 0 then
        if (l4_type df =? IPPROTO_ICMP) && (icmp_type df =? RTE_ICMP_TYPE_ECHO_REQUEST) then
          upd_cntrack p (set_nf_nat_type DP_FLOW_NAT_AS_TARGET) ;;
          mret DNAT_NEXT_PACKET_RELAY
        else
          match dp_lookup_neighnat_underlay_ip df nat with
          | Some underlay_dst =>
              upd_cntrack p (set_nf_nat_type DP_FLOW_NAT_TYPE_NETWORK_NEIGH) ;;
              set_df (set_nat_type DP_CHG_UL_DST_IP) ;;
              upd_cntrack p (fun v => or_flow_flags DP_FLOW_FLAG_DST_NAT_FWD (set_nf_underlay_dst underlay_dst (set_nf_l4_type (l4_type df) v))) ;;
              mret DNAT_NEXT_PACKET_RELAY
          | None => mret DNAT_NEXT_DROP
          end
      else
        set_dst_ip (dnat_ip data) ;;
        dnat_finish e ;;
        upd_cntrack p (or_flow_flags DP_FLOW_FLAG_DST_NAT) ;;
        dst ← on_pkt (rd (14 + ipv4_dst_off) 4);
        ok ← refile_reply e p (set_l3_src (dp_set_ipaddr4 (ntohl dst)));
        mret (if ok : bool then DNAT_NEXT_IPV4_LOOKUP else DNAT_NEXT_DROP)
  end.

(** An ICMP error quotes the packet it is about: the quote gets back the
    address and port the interface has sent it with. *)
Definition dnat_icmp_error v : NM bool :=
  info ← on_pkt dp_get_icmp_err_ip_hdr;
  if negb (err_ipv4_hdr info) || (err_l4_src_port info =? 0) || (err_l4_dst_port info =? 0) then mret false
  else
    on_pkt (wr (err_hdr_off + ipv4_src_off) 4 (htonl (ipv4 (l3_src (key_org v))))) ;;
    on_pkt (wr (err_hdr_off + ipv4_cksum_off) 2 (nf_icmp_err_ip_cksum v)) ;;
    on_pkt (dp_change_icmp_err_l4_src_port (port_src (key_org v))) ;;
    mret true.

Definition dnat_known_port v : NM bool :=
  if bool_decide (nf_nat_type v = DP_FLOW_NAT_TYPE_NETWORK_LOCAL) then
    df ← get_df;
    if l4_type df =? IPPROTO_ICMP then
      ok ← (if icmp_type df =? RTE_ICMP_TYPE_ECHO_REPLY then on_pkt (dp_change_icmp_identifier (port_dst (key_org v))) ;; mret true
            else if icmp_type df =? DP_IP_ICMP_TYPE_ERROR then dnat_icmp_error v
            else mret true);
      if ok : bool then set_df (set_offload_state DP_FLOW_NON_OFFLOAD) ;; mret true else mret false
    else on_pkt (dp_change_l4_hdr_port DP_L4_PORT_DIR_DST (port_src (key_org v))) ;; mret true
  else mret true.

Definition dnat_known_port64 v : NM unit :=
  if bool_decide (nf_nat_type v = DP_FLOW_NAT_TYPE_NETWORK_LOCAL) then
    df ← get_df;
    if l4_type df =? IPPROTO_ICMP then
      if icmp_type df =? RTE_ICMP_TYPE_ECHO_REPLY then on_pkt (dp_change_icmp_identifier (port_dst (key_org v))) else mret tt
    else on_pkt (dp_change_l4_hdr_port DP_L4_PORT_DIR_DST (port_src (key_org v)))
  else mret tt.

Definition dnat_known_flow e v : NM Z :=
  df ← get_df;
  let org := bool_decide (flow_dir df = DP_FLOW_DIR_ORG) in
  ok ←
    (if has_flag (flow_flags v) DP_FLOW_FLAG_DST_NAT && org then
       if is_v6 (l3_src (key_reply v)) then mret false
       else set_dst_ip (ipv4 (l3_src (key_reply v))) ;; dnat_finish e ;; mret true
     else mret true);
  if negb ok then mret DNAT_NEXT_DROP
  else
    ok ←
      (if has_flag (flow_flags v) DP_FLOW_FLAG_SRC_NAT && negb org then
         if is_v6 (l3_src (key_org v)) then mret false
         else
           set_dst_ip (ipv4 (l3_src (key_org v))) ;;
           ok ← dnat_known_port v;
           if ok : bool then dnat_finish e ;; mret true else mret false
       else mret true);
    if negb ok then mret DNAT_NEXT_DROP
    else if has_flag (flow_flags v) DP_FLOW_FLAG_SRC_NAT64 && negb org then
      set_df (set_nat_type DP_NAT_64_CHG_DST_IP) ;;
      set_df (fun df => set_nat_addr (dst_addr df) df) ;;
      dnat_known_port64 v ;;
      match snd (dp_ipv6_from_ipaddr (l3_src (key_org v))) with
      | None => mret DNAT_NEXT_DROP
      | Some nat_ipv6 =>
          ret ← on_pkt (dp_nat_chg_ipv4_to_ipv6_hdr nat_ipv6);
          mret (if DP_FAILED ret then DNAT_NEXT_DROP else DNAT_NEXT_IPV6_LOOKUP)
      end
    else
      df ← get_df;
      mret (if l3_type df =? RTE_ETHER_TYPE_IPV4 then DNAT_NEXT_IPV4_LOOKUP
            else if l3_type df =? RTE_ETHER_TYPE_IPV6 then DNAT_NEXT_IPV6_LOOKUP else DNAT_NEXT_DROP).

Definition dnat_get_next_index e : NM Z :=
  df ← get_df;
  p ← tracked;
  v ← get_cntrack p;
  if has_no_flags (flow_flags v) && bool_decide (flow_dir df = DP_FLOW_DIR_ORG) && (l3_type df =? RTE_ETHER_TYPE_IPV4)
  then dnat_new_flow e p
  else if has_flag (flow_flags v) DP_FLOW_FLAG_DST_NAT_FWD then
    set_df (set_nat_type DP_CHG_UL_DST_IP) ;; mret DNAT_NEXT_PACKET_RELAY
  else if has_flag (flow_flags v) DP_FLOW_FLAG_DEFAULT && bool_decide (nf_nat_type v = DP_FLOW_NAT_AS_TARGET)
          && is_icmp (l4_type df)
          && ((icmp_type df =? RTE_ICMP_TYPE_ECHO_REQUEST) || (icmp_type df =? DP_ICMPV6_ECHO_REQUEST))
  then mret DNAT_NEXT_PACKET_RELAY
  else dnat_known_flow e v.

(** ** Firewall *)

Definition FIREWALL_NEXT_IPIP_ENCAP : Z := 1.

Definition fwall_action (dir : dp_flow_dir) v : dp_fwall_action :=
  match dir with DP_FLOW_DIR_ORG => fwall_org v | DP_FLOW_DIR_REPLY => fwall_reply v end.

(** The decision is made for the first packet of a flow. *)
Definition firewall_decide (in_port out_port : dp_port) df p v : NM dp_fwall_action :=
  if has_flag (flow_flags v) DP_FLOW_FLAG_FIREWALL then mret (fwall_action (flow_dir df) v)
  else
    match flow_dir df with
    | DP_FLOW_DIR_ORG =>
        action ← get_some (dp_get_firewall_action df in_port out_port);
        upd_cntrack p (fun v => or_flow_flags DP_FLOW_FLAG_FIREWALL (set_fwall_reply action (set_fwall_org action v))) ;;
        mret action
    | DP_FLOW_DIR_REPLY => mret DP_FWALL_DROP
    end.

(** The action is recorded; the test that would drop the packet is commented
    out. *)
Definition firewall_get_next_index e (next_tx_index : gmap Z Z) : NM Z :=
  in_port ← on_pkt (get_in_port (fenv_ports (nn_flow e)));
  out_port ← on_pkt (get_out_port (fenv_ports (nn_flow e)));
  df ← get_df;
  p ← tracked;
  v ← get_cntrack p;
  action ← firewall_decide in_port out_port df p v;
  if is_pf out_port then mret FIREWALL_NEXT_IPIP_ENCAP
  else get_some (edge_at next_tx_index (port_id out_port)).

(** ** Packets that are sent back *)

Definition PACKET_RELAY_NEXT_DROP : Z := 0.
Definition PACKET_RELAY_NEXT_IPIP_ENCAP : Z := 1.

Definition relay_back : NM unit :=
  port ← on_pkt (gets m_port);
  set_df (set_nxt_hop port).

Definition lb_nnat_icmp_reply e : NM Z :=
  type ← on_pkt (rd (34 + icmp_type_off) 1);
  if negb (type =? RTE_ICMP_TYPE_ECHO_REQUEST) then mret PACKET_RELAY_NEXT_DROP
  else
    on_pkt (wr (34 + icmp_type_off) 1 RTE_ICMP_TYPE_ECHO_REPLY) ;;
    cksum ← on_pkt (rd (34 + icmp_cksum_off) 2);
    on_pkt (wr (34 + icmp_cksum_off) 2
      (icmp_cksum_update cksum (htons (RTE_ICMP_TYPE_ECHO_REQUEST * 2 ^ 8)) (htons (RTE_ICMP_TYPE_ECHO_REPLY * 2 ^ 8)))) ;;
    temp_ip ← on_pkt (rd (14 + ipv4_dst_off) 4);
    src ← on_pkt (rd (14 + ipv4_src_off) 4);
    on_pkt (wr (14 + ipv4_dst_off) 4 src) ;;
    on_pkt (wr (14 + ipv4_src_off) 4 temp_ip) ;;
    relay_back ;;
    on_pkt (dp_nat_chg_ip (nn_no_offload e)) ;;
    set_df (fun df => set_ul_dst_addr6 (ul_src_addr6 df) df) ;;
    mret PACKET_RELAY_NEXT_IPIP_ENCAP.

Definition lb_nnat_icmpv6_reply : NM Z :=
  type ← on_pkt (rd (54 + icmp_type_off) 1);
  if negb (type =? DP_ICMPV6_ECHO_REQUEST) then mret PACKET_RELAY_NEXT_DROP
  else
    on_pkt (wr (54 + icmp_type_off) 1 DP_ICMPV6_ECHO_REPLY) ;;
    on_pkt (wr (54 + icmp_cksum_off) 2 0) ;;
    hdr ← on_pkt (memory_from 14);
    icmp ← on_pkt (memory_from 54);
    on_pkt (wr (54 + icmp_cksum_off) 2 (rte_ipv6_udptcp_cksum hdr icmp)) ;;
    temp_addr ← on_pkt (rd_ipv6 (14 + ipv6_dst_off));
    src ← on_pkt (rd_ipv6 (14 + ipv6_src_off));
    on_pkt (wr_ipv6 (14 + ipv6_dst_off) src) ;;
    on_pkt (wr_ipv6 (14 + ipv6_src_off) temp_addr) ;;
    relay_back ;;
    set_df (fun df => set_ul_dst_addr6 (ul_src_addr6 df) df) ;;
    mret PACKET_RELAY_NEXT_IPIP_ENCAP.

Definition packet_relay_get_next_index e : NM Z :=
  p ← tracked;
  v ← get_cntrack p;
  df ← get_df;
  if bool_decide (nf_nat_type v = DP_FLOW_NAT_TYPE_NETWORK_NEIGH) then
    relay_back ;;
    set_df (fun df => set_ul_src_addr6 (ul_dst_addr6 df) df) ;;
    set_df (set_ul_dst_addr6 (nf_underlay_dst v)) ;;
    mret PACKET_RELAY_NEXT_IPIP_ENCAP
  else if l4_type df =? IPPROTO_ICMP then lb_nnat_icmp_reply e
  else if l4_type df =? IPPROTO_ICMPV6 then lb_nnat_icmpv6_reply
  else mret PACKET_RELAY_NEXT_DROP.
End nodes.
