(* ===== verification/NatNodesTheorems.v ===== *)
(** The translating nodes rewrite what they should and nothing else: ICMP
    checksums stay right, replies come back to the packet's sender, and the
    flow of a translated connection is found by its replies. *)

From S2P Require Import Prelude Errors RteHash IpAddr Port Graph Packet Fields Ipsec Vnf Firewall FlowKey Nat NatTheorems Flow FlowProofs Cntrack CntrackTheorems Lb NatRewrite NatNodes.

(** ** Ones' complement sums *)

(** The sum of the 16-bit words of a message.  The checksum in it is right when
    the sum is a multiple of [0xffff]. *)
Fixpoint words_sum (l : list Z) : Z :=
  match l with
  | a :: b :: l' => a + 256 * b + words_sum l'
  | [a] => a
  | [] => 0
  end.

(** The ICMP message of [len] bytes behind an IPv4 header. *)
Definition icmp_message (len : nat) (m : rte_mbuf) : list Z := bytes_at 34 len (memory (buf m)).
Definition checksum_error (len : nat) (m : rte_mbuf) : Z := words_sum (icmp_message len m) mod 0xffff.

Lemma words_sum_split off n l : (off + 2 <= length l)%nat ->
  words_sum (bytes_at off (2 + n) l) = le_join (bytes_at off 2 l) + words_sum (bytes_at (off + 2) n l).
Proof.
  intros Hl. unfold bytes_at. rewrite <-drop_drop. assert (2 <= length (drop off l))%nat as Hd by (rewrite length_drop; lia).
  destruct (drop off l) as [|a [|b r]]; cbn in Hd; [lia..|].
  cbn [Nat.add take drop words_sum le_join]. rewrite take_0, drop_0. cbn [le_join]. lia.
Qed.

Lemma field_split m off : (off + 2 <= msize m)%nat -> field m off 2 = field m off 1 + 256 * field m (off + 1) 1.
Proof.
  intros Hl. unfold field, bytes_at. rewrite <-drop_drop. unfold msize in Hl.
  assert (2 <= length (drop off (memory (buf m))))%nat as Hd by (rewrite length_drop; lia).
  destruct (drop off (memory (buf m))) as [|a [|b r]]; cbn in Hd; [lia..|].
  cbn [Nat.add take drop le_join]. rewrite !take_0, ?drop_0. cbn [le_join take]. rewrite ?take_0. cbn [le_join]. lia.
Qed.

(** The words of an ICMP header, and the rest. *)
Lemma icmp_message_words len m : (8 <= len)%nat -> (34 + len <= msize m)%nat ->
  words_sum (icmp_message len m)
  = field m 34 2 + field m 36 2 + field m 38 2 + words_sum (bytes_at 40 (len - 6) (memory (buf m))).
Proof.
  intros Hl Hm. unfold icmp_message, msize in *. replace len with (2 + (2 + (2 + (len - 6))))%nat at 1 by lia.
  rewrite !words_sum_split by lia. unfold field. cbn [Nat.add]. lia.
Qed.

Lemma land_lnot16 x : is_u16 x -> Z.land (Z.lnot x) 0xffff = 0xffff - x.
Proof.
  intros Hx. change 0xffff with (Z.ones 16). rewrite Z.land_ones by lia. unfold Z.lnot, is_u16 in *.
  change (Z.ones 16) with 65535. symmetry. apply (Z.mod_unique _ _ (-1)); lia.
Qed.

Lemma land16 x : Z.land x 0xffff = x mod 65536.
Proof. change 0xffff with (Z.ones 16). by rewrite Z.land_ones by lia. Qed.

Lemma shiftr16 x : Z.shiftr x 16 = x / 65536.
Proof. by rewrite Z.shiftr_div_pow2 by lia. Qed.

(** One turn of carrying keeps the sum modulo [0xffff]. *)
Lemma carry_mod x : (x mod 65536 + x / 65536) mod 65535 = x mod 65535.
Proof.
  rewrite (Z.div_mod x 65536) at 3 by lia. replace (65536 * (x / 65536) + x mod 65536)
    with (x mod 65536 + x / 65536 + (x / 65536) * 65535) by lia. by rewrite Z.mod_add by lia.
Qed.

Lemma carry_twice x : 0 <= x < 2 ^ 32 ->
  let y := x mod 65536 + x / 65536 in let z := y mod 65536 + y / 65536 in
  0 <= y < 2 ^ 32 /\ 0 <= z <= 65535 /\ z mod 65535 = x mod 65535.
Proof.
  intros Hx y z. assert (0 <= x / 65536 < 65536) by (split; [apply Z.div_pos|apply Z.div_lt_upper_bound]; lia).
  pose proof (Z.mod_pos_bound x 65536 ltac:(lia)). assert (0 <= y < 2 ^ 32) as Hy by (unfold y; lia).
  split_and!; [apply Hy | apply Hy | | |].
  - unfold z. pose proof (Z.mod_pos_bound y 65536 ltac:(lia)). assert (0 <= y / 65536) by (apply Z.div_pos; lia). lia.
  - unfold z. assert (y / 65536 < 2) by (apply Z.div_lt_upper_bound; unfold y; lia).
    pose proof (Z.div_mod y 65536 ltac:(lia)). pose proof (Z.mod_pos_bound y 65536 ltac:(lia)).
    assert (0 <= y / 65536) by (apply Z.div_pos; lia). unfold y in *. nia.
  - unfold z, y. by rewrite !carry_mod.
Qed.

Lemma cksum_update_spec c o n : is_u16 c -> is_u16 o -> is_u16 n ->
  is_u16 (icmp_cksum_update c o n) /\ (icmp_cksum_update c o n + n) mod 0xffff = (c + o) mod 0xffff.
Proof.
  intros Hc Ho Hn. unfold icmp_cksum_update. rewrite (land_lnot16 c), (land_lnot16 o) by done. rewrite (land16 n), (Z.mod_small n) by (unfold is_u16 in *; lia).
  assert (forall x, 0 <= x < 2 ^ 32 -> u32 x = x) as U by (intros; by apply Z.mod_small). unfold is_u16 in *.
  rewrite (U (0xffff - c + (0xffff - o))), (U (0xffff - c + (0xffff - o) + n)) by lia.
  set (s := 0xffff - c + (0xffff - o) + n). rewrite !land16, !shiftr16.
  destruct (carry_twice s) as (Hy & Hz & Hmod); [unfold s; lia|].
  rewrite (U (s mod 65536 + s / 65536)) by done. set (z := (s mod 65536 + s / 65536) mod 65536 + (s mod 65536 + s / 65536) / 65536) in *.
  rewrite (U z) by lia.
  replace (Z.lnot z mod 65536) with (0xffff - z) by (rewrite <-land16; symmetry; apply land_lnot16; unfold is_u16; lia).
  split; [lia|].
  replace (0xffff - z + n) with (n - z + 1 * 65535) by lia. rewrite Z.mod_add by lia.
  rewrite <-(Z.mod_add (c + o) (-2)) by lia. rewrite <-Zminus_mod_idemp_r, Hmod, Zminus_mod_idemp_r. f_equal. unfold s. lia.
Qed.

(** ** Identifiers of echo messages *)

Lemma change_identifier_run new m : (42 <= msize m)%nat ->
  dp_change_icmp_identifier new m
  = let m1 := put 38 2 (htons new) m in
    Some (tt, put 36 2 (icmp_cksum_update (field m 36 2) (field m 38 2) (htons new)) m1).
Proof.
  intros Hm. unfold dp_change_icmp_identifier. pose proof (bswap16_range new) as Hr.
  change (34 + icmp_ident_off)%nat with 38%nat. change (34 + icmp_cksum_off)%nat with 36%nat.
  erewrite M_bind_Some; [|apply rd_field; lia]. erewrite M_bind_Some; [|apply wr_put; lia].
  assert (msize (put 38 2 (htons new) m) = msize m) as Hs by (apply msize_put; lia).
  erewrite M_bind_Some; [|apply rd_field; lia]. erewrite M_bind_Some; [|apply rd_field; lia].
  rewrite (field_put 38), (field_put_other 38) by (done || lia). rewrite (Z.mod_small (htons new)) by apply Hr.
  apply wr_put. lia.
Qed.

(** Replacing two words by ones that add up to the same keeps the checksum. *)
Lemma checksum_error_words len m m' : (8 <= len)%nat -> (34 + len <= msize m)%nat -> frame [(34, 1); (36, 2); (38, 2)]%nat m m' ->
  (field m' 34 2 + field m' 36 2 + field m' 38 2) mod 0xffff = (field m 34 2 + field m 36 2 + field m 38 2) mod 0xffff ->
  checksum_error len m' = checksum_error len m.
Proof.
  intros Hl Hm F Hw. unfold checksum_error. rewrite !icmp_message_words by (rewrite ?(fr_size _ _ _ F); done).
  rewrite (frame_bytes _ _ _ 40 (len - 6) F) by done. by rewrite <-Zplus_mod_idemp_l, Hw, Zplus_mod_idemp_l.
Qed.

(** Giving an echo message another identifier changes the identifier and the
    checksum only, and leaves a checksum that was right (or wrong by some
    amount) as right (or as wrong). *)
Theorem icmp_identifier_keeps_checksum new m len :
  bytes_ok m -> (8 <= len)%nat -> (34 + len <= msize m)%nat ->
  exists m', dp_change_icmp_identifier new m = Some (tt, m') /\ field m' 38 2 = htons new
    /\ checksum_error len m' = checksum_error len m /\ frame [(36, 2); (38, 2)]%nat m m' /\ flow m' = flow m.
Proof.
  intros Hb Hl Hm. pose proof (bswap16_range new) as Hr.
  assert (msize (put 38 2 (htons new) m) = msize m) as Hs by (apply msize_put; lia).
  destruct (cksum_update_spec (field m 36 2) (field m 38 2) (htons new)) as [Hc Hsum]; [apply field_u16; (done || lia)..|done|].
  eexists. split; [apply change_identifier_run; lia|].
  set (c' := icmp_cksum_update _ _ _) in *. set (m' := put 36 2 c' _).
  assert (frame [(36, 2); (38, 2)]%nat m m') as F.
  { apply (frame_trans _ _ (put 38 2 (htons new) m)); (eapply frame_weaken; [apply put_frame; lia|]); intros w ->%list_elem_of_singleton; set_solver. }
  assert (field m' 38 2 = htons new) as H38.
  { unfold m'. rewrite field_put_other, field_put by (done || lia). apply Z.mod_small, Hr. }
  assert (field m' 36 2 = c') as H36.
  { unfold m'. rewrite field_put by lia. by apply Z.mod_small. }
  split_and!; try done.
  apply checksum_error_words; [done..| |].
  - eapply frame_weaken; [exact F|]. set_solver.
  - rewrite H38, H36, (frame_field _ _ _ 34 2 F) by done. rewrite <-!Z.add_assoc, <-Zplus_mod_idemp_r, Hsum, Zplus_mod_idemp_r. done.
Qed.

(** ** New addresses *)

(** Where the checksum of a protocol lies, and how long its header is. *)
Definition l4_cksum_at (l4 : Z) : list (nat * nat) :=
  if l4 =? IPPROTO_TCP then [(50, 2)%nat] else if l4 =? IPPROTO_UDP then [(40, 2)%nat] else [].
Definition headers_len (l4 : Z) : nat := if l4 =? IPPROTO_TCP then 54 else 42.

Lemma headers_len_ge l4 : (42 <= headers_len l4)%nat.
Proof. unfold headers_len. destruct (_ =? _); lia. Qed.

Section nodes.
Context `{ERR : RteErrno} {MB : RteMbuf} {CK : RteCksum} {HT : RteHash dp_ipv6 dp_vnf} {VT : RteHash dp_vnf dp_ipv6}
  {ST : RteHash nat_key snat_data} {DT : RteHash nat_key dnat_data}
  {PM : RteHash netnat_portmap_key netnat_portmap_data}
  {PO : RteHash netnat_portoverload_tbl_key (option netnat_portoverload_sync_metadata)}
  {FT : RteHash flow_key ptr}.
Implicit Types (e : nat_node_env) (p : ptr) (v : flow_value) (m : rte_mbuf) (st : flow_state).

Lemma chg_l4_edits no_offload l4 (P : dp_flow -> Prop) : edits (headers_len l4) P ((24, 2)%nat :: l4_cksum_at l4) (chg_l4 no_offload l4).
Proof.
  unfold chg_l4, or_ol_flags, tcp_hdr_len, memory_from, headers_len, l4_cksum_at.
  destruct (l4 =? IPPROTO_TCP); [edits|]. destruct (l4 =? IPPROTO_UDP); edits.
Qed.

(** Only checksums change, besides what the NIC is told. *)
Lemma chg_ip_edits no_offload l4 :
  edits (headers_len l4) (fun df => l4_type df = l4) ((24, 2)%nat :: l4_cksum_at l4) (dp_nat_chg_ip no_offload).
Proof.
  unfold dp_nat_chg_ip, or_ol_flags, clear_tx_offload, ipv4_hdr_len, memory_from. pose proof (headers_len_ge l4).
  do 7 (apply edits_bind; [edits|intros ?]). apply edits_flow. intros df ->.
  apply edits_bind; [apply chg_l4_edits | edits].
Qed.

(** ** Ports and identifiers *)

(** What stands for the port: the identifier of an echo message. *)
Definition l4_id_at (l4 : Z) (dir : l4_port_dir) : nat :=
  if l4 =? IPPROTO_ICMP then 38 else match dir with DP_L4_PORT_DIR_SRC => 34 | DP_L4_PORT_DIR_DST => 36 end.
Definition l4_id_writes (l4 : Z) (dir : l4_port_dir) : list (nat * nat) :=
  if l4 =? IPPROTO_ICMP then [(36, 2); (38, 2)]%nat else [(l4_id_at l4 dir, 2%nat)].

Lemma port_run l4 dir x m : (42 <= msize m)%nat ->
  exists m', (if l4 =? IPPROTO_ICMP then dp_change_icmp_identifier x else dp_change_l4_hdr_port dir x) m = Some (tt, m')
    /\ field m' (l4_id_at l4 dir) 2 = htons x /\ frame (l4_id_writes l4 dir) m m' /\ flow m' = flow m.
Proof.
  intros Hm. pose proof (bswap16_range x) as Hr. unfold l4_id_at, l4_id_writes, l4_id_at. destruct (l4 =? IPPROTO_ICMP).
  - eexists. split; [by apply change_identifier_run|]. cbv zeta. assert (msize (put 38 2 (htons x) m) = msize m) as Hs by (apply msize_put; lia).
    split_and!; [|apply (frame_trans _ _ (put 38 2 (htons x) m)); (eapply frame_weaken; [apply put_frame; lia|]); intros w ->%list_elem_of_singleton; set_solver|done].
    rewrite field_put_other, field_put by (done || lia). apply Z.mod_small, Hr.
  - assert (forall off, (off + 2 <= 42)%nat -> exists m', wr off 2 (htons x) m = Some (tt, m')
      /\ field m' off 2 = htons x /\ frame [(off, 2%nat)] m m' /\ flow m' = flow m) as H.
    { intros off Hoff. exists (put off 2 (htons x) m).
      split_and!; [apply wr_put; lia | rewrite field_put by lia; apply Z.mod_small, Hr | apply put_frame; lia | done]. }
    destruct dir; apply H; cbn; lia.
Qed.

(** ** Established connections *)

Definition src_ip m : Z := field m (14 + ipv4_src_off) 4.
Definition dst_ip m : Z := field m (14 + ipv4_dst_off) 4.
Definition src_id (l4 : Z) m : Z := field m (l4_id_at l4 DP_L4_PORT_DIR_SRC) 2.
Definition dst_id (l4 : Z) m : Z := field m (l4_id_at l4 DP_L4_PORT_DIR_DST) 2.

(** [r] goes the other way between the ends of [m]. *)
Definition mirrors (l4 : Z) m r : Prop :=
  src_ip r = dst_ip m /\ dst_ip r = src_ip m /\ src_id l4 r = dst_id l4 m /\ dst_id l4 r = src_id l4 m.

(** What translating one end of a packet may change. *)
Definition translation_writes (l4 : Z) (dir : l4_port_dir) : list (nat * nat) :=
  (match dir with DP_L4_PORT_DIR_SRC => (14 + ipv4_src_off, 4) | DP_L4_PORT_DIR_DST => (14 + ipv4_dst_off, 4) end
   :: (24, 2) :: l4_cksum_at l4 ++ l4_id_writes l4 dir)%nat.

Definition translatable (l4 : Z) : Prop := l4 = IPPROTO_TCP \/ l4 = IPPROTO_UDP \/ l4 = IPPROTO_ICMP.

(** The flow as far as the nodes look at it again. *)
Definition same_conn (df df' : dp_flow) : Prop :=
  l4_type df' = l4_type df /\ flow_dir df' = flow_dir df /\ conntrack df' = conntrack df /\ l3_type df' = l3_type df
  /\ flow_type df' = flow_type df.

(** A step of a node that changes the packet only, within [W]. *)
Definition rewrites W {A} (f : M node_state A) m st (a : A) m' : Prop :=
  f (mk_node m st) = Some (a, mk_node m' st) /\ frame W m m' /\ same_conn (flow m) (flow m').

Lemma rewrites_bind W {A B} (f : M node_state A) (g : A -> M node_state B) m st a m1 b m2 :
  rewrites W f m st a m1 -> rewrites W (g a) m1 st b m2 -> rewrites W (mbind g f) m st b m2.
Proof.
  intros (H1 & F1 & C1) (H2 & F2 & C2). split_and!; [by rewrite (M_bind_Some _ _ _ _ _ H1) | by eapply frame_trans|].
  unfold same_conn in *. intuition congruence.
Qed.

Lemma rewrites_ret W {A} (a : A) m st : rewrites W (mret a) m st a m.
Proof. split_and!; [done | apply frame_refl | done]. Qed.

Lemma rewrites_edit W {A} (f : M rte_mbuf A) m st a m' : f m = Some (a, m') -> frame W m m' -> flow m' = flow m ->
  rewrites W (on_pkt f) m st a m'.
Proof. intros H F Hf. split_and!; [by apply on_pkt_run | done | by rewrite Hf]. Qed.

Lemma rewrites_set_df W f m st : same_conn (flow m) (f (flow m)) -> rewrites W (set_df f) m st tt (set_flow (f (flow m)) m).
Proof. intros H. split_and!; [done | by apply same_buf_frame | done]. Qed.

Lemma rewrites_weaken W W' {A} (f : M node_state A) m st a m' : rewrites W f m st a m' -> W ⊆ W' -> rewrites W' f m st a m'.
Proof. intros (? & ? & ?) HW. split_and!; [done | by eapply frame_weaken | done]. Qed.

Lemma rewrites_get_df W m st : rewrites W get_df m st (flow m) m.
Proof. split_and!; [done | apply frame_refl | done]. Qed.

Lemma get_df_bind W {B} (g : dp_flow -> M node_state B) m st b m2 :
  rewrites W (g (flow m)) m st b m2 -> rewrites W (mbind g get_df) m st b m2.
Proof. intros H. eapply rewrites_bind; [apply rewrites_get_df | exact H]. Qed.

(** The port of an end, when the flow has one of its own. *)
Lemma snat_known_port_run p v m st l4 : l4_type (flow m) = l4 -> (42 <= msize m)%nat ->
  exists m', rewrites (l4_id_writes l4 DP_L4_PORT_DIR_SRC) (snat_known_port p v) m st tt m'
    /\ (nf_nat_type v = DP_FLOW_NAT_TYPE_NETWORK_LOCAL -> src_id l4 m' = htons (port_dst (key_reply v)))
    /\ (nf_nat_type v <> DP_FLOW_NAT_TYPE_NETWORK_LOCAL -> m' = m).
Proof.
  intros Hl4 Hm. unfold snat_known_port. case_bool_decide as Hn; [|exists m; split_and!; [apply rewrites_ret|done..]].
  set (m1 := set_flow (set_nat_port (port_dst (key_reply v)) (flow m)) m).
  destruct (port_run l4 DP_L4_PORT_DIR_SRC (port_dst (key_reply v)) m1) as (m' & Hrun & Hid & F & Hf); [done|].
  exists m'. split_and!; [|done..]. eapply rewrites_bind; [by apply rewrites_set_df|]. apply get_df_bind.
  fold m1. replace (l4_type (flow m1)) with l4. destruct (l4 =? IPPROTO_ICMP); by apply rewrites_edit.
Qed.

Lemma get_cntrack_bind W {B} (g : flow_value -> M node_state B) p v m st b m2 : flow_heap st !! p = Some v ->
  rewrites W (g v) m st b m2 -> rewrites W (mbind g (get_cntrack p)) m st b m2.
Proof.
  intros Hp H. eapply rewrites_bind; [|exact H]. split_and!; [by apply on_flow_run, load_flow_run | apply frame_refl | done].
Qed.

Lemma rd_bind W {B} (g : Z -> M node_state B) off n m st b m2 : (off + n <= msize m)%nat ->
  rewrites W (g (field m off n)) m st b m2 -> rewrites W (mbind g (on_pkt (rd off n))) m st b m2.
Proof. intros Hm H. eapply rewrites_bind; [|exact H]. apply rewrites_edit; [by apply rd_field | apply frame_refl | done]. Qed.

(** New address and port at one end, and the checksums. *)
Lemma set_ip_run off ip m st : (off + 4 <= msize m)%nat ->
  exists m', rewrites [(off, 4%nat)] (on_pkt (wr off 4 (htonl ip))) m st tt m' /\ field m' off 4 = htonl ip.
Proof.
  intros Hm. exists (put off 4 (htonl ip) m). split.
  - apply rewrites_edit; [by apply wr_put | by apply put_frame | done].
  - rewrite field_put by done. apply Z.mod_small, bswap32_range.
Qed.

Lemma chg_ip_run no_offload l4 m st : l4_type (flow m) = l4 -> (headers_len l4 <= msize m)%nat ->
  exists m', rewrites ((24, 2)%nat :: l4_cksum_at l4) (on_pkt (dp_nat_chg_ip no_offload)) m st tt m'.
Proof.
  intros Hl4 Hm. destruct (chg_ip_edits no_offload l4 m Hm Hl4) as ([] & m' & Hrun & F & Hf).
  exists m'. by apply rewrites_edit.
Qed.

Ltac widen := eapply rewrites_weaken; [eassumption | unfold translation_writes; set_solver].

Lemma snat_finish_run e m st l4 : l4_type (flow m) = l4 -> translatable l4 -> (headers_len l4 <= msize m)%nat ->
  exists m', rewrites ((24, 2)%nat :: l4_cksum_at l4) (snat_finish e) m st tt m'
    /\ src_ip m' = src_ip m /\ src_id l4 m' = src_id l4 m /\ nat_port (flow m') = nat_port (flow m).
Proof.
  intros Hl4 Ht Hm. pose proof (headers_len_ge l4).
  set (m1 := set_flow (set_nat_type DP_NAT_CHG_SRC_IP (flow m)) m).
  set (m2 := set_flow (set_nat_addr (field m1 (14 + ipv4_src_off) 4) (flow m1)) m1).
  destruct (chg_ip_edits (nn_no_offload e) l4 m2 Hm Hl4) as ([] & m' & Hrun & F & Hf). exists m'. split_and!.
  - eapply rewrites_bind; [by apply rewrites_set_df|]. apply rd_bind; [change (30 <= msize m)%nat; lia|].
    eapply rewrites_bind; [by apply rewrites_set_df|]. by apply rewrites_edit.
  - change (src_ip m) with (src_ip m2). apply (frame_field _ _ _ _ _ F). by destruct Ht as [->|[->| ->]].
  - change (src_id l4 m) with (src_id l4 m2). apply (frame_field _ _ _ _ _ F). by destruct Ht as [->|[->| ->]].
  - by rewrite Hf.
Qed.

Lemma snat_translate_run e p v m st l4 : l4_type (flow m) = l4 -> translatable l4 -> (headers_len l4 <= msize m)%nat ->
  exists m', rewrites (translation_writes l4 DP_L4_PORT_DIR_SRC)
    (set_src_ip (ipv4 (l3_dst (key_reply v))) ;; snat_known_port p v ;; snat_finish e ;; mret true) m st true m'
    /\ src_ip m' = htonl (ipv4 (l3_dst (key_reply v)))
    /\ src_id l4 m' = (if bool_decide (nf_nat_type v = DP_FLOW_NAT_TYPE_NETWORK_LOCAL) then htons (port_dst (key_reply v)) else src_id l4 m).
Proof.
  intros Hl4 Ht Hm. pose proof (headers_len_ge l4) as Hge. unfold set_src_ip.
  destruct (set_ip_run (14 + ipv4_src_off) (ipv4 (l3_dst (key_reply v))) m st) as (m1 & R1 & Hsrc1); [cbn; lia|].
  pose proof R1 as (_ & F1 & C1). pose proof (fr_size _ _ _ F1) as Hs1.
  destruct (snat_known_port_run p v m1 st l4) as (m2 & R2 & Hid & Hsame); [destruct C1; congruence | lia|].
  pose proof R2 as (_ & F2 & C2). pose proof (fr_size _ _ _ F2) as Hs2.
  destruct (snat_finish_run e m2 st l4) as (m3 & R3 & Hip3 & Hid3 & _); [destruct C1, C2; congruence | done | lia|].
  exists m3. split_and!.
  - eapply rewrites_bind; [widen|]. eapply rewrites_bind; [widen|]. eapply rewrites_bind; [widen|]. apply rewrites_ret.
  - rewrite Hip3, <-Hsrc1. apply (frame_field _ _ _ _ _ F2). by destruct Ht as [->|[->| ->]].
  - rewrite Hid3. case_bool_decide as Hn; [by apply Hid|]. rewrite (Hsame Hn). apply (frame_field _ _ _ _ _ F1).
    by destruct Ht as [->|[->| ->]].
Qed.

(** An ICMP packet of a translated connection is an echo reply. *)
Definition replies (df : dp_flow) : Prop := l4_type df = IPPROTO_ICMP -> icmp_type df = RTE_ICMP_TYPE_ECHO_REPLY.
(** What the interface has called the end of its connection. *)
Definition own_id (l4 : Z) v : Z := if l4 =? IPPROTO_ICMP then port_dst (key_org v) else port_src (key_org v).

Lemma dnat_known_port_run v m st l4 : l4_type (flow m) = l4 -> replies (flow m) -> (42 <= msize m)%nat ->
  exists m', rewrites (l4_id_writes l4 DP_L4_PORT_DIR_DST) (dnat_known_port v) m st true m'
    /\ (nf_nat_type v = DP_FLOW_NAT_TYPE_NETWORK_LOCAL -> dst_id l4 m' = htons (own_id l4 v))
    /\ (nf_nat_type v <> DP_FLOW_NAT_TYPE_NETWORK_LOCAL -> m' = m).
Proof.
  intros Hl4 Hr Hm. unfold dnat_known_port. case_bool_decide as Hn; [|exists m; split_and!; [apply rewrites_ret|done..]].
  destruct (port_run l4 DP_L4_PORT_DIR_DST (own_id l4 v) m Hm) as (m1 & Hrun & Hid & F & Hf).
  unfold own_id in *. destruct (Z.eqb_spec l4 IPPROTO_ICMP) as [Hi|Hi].
  - exists (set_flow (set_offload_state DP_FLOW_NON_OFFLOAD (flow m1)) m1). split_and!; [|done..].
    apply get_df_bind. rewrite Hl4, Hi, (Hr (eq_trans Hl4 Hi)), !Z.eqb_refl. eapply rewrites_bind.
    { eapply rewrites_bind; [apply rewrites_edit; [exact Hrun | by rewrite <-Hi | exact Hf]|]. apply rewrites_ret. }
    eapply rewrites_bind; [by apply rewrites_set_df|]. apply rewrites_ret.
  - exists m1. split_and!; [|done..]. apply get_df_bind. rewrite Hl4. rewrite (proj2 (Z.eqb_neq _ _) Hi).
    eapply rewrites_bind; [by apply rewrites_edit|]. apply rewrites_ret.
Qed.

Lemma dnat_finish_run e m st l4 : l4_type (flow m) = l4 -> (headers_len l4 <= msize m)%nat ->
  exists m', rewrites ((24, 2)%nat :: l4_cksum_at l4) (dnat_finish e) m st tt m'.
Proof.
  intros Hl4 Hm. pose proof (headers_len_ge l4). unfold dnat_finish.
  set (m1 := set_flow (set_nat_type DP_NAT_CHG_DST_IP (flow m)) m).
  set (m2 := set_flow (set_nat_addr (dst_addr (flow m1)) (flow m1)) m1).
  set (m3 := set_flow (set_dst_addr (field m2 (14 + ipv4_dst_off) 4) (flow m2)) m2).
  destruct (chg_ip_run (nn_no_offload e) l4 m3 st Hl4 Hm) as (m4 & R4). exists m4.
  eapply rewrites_bind; [by apply rewrites_set_df|]. eapply rewrites_bind; [by apply rewrites_set_df|].
  apply rd_bind; [change (34 <= msize m)%nat; lia|]. eapply rewrites_bind; [by apply rewrites_set_df|]. exact R4.
Qed.

Lemma dnat_translate_run e v m st l4 : l4_type (flow m) = l4 -> replies (flow m) -> translatable l4 -> (headers_len l4 <= msize m)%nat ->
  exists m', rewrites (translation_writes l4 DP_L4_PORT_DIR_DST)
    (set_dst_ip (ipv4 (l3_src (key_org v))) ;;
     ok ← dnat_known_port v;
     if ok : bool then dnat_finish e ;; mret true else mret false) m st true m'
    /\ dst_ip m' = htonl (ipv4 (l3_src (key_org v)))
    /\ dst_id l4 m' = (if bool_decide (nf_nat_type v = DP_FLOW_NAT_TYPE_NETWORK_LOCAL) then htons (own_id l4 v) else dst_id l4 m).
Proof.
  intros Hl4 Hr Ht Hm. pose proof (headers_len_ge l4) as Hge. unfold set_dst_ip.
  set (m1 := put (14 + ipv4_dst_off) 4 (htonl (ipv4 (l3_src (key_org v)))) m).
  assert (field m1 (14 + ipv4_dst_off) 4 = htonl (ipv4 (l3_src (key_org v)))) as Hdst1.
  { unfold m1. rewrite field_put by (cbn; lia). apply Z.mod_small, bswap32_range. }
  assert (frame [(14 + ipv4_dst_off, 4)]%nat m m1) as F1 by (apply put_frame; cbn; lia).
  pose proof (fr_size _ _ _ F1) as Hs1.
  destruct (dnat_known_port_run v m1 st l4 Hl4 Hr) as (m2 & R2 & Hid & Hsame); [lia|].
  pose proof R2 as (_ & F2 & C2). pose proof (fr_size _ _ _ F2) as Hs2.
  destruct (dnat_finish_run e m2 st l4) as (m3 & R3); [destruct C2 as [-> _]; exact Hl4 | lia|].
  pose proof R3 as (_ & F3 & C3). exists m3. split_and!.
  - eapply rewrites_bind; [apply rewrites_edit; [apply wr_put; cbn; lia | | done]|].
    { eapply frame_weaken; [exact F1|]. unfold translation_writes. set_solver. }
    eapply rewrites_bind; [widen|]. cbn [negb]. eapply rewrites_bind; [widen|]. apply rewrites_ret.
  - unfold dst_ip. rewrite (frame_field _ _ _ _ _ F3), <-Hdst1 by (by destruct Ht as [->|[->| ->]]).
    apply (frame_field _ _ _ _ _ F2). by destruct Ht as [->|[->| ->]].
  - unfold dst_id in *. rewrite (frame_field _ _ _ _ _ F3) by (by destruct Ht as [->|[->| ->]]).
    case_bool_decide as Hn; [by apply Hid|]. rewrite (Hsame Hn). apply (frame_field _ _ _ _ _ F1).
    by destruct Ht as [->|[->| ->]].
Qed.

(** A connection whose source is translated, and nothing else. *)
Definition source_translated v : Prop :=
  has_flag (flow_flags v) DP_FLOW_FLAG_SRC_NAT = true /\ has_flag (flow_flags v) DP_FLOW_FLAG_SRC_NAT64 = false
  /\ has_flag (flow_flags v) DP_FLOW_FLAG_DST_NAT_FWD = false
  /\ is_v6 (l3_dst (key_reply v)) = false /\ is_v6 (l3_src (key_org v)) = false.

(** The packet belongs to [p] and is long enough for its headers. *)
Definition packet_of p (dir : dp_flow_dir) (l4 : Z) m : Prop :=
  conntrack (flow m) = Some p /\ flow_dir (flow m) = dir /\ l4_type (flow m) = l4
  /\ l3_type (flow m) = RTE_ETHER_TYPE_IPV4 /\ (headers_len l4 <= msize m)%nat.

(** The ends of the packet are those of the connection. *)
Definition sent_by_owner (l4 : Z) v m : Prop :=
  src_ip m = htonl (ipv4 (l3_src (key_org v))) /\ src_id l4 m = htons (own_id l4 v).

Lemma has_no_flags_false flags flag : has_flag flags flag = true -> has_no_flags flags = false.
Proof.
  unfold has_flag, has_no_flags. destruct (Z.eqb_spec flags 0) as [->|]; [by rewrite Z.land_0_l | done].
Qed.

Lemma tracked_run p m st : conntrack (flow m) = Some p -> tracked (mk_node m st) = Some (p, mk_node m st).
Proof. intros Hp. unfold tracked. erewrite M_bind_Some; [|apply get_df_run]. by rewrite Hp. Qed.

Lemma tracked_bind W {B} (g : ptr -> M node_state B) p m st b m2 : conntrack (flow m) = Some p ->
  rewrites W (g p) m st b m2 -> rewrites W (mbind g tracked) m st b m2.
Proof.
  intros Hp H. eapply rewrites_bind; [|exact H]. split_and!; [by apply tracked_run | apply frame_refl | done].
Qed.

Lemma snat_known_run e p v port l4 m st : flow_heap st !! p = Some v -> source_translated v -> translatable l4 ->
  l4_type (flow m) = l4 -> flow_dir (flow m) = DP_FLOW_DIR_ORG -> (headers_len l4 <= msize m)%nat ->
  exists m', rewrites (translation_writes l4 DP_L4_PORT_DIR_SRC) (snat_known_flow e p port) m st SNAT_NEXT_FIREWALL m'
    /\ src_ip m' = htonl (ipv4 (l3_dst (key_reply v)))
    /\ src_id l4 m' = (if bool_decide (nf_nat_type v = DP_FLOW_NAT_TYPE_NETWORK_LOCAL) then htons (port_dst (key_reply v)) else src_id l4 m).
Proof.
  intros Hp (Hsrc & H64 & _ & Hv6 & _) Ht Hl4 Hdir Hm.
  destruct (snat_translate_run e p v m st l4 Hl4 Ht Hm) as (m' & R & Hip & Hid). exists m'. split_and!; [|done..].
  unfold snat_known_flow. eapply get_cntrack_bind; [done|]. apply get_df_bind. rewrite Hdir, Hsrc, H64, Hv6.
  rewrite (bool_decide_eq_true_2 (DP_FLOW_DIR_ORG = DP_FLOW_DIR_ORG)) by done. cbn [andb negb].
  eapply rewrites_bind; [exact R|]. cbn [negb]. rewrite andb_false_r. eapply rewrites_bind; apply rewrites_ret.
Qed.

Lemma snat_established_run e p v port l4 m st :
  flow_heap st !! p = Some v -> source_translated v -> translatable l4 -> packet_of p DP_FLOW_DIR_ORG l4 m ->
  port_table_at (fenv_ports (nn_flow e)) (m_port m) = Some (Some port) ->
  nn_red e port (l3_payload_length (flow m)) = false ->
  exists m', rewrites (translation_writes l4 DP_L4_PORT_DIR_SRC) (snat_get_next_index e) m st SNAT_NEXT_FIREWALL m'
    /\ src_ip m' = htonl (ipv4 (l3_dst (key_reply v)))
    /\ src_id l4 m' = (if bool_decide (nf_nat_type v = DP_FLOW_NAT_TYPE_NETWORK_LOCAL) then htons (port_dst (key_reply v)) else src_id l4 m).
Proof.
  intros Hp Hv Ht (Hc & Hdir & Hl4 & _ & Hm) Hport Hred.
  destruct (snat_known_run e p v port l4 m st) as (m' & R & Hip & Hid); [done..|]. exists m'. split_and!; [|done..].
  unfold snat_get_next_index. eapply rewrites_bind.
  { apply rewrites_edit; [by apply in_port_run | apply frame_refl | done]. }
  apply get_df_bind. rewrite Hred, andb_false_r. eapply tracked_bind; [done|]. eapply get_cntrack_bind; [done|].
  rewrite (has_no_flags_false _ _ (proj1 Hv)). cbn [andb]. eapply rewrites_bind; [apply rewrites_ret|]. exact R.
Qed.

Lemma not_relayed df : translatable (l4_type df) -> replies df ->
  is_icmp (l4_type df) && ((icmp_type df =? RTE_ICMP_TYPE_ECHO_REQUEST) || (icmp_type df =? DP_ICMPV6_ECHO_REQUEST)) = false.
Proof.
  unfold replies, is_icmp. intros [Ht|[Ht|Ht]] Hr; rewrite Ht; [done..|]. by rewrite (Hr Ht).
Qed.

Lemma dnat_established_run e p v l4 m st :
  flow_heap st !! p = Some v -> source_translated v -> translatable l4 -> packet_of p DP_FLOW_DIR_REPLY l4 m -> replies (flow m) ->
  exists m', rewrites (translation_writes l4 DP_L4_PORT_DIR_DST) (dnat_get_next_index e) m st DNAT_NEXT_IPV4_LOOKUP m'
    /\ dst_ip m' = htonl (ipv4 (l3_src (key_org v)))
    /\ dst_id l4 m' = (if bool_decide (nf_nat_type v = DP_FLOW_NAT_TYPE_NETWORK_LOCAL) then htons (own_id l4 v) else dst_id l4 m).
Proof.
  intros Hp (Hsrc & H64 & Hfwd & _ & Hv6) Ht (Hc & Hdir & Hl4 & Hl3 & Hm) Hr.
  destruct (dnat_translate_run e v m st l4 Hl4 Hr Ht Hm) as (m' & R & Hip & Hid). exists m'. split_and!; [|done..].
  pose proof R as (_ & _ & C). unfold dnat_get_next_index. apply get_df_bind. eapply tracked_bind; [done|].
  eapply get_cntrack_bind; [done|]. rewrite (has_no_flags_false _ _ Hsrc), Hfwd. cbn [andb].
  rewrite <-(andb_assoc _ (is_icmp _)), (not_relayed (flow m)), andb_false_r by (done || by rewrite Hl4).
  unfold dnat_known_flow. apply get_df_bind. rewrite Hdir, Hsrc, H64, Hv6.
  rewrite (bool_decide_eq_false_2 (DP_FLOW_DIR_REPLY = DP_FLOW_DIR_ORG)) by done. rewrite andb_false_r.
  eapply rewrites_bind; [apply rewrites_ret|]. cbn [andb negb]. eapply rewrites_bind; [exact R|]. cbn [negb].
  apply get_df_bind. destruct C as (_ & _ & _ & -> & _). rewrite Hl3. apply rewrites_ret.
Qed.

(** The other end of a translated packet. *)
Lemma translation_keeps l4 m m' : translatable l4 -> frame (translation_writes l4 DP_L4_PORT_DIR_SRC) m m' ->
  dst_ip m' = dst_ip m /\ (l4 <> IPPROTO_ICMP -> dst_id l4 m' = dst_id l4 m).
Proof.
  intros Ht F. split; [|intros Hi]; apply (frame_field _ _ _ _ _ F); by destruct Ht as [->|[->| ->]].
Qed.

Lemma translation_keeps_src l4 m m' : translatable l4 -> frame (translation_writes l4 DP_L4_PORT_DIR_DST) m m' ->
  src_ip m' = src_ip m /\ (l4 <> IPPROTO_ICMP -> src_id l4 m' = src_id l4 m).
Proof.
  intros Ht F. split; [|intros Hi]; apply (frame_field _ _ _ _ _ F); by destruct Ht as [->|[->| ->]].
Qed.

(** C33: A packet of a connection whose source is translated leaves with the
    address and port the connection has to the outside, otherwise unchanged but
    for checksums; and whatever reply comes back to that address and port is
    delivered to the address and port the packet has come from. *)
Theorem nat_replies_return e p v port l4 m st :
  flow_heap st !! p = Some v -> source_translated v -> translatable l4 ->
  packet_of p DP_FLOW_DIR_ORG l4 m -> sent_by_owner l4 v m ->
  port_table_at (fenv_ports (nn_flow e)) (m_port m) = Some (Some port) ->
  nn_red e port (l3_payload_length (flow m)) = false ->
  exists m', snat_get_next_index e (mk_node m st) = Some (SNAT_NEXT_FIREWALL, mk_node m' st)
    /\ src_ip m' = htonl (ipv4 (l3_dst (key_reply v)))
    /\ (nf_nat_type v = DP_FLOW_NAT_TYPE_NETWORK_LOCAL -> src_id l4 m' = htons (port_dst (key_reply v)))
    /\ frame (translation_writes l4 DP_L4_PORT_DIR_SRC) m m'
    /\ forall r, packet_of p DP_FLOW_DIR_REPLY l4 r -> replies (flow r) -> mirrors l4 m' r ->
        exists r', dnat_get_next_index e (mk_node r st) = Some (DNAT_NEXT_IPV4_LOOKUP, mk_node r' st)
          /\ mirrors l4 m r' /\ frame (translation_writes l4 DP_L4_PORT_DIR_DST) r r'.
Proof.
  intros Hp Hv Ht Hm (Hown & Hownid) Hport Hred.
  destruct (snat_established_run e p v port l4 m st) as (m' & (Hrun & F & C) & Hip & Hid); [done..|].
  exists m'. split_and!; [done..| |done|].
  { intros Hn. by rewrite Hid, bool_decide_eq_true_2. }
  intros r Hr Hrep (M1 & M2 & M3 & M4).
  destruct (dnat_established_run e p v l4 r st) as (r' & (Hrun' & F' & C') & Hip' & Hid'); [done..|].
  destruct (translation_keeps _ _ _ Ht F) as (Kd & Kdi). destruct (translation_keeps_src _ _ _ Ht F') as (Ks & Ksi).
  assert (dst_id l4 r' = src_id l4 m) as Hd by (rewrite Hid'; case_bool_decide; congruence).
  exists r'. split_and!; [done| |done]. unfold mirrors. split_and!; [congruence..| |done].
  destruct (decide (l4 = IPPROTO_ICMP)) as [->|Hi]; [done|]. rewrite Ksi, <-Kdi by done. done.
Qed.

(** ** New connections *)

Definition upd p v st : flow_state := set_flow_heap (<[p := v]> (flow_heap st)) st.

Lemma upd_upd p v v' st : upd p v' (upd p v st) = upd p v' st.
Proof. unfold upd, set_flow_heap. cbn. by rewrite insert_insert_eq. Qed.

Lemma upd_lookup p v st : flow_heap (upd p v st) !! p = Some v.
Proof. apply lookup_insert_eq. Qed.

Lemma upd_cntrack_run p v f m st : flow_heap st !! p = Some v -> upd_cntrack p f (mk_node m st) = Some (tt, mk_node m (upd p (f v) st)).
Proof. intros Hp. by apply on_flow_run, upd_flow_val_run. Qed.

(** Everything but the connection's own notes is kept. *)
Definition same_entry v v' : Prop :=
  key_org v' = key_org v /\ key_reply v' = key_reply v /\ ref_count v' = ref_count v /\ rte_age_ctxs v' = rte_age_ctxs v
  /\ flow_flags v' = flow_flags v /\ created_port_id v' = created_port_id v.

Lemma same_entry_trans v1 v2 v3 : same_entry v1 v2 -> same_entry v2 v3 -> same_entry v1 v3.
Proof. unfold same_entry. intuition congruence. Qed.

(** A step that changes the packet within [W] and the notes of [p]. *)
Definition notes W p {A} (f : M node_state A) m st (a : A) m' v v' : Prop :=
  f (mk_node m (upd p v st)) = Some (a, mk_node m' (upd p v' st)) /\ frame W m m' /\ same_conn (flow m) (flow m') /\ same_entry v v'.

Lemma notes_bind W p {A B} (f : M node_state A) (g : A -> M node_state B) m st a m1 v v1 b m2 v2 :
  notes W p f m st a m1 v v1 -> notes W p (g a) m1 st b m2 v1 v2 -> notes W p (mbind g f) m st b m2 v v2.
Proof.
  intros (H1 & F1 & C1 & E1) (H2 & F2 & C2 & E2).
  split_and!; [by rewrite (M_bind_Some _ _ _ _ _ H1) | by eapply frame_trans | | by eapply same_entry_trans].
  unfold same_conn in *. intuition congruence.
Qed.

Lemma notes_rewrites W p {A} (f : M node_state A) m st a m' v :
  rewrites W f m (upd p v st) a m' -> notes W p f m st a m' v v.
Proof. intros (? & ? & ?). by split_and!. Qed.

Lemma notes_upd W p f m st v : same_entry v (f v) -> notes W p (upd_cntrack p f) m st tt m v (f v).
Proof.
  intros He. split_and!; [|apply frame_refl|done..]. rewrite (upd_cntrack_run p v) by apply upd_lookup. by rewrite upd_upd.
Qed.

Lemma notes_weaken W W' p {A} (f : M node_state A) m st a m' v v' : notes W p f m st a m' v v' -> W ⊆ W' -> notes W' p f m st a m' v v'.
Proof. intros (? & ? & ? & ?) HW. split_and!; try done. by eapply frame_weaken. Qed.

Lemma snat_port_run p v m st l4 x : l4_type (flow m) = l4 -> (42 <= msize m)%nat ->
  exists m' v', notes (l4_id_writes l4 DP_L4_PORT_DIR_SRC) p (snat_port x p) m st tt m' v v' /\ src_id l4 m' = htons x.
Proof.
  intros Hl4 Hm. unfold snat_port. destruct (port_run l4 DP_L4_PORT_DIR_SRC x m Hm) as (m1 & Hrun & Hid & F & Hf).
  destruct (l4 =? IPPROTO_ICMP) eqn:Hi.
  - exists (set_flow (set_offload_state DP_FLOW_NON_OFFLOAD (flow m1)) m1). eexists. split; [|exact Hid].
    eapply notes_bind; [apply notes_rewrites, rewrites_get_df|]. rewrite Hl4, Hi.
    eapply notes_bind; [by apply notes_rewrites, rewrites_edit|].
    eapply notes_bind; [by apply notes_upd|]. by apply notes_rewrites, rewrites_set_df.
  - exists m1, v. split; [|exact Hid]. eapply notes_bind; [apply notes_rewrites, rewrites_get_df|]. rewrite Hl4, Hi.
    by apply notes_rewrites, rewrites_edit.
Qed.

Lemma network_local_run off p v port m st W : (off + 2 <= msize m)%nat ->
  exists v', notes W p (network_local off port p) m st tt m v v' /\ nf_nat_type v' = DP_FLOW_NAT_TYPE_NETWORK_LOCAL
    /\ nf_vni v' = iface_vni (iface port).
Proof.
  intros Hm. unfold network_local. eexists. split.
  - eapply notes_bind; [apply notes_rewrites, rewrites_get_df|]. eapply notes_bind; [by apply notes_upd|].
    eapply notes_bind; [apply notes_rewrites, rewrites_edit; [by apply rd_field | apply frame_refl | done]|].
    by apply notes_upd.
  - done.
Qed.

Lemma on_nat_run {A} (f : nat_state -> A * nat_state) m st a nat' : f (nat_tables st) = (a, nat') ->
  on_nat f (mk_node m st) = Some (a, mk_node m (set_nat_tables nat' st)).
Proof. intros H. apply on_flow_run. by rewrite H. Qed.

Definition nat_writes (l4 : Z) : list (nat * nat) := translation_writes l4 DP_L4_PORT_DIR_SRC.

Ltac widen_notes := eapply notes_weaken; [eassumption | unfold nat_writes, translation_writes; set_solver].

(** The part after a port was found. *)
Lemma snat_allocated_run p v port d m st l4 x :
  l4_type (flow m) = l4 -> translatable l4 -> (42 <= msize m)%nat ->
  exists m' v', notes (nat_writes l4) p
      (on_pkt (wr (14 + ipv4_src_off) 4 (htonl (snat_ip d))) ;;
       snat_port x p ;; network_local (14 + ipv4_cksum_off) port p ;; set_df (set_nat_port x) ;; mret true) m st true m' v v'
    /\ nf_nat_type v' = DP_FLOW_NAT_TYPE_NETWORK_LOCAL /\ nf_vni v' = iface_vni (iface port)
    /\ src_ip m' = htonl (snat_ip d) /\ src_id l4 m' = htons x /\ nat_port (flow m') = x.
Proof.
  intros Hl4 Ht Hm.
  destruct (set_ip_run (14 + ipv4_src_off) (snat_ip d) m (upd p v st)) as (m1 & R1 & Hsrc1); [cbn; lia|].
  pose proof R1 as (_ & F1 & C1). pose proof (fr_size _ _ _ F1) as Hs1.
  destruct (snat_port_run p v m1 st l4 x) as (m2 & v2 & N2 & Hid); [destruct C1; congruence | lia|].
  pose proof N2 as (_ & F2 & C2 & _). pose proof (fr_size _ _ _ F2) as Hs2.
  destruct (network_local_run (14 + ipv4_cksum_off) p v2 port m2 st (nat_writes l4)) as (v3 & N3 & Hn & Hvni); [cbn; lia|].
  exists (set_flow (set_nat_port x (flow m2)) m2), v3. split_and!; try done.
  - eapply notes_bind; [apply notes_rewrites; eapply rewrites_weaken; [exact R1 | unfold nat_writes, translation_writes; set_solver]|].
    eapply notes_bind; [widen_notes|]. eapply notes_bind; [exact N3|].
    eapply notes_bind; [by apply notes_rewrites, rewrites_set_df|]. apply notes_rewrites, rewrites_ret.
  - change (src_ip (set_flow (set_nat_port x (flow m2)) m2)) with (src_ip m2). unfold src_ip. rewrite <-Hsrc1.
    apply (frame_field _ _ _ _ _ F2). by destruct Ht as [->|[->| ->]].
Qed.

Lemma snat_allocate_run e p v port sk d m st l4 ret nat' :
  l4_type (flow m) = l4 -> translatable l4 -> (42 <= msize m)%nat -> is_u16 ret ->
  dp_allocate_network_snat_port (nn_nat e) sk d (flow m) port (field m 24 2) (nat_tables st) = (ret, nat') ->
  exists m' v', snat_allocate e p port sk d (mk_node m (upd p v st)) = Some (true, mk_node m' (upd p v' (set_nat_tables nat' st)))
    /\ frame (nat_writes l4) m m' /\ same_conn (flow m) (flow m') /\ same_entry v v'
    /\ nf_nat_type v' = DP_FLOW_NAT_TYPE_NETWORK_LOCAL /\ nf_vni v' = iface_vni (iface port)
    /\ src_ip m' = htonl (snat_ip d) /\ src_id l4 m' = htons ret /\ nat_port (flow m') = ret.
Proof.
  intros Hl4 Ht Hm Hret Halloc.
  destruct (snat_allocated_run p v port d m (set_nat_tables nat' st) l4 ret Hl4 Ht Hm) as (m' & v' & (Hrun & F & C & E) & Hrest).
  exists m', v'. split_and!; try done; [|apply Hrest..].
  unfold snat_allocate. erewrite M_bind_Some; [|apply get_df_run].
  erewrite M_bind_Some; [|apply on_pkt_run, rd_field; cbn; lia].
  erewrite M_bind_Some; [|by eapply on_nat_run]. change (DP_FAILED ret) with (ret <? 0). rewrite (proj2 (Z.ltb_ge _ _)) by apply Hret.
  unfold u16. rewrite (Z.mod_small ret) by apply Hret. exact Hrun.
Qed.

(** *** Filing the reply key anew *)

(** A reference is dropped that is not the last one. *)
Lemma delete_shared_run (fe : flow_env) key p v st : flows st !! key = Some p -> flow_heap st !! p = Some v -> ref_count v - 1 <> 0 ->
  dp_delete_flow fe key p st
  = Some (DP_OK, set_cached_flow_val None (set_prev_key None
      (upd p (set_ref_count (ref_count v - 1) v) (set_flow_table (snd (rte_hash_del_key (flow_table st) key)) st)))).
Proof.
  intros Hk Hp Hrc. unfold dp_delete_flow. erewrite M_bind_Some; [|reflexivity].
  pose proof (hash_del_cases (flow_table st) key) as Hd.
  destruct (rte_hash_del_key (flow_table st) key) as [r t]. destruct Hd as [Hr _]; [change (is_Some (flows st !! key)); by rewrite Hk|].
  erewrite M_bind_Some; [|reflexivity]. rewrite Hr. unfold dp_ref_dec.
  erewrite M_bind_Some; [|erewrite M_bind_Some; [|by apply load_flow_run];
    erewrite M_bind_Some; [|by apply upd_flow_val_run]; by rewrite (proj2 (Z.eqb_neq _ _) Hrc)].
  reflexivity.
Qed.

(** One more key for an entry that has one. *)
Lemma add_key_keeps_inv st st' p v key :
  flow_inv st -> flow_heap st !! p = Some v -> flows st !! key = None -> prev_key st = None ->
  flow_heap st' = <[p := set_ref_count (ref_count v + 1) v]> (flow_heap st) -> flows st' = <[key := p]> (flows st) ->
  prev_key st' = None -> flow_inv st'.
Proof.
  intros [Hl Hr Hc Hx] Hp Hk Hprev Hh Hf Hprev'. split.
  - intros k q. rewrite Hf, Hh. intros Hq. destruct (decide (p = q)) as [->|Hpq]; [rewrite lookup_insert_eq; by eexists|].
    rewrite lookup_insert_ne by done. apply lookup_insert_Some in Hq as [[_ ?]|[_ Hq]]; [done | by apply (Hl k)].
  - intros q w. rewrite Hh, Hf, refs_insert by done. intros Hq. apply lookup_insert_Some in Hq as [[<- <-]|[Hpq Hq]].
    + rewrite decide_True by done. destruct (Hr p v Hp). cbn. lia.
    + rewrite decide_False by done. by apply Hr.
  - intros i. rewrite Hprev'. done.
  - intros q w. rewrite Hh. intros Hq. apply lookup_insert_Some in Hq as [[_ <-]|[_ Hq]]; [exact (Hx p v Hp) | by apply (Hx q)].
Qed.

Lemma refs_two (fl : gmap flow_key ptr) k k' p : fl !! k = Some p -> fl !! k' = Some p -> k <> k' -> (2 <= refs fl p)%nat.
Proof.
  intros Hk Hk' Hne. rewrite (refs_delete fl k p p Hk), decide_True by done.
  assert (0 < refs (delete k fl) p)%nat; [|lia]. apply refs_pos. exists k'. by rewrite lookup_delete_ne.
Qed.

(** The entry after its reply key has been replaced; [n] references. *)
Definition refiled (key : flow_key) (n : Z) v : flow_value := set_key_reply key (set_ref_count n v).

Lemma refile_reply_run e p v f m st : flow_inv st -> flow_heap st !! p = Some v ->
  flows st !! key_org v = Some p -> flows st !! key_reply v = Some p -> key_org v <> key_reply v ->
  flows st !! f (key_reply v) = None ->
  exists ok st', refile_reply e p f (mk_node m st) = Some (ok, mk_node m st') /\ flow_inv st' /\ nat_tables st' = nat_tables st
    /\ exists n, flow_heap st' = <[p := refiled (f (key_reply v)) n v]> (flow_heap st)
    /\ flows st' = (if ok : bool then <[f (key_reply v) := p]> (delete (key_reply v) (flows st)) else delete (key_reply v) (flows st)).
Proof.
  intros Hinv Hp Hko Hkr Hne Hfree. set (nk := f (key_reply v)) in *.
  pose proof (refs_two _ _ _ _ Hko Hkr Hne) as H2. destruct (fi_refs _ Hinv p v Hp) as [Hrc _].
  set (v1 := set_ref_count (ref_count v - 1) v).
  set (st1 := set_cached_flow_val None (set_prev_key None
      (upd p v1 (set_flow_table (snd (rte_hash_del_key (flow_table st) (key_reply v))) st)))).
  assert (flows st1 = delete (key_reply v) (flows st)) as Hf1 by (by eapply deleted_flows).
  assert (flow_inv st1) as Hinv1.
  { eapply (delete_keeps_inv st st1); try done. unfold dropped. by rewrite (proj2 (Z.eqb_neq _ _)) by lia. }
  set (v2 := set_key_reply nk v1). set (st2 := upd p v2 st1).
  assert (flow_heap st1 !! p = Some v1) as Hp1 by apply lookup_insert_eq.
  assert (flow_inv st2) as Hinv2 by (by apply (upd_keeps_inv st1 p v1 (set_key_reply nk))).
  assert (flow_heap st2 !! p = Some v2) as Hp2 by apply upd_lookup.
  destruct (add_flow_cases nk p st2) as (ret & t & Hadd & Hcases).
  assert (refile_reply e p f (mk_node m st) = (if DP_FAILED ret then mret false else on_flow (dp_ref_inc p) ;; mret true)
            (mk_node m (set_flow_table t st2))) as Hrun.
  { unfold refile_reply. erewrite M_bind_Some; [|by apply on_flow_run, load_flow_run].
    erewrite M_bind_Some; [|apply on_flow_run, delete_shared_run; [done..|lia]]. fold v1 st1.
    erewrite M_bind_Some; [|by apply (upd_cntrack_run p v1)]. erewrite M_bind_Some; [|by apply on_flow_run, (load_flow_run p v2)].
    erewrite M_bind_Some; [|by apply on_flow_run, Hadd]. done. }
  assert (flow_heap st2 = <[p := v2]> (flow_heap st)) as Hh2 by apply insert_insert_eq.
  rewrite Hrun. destruct Hcases as [[-> Hview]|[-> Hview]].
  - exists true. eexists. split.
    { erewrite M_bind_Some; [reflexivity|]. apply on_flow_run. unfold dp_ref_inc.
      erewrite M_bind_Some; [|by apply (load_flow_run p v2)]. rewrite (proj2 (Z.eqb_neq _ _)) by (cbn; lia).
      by apply (upd_flow_val_run p v2). }
    assert (flows (upd p (set_ref_count (ref_count v2 + 1) v2) (set_flow_table t st2)) = <[nk := p]> (delete (key_reply v) (flows st))) as Hfl.
    { change (hash_view t = <[nk := p]> (delete (key_reply v) (flows st))). by rewrite Hview, <-Hf1. }
    split_and!; [|done|].
    + eapply (add_key_keeps_inv st2 _ p v2 nk); try done. change (flows st2) with (flows st1).
      rewrite Hf1, lookup_delete_ne; [done|]. intros Heq. rewrite <-Heq in Hfree. congruence.
    + exists (ref_count v2 + 1). split; [|exact Hfl]. cbn. unfold upd. by rewrite !insert_insert_eq.
  - exists false, (set_flow_table t st2). split_and!; [done| |done|].
    + eapply (flow_inv_ext st2); [done..|]. by right.
    + exists (ref_count v - 1). split; [exact Hh2|]. by rewrite <-Hf1.
Qed.

Lemma upd_same p v st : flow_heap st !! p = Some v -> upd p v st = st.
Proof. intros Hp. unfold upd, set_flow_heap. rewrite insert_id by done. by destruct st. Qed.

(** The key by which replies to the translated connection will be looked up. *)
Definition outside_key (d : snat_data) (x : Z) v : flow_key := set_port_dst x (set_l3_dst (dp_set_ipaddr4 (snat_ip d)) (key_reply v)).

(** The VIP is written first and overwritten by the NAT address. *)
Lemma snat_vip_run p v d m st l4 : (42 <= msize m)%nat ->
  exists m' v', notes (nat_writes l4) p
    (if negb (vip_ip d =? 0) then
       on_pkt (wr (14 + ipv4_src_off) 4 (htonl (vip_ip d))) ;; upd_cntrack p (set_nf_nat_type DP_FLOW_NAT_TYPE_VIP)
     else mret tt) m st tt m' v v' /\ flow m' = flow m /\ field m' 24 2 = field m 24 2.
Proof.
  intros Hm. destruct (negb (vip_ip d =? 0)).
  - exists (put (14 + ipv4_src_off) 4 (htonl (vip_ip d)) m), (set_nf_nat_type DP_FLOW_NAT_TYPE_VIP v).
    split_and!; [|done|apply field_put_other; [cbn; lia | done]].
    eapply notes_bind; [apply notes_rewrites, rewrites_edit; [apply wr_put; cbn; lia | | done]|by apply notes_upd].
    eapply frame_weaken; [apply put_frame; cbn; lia|]. unfold nat_writes, translation_writes. set_solver.
  - exists m, v. split_and!; [apply notes_rewrites, rewrites_ret | done..].
Qed.

(** A connection that has just been entered under its two keys. *)
Record new_connection st p v : Prop := {
  nc_inv : flow_inv st;
  nc_entry : flow_heap st !! p = Some v;
  nc_org : flows st !! key_org v = Some p;
  nc_reply : flows st !! key_reply v = Some p;
  nc_two : key_org v <> key_reply v;
  nc_flags : flow_flags v = DP_FLOW_FLAG_NONE;
  nc_v4 : is_v6 (l3_src (key_org v)) = false
}.

(** The translated connection. *)
Definition natted_entry d (x : Z) v v' : Prop :=
  source_translated v' /\ key_org v' = key_org v /\ key_reply v' = outside_key d x v
  /\ nf_nat_type v' = DP_FLOW_NAT_TYPE_NETWORK_LOCAL.

Lemma release_port_run e p v m st : flow_heap st !! p = Some v ->
  exists nat', release_port e p (mk_node m st) = Some (tt, mk_node m (set_nat_tables nat' st)).
Proof.
  intros Hp. unfold release_port. erewrite M_bind_Some; [|by apply on_flow_run, load_flow_run].
  destruct (dp_remove_network_snat_port (fenv_sync_enabled (nn_flow e)) (fenv_ports (nn_flow e)) v (nat_tables st)) as [r nat'] eqn:E.
  exists nat'. by erewrite M_bind_Some; [|by apply on_nat_run].
Qed.

Lemma ipaddr4_back x : is_u32 x -> ipv4 (dp_set_ipaddr4 x) = x.
Proof. intros Hx. unfold ipv4, dp_set_ipaddr4, u32. cbn. rewrite Z.mod_mod by lia. by apply Z.mod_small. Qed.

Lemma ntohl_htonl x : is_u32 x -> ntohl (htonl x) = x.
Proof. apply bswap32_involutive. Qed.

Lemma source_translated_new d x v v' : flow_flags v = DP_FLOW_FLAG_NONE -> flow_flags v' = Z.lor (flow_flags v) DP_FLOW_FLAG_SRC_NAT ->
  is_v6 (l3_src (key_org v)) = false -> key_org v' = key_org v -> key_reply v' = outside_key d x v -> source_translated v'.
Proof. intros Hf Hf' Hv6 Ho Hr. unfold source_translated. rewrite Hf', Hf, Ho, Hr. by split_and!. Qed.

(** Up to the new reply key. *)
Lemma process_snat_prefix e p v port sk d m st l4 ret nat' :
  flow_heap st !! p = Some v -> l4_type (flow m) = l4 -> translatable l4 -> (headers_len l4 <= msize m)%nat ->
  snat_ip d <> 0 -> is_u32 (snat_ip d) -> is_u16 ret ->
  dp_allocate_network_snat_port (nn_nat e) sk d (flow m) port (field m 24 2) (nat_tables st) = (ret, nat') ->
  exists m' v', dp_process_ipv4_snat e p port sk d (mk_node m st)
      = (ok ← refile_reply e p (fun k => set_port_dst ret (set_l3_dst (dp_set_ipaddr4 (snat_ip d)) k));
         if negb ok then release_port e p ;; mret DP_ERROR else mret DP_OK)
        (mk_node m' (upd p (or_flow_flags DP_FLOW_FLAG_SRC_NAT v') (set_nat_tables nat' st)))
    /\ frame (nat_writes l4) m m' /\ same_conn (flow m) (flow m') /\ same_entry v v'
    /\ nf_nat_type v' = DP_FLOW_NAT_TYPE_NETWORK_LOCAL.
Proof.
  intros Hp Hl4 Ht Hm Hd Hd32 Hret Halloc. pose proof (headers_len_ge l4) as Hge.
  destruct (snat_vip_run p v d m st l4) as (m1 & v1 & (R1 & F1 & C1 & E1) & Hdf1 & Hck1); [lia|].
  pose proof (fr_size _ _ _ F1) as Hs1. rewrite (upd_same p v st Hp) in R1.
  destruct (snat_allocate_run e p v1 port sk d m1 st l4 ret nat') as (m2 & v2 & R2 & F2 & C2 & E2 & Hnl & _ & Hip2 & _ & Hport2);
    [by rewrite Hdf1 | done | lia | done | by rewrite Hdf1, Hck1|].
  pose proof (fr_size _ _ _ F2) as Hs2. set (st2 := set_nat_tables nat' st) in *.
  destruct (snat_finish_run e m2 (upd p v2 st2) l4) as (m3 & (R3 & F3 & C3) & Hip3 & _ & Hport3);
    [destruct C1, C2; congruence | done | lia|].
  pose proof (fr_size _ _ _ F3) as Hs3. exists m3, v2. split_and!; [| | |by eapply same_entry_trans|done].
  - unfold dp_process_ipv4_snat. erewrite M_bind_Some; [|exact R1]. rewrite (proj2 (Z.eqb_neq _ _) Hd). cbn [negb].
    erewrite M_bind_Some; [|exact R2]. cbn [negb]. erewrite M_bind_Some; [|exact R3].
    erewrite M_bind_Some; [|apply (upd_cntrack_run p v2), upd_lookup]. rewrite upd_upd.
    erewrite M_bind_Some; [|apply on_pkt_run, rd_field; change (30 <= msize m3)%nat; lia].
    erewrite M_bind_Some; [|apply get_df_run]. change (field m3 (14 + ipv4_src_off) 4) with (src_ip m3).
    rewrite Hip3, Hip2, ntohl_htonl, Hport3, Hport2 by done. reflexivity.
  - eapply frame_trans; [exact F1|]. eapply frame_trans; [exact F2|]. eapply frame_weaken; [exact F3|].
    unfold nat_writes, translation_writes. set_solver.
  - unfold same_conn in *. intuition congruence.
Qed.

Lemma process_snat_run e p v port sk d m st l4 ret nat' :
  new_connection st p v -> l4_type (flow m) = l4 -> translatable l4 -> (headers_len l4 <= msize m)%nat ->
  snat_ip d <> 0 -> is_u32 (snat_ip d) -> is_u16 ret -> flows st !! outside_key d ret v = None ->
  dp_allocate_network_snat_port (nn_nat e) sk d (flow m) port (field m 24 2) (nat_tables st) = (ret, nat') ->
  exists ok m' st', dp_process_ipv4_snat e p port sk d (mk_node m st) = Some (if ok : bool then DP_OK else DP_ERROR, mk_node m' st')
    /\ flow_inv st' /\ frame (nat_writes l4) m m' /\ same_conn (flow m) (flow m')
    /\ (ok = false -> flows st' = delete (key_reply v) (flows st))
    /\ (ok = true -> flows st' = <[outside_key d ret v := p]> (delete (key_reply v) (flows st)) /\ nat_tables st' = nat'
          /\ exists v', flow_heap st' !! p = Some v' /\ natted_entry d ret v v').
Proof.
  intros [Hinv Hp Hko Hkr Hne Hfl Hv4] Hl4 Ht Hm Hd Hd32 Hret Hfree Halloc.
  destruct (process_snat_prefix e p v port sk d m st l4 ret nat') as (m' & v2 & Hrun & F & C & (Eo & Er & Erc & Ect & Ef & _) & Hnl); [done..|].
  rewrite Hrun. set (v3 := or_flow_flags DP_FLOW_FLAG_SRC_NAT v2). set (st3 := upd p v3 (set_nat_tables nat' st)).
  assert (flow_inv st3) as Hinv3.
  { apply (upd_keeps_inv (set_nat_tables nat' st) p v (fun _ => v3)); [|done..]. eapply flow_inv_ext; [exact Hinv|done..|]. left. by split_and!. }
  destruct (refile_reply_run e p v3 (fun k => set_port_dst ret (set_l3_dst (dp_set_ipaddr4 (snat_ip d)) k)) m' st3)
    as (ok & st4 & Hre & Hinv4 & Hnat & n & Hh & Hf); [done | apply upd_lookup | | | |  |];
    try (change (flows st3) with (flows st); cbn; rewrite ?Eo, ?Er; done).
  erewrite M_bind_Some; [|exact Hre]. change (key_reply v3) with (key_reply v2) in Hf, Hh. rewrite Er in Hf, Hh.
  assert (flow_heap st4 !! p = Some (refiled (outside_key d ret v) n v3)) as Hp4 by (rewrite Hh; apply lookup_insert_eq).
  destruct ok; cbn [negb].
  - exists true, m', st4. split_and!; try done. intros _. split_and!; [done..|]. eexists. split; [exact Hp4|].
    unfold natted_entry. split_and!; try done. eapply (source_translated_new d ret v); try done. cbn. by rewrite Ef.
  - destruct (release_port_run e p (refiled (outside_key d ret v) n v3) m' st4 Hp4) as (nat4 & Hrel).
    exists false, m', (set_nat_tables nat4 st4). split_and!; try done; [by erewrite M_bind_Some; [|exact Hrel]|].
    eapply flow_inv_ext; [exact Hinv4|done..|]. left. by split_and!.
Qed.

(** The node on the first packet of a connection to the outside, of an
    interface with a NAT address: the result of [dp_process_ipv4_snat] decides
    whether it goes on as for a known connection. *)
Lemma snat_new_run e p v port d l4 m st :
  flow_heap st !! p = Some v -> flow_flags v = DP_FLOW_FLAG_NONE -> packet_of p DP_FLOW_DIR_ORG l4 m ->
  flow_type (flow m) = DP_FLOW_SOUTH_NORTH -> port_table_at (fenv_ports (nn_flow e)) (m_port m) = Some (Some port) ->
  nn_red e port (l3_payload_length (flow m)) = false ->
  dp_get_iface_snat_data (ntohl (src_addr (flow m))) (iface_vni (iface port)) (nat_tables st) = Some d -> snat_ip d <> 0 ->
  forall ret m' st', dp_process_ipv4_snat e p port (mk_nat_key (ntohl (src_addr (flow m))) (iface_vni (iface port))) d (mk_node m st)
    = Some (ret, mk_node m' st') -> same_conn (flow m) (flow m') ->
  snat_get_next_index e (mk_node m st) = if DP_FAILED ret then Some (SNAT_NEXT_DROP, mk_node m' st') else snat_known_flow e p port (mk_node m' st').
Proof.
  intros Hp Hfl (Hc & Hdir & Hl4 & Hl3 & Hm) Hft Hport Hred Hdata Hd ret m' st' Hproc C.
  unfold snat_get_next_index. erewrite M_bind_Some; [|by apply on_pkt_run, in_port_run].
  erewrite M_bind_Some; [|apply get_df_run]. rewrite Hred, andb_false_r.
  erewrite M_bind_Some; [|by apply tracked_run].
  erewrite M_bind_Some; [|by apply on_flow_run, load_flow_run].
  rewrite Hfl, Hdir. change (has_no_flags DP_FLOW_FLAG_NONE && bool_decide (DP_FLOW_DIR_ORG = DP_FLOW_DIR_ORG)) with true. cbv iota.
  assert (snat_new_flow e p port (mk_node m st)
    = Some (if DP_FAILED ret then Some SNAT_NEXT_DROP else None, mk_node m' st')) as Hnew.
  { unfold snat_new_flow. erewrite M_bind_Some; [|apply get_df_run]. erewrite M_bind_Some; [|by apply on_flow_run].
    rewrite Hl3. change (RTE_ETHER_TYPE_IPV4 =? RTE_ETHER_TYPE_IPV4) with true. cbv iota. rewrite Hdata, Hft.
    rewrite (proj2 (Z.eqb_neq _ _) Hd), orb_true_r. cbn [negb andb].
    rewrite (bool_decide_eq_true_2 (DP_FLOW_SOUTH_NORTH = DP_FLOW_SOUTH_NORTH)) by done.
    erewrite M_bind_Some; [|erewrite M_bind_Some; [|exact Hproc]; reflexivity]. destruct (DP_FAILED ret); [done|].
    erewrite M_bind_Some; [|apply get_df_run]. destruct C as (_ & _ & _ & -> & _). by rewrite Hl3. }
  erewrite M_bind_Some; [|exact Hnew]. by destruct (DP_FAILED ret).
Qed.


(** ** Echo requests that are answered in place *)

Definition relay_writes : list (nat * nat) := [(34, 1); (36, 2); (30, 4); (26, 4); (24, 2)]%nat.

(** The packet up to the checksum of the IP header. *)
Definition turned m : rte_mbuf :=
  put 26 4 (dst_ip m) (put 30 4 (src_ip m)
    (put 36 2 (icmp_cksum_update (field m 36 2) 8 0) (put 34 1 RTE_ICMP_TYPE_ECHO_REPLY m))).

Lemma turned_size m : (42 <= msize m)%nat -> msize (turned m) = msize m.
Proof. intros Hm. unfold turned. by repeat (rewrite msize_put by in_packet). Qed.

Lemma turned_frame m : (42 <= msize m)%nat -> frame relay_writes m (turned m).
Proof.
  intros Hm. unfold turned.
  repeat (eapply frame_trans; [|eapply frame_weaken; [apply put_frame; in_packet | unfold relay_writes; set_solver]]).
  apply frame_refl.
Qed.

Lemma turned_fields m : bytes_ok m -> (42 <= msize m)%nat ->
  field (turned m) 34 1 = RTE_ICMP_TYPE_ECHO_REPLY /\ field (turned m) 35 1 = field m 35 1
  /\ field (turned m) 36 2 = icmp_cksum_update (field m 36 2) 8 0 /\ field (turned m) 38 2 = field m 38 2
  /\ src_ip (turned m) = dst_ip m /\ dst_ip (turned m) = src_ip m.
Proof.
  intros Hb Hm. pose proof (field_u16 m 36 Hb ltac:(lia)) as H36.
  destruct (cksum_update_spec (field m 36 2) 8 0) as [Hc _]; [done | unfold is_u16; lia..|].
  pose proof (field_ip_range m 26 Hb ltac:(lia)) as Hs. pose proof (field_ip_range m 30 Hb ltac:(lia)) as Hd.
  unfold turned, src_ip, dst_ip in *. change (14 + ipv4_src_off)%nat with 26%nat. change (14 + ipv4_dst_off)%nat with 30%nat.
  split_and!; repeat first
    [ rewrite field_put by in_packet | rewrite field_put_other by (reflexivity || in_packet) ]; try done;
    apply Z.mod_small; assumption.
Qed.

Lemma icmp_reply_run e m st : bytes_ok m -> (42 <= msize m)%nat -> field m 34 1 = RTE_ICMP_TYPE_ECHO_REQUEST ->
  l4_type (flow m) = IPPROTO_ICMP ->
  exists m', lb_nnat_icmp_reply e (mk_node m st) = Some (PACKET_RELAY_NEXT_IPIP_ENCAP, mk_node m' st)
    /\ frame [(24, 2)]%nat (turned m) m' /\ nxt_hop (flow m') = m_port m /\ ul_dst_addr6 (flow m') = ul_src_addr6 (flow m).
Proof.
  intros Hb Hm Htype Hl4. set (m1 := put 34 1 RTE_ICMP_TYPE_ECHO_REPLY m).
  set (m2 := put 36 2 (icmp_cksum_update (field m 36 2) 8 0) m1).
  assert (field m1 36 2 = field m 36 2) as H36 by (apply field_put_other; [lia | done]).
  assert (field m2 30 4 = dst_ip m /\ field m2 26 4 = src_ip m) as [Hd Hs].
  { unfold m2, m1. rewrite !field_put_other by (reflexivity || in_packet). done. }
  set (m5 := set_flow (set_nxt_hop (m_port m) (flow m)) (turned m)).
  destruct (chg_ip_edits (nn_no_offload e) IPPROTO_ICMP m5) as ([] & m6 & Hchg & F & Hf).
  { change (msize m5) with (msize (turned m)). by rewrite turned_size. } { done. }
  exists (set_flow (set_ul_dst_addr6 (ul_src_addr6 (flow m6)) (flow m6)) m6). split_and!.
  - unfold lb_nnat_icmp_reply. change (34 + icmp_type_off)%nat with 34%nat. change (34 + icmp_cksum_off)%nat with 36%nat.
    change (14 + ipv4_dst_off)%nat with 30%nat. change (14 + ipv4_src_off)%nat with 26%nat.
    erewrite M_bind_Some; [|apply on_pkt_run, rd_field; lia]. rewrite Htype. cbn [negb Z.eqb].
    change (negb (RTE_ICMP_TYPE_ECHO_REQUEST =? RTE_ICMP_TYPE_ECHO_REQUEST)) with false. cbv iota.
    erewrite M_bind_Some; [|apply on_pkt_run, wr_put; lia]. fold m1.
    erewrite M_bind_Some; [|apply on_pkt_run, rd_field; unfold m1; in_packet]. rewrite H36.
    erewrite M_bind_Some; [|apply on_pkt_run, wr_put; unfold m1; in_packet].
    change (put 36 2 (icmp_cksum_update (field m 36 2) (htons (RTE_ICMP_TYPE_ECHO_REQUEST * 2 ^ 8)) (htons (RTE_ICMP_TYPE_ECHO_REPLY * 2 ^ 8))) m1) with m2.
    erewrite M_bind_Some; [|apply on_pkt_run, rd_field; unfold m2, m1; in_packet]. rewrite Hd.
    erewrite M_bind_Some; [|apply on_pkt_run, rd_field; unfold m2, m1; in_packet]. rewrite Hs.
    erewrite M_bind_Some; [|apply on_pkt_run, wr_put; unfold m2, m1; in_packet].
    erewrite M_bind_Some; [|apply on_pkt_run, wr_put; unfold m2, m1; in_packet]. fold (turned m).
    erewrite M_bind_Some; [|reflexivity]. erewrite M_bind_Some; [|apply on_pkt_run, Hchg].
    erewrite M_bind_Some; [|reflexivity]. reflexivity.
  - apply (frame_trans _ _ m6); [|by apply same_buf_frame]. apply (frame_trans _ _ m5); [by apply same_buf_frame|]. exact F.
  - cbn. by rewrite Hf.
  - cbn. by rewrite Hf.
Qed.

(** C35: An echo request for an address that is not an interface's (of a load
    balancer or a NAT) is answered in place: the reply goes back to the
    requester, by the port it came from and to the underlay address it came
    from, and is the request but for its type, with addresses exchanged and a
    checksum that is right if the request's was. *)
Theorem relay_answers_echo e p v len m st :
  flow_heap st !! p = Some v -> nf_nat_type v <> DP_FLOW_NAT_TYPE_NETWORK_NEIGH -> conntrack (flow m) = Some p ->
  l4_type (flow m) = IPPROTO_ICMP -> field m 34 1 = RTE_ICMP_TYPE_ECHO_REQUEST ->
  bytes_ok m -> (8 <= len)%nat -> (34 + len <= msize m)%nat ->
  exists m', packet_relay_get_next_index e (mk_node m st) = Some (PACKET_RELAY_NEXT_IPIP_ENCAP, mk_node m' st)
    /\ field m' 34 1 = RTE_ICMP_TYPE_ECHO_REPLY /\ src_ip m' = dst_ip m /\ dst_ip m' = src_ip m
    /\ checksum_error len m' = checksum_error len m /\ frame relay_writes m m'
    /\ nxt_hop (flow m') = m_port m /\ ul_dst_addr6 (flow m') = ul_src_addr6 (flow m).
Proof.
  intros Hp Hnn Hc Hl4 Htype Hb Hlen Hm.
  destruct (icmp_reply_run e m st) as (m' & Hrun & F & Hnh & Hul); [done | lia | done..|].
  destruct (turned_fields m Hb) as (T34 & T35 & T36 & T38 & Ts & Td); [lia|].
  pose proof (turned_size m ltac:(lia)) as Hts. pose proof (turned_frame m ltac:(lia)) as Ft.
  assert (frame relay_writes m m') as FF.
  { eapply frame_trans; [exact Ft|]. eapply frame_weaken; [exact F|]. unfold relay_writes. set_solver. }
  exists m'. split_and!; try done.
  - unfold packet_relay_get_next_index. erewrite M_bind_Some; [|by apply tracked_run].
    erewrite M_bind_Some; [|by apply on_flow_run, load_flow_run]. erewrite M_bind_Some; [|apply get_df_run].
    rewrite bool_decide_eq_false_2 by done. rewrite Hl4. exact Hrun.
  - by rewrite (frame_field _ _ _ _ _ F).
  - rewrite <-Ts. by apply (frame_field _ _ _ _ _ F).
  - rewrite <-Td. by apply (frame_field _ _ _ _ _ F).
  - destruct (cksum_update_spec (field m 36 2) 8 0) as [_ Hsum]; [apply field_u16; (done || lia) | unfold is_u16; lia..|].
    unfold checksum_error. rewrite !icmp_message_words by (rewrite ?(fr_size _ _ _ FF); done).
    rewrite (frame_bytes _ _ _ 40 (len - 6) FF) by done.
    rewrite !(field_split _ 34) by (rewrite ?(fr_size _ _ _ FF); lia).
    rewrite (frame_field _ _ _ 34 1 F), (frame_field _ _ _ (34 + 1) 1 F), (frame_field _ _ _ 36 2 F), (frame_field _ _ _ 38 2 F) by done.
    cbn [Nat.add]. rewrite T34, T35, T36, T38, Htype. unfold RTE_ICMP_TYPE_ECHO_REPLY, RTE_ICMP_TYPE_ECHO_REQUEST.
    set (r := words_sum _). set (c := field m 35 1) in *. set (i := field m 38 2) in *.
    replace (0 + 256 * c + icmp_cksum_update (field m 36 2) 8 0 + i + r) with (icmp_cksum_update (field m 36 2) 8 0 + 0 + (256 * c + i + r)) by lia.
    rewrite <-Zplus_mod_idemp_l, Hsum, Zplus_mod_idemp_l. f_equal. lia.
Qed.
End nodes.

(** ** A NAT gateway with one interface *)

Module NatNodesExample.
Export CntrackExample.

#[export, program] Instance plain_mbuf : RteMbuf := {
  rte_pktmbuf_adj b n := if decide (n <= length (data b))%nat
    then Some (mk_buf (headroom b ++ take n (data b)) (drop n (data b)) (tailroom b)) else None;
  rte_pktmbuf_prepend b n := if decide (n <= length (headroom b))%nat
    then Some (mk_buf (take (length (headroom b) - n) (headroom b)) (drop (length (headroom b) - n) (headroom b) ++ data b) (tailroom b))
    else None
}.
Solve All Obligations with done.

(** Checksums in software, as RFC 1071 has them. *)
Definition fold16 (x : Z) : Z := let y := x mod 65536 + x / 65536 in y mod 65536 + y / 65536.
Definition l4_len_of (hdr : list Z) : nat := (Z.to_nat (ntohs (le_join (bytes_at 2 2 hdr))) - 20)%nat.
#[export, program] Instance soft_cksum : RteCksum := {
  rte_ipv4_cksum hdr := u16 (0xffff - fold16 (words_sum (take 20 hdr)));
  rte_ipv4_udptcp_cksum hdr l4 :=
    u16 (0xffff - fold16 (words_sum (bytes_at 12 8 hdr) + 256 * le_join (bytes_at 9 1 hdr)
                           + htons (Z.of_nat (l4_len_of hdr)) + words_sum (take (l4_len_of hdr) l4)));
  rte_ipv6_udptcp_cksum hdr l4 :=
    u16 (0xffff - fold16 (words_sum (bytes_at 8 32 hdr) + 256 * le_join (bytes_at 6 1 hdr)
                           + le_join (bytes_at 4 2 hdr) + words_sum (take (Z.to_nat (ntohs (le_join (bytes_at 4 2 hdr)))) l4)))
}.
Solve All Obligations with (intros; apply u16_range).

Definition be (n : nat) (x : Z) : list Z := rev (le_split n x).

(** An IPv4 packet in an Ethernet frame, with 16 bytes of room behind it. *)
Definition ipv4_frame (proto src dst : Z) (l4 : list Z) : rte_buf :=
  mk_buf (replicate 32 0) (replicate 12 0 ++ be 2 RTE_ETHER_TYPE_IPV4
    ++ [0x45; 0] ++ be 2 (20 + Z.of_nat (length l4)) ++ [0; 1; 0; 0; 64; proto; 0; 0] ++ be 4 src ++ be 4 dst ++ l4) (replicate 16 0).
Definition udp_bytes (sport dport : Z) : list Z := be 2 sport ++ be 2 dport ++ be 2 12 ++ [0; 0; 1; 2; 3; 4].
Definition with_buf (b : rte_buf) (df : dp_flow) : rte_mbuf := mk_mbuf b 3 0 0 0 0 0 0 0 df (mk_mark 0 false false).
Definition df4 (proto src dst sport dport : Z) : dp_flow :=
  set_flow_type DP_FLOW_SOUTH_NORTH (set_l4_dst_port (htons dport) (set_l4_src_port (htons sport) (set_l4_type proto
    (set_dst_addr (htonl dst) (set_src_addr (htonl src) (set_l3_type RTE_ETHER_TYPE_IPV4 dp_init_flow)))))).

Definition vm_ip : Z := 0x0a000001.
Definition server : Z := 0x08080808.
Definition nat_address : Z := 0xcb007101.
Definition nenv : nat_node_env := mk_nat_node_env env (mk_nat_env true 100 5 false) true (fun _ _ => false).

(** The interface has got a NAT address, and sends its first packet. *)
Definition gateway : flow_state :=
  set_nat_tables (snd (dp_set_iface_nat_ip true vm_ip nat_address 100 1024 1026 (mk_ipv6 0 0) no_nat)) (start 8).
Definition first_packet : rte_mbuf := with_buf (ipv4_frame IPPROTO_UDP vm_ip server (udp_bytes 5000 53)) (df4 IPPROTO_UDP vm_ip server 5000 53).
Definition first_key : flow_key :=
  mk_flow_key (dp_set_ipaddr4 server) IPPROTO_UDP 53 (dp_set_ipaddr4 vm_ip) DP_VNF_TYPE_NAT 5000 100.
Definition tracked_state : rte_mbuf * flow_state :=
  match flow_table_insert_entry cenv first_key vm (mk_node first_packet gateway) with
  | Some (Some p, ns) => (set_flow (set_conntrack (Some p) (flow (n_mbuf ns))) (n_mbuf ns), n_flow ns)
  | _ => (first_packet, gateway)
  end.
Definition conn : flow_value := default zero_flow_value (flow_heap (snd tracked_state) !! 1%positive).
Definition nat_entry_of : snat_data := mk_snat_data 0 nat_address 1024 1026 (mk_ipv6 0 0) (mk_ipv6 0 0) 0.

Lemma gateway_inv : flow_inv gateway.
Proof. eapply flow_inv_ext; [apply (start_inv 8)|done..|]. left. by split_and!. Qed.

Lemma gateway_free key : flows gateway !! key = None.
Proof. change (flows gateway) with (flows (start 8)). by rewrite start_empty, lookup_empty. Qed.

Lemma tracked_inv : flow_inv (snd tracked_state).
Proof.
  unfold tracked_state.
  destruct (insert_entry_run cenv first_key vm first_packet gateway gateway_inv malloc_fresh) as (o & m' & st' & -> & Hinv & _).
  - apply gateway_free.
  - apply gateway_free.
  - vm_compute. discriminate.
  - destruct o; [exact Hinv | apply gateway_inv].
Qed.

Lemma first_connection : new_connection (snd tracked_state) 1%positive conn.
Proof. split; [exact tracked_inv | vm_compute; congruence ..]. Qed.


(** The connection after its first packet, and its next packet. *)
Definition natted_state : flow_state :=
  match snat_get_next_index nenv (mk_node (fst tracked_state) (snd tracked_state)) with Some (_, ns) => n_flow ns | None => gateway end.
Definition natted_conn : flow_value := default zero_flow_value (flow_heap natted_state !! 1%positive).
Definition next_packet : rte_mbuf := fst tracked_state.

Lemma nat_replies_return_witness :
  exists m', snat_get_next_index nenv (mk_node next_packet natted_state) = Some (SNAT_NEXT_FIREWALL, mk_node m' natted_state)
    /\ src_ip m' = htonl (ipv4 (l3_dst (key_reply natted_conn))).
Proof.
  destruct (nat_replies_return nenv 1%positive natted_conn vm IPPROTO_UDP next_packet natted_state) as (m' & H & Hip & _).
  - vm_compute. reflexivity.
  - unfold source_translated. split_and!; vm_compute; reflexivity.
  - right. by left.
  - unfold packet_of. split_and!; vm_compute; (reflexivity || lia).
  - split; vm_compute; reflexivity.
  - vm_compute. reflexivity.
  - reflexivity.
  - exact (ex_intro _ m' (conj H Hip)).
Defined.

(** An echo request, with its checksum. *)
Definition echo : rte_mbuf :=
  with_buf (ipv4_frame IPPROTO_ICMP vm_ip server [8; 0; 0xee; 0xff; 0x12; 0x34; 0; 1; 0xf6; 0xca])
    (set_conntrack (Some 1%positive) (df4 IPPROTO_ICMP vm_ip server 0 0)).

Lemma echo_bytes : bytes_ok echo.
Proof. apply (bool_decide_unpack _). vm_compute. exact I. Qed.

Lemma icmp_identifier_keeps_checksum_witness :
  exists m', dp_change_icmp_identifier 1024 echo = Some (tt, m') /\ field m' 38 2 = htons 1024 /\ checksum_error 10 m' = 0.
Proof.
  destruct (icmp_identifier_keeps_checksum 1024 echo 10 echo_bytes) as (m' & H & Hid & Hc & _); [lia | vm_compute; lia|].
  exists m'. split; [exact H|]. split; [exact Hid|]. exact (eq_trans Hc ltac:(vm_compute; reflexivity)).
Defined.

Lemma relay_answers_echo_witness :
  exists m', packet_relay_get_next_index nenv (mk_node echo (snd tracked_state)) = Some (PACKET_RELAY_NEXT_IPIP_ENCAP, mk_node m' (snd tracked_state))
    /\ checksum_error 10 m' = 0.
Proof.
  destruct (relay_answers_echo nenv 1%positive conn 10 echo (snd tracked_state)) as (m' & H & _ & _ & _ & Hc & _).
  - vm_compute. reflexivity.
  - vm_compute. discriminate.
  - reflexivity.
  - reflexivity.
  - vm_compute. reflexivity.
  - exact echo_bytes.
  - lia.
  - vm_compute. lia.
  - exists m'. split; [exact H|]. exact (eq_trans Hc ltac:(vm_compute; reflexivity)).
Defined.

(** *** NAT64 *)

(** A packet of an IPv6 interface to an IPv4 server: the MAC address of the
    router is 02:11:22:33:44:55, the hop limit 64. *)
Definition vm6 : dp_ipv6 := mk_ipv6 0xfd 0x01.
Definition server64 : dp_ipv6 := dp_set_ipv6_nat64 (htonl server).
Definition ipv6_frame (proto : Z) (l4 : list Z) : rte_buf :=
  mk_buf (replicate 32 0) ([0x02; 0x11; 0x22; 0x33; 0x44; 0x55] ++ replicate 6 0 ++ be 2 RTE_ETHER_TYPE_IPV6
    ++ [0x60; 0; 0; 0] ++ be 2 (Z.of_nat (length l4)) ++ [proto; 64] ++ ipv6_bytes vm6 ++ ipv6_bytes server64 ++ l4) (replicate 16 0xff).
Definition df6 (proto sport dport : Z) : dp_flow :=
  set_flow_type DP_FLOW_SOUTH_NORTH (set_l4_dst_port dport (set_l4_src_port (htons sport) (set_l4_type proto
    (set_df_dst server64 (set_df_src vm6 (set_l3_type RTE_ETHER_TYPE_IPV6 dp_init_flow)))))).
Definition udp6 : rte_mbuf := with_buf (ipv6_frame IPPROTO_UDP (udp_bytes 5000 53)) (df6 IPPROTO_UDP 5000 (htons 53)).
Definition icmp6 (type : Z) (payload : list Z) : rte_mbuf :=
  with_buf (ipv6_frame IPPROTO_ICMPV6 ([type; 0; 0; 0; 0x12; 0x34; 0; 1] ++ payload)) (df6 IPPROTO_ICMPV6 0x1234 type).

Definition to_ipv4 (m : rte_mbuf) : rte_mbuf :=
  match dp_nat_chg_ipv6_to_ipv4_hdr nat_address m with Some (_, m') => m' | None => m end.

(** The Ethernet header is moved over the hop limit before it is read: the time
    to live of the translated packet is the second byte of the destination MAC
    address. *)
Example nat64_ttl_from_mac :
  field (to_ipv4 udp6) (14 + ipv4_ttl_off) 1 = 0x11 /\ field udp6 (14 + ipv6_hop_off) 1 = 64
  /\ dst_ip (to_ipv4 udp6) = htonl server /\ src_ip (to_ipv4 udp6) = htonl nat_address.
Proof. vm_compute. by split_and!. Qed.

(** The checksum of a translated echo request of odd length takes in the byte
    behind the packet. *)
Example nat64_odd_checksum_wrong :
  checksum_error 10 (to_ipv4 (icmp6 DP_ICMPV6_ECHO_REQUEST [1; 2])) = 0
  /\ checksum_error 9 (to_ipv4 (icmp6 DP_ICMPV6_ECHO_REQUEST [1])) <> 0.
Proof. vm_compute. by split. Qed.

(** [m->l4_type] is a field of the packet type, in which the number of ICMP is
    the type of TCP. *)
Definition RTE_PTYPE_L4_TCP : Z := 0x100.
Example nat64_icmp_marked_tcp :
  Z.land (packet_type (to_ipv4 (icmp6 DP_ICMPV6_ECHO_REQUEST [1; 2]))) Tunnel.RTE_PTYPE_L4_MASK = RTE_PTYPE_L4_TCP.
Proof. vm_compute. reflexivity. Qed.

(** The checksums of translated packets are left to the NIC, though the packet
    may be encrypted before the NIC sees it ([nn_no_offload]). *)
Example nat64_leaves_checksum_to_nic :
  field (to_ipv4 udp6) (34 + udp_cksum_off) 2 = 0 /\ Z.land (ol_flags (to_ipv4 udp6)) RTE_MBUF_F_TX_UDP_CKSUM <> 0.
Proof. vm_compute. by split. Qed.

(** A port is allocated before the packet turns out to be untranslatable, and is
    not given back: the reply key of the flow is still the one of IPv6. *)
Definition nat_iface : dp_port_iface :=
  mk_iface [] 0 (mk_iface_cfg 0 0 0 (mk_ipv6 0 0) 0 (dp_set_ipaddr4 0) [] []) 100 false [] (mk_ipv6 1 1) nat_address 1024 1026 true false 0 0 0.
Definition nat_vm : dp_port := mk_port false 3 0 1 true 0 0 [] [] nat_iface false 0.
Definition env64 : flow_env := mk_flow_env false 30 false {[3 := nat_vm]} (mk_vnf_state (slot_empty _ 4) (slot_empty _ 4)).
Definition nenv64 : nat_node_env := mk_nat_node_env env64 (mk_nat_env true 100 5 false) true (fun _ _ => false).
Definition cenv64 : cntrack_env := mk_cntrack_env env64 0 5000 malloc.
(** The edge, and the ports in use after all flows have aged. *)
Definition ports_left (m : rte_mbuf) : option (Z * Z) :=
  (fun r => (r.1, rte_hash_count (portoverload_tbl (nat_tables (n_flow r.2))))) <$>
    (dp_cntrack_handle cenv64 ;; edge ← snat_get_next_index nenv64;
     on_flow (dp_process_aged_flows_non_offload env64 (fun _ => inr 0) 1000000 1000) ;; mret edge) (mk_node m (start 8)).
Example nat64_untranslatable_leaks_port :
  ports_left (icmp6 DP_ICMPV6_ECHO_REQUEST [1; 2]) = Some (SNAT_NEXT_FIREWALL, 0)
  /\ ports_left (icmp6 1 [1; 2]) = Some (SNAT_NEXT_DROP, 1).
Proof. vm_compute. by split. Qed.
End NatNodesExample.
