(* ===== verification/Multipath.v ===== *)
(** The choice of the uplink: [src/dp_multi_path.c].  Traffic is spread over the
    two physical ports by the hash of the flow, and moved to the other one when
    a link is down. *)

From S2P Require Import Prelude Port.

Definition PORT_SELECT_TABLE_SIZE : nat := 10.
Inductive egress_pf_port := OWNER_PORT | PEER_PORT.

#[export] Instance egress_pf_port_eq_dec : EqDecision egress_pf_port.
Proof. solve_decision. Defined.

(** [wcmp_perc] is a percentage.  The quotient is rounded to the nearest
    number, a half upwards. *)
Record wcmp_conf := mk_wcmp { wcmp_enabled : bool; wcmp_perc : Z }.

(** The table is zero before. *)
Definition dp_multipath_init (c : wcmp_conf) : list egress_pf_port :=
  if negb (wcmp_enabled c) then replicate PORT_SELECT_TABLE_SIZE OWNER_PORT
  else
    let frac := Z.to_nat ((wcmp_perc c + 5) / 10) in
    imap (fun i _ => if Nat.ltb i frac then OWNER_PORT else PEER_PORT) (replicate PORT_SELECT_TABLE_SIZE OWNER_PORT).

Definition RTE_ETH_LINK_DOWN : Z := 0.
Definition RTE_ETH_LINK_UP : Z := 1.

Definition dp_multipath_get_pf (c : wcmp_conf) (table : list egress_pf_port) (owner_port peer_port : dp_port) (hash : Z)
  : option dp_port :=
  if negb (wcmp_enabled c) then
    Some (if link_status owner_port =? RTE_ETH_LINK_DOWN then peer_port else owner_port)
  else
    selected ← table !! Z.to_nat (hash mod Z.of_nat PORT_SELECT_TABLE_SIZE);
    Some match selected with
         | PEER_PORT => if link_status peer_port =? RTE_ETH_LINK_UP then peer_port else owner_port
         | OWNER_PORT => if link_status owner_port =? RTE_ETH_LINK_DOWN then peer_port else owner_port
         end.

(** ** The choice *)

Definition link_ok (port : dp_port) : Prop := link_status port = RTE_ETH_LINK_DOWN \/ link_status port = RTE_ETH_LINK_UP.

Lemma table_length c : length (dp_multipath_init c) = PORT_SELECT_TABLE_SIZE.
Proof. unfold dp_multipath_init. destruct (negb _); [done | by rewrite length_imap]. Qed.

Lemma multipath_get_pf_total c owner peer hash :
  exists port, dp_multipath_get_pf c (dp_multipath_init c) owner peer hash = Some port.
Proof.
  unfold dp_multipath_get_pf. destruct (negb _); [eauto|].
  destruct (lookup_lt_is_Some_2 (dp_multipath_init c) (Z.to_nat (hash mod Z.of_nat PORT_SELECT_TABLE_SIZE))) as [x ->]; [|eauto].
  rewrite table_length. pose proof (Z.mod_pos_bound hash (Z.of_nat PORT_SELECT_TABLE_SIZE) ltac:(done)). lia.
Qed.

(** The uplink chosen for a packet always exists and has its link up, unless
    both links are down: with weighted multipath or without, and whatever the
    hash of the flow. *)
Theorem uplink_has_link c owner peer hash :
  link_ok owner -> link_ok peer ->
  exists port, dp_multipath_get_pf c (dp_multipath_init c) owner peer hash = Some port
    /\ (port = owner \/ port = peer)
    /\ (link_status owner = RTE_ETH_LINK_UP \/ link_status peer = RTE_ETH_LINK_UP -> link_status port = RTE_ETH_LINK_UP).
Proof.
  intros Ho Hp. destruct (multipath_get_pf_total c owner peer hash) as [port Hport]. exists port. split; [done|].
  unfold dp_multipath_get_pf, link_ok, RTE_ETH_LINK_DOWN, RTE_ETH_LINK_UP in *.
  destruct (negb _); [|destruct (_ !! _) as [[]|]; cbn in Hport]; simplify_eq;
    match goal with |- context [link_status ?p =? ?k] => destruct (Z.eqb_spec (link_status p) k) end; split; auto; lia.
Qed.

(** With both links up, the owner gets its share of the ten buckets. *)
Lemma table_share c : wcmp_enabled c = true -> 0 <= wcmp_perc c <= 100 ->
  Z.of_nat (length (filter (fun x => x = OWNER_PORT) (dp_multipath_init c))) = (wcmp_perc c + 5) / 10.
Proof.
  intros He Hr. unfold dp_multipath_init. rewrite He. cbn.
  assert (0 <= (wcmp_perc c + 5) / 10 <= 10) as Hq by (Z.to_euclidean_division_equations; lia).
  revert Hq. generalize ((wcmp_perc c + 5) / 10). intros q Hq.
  assert (q = 0 \/ q = 1 \/ q = 2 \/ q = 3 \/ q = 4 \/ q = 5 \/ q = 6 \/ q = 7 \/ q = 8 \/ q = 9 \/ q = 10) as Hc by lia.
  repeat (destruct Hc as [->|Hc]; [done|]). by subst.
Qed.
