(* ===== verification/VirtsvcConn.v ===== *)
(** Virtual services, connections: the connection tables of [src/dp_virtsvc.c]
    and the node that translates the packets, [src/nodes/virtsvc_node.c].

    An interface reaches a virtual service by an IPv4 address; its packets leave
    over an uplink as IPv6 packets to the service.  Each service has a table of
    connections indexed by the source port the service sees, and a hash table
    from the address of the client to that index. *)

From S2P Require Import Prelude Errors RteHash IpAddr Port Graph Packet Virtsvc Vnf Tunnel FlowKey Nat Flow Cntrack NatRewrite Multipath.

Definition DP_NB_SYSTEM_PORTS : Z := 1024.
Definition DP_VIRTSVC_PORTCOUNT : Z := 65536 - DP_NB_SYSTEM_PORTS.

Inductive dp_virtsvc_conn_state :=
| DP_VIRTSVC_CONN_TRANSIENT
| DP_VIRTSVC_CONN_TRANSIENT_SYN
| DP_VIRTSVC_CONN_TRANSIENT_SYNACK
| DP_VIRTSVC_CONN_ESTABLISHED.

#[export] Instance dp_virtsvc_conn_state_eq_dec : EqDecision dp_virtsvc_conn_state.
Proof. solve_decision. Defined.

Record dp_virtsvc_conn := mk_conn {
  last_pkt_timestamp : Z;
  vf_ip : Z;
  vf_l4_port : Z;
  vf_port_id : Z;
  conn_state : dp_virtsvc_conn_state
}.
Definition set_last_pkt_timestamp (x : Z) (c : dp_virtsvc_conn) : dp_virtsvc_conn :=
  mk_conn x (vf_ip c) (vf_l4_port c) (vf_port_id c) (conn_state c).
Definition set_conn_state (x : dp_virtsvc_conn_state) (c : dp_virtsvc_conn) : dp_virtsvc_conn :=
  mk_conn (last_pkt_timestamp c) (vf_ip c) (vf_l4_port c) (vf_port_id c) x.

Record dp_virtsvc_conn_key := mk_conn_key { ck_port_id : Z; ck_l4_port : Z; ck_ip : Z }.

#[export] Instance dp_virtsvc_conn_key_eq_dec : EqDecision dp_virtsvc_conn_key.
Proof. solve_decision. Defined.
#[export] Instance dp_virtsvc_conn_key_countable : Countable dp_virtsvc_conn_key.
Proof.
  refine (inj_countable' (fun k => (ck_port_id k, ck_l4_port k, ck_ip k)) (fun '(a, b, c) => mk_conn_key a b c) _).
  by intros [].
Defined.

(** The key under which the client of a connection is filed. *)
Definition conn_key (c : dp_virtsvc_conn) : dp_virtsvc_conn_key := mk_conn_key (vf_port_id c) (vf_l4_port c) (vf_ip c).

Section connections.
Context `{ERR : RteErrno} {MB : RteMbuf} {OP : RteHash dp_virtsvc_conn_key Z}.

(** The changing part of a service. *)
Record virtsvc_data := mk_virtsvc_data {
  vs_service : dp_virtsvc;
  last_assigned_port : Z;
  open_ports : rte_hash dp_virtsvc_conn_key Z;
  connections : list dp_virtsvc_conn
}.
Definition set_last_assigned_port (x : Z) (s : virtsvc_data) : virtsvc_data :=
  mk_virtsvc_data (vs_service s) x (open_ports s) (connections s).
Definition set_open_ports (x : rte_hash dp_virtsvc_conn_key Z) (s : virtsvc_data) : virtsvc_data :=
  mk_virtsvc_data (vs_service s) (last_assigned_port s) x (connections s).
Definition set_connections (x : list dp_virtsvc_conn) (s : virtsvc_data) : virtsvc_data :=
  mk_virtsvc_data (vs_service s) (last_assigned_port s) (open_ports s) x.

(** The timer and the two timeouts in its cycles. *)
Record conn_env := mk_conn_env { ce_cycles : Z; port_timeout : Z; established_port_timeout : Z }.
Implicit Types (e : conn_env) (s : virtsvc_data) (c : dp_virtsvc_conn) (key : dp_virtsvc_conn_key).

Abbreviation VM := (M virtsvc_data).

(** An element of [connections]; [None] past its end. *)
Definition conn_at (i : Z) s : option dp_virtsvc_conn := if 0 <=? i then connections s !! Z.to_nat i else None.
Definition get_conn (i : Z) : VM dp_virtsvc_conn := o ← gets (conn_at i); get_some o.
Definition upd_conn (i : Z) (f : dp_virtsvc_conn -> dp_virtsvc_conn) : VM unit :=
  c ← get_conn i; modify (fun s => set_connections (<[Z.to_nat i := f c]> (connections s)) s).

(** ** Ports *)

Definition dp_virtsvc_is_connection_old e c : bool :=
  let timeout := u64 (last_pkt_timestamp c
    + (if bool_decide (conn_state c = DP_VIRTSVC_CONN_ESTABLISHED) then established_port_timeout e else port_timeout e)) in
  ce_cycles e >? timeout.

(** The first old connection with an index from [port] on, [fuel] of them. *)
Fixpoint first_old (fuel : nat) e (port : Z) : VM (option Z) :=
  match fuel with
  | O => mret None
  | S fuel' =>
      c ← get_conn port;
      if dp_virtsvc_is_connection_old e c then mret (Some port) else first_old fuel' e (port + 1)
  end.

Definition dp_virtsvc_get_free_port e : VM Z :=
  last ← gets last_assigned_port;
  o ← first_old (Z.to_nat (DP_VIRTSVC_PORTCOUNT - (last + 1))) e (last + 1);
  match o with
  | Some port => modify (set_last_assigned_port port) ;; mret port
  | None =>
      o ← first_old (Z.to_nat (last + 1)) e 0;
      match o with
      | Some port => modify (set_last_assigned_port port) ;; mret port
      | None => mret DP_ERROR
      end
  end.

(** [rte_hash_del_key] whose failure is only logged. *)
Definition forget key : VM unit := modify (fun s => set_open_ports (snd (rte_hash_del_key (open_ports s) key)) s).

Definition dp_virtsvc_use_port key (conn_port : Z) : VM Z :=
  c ← get_conn conn_port;
  (if negb (last_pkt_timestamp c =? 0) then forget (conn_key c) else mret tt) ;;
  t ← gets open_ports;
  let '(ret, t) := rte_hash_add_key_data t key conn_port in
  modify (set_open_ports t) ;;
  if DP_FAILED ret then mret ret
  else
    upd_conn conn_port (fun c =>
      mk_conn (last_pkt_timestamp c) (ck_ip key) (ck_l4_port key) (ck_port_id key) DP_VIRTSVC_CONN_TRANSIENT) ;;
    mret DP_OK.

(** The message to the other instance carries no result. *)
Definition dp_virtsvc_create_connection e key : VM Z :=
  ret ← dp_virtsvc_get_free_port e;
  if DP_FAILED ret then mret ret
  else
    let free_port := u16 ret in
    ret ← dp_virtsvc_use_port key free_port;
    if DP_FAILED ret then mret ret else mret free_port.

Definition dp_virstvc_get_connection key : VM Z :=
  t ← gets open_ports;
  match rte_hash_lookup_data t key with
  | inl ret => mret ret
  | inr data => if (0 <=? data) && (data <? DP_VIRTSVC_PORTCOUNT) then mret data else ub
  end.

(** The index of the connection and the number of the uplink. *)
Definition dp_virtsvc_get_pf_route e (uplink : Z -> option dp_port) (vf_port_id vf_ip vf_l4_port : Z) : VM (Z + Z * Z) :=
  let key := mk_conn_key vf_port_id vf_l4_port vf_ip in
  t ← gets open_ports;
  let key_hash := rte_hash_hash t key in
  ret ← dp_virstvc_get_connection key;
  ret ← (if ret =? - ENOENT then dp_virtsvc_create_connection e key else mret ret);
  if DP_FAILED ret then mret (inl ret)
  else
    pf ← get_some (uplink key_hash);
    mret (inr (ret, port_id pf)).

(** ** Interfaces that go away, and the other instance *)

Fixpoint del_iface_loop (fuel : nat) (port_id : Z) (i : Z) : VM unit :=
  match fuel with
  | O => mret tt
  | S fuel' =>
      c ← get_conn i;
      (if (vf_port_id c =? port_id) && negb (last_pkt_timestamp c =? 0) then
         upd_conn i (set_last_pkt_timestamp 0) ;; forget (conn_key c)
       else mret tt) ;;
      del_iface_loop fuel' port_id (i + 1)
  end.

Definition del_iface (port_id : Z) : VM unit := del_iface_loop (Z.to_nat DP_VIRTSVC_PORTCOUNT) port_id 0.

(** Over all services. *)
Fixpoint dp_virtsvc_del_iface (port_id : Z) (services : list virtsvc_data) : option (list virtsvc_data) :=
  match services with
  | [] => Some []
  | s :: services =>
      '(_, s') ← del_iface port_id s;
      services' ← dp_virtsvc_del_iface port_id services;
      Some (s' :: services')
  end.

Definition dp_virtsvc_get_used_port_count e s : Z :=
  Z.of_nat (length (List.filter (fun c => negb (dp_virtsvc_is_connection_old e c)) (connections s))).

Definition get_virtsvc_by_ipv4 (tree : dp_virtsvc_lookup_entry) (virtual_addr virtual_port proto : Z) : option dp_virtsvc :=
  virtsvc_search (fun v => dp_virtsvc_ipv4_cmp proto virtual_addr virtual_port
                             (virtsvc_proto v) (Virtsvc.virtual_addr v) (Virtsvc.virtual_port v)) tree.

(** The part of [dp_virtsvc_open_sync_connection] after the service is found. *)
Definition open_sync_connection e (vf_ip vf_l4_port vf_port_id conn_port : Z) : VM Z :=
  let key := mk_conn_key vf_port_id vf_l4_port vf_ip in
  ret ← dp_virstvc_get_connection key;
  (if negb (DP_FAILED ret) then upd_conn ret (set_last_pkt_timestamp 0) ;; forget key else mret tt) ;;
  ret ← dp_virtsvc_use_port key conn_port;
  if DP_FAILED ret then mret ret
  else
    upd_conn conn_port (set_last_pkt_timestamp (ce_cycles e)) ;;
    modify (set_last_assigned_port conn_port) ;;
    mret DP_OK.

(** The message about a service that is not there reads the service that was not
    found. *)
Definition dp_virtsvc_open_sync_connection e (tree : dp_virtsvc_lookup_entry) (virtual_addr virtual_port proto vf_ip vf_l4_port vf_port_id conn_port : Z) :
    M (list virtsvc_data) Z := fun services =>
  v ← get_virtsvc_by_ipv4 tree virtual_addr virtual_port proto;
  i ← find_index (fun s => bool_decide (vs_service s = v)) services;
  s ← services !! i;
  '(ret, s) ← open_sync_connection e vf_ip vf_l4_port vf_port_id conn_port s;
  Some (ret, <[i := s]> services).

(** What is sent to the other instance: index, address, port and interface. *)
Definition sync_messages s : list (Z * Z * Z * Z) :=
  omap (fun '(i, c) => if last_pkt_timestamp c =? 0 then None else Some (Z.of_nat i, vf_ip c, vf_l4_port c, vf_port_id c))
    (imap pair (connections s)).

(** ** The node *)

(** The packet, the services and the counter for the identification of packets. *)
Record virtsvc_node_state := mk_vns { vn_mbuf : rte_mbuf; vn_services : list virtsvc_data; vn_packet_id : Z }.
(** The timer, the ports, the edges to the ports and the choice of the uplink. *)
Record virtsvc_env := mk_virtsvc_env {
  vv_conn : conn_env;
  vv_ports : port_table;
  vv_tx_index : gmap Z Z;
  vv_uplink : Z -> option dp_port
}.
Implicit Types (ve : virtsvc_env).

Abbreviation XM := (M virtsvc_node_state).
Definition on_packet {A} (f : M rte_mbuf A) : XM A := fun x =>
  match f (vn_mbuf x) with Some (a, m) => Some (a, mk_vns m (vn_services x) (vn_packet_id x)) | None => None end.
Definition on_service {A} (i : nat) (f : VM A) : XM A := fun x =>
  s ← vn_services x !! i;
  match f s with
  | Some (a, s') => Some (a, mk_vns (vn_mbuf x) (<[i := s']> (vn_services x)) (vn_packet_id x))
  | None => None
  end.
(** The service of the packet: [df->virtsvc]. *)
Definition packet_service : XM nat := o ← gets (fun x => df_virtsvc (flow (vn_mbuf x))); get_some o.
Definition service_of (i : nat) : XM dp_virtsvc := on_service i (gets vs_service).

Definition virtsvc_tcp_state_change c (tcp_flags : Z) : dp_virtsvc_conn :=
  if DP_TCP_PKT_FLAG_RST tcp_flags then set_conn_state DP_VIRTSVC_CONN_TRANSIENT c
  else if DP_TCP_PKT_FLAG_FIN tcp_flags then set_conn_state DP_VIRTSVC_CONN_TRANSIENT c
  else
    match conn_state c with
    | DP_VIRTSVC_CONN_TRANSIENT => if DP_TCP_PKT_FLAG_ONLY_SYN tcp_flags then set_conn_state DP_VIRTSVC_CONN_TRANSIENT_SYN c else c
    | DP_VIRTSVC_CONN_TRANSIENT_SYN =>
        if DP_TCP_PKT_FLAG_ONLY_SYNACK tcp_flags then set_conn_state DP_VIRTSVC_CONN_TRANSIENT_SYNACK c else c
    | DP_VIRTSVC_CONN_TRANSIENT_SYNACK =>
        if DP_TCP_PKT_FLAG_ONLY_ACK tcp_flags then set_conn_state DP_VIRTSVC_CONN_ESTABLISHED c else c
    | DP_VIRTSVC_CONN_ESTABLISHED => c
    end.

Definition virtsvc_get_port_for_conn (conn_idx : Z) : Z := htons (u16 (conn_idx + DP_NB_SYSTEM_PORTS)).
Definition virtsvc_get_conn_on_port (l4_port : Z) : Z := u16 (ntohs l4_port - DP_NB_SYSTEM_PORTS).

Definition VIRTSVC_NEXT_DROP : Z := 0.

(** One header is cut off and another put in its place; [false]: no room. *)
Definition swap_header (old new : nat) : M rte_mbuf bool :=
  b ← gets buf;
  let b := default b (rte_pktmbuf_adj b (sizeof_ether + old)) in
  match rte_pktmbuf_prepend b (sizeof_ether + new) with
  | None => modify (set_buf b) ;; mret false
  | Some b => modify (set_buf b) ;; mret true
  end.

Definition set_lens (l3 : nat) : M rte_mbuf unit :=
  clear_tx_offload ;; modify (set_l2_len (Z.of_nat sizeof_ether)) ;; modify (set_l3_len (Z.of_nat l3)).

Definition write_ipv6_header (payload_len proto ttl : Z) (src dst : dp_ipv6) : M rte_mbuf unit :=
  modify (fun m => set_packet_type
    (Z.lor (Z.lor (Z.land (packet_type m) RTE_PTYPE_L4_MASK) RTE_PTYPE_L3_IPV6) RTE_PTYPE_L2_ETHER) m) ;;
  wr 14 4 (htonl DP_IP6_VTC_FLOW) ;;
  wr (14 + ipv6_payload_len_off) 2 payload_len ;;
  wr (14 + ipv6_proto_off) 1 proto ;;
  wr (14 + ipv6_hop_off) 1 ttl ;;
  wr_ipv6 (14 + ipv6_src_off) src ;;
  wr_ipv6 (14 + ipv6_dst_off) dst ;;
  or_ol_flags RTE_MBUF_F_TX_IPV6 ;;
  set_lens sizeof_ipv6.

(** The ports of the TCP or UDP header at [off]; the checksum is left to the
    NIC. *)
Definition write_ports (off : nat) (proto src_port dst_port : Z) : M rte_mbuf unit :=
  wr (off + l4_src_port_off) 2 src_port ;;
  wr (off + l4_dst_port_off) 2 dst_port ;;
  if proto =? IPPROTO_TCP then
    wr (off + tcp_cksum_off) 2 0 ;;
    or_ol_flags RTE_MBUF_F_TX_TCP_CKSUM ;;
    len ← tcp_hdr_len off; modify (set_l4_len len)
  else
    wr (off + udp_cksum_off) 2 0 ;;
    or_ol_flags RTE_MBUF_F_TX_UDP_CKSUM ;;
    modify (set_l4_len (Z.of_nat sizeof_udp)).

(** A packet of the connection has been seen; [off] is its TCP or UDP header. *)
Definition touch_conn ve (i : nat) (idx : Z) (off : nat) (proto : Z) : XM unit :=
  on_service i (upd_conn idx (set_last_pkt_timestamp (ce_cycles (vv_conn ve)))) ;;
  if proto =? IPPROTO_TCP then
    flags ← on_packet (rd (off + tcp_flags_off) 1);
    on_service i (upd_conn idx (fun c => virtsvc_tcp_state_change c flags))
  else mret tt.

(** The packet leaves over port [id]. *)
Definition send_to ve (id ether_type : Z) : XM Z :=
  match dp_get_port_by_id (vv_ports ve) id with
  | None => mret VIRTSVC_NEXT_DROP
  | Some port => on_packet (dp_fill_ether_hdr port ether_type) ;; get_some (edge_at (vv_tx_index ve) id)
  end.

Definition virtsvc_request_next ve : XM Z :=
  total_length ← on_packet (rd (14 + ipv4_total_length_off) 2);
  let hdr_total_len := ntohs total_length in
  original_ip ← on_packet (rd (14 + ipv4_src_off) 4);
  proto ← on_packet (rd (14 + ipv4_proto_off) 1);
  ttl ← on_packet (rd (14 + ipv4_ttl_off) 1);
  i ← packet_service;
  if hdr_total_len <? Z.of_nat sizeof_ipv4 then mret VIRTSVC_NEXT_DROP
  else
    ok ← on_packet (swap_header sizeof_ipv4 sizeof_ipv6);
    if negb ok then mret VIRTSVC_NEXT_DROP
    else
      virtsvc ← service_of i;
      on_packet (write_ipv6_header (htons (u16 (hdr_total_len - Z.of_nat sizeof_ipv4))) proto ttl
                   (virtsvc_ul_addr virtsvc) (service_addr virtsvc)) ;;
      in_port ← gets (fun x => m_port (vn_mbuf x));
      src_port ← on_packet (rd (54 + l4_src_port_off) 2);
      r ← on_service i (dp_virtsvc_get_pf_route (vv_conn ve) (vv_uplink ve) in_port original_ip src_port);
      match r with
      | inl _ => mret VIRTSVC_NEXT_DROP
      | inr (conn_idx, pf_port_id) =>
          touch_conn ve i conn_idx 54 proto ;;
          on_packet (write_ports 54 proto (virtsvc_get_port_for_conn conn_idx) (service_port virtsvc)) ;;
          send_to ve pf_port_id RTE_ETHER_TYPE_IPV6
      end.

Definition write_ipv4_header (total_length packet_id ttl proto src : Z) : M rte_mbuf unit :=
  modify (fun m => set_packet_type
    (Z.lor (Z.lor (Z.land (packet_type m) (Z.lnot RTE_PTYPE_L3_MASK)) RTE_PTYPE_L3_IPV4) RTE_PTYPE_L2_ETHER) m) ;;
  wr 14 1 0x45 ;;
  wr (14 + ipv4_total_length_off) 2 total_length ;;
  wr (14 + 1) 1 0 ;;
  wr (14 + 4) 2 packet_id ;;
  wr (14 + 6) 2 0 ;;
  wr (14 + ipv4_ttl_off) 1 ttl ;;
  wr (14 + ipv4_proto_off) 1 proto ;;
  wr (14 + ipv4_src_off) 4 src ;;
  wr (14 + ipv4_cksum_off) 2 0 ;;
  or_ol_flags (Z.lor RTE_MBUF_F_TX_IPV4 RTE_MBUF_F_TX_IP_CKSUM) ;;
  set_lens sizeof_ipv4.

Definition next_packet_id : XM Z := fun x =>
  Some (vn_packet_id x, mk_vns (vn_mbuf x) (vn_services x) (u16 (vn_packet_id x + 1))).

Definition virtsvc_reply_next ve : XM Z :=
  proto ← on_packet (rd (14 + ipv6_proto_off) 1);
  ttl ← on_packet (rd (14 + ipv6_hop_off) 1);
  payload_len ← on_packet (rd (14 + ipv6_payload_len_off) 2);
  let total_length := htons (u16 (ntohs payload_len + Z.of_nat sizeof_ipv4)) in
  ok ← on_packet (swap_header sizeof_ipv6 sizeof_ipv4);
  if negb ok then mret VIRTSVC_NEXT_DROP
  else
    i ← packet_service;
    virtsvc ← service_of i;
    packet_id ← next_packet_id;
    on_packet (write_ipv4_header total_length packet_id ttl proto (virtual_addr virtsvc)) ;;
    dst_port ← on_packet (rd (34 + l4_dst_port_off) 2);
    let idx := virtsvc_get_conn_on_port dst_port in
    c ← on_service i (get_conn idx);
    if last_pkt_timestamp c =? 0 then mret VIRTSVC_NEXT_DROP
    else
      touch_conn ve i idx 34 proto ;;
      on_packet (write_ports 34 proto (virtual_port virtsvc) (vf_l4_port c)) ;;
      on_packet (wr (14 + ipv4_dst_off) 4 (vf_ip c)) ;;
      send_to ve (vf_port_id c) RTE_ETHER_TYPE_IPV4.

Definition virtsvc_get_next_index ve : XM Z :=
  in_port ← on_packet (get_in_port (vv_ports ve));
  if is_pf in_port then virtsvc_reply_next ve else virtsvc_request_next ve.
End connections.
