(* ===== verification/VirtsvcConnProofs.v ===== *)
(** The connection tables of the virtual services: their invariant and what
    the operations do to it. *)

From S2P Require Import Prelude Errors RteHash IpAddr Port Graph Packet Virtsvc VirtsvcConn.

Section tables.
Context `{ERR : RteErrno} {MB : RteMbuf} {OP : RteHash dp_virtsvc_conn_key Z}.
Implicit Types (e : conn_env) (s : virtsvc_data) (c : dp_virtsvc_conn) (key : dp_virtsvc_conn_key) (i : Z).

Definition filed s : gmap dp_virtsvc_conn_key Z := hash_view (open_ports s).
Definition in_table i : Prop := 0 <= i < DP_VIRTSVC_PORTCOUNT.

(** A client that is filed has its connection, with its own address in it.
    [pending] is a connection that no packet was seen on yet. *)
Record conn_table_ok (pending : option Z) s : Prop := {
  ct_len : length (connections s) = Z.to_nat DP_VIRTSVC_PORTCOUNT;
  ct_last : in_table (last_assigned_port s);
  ct_filed key i : filed s !! key = Some i ->
    exists c, conn_at i s = Some c /\ conn_key c = key /\ (last_pkt_timestamp c <> 0 \/ pending = Some i)
}.

(** And a connection that is in use has its client filed. *)
Definition conn_exact s : Prop :=
  forall i c, conn_at i s = Some c -> last_pkt_timestamp c <> 0 -> filed s !! conn_key c = Some i.

(** ** Access *)

Lemma conn_at_some s i : length (connections s) = Z.to_nat DP_VIRTSVC_PORTCOUNT -> in_table i -> exists c, conn_at i s = Some c.
Proof.
  intros Hl Hi. unfold conn_at, in_table in *. rewrite (proj2 (Z.leb_le _ _)) by lia. apply lookup_lt_is_Some. lia.
Qed.

Lemma conn_at_range s i c : length (connections s) = Z.to_nat DP_VIRTSVC_PORTCOUNT -> conn_at i s = Some c -> in_table i.
Proof.
  unfold conn_at, in_table. destruct (Z.leb_spec 0 i); [|done]. intros Hl Hc%lookup_lt_Some. lia.
Qed.

Lemma get_conn_run i s c : conn_at i s = Some c -> get_conn i s = Some (c, s).
Proof. intros H. unfold get_conn. m_unfold. by rewrite H. Qed.

Definition put_conn i c s : virtsvc_data := set_connections (<[Z.to_nat i := c]> (connections s)) s.

Lemma upd_conn_run i f s c : conn_at i s = Some c -> upd_conn i f s = Some (tt, put_conn i (f c) s).
Proof. intros H. unfold upd_conn. by rewrite (M_bind_Some _ _ _ _ _ (get_conn_run _ _ _ H)). Qed.

Lemma conn_at_put i c s j : is_Some (conn_at i s) -> conn_at j (put_conn i c s) = if decide (j = i) then Some c else conn_at j s.
Proof.
  unfold conn_at, put_conn. cbn. destruct (Z.leb_spec 0 i) as [Hi|]; [|by intros []]. intros Hs%lookup_lt_is_Some.
  case_decide as Hj; [subst; rewrite (proj2 (Z.leb_le _ _)) by lia; by apply list_lookup_insert_eq|].
  destruct (Z.leb_spec 0 j); [|done]. apply list_lookup_insert_ne. lia.
Qed.

Lemma length_put_conn i c s : length (connections (put_conn i c s)) = length (connections s).
Proof. apply length_insert. Qed.

(** ** A free port *)

Lemma first_old_run fuel e port s :
  length (connections s) = Z.to_nat DP_VIRTSVC_PORTCOUNT -> 0 <= port -> port + Z.of_nat fuel <= DP_VIRTSVC_PORTCOUNT ->
  exists o, first_old fuel e port s = Some (o, s)
    /\ match o with
       | Some p => port <= p < port + Z.of_nat fuel /\ exists c, conn_at p s = Some c /\ dp_virtsvc_is_connection_old e c = true
       | None => forall p c, port <= p < port + Z.of_nat fuel -> conn_at p s = Some c -> dp_virtsvc_is_connection_old e c = false
       end.
Proof.
  intros Hl. revert port; induction fuel as [|fuel IH]; intros port H0 Hn.
  { exists None. split; [done|]. lia. }
  destruct (conn_at_some s port Hl) as [c Hc]; [unfold in_table; lia|]. cbn [first_old].
  rewrite (M_bind_Some _ _ _ _ _ (get_conn_run _ _ _ Hc)). destruct (dp_virtsvc_is_connection_old e c) eqn:Ho.
  { exists (Some port). split; [done|]. split; [lia | eauto]. }
  destruct (IH (port + 1)) as (o & -> & H); [lia..|]. exists o. split; [done|]. destruct o as [p|].
  - destruct H as [? H]. split; [lia | done].
  - intros p c' Hp Hc'. destruct (decide (p = port)) as [->|]; [congruence | apply (H p); [lia | done]].
Qed.

Lemma get_free_port_run e s :
  length (connections s) = Z.to_nat DP_VIRTSVC_PORTCOUNT -> in_table (last_assigned_port s) ->
  exists r s', dp_virtsvc_get_free_port e s = Some (r, s')
    /\ ((in_table r /\ s' = set_last_assigned_port r s /\ exists c, conn_at r s = Some c /\ dp_virtsvc_is_connection_old e c = true)
        \/ (r = DP_ERROR /\ s' = s /\ forall i c, conn_at i s = Some c -> dp_virtsvc_is_connection_old e c = false)).
Proof.
  intros Hl Hlast. unfold dp_virtsvc_get_free_port. cbn [mbind M_bind gets].
  destruct (first_old_run (Z.to_nat (DP_VIRTSVC_PORTCOUNT - (last_assigned_port s + 1))) e (last_assigned_port s + 1) s Hl)
    as (o1 & H1 & Ho1); [unfold in_table in *; lia..|].
  erewrite M_bind_Some by done. erewrite M_bind_Some by exact H1.
  destruct o1 as [p|].
  { exists p, (set_last_assigned_port p s). split; [done|]. left. destruct Ho1 as [? ?]. split_and!; [unfold in_table in *; lia | done | done]. }
  destruct (first_old_run (Z.to_nat (last_assigned_port s + 1)) e 0 s Hl) as (o2 & H2 & Ho2); [unfold in_table in *; lia..|].
  erewrite M_bind_Some by exact H2. destruct o2 as [p|].
  { exists p, (set_last_assigned_port p s). split; [done|]. left. destruct Ho2 as [? ?]. split_and!; [unfold in_table in *; lia | done | done]. }
  exists DP_ERROR, s. split; [done|]. right. split_and!; [done..|]. intros i c Hc.
  pose proof (conn_at_range s i c Hl Hc). unfold in_table in *.
  destruct (decide (i <= last_assigned_port s)); [apply (Ho2 i) | apply (Ho1 i)]; solve [lia | done].
Qed.

(** ** Using a port *)

Definition with_client key c : dp_virtsvc_conn :=
  mk_conn (last_pkt_timestamp c) (ck_ip key) (ck_l4_port key) (ck_port_id key) DP_VIRTSVC_CONN_TRANSIENT.

Lemma conn_key_with_client key c : conn_key (with_client key c) = key.
Proof. by destruct key. Qed.

(** The table without the client that had connection [i]. *)
Definition evict i s : virtsvc_data :=
  match conn_at i s with
  | Some c => if negb (last_pkt_timestamp c =? 0) then set_open_ports (snd (rte_hash_del_key (open_ports s) (conn_key c))) s else s
  | None => s
  end.

Lemma forget_view key s : filed (set_open_ports (snd (rte_hash_del_key (open_ports s) key)) s) = delete key (filed s).
Proof. exact (proj1 (hash_del_view _ _ _ _ (surjective_pairing (rte_hash_del_key (open_ports s) key)))). Qed.

Lemma evict_conns i s : connections (evict i s) = connections s /\ last_assigned_port (evict i s) = last_assigned_port s.
Proof. unfold evict. destruct (conn_at i s); [|done]. by destruct (negb _). Qed.

Lemma evict_conn_at i s j : conn_at j (evict i s) = conn_at j s.
Proof. unfold conn_at. by rewrite (proj1 (evict_conns i s)). Qed.

Lemma evict_filed s i key j : conn_table_ok None s -> filed (evict i s) !! key = Some j -> filed s !! key = Some j /\ j <> i.
Proof.
  intros Hok. unfold evict. destruct (conn_at i s) as [c|] eqn:Hc.
  2: { intros Hk. split; [done|]. intros ->. destruct (ct_filed _ _ Hok _ _ Hk) as (c & ? & _). congruence. }
  destruct (Z.eqb_spec (last_pkt_timestamp c) 0) as [H0|H0]; cbn.
  - intros Hk. split; [done|]. intros ->. destruct (ct_filed _ _ Hok _ _ Hk) as (c' & ? & _ & [?|?]); [congruence | done].
  - rewrite forget_view. intros [Hne Hk]%lookup_delete_Some. split; [done|]. intros ->.
    destruct (ct_filed _ _ Hok _ _ Hk) as (c' & ? & ? & _). congruence.
Qed.

Lemma evict_keeps s i key j : conn_exact s -> filed s !! key = Some j -> j <> i -> filed (evict i s) !! key = Some j.
Proof.
  intros Hex Hk Hj. unfold evict. destruct (conn_at i s) as [c|] eqn:Hc; [|done].
  destruct (Z.eqb_spec (last_pkt_timestamp c) 0) as [H0|H0]; cbn; [done|].
  rewrite forget_view. apply lookup_delete_Some. split; [|done]. intros <-. rewrite (Hex i c Hc H0) in Hk. congruence.
Qed.

Lemma evict_ok s i : conn_table_ok None s -> conn_table_ok None (evict i s).
Proof.
  intros Hok. destruct (evict_conns i s) as [Hc Hl]. split; rewrite ?Hc, ?Hl; [apply Hok..|].
  intros key j [Hk _]%evict_filed; [|done]. rewrite evict_conn_at. by apply (ct_filed _ _ Hok).
Qed.

(** The result of filing a client under connection [i]. *)
Definition adopted i key c s s' : Prop :=
  conn_at i s' = Some (with_client key c)
  /\ filed s' = <[key := i]> (filed (evict i s))
  /\ (forall j, j <> i -> conn_at j s' = conn_at j s)
  /\ length (connections s') = length (connections s)
  /\ last_assigned_port s' = last_assigned_port s /\ vs_service s' = vs_service s.

Lemma use_port_run key i s c : conn_at i s = Some c ->
  exists r s', dp_virtsvc_use_port key i s = Some (r, s')
    /\ ((r = DP_OK /\ adopted i key c s s')
        \/ (r = - ENOSPC /\ connections s' = connections s /\ last_assigned_port s' = last_assigned_port s
            /\ vs_service s' = vs_service s /\ filed s' = filed (evict i s))).
Proof.
  intros Hc. unfold dp_virtsvc_use_port. rewrite (M_bind_Some _ _ _ _ _ (get_conn_run _ _ _ Hc)).
  assert ((if negb (last_pkt_timestamp c =? 0) then forget (conn_key c) else mret tt) s = Some (tt, evict i s)) as He.
  { unfold evict, forget. rewrite Hc. by destruct (negb _). }
  rewrite (M_bind_Some _ _ _ _ _ He). clear He. assert (conn_at i (evict i s) = Some c) as Hc' by (by rewrite evict_conn_at).
  destruct (evict_conns i s) as [Hconn Hlast].
  assert (vs_service (evict i s) = vs_service s) as Hsvc by (unfold evict; rewrite Hc; by destruct (negb _)).
  rewrite (M_bind_Some _ _ _ _ _ (eq_refl : gets open_ports (evict i s) = Some (open_ports (evict i s), evict i s))).
  pose proof (hash_add_cases (open_ports (evict i s)) key i) as Ha.
  destruct (rte_hash_add_key_data (open_ports (evict i s)) key i) as [r t].
  rewrite (M_bind_Some _ _ _ tt (set_open_ports t (evict i s)) eq_refl).
  destruct Ha as [(-> & -> & Hv)|(-> & -> & Hv & _)].
  - assert (conn_at i (set_open_ports t (evict i s)) = Some c) as Hc'' by exact Hc'.
    rewrite (M_bind_Some _ _ _ _ _ (upd_conn_run i _ _ c Hc'')). eexists DP_OK, _. split; [reflexivity|]. left. split; [done|].
    split_and!.
    + rewrite conn_at_put by eauto. by rewrite decide_True.
    + by apply Hv.
    + intros j Hj. rewrite conn_at_put, decide_False by eauto. unfold conn_at. cbn. by rewrite Hconn.
    + rewrite length_put_conn. cbn. by rewrite Hconn.
    + done.
    + done.
  - eexists _, _. split; [reflexivity|]. right. split_and!; done.
Qed.

Lemma adopted_ok i key c s s' : conn_table_ok None s -> in_table i -> adopted i key c s s' -> conn_table_ok (Some i) s'.
Proof.
  intros Hok Hi (Hci & Hf & Hj & Hl & Hla & _). split; [by rewrite Hl; apply Hok | rewrite Hla; apply Hok|].
  intros k j. rewrite Hf. intros [[<- <-]|[Hk Hkj]]%lookup_insert_Some.
  { eexists. split; [done|]. rewrite conn_key_with_client. auto. }
  apply evict_filed in Hkj as [Hkj Hne]; [|done]. rewrite Hj by done.
  destruct (ct_filed _ _ Hok _ _ Hkj) as (c' & ? & ? & [?|?]); [|done]. eauto.
Qed.

Lemma adopted_exact i key c s s' : conn_exact s -> filed s !! key = None \/ filed s !! key = Some i ->
  adopted i key c s s' -> conn_exact s'.
Proof.
  intros Hex Hn (Hci & Hf & Hj & _) j c' Hcj H0. rewrite Hf.
  destruct (decide (j = i)) as [->|Hne].
  { rewrite Hci in Hcj. simplify_eq. rewrite conn_key_with_client. by rewrite lookup_insert_eq. }
  rewrite Hj in Hcj by done. specialize (Hex j c' Hcj H0) as Hk.
  rewrite lookup_insert_ne by (intros ->; destruct Hn; congruence). by apply evict_keeps.
Qed.
End tables.
