(* ===== verification/VirtsvcConnTheorems.v ===== *)
(** Virtual services: what the node does to packets and tables, and that the
    packets of a service come back to the client they answer. *)

From S2P Require Import Prelude Errors RteHash IpAddr Port Graph Packet Fields Virtsvc Vnf Tunnel TunnelTheorems FlowKey Nat Flow Cntrack NatRewrite Multipath VirtsvcConn VirtsvcConnProofs.

(** ** Packets *)

Implicit Types (m : rte_mbuf).

(** The packets differ in the ranges [W] at most. *)
Record same_but (W : list (nat * nat)) m m' : Prop := {
  sb_size : msize m' = msize m;
  sb_port : m_port m' = m_port m;
  sb_flow : flow m' = flow m;
  sb_bytes off n : outside W off n = true -> bytes_at off n (memory (buf m')) = bytes_at off n (memory (buf m))
}.

Lemma same_but_trans W m1 m2 m3 : same_but W m1 m2 -> same_but W m2 m3 -> same_but W m1 m3.
Proof. intros [] []. split; try congruence. intros off n Ho. rewrite sb_bytes1, sb_bytes0 by done. done. Qed.

Lemma same_but_field W m m' off n : same_but W m m' -> outside W off n = true -> field m' off n = field m off n.
Proof. intros H Ho. unfold field. by rewrite (sb_bytes _ _ _ H). Qed.

Lemma same_but_put W off n x m : (off + n <= msize m)%nat -> (off, n) ∈ W -> same_but W m (put off n x m).
Proof.
  intros Hm HW. split; [by apply msize_put | done | done|]. intros off' n' Ho.
  apply (frame_bytes [(off, n)]); [by apply put_frame|]. unfold outside in *. rewrite forallb_forall in *.
  intros w [<-|[]]. apply Ho. by apply list_elem_of_In.
Qed.

Lemma same_but_buf W m m' : buf m' = buf m -> m_port m' = m_port m -> flow m' = flow m -> same_but W m m'.
Proof. intros Hb. split; unfold msize; by rewrite ?Hb. Qed.

Lemma put_bytes_put off bs m : Forall is_u8 bs -> put_bytes off bs m = put off (length bs) (le_join bs) m.
Proof. intros H. unfold put. by rewrite le_split_join. Qed.

Lemma ipv6_bytes_u8 a : Forall is_u8 (ipv6_bytes a).
Proof. unfold ipv6_bytes. apply Forall_app. split; apply le_split_bytes. Qed.

Definition ipv6_number (a : dp_ipv6) : Z := le_join (ipv6_bytes a).

Lemma wr_ipv6_put off a m : (off + 16 <= msize m)%nat -> wr_ipv6 off a m = Some (tt, put off 16 (ipv6_number a) m).
Proof.
  intros H. unfold wr_ipv6. rewrite wr_bytes_put by (by rewrite length_ipv6_bytes).
  rewrite put_bytes_put by apply ipv6_bytes_u8. by rewrite length_ipv6_bytes.
Qed.

Lemma ipv6_number_mod a : ipv6_number a mod 256 ^ 16 = ipv6_number a.
Proof.
  apply Z.mod_small. unfold ipv6_number. pose proof (le_join_range _ (ipv6_bytes_u8 a)). by rewrite length_ipv6_bytes in *.
Qed.

Section packets.
Context `{MB : RteMbuf}.

(** A header of another size in front of the rest of the packet. *)
Lemma swap_header_run old new m :
  (14 + old <= length (data (buf m)))%nat -> (new <= length (headroom (buf m)) + old)%nat ->
  exists m', swap_header old new m = Some (true, m')
    /\ (msize m' + old = msize m + new)%nat /\ m_port m' = m_port m /\ flow m' = flow m
    /\ forall off n, bytes_at (14 + new + off) n (memory (buf m')) = bytes_at (14 + old + off) n (memory (buf m)).
Proof.
  intros Hd Hh. unfold swap_header, sizeof_ether. m_unfold. rewrite adj_law, decide_True by lia. cbn [default from_option id].
  rewrite prepend_law. cbn [headroom data tailroom]. rewrite length_app, length_take_le by lia.
  rewrite decide_True by lia. eexists. split; [reflexivity|].
  set (h := drop _ (headroom (buf m) ++ _)). assert (length h = 14 + new)%nat as Hlen.
  { unfold h. rewrite length_drop, length_app, length_take_le by lia. lia. }
  assert (forall b, memory (mk_buf b (h ++ drop (14 + old) (data (buf m))) (tailroom (buf m))) = h ++ drop (14 + old) (memory (buf m))) as Hmem.
  { intros b. unfold memory. cbn. rewrite drop_app_le by lia. by rewrite app_assoc. }
  split_and!; [|done|done|].
  - unfold msize. cbn [buf set_buf]. rewrite Hmem, length_app, Hlen, length_drop. unfold memory. rewrite !length_app. lia.
  - intros off n. cbn [buf set_buf]. rewrite Hmem. unfold bytes_at. rewrite drop_app_ge by lia. rewrite Hlen, drop_drop.
    do 2 f_equal. lia.
Qed.
End packets.

(** A write in the middle of a program, and one at its end. *)
Lemma wr_then {B} (f : unit -> M rte_mbuf B) off n x m : (off + n <= msize m)%nat ->
  mbind f (wr off n x) m = f tt (put off n x m).
Proof. intros H. by rewrite (M_bind_Some _ _ _ _ _ (wr_put _ _ x _ H)). Qed.

Lemma wr_ipv6_then {B} (f : unit -> M rte_mbuf B) off a m : (off + 16 <= msize m)%nat ->
  mbind f (wr_ipv6 off a) m = f tt (put off 16 (ipv6_number a) m).
Proof. intros H. by rewrite (M_bind_Some _ _ _ _ _ (wr_ipv6_put _ a _ H)). Qed.

Lemma modify_then {S B} (f : unit -> M S B) (g : S -> S) s : mbind f (modify g) s = f tt (g s).
Proof. done. Qed.

Lemma ret_then {S A B} (f : A -> M S B) (a : A) (s : S) : mbind f (mret a) s = f a s.
Proof. done. Qed.

Lemma gets_then {S A B} (f : A -> M S B) (g : S -> A) (s : S) : mbind f (gets g) s = f (g s) s.
Proof. done. Qed.

Lemma rd_then {B} (f : Z -> M rte_mbuf B) off n m : (off + n <= msize m)%nat -> mbind f (rd off n) m = f (field m off n) m.
Proof. intros H. by rewrite (M_bind_Some _ _ _ _ _ (rd_field _ _ _ H)). Qed.

Ltac run_writes := repeat first [rewrite wr_then by in_packet | rewrite wr_ipv6_then by in_packet].
Ltac sb_puts := repeat first [apply same_but_put; [in_packet | set_solver] | eapply same_but_trans; [|apply same_but_put; [in_packet | set_solver]]].

Definition v6_writes : list (nat * nat) := [(14, 4); (18, 2); (20, 1); (21, 1); (22, 16); (38, 16)]%nat.

Lemma write_ipv6_header_run payload_len proto ttl src dst m : (54 <= msize m)%nat ->
  exists m', write_ipv6_header payload_len proto ttl src dst m = Some (tt, m') /\ same_but v6_writes m m'
    /\ field m' 22 16 = ipv6_number src /\ field m' 38 16 = ipv6_number dst.
Proof.
  intros Hm. unfold write_ipv6_header. rewrite modify_then.
  set (m1 := set_packet_type _ m). assert (same_but v6_writes m m1) as H1 by (by apply same_but_buf).
  assert (msize m1 = msize m) as Hs by apply H1. clearbody m1. rewrite <-Hs in Hm. clear Hs.
  run_writes. match goal with |- context [mbind _ _ ?x] => set (m2 := x) end.
  eexists. split; [reflexivity|].
  assert (same_but v6_writes m1 m2) as H2 by (unfold m2, v6_writes; sb_puts).
  split_and!.
  - eapply same_but_trans; [eapply same_but_trans; [exact H1 | exact H2] | by apply same_but_buf].
  - change (field m2 22 16 = ipv6_number src). unfold m2. rewrite field_put_other by (in_packet || done).
    change (14 + ipv6_src_off)%nat with 22%nat. rewrite field_put by in_packet. apply ipv6_number_mod.
  - change (field m2 38 16 = ipv6_number dst). unfold m2. rewrite field_put by in_packet. apply ipv6_number_mod.
Qed.

Definition v4_writes : list (nat * nat) := [(14, 1); (16, 2); (15, 1); (18, 2); (20, 2); (22, 1); (23, 1); (26, 4); (24, 2)]%nat.

Lemma write_ipv4_header_run total_length packet_id ttl proto src m : (34 <= msize m)%nat ->
  exists m', write_ipv4_header total_length packet_id ttl proto src m = Some (tt, m') /\ same_but v4_writes m m'
    /\ field m' 26 4 = src mod 2 ^ 32.
Proof.
  intros Hm. unfold write_ipv4_header. rewrite modify_then.
  set (m1 := set_packet_type _ m). assert (same_but v4_writes m m1) as H1 by (by apply same_but_buf).
  assert (msize m1 = msize m) as Hs by apply H1. clearbody m1. rewrite <-Hs in Hm. clear Hs.
  run_writes. match goal with |- context [mbind _ _ ?x] => set (m2 := x) end.
  eexists. split; [reflexivity|].
  assert (same_but v4_writes m1 m2) as H2 by (unfold m2, v4_writes; sb_puts).
  split; [eapply same_but_trans; [eapply same_but_trans; [exact H1 | exact H2] | by apply same_but_buf]|].
  change (field m2 26 4 = src mod 2 ^ 32). unfold m2. rewrite field_put_other by (in_packet || done).
  change (14 + ipv4_src_off)%nat with 26%nat. by rewrite field_put by in_packet.
Qed.

(** The checksum of the protocol. *)
Definition l4_cksum (proto : Z) : nat := if proto =? IPPROTO_TCP then tcp_cksum_off else udp_cksum_off.
Definition l4_size (proto : Z) : nat := if proto =? IPPROTO_TCP then sizeof_tcp else sizeof_udp.
Definition port_writes (off : nat) (proto : Z) : list (nat * nat) := [(off, 2); (off + 2, 2); (off + l4_cksum proto, 2)]%nat.

Lemma write_ports_run off proto src dst m : (off + l4_size proto <= msize m)%nat ->
  exists m', write_ports off proto src dst m = Some (tt, m') /\ same_but (port_writes off proto) m m'
    /\ field m' off 2 = src mod 2 ^ 16 /\ field m' (off + 2) 2 = dst mod 2 ^ 16.
Proof.
  unfold write_ports, l4_size, port_writes, l4_cksum, l4_src_port_off, l4_dst_port_off. intros Hm.
  assert (off + 8 <= msize m)%nat as Hm8 by (destruct (proto =? _); unfold sizeof_tcp, sizeof_udp in *; lia).
  rewrite Nat.add_0_r. rewrite wr_then by lia. rewrite wr_then by in_packet.
  set (m2 := put (off + 2) 2 dst (put off 2 src m)). assert (msize m2 = msize m) as Hs2 by (unfold m2; by rewrite !msize_put by in_packet).
  set (c := if proto =? IPPROTO_TCP then tcp_cksum_off else udp_cksum_off).
  assert (off + c + 2 <= msize m /\ 4 <= c)%nat as [Hc Hc4].
  { unfold c, tcp_cksum_off, udp_cksum_off, sizeof_tcp, sizeof_udp in *. destruct (proto =? _); lia. }
  assert (exists m', (if proto =? IPPROTO_TCP
    then wr (off + tcp_cksum_off) 2 0 ;; or_ol_flags RTE_MBUF_F_TX_TCP_CKSUM ;; len ← tcp_hdr_len off; modify (set_l4_len len)
    else wr (off + udp_cksum_off) 2 0 ;; or_ol_flags RTE_MBUF_F_TX_UDP_CKSUM ;; modify (set_l4_len (Z.of_nat sizeof_udp))) m2
      = Some (tt, m') /\ buf m' = buf (put (off + c) 2 0 m2) /\ m_port m' = m_port m2 /\ flow m' = flow m2) as (m' & -> & Hb & Hp & Hf).
  { unfold c. destruct (proto =? IPPROTO_TCP) eqn:Et.
    - rewrite wr_then by (rewrite Hs2; unfold tcp_cksum_off, sizeof_tcp in *; lia). unfold or_ol_flags. rewrite modify_then.
      match goal with |- context [mbind _ _ ?x] => set (m3 := x) end.
      assert (off + 14 <= msize m3)%nat.
      { change (off + 14 <= msize (put (off + tcp_cksum_off) 2 0 m2))%nat.
        rewrite msize_put; rewrite Hs2; unfold tcp_cksum_off, sizeof_tcp in *; lia. }
      unfold tcp_hdr_len. eexists. split; [|split_and!].
      + erewrite M_bind_Some; [reflexivity|]. rewrite rd_then by (unfold tcp_data_off_off; lia). reflexivity.
      + done.
      + done.
      + done.
    - rewrite wr_then by (rewrite Hs2; unfold udp_cksum_off, sizeof_udp in *; lia). by eexists. }
  exists m'. assert (same_but [(off, 2); (off + 2, 2); (off + c, 2)]%nat m m') as Hsb.
  { eapply same_but_trans; [|by apply same_but_buf]. eapply same_but_trans; [|apply same_but_put; [lia | set_solver]].
    unfold m2. eapply same_but_trans; apply same_but_put; solve [in_packet | set_solver]. }
  split_and!; [done | done | |]; unfold field; rewrite Hb; fold (field (put (off + c) 2 0 m2) off 2) (field (put (off + c) 2 0 m2) (off + 2) 2).
  - rewrite field_put_other by (try lia; cbn; rewrite (proj2 (Nat.leb_le _ _)) by lia; done). unfold m2.
    rewrite field_put_other by (try in_packet; cbn; rewrite (proj2 (Nat.leb_le _ _)) by lia; done). by rewrite field_put by lia.
  - rewrite field_put_other by (try lia; cbn; rewrite (proj2 (Nat.leb_le (off + 2 + 2) _)) by lia; done). unfold m2.
    by rewrite field_put by in_packet.
Qed.

Definition ether_writes : list (nat * nat) := [(0, 6); (6, 6); (12, 2)]%nat.

Lemma same_but_put_bytes W off bs m : (off + length bs <= msize m)%nat -> (off, length bs) ∈ W -> same_but W m (put_bytes off bs m).
Proof.
  intros Hm HW. pose proof (put_bytes_frame off bs m Hm) as F. split; [apply F | done | done|]. intros off' n' Ho.
  apply (frame_bytes _ _ _ _ _ F). unfold outside in *. rewrite forallb_forall in *.
  intros w [<-|[]]. apply Ho. by apply list_elem_of_In.
Qed.

Lemma fill_ether_same_but port type m : mac_ok port -> (14 <= msize m)%nat ->
  exists m', dp_fill_ether_hdr port type m = Some (tt, m') /\ same_but ether_writes m m'.
Proof.
  intros [Hn Ho] Hm. unfold dp_fill_ether_hdr.
  rewrite (M_bind_Some _ _ _ _ _ (wr_bytes_put 0 (neigh_mac port) m ltac:(lia))).
  assert (same_but ether_writes m (put_bytes 0 (neigh_mac port) m)) as H1.
  { apply same_but_put_bytes; [lia|]. rewrite Hn. unfold ether_writes. set_solver. }
  set (m1 := put_bytes 0 (neigh_mac port) m) in *. pose proof (sb_size _ _ _ H1) as Hs1.
  rewrite (M_bind_Some _ _ _ _ _ (wr_bytes_put 6 (own_mac port) m1 ltac:(lia))).
  assert (same_but ether_writes m1 (put_bytes 6 (own_mac port) m1)) as H2.
  { apply same_but_put_bytes; [lia|]. rewrite Ho. unfold ether_writes. set_solver. }
  set (m2 := put_bytes 6 (own_mac port) m1) in *. pose proof (sb_size _ _ _ H2) as Hs2.
  rewrite wr_put by (unfold ether_type_off; lia). eexists. split; [done|].
  eapply same_but_trans; [exact H1|]. eapply same_but_trans; [exact H2|].
  apply same_but_put; [unfold ether_type_off; lia | unfold ether_writes, ether_type_off; set_solver].
Qed.

(** ** The node *)

Section node.
Context `{ERR : RteErrno} {MB : RteMbuf} {OP : RteHash dp_virtsvc_conn_key Z}.
Implicit Types (ve : virtsvc_env) (x : virtsvc_node_state) (s : virtsvc_data) (c : dp_virtsvc_conn) (key : dp_virtsvc_conn_key) (idx : Z).

Lemma on_packet_then {A B} (f : M rte_mbuf A) (g : A -> M virtsvc_node_state B) m services id a m' : f m = Some (a, m') ->
  mbind g (on_packet f) (mk_vns m services id) = g a (mk_vns m' services id).
Proof. intros H. unfold on_packet, mbind at 1, M_bind at 1. cbn [vn_mbuf]. by rewrite H. Qed.

Lemma packet_service_then {B} (g : nat -> M virtsvc_node_state B) i m services id : df_virtsvc (flow m) = Some i ->
  mbind g packet_service (mk_vns m services id) = g i (mk_vns m services id).
Proof. intros H. apply M_bind_Some. unfold packet_service. rewrite (gets_then (fun o => get_some o)). cbn [vn_mbuf]. by rewrite H. Qed.

Lemma on_service_then {A B} (f : M virtsvc_data A) (g : A -> M virtsvc_node_state B) i m services id s a s' :
  services !! i = Some s -> f s = Some (a, s') ->
  mbind g (on_service i f) (mk_vns m services id) = g a (mk_vns m (<[i := s']> services) id).
Proof.
  intros Hs H. unfold on_service, mbind at 1, M_bind at 1. cbn [vn_mbuf vn_services vn_packet_id]. rewrite Hs. cbn. by rewrite H.
Qed.

(** Changes of a connection that keep its client. *)
Lemma put_conn_ok i c c' s : conn_table_ok (Some i) s -> conn_at i s = Some c -> conn_key c' = conn_key c ->
  last_pkt_timestamp c' <> 0 -> conn_table_ok None (put_conn i c' s).
Proof.
  intros Hok Hc Hk Ht. split; [rewrite length_put_conn; apply Hok | apply Hok|].
  intros key j Hj. rewrite conn_at_put by eauto. destruct (ct_filed _ _ Hok key j Hj) as (c0 & Hc0 & Hk0 & H0).
  case_decide as Hd; [subst j; exists c'; split_and!; [done | congruence | by left]|].
  exists c0. split_and!; [done..|]. left. destruct H0; congruence.
Qed.

Lemma put_conn_exact i c c' s : conn_exact s -> conn_at i s = Some c -> conn_key c' = conn_key c ->
  filed s !! conn_key c = Some i -> conn_exact (put_conn i c' s).
Proof.
  intros Hex Hc Hk Hf j d. rewrite conn_at_put by eauto. case_decide; [intros [= <-] _; subst; by rewrite Hk | apply Hex].
Qed.

Lemma conn_table_weaken i s : conn_table_ok None s -> conn_table_ok (Some i) s.
Proof. intros Hok. split; [apply Hok..|]. intros key j Hj. destruct (ct_filed _ _ Hok key j Hj) as (c & ? & ? & [?|?]); [|done]. eauto. Qed.

(** A packet of connection [idx] was seen: its time and, for TCP, its state. *)
Definition seen ve (flags : option Z) c : dp_virtsvc_conn :=
  let c := set_last_pkt_timestamp (ce_cycles (vv_conn ve)) c in
  match flags with Some flags => virtsvc_tcp_state_change c flags | None => c end.

Lemma tcp_state_change_same c flags :
  conn_key (virtsvc_tcp_state_change c flags) = conn_key c
  /\ last_pkt_timestamp (virtsvc_tcp_state_change c flags) = last_pkt_timestamp c.
Proof. unfold virtsvc_tcp_state_change. by repeat case_match. Qed.

Lemma seen_same ve flags c : conn_key (seen ve flags c) = conn_key c /\ last_pkt_timestamp (seen ve flags c) = ce_cycles (vv_conn ve).
Proof. unfold seen. destruct flags as [flags|]; [apply (tcp_state_change_same (set_last_pkt_timestamp _ c)) | done]. Qed.

Definition tcp_flags_of (proto : Z) m (off : nat) : option Z :=
  if proto =? IPPROTO_TCP then Some (field m (off + tcp_flags_off) 1) else None.

Lemma put_put_conn i c c' s : put_conn i c' (put_conn i c s) = put_conn i c' s.
Proof. unfold put_conn. cbn. by rewrite list_insert_insert_eq. Qed.

Lemma touch_conn_then {B} (g : unit -> M virtsvc_node_state B) ve i idx off proto m services id s c :
  services !! i = Some s -> conn_at idx s = Some c -> (off + l4_size proto <= msize m)%nat ->
  mbind g (touch_conn ve i idx off proto) (mk_vns m services id)
  = g tt (mk_vns m (<[i := put_conn idx (seen ve (tcp_flags_of proto m off) c) s]> services) id).
Proof.
  intros Hs Hc Hm. unfold touch_conn, tcp_flags_of, seen, l4_size in *.
  pose proof (upd_conn_run idx (set_last_pkt_timestamp (ce_cycles (vv_conn ve))) s c Hc) as H1.
  set (s1 := put_conn idx _ s) in H1. pose proof (lookup_lt_Some _ _ _ Hs) as Hlt.
  destruct (proto =? IPPROTO_TCP).
  - erewrite (M_bind_Some g); [reflexivity|]. rewrite (on_service_then _ _ _ _ _ _ _ _ _ Hs H1).
    erewrite on_packet_then by (apply rd_field; unfold tcp_flags_off, sizeof_tcp in *; lia).
    assert (conn_at idx s1 = Some (set_last_pkt_timestamp (ce_cycles (vv_conn ve)) c)) as Hc1.
    { unfold s1. rewrite conn_at_put by eauto. by rewrite decide_True. }
    pose proof (upd_conn_run idx (fun c => virtsvc_tcp_state_change c (field m (off + tcp_flags_off) 1)) s1 _ Hc1) as H2.
    unfold on_service. cbn [vn_services vn_mbuf vn_packet_id]. rewrite list_lookup_insert_eq by done. cbn. rewrite H2.
    unfold s1. by rewrite put_put_conn, list_insert_insert_eq.
  - erewrite (M_bind_Some g); [reflexivity|]. by rewrite (on_service_then _ _ _ _ _ _ _ _ _ Hs H1).
Qed.

(** *** The connection of a client *)

Lemma create_connection_run e key s : conn_table_ok None s -> filed s !! key = None ->
  exists r s', dp_virtsvc_create_connection e key s = Some (r, s') /\ vs_service s' = vs_service s
    /\ ((in_table r /\ exists c, adopted r key c (set_last_assigned_port r s) s')
        \/ (DP_FAILED r = true /\ conn_table_ok None s')).
Proof.
  intros Hok Hn. unfold dp_virtsvc_create_connection.
  destruct (get_free_port_run e s (ct_len _ _ Hok) (ct_last _ _ Hok)) as (r & s1 & Hr & Hcase).
  rewrite (M_bind_Some _ _ _ _ _ Hr). destruct Hcase as [(Hi & -> & c & Hc & _)|(-> & -> & _)].
  2: { rewrite dp_failed_error. eexists _, _. split; [reflexivity|]. split; [done|]. right. by rewrite dp_failed_error. }
  assert (DP_FAILED r = false) as -> by (apply Z.ltb_ge, Hi).
  rewrite u16_small by (unfold in_table, DP_VIRTSVC_PORTCOUNT, DP_NB_SYSTEM_PORTS, is_u16 in *; lia).
  destruct (use_port_run key r (set_last_assigned_port r s) c Hc) as (ret & s2 & Hrun & Hcase). rewrite (M_bind_Some _ _ _ _ _ Hrun).
  destruct Hcase as [[-> Ha]|(-> & Hcn & Hl & Hsv & Hf)].
  - eexists _, _. split; [reflexivity|]. split; [apply Ha|]. left. eauto.
  - eexists _, _. split; [reflexivity|]. split; [done|]. right. split; [done|].
    assert (conn_table_ok None (set_last_assigned_port r s)) as Hok' by (split; [apply Hok | done | apply Hok]).
    pose proof (evict_ok _ r Hok') as Hev. split; [rewrite Hcn; apply Hok | by rewrite Hl|].
    rewrite Hf. intros k j Hj. destruct (ct_filed _ _ Hev k j Hj) as (d & Hd & ?). exists d. split; [|done].
    rewrite evict_conn_at in Hd. unfold conn_at in *. by rewrite Hcn.
Qed.

(** The client of [key] has connection [idx], and nobody else lost theirs. *)
Record connected key idx s s' : Prop := {
  cn_index : in_table idx;
  cn_ok : conn_table_ok (Some idx) s';
  cn_filed : filed s' !! key = Some idx;
  cn_exact : conn_exact s -> conn_exact s';
  cn_others : conn_exact s -> forall key' j, filed s !! key' = Some j -> j <> idx -> filed s' !! key' = Some j
}.

Lemma adopted_connected key idx c s s' : conn_table_ok None s -> in_table idx -> filed s !! key = None ->
  adopted idx key c (set_last_assigned_port idx s) s' -> connected key idx s s'.
Proof.
  intros Hok Hi Hn Ha. set (s1 := set_last_assigned_port idx s) in *.
  assert (conn_table_ok None s1) as Hok1 by (split; [apply Hok | done | apply Hok]). pose proof Ha as (_ & Hf & _).
  split; [done | by eapply adopted_ok | by rewrite Hf, lookup_insert_eq | |].
  - intros Hex. eapply (adopted_exact idx key c s1); [exact Hex | by left | done].
  - intros Hex k j Hj Hne. rewrite Hf, lookup_insert_ne by congruence. by apply (evict_keeps s1).
Qed.

Lemma get_pf_route_run e uplink vf ip l4 s :
  conn_table_ok None s -> (forall h, exists pf, uplink h = Some pf) ->
  exists r s', dp_virtsvc_get_pf_route e uplink vf ip l4 s = Some (r, s') /\ vs_service s' = vs_service s
    /\ match r with
       | inl _ => conn_table_ok None s'
       | inr (idx, pf) => connected (mk_conn_key vf l4 ip) idx s s' /\ exists h port, uplink h = Some port /\ pf = port_id port
       end.
Proof.
  intros Hok Hup. unfold dp_virtsvc_get_pf_route. set (key := mk_conn_key vf l4 ip).
  rewrite gets_then.
  destruct (Hup (rte_hash_hash (open_ports s) key)) as [port Hport]. unfold dp_virstvc_get_connection.
  destruct (filed s !! key) as [idx|] eqn:Hk.
  - assert (rte_hash_lookup_data (open_ports s) key = inr idx) as Hl by (by apply hash_lookup_Some).
    destruct (ct_filed _ _ Hok _ _ Hk) as (c & Hc & _). pose proof (conn_at_range _ _ _ (ct_len _ _ Hok) Hc) as Hi.
    erewrite M_bind_Some.
    2: { rewrite gets_then, Hl.
         unfold in_table in Hi. rewrite (proj2 (Z.leb_le _ _)), (proj2 (Z.ltb_lt _ _)) by lia. reflexivity. }
    assert (idx =? - ENOENT = false) as -> by (apply Z.eqb_neq; unfold in_table, ENOENT in *; lia).
    rewrite ret_then.
    assert (DP_FAILED idx = false) as -> by (apply Z.ltb_ge, Hi). rewrite Hport. eexists _, _. split; [reflexivity|].
    split; [done|]. split; [|eauto]. split; [done | by apply conn_table_weaken | done | done | done].
  - assert (rte_hash_lookup_data (open_ports s) key = inl (- ENOENT)) as Hl by (rewrite hash_lookup_view; unfold filed in Hk; by rewrite Hk).
    erewrite M_bind_Some.
    2: { rewrite gets_then, Hl. reflexivity. }
    rewrite Z.eqb_refl. destruct (create_connection_run e key s Hok Hk) as (r & s1 & Hr & Hsv & Hcase).
    rewrite (M_bind_Some _ _ _ _ _ Hr). destruct Hcase as [(Hi & c & Ha)|[-> Hok1]].
    + assert (DP_FAILED r = false) as -> by (apply Z.ltb_ge, Hi). rewrite Hport. eexists _, _. split; [reflexivity|].
      split; [done|]. split; [by eapply adopted_connected | eauto].
    + eexists _, _. split; [reflexivity|]. by split.
Qed.

(** *** Requests *)

(** A port packets can be sent over. *)
Definition reachable_port ve (port : dp_port) : Prop :=
  vv_ports ve !! port_id port = Some port /\ 0 <= port_id port < DP_MAX_PORTS /\ mac_ok port.

Definition tx_edge ve (id : Z) : Z := default 0 (vv_tx_index ve !! id).

Lemma send_to_run ve port type m services id : reachable_port ve port -> (14 <= msize m)%nat ->
  exists m', send_to ve (port_id port) type (mk_vns m services id) = Some (tx_edge ve (port_id port), mk_vns m' services id)
    /\ same_but ether_writes m m'.
Proof.
  intros (Hp & Hr & Hmac) Hm. unfold send_to, dp_get_port_by_id.
  assert (port_id port >=? DP_MAX_PORTS = false) as -> by lia. rewrite Hp.
  destruct (fill_ether_same_but port type m Hmac Hm) as (m' & Hrun & Hsb). exists m'. split; [|done].
  rewrite (on_packet_then _ _ _ _ _ _ _ Hrun). unfold edge_at, tx_edge.
  by rewrite (proj2 (Z.leb_le _ _)), (proj2 (Z.ltb_lt _ _)) by lia.
Qed.

Definition client_of m : dp_virtsvc_conn_key := mk_conn_key (m_port m) (field m 34 2) (field m 26 4).

(** A packet of a client, in a buffer with room for the longer header. *)
Record request_ready (i : nat) m : Prop := {
  rq_service : df_virtsvc (flow m) = Some i;
  rq_data : (34 <= length (data (buf m)))%nat;
  rq_room : (20 <= length (headroom (buf m)))%nat;
  rq_l4 : (34 + l4_size (field m 23 1) <= msize m)%nat;
  rq_length : 20 <= ntohs (field m 16 2)
}.

(** The packet as the service gets it. *)
Record request_sent (virtsvc : dp_virtsvc) idx m m' : Prop := {
  rs_src : field m' 22 16 = ipv6_number (virtsvc_ul_addr virtsvc);
  rs_dst : field m' 38 16 = ipv6_number (service_addr virtsvc);
  rs_src_port : field m' 54 2 = virtsvc_get_port_for_conn idx;
  rs_dst_port : field m' 56 2 = u16 (service_port virtsvc);
  rs_payload n : bytes_at (54 + l4_size (field m 23 1)) n (memory (buf m')) = bytes_at (34 + l4_size (field m 23 1)) n (memory (buf m))
}.

Lemma l4_size_min proto : (8 <= l4_size proto)%nat.
Proof. unfold l4_size, sizeof_tcp, sizeof_udp. destruct (_ =? _); lia. Qed.

Lemma port_for_conn_u16 idx : virtsvc_get_port_for_conn idx mod 2 ^ 16 = virtsvc_get_port_for_conn idx.
Proof. apply Z.mod_small, bswap16_range. Qed.

(** The payload lies behind the ports and the checksum. *)
Lemma outside_ports off proto n : outside (port_writes off proto) (off + l4_size proto) n = true.
Proof.
  unfold outside, port_writes, l4_size, l4_cksum, sizeof_tcp, sizeof_udp, tcp_cksum_off, udp_cksum_off. cbn.
  destruct (proto =? _); rewrite !andb_true_iff, !orb_true_iff, !Nat.leb_le; lia.
Qed.

Lemma outside_behind W off n : Forall (fun w => (w.1 + w.2 <= off)%nat) W -> outside W off n = true.
Proof.
  intros H. unfold outside. apply forallb_forall. intros w Hw%list_elem_of_In. rewrite Forall_forall in H.
  apply orb_true_iff. right. apply Nat.leb_le. auto.
Qed.

Lemma translate_request virtsvc idx m m1 m2 m3 m4 proto :
  proto = field m 23 1 ->
  (forall off n, bytes_at (14 + sizeof_ipv6 + off) n (memory (buf m1)) = bytes_at (14 + sizeof_ipv4 + off) n (memory (buf m))) ->
  same_but v6_writes m1 m2 -> field m2 22 16 = ipv6_number (virtsvc_ul_addr virtsvc) -> field m2 38 16 = ipv6_number (service_addr virtsvc) ->
  same_but (port_writes 54 proto) m2 m3 -> field m3 54 2 = virtsvc_get_port_for_conn idx -> field m3 56 2 = u16 (service_port virtsvc) ->
  same_but ether_writes m3 m4 -> request_sent virtsvc idx m m4.
Proof.
  intros -> Hb H12 Hs Hd H23 Hp1 Hp2 H34. split.
  - rewrite (same_but_field _ _ _ _ _ H34), (same_but_field _ _ _ _ _ H23); [done | | done]. by unfold port_writes, l4_cksum; destruct (_ =? _).
  - rewrite (same_but_field _ _ _ _ _ H34), (same_but_field _ _ _ _ _ H23); [done | | done]. by unfold port_writes, l4_cksum; destruct (_ =? _).
  - by rewrite (same_but_field _ _ _ _ _ H34).
  - by rewrite (same_but_field _ _ _ _ _ H34).
  - intros n. rewrite (sb_bytes _ _ _ H34), (sb_bytes _ _ _ H23), (sb_bytes _ _ _ H12).
    + exact (Hb _ n).
    + apply outside_behind. repeat (apply Forall_cons; split; [cbn; lia|]). apply Forall_nil_2.
    + apply outside_ports.
    + apply outside_behind. repeat (apply Forall_cons; split; [cbn; lia|]). apply Forall_nil_2.
Qed.

Lemma request_run ve i m services id s :
  request_ready i m -> services !! i = Some s -> conn_table_ok None s -> 0 < ce_cycles (vv_conn ve) ->
  (forall h, exists pf, vv_uplink ve h = Some pf /\ reachable_port ve pf) ->
  exists edge m' s', virtsvc_request_next ve (mk_vns m services id) = Some (edge, mk_vns m' (<[i := s']> services) id)
    /\ conn_table_ok None s' /\ vs_service s' = vs_service s
    /\ (edge = VIRTSVC_NEXT_DROP
        \/ exists idx pf, edge = tx_edge ve (port_id pf) /\ reachable_port ve pf
             /\ request_sent (vs_service s) idx m m' /\ in_table idx /\ filed s' !! client_of m = Some idx
             /\ (conn_exact s -> conn_exact s'
                 /\ forall key' j, filed s !! key' = Some j -> j <> idx -> filed s' !! key' = Some j)).
Proof.
  intros [Hsvc Hdata Hroom Hl4 Hlen] Hs Hok Hcyc Hup. unfold virtsvc_request_next.
  pose proof (l4_size_min (field m 23 1)) as Hmin. pose proof (lookup_lt_Some _ _ _ Hs) as Hlt.
  do 4 (erewrite on_packet_then by (apply rd_field; cbn; lia)). rewrite (packet_service_then _ i) by done.
  change (field m (14 + ipv4_total_length_off) 2) with (field m 16 2). change (field m (14 + ipv4_proto_off) 1) with (field m 23 1).
  change (field m (14 + ipv4_src_off) 4) with (field m 26 4).
  assert (ntohs (field m 16 2) <? Z.of_nat sizeof_ipv4 = false) as -> by (apply Z.ltb_ge; exact Hlen).
  destruct (swap_header_run sizeof_ipv4 sizeof_ipv6 m) as (m1 & Hswap & Hsize & Hport & Hflow & Hbytes); [unfold sizeof_ipv4, sizeof_ipv6; lia..|].
  rewrite (on_packet_then _ _ _ _ _ _ _ Hswap). cbn [negb]. unfold sizeof_ipv4, sizeof_ipv6 in Hsize.
  unfold service_of. rewrite (on_service_then _ _ _ _ _ _ _ _ _ Hs (eq_refl : gets vs_service s = Some (vs_service s, s))).
  rewrite list_insert_id by done.
  match goal with |- context [write_ipv6_header ?len ?proto ?ttl ?src ?dst] =>
    destruct (write_ipv6_header_run len proto ttl src dst m1) as (m2 & Hw & H12 & Hsrc & Hdst); [lia|]
  end. rewrite (on_packet_then _ _ _ _ _ _ _ Hw).
  rewrite gets_then. cbn [vn_mbuf]. pose proof (sb_size _ _ _ H12) as Hs2.
  erewrite on_packet_then by (apply rd_field; cbn; lia).
  assert (field m2 (54 + l4_src_port_off) 2 = field m 34 2) as ->.
  { rewrite (same_but_field _ _ _ _ _ H12) by done. unfold field. f_equal. exact (Hbytes 0%nat 2%nat). }
  rewrite (sb_port _ _ _ H12), Hport.
  destruct (get_pf_route_run (vv_conn ve) (vv_uplink ve) (m_port m) (field m 26 4) (field m 34 2) s Hok) as (r & s1 & Hr & Hsv & Hcase).
  { intros h. destruct (Hup h) as (pf & ? & _). eauto. }
  rewrite (on_service_then _ _ _ _ _ _ _ _ _ Hs Hr). destruct r as [ret|[idx pf]].
  { eexists _, m2, s1. split_and!; [reflexivity | done | done | by left]. }
  destruct Hcase as [[Hi Hok1 Hf1 Hex1 Hoth1] (h & port & Hh & ->)]. destruct (ct_filed _ _ Hok1 _ _ Hf1) as (c & Hc & Hk & _).
  rewrite (touch_conn_then _ _ _ _ _ _ _ _ _ s1 c); [|by rewrite list_lookup_insert_eq | done | lia]. rewrite list_insert_insert_eq.
  set (c' := seen _ _ c).
  edestruct (write_ports_run 54 (field m 23 1) (virtsvc_get_port_for_conn idx) (service_port (vs_service s)) m2) as (m3 & Hp & H23 & Hp1 & Hp2); [lia|].
  rewrite (on_packet_then _ _ _ _ _ _ _ Hp). pose proof (sb_size _ _ _ H23) as Hs3.
  destruct (Hup h) as (pf & Hpf & Hreach). rewrite Hh in Hpf. simplify_eq.
  destruct (send_to_run ve pf RTE_ETHER_TYPE_IPV6 m3 (<[i := put_conn idx c' s1]> services) id Hreach) as (m4 & Hsend & H34); [lia|].
  rewrite port_for_conn_u16 in Hp1. eexists _, m4, (put_conn idx c' s1). split; [exact Hsend|]. split_and!.
  - eapply put_conn_ok; [exact Hok1 | exact Hc | apply seen_same|]. unfold c'. rewrite (proj2 (seen_same _ _ _)). lia.
  - done.
  - right. exists idx, pf. split_and!; [done | done | by eapply translate_request | done | done|].
    intros Hex. split; [|by apply Hoth1]. eapply put_conn_exact; [by apply Hex1 | exact Hc | apply seen_same|]. by rewrite Hk.
Qed.

(** *** Replies *)

Lemma conn_on_port idx : in_table idx -> virtsvc_get_conn_on_port (virtsvc_get_port_for_conn idx) = idx.
Proof.
  unfold in_table, DP_VIRTSVC_PORTCOUNT, virtsvc_get_conn_on_port, virtsvc_get_port_for_conn, DP_NB_SYSTEM_PORTS. intros Hi.
  rewrite (u16_small (idx + 1024)) by (unfold is_u16; lia). rewrite bswap16_involutive by (unfold is_u16; lia).
  replace (idx + 1024 - 1024) with idx by lia. apply u16_small. unfold is_u16. lia.
Qed.

(** A packet of the service to connection [idx]. *)
Record reply_ready (i : nat) idx m : Prop := {
  rp_service : df_virtsvc (flow m) = Some i;
  rp_data : (54 <= length (data (buf m)))%nat;
  rp_l4 : (54 + l4_size (field m 20 1) <= msize m)%nat;
  rp_port : field m 56 2 = virtsvc_get_port_for_conn idx
}.

(** The packet as the client gets it. *)
Record reply_sent (virtsvc : dp_virtsvc) key m m' : Prop := {
  ry_src : field m' 26 4 = u32 (virtual_addr virtsvc);
  ry_dst : field m' 30 4 = u32 (ck_ip key);
  ry_src_port : field m' 34 2 = u16 (virtual_port virtsvc);
  ry_dst_port : field m' 36 2 = u16 (ck_l4_port key);
  ry_payload n : bytes_at (34 + l4_size (field m 20 1)) n (memory (buf m')) = bytes_at (54 + l4_size (field m 20 1)) n (memory (buf m))
}.

Definition dst_write : list (nat * nat) := [(30, 4)]%nat.

Lemma translate_reply virtsvc key m m1 m2 m3 m4 m5 proto :
  proto = field m 20 1 ->
  (forall off n, bytes_at (14 + sizeof_ipv4 + off) n (memory (buf m1)) = bytes_at (14 + sizeof_ipv6 + off) n (memory (buf m))) ->
  same_but v4_writes m1 m2 -> field m2 26 4 = virtual_addr virtsvc mod 2 ^ 32 ->
  same_but (port_writes 34 proto) m2 m3 -> field m3 34 2 = virtual_port virtsvc mod 2 ^ 16 -> field m3 36 2 = ck_l4_port key mod 2 ^ 16 ->
  same_but dst_write m3 m4 -> field m4 30 4 = ck_ip key mod 2 ^ 32 ->
  same_but ether_writes m4 m5 -> reply_sent virtsvc key m m5.
Proof.
  intros -> Hb H12 Hs H23 Hp1 Hp2 H34 Hd H45. split.
  - rewrite (same_but_field _ _ _ _ _ H45), (same_but_field _ _ _ _ _ H34), (same_but_field _ _ _ _ _ H23); [done | | done..].
    by unfold port_writes, l4_cksum; destruct (_ =? _).
  - by rewrite (same_but_field _ _ _ _ _ H45).
  - by rewrite (same_but_field _ _ _ _ _ H45), (same_but_field _ _ _ _ _ H34).
  - by rewrite (same_but_field _ _ _ _ _ H45), (same_but_field _ _ _ _ _ H34).
  - intros n. rewrite (sb_bytes _ _ _ H45), (sb_bytes _ _ _ H34), (sb_bytes _ _ _ H23), (sb_bytes _ _ _ H12).
    + exact (Hb _ n).
    + apply outside_behind. repeat (apply Forall_cons; split; [cbn; lia|]). apply Forall_nil_2.
    + apply outside_ports.
    + apply outside_behind. repeat (apply Forall_cons; split; [cbn; lia|]). apply Forall_nil_2.
    + apply outside_behind. repeat (apply Forall_cons; split; [cbn; lia|]). apply Forall_nil_2.
Qed.

Lemma next_packet_id_then {B} (g : Z -> M virtsvc_node_state B) m services id :
  mbind g next_packet_id (mk_vns m services id) = g id (mk_vns m services (u16 (id + 1))).
Proof. done. Qed.

Lemma reply_run ve i idx key port m services id s :
  reply_ready i idx m -> services !! i = Some s -> conn_table_ok None s -> filed s !! key = Some idx -> 0 < ce_cycles (vv_conn ve) ->
  port_id port = ck_port_id key -> reachable_port ve port ->
  exists m' s', virtsvc_reply_next ve (mk_vns m services id)
      = Some (tx_edge ve (ck_port_id key), mk_vns m' (<[i := s']> services) (u16 (id + 1)))
    /\ reply_sent (vs_service s) key m m'
    /\ conn_table_ok None s' /\ filed s' = filed s /\ (conn_exact s -> conn_exact s').
Proof.
  intros [Hsvc Hdata Hl4 Hdport] Hs Hok Hf Hcyc Hid Hreach. unfold virtsvc_reply_next.
  pose proof (l4_size_min (field m 20 1)) as Hmin. pose proof (lookup_lt_Some _ _ _ Hs) as Hlt.
  destruct (ct_filed _ _ Hok _ _ Hf) as (c & Hc & Hk & Hlive). destruct Hlive as [Hlive|]; [|done].
  pose proof (conn_at_range _ _ _ (ct_len _ _ Hok) Hc) as Hi.
  do 3 (erewrite on_packet_then by (apply rd_field; cbn; lia)). change (field m (14 + ipv6_proto_off) 1) with (field m 20 1).
  destruct (swap_header_run sizeof_ipv6 sizeof_ipv4 m) as (m1 & Hswap & Hsize & Hport & Hflow & Hbytes); [unfold sizeof_ipv4, sizeof_ipv6; lia..|].
  rewrite (on_packet_then _ _ _ _ _ _ _ Hswap). cbn [negb]. unfold sizeof_ipv4, sizeof_ipv6 in Hsize.
  rewrite (packet_service_then _ i) by (by rewrite Hflow). unfold service_of.
  rewrite (on_service_then _ _ _ _ _ _ _ _ _ Hs (eq_refl : gets vs_service s = Some (vs_service s, s))), list_insert_id by done.
  rewrite next_packet_id_then.
  match goal with |- context [write_ipv4_header ?len ?pid ?ttl ?proto ?src] =>
    destruct (write_ipv4_header_run len pid ttl proto src m1) as (m2 & Hw & H12 & Hsrc); [lia|]
  end. rewrite (on_packet_then _ _ _ _ _ _ _ Hw). pose proof (sb_size _ _ _ H12) as Hs2.
  erewrite on_packet_then by (apply rd_field; cbn; lia).
  assert (field m2 (34 + l4_dst_port_off) 2 = virtsvc_get_port_for_conn idx) as ->.
  { rewrite (same_but_field _ _ _ _ _ H12) by done. rewrite <-Hdport. unfold field. f_equal. exact (Hbytes 2%nat 2%nat). }
  rewrite (conn_on_port _ Hi). rewrite (on_service_then _ _ _ _ _ _ _ _ _ Hs (get_conn_run _ _ _ Hc)), list_insert_id by done.
  assert (last_pkt_timestamp c =? 0 = false) as -> by (by apply Z.eqb_neq).
  rewrite (touch_conn_then _ _ _ _ _ _ _ _ _ s c); [|done..|lia]. set (c' := seen _ _ c).
  edestruct (write_ports_run 34 (field m 20 1) (virtual_port (vs_service s)) (vf_l4_port c) m2) as (m3 & Hp & H23 & Hp1 & Hp2); [lia|].
  rewrite (on_packet_then _ _ _ _ _ _ _ Hp). pose proof (sb_size _ _ _ H23) as Hs3.
  assert (30 + 4 <= msize m3)%nat as Hm3 by lia.
  rewrite (on_packet_then _ _ _ _ _ _ _ (wr_put (14 + ipv4_dst_off) 4 (vf_ip c) m3 Hm3)). set (m4 := put _ 4 _ m3).
  assert (same_but dst_write m3 m4) as H34 by (apply same_but_put; [done | unfold dst_write; set_solver]).
  pose proof (sb_size _ _ _ H34) as Hs4. subst key. rewrite <-Hid in *. cbn [ck_port_id conn_key] in Hid.
  destruct (send_to_run ve port RTE_ETHER_TYPE_IPV4 m4 (<[i := put_conn idx c' s]> services) (u16 (id + 1)) Hreach) as (m5 & Hsend & H45); [lia|].
  exists m5, (put_conn idx c' s). split; [rewrite <-Hid; exact Hsend|]. split_and!.
  - eapply translate_reply; [reflexivity | exact Hbytes | exact H12 | exact Hsrc | exact H23 | exact Hp1 | exact Hp2 | exact H34 | | exact H45].
    unfold m4. change (14 + ipv4_dst_off)%nat with 30%nat. by rewrite field_put by lia.
  - eapply put_conn_ok; [by apply conn_table_weaken | exact Hc | apply seen_same|]. unfold c'. rewrite (proj2 (seen_same _ _ _)). lia.
  - done.
  - intros Hex. eapply put_conn_exact; [done | exact Hc | apply seen_same | done].
Qed.

End node.
