(* ===== verification/VirtsvcReach.v ===== *)
(** Virtual services: the states their tables reach, whatever packets arrive. *)

From S2P Require Import Prelude Errors RteHash IpAddr Port Graph Packet Fields Virtsvc Vnf Tunnel FlowKey Nat Flow Cntrack NatRewrite Multipath VirtsvcConn VirtsvcConnProofs VirtsvcConnTheorems.

Section reach.
Context `{ERR : RteErrno} {MB : RteMbuf} {OP : RteHash dp_virtsvc_conn_key Z}.
Implicit Types (ve : virtsvc_env) (x : virtsvc_node_state) (s : virtsvc_data) (key : dp_virtsvc_conn_key) (services : list virtsvc_data).

Definition tables_ok services : Prop := Forall (conn_table_ok None) services.

(** Programs of the node that leave the services alone. *)
Definition packet_only {A} (f : M virtsvc_node_state A) : Prop := preserves vn_services f.

Lemma packet_only_on_packet {A} (f : M rte_mbuf A) : packet_only (on_packet f).
Proof. intros x a x'. unfold on_packet. destruct (f (vn_mbuf x)) as [[b m]|]; [|done]. by intros [= _ <-]. Qed.

Lemma packet_only_send_to ve id type : packet_only (send_to ve id type).
Proof.
  unfold send_to. destruct (dp_get_port_by_id _ _); [|apply preserves_ret].
  apply preserves_bind; [apply packet_only_on_packet | intros; apply preserves_get_some].
Qed.

Lemma packet_only_service : packet_only packet_service.
Proof. apply preserves_bind; [apply preserves_gets | intros; apply preserves_get_some]. Qed.

Lemma on_service_inv {A} i (f : M virtsvc_data A) x a x' : on_service i f x = Some (a, x') ->
  exists s s', vn_services x !! i = Some s /\ f s = Some (a, s') /\ vn_services x' = <[i := s']> (vn_services x).
Proof.
  unfold on_service. destruct (vn_services x !! i) as [s|]; [|done]. cbn. destruct (f s) as [[b s']|] eqn:Hf; [|done].
  intros [= <- <-]. eauto.
Qed.

Lemma service_of_only i : packet_only (service_of i).
Proof.
  intros x a x' (s & s' & Hs & Hg & Hx)%on_service_inv. injection Hg as <- <-. rewrite Hx. by apply list_insert_id.
Qed.

Lemma get_conn_inv idx s c s' : get_conn idx s = Some (c, s') -> s' = s /\ conn_at idx s = Some c.
Proof. unfold get_conn. intros H. m_inv H. done. Qed.

Lemma upd_conn_inv idx f s a s' : upd_conn idx f s = Some (a, s') -> exists c, conn_at idx s = Some c /\ s' = put_conn idx (f c) s.
Proof.
  unfold upd_conn. intros (c & s1 & Hc & H)%M_bind_inv. apply get_conn_inv in Hc as [-> Hc]. injection H as _ <-. eauto.
Qed.

(** Seeing a packet settles a pending connection. *)
Lemma touch_conn_inv ve i idx off proto x a x' services s : 0 < ce_cycles (vv_conn ve) ->
  tables_ok services -> vn_services x = <[i := s]> services -> (i < length services)%nat -> conn_table_ok (Some idx) s ->
  touch_conn ve i idx off proto x = Some (a, x') -> tables_ok (vn_services x').
Proof.
  intros Hcyc Hall Hx Hi Hok (b & x1 & H1 & H)%M_bind_inv.
  apply on_service_inv in H1 as (s0 & s1 & Hs0 & Hu & Hx1). rewrite Hx, list_lookup_insert_eq in Hs0 by done. injection Hs0 as <-.
  apply upd_conn_inv in Hu as (c & Hc & ->). rewrite Hx, list_insert_insert_eq in Hx1.
  set (c1 := set_last_pkt_timestamp _ c) in *. assert (last_pkt_timestamp c1 <> 0) by (cbn; lia).
  assert (conn_table_ok None (put_conn idx c1 s)) as Hok1 by (by eapply put_conn_ok).
  destruct (proto =? IPPROTO_TCP).
  2: { injection H as _ <-. rewrite Hx1. by apply Forall_insert. }
  apply M_bind_inv in H as (flags & x2 & Hr & H). apply packet_only_on_packet in Hr. rewrite Hx1 in Hr.
  apply on_service_inv in H as (s2 & s3 & Hs2 & Hu & ->). rewrite Hr, list_lookup_insert_eq in Hs2 by done. injection Hs2 as <-.
  apply upd_conn_inv in Hu as (c2 & Hc2 & ->). rewrite conn_at_put, decide_True in Hc2 by eauto. injection Hc2 as <-.
  rewrite Hr, list_insert_insert_eq. apply Forall_insert; [done|]. destruct (tcp_state_change_same c1 flags) as [Hk Ht].
  eapply put_conn_ok; [by apply conn_table_weaken | rewrite conn_at_put, decide_True by eauto; done | done | by rewrite Ht].
Qed.

(** The timer runs and the choice of an uplink always has a result. *)
Definition env_ok ve : Prop := 0 < ce_cycles (vv_conn ve) /\ forall h, exists pf, vv_uplink ve h = Some pf.

(** Programs of the node that keep the tables in order. *)
Definition keeps {A} (f : M virtsvc_node_state A) : Prop :=
  forall x a x', f x = Some (a, x') -> tables_ok (vn_services x) -> tables_ok (vn_services x').

Lemma keeps_only {A} (f : M virtsvc_node_state A) : packet_only f -> keeps f.
Proof. intros Hf x a x' H. by rewrite (Hf _ _ _ H). Qed.

Lemma keeps_bind {A B} (f : M virtsvc_node_state A) (g : A -> M virtsvc_node_state B) :
  keeps f -> (forall a, keeps (g a)) -> keeps (mbind g f).
Proof. intros Hf Hg x b x' (a & x1 & H1 & H2)%M_bind_inv Hx. eapply Hg; [exact H2|]. by eapply Hf. Qed.

Lemma keeps_if {A} (b : bool) (f g : M virtsvc_node_state A) : keeps f -> keeps g -> keeps (if b then f else g).
Proof. by destruct b. Qed.

Lemma packet_only_ret {A} (a : A) : packet_only (mret a).
Proof. apply preserves_ret. Qed.

Lemma packet_only_gets {A} (f : virtsvc_node_state -> A) : packet_only (gets f).
Proof. apply preserves_gets. Qed.

Lemma packet_only_id : packet_only next_packet_id.
Proof. by intros x a x' [= _ <-]. Qed.

Lemma get_conn_only i idx : packet_only (on_service i (get_conn idx)).
Proof.
  intros x c x' (s & s' & Hs & [-> _]%get_conn_inv & ->)%on_service_inv. by apply list_insert_id.
Qed.

Create HintDb keeps.
Hint Resolve packet_only_on_packet packet_only_send_to packet_only_service service_of_only packet_only_ret packet_only_gets
  packet_only_id get_conn_only : keeps.
Ltac keeps := repeat first
  [ apply keeps_only; solve [auto with keeps]
  | lazymatch goal with |- keeps (if _ then _ else _) => apply keeps_if
    | |- keeps (mbind _ (on_service _ (dp_virtsvc_get_pf_route _ _ _ _ _))) => fail
    | |- keeps (mbind _ _) => apply keeps_bind; [|intros] end ].

Lemma request_route_inv ve i vf ip l4 x a x' : env_ok ve -> tables_ok (vn_services x) ->
  on_service i (dp_virtsvc_get_pf_route (vv_conn ve) (vv_uplink ve) vf ip l4) x = Some (a, x') ->
  exists s', vn_services x' = <[i := s']> (vn_services x) /\ (i < length (vn_services x))%nat
    /\ match a with inl _ => conn_table_ok None s' | inr (idx, _) => conn_table_ok (Some idx) s' end.
Proof.
  intros [_ Hup] Hall (s & s' & Hs & Hr & ->)%on_service_inv. exists s'. split_and!; [done | by eapply lookup_lt_Some|].
  unfold tables_ok in Hall. rewrite Forall_lookup in Hall. specialize (Hall i s Hs) as Hok.
  destruct (get_pf_route_run (vv_conn ve) (vv_uplink ve) vf ip l4 s Hok Hup) as (r & s1 & Hr' & _ & Hcase).
  rewrite Hr in Hr'. injection Hr' as <- <-. destruct a as [|[idx pf]]; [done | by apply Hcase].
Qed.

Lemma request_keeps ve : env_ok ve -> keeps (virtsvc_request_next ve).
Proof.
  intros Hve. unfold virtsvc_request_next. keeps. intros x edge x' H Hall.
  apply M_bind_inv in H as (r & x1 & H1 & H). apply request_route_inv in H1 as (s' & Hx1 & Hlt & Hok); [|done..].
  destruct r as [ret|[idx pf]]; [injection H as _ <-; rewrite Hx1; by apply Forall_insert|].
  apply M_bind_inv in H as (u & x2 & H2 & H).
  assert (tables_ok (vn_services x2)) as Hall2 by (eapply touch_conn_inv; [apply Hve | exact Hall | done..]).
  match type of H with ?f x2 = _ => assert (keeps f) as Hf by keeps end. by eapply Hf.
Qed.

Lemma reply_keeps ve : env_ok ve -> keeps (virtsvc_reply_next ve).
Proof.
  intros Hve. unfold virtsvc_reply_next. keeps. intros x u x' H Hall.
  pose proof H as (b & x1 & (s & s1 & Hs & _)%on_service_inv & _)%M_bind_inv.
  eapply touch_conn_inv; [apply Hve | exact Hall | by rewrite list_insert_id | by eapply lookup_lt_Some | | exact H].
  apply conn_table_weaken. unfold tables_ok in Hall. rewrite Forall_lookup in Hall. by apply (Hall _ _ Hs).
Qed.

Lemma node_keeps ve : env_ok ve -> keeps (virtsvc_get_next_index ve).
Proof. intros Hve. unfold virtsvc_get_next_index. keeps; [by apply reply_keeps | by apply request_keeps]. Qed.

(** *** Interfaces that go away *)

Lemma evict_put i c s : conn_table_ok None s -> conn_at i s = Some c ->
  conn_table_ok None (set_open_ports (snd (rte_hash_del_key (open_ports s) (conn_key c))) (put_conn i (set_last_pkt_timestamp 0 c) s)).
Proof.
  intros Hok Hc. split; [exact (eq_trans (length_put_conn _ _ _) (ct_len _ _ Hok)) | apply Hok|]. intros key j Hj.
  change (filed (set_open_ports (snd (rte_hash_del_key (open_ports s) (conn_key c))) s) !! key = Some j) in Hj.
  rewrite forget_view in Hj. apply lookup_delete_Some in Hj as [Hne Hj].
  change (exists d, conn_at j (put_conn i (set_last_pkt_timestamp 0 c) s) = Some d /\ conn_key d = key /\ (last_pkt_timestamp d <> 0 \/ None = Some j)).
  destruct (ct_filed _ _ Hok _ _ Hj) as (d & Hd & Hk & Hl). rewrite conn_at_put by eauto. rewrite decide_False; [by exists d|].
  intros ->. congruence.
Qed.

(** One round of the loop. *)
Lemma del_iface_step port_id i s c : conn_table_ok None s -> conn_at i s = Some c ->
  exists s', (if (vf_port_id c =? port_id) && negb (last_pkt_timestamp c =? 0)
              then upd_conn i (set_last_pkt_timestamp 0) ;; forget (conn_key c) else mret tt) s = Some (tt, s')
    /\ conn_table_ok None s' /\ vs_service s' = vs_service s
    /\ (forall j, j <> i -> conn_at j s' = conn_at j s)
    /\ (forall d, conn_at i s' = Some d -> vf_port_id d = port_id -> last_pkt_timestamp d = 0).
Proof.
  intros Hok Hc. destruct (Z.eqb_spec (vf_port_id c) port_id) as [Hp|Hp]; cbn [andb].
  2: { exists s. split_and!; try done. intros d. rewrite Hc. by intros [= <-] ?. }
  destruct (Z.eqb_spec (last_pkt_timestamp c) 0) as [H0|H0]; cbn [negb].
  { exists s. split_and!; try done. intros d. rewrite Hc. by intros [= <-] _. }
  rewrite (M_bind_Some _ _ _ _ _ (upd_conn_run i _ s c Hc)). eexists. split; [reflexivity|]. split_and!.
  - exact (evict_put i c s Hok Hc).
  - done.
  - intros j Hj. change (conn_at j (put_conn i (set_last_pkt_timestamp 0 c) s) = conn_at j s). rewrite conn_at_put by eauto. by rewrite decide_False.
  - intros d Hd _. change (conn_at i (put_conn i (set_last_pkt_timestamp 0 c) s) = Some d) in Hd.
    rewrite conn_at_put, decide_True in Hd by eauto. by injection Hd as <-.
Qed.

Lemma del_iface_loop_ok fuel port_id i s : conn_table_ok None s -> 0 <= i -> i + Z.of_nat fuel <= DP_VIRTSVC_PORTCOUNT ->
  exists s', del_iface_loop fuel port_id i s = Some (tt, s') /\ conn_table_ok None s' /\ vs_service s' = vs_service s
    /\ (forall j, j < i -> conn_at j s' = conn_at j s)
    /\ forall j c, i <= j < i + Z.of_nat fuel -> conn_at j s' = Some c -> vf_port_id c = port_id -> last_pkt_timestamp c = 0.
Proof.
  revert i s; induction fuel as [|fuel IH]; intros i s Hok H0 Hn; cbn [del_iface_loop].
  { exists s. split_and!; [done..|]. lia. }
  destruct (conn_at_some s i (ct_len _ _ Hok)) as [c Hc]; [unfold in_table; lia|].
  rewrite (M_bind_Some _ _ _ _ _ (get_conn_run _ _ _ Hc)).
  destruct (del_iface_step port_id i s c Hok Hc) as (s1 & H1 & Hok1 & Hsv1 & Hj1 & Hi1). rewrite (M_bind_Some _ _ _ _ _ H1).
  destruct (IH (i + 1) s1 Hok1) as (s2 & H2 & Hok2 & Hsv2 & Hj2 & Hi2); [lia..|]. exists s2. split_and!; [done | done | congruence | |].
  - intros j Hj. rewrite Hj2, Hj1 by lia. done.
  - intros j d Hj. destruct (decide (j = i)) as [->|]; [rewrite Hj2 by lia; apply Hi1 | apply Hi2; lia].
Qed.

(** After that no client of the interface is filed. *)
Lemma del_iface_ok port_id services : tables_ok services ->
  exists services', dp_virtsvc_del_iface port_id services = Some services' /\ tables_ok services'
    /\ vs_service <$> services' = vs_service <$> services
    /\ Forall (fun s => forall key i, filed s !! key = Some i -> ck_port_id key <> port_id) services'.
Proof.
  induction 1 as [|s services Hok _ (services' & IH & IHok & IHsv & IHf)]; cbn [dp_virtsvc_del_iface].
  { exists []. split_and!; [done | by apply Forall_nil_2 | done | by apply Forall_nil_2]. }
  destruct (del_iface_loop_ok (Z.to_nat DP_VIRTSVC_PORTCOUNT) port_id 0 s Hok) as (s' & Hs' & Hok' & Hsv & _ & Hgone); [done..|].
  unfold del_iface. rewrite Hs'. cbn. rewrite IH. exists (s' :: services'). split_and!; [done | by apply Forall_cons | by cbn; rewrite Hsv, IHsv|].
  apply Forall_cons. split; [|done]. intros key i Hf <-. destruct (ct_filed _ _ Hok' _ _ Hf) as (c & Hc & <- & [Hl|?]); [|done].
  apply Hl, (Hgone i c); [|done|done]. pose proof (conn_at_range _ _ _ (ct_len _ _ Hok') Hc) as Hi. unfold in_table in Hi. lia.
Qed.

(** *** Messages of the other instance *)

Lemma get_connection_run key s : conn_table_ok None s ->
  dp_virstvc_get_connection key s = Some (match filed s !! key with Some i => i | None => - ENOENT end, s).
Proof.
  intros Hok. unfold dp_virstvc_get_connection. rewrite gets_then, hash_lookup_view. fold (filed s).
  destruct (filed s !! key) as [i|] eqn:Hk; [|done]. destruct (ct_filed _ _ Hok _ _ Hk) as (c & Hc & _).
  pose proof (conn_at_range _ _ _ (ct_len _ _ Hok) Hc) as Hi. unfold in_table in Hi.
  by rewrite (proj2 (Z.leb_le _ _)), (proj2 (Z.ltb_lt _ _)) by lia.
Qed.

(** The client's old connection, if there is one, is given up. *)
Lemma sync_forget_run key s : conn_table_ok None s ->
  exists s', (let ret := match filed s !! key with Some i => i | None => - ENOENT end in
              if negb (DP_FAILED ret) then upd_conn ret (set_last_pkt_timestamp 0) ;; forget key else mret tt) s = Some (tt, s')
    /\ conn_table_ok None s' /\ filed s' !! key = None /\ vs_service s' = vs_service s.
Proof.
  intros Hok. destruct (filed s !! key) as [i|] eqn:Hk.
  2: { exists s. by split_and!. }
  destruct (ct_filed _ _ Hok _ _ Hk) as (c & Hc & <- & _). pose proof (conn_at_range _ _ _ (ct_len _ _ Hok) Hc) as Hi.
  assert (DP_FAILED i = false) as Hf by (apply Z.ltb_ge, Hi). cbv zeta. rewrite Hf. cbn [negb].
  rewrite (M_bind_Some _ _ _ _ _ (upd_conn_run i _ s c Hc)). eexists. split; [reflexivity|]. split_and!; [exact (evict_put i c s Hok Hc) | | done].
  change (filed (set_open_ports (snd (rte_hash_del_key (open_ports s) (conn_key c))) s) !! conn_key c = None).
  rewrite forget_view. apply lookup_delete_eq.
Qed.

Lemma open_sync_ok e ip l4 vf conn_port s : conn_table_ok None s -> in_table conn_port -> 0 < ce_cycles e ->
  exists r s', open_sync_connection e ip l4 vf conn_port s = Some (r, s') /\ conn_table_ok None s' /\ vs_service s' = vs_service s
    /\ (DP_FAILED r = false -> filed s' !! mk_conn_key vf l4 ip = Some conn_port).
Proof.
  intros Hok Hi Hcyc. unfold open_sync_connection. set (key := mk_conn_key vf l4 ip).
  rewrite (M_bind_Some _ _ _ _ _ (get_connection_run key s Hok)).
  destruct (sync_forget_run key s Hok) as (s1 & H1 & Hok1 & Hn & Hsv1). rewrite (M_bind_Some _ _ _ _ _ H1).
  destruct (conn_at_some s1 conn_port (ct_len _ _ Hok1) Hi) as [c Hc].
  destruct (use_port_run key conn_port s1 c Hc) as (r & s2 & Hr & Hcase). rewrite (M_bind_Some _ _ _ _ _ Hr).
  destruct Hcase as [[-> Ha]|(-> & Hcn & Hl & Hsv & Hf)].
  - pose proof (adopted_ok _ _ _ _ _ Hok1 Hi Ha) as Hok2. destruct Ha as (Hc2 & Hf2 & _ & _ & _ & Hsv2).
    change (DP_FAILED DP_OK) with false. cbv iota. rewrite (M_bind_Some _ _ _ _ _ (upd_conn_run conn_port _ s2 _ Hc2)).
    eexists _, _. split; [reflexivity|]. split_and!; [| by rewrite <-Hsv1, <-Hsv2 |].
    + assert (conn_table_ok None (put_conn conn_port (set_last_pkt_timestamp (ce_cycles e) (with_client key c)) s2)) as H.
      { eapply put_conn_ok; [exact Hok2 | exact Hc2 | done | cbn; lia]. }
      split; [apply H | done | apply H].
    + intros _. change (filed s2 !! key = Some conn_port). by rewrite Hf2, lookup_insert_eq.
  - eexists _, _. split; [reflexivity|]. split_and!; [|congruence | done].
    pose proof (evict_ok _ conn_port Hok1) as Hev. split; [rewrite Hcn; apply Hok1 | rewrite Hl; apply Hok1|].
    rewrite Hf. intros k j Hj. destruct (ct_filed _ _ Hev k j Hj) as (d & Hd & ?). exists d. split; [|done].
    rewrite evict_conn_at in Hd. unfold conn_at in *. by rewrite Hcn.
Qed.

(** *** Reachable states *)

(** As [dp_virtsvc_init] leaves a service. *)
Definition fresh_service s : Prop :=
  filed s = ∅ /\ last_assigned_port s = 0 /\ length (connections s) = Z.to_nat DP_VIRTSVC_PORTCOUNT.

(** What happens to the services: packets of any contents, deletions of
    interfaces, messages of the other instance. *)
Inductive virtsvc_reach : list virtsvc_data -> Prop :=
| vr_init services : Forall fresh_service services -> virtsvc_reach services
| vr_packet ve m id services edge x' : virtsvc_reach services -> env_ok ve ->
    virtsvc_get_next_index ve (mk_vns m services id) = Some (edge, x') -> virtsvc_reach (vn_services x')
| vr_del_iface port_id services services' : virtsvc_reach services ->
    dp_virtsvc_del_iface port_id services = Some services' -> virtsvc_reach services'
| vr_sync e ip l4 vf conn_port i s r s' services : virtsvc_reach services -> 0 < ce_cycles e -> in_table conn_port ->
    services !! i = Some s -> open_sync_connection e ip l4 vf conn_port s = Some (r, s') -> virtsvc_reach (<[i := s']> services).

Lemma fresh_ok s : fresh_service s -> conn_table_ok None s.
Proof. intros (Hf & Hl & Hn). split; [done | by rewrite Hl | intros key i; by rewrite Hf]. Qed.

(** C37: Whatever packets arrive, interfaces go away and messages the other
    instance sends, a port of a virtual service stands for at most one client: the
    tables of every reachable state file each client under a connection inside of
    the table that is in use and holds the interface, address and port of that
    very client, so two clients never share one. *)
Theorem virtsvc_ports_unambiguous services i s key1 key2 idx :
  virtsvc_reach services -> services !! i = Some s -> filed s !! key1 = Some idx ->
  in_table idx /\ (exists c, conn_at idx s = Some c /\ conn_key c = key1 /\ last_pkt_timestamp c <> 0)
  /\ (filed s !! key2 = Some idx -> key2 = key1).
Proof.
  intros Hr Hs Hk. assert (tables_ok services) as Hall.
  { clear Hs. induction Hr as [services Hf|ve m id services edge x' _ IH Hve Hrun|port_id services services' _ IH Hrun
      |e ip l4 vf conn_port j s1 r s' services _ IH Hcyc Hc Hj Hrun].
    - eapply Forall_impl; [exact Hf|]. intros. by apply fresh_ok.
    - eapply (node_keeps ve Hve); [exact Hrun | exact IH].
    - destruct (del_iface_ok port_id services IH) as (sv & H & ? & _). congruence.
    - apply Forall_insert; [done|]. unfold tables_ok in IH. rewrite Forall_lookup in IH.
      destruct (open_sync_ok e ip l4 vf conn_port s1 (IH _ _ Hj) Hc Hcyc) as (r' & s2 & H & ? & _). congruence. }
  unfold tables_ok in Hall. rewrite Forall_lookup in Hall. specialize (Hall i s Hs).
  destruct (ct_filed _ _ Hall _ _ Hk) as (c & Hc & Hck & [Hl|?]); [|done].
  split_and!; [by eapply conn_at_range; [apply Hall|] | eauto|].
  intros Hk2. destruct (ct_filed _ _ Hall _ _ Hk2) as (c2 & Hc2 & <- & _). congruence.
Qed.
End reach.

(** ** Examples *)

Module VirtsvcConnExample.
Export TunnelTheorems.TunnelExample.
#[export] Instance virtsvc_errno : RteErrno := dpdk_errno.
#[export] Instance conn_hash : RteHash dp_virtsvc_conn_key Z := slot_hash (fun _ => 5).

Definition service : dp_virtsvc := mk_virtsvc 0 (htonl 0x0a0a0a0a) (mk_ipv6 7 8) (htons 53) (htons 5353) IPPROTO_UDP (mk_ipv6 9 1).
Definition no_conn : dp_virtsvc_conn := mk_conn 0 0 0 0 DP_VIRTSVC_CONN_TRANSIENT.
Definition started : virtsvc_data := mk_virtsvc_data service 0 (slot_empty _ 4) (replicate (Z.to_nat DP_VIRTSVC_PORTCOUNT) no_conn).
Definition venv : virtsvc_env := mk_virtsvc_env (mk_conn_env 5000 100 1000) (host_ports false) {[0 := 1; 3 := 2]} (fun _ => Some (host_port true false 0)).

Lemma started_fresh : fresh_service started.
Proof. split_and!; [done | done | by apply length_replicate]. Qed.
Lemma started_ok : conn_table_ok None started.
Proof. apply fresh_ok, started_fresh. Qed.
Lemma started_exact : conn_exact started.
Proof.
  intros i c. unfold conn_at. destruct (0 <=? i); [|done]. cbn [connections started].
  intros [-> _]%lookup_replicate H. by destruct H.
Qed.
Lemma venv_uplinks h : exists pf, vv_uplink venv h = Some pf /\ reachable_port venv pf.
Proof. exists (host_port true false 0). by split_and!. Qed.
Lemma venv_ok : env_ok venv.
Proof. split; [done|]. intros h. destruct (venv_uplinks h) as (pf & ? & _). eauto. Qed.

(** The guest at port 3 asks; the service answers to the port it saw. *)
Definition question : rte_mbuf := set_flow (set_df_virtsvc (Some 0%nat) (flow guest_packet)) guest_packet.
Definition asked : option (Z * virtsvc_node_state) := virtsvc_request_next venv (mk_vns question [started] 0).
Definition sent : virtsvc_node_state := default (mk_vns question [started] 0) (snd <$> asked).
Definition after : virtsvc_data := default started (vn_services sent !! 0%nat).
Definition answer : rte_mbuf :=
  mk_mbuf (mk_buf (replicate 64 0)
    (replicate 14 0 ++ [0x60; 0; 0; 0; 0; 8; 17; 64] ++ ipv6_bytes (mk_ipv6 7 8) ++ ipv6_bytes (mk_ipv6 9 1)
     ++ le_split 2 (htons 5353) ++ le_split 2 (field (vn_mbuf sent) 54 2) ++ [0; 8; 0; 0]) (replicate 8 0))
    0 0 0 0 0 0 0 0 (flow question) (mk_mark 1 false false).

Lemma question_ready : request_ready 0 question.
Proof. split; vm_compute; (reflexivity || lia || discriminate). Qed.

Lemma asked_eq : asked = virtsvc_request_next venv (mk_vns question [started] 0).
Proof. unfold asked. reflexivity. Qed.

Lemma asked_run : virtsvc_request_next venv (mk_vns question [started] 0) = Some (1, mk_vns (vn_mbuf sent) [after] 0) /\ conn_table_ok None after.
Proof.
  rewrite <-asked_eq.
  destruct (request_run venv 0 question [started] 0 started question_ready eq_refl started_ok eq_refl venv_uplinks)
    as (edge & m' & s' & Hrun & Hok & _).
  assert (asked = Some (edge, mk_vns m' [s'] 0)) as Ha by (unfold asked; rewrite Hrun; reflexivity). clear Hrun.
  assert (option_map fst asked = Some 1) as He by (vm_compute; reflexivity).
  unfold after, sent. rewrite Ha in He |- *. injection He as ->. by split.
Qed.

Definition index : Z := virtsvc_get_conn_on_port (field (vn_mbuf sent) 54 2).
Lemma index_eq : index = virtsvc_get_conn_on_port (field (vn_mbuf sent) 54 2).
Proof. unfold index. reflexivity. Qed.
Lemma after_filed : filed after !! client_of question = Some index.
Proof. vm_compute. reflexivity. Qed.
Lemma answer_ready : reply_ready 0 index answer.
Proof. split; vm_compute; (reflexivity || lia || discriminate). Qed.
Lemma after_service : vs_service after = vs_service started.
Proof. vm_compute. reflexivity. Qed.
Lemma question_bytes : bytes_ok question.
Proof. unfold bytes_ok. apply forallb_Forall_is_u8. vm_compute. reflexivity. Qed.


Lemma asked_reach : virtsvc_reach [after].
Proof.
  refine (vr_packet venv question 0 [started] 1 (mk_vns (vn_mbuf sent) [after] 0) (vr_init _ _) venv_ok _).
  - apply Forall_singleton, started_fresh.
  - unfold virtsvc_get_next_index.
    rewrite (on_packet_then (get_in_port (vv_ports venv)) _ question [started] 0 (host_port false false 3) question eq_refl).
    apply asked_run.
Qed.

Lemma virtsvc_ports_unambiguous_witness : in_table index /\ forall key, filed after !! key = Some index -> key = client_of question.
Proof.
  split.
  - exact (proj1 (virtsvc_ports_unambiguous [after] 0 after (client_of question) (client_of question) index asked_reach eq_refl after_filed)).
  - intros key. exact (proj2 (proj2 (virtsvc_ports_unambiguous [after] 0 after (client_of question) key index asked_reach eq_refl after_filed))).
Defined.

(** The port of a reply is not checked: one below 1024 indexes the connections
    past their end. *)
Definition to_system_port : rte_mbuf := put 56 2 (htons 80) answer.
Example virtsvc_reply_out_of_bounds : virtsvc_reply_next venv (mk_vns to_system_port [after] 0) = None.
Proof. vm_compute. reflexivity. Qed.

(** Neither is the index in a message of the other instance. *)
Example virtsvc_sync_out_of_bounds :
  is_u16 DP_VIRTSVC_PORTCOUNT /\ open_sync_connection (mk_conn_env 5000 100 1000) 1 2 3 DP_VIRTSVC_PORTCOUNT started = None.
Proof. split; [done|]. vm_compute. reflexivity. Qed.

(** A message about a service that is not configured here reads through a null
    pointer to report it. *)
Example virtsvc_sync_unknown_service services :
  dp_virtsvc_open_sync_connection (mk_conn_env 5000 100 1000) (VEntry VNull service VNull) (htonl 0x0a0a0a0b) (htons 53) IPPROTO_UDP 3 4 5 6 services = None.
Proof. reflexivity. Qed.
End VirtsvcConnExample.
