(* ===== verification/Rib.v ===== *)
(** Routing tables: DPDK's [rte_rib] and [rte_rib6] as a class over the
    family of the addresses, with an instance over finite maps. *)

From S2P Require Import Prelude IpAddr.

(** [struct dp_iface_route] of [include/dp_lpm.h], the extension of a node. *)
Record dp_iface_route := mk_route { route_vni : Z; route_nh_ipv6 : dp_ipv6 }.
Record rib_node := mk_rib_node { rib_nh : Z; rib_ext : dp_iface_route }.

(** ** Addresses and prefixes *)

Class RibAddr (A : Type) := {
  rib_eq :: EqDecision A;
  rib_countable :: Countable A;
  (** The longest prefix. *)
  rib_maxdepth : Z;
  (** The first bits of an address. *)
  rib_mask : Z -> A -> A
}.

(** An IPv4 address as a number in host order. *)
#[export] Instance rib_ipv4 : RibAddr Z := {
  rib_maxdepth := 32;
  rib_mask depth ip := u32 ip - u32 ip mod 2 ^ (32 - depth)
}.

(** Bit [i] of the address is bit [7 - i mod 8] of byte [i / 8]. *)
Definition mask_byte (depth : Z) (i : nat) (b : Z) : Z :=
  let bits := Z.max 0 (Z.min 8 (depth - 8 * Z.of_nat i)) in b - b mod 2 ^ (8 - bits).
#[export] Instance rib_ipv6 : RibAddr dp_ipv6 := {
  rib_maxdepth := 128;
  rib_mask depth a := ipv6_of_bytes (imap (mask_byte depth) (ipv6_bytes a))
}.

(** ** The library *)

(** A table is seen as a map from prefixes to nodes.  A fresh node has whatever
    contents the memory had. *)
Class RteRib (A : Type) {RA : RibAddr A} := {
  rte_rib : Type;
  rib_view : rte_rib -> gmap (A * Z) rib_node;
  rte_rib_new : rte_rib;
  (** The new node and the table with it. *)
  rte_rib_insert : rte_rib -> A -> Z -> option (rib_node * rte_rib);
  rte_rib_remove : rte_rib -> A -> Z -> rte_rib;
  rte_rib_lookup_exact : rte_rib -> A -> Z -> option rib_node;
  rte_rib_lookup : rte_rib -> A -> option (A * Z * rib_node);
  (** A write to the node of a prefix. *)
  rib_set : rte_rib -> A -> Z -> rib_node -> rte_rib;
  (** The nodes that [rte_rib_get_nxt] walks over, from the root on: all but the
      one of the empty prefix. *)
  rib_walk : rte_rib -> list (A * Z * rib_node);
  rib_new_law : rib_view rte_rib_new = ∅;
  rib_insert_law r a d nd r' : rte_rib_insert r a d = Some (nd, r') ->
    0 <= d <= rib_maxdepth /\ rib_view r !! (rib_mask d a, d) = None /\ rib_view r' = <[(rib_mask d a, d) := nd]> (rib_view r);
  rib_remove_law r a d : rib_view (rte_rib_remove r a d) = delete (rib_mask d a, d) (rib_view r);
  rib_exact_law r a d : rte_rib_lookup_exact r a d = rib_view r !! (rib_mask d a, d);
  rib_set_law r a d nd : is_Some (rib_view r !! (rib_mask d a, d)) ->
    rib_view (rib_set r a d nd) = <[(rib_mask d a, d) := nd]> (rib_view r);
  rib_lookup_law r a :
    match rte_rib_lookup r a with
    | Some (p, d, nd) => rib_view r !! (p, d) = Some nd /\ rib_mask d a = p
                         /\ forall d', is_Some (rib_view r !! (rib_mask d' a, d')) -> d' <= d
    | None => forall d, rib_view r !! (rib_mask d a, d) = None
    end;
  rib_walk_law r :
    NoDup (rib_walk r).*1 /\ forall p d nd, (p, d, nd) ∈ rib_walk r <-> rib_view r !! (p, d) = Some nd /\ d <> 0
}.
#[global] Arguments rte_rib A {_ _}.

(** ** An implementation *)

Section map_rib.
Context (A : Type) {RA : RibAddr A} (max_nodes : nat).
Abbreviation rib_map := (gmap (A * Z) rib_node).
Implicit Types (r : rib_map).

Definition map_rib_insert r (a : A) (d : Z) : option (rib_node * rib_map) :=
  let nd := mk_rib_node 0 (mk_route 0 dp_empty_ipv6) in
  if decide (0 <= d <= rib_maxdepth /\ (size r < max_nodes)%nat /\ r !! (rib_mask d a, d) = None)
  then Some (nd, <[(rib_mask d a, d) := nd]> r) else None.

(** The entries that cover an address, and the one with the longest prefix. *)
Definition covering r (a : A) : list (A * Z * rib_node) :=
  List.filter (fun e => bool_decide (rib_mask e.1.2 a = e.1.1)) (map_to_list r).
Definition longer (best : option (A * Z * rib_node)) (e : A * Z * rib_node) : option (A * Z * rib_node) :=
  match best with
  | Some b => if b.1.2 <? e.1.2 then Some e else best
  | None => Some e
  end.
Definition map_rib_lookup r (a : A) : option (A * Z * rib_node) := foldl longer None (covering r a).

Lemma longest_spec l best :
  match foldl longer best l with
  | Some e => (e ∈ l \/ best = Some e) /\ (forall e', e' ∈ l -> e'.1.2 <= e.1.2) /\ (forall b, best = Some b -> b.1.2 <= e.1.2)
  | None => l = [] /\ best = None
  end.
Proof.
  revert best; induction l as [|e l IH]; intros best; cbn.
  { destruct best as [b|]; [|done]. split_and!; [by right | by intros e' ?%not_elem_of_nil | by intros ? [= ->]]. }
  specialize (IH (longer best e)). destruct (foldl longer (longer best e) l) as [x|].
  - destruct IH as (Hin & Hmax & Hbest). unfold longer in *. setoid_rewrite elem_of_cons.
    destruct best as [b|].
    + destruct (Z.ltb_spec b.1.2 e.1.2) as [Hlt|Hge]; specialize (Hbest _ eq_refl).
      * split_and!; [destruct Hin as [?|[= ->]]; eauto | intros e' [->|?]; eauto | intros ? [= ->]; lia].
      * split_and!; [destruct Hin as [?|[= ->]]; eauto | intros e' [->|?]; [lia|eauto] | by intros ? [= ->]].
    + specialize (Hbest _ eq_refl). split_and!; [destruct Hin as [?|[= ->]]; eauto | intros e' [->|?]; eauto | done].
  - destruct IH as [_ IH]. unfold longer in IH. destruct best as [b|]; [by destruct (_ <? _) | done].
Qed.

Lemma covering_spec r a p d nd : (p, d, nd) ∈ covering r a <-> r !! (p, d) = Some nd /\ rib_mask d a = p.
Proof.
  unfold covering. rewrite list_elem_of_In, filter_In, <-list_elem_of_In, elem_of_map_to_list. cbn. by rewrite bool_decide_eq_true.
Qed.

Lemma map_rib_lookup_law r a :
  match map_rib_lookup r a with
  | Some (p, d, nd) => r !! (p, d) = Some nd /\ rib_mask d a = p /\ forall d', is_Some (r !! (rib_mask d' a, d')) -> d' <= d
  | None => forall d, r !! (rib_mask d a, d) = None
  end.
Proof.
  unfold map_rib_lookup. pose proof (longest_spec (covering r a) None) as H.
  destruct (foldl longer None (covering r a)) as [[[p d] nd]|].
  - destruct H as ([Hin|?] & Hmax & _); [|done]. apply covering_spec in Hin as [Hr Hp]. split_and!; [done..|].
    intros d' [nd' Hd']. apply (Hmax (rib_mask d' a, d', nd')). by apply covering_spec.
  - destruct H as [Hn _]. intros d. destruct (r !! (rib_mask d a, d)) as [nd|] eqn:E; [|done].
    assert ((rib_mask d a, d, nd) ∈ covering r a) as Hin by (by apply covering_spec). rewrite Hn in Hin. by apply not_elem_of_nil in Hin.
Qed.

Definition map_rib_walk r : list (A * Z * rib_node) := List.filter (fun e => negb (e.1.2 =? 0)) (map_to_list r).

Lemma map_rib_walk_law r :
  NoDup (map_rib_walk r).*1 /\ forall p d nd, (p, d, nd) ∈ map_rib_walk r <-> r !! (p, d) = Some nd /\ d <> 0.
Proof.
  unfold map_rib_walk. split.
  - pose proof (NoDup_fst_map_to_list r) as H. induction (map_to_list r) as [|e l IH]; cbn; [constructor|].
    apply NoDup_cons in H as [Hn H]. destruct (negb _); cbn; [|auto]. apply NoDup_cons. split; [|auto].
    intros Hin. apply Hn. apply list_elem_of_fmap in Hin as (x & -> & Hx). apply list_elem_of_fmap. exists x. split; [done|].
    apply list_elem_of_In, filter_In in Hx as [Hx _]. by apply list_elem_of_In.
  - intros p d nd. rewrite list_elem_of_In, filter_In, <-list_elem_of_In, elem_of_map_to_list. cbn. by rewrite negb_true_iff, Z.eqb_neq.
Qed.

Lemma map_rib_insert_law r a d nd r' : map_rib_insert r a d = Some (nd, r') ->
  0 <= d <= rib_maxdepth /\ r !! (rib_mask d a, d) = None /\ r' = <[(rib_mask d a, d) := nd]> r.
Proof. unfold map_rib_insert. case_decide as H; [|done]. intros [= <- <-]. destruct H as (? & _ & ?). split_and!; eauto; lia. Qed.

Definition map_rib : RteRib A := {|
  rte_rib := rib_map;
  rib_view r := r;
  rte_rib_new := ∅;
  rte_rib_insert := map_rib_insert;
  rte_rib_remove r a d := delete (rib_mask d a, d) r;
  rte_rib_lookup_exact r a d := r !! (rib_mask d a, d);
  rte_rib_lookup := map_rib_lookup;
  rib_set r a d nd := <[(rib_mask d a, d) := nd]> r;
  rib_walk := map_rib_walk;
  rib_new_law := eq_refl;
  rib_insert_law := map_rib_insert_law;
  rib_remove_law _ _ _ := eq_refl;
  rib_exact_law _ _ _ := eq_refl;
  rib_set_law _ _ _ _ _ := eq_refl;
  rib_lookup_law := map_rib_lookup_law;
  rib_walk_law := map_rib_walk_law
|}.
End map_rib.
