(* ===== verification/Control.v ===== *)
(** The state of the control plane: ports, the table of interface names, the
    VNIs with their routing tables ([src/dp_vni.c], [include/dp_vni.h]), and the
    tables of the other components. *)

From S2P Require Import Prelude Errors RteHash IpAddr Port Packet Ipsec Vnf FlowKey Nat Flow Maglev Lb VirtsvcConn Rib.

Definition DP_NB_SOCKETS : nat := 2.

(** The index is unsigned in the comparison. *)
Definition DP_SOCKETID (socket : Z) : nat := if u32 socket >=? Z.of_nat DP_NB_SOCKETS then 0%nat else Z.to_nat socket.

Section control.
Context `{ERR : RteErrno} {HT : RteHash dp_ipv6 dp_vnf} {VT : RteHash dp_vnf dp_ipv6}
  {ST : RteHash nat_key snat_data} {DT : RteHash nat_key dnat_data}
  {PM : RteHash netnat_portmap_key netnat_portmap_data}
  {PO : RteHash netnat_portoverload_tbl_key (option netnat_portoverload_sync_metadata)}
  {FT : RteHash flow_key ptr} {LT : RteHash lb_key ptr} {IT : RteHash (list Z) lb_key} {OP : RteHash dp_virtsvc_conn_key Z}
  {R4 : RteRib Z} {R6 : RteRib dp_ipv6}.

(** [struct dp_vni_data]: [None] is a null pointer. *)
Record dp_vni_data := mk_vni_data {
  vd_ipv4 : list (option (rte_rib Z));
  vd_ipv6 : list (option (rte_rib dp_ipv6));
  vd_ref : Z;
  vd_socket : Z;
  vd_vni : Z
}.
Definition set_vd_ipv4 (x : list (option (rte_rib Z))) (r : dp_vni_data) : dp_vni_data :=
  mk_vni_data x (vd_ipv6 r) (vd_ref r) (vd_socket r) (vd_vni r).
Definition set_vd_ipv6 (x : list (option (rte_rib dp_ipv6))) (r : dp_vni_data) : dp_vni_data :=
  mk_vni_data (vd_ipv4 r) x (vd_ref r) (vd_socket r) (vd_vni r).
Definition set_vd_ref (x : Z) (r : dp_vni_data) : dp_vni_data :=
  mk_vni_data (vd_ipv4 r) (vd_ipv6 r) x (vd_socket r) (vd_vni r).
Definition set_vd_owner (socket vni : Z) (r : dp_vni_data) : dp_vni_data :=
  mk_vni_data (vd_ipv4 r) (vd_ipv6 r) (vd_ref r) socket vni.
Definition zero_vni_data : dp_vni_data :=
  mk_vni_data (replicate DP_NB_SOCKETS None) (replicate DP_NB_SOCKETS None) 0 0 0.

Context {NT : RteHash Z dp_vni_data} {IF : RteHash (list Z) Z}.

(** [struct rte_meter_srtcm_params], as the profile of a port was made from it. *)
Record meter_params := mk_meter { meter_cir : Z; meter_cbs : Z; meter_ebs : Z }.

(** [src/monitoring/dp_monitoring.c]: whether packets are captured, and where
    they are sent. *)
Record capture_state := mk_capture { capture_enabled : bool; capture_dst : dp_ipv6; capture_src_port : Z; capture_dst_port : Z }.

(** Interfaces are found by name through [c_iface_ids], which leads to the
    number of the port.  [c_order] is the array of ports, [c_pfs] the table of the
    physical ones.  A port whose meter profile is zero is not in [c_meters].
    [c_ul_counter] is the static counter of [dp_generate_ul_ipv6]. *)
Record ctl_state := mk_ctl {
  c_ports : port_table;
  c_order : list Z;
  c_pfs : list Z;
  c_iface_ids : rte_hash (list Z) Z;
  c_vnis : rte_hash Z dp_vni_data;
  c_vnf : vnf_state;
  c_flow : flow_state;
  c_lb : lb_state;
  c_virtsvc : list virtsvc_data;
  c_meters : gmap Z meter_params;
  c_capture : capture_state;
  c_ul_counter : Z
}.

Definition set_c_ports (x : port_table) (r : ctl_state) : ctl_state :=
  mk_ctl x (c_order r) (c_pfs r) (c_iface_ids r) (c_vnis r) (c_vnf r) (c_flow r) (c_lb r)
    (c_virtsvc r) (c_meters r) (c_capture r) (c_ul_counter r).
Definition set_c_iface_ids (x : rte_hash (list Z) Z) (r : ctl_state) : ctl_state :=
  mk_ctl (c_ports r) (c_order r) (c_pfs r) x (c_vnis r) (c_vnf r) (c_flow r) (c_lb r)
    (c_virtsvc r) (c_meters r) (c_capture r) (c_ul_counter r).
Definition set_c_vnis (x : rte_hash Z dp_vni_data) (r : ctl_state) : ctl_state :=
  mk_ctl (c_ports r) (c_order r) (c_pfs r) (c_iface_ids r) x (c_vnf r) (c_flow r) (c_lb r)
    (c_virtsvc r) (c_meters r) (c_capture r) (c_ul_counter r).
Definition set_c_vnf (x : vnf_state) (r : ctl_state) : ctl_state :=
  mk_ctl (c_ports r) (c_order r) (c_pfs r) (c_iface_ids r) (c_vnis r) x (c_flow r) (c_lb r)
    (c_virtsvc r) (c_meters r) (c_capture r) (c_ul_counter r).
Definition set_c_flow (x : flow_state) (r : ctl_state) : ctl_state :=
  mk_ctl (c_ports r) (c_order r) (c_pfs r) (c_iface_ids r) (c_vnis r) (c_vnf r) x (c_lb r)
    (c_virtsvc r) (c_meters r) (c_capture r) (c_ul_counter r).
Definition set_c_lb (x : lb_state) (r : ctl_state) : ctl_state :=
  mk_ctl (c_ports r) (c_order r) (c_pfs r) (c_iface_ids r) (c_vnis r) (c_vnf r) (c_flow r) x
    (c_virtsvc r) (c_meters r) (c_capture r) (c_ul_counter r).
Definition set_c_virtsvc (x : list virtsvc_data) (r : ctl_state) : ctl_state :=
  mk_ctl (c_ports r) (c_order r) (c_pfs r) (c_iface_ids r) (c_vnis r) (c_vnf r) (c_flow r)
    (c_lb r) x (c_meters r) (c_capture r) (c_ul_counter r).
Definition set_c_meters (x : gmap Z meter_params) (r : ctl_state) : ctl_state :=
  mk_ctl (c_ports r) (c_order r) (c_pfs r) (c_iface_ids r) (c_vnis r) (c_vnf r) (c_flow r)
    (c_lb r) (c_virtsvc r) x (c_capture r) (c_ul_counter r).
Definition set_c_capture (x : capture_state) (r : ctl_state) : ctl_state :=
  mk_ctl (c_ports r) (c_order r) (c_pfs r) (c_iface_ids r) (c_vnis r) (c_vnf r) (c_flow r)
    (c_lb r) (c_virtsvc r) (c_meters r) x (c_ul_counter r).
Definition set_c_ul_counter (x : Z) (r : ctl_state) : ctl_state :=
  mk_ctl (c_ports r) (c_order r) (c_pfs r) (c_iface_ids r) (c_vnis r) (c_vnf r) (c_flow r)
    (c_lb r) (c_virtsvc r) (c_meters r) (c_capture r) x.
Implicit Types (st : ctl_state) (v : dp_vni_data) (vni socket : Z).

Abbreviation CM := (M ctl_state).

Definition set_c_nat (x : nat_state) st : ctl_state := set_c_flow (set_nat_tables x (c_flow st)) st.
Definition c_nat st : nat_state := nat_tables (c_flow st).

(** Steps of the other components. *)
Definition on_vnf {A} (f : vnf_state -> A * vnf_state) : CM A :=
  fun st => let '(a, x) := f (c_vnf st) in Some (a, set_c_vnf x st).
Definition on_nat_tables {A} (f : nat_state -> A * nat_state) : CM A :=
  fun st => let '(a, x) := f (c_nat st) in Some (a, set_c_nat x st).
Definition on_flows {A} (f : M flow_state A) : CM A :=
  fun st => match f (c_flow st) with Some (a, x) => Some (a, set_c_flow x st) | None => None end.
Definition on_lbs {A} (f : M lb_state A) : CM A :=
  fun st => match f (c_lb st) with Some (a, x) => Some (a, set_c_lb x st) | None => None end.

(** A port is followed through a pointer: [id] is its number. *)
Definition get_port (id : Z) : CM dp_port := ports ← gets c_ports; get_some (ports !! id).
Definition upd_port (id : Z) (f : dp_port -> dp_port) : CM unit :=
  port ← get_port id; modify (fun st => set_c_ports (<[id := f port]> (c_ports st)) st).

(** ** VNIs *)

(** Whether the library finds memory: for the data of a VNI and its two
    routing tables. *)
Record vni_env := mk_vni_env { ve_zmalloc : bool; ve_rib4 : Z -> bool; ve_rib6 : Z -> bool }.
Implicit Types (ve : vni_env).

Definition rib4_of v : option (rte_rib Z) := default None (vd_ipv4 v !! DP_SOCKETID (vd_socket v)).
Definition rib6_of v : option (rte_rib dp_ipv6) := default None (vd_ipv6 v !! DP_SOCKETID (vd_socket v)).

Definition get_vni_data vni st : option dp_vni_data :=
  match rte_hash_lookup_data (c_vnis st) vni with inl _ => None | inr v => Some v end.
Definition put_vni_data vni v st : ctl_state := set_c_vnis (hash_poke (c_vnis st) vni v) st.

Definition dp_get_vni_route4_table vni st : option (rte_rib Z) := v ← get_vni_data vni st; rib4_of v.
Definition dp_get_vni_route6_table vni st : option (rte_rib dp_ipv6) := v ← get_vni_data vni st; rib6_of v.

Definition dp_is_vni_route_table_available vni (type : Z) st : bool :=
  match get_vni_data vni st with
  | None => false
  | Some v => (type =? IPPROTO_IPIP) && bool_decide (is_Some (rib4_of v)) || (type =? IPPROTO_IPV6) && bool_decide (is_Some (rib6_of v))
  end.

Definition dp_free_rib v : dp_vni_data := set_vd_ipv4 (<[DP_SOCKETID (vd_socket v) := None]> (vd_ipv4 v)) v.
Definition dp_free_rib6 v : dp_vni_data := set_vd_ipv6 (<[DP_SOCKETID (vd_socket v) := None]> (vd_ipv6 v)) v.

Definition dp_create_rib ve vni socket v : Z * dp_vni_data :=
  if negb (ve_rib4 ve vni) then (DP_ERROR, v)
  else (DP_OK, set_vd_ipv4 (<[DP_SOCKETID socket := Some rte_rib_new]> (vd_ipv4 v)) (set_vd_owner socket vni v)).
Definition dp_create_rib6 ve vni socket v : Z * dp_vni_data :=
  if negb (ve_rib6 ve vni) then (DP_ERROR, v)
  else (DP_OK, set_vd_ipv6 (<[DP_SOCKETID socket := Some rte_rib_new]> (vd_ipv6 v)) (set_vd_owner socket vni v)).

(** The data itself is freed; the entry of the table is removed by the caller. *)
Definition dp_free_vni_data v st : ctl_state := set_c_nat (dp_del_all_neigh_nat_entries_in_vni (vd_vni v) (c_nat st)) st.

Definition dp_allocate_vni_route_tables ve vni socket : CM Z := fun st =>
  if negb (ve_zmalloc ve) then Some (DP_ERROR, st)
  else
    let '(ret, v) := dp_create_rib ve vni socket zero_vni_data in
    if DP_FAILED ret then Some (DP_ERROR, st)
    else
      let '(ret, v) := dp_create_rib6 ve vni socket v in
      if DP_FAILED ret then Some (DP_ERROR, st)
      else
        let '(ret, t) := rte_hash_add_key_data (c_vnis st) vni (set_vd_ref 1 v) in
        if DP_FAILED ret then Some (DP_ERROR, set_c_vnis t st) else Some (DP_OK, set_c_vnis t st).

Definition dp_create_vni_route_tables ve vni socket : CM Z := fun st =>
  match rte_hash_lookup_data (c_vnis st) vni with
  | inl ret => if negb (ret =? - ENOENT) then Some (DP_ERROR, st) else dp_allocate_vni_route_tables ve vni socket st
  | inr v => if vd_ref v =? 0 then None else Some (DP_OK, put_vni_data vni (set_vd_ref (vd_ref v + 1) v) st)
  end.

Definition dp_delete_vni_route_tables vni : CM Z := fun st =>
  match rte_hash_lookup_data (c_vnis st) vni with
  | inl ret => Some (ret, st)
  | inr v =>
      let st := put_vni_data vni (set_vd_ref (vd_ref v - 1) v) st in
      if vd_ref v - 1 =? 0 then
        let st := dp_free_vni_data v st in
        let '(ret, t) := rte_hash_del_key (c_vnis st) vni in
        let st := set_c_vnis t st in
        if DP_FAILED ret then Some (DP_ERROR, st) else Some (DP_OK, st)
      else Some (DP_OK, st)
  end.

Definition dp_reset_vni_data ve vni v : Z * dp_vni_data :=
  let socket := Z.of_nat (DP_SOCKETID (vd_socket v)) in
  let '(ret, v) :=
    match rib4_of v with
    | Some _ => dp_create_rib ve vni socket (dp_free_rib v)
    | None => (DP_OK, v)
    end in
  if DP_FAILED ret then (DP_ERROR, v)
  else
    let '(ret, v) :=
      match default None (vd_ipv6 v !! Z.to_nat socket) with
      | Some _ => dp_create_rib6 ve vni socket (dp_free_rib6 v)
      | None => (DP_OK, v)
      end in
    if DP_FAILED ret then (DP_ERROR, v) else (DP_OK, v).

Definition dp_reset_vni_route_tables ve vni : CM Z := fun st =>
  match get_vni_data vni st with
  | None => Some (DP_OK, st)
  | Some v => let '(ret, v') := dp_reset_vni_data ve vni v in Some (ret, put_vni_data vni v' st)
  end.

Fixpoint reset_all_loop (fuel : nat) ve (iter : nat) : CM Z := fun st =>
  match fuel with
  | O => Some (DP_OK, st)
  | S fuel' =>
      match rte_hash_iterate (c_vnis st) iter with
      | None => Some (DP_OK, st)
      | Some (vni, v, iter') =>
          let '(ret, v') := dp_reset_vni_data ve vni v in
          let st := put_vni_data vni v' st in
          if DP_FAILED ret then Some (DP_ERROR, st) else reset_all_loop fuel' ve iter' st
      end
  end.

Definition dp_reset_all_vni_route_tables ve : CM Z := fun st =>
  if rte_hash_count (c_vnis st) =? 0 then Some (DP_OK, st)
  else reset_all_loop (S (length (hash_slots (c_vnis st)))) ve 0 st.
End control.
