(* ===== verification/Lpm.v ===== *)
(** Routing: [src/dp_lpm.c] and the nodes that use it, [src/nodes/ipv4_lookup_node.c] and
    [src/nodes/ipv6_lookup_node.c]. *)

From S2P Require Import Prelude Errors RteHash IpAddr Port Packet Ipsec Vnf FlowKey Nat Flow Maglev Lb VirtsvcConn Rib Multipath Control.

(** ** One table *)

(** [None]: the table of the VNI does not exist. *)
Section table.
Context `{ERR : RteErrno} {A : Type} {RA : RibAddr A} {RR : RteRib A}.
Implicit Types (root : rte_rib A) (port : dp_port).

Definition add_to_table port (t_vni : Z) (ip : A) (t_ip6 : dp_ipv6) (depth : Z) root : Z * rte_rib A :=
  match rte_rib_lookup_exact root ip depth with
  | Some _ => (DP_GRPC_ERR ROUTE_EXISTS, root)
  | None =>
      match rte_rib_insert root ip depth with
      | None => (DP_GRPC_ERR ROUTE_INSERT, root)
      | Some (node, root) =>
          let ext := if is_pf port then mk_route t_vni t_ip6 else rib_ext node in
          (DP_OK, rib_set root ip depth (mk_rib_node (port_id port) ext))
      end
  end.

Definition del_from_table port (ip : A) (depth : Z) root : Z * rte_rib A :=
  match rte_rib_lookup_exact root ip depth with
  | None => (DP_GRPC_ERR ROUTE_NOT_FOUND, root)
  | Some node =>
      if negb (rib_nh node =? port_id port) then (DP_GRPC_ERR ROUTE_BAD_PORT, root)
      else (DP_OK, rte_rib_remove root ip depth)
  end.

(** The port, what is written to the route (only for a physical port), and
    whether the route is the default one. *)
Definition table_out_port (ports : port_table) root (dst : A) : option (dp_port * option dp_iface_route * bool) :=
  '(_, depth, node) ← rte_rib_lookup root dst;
  dst_port ← dp_get_port_by_id ports (u16 (rib_nh node));
  Some (dst_port, if is_pf dst_port then Some (rib_ext node) else None, depth =? 0).
End table.

(** ** The tables of the VNIs *)

Section lpm.
Context `{ERR : RteErrno} {HT : RteHash dp_ipv6 dp_vnf} {VT : RteHash dp_vnf dp_ipv6}
  {ST : RteHash nat_key snat_data} {DT : RteHash nat_key dnat_data}
  {PM : RteHash netnat_portmap_key netnat_portmap_data}
  {PO : RteHash netnat_portoverload_tbl_key (option netnat_portoverload_sync_metadata)}
  {FT : RteHash flow_key ptr} {LT : RteHash lb_key ptr} {IT : RteHash (list Z) lb_key} {OP : RteHash dp_virtsvc_conn_key Z}
  {R4 : RteRib Z} {R6 : RteRib dp_ipv6} {NT : RteHash Z dp_vni_data} {IF : RteHash (list Z) Z}.
Implicit Types (st : ctl_state) (v : dp_vni_data) (port : dp_port) (vni : Z) (ve : vni_env).
Abbreviation CM := (M ctl_state).

Definition dp_get_gw_ip4 : Z := 0xa9fe0001.
Definition dp_get_gw_ip6 : dp_ipv6 := ipv6_of_bytes [0xfe; 0x80; 0; 0; 0; 0; 0; 0; 0; 0; 0; 0; 0; 0; 0; 0x01].

Definition put_rib4 root v : dp_vni_data := set_vd_ipv4 (<[DP_SOCKETID (vd_socket v) := Some root]> (vd_ipv4 v)) v.
Definition put_rib6 root v : dp_vni_data := set_vd_ipv6 (<[DP_SOCKETID (vd_socket v) := Some root]> (vd_ipv6 v)) v.

(** An update of the table of a VNI. *)
Definition on_rib4 vni (f : rte_rib Z -> Z * rte_rib Z) : CM Z := fun st =>
  match v ← get_vni_data vni st; root ← rib4_of v; Some (v, root) with
  | None => Some (DP_GRPC_ERR NO_VNI, st)
  | Some (v, root) => let '(ret, root') := f root in Some (ret, put_vni_data vni (put_rib4 root' v) st)
  end.
Definition on_rib6 vni (f : rte_rib dp_ipv6 -> Z * rte_rib dp_ipv6) : CM Z := fun st =>
  match v ← get_vni_data vni st; root ← rib6_of v; Some (v, root) with
  | None => Some (DP_GRPC_ERR NO_VNI, st)
  | Some (v, root) => let '(ret, root') := f root in Some (ret, put_vni_data vni (put_rib6 root' v) st)
  end.

Definition dp_add_route port vni t_vni (ip : Z) (t_ip6 : dp_ipv6) (depth : Z) : CM Z :=
  on_rib4 vni (add_to_table port t_vni ip t_ip6 depth).
Definition dp_del_route port vni (ip depth : Z) : CM Z := on_rib4 vni (del_from_table port ip depth).
Definition dp_add_route6 port vni t_vni (ip6 t_ip6 : dp_ipv6) (depth : Z) : CM Z :=
  on_rib6 vni (add_to_table port t_vni ip6 t_ip6 depth).
Definition dp_del_route6 port vni (ip6 : dp_ipv6) (depth : Z) : CM Z := on_rib6 vni (del_from_table port ip6 depth).

Definition dp_lpm_fill_route_tables port : CM Z :=
  ret ← dp_add_route port (iface_vni (iface port)) 0 (own_ip (cfg (iface port))) dp_empty_ipv6 32;
  if DP_FAILED ret then mret ret
  else
    ret ← dp_add_route6 port (iface_vni (iface port)) 0 (own_ipv6 (cfg (iface port))) dp_empty_ipv6 128;
    if DP_FAILED ret then mret ret else mret DP_OK.

(** The loops over the ports; [skip] is the condition to pass over one. *)
Fixpoint fill_loop (skip : dp_port -> bool) (order : list Z) : CM Z :=
  match order with
  | [] => mret DP_OK
  | id :: order =>
      port ← get_port id;
      if skip port then fill_loop skip order
      else
        ret ← dp_lpm_fill_route_tables port;
        if DP_FAILED ret then mret ret else fill_loop skip order
  end.

Definition dp_lpm_reset_all_route_tables ve : CM Z :=
  ret ← dp_reset_all_vni_route_tables ve;
  if DP_FAILED ret then mret (DP_GRPC_ERR ROUTE_RESET)
  else order ← gets c_order; fill_loop (fun port => negb (ready (iface port))) order.

Definition dp_lpm_reset_route_tables ve vni : CM Z :=
  ret ← dp_reset_vni_route_tables ve vni;
  if DP_FAILED ret then mret (DP_GRPC_ERR ROUTE_RESET)
  else
    order ← gets c_order;
    fill_loop (fun port => negb (ready (iface port)) || negb (iface_vni (iface port) =? vni)) order.

(** *** Listing *)

(** A prefix and, for external routes, the underlay target. *)
Record route_reply := mk_route_reply {
  rr_pfx_addr : dp_ip_address;
  rr_pfx_length : Z;
  rr_target : option (dp_ip_address * Z)
}.

Definition DP_LPM_DHCP_IP_DEPTH : Z := 32.
Definition dp_route_in_dhcp_range (ip depth : Z) port : bool :=
  (own_ip (cfg (iface port)) =? ip) && (depth =? DP_LPM_DHCP_IP_DEPTH).

(** [reply_ok n]: the responder has room for reply number [n]. *)
Definition dp_list_route_entry (reply_ok : nat -> bool) (ports : port_table) (ip depth : Z) (node : rib_node) port
    (ext_routes : bool) (replies : list route_reply) : Z * list route_reply :=
  match dp_get_port_by_id ports (u16 (rib_nh node)) with
  | None => (DP_GRPC_ERR NO_VM, replies)
  | Some dst_port =>
      if ext_routes && is_pf dst_port
         || negb ext_routes && (port_id dst_port =? port_id port) && negb (dp_route_in_dhcp_range ip depth port)
      then
        if negb (reply_ok (length replies)) then (DP_GRPC_ERR OUT_OF_MEMORY, replies)
        else
          let target := if ext_routes then Some (dp_set_ipaddr6 (route_nh_ipv6 (rib_ext node)), route_vni (rib_ext node)) else None in
          (DP_OK, replies ++ [mk_route_reply (dp_set_ipaddr4 ip) depth target])
      else (DP_OK, replies)
  end.

Fixpoint list_nodes (reply_ok : nat -> bool) (ports : port_table) port (ext_routes : bool)
    (nodes : list (Z * Z * rib_node)) (replies : list route_reply) : Z * list route_reply :=
  match nodes with
  | [] => (DP_OK, replies)
  | (ip, depth, node) :: nodes =>
      let '(ret, replies) := dp_list_route_entry reply_ok ports ip depth node port ext_routes replies in
      if DP_FAILED ret then (ret, replies) else list_nodes reply_ok ports port ext_routes nodes replies
  end.

Definition dp_list_route_table (reply_ok : nat -> bool) (ports : port_table) port (root : rte_rib Z) (ext_routes : bool)
    (replies : list route_reply) : Z * list route_reply :=
  let '(ret, replies) :=
    match rte_rib_lookup_exact root 0 0 with
    | Some node => dp_list_route_entry reply_ok ports 0 0 node port ext_routes replies
    | None => (DP_OK, replies)
    end in
  if DP_FAILED ret then (ret, replies) else list_nodes reply_ok ports port ext_routes (rib_walk root) replies.

Definition dp_list_single_route_table (reply_ok : nat -> bool) port vni (ext_routes : bool) (replies : list route_reply) st
  : Z * list route_reply :=
  match dp_get_vni_route4_table vni st with
  | None => (DP_GRPC_ERR NO_VNI, replies)
  | Some root => dp_list_route_table reply_ok (c_ports st) port root ext_routes replies
  end.

(** Errors of one table are ignored. *)
Fixpoint list_tables_loop (fuel : nat) (reply_ok : nat -> bool) port (ext_routes : bool) (iter : nat)
    (replies : list route_reply) st : Z * list route_reply :=
  match fuel with
  | O => (DP_OK, replies)
  | S fuel' =>
      match rte_hash_iterate (c_vnis st) iter with
      | None => (DP_OK, replies)
      | Some (vni, _, iter') =>
          let replies := snd (dp_list_single_route_table reply_ok port vni ext_routes replies st) in
          list_tables_loop fuel' reply_ok port ext_routes iter' replies st
      end
  end.

Definition dp_list_all_route_tables (reply_ok : nat -> bool) port (ext_routes : bool) st : Z * list route_reply :=
  if rte_hash_count (c_vnis st) =? 0 then (DP_OK, [])
  else list_tables_loop (S (length (hash_slots (c_vnis st)))) reply_ok port ext_routes 0 [] st.

Definition dp_list_routes (reply_ok : nat -> bool) port vni (ext_routes : bool) st : Z * list route_reply :=
  if vni =? 0 then dp_list_all_route_tables reply_ok port ext_routes st
  else dp_list_single_route_table reply_ok port vni ext_routes [] st.

(** ** The next hop *)

Definition dp_get_ip4_out_port (in_port : dp_port) (t_vni : Z) (df : dp_flow) st
  : option (dp_port * option dp_iface_route * bool) :=
  let dst_ip := ntohl (dst_addr df) in
  let t_vni := if t_vni =? 0 then iface_vni (iface in_port) else t_vni in
  root ← dp_get_vni_route4_table t_vni st;
  table_out_port (c_ports st) root dst_ip.

Definition dp_get_ip6_out_port (in_port : dp_port) (t_vni : Z) (df : dp_flow) st
  : option (dp_port * option dp_iface_route * bool) :=
  let t_vni := if t_vni =? 0 then iface_vni (iface in_port) else t_vni in
  root ← dp_get_vni_route6_table t_vni st;
  table_out_port (c_ports st) root (df_dst df).
End lpm.

(** *** The nodes *)

Section nodes.
Context `{ERR : RteErrno} {HT : RteHash dp_ipv6 dp_vnf} {VT : RteHash dp_vnf dp_ipv6}
  {ST : RteHash nat_key snat_data} {DT : RteHash nat_key dnat_data}
  {PM : RteHash netnat_portmap_key netnat_portmap_data}
  {PO : RteHash netnat_portoverload_tbl_key (option netnat_portoverload_sync_metadata)}
  {FT : RteHash flow_key ptr} {LT : RteHash lb_key ptr} {IT : RteHash (list Z) lb_key} {OP : RteHash dp_virtsvc_conn_key Z}
  {R4 : RteRib Z} {R6 : RteRib dp_ipv6} {NT : RteHash Z dp_vni_data} {IF : RteHash (list Z) Z}.

(** The multipath configuration and table, the two uplinks, and what the stack
    held where the local [route] lies: it is only written for a route over a
    physical port. *)
Record lookup_env := mk_lookup_env {
  le_wcmp : wcmp_conf;
  le_table : list egress_pf_port;
  le_pf0 : Z;
  le_pf1 : Z;
  le_route : dp_iface_route
}.
Implicit Types (e : lookup_env) (st : ctl_state).

Definition LOOKUP_NEXT_DROP : Z := 0.
Definition LOOKUP_NEXT_SNAT : Z := 1.

Definition uplink e st (hash : Z) : M rte_mbuf dp_port :=
  owner ← get_some (c_ports st !! le_pf0 e);
  peer ← get_some (c_ports st !! le_pf1 e);
  get_some (dp_multipath_get_pf (le_wcmp e) (le_table e) owner peer hash).

(** The notes both nodes leave in the packet. *)
Definition note_route (in_port out_port : dp_port) (route : dp_iface_route) (is_default_route : bool) : M rte_mbuf Z :=
  (if negb (is_pf in_port) then upd_flow (set_dst_vni (route_vni route)) else mret tt) ;;
  upd_flow (set_flow_type (if is_default_route then DP_FLOW_SOUTH_NORTH else DP_FLOW_WEST_EAST)) ;;
  upd_flow (set_nxt_hop (port_id out_port)) ;;
  mret LOOKUP_NEXT_SNAT.

Definition ipv4_lookup_get_next_index e st : M rte_mbuf Z :=
  in_port ← get_in_port (c_ports st);
  df ← gets flow;
  match dp_get_ip4_out_port in_port (dst_vni df) df st with
  | None => mret LOOKUP_NEXT_DROP
  | Some (out_port, route, is_default_route) =>
      let route := default (le_route e) route in
      if is_pf out_port then
        if is_pf in_port then mret LOOKUP_NEXT_DROP
        else
          upd_flow (set_ul_dst_addr6 (route_nh_ipv6 route)) ;;
          out_port ← uplink e st (dp_flow_hash df);
          note_route in_port out_port route is_default_route
      else
        dp_fill_ether_hdr out_port RTE_ETHER_TYPE_IPV4 ;;
        note_route in_port out_port route is_default_route
  end.

(** The uplink is the one of the route. *)
Definition ipv6_lookup_get_next_index e st : M rte_mbuf Z :=
  in_port ← get_in_port (c_ports st);
  df ← gets flow;
  let t_vni := if is_pf in_port then dst_vni df else 0 in
  match dp_get_ip6_out_port in_port t_vni df st with
  | None => mret LOOKUP_NEXT_DROP
  | Some (out_port, route, is_default_route) =>
      let route := default (le_route e) route in
      if is_pf out_port then
        if is_pf in_port then mret LOOKUP_NEXT_DROP
        else
          upd_flow (set_ul_dst_addr6 (route_nh_ipv6 route)) ;;
          note_route in_port out_port route is_default_route
      else
        dp_fill_ether_hdr out_port RTE_ETHER_TYPE_IPV6 ;;
        note_route in_port out_port route is_default_route
  end.
End nodes.
