(* ===== verification/LpmTheorems.v ===== *)
(** Routes: the longest prefix decides, and the tables of virtual networks do
    not mix. *)

From S2P Require Import Prelude Errors RteHash IpAddr Port Packet Ipsec Vnf FlowKey Nat Flow Maglev Lb VirtsvcConn Rib Multipath Control Lpm.

(** ** One table *)

Section table.
Context `{ERR : RteErrno} {A : Type} {RA : RibAddr A} {RR : RteRib A}.
Implicit Types (root : rte_rib A) (port : dp_port) (ip dst : A) (depth : Z).

(** The entry for an address: the longest prefix that covers it. *)
Definition longest (m : gmap (A * Z) rib_node) dst (o : option (A * Z * rib_node)) : Prop :=
  match o with
  | Some (p, d, nd) => m !! (p, d) = Some nd /\ rib_mask d dst = p /\ forall d', is_Some (m !! (rib_mask d' dst, d')) -> d' <= d
  | None => forall d, m !! (rib_mask d dst, d) = None
  end.

Lemma longest_unique m dst o o' : longest m dst o -> longest m dst o' -> o = o'.
Proof.
  destruct o as [[[p d] nd]|], o' as [[[p' d'] nd']|]; cbn.
  - intros (Hp & <- & Hmax) (Hp' & <- & Hmax'). assert (d = d') as <- by (apply Z.le_antisymm; [apply Hmax' | apply Hmax]; eauto). congruence.
  - intros (Hp & <- & _) Hn. by rewrite Hn in Hp.
  - intros Hn (Hp & <- & _). by rewrite Hn in Hp.
  - done.
Qed.

(** What a new entry for a prefix of length [depth] does to the entry found. *)
Definition shorter depth (o : option (A * Z * rib_node)) : bool :=
  match o with Some (_, d, _) => d <? depth | None => true end.
Definition overlay ip depth nd dst (o : option (A * Z * rib_node)) : option (A * Z * rib_node) :=
  if bool_decide (rib_mask depth dst = rib_mask depth ip) && shorter depth o then Some (rib_mask depth ip, depth, nd) else o.

Lemma longest_insert m ip depth nd dst o : m !! (rib_mask depth ip, depth) = None -> longest m dst o ->
  longest (<[(rib_mask depth ip, depth) := nd]> m) dst (overlay ip depth nd dst o).
Proof.
  intros Hfree Ho. unfold overlay. case_bool_decide as Hc; cbn.
  - destruct (shorter depth o) eqn:Hs.
    + split_and!; [apply lookup_insert_eq | done|]. intros d'. destruct (decide (d' = depth)) as [->|Hne]; [lia|].
      rewrite lookup_insert_ne by congruence. intros Hd. destruct o as [[[p d] nd0]|]; cbn in *.
      * apply Z.ltb_lt in Hs. destruct Ho as (_ & _ & Hmax). specialize (Hmax d' Hd). lia.
      * rewrite Ho in Hd. by destruct Hd.
    + destruct o as [[[p d] nd0]|]; cbn in *; [|done]. apply Z.ltb_ge in Hs. destruct Ho as (Hp & Hm & Hmax).
      assert (d <> depth) by (intros ->; congruence). split_and!; [by rewrite lookup_insert_ne by congruence | done|].
      intros d'. destruct (decide (d' = depth)) as [->|Hne]; [lia|]. rewrite lookup_insert_ne by congruence. apply Hmax.
  - assert (forall d', <[(rib_mask depth ip, depth) := nd]> m !! (rib_mask d' dst, d') = m !! (rib_mask d' dst, d')) as Hsame
      by (intros d'; apply lookup_insert_ne; intros [= Hm ->]; congruence).
    destruct o as [[[p d] nd0]|]; cbn in *; [|by setoid_rewrite Hsame].
    destruct Ho as (Hp & <- & Hmax). rewrite Hsame. split_and!; [done|done|]. intros d'. rewrite Hsame. apply Hmax.
Qed.

Lemma lookup_longest root dst : longest (rib_view root) dst (rte_rib_lookup root dst).
Proof. pose proof (rib_lookup_law root dst) as H. by destruct (rte_rib_lookup root dst) as [[[p d] nd]|]. Qed.

(** Adding succeeds only for a new prefix, and then the table has the entry. *)
Lemma add_to_table_cases port t_vni ip t_ip6 depth root :
  let '(ret, root') := add_to_table port t_vni ip t_ip6 depth root in
  ret <> DP_OK /\ root' = root \/
  ret = DP_OK /\ rib_view root !! (rib_mask depth ip, depth) = None /\
    exists nd, rib_nh nd = port_id port /\ (is_pf port = true -> rib_ext nd = mk_route t_vni t_ip6) /\
               rib_view root' = <[(rib_mask depth ip, depth) := nd]> (rib_view root).
Proof.
  unfold add_to_table. rewrite rib_exact_law. destruct (rib_view root !! _) eqn:Hex; [left; split; [apply dp_grpc_err_not_ok | done]|].
  destruct (rte_rib_insert root ip depth) as [[nd root1]|] eqn:Hin; [|left; split; [apply dp_grpc_err_not_ok | done]].
  apply rib_insert_law in Hin as (_ & _ & Hv). right. split; [done|]. split; [done|].
  eexists. split; [|split]; [| |rewrite rib_set_law, Hv; [apply insert_insert_eq|]; rewrite Hv, lookup_insert_eq; eauto]; cbn; [done|].
  by intros ->.
Qed.

Lemma del_from_table_own port ip depth root nd : rib_view root !! (rib_mask depth ip, depth) = Some nd -> rib_nh nd = port_id port ->
  exists root', del_from_table port ip depth root = (DP_OK, root') /\ rib_view root' = delete (rib_mask depth ip, depth) (rib_view root).
Proof.
  intros Hv Hn. unfold del_from_table. rewrite rib_exact_law, Hv, Hn, Z.eqb_refl. cbn. eexists. split; [done|]. apply rib_remove_law.
Qed.

Lemma lookup_same_view root root' dst : rib_view root' = rib_view root -> rte_rib_lookup root' dst = rte_rib_lookup root dst.
Proof. intros Hv. apply (longest_unique (rib_view root) dst); [rewrite <- Hv|]; apply lookup_longest. Qed.
End table.

(** ** The tables of the networks *)

Section routes.
Context `{ERR : RteErrno} {HT : RteHash dp_ipv6 dp_vnf} {VT : RteHash dp_vnf dp_ipv6}
  {ST : RteHash nat_key snat_data} {DT : RteHash nat_key dnat_data}
  {PM : RteHash netnat_portmap_key netnat_portmap_data}
  {PO : RteHash netnat_portoverload_tbl_key (option netnat_portoverload_sync_metadata)}
  {FT : RteHash flow_key ptr} {LT : RteHash lb_key ptr} {IT : RteHash (list Z) lb_key} {OP : RteHash dp_virtsvc_conn_key Z}
  {R4 : RteRib Z} {R6 : RteRib dp_ipv6} {NT : RteHash Z dp_vni_data} {IF : RteHash (list Z) Z}.
Implicit Types (st : ctl_state) (v : dp_vni_data) (port : dp_port) (vni ip dst depth : Z).

Definition route4 st vni dst : option (Z * Z * rib_node) := root ← dp_get_vni_route4_table vni st; rte_rib_lookup root dst.

Lemma vni_data_poke vni v vni' st : is_Some (get_vni_data vni st) ->
  get_vni_data vni' (put_vni_data vni v st) = if decide (vni = vni') then Some v else get_vni_data vni' st.
Proof.
  intros Hv. unfold get_vni_data in *. cbn. rewrite !hash_lookup_view in *.
  rewrite hash_poke_view by (destruct (hash_view _ !! vni); [eauto | by destruct Hv]).
  case_decide as Hd; [subst; by rewrite lookup_insert_eq | by rewrite lookup_insert_ne].
Qed.

Lemma rib4_put root root' v : rib4_of v = Some root -> rib4_of (put_rib4 root' v) = Some root'.
Proof.
  unfold rib4_of, put_rib4. cbn. destruct (vd_ipv4 v !! _) eqn:E; cbn; [|done]. intros _.
  rewrite list_lookup_insert_eq by (by eapply lookup_lt_Some). done.
Qed.

(** An update changes the table of its network only. *)
Lemma on_rib4_routes vni f st ret st' : on_rib4 vni f st = Some (ret, st') ->
  dp_get_vni_route4_table vni st = None /\ ret = DP_GRPC_ERR NO_VNI /\ st' = st \/
  exists root, dp_get_vni_route4_table vni st = Some root /\ ret = fst (f root) /\
    dp_get_vni_route4_table vni st' = Some (snd (f root)) /\
    forall vni', vni' <> vni -> dp_get_vni_route4_table vni' st' = dp_get_vni_route4_table vni' st.
Proof.
  unfold on_rib4, dp_get_vni_route4_table. destruct (get_vni_data vni st) as [v|] eqn:Hv; cbn; [|intros [= <- <-]; by left].
  destruct (rib4_of v) as [root|] eqn:Hr; cbn; [|intros [= <- <-]; by left].
  destruct (f root) as [r root'] eqn:Hf. intros [= <- <-]. right. exists root. rewrite Hf. split_and!; [done|done| |].
  - rewrite vni_data_poke by eauto. rewrite decide_True by done. cbn. by eapply rib4_put.
  - intros vni' Hne. rewrite vni_data_poke by eauto. by rewrite decide_False by done.
Qed.

(** C38: Adding a route either fails and changes no forwarding decision, or the
    packets it redirects are exactly those of its network whose destination it
    covers and for which no longer prefix is known; their next hop is its port
    and, over an uplink, its tunnel target.  Removing the route by its port
    restores every decision, in every network. *)
Theorem route_added_exactly port vni t_vni ip t_ip6 depth st ret st' :
  dp_add_route port vni t_vni ip t_ip6 depth st = Some (ret, st') ->
  ret <> DP_OK /\ (forall vni' dst, route4 st' vni' dst = route4 st vni' dst) \/
  ret = DP_OK /\ exists nd, rib_nh nd = port_id port /\ (is_pf port = true -> rib_ext nd = mk_route t_vni t_ip6) /\
    (forall vni' dst, route4 st' vni' dst = if vni' =? vni then overlay ip depth nd dst (route4 st vni' dst) else route4 st vni' dst) /\
    exists st'', dp_del_route port vni ip depth st' = Some (DP_OK, st'') /\ forall vni' dst, route4 st'' vni' dst = route4 st vni' dst.
Proof.
  intros [(Hn & -> & ->)|(root & Hr & -> & Hr' & Hother)]%on_rib4_routes; [left; split; [apply dp_grpc_err_not_ok | done]|].
  pose proof (add_to_table_cases port t_vni ip t_ip6 depth root) as Hadd.
  destruct (add_to_table port t_vni ip t_ip6 depth root) as [r root'].
  destruct Hadd as [[Hne ->]|(-> & Hfree & nd & Hnh & Hext & Hv)]; cbn in Hr' |- *; [left | right]; (split; [done|]).
  - intros vni' dst. unfold route4. destruct (decide (vni' = vni)) as [->|]; [by rewrite Hr, Hr' | by rewrite Hother].
  - exists nd. split; [done|]. split; [done|]. split.
    + intros vni' dst. unfold route4. destruct (Z.eqb_spec vni' vni) as [->|]; [|by rewrite Hother]. rewrite Hr, Hr'. cbn.
      apply (longest_unique (rib_view root') dst); [apply lookup_longest|]. rewrite Hv. apply longest_insert; [done | apply lookup_longest].
    + destruct (del_from_table_own port ip depth root' nd) as (root2 & Hd & Hv2); [by rewrite Hv, lookup_insert_eq | done|].
      unfold dp_del_route. destruct (on_rib4 vni (del_from_table port ip depth) st') as [[r st2]|] eqn:E.
      2: { unfold on_rib4 in E. repeat case_match; done. }
      apply on_rib4_routes in E as [(Hc & _)|(root1 & Hr1 & -> & Hr2 & Hother2)]; [congruence|].
      rewrite Hr' in Hr1. injection Hr1 as <-. rewrite Hd in Hr2 |- *. exists st2. split; [done|]. intros vni' dst. unfold route4.
      destruct (decide (vni' = vni)) as [->|]; [|by rewrite Hother2, Hother]. rewrite Hr, Hr2. cbn. apply lookup_same_view.
      rewrite Hv2, Hv. by apply delete_insert_id.
Qed.
End routes.
