(* ===== verification/Iface.v ===== *)
(** Ports and interfaces: starting, stopping and metering a port
    ([src/dp_port.c]), interfaces ([src/dp_iface.c]) and packet capture
    ([src/rte_flow/dp_rte_flow_capture.c]).

    What the hardware and the library answer is a parameter. *)

From S2P Require Import Prelude Errors RteHash IpAddr Port Packet Ipsec Vnf Firewall FlowKey Nat Flow Maglev Lb VirtsvcConn Rib Multipath Control Lpm.

Inductive nic_type := NIC_TYPE_MELLANOX | NIC_TYPE_TAP | NIC_TYPE_OTHER.

#[export] Instance nic_type_eq_dec : EqDecision nic_type.
Proof. solve_decision. Defined.

(** The calls that install or remove the default flow rules of a port for
    packet capture, one for each place they are made from. *)
Inductive capture_call :=
| CC_ENABLE_DESTROY | CC_ENABLE_PF | CC_ENABLE_JUMP | CC_ENABLE_CAPTURE | CC_ROLLBACK_DESTROY | CC_ROLLBACK_JUMP
| CC_DISABLE_DESTROY | CC_DISABLE_PF | CC_DISABLE_JUMP.

Record port_hw := mk_hw {
  hw_nic : nic_type;
  hw_offload : bool;
  (** [rte_eth_dev_get_port_by_name] *)
  hw_port_by_name : list Z -> option Z;
  hw_dev_start : Z -> Z;
  hw_dev_stop : Z -> Z;
  (** the rules of a physical port *)
  hw_isolate : Z -> bool;
  hw_hairpins : Z -> bool;
  hw_vf_rules : Z -> bool;
  hw_link : Z -> option Z;
  hw_destroy_flow : Z -> bool;
  (** [dp_set_vf_rate_limit] with the port and the rate *)
  hw_rate_limit : Z -> Z -> Z;
  hw_meter_profile : meter_params -> bool;
  hw_meter : meter_params -> bool;
  hw_capture : capture_call -> Z -> bool
}.

Section iface.
Context `{ERR : RteErrno} {HT : RteHash dp_ipv6 dp_vnf} {VT : RteHash dp_vnf dp_ipv6}
  {ST : RteHash nat_key snat_data} {DT : RteHash nat_key dnat_data}
  {PM : RteHash netnat_portmap_key netnat_portmap_data}
  {PO : RteHash netnat_portoverload_tbl_key (option netnat_portoverload_sync_metadata)}
  {FT : RteHash flow_key ptr} {LT : RteHash lb_key ptr} {IT : RteHash (list Z) lb_key} {OP : RteHash dp_virtsvc_conn_key Z}
  {R4 : RteRib Z} {R6 : RteRib dp_ipv6} {NT : RteHash Z dp_vni_data} {IF : RteHash (list Z) Z}.
Implicit Types (hw : port_hw) (st : ctl_state) (port : dp_port) (id vni : Z) (ve : vni_env).
Abbreviation CM := (M ctl_state).

(** ** Ports *)

Definition dp_get_port_by_name hw (pci_name : list Z) st : option Z :=
  if match pci_name with c :: _ => c =? 0 | [] => true end then None
  else
    id ← hw_port_by_name hw pci_name;
    if id >=? DP_MAX_PORTS then None else if bool_decide (is_Some (c_ports st !! id)) then Some id else None.

Definition dp_get_port_by_pf_index (index : Z) st : option Z :=
  if index <? DP_MAX_PF_PORTS then c_pfs st !! Z.to_nat index else None.
Definition dp_get_pf0 : CM dp_port := pfs ← gets c_pfs; id ← get_some (pfs !! 0%nat); get_port id.

(** A rule that cannot be installed for an interface stops the process. *)
Definition dp_init_port hw port : CM Z :=
  if bool_decide (hw_nic hw = NIC_TYPE_TAP) then mret DP_OK
  else if is_pf port && negb (hw_isolate hw (port_id port)) then mret DP_ERROR
  else if hw_offload hw then
    if negb (hw_hairpins hw (port_id port)) then mret DP_ERROR
    else if negb (is_pf port) && negb (hw_vf_rules hw (port_id port)) then ub
    else mret DP_OK
  else mret DP_OK.

Definition dp_start_port hw id : CM Z :=
  port ← get_port id;
  let ret := hw_dev_start hw (port_id port) in
  if DP_FAILED ret then mret ret
  else
    ret ← dp_init_port hw port;
    if DP_FAILED ret then mret ret
    else
      let link := if is_pf port then default RTE_ETH_LINK_DOWN (hw_link hw (port_id port)) else RTE_ETH_LINK_UP in
      upd_port id (fun p => set_allocated true (set_link_status link p)) ;;
      mret DP_OK.

Definition dp_stop_port hw id : CM Z :=
  port ← get_port id;
  if negb (hw_destroy_flow hw (port_id port)) then mret DP_ERROR
  else if DP_FAILED (hw_dev_stop hw (port_id port)) then mret DP_ERROR
  else upd_port id (set_allocated false) ;; mret DP_OK.

(** *** Meters *)

Definition UINT32_MAX : Z := 2 ^ 32 - 1.
Definition DP_METER_CIR_BASE_VALUE : Z := 1024 * 1024.
Definition DP_METER_EBS_BREAK_VALUE : Z := 100.
Definition DP_METER_MBITS_TO_BYTES : Z := 1024 * 1024 / 8.
Definition dp_srtcm_params_base : meter_params :=
  mk_meter (DP_METER_CIR_BASE_VALUE * 100 / 8) 4096 (DP_METER_EBS_BREAK_VALUE * DP_METER_MBITS_TO_BYTES).

(** The rate is 32 bits wide, and so are the products. *)
Definition public_meter_params (rate : Z) : meter_params :=
  mk_meter (u32 (DP_METER_CIR_BASE_VALUE * (rate / 8))) (meter_cbs dp_srtcm_params_base)
    (if rate <? DP_METER_EBS_BREAK_VALUE then u32 (rate * DP_METER_MBITS_TO_BYTES) else meter_ebs dp_srtcm_params_base).

Definition dp_port_public_flow_meter_config hw id (rate : Z) : CM Z :=
  if rate =? 0 then modify (fun st => set_c_meters (delete id (c_meters st)) st) ;; mret DP_OK
  else
    let params := public_meter_params rate in
    if negb (hw_meter_profile hw params) then mret DP_ERROR
    else if negb (hw_meter hw params) then modify (fun st => set_c_meters (delete id (c_meters st)) st) ;; mret DP_ERROR
    else modify (fun st => set_c_meters (<[id := params]> (c_meters st)) st) ;; mret DP_OK.

Definition set_total_cap (cap : Z) port : dp_port := set_iface (set_total_flow_rate_cap cap (iface port)) port.
Definition set_public_cap (cap : Z) port : dp_port := set_iface (set_public_flow_rate_cap cap (iface port)) port.

Definition dp_port_meter_config hw id (total_flow_rate_cap public_flow_rate_cap : Z) : CM Z :=
  port ← get_port id;
  if negb (bool_decide (hw_nic hw = NIC_TYPE_MELLANOX)) then mret DP_OK
  else if total_flow_rate_cap >? UINT32_MAX then mret DP_ERROR
  else if public_flow_rate_cap >? total_flow_rate_cap then mret DP_ERROR
  else
    let ret := hw_rate_limit hw (port_id port) total_flow_rate_cap in
    if DP_FAILED ret && negb (ret =? - ENOENT) then mret ret
    else
      (if DP_FAILED ret then mret tt else upd_port id (set_total_cap total_flow_rate_cap)) ;;
      ret ← dp_port_public_flow_meter_config hw id public_flow_rate_cap;
      if DP_FAILED ret then
        let ret := hw_rate_limit hw (port_id port) 0 in
        if DP_FAILED ret then mret ret
        else upd_port id (set_total_cap 0) ;; mret ret
      else upd_port id (set_public_cap public_flow_rate_cap) ;; mret DP_OK.

(** ** Interfaces *)

Definition dp_map_iface_id (name : list Z) id : CM Z :=
  t ← gets c_iface_ids;
  match rte_hash_lookup_data t name with
  | inr _ => mret DP_ERROR
  | inl ret =>
      if negb (ret =? - ENOENT) then mret DP_ERROR
      else
        let '(ret, t) := rte_hash_add_key_data t name id in
        modify (set_c_iface_ids t) ;;
        if DP_FAILED ret then mret DP_ERROR
        else upd_port id (fun p => set_iface (set_iface_id name (iface p)) p) ;; mret DP_OK
  end.

Definition dp_unmap_iface_id (name : list Z) : CM unit :=
  modify (fun st => set_c_iface_ids (snd (rte_hash_del_key (c_iface_ids st) name)) st).

Definition dp_get_port_with_iface_id (name : list Z) st : option Z :=
  match rte_hash_lookup_data (c_iface_ids st) name with inl _ => None | inr id => Some id end.

Definition dp_setup_iface ve id vni : CM Z :=
  port ← get_port id;
  ret ← dp_create_vni_route_tables ve vni (socket_id port);
  if DP_FAILED ret then mret DP_ERROR
  else
    upd_port id (fun p => upd_iface (fun i => set_ready true (set_iface_vni vni i)) (dp_init_firewall_rules p)) ;;
    mret DP_OK.

Definition DP_IFACE_PXE_MAX_LEN : nat := 32.
Definition DP_IFACE_ID_MAX_LEN : nat := 64.
Definition DP_IFACE_HOSTNAME_MAX_LEN : nat := 64.
(** [memset] to zero. *)
Definition zero_iface : dp_port_iface :=
  mk_iface [] 0 (mk_iface_cfg 0 0 0 dp_empty_ipv6 0 (mk_ipaddr dp_empty_ipv6 false)
    (replicate DP_IFACE_PXE_MAX_LEN 0) (replicate DP_IFACE_HOSTNAME_MAX_LEN 0))
    0 false (replicate DP_IFACE_ID_MAX_LEN 0) dp_empty_ipv6 0 0 0 false false 0 0 0.

Definition dp_delete_iface id : CM unit :=
  port ← get_port id;
  let vni := iface_vni (iface port) in
  dp_del_route port vni (own_ip (cfg (iface port))) 32 ;;
  dp_del_route6 port vni (own_ipv6 (cfg (iface port))) 128 ;;
  dp_delete_vni_route_tables vni ;;
  upd_port id (fun p => set_iface zero_iface (dp_del_all_firewall_rules p)) ;;
  mret tt.

(** ** Packet capture *)

Definition dp_enable_pkt_capture hw id : CM Z :=
  port ← get_port id;
  let call c := hw_capture hw c (port_id port) in
  if negb (allocated port) then mret (DP_GRPC_ERR NO_VM)
  else if captured port then mret (DP_GRPC_ERR ALREADY_ACTIVE)
  else if negb (call CC_ENABLE_DESTROY) then mret (DP_GRPC_ERR RTE_RULE_DEL)
  else if is_pf port then
    if negb (call CC_ENABLE_PF) then mret (DP_GRPC_ERR RTE_RULE_ADD)
    else upd_port id (set_captured true) ;; mret DP_OK
  else if negb (call CC_ENABLE_JUMP) then mret (DP_GRPC_ERR RTE_RULE_ADD)
  else if negb (call CC_ENABLE_CAPTURE) then
    if negb (call CC_ROLLBACK_DESTROY) then mret (DP_GRPC_ERR ROLLBACK)
    else if negb (call CC_ROLLBACK_JUMP) then mret (DP_GRPC_ERR ROLLBACK)
    else mret (DP_GRPC_ERR RTE_RULE_ADD)
  else upd_port id (set_captured true) ;; mret DP_OK.

Definition dp_disable_pkt_capture hw id : CM Z :=
  port ← get_port id;
  let call c := hw_capture hw c (port_id port) in
  if negb (allocated port) then mret (DP_GRPC_ERR NO_VM)
  else if negb (captured port) then mret (DP_GRPC_ERR NOT_ACTIVE)
  else if negb (call CC_DISABLE_DESTROY) then mret (DP_GRPC_ERR RTE_RULE_DEL)
  else if negb (call (if is_pf port then CC_DISABLE_PF else CC_DISABLE_JUMP)) then mret (DP_GRPC_ERR RTE_RULE_ADD)
  else upd_port id (set_captured false) ;; mret DP_OK.

(** The number of ports, or an error. *)
Fixpoint disable_all_loop hw (order : list Z) (count : Z) : CM Z :=
  match order with
  | [] => mret count
  | id :: order =>
      port ← get_port id;
      if allocated port && captured port then
        ret ← dp_enable_pkt_capture hw id;
        if DP_FAILED ret then mret ret else disable_all_loop hw order (count + 1)
      else disable_all_loop hw order count
  end.
Definition dp_disable_pkt_capture_on_all_ifaces hw : CM Z := order ← gets c_order; disable_all_loop hw order 0.
End iface.
