(* ===== verification/IpsecNodes.v ===== *)
(** The nodes that encrypt and decrypt: [src/nodes/ipsec_encap_node.c],
    [src/nodes/ipsec_decap_node.c] and [dp_ipsec_process_burst] of
    [src/dp_ipsec.c].

    A burst is processed over a state that holds the packets and the crypto
    operations by address, and the crypto device.  librte_ipsec, the device and
    the operation pool are the class [RteCrypto]; a ghost log records what they
    did to which packet. *)

From S2P Require Import Prelude Errors RteHash IpAddr Port Graph Packet Virtsvc Vnf Tunnel Ipsec.

Definition RTE_MBUF_F_RX_SEC_OFFLOAD : Z := 2 ^ 18.
Definition RTE_MBUF_F_RX_SEC_OFFLOAD_FAILED : Z := 2 ^ 19.

(** An operation as [rte_ipsec_pkt_crypto_prepare] fills it in: the packet it
    is for and the association whose session it uses. *)
Record rte_crypto_op := mk_op { op_m : ptr; op_ses : ptr }.

(** A completed operation: its address, and whether its status is
    [RTE_CRYPTO_OP_STATUS_SUCCESS]. *)
Record done_op := mk_done { done_addr : ptr; done_ok : bool }.

(** What is kept of a packet by everything that works on its bytes: dpservice's
    private area, the port it came from and the header lengths. *)
Definition kept (m : rte_mbuf) : dp_flow * dp_pkt_mark * Z * Z * Z :=
  (flow m, mark m, m_port m, l2_len m, l3_len m).

Class RteCrypto := {
  (** librte_ipsec's state of the associations (sequence numbers, windows) *)
  lib_state : Type;
  (** the crypto device; its queue pair holds the operations not yet returned *)
  dev_state : Type;
  dev_pending : dev_state -> list ptr;
  rte_crypto_op_bulk_alloc : gset ptr -> nat -> option (list ptr);
  rte_ipsec_pkt_crypto_prepare : lib_state -> rte_ipsec_session -> rte_mbuf -> bool * rte_mbuf * lib_state;
  rte_cryptodev_enqueue_burst : dev_state -> list ptr -> nat * dev_state;
  (** the operations returned, and the bytes of the packets as the device left
      them *)
  rte_cryptodev_dequeue_burst : dev_state -> nat -> list (done_op * rte_buf) * dev_state;
  (** grouping by session: positions in the input, session by session *)
  rte_ipsec_pkt_crypto_group : list (rte_crypto_op * bool) -> list (ptr * list ptr);
  (** finalisation: how many succeeded, and the packets with those first *)
  rte_ipsec_pkt_process : lib_state -> rte_ipsec_session -> list (ptr * rte_mbuf)
                          -> nat * list (ptr * rte_mbuf) * lib_state;
  alloc_law live n ops : rte_crypto_op_bulk_alloc live n = Some ops ->
    length ops = n /\ NoDup ops /\ forall p, p ∈ ops -> p ∉ live;
  prepare_law l ses m : kept (snd (fst (rte_ipsec_pkt_crypto_prepare l ses m))) = kept m;
  enqueue_law d ops : let '(n, d') := rte_cryptodev_enqueue_burst d ops in
    (n <= length ops)%nat /\ dev_pending d' = dev_pending d ++ take n ops;
  dequeue_law d n : let '(l, d') := rte_cryptodev_dequeue_burst d n in
    (length l <= n)%nat /\ Permutation (dev_pending d) (((fun x => done_addr x.1) <$> l) ++ dev_pending d');
  (** only packets of operations in the input are grouped, each once, under
      the session of its operation, and no group is empty *)
  group_law done :
    Forall (fun g => snd g <> []) (rte_ipsec_pkt_crypto_group done)
    /\ exists rest, Permutation ((fun x => (op_ses x.1, op_m x.1)) <$> done)
                   ((rte_ipsec_pkt_crypto_group done ≫= fun g => pair (fst g) <$> snd g) ++ rest);
  (** finalisation reorders the packets and leaves the rest of them alone; a
      packet flagged as failed is not among the successful ones, and a
      successful one still has its link and network headers *)
  process_law l ses ms : let '(n, ms', l') := rte_ipsec_pkt_process l ses ms in
    (n <= length ms')%nat
    /\ Permutation (prod_map id kept <$> ms) (prod_map id kept <$> ms')
    /\ forall p m', (p, m') ∈ take n ms' ->
         l2_len m' + l3_len m' <= pkt_len m'
         /\ exists m, (p, m) ∈ ms /\ Z.land (ol_flags m) RTE_MBUF_F_RX_SEC_OFFLOAD_FAILED = 0
}.

(** What happened to a packet, in order. *)
Inductive crypto_event :=
| EvPrepared (sa m : ptr)
| EvCompleted (m : ptr) (ok : bool)
| EvFinalized (sa m : ptr).

Section nodes.
Context `{ERR : RteErrno} `{SAD : RteIpsecSad} `{CR : RteCrypto}
  {HT : RteHash dp_ipv6 dp_vnf} {VT : RteHash dp_vnf dp_ipv6}.

Record burst_state := mk_burst {
  mbufs : gmap ptr rte_mbuf;
  live_ops : gset ptr;
  op_fields : gmap ptr rte_crypto_op;
  device : dev_state;
  ipsec_lib : lib_state;
  events : list crypto_event
}.

(** The tables the nodes read: the associations, the ports, the functions
    behind underlay addresses, and [next_tx_index] of ipsec_encap. *)
Record crypto_env := mk_crypto_env {
  cenv_ipsec : ipsec_state;
  cenv_ports : port_table;
  cenv_vnf : vnf_state;
  cenv_tx_index : gmap Z Z
}.
Implicit Types (e : crypto_env) (st : burst_state) (m p : ptr).

Definition set_mbufs x st := mk_burst x (live_ops st) (op_fields st) (device st) (ipsec_lib st) (events st).
Definition set_live_ops x st := mk_burst (mbufs st) x (op_fields st) (device st) (ipsec_lib st) (events st).
Definition set_op_fields x st := mk_burst (mbufs st) (live_ops st) x (device st) (ipsec_lib st) (events st).
Definition set_device x st := mk_burst (mbufs st) (live_ops st) (op_fields st) x (ipsec_lib st) (events st).
Definition set_lib x st := mk_burst (mbufs st) (live_ops st) (op_fields st) (device st) x (events st).
Definition log_event ev : M burst_state unit :=
  modify (fun st => mk_burst (mbufs st) (live_ops st) (op_fields st) (device st) (ipsec_lib st)
                      (events st ++ [ev])).

(** Access to a packet, and a step of a node on it. *)
Definition get_mbuf m : M burst_state rte_mbuf :=
  h ← gets mbufs; get_some (h !! m).
Definition put_mbuf m (x : rte_mbuf) : M burst_state unit :=
  h ← gets mbufs; modify (set_mbufs (<[m := x]> h)).
Definition on_mbuf {A} m (f : M rte_mbuf A) : M burst_state A :=
  x ← get_mbuf m; r ← get_some (f x); put_mbuf m (snd r) ;; mret (fst r).

Definition set_crypto_failed (b : bool) : M rte_mbuf unit :=
  modify (fun x => set_mark (mk_mark (mark_id (mark x)) (is_recirc (mark x)) b) x).

(** [sas[i]->ipsec_session] *)
Definition sa_at e p : M burst_state dp_ipsec_sa :=
  get_some (match ipsec_heap (cenv_ipsec e) !! p with Some (ObjSa sa) => Some sa | _ => None end).

(** A loop over the burst. *)
Fixpoint for_each {A} (body : A -> M burst_state unit) (l : list A) : M burst_state unit :=
  match l with
  | [] => mret tt
  | x :: l' => body x ;; for_each body l'
  end.

(** ** Submitting operations *)

(** [dp_ipsec_process_burst]: the loop polls the device until everything
    enqueued has come back, at most [retries] times. *)
Fixpoint dequeue_loop (retries dequeued enqueued : nat) (done : list done_op)
  : M burst_state (list done_op) :=
  match retries with
  | O => mret done
  | S retries' =>
      if (dequeued <? enqueued)%nat then
        d ← gets device;
        let '(l, d') := rte_cryptodev_dequeue_burst d (enqueued - dequeued) in
        modify (set_device d') ;;
        for_each (fun x =>
          fields ← gets op_fields;
          op ← get_some (fields !! done_addr x.1);
          on_mbuf (op_m op) (modify (set_buf x.2)) ;;
          log_event (EvCompleted (op_m op) (done_ok x.1))) l ;;
        dequeue_loop retries' (dequeued + length l) enqueued (done ++ l.*1)
      else mret done
  end.

Definition dp_ipsec_process_burst (ops : list ptr) : M burst_state (list done_op) :=
  d ← gets device;
  let '(enqueued, d') := rte_cryptodev_enqueue_burst d ops in
  modify (set_device d') ;;
  dequeue_loop DP_IPSEC_DEQUEUE_RETRIES 0 enqueued [].

(** [ipsec_encap_prepare], [ipsec_decap_prepare]: fills the operation in. *)
Definition crypto_prepare e m p (op : ptr) : M burst_state Z :=
  on_mbuf m (modify (set_l2_len 14) ;; modify (set_l3_len 40)) ;;
  sa ← sa_at e p;
  x ← get_mbuf m;
  lib ← gets ipsec_lib;
  let '(ok, x', lib') := rte_ipsec_pkt_crypto_prepare lib (sa_ipsec_session sa) x in
  modify (set_lib lib') ;;
  put_mbuf m x' ;;
  if negb ok then mret DP_ERROR
  else
    fields ← gets op_fields;
    modify (set_op_fields (<[op := mk_op m p]> fields)) ;;
    log_event (EvPrepared p m) ;;
    mret DP_OK.

(** The loop over the burst that prepares one operation per packet that has an
    association and that [gate] admits; [nb_ops] operations are in use. *)
Fixpoint prepare_loop e (gate : ptr -> ptr -> M burst_state bool) (l : list (ptr * option ptr))
    (ops : list ptr) (nb_ops : nat) : M burst_state nat :=
  match l with
  | [] => mret nb_ops
  | (_, None) :: l' => prepare_loop e gate l' ops nb_ops
  | (m, Some p) :: l' =>
      admitted ← gate m p;
      if negb admitted then prepare_loop e gate l' ops nb_ops
      else
        op ← get_some (ops !! nb_ops);
        r ← crypto_prepare e m p op;
        if DP_FAILED r then prepare_loop e gate l' ops nb_ops
        else prepare_loop e gate l' ops (S nb_ops)
  end.

(** [rte_ipsec_pkt_crypto_group] on the completed operations: it flags each
    packet, as failed where the status of its operation is not success, and
    groups the packets by association. *)
Definition flag_done (x : rte_crypto_op * bool) : M burst_state unit :=
  on_mbuf (op_m x.1) (modify (fun y => set_ol_flags
    (Z.lor (ol_flags y) (Z.lor RTE_MBUF_F_RX_SEC_OFFLOAD
       (if x.2 : bool then 0 else RTE_MBUF_F_RX_SEC_OFFLOAD_FAILED))) y)).

Fixpoint done_fields (fields : gmap ptr rte_crypto_op) (done : list done_op)
  : option (list (rte_crypto_op * bool)) :=
  match done with
  | [] => Some []
  | x :: done' => op ← fields !! done_addr x; rest ← done_fields fields done'; Some ((op, done_ok x) :: rest)
  end.

Definition crypto_group (done : list done_op) : M burst_state (list (ptr * list ptr)) :=
  fields ← gets op_fields;
  l ← get_some (done_fields fields done);
  for_each flag_done l ;;
  mret (rte_ipsec_pkt_crypto_group l).

Fixpoint get_mbufs (l : list ptr) : M burst_state (list (ptr * rte_mbuf)) :=
  match l with
  | [] => mret []
  | m :: l' => x ← get_mbuf m; r ← get_mbufs l'; mret ((m, x) :: r)
  end.

(** One group: finalisation, then [ok] on the packets that succeeded and [bad]
    on the others. *)
Definition process_group e (ok bad : ptr -> M burst_state unit) (g : ptr * list ptr)
  : M burst_state unit :=
  sa ← sa_at e (fst g);
  ms ← get_mbufs (snd g);
  lib ← gets ipsec_lib;
  let '(nb_ok, ms', lib') := rte_ipsec_pkt_process lib (sa_ipsec_session sa) ms in
  modify (set_lib lib') ;;
  for_each (fun x => put_mbuf x.1 x.2) ms' ;;
  for_each (fun x => log_event (EvFinalized (fst g) x.1) ;; ok x.1) (take nb_ok ms') ;;
  for_each (fun x => bad x.1) (drop nb_ok ms').

(** [rte_crypto_op_free]; freeing an operation that is not allocated is
    undefined. *)
Definition free_op (op : ptr) : M burst_state unit :=
  live ← gets live_ops;
  if decide (op ∈ live) then modify (set_live_ops (live ∖ {[op]})) else ub.

(** ** ipsec_encap *)

Definition IPSEC_ENCAP_NEXT_DROP : Z := 0.

Definition ipsec_encap_build_key (ports : port_table) : M rte_mbuf rte_ipsec_sad_key :=
  port ← get_in_port ports;
  src ← rd_ipv6 (14 + ipv6_src_off);
  dst ← rd_ipv6 (14 + ipv6_dst_off);
  mret (dp_ipsec_build_key (iface_vni (iface port)) src dst).

Definition ipsec_encap_get_next_index (tx_index : gmap Z Z) : M rte_mbuf Z :=
  mk ← gets mark;
  if crypto_failed mk then mret IPSEC_ENCAP_NEXT_DROP
  else df ← gets flow; get_some (edge_at tx_index (nxt_hop df)).

Fixpoint map_mbufs {A} (f : M rte_mbuf A) (objs : list ptr) : M burst_state (list A) :=
  match objs with
  | [] => mret []
  | m :: objs' => a ← on_mbuf m f; r ← map_mbufs f objs'; mret (a :: r)
  end.

(** [dp_ipsec_lookup_sa] on the keys of the burst. *)
Definition lookup_sas e (keys : list rte_ipsec_sad_key) : M burst_state (list (option ptr)) :=
  r ← get_some (dp_ipsec_lookup_sa keys (cenv_ipsec e)); mret (fst r).

Definition clear_rx_flags : M rte_mbuf unit :=
  modify (fun x => set_ol_flags (Z.land (ol_flags x)
    (Z.lnot (Z.lor RTE_MBUF_F_RX_SEC_OFFLOAD RTE_MBUF_F_RX_SEC_OFFLOAD_FAILED))) x).

Definition encap_finish (nb_ops : nat) e (ops : list ptr) : M burst_state unit :=
  if (0 <? nb_ops)%nat then
    done ← dp_ipsec_process_burst (take nb_ops ops);
    groups ← crypto_group done;
    for_each (process_group e
      (fun m => on_mbuf m (set_crypto_failed false ;; clear_rx_flags))
      (fun m => on_mbuf m clear_rx_flags)) groups
  else mret tt.

(** The result is the edge of each packet of the burst, in order. *)
Definition ipsec_encap_node_process e (objs : list ptr) : M burst_state (list Z) :=
  live ← gets live_ops;
  match rte_crypto_op_bulk_alloc live (length objs) with
  | None =>
      for_each (fun m => on_mbuf m (set_crypto_failed true)) objs ;;
      map_mbufs (ipsec_encap_get_next_index (cenv_tx_index e)) objs
  | Some ops =>
      modify (set_live_ops (live ∪ list_to_set ops)) ;;
      keys ← map_mbufs (set_crypto_failed true ;; ipsec_encap_build_key (cenv_ports e)) objs;
      sas ← lookup_sas e keys;
      nb_ops ← prepare_loop e (fun _ _ => mret true) (zip objs sas) ops 0;
      encap_finish nb_ops e ops ;;
      for_each free_op ops ;;
      map_mbufs (ipsec_encap_get_next_index (cenv_tx_index e)) objs
  end.

(** ** ipsec_decap *)

Definition IPSEC_DECAP_NEXT_DROP : Z := 0.
Definition IPSEC_DECAP_NEXT_IPIP_DECAP : Z := 1.
Definition IPSEC_DECAP_MIN_LEN : Z := 14 + 40 + 8.

Definition zero_key : rte_ipsec_sad_key := mk_sad_key 0 (mk_ipv6 0 0) (mk_ipv6 0 0).

Definition ipsec_decap_build_key : M rte_mbuf rte_ipsec_sad_key :=
  len ← gets pkt_len;
  if len <? IPSEC_DECAP_MIN_LEN then mret zero_key
  else
    spi ← rd (14 + 40) 4;
    src ← rd_ipv6 (14 + ipv6_src_off);
    dst ← rd_ipv6 (14 + ipv6_dst_off);
    mret (dp_ipsec_build_key (ntohl spi) src dst).

Definition ipsec_decap_restore_flow : M rte_mbuf Z :=
  proto ← rd (14 + ipv6_proto_off) 1;
  if proto =? IPPROTO_IPIP then
    upd_flow (set_l3_type RTE_ETHER_TYPE_IPV4) ;; upd_flow (set_proto_id proto) ;; mret DP_OK
  else if proto =? IPPROTO_IPV6 then
    upd_flow (set_l3_type RTE_ETHER_TYPE_IPV6) ;; upd_flow (set_proto_id proto) ;; mret DP_OK
  else mret DP_ERROR.

Definition ipsec_decap_get_next_index : M rte_mbuf Z :=
  mk ← gets mark;
  mret (if crypto_failed mk then IPSEC_DECAP_NEXT_DROP else IPSEC_DECAP_NEXT_IPIP_DECAP).

(** The comparison that keeps a peer's frames to the association's VNI. *)
Definition decap_gate e m p : M burst_state bool :=
  r ← on_mbuf m (fun x =>
        let '(port, x') := dp_vnf_resolve_tunnel_dst (cenv_ports e) (cenv_vnf e) x in
        Some ((port, dst_vni (flow x')), x'));
  match fst r with
  | None => mret false
  | Some _ => sa ← sa_at e p; mret (snd r =? sa_vni sa)
  end.

Definition decap_accept : M rte_mbuf unit :=
  r ← ipsec_decap_restore_flow;
  if DP_FAILED r then mret tt else set_crypto_failed false.

Definition decap_finish (nb_ops : nat) e (ops : list ptr) : M burst_state unit :=
  if (0 <? nb_ops)%nat then
    done ← dp_ipsec_process_burst (take nb_ops ops);
    groups ← crypto_group done;
    for_each (process_group e (fun m => on_mbuf m decap_accept) (fun _ => mret tt)) groups
  else mret tt.

Definition ipsec_decap_node_process e (objs : list ptr) : M burst_state (list Z) :=
  live ← gets live_ops;
  match rte_crypto_op_bulk_alloc live (length objs) with
  | None =>
      for_each (fun m => on_mbuf m (set_crypto_failed true)) objs ;;
      map_mbufs ipsec_decap_get_next_index objs
  | Some ops =>
      modify (set_live_ops (live ∪ list_to_set ops)) ;;
      keys ← map_mbufs (set_crypto_failed true ;; ipsec_decap_build_key) objs;
      sas ← lookup_sas e keys;
      nb_ops ← prepare_loop e (decap_gate e) (zip objs sas) ops 0;
      decap_finish nb_ops e ops ;;
      for_each free_op ops ;;
      map_mbufs ipsec_decap_get_next_index objs
  end.
End nodes.
