(* ===== verification/IpsecNodesProofs.v ===== *)
(** Lemmas on the burst processing of the IPsec nodes: what each stage of a
    burst (preparing, submitting, grouping, finalising) does to the packets. *)

From S2P Require Import Prelude Errors RteHash IpAddr Port Graph Packet Virtsvc Vnf Tunnel Ipsec IpsecNodes.

Section stages.
Context `{ERR : RteErrno} `{SAD : RteIpsecSad} `{CR : RteCrypto}
  {HT : RteHash dp_ipv6 dp_vnf} {VT : RteHash dp_vnf dp_ipv6}.
Implicit Types (e : crypto_env) (st : burst_state) (m p op : ptr).

(** ** Single packets *)

(** What the nodes decide by, none of which the crypto stages change. *)
Definition info (x : rte_mbuf) : Z * Z * Z * bool := (m_port x, nxt_hop (flow x), dst_vni (flow x), tun_dst_resolved (flow x)).

Lemma kept_info x y : kept x = kept y ->
  info x = info y /\ mark x = mark y /\ l2_len x = l2_len y /\ l3_len x = l3_len y.
Proof. unfold kept, info. intros [= Hf Hm Hp H2 H3]. by rewrite Hf, Hp. Qed.

Lemma get_mbuf_run st m x : mbufs st !! m = Some x -> get_mbuf m st = Some (x, st).
Proof. intros H. unfold get_mbuf, gets, mbind, M_bind. by rewrite H. Qed.

Definition upd st m x : burst_state := set_mbufs (<[m := x]> (mbufs st)) st.

Lemma put_mbuf_run st m x : put_mbuf m x st = Some (tt, upd st m x).
Proof. done. Qed.

Lemma on_mbuf_run {A} st m x (f : M rte_mbuf A) a x' : mbufs st !! m = Some x -> f x = Some (a, x') ->
  on_mbuf m f st = Some (a, upd st m x').
Proof.
  intros Hx Hf. unfold on_mbuf. erewrite M_bind_Some; [|by apply get_mbuf_run]. rewrite Hf. done.
Qed.

Lemma sa_at_run e st p sa : ipsec_heap (cenv_ipsec e) !! p = Some (ObjSa sa) -> sa_at e p st = Some (sa, st).
Proof. intros H. unfold sa_at. by rewrite H. Qed.

Lemma upd_id st m x : mbufs st !! m = Some x -> upd st m x = st.
Proof. intros H. unfold upd, set_mbufs. rewrite insert_id by done. by destruct st. Qed.

Lemma lookup_upd st m x m' : mbufs (upd st m x) !! m' = if decide (m = m') then Some x else mbufs st !! m'.
Proof. cbn. rewrite lookup_insert. by case_decide. Qed.

(** Preparing one packet changes that packet's bytes only; on success the
    operation names it. *)
Lemma crypto_prepare_run e st m p op x sa :
  mbufs st !! m = Some x -> ipsec_heap (cenv_ipsec e) !! p = Some (ObjSa sa) ->
  exists r st' x', crypto_prepare e m p op st = Some (r, st')
    /\ mbufs st' = <[m := x']> (mbufs st)
    /\ info x' = info x /\ mark x' = mark x /\ l2_len x' = 14 /\ l3_len x' = 40
    /\ device st' = device st /\ live_ops st' = live_ops st
    /\ ((DP_FAILED r = true /\ op_fields st' = op_fields st /\ events st' = events st)
        \/ (r = DP_OK /\ op_fields st' = <[op := mk_op m p]> (op_fields st)
            /\ events st' = events st ++ [EvPrepared p m])).
Proof.
  intros Hx Hsa. unfold crypto_prepare. set (x1 := set_l3_len 40 (set_l2_len 14 x)).
  erewrite M_bind_Some; [|by apply (on_mbuf_run _ _ x _ tt x1)].
  erewrite M_bind_Some; [|by apply sa_at_run].
  erewrite M_bind_Some; [|apply get_mbuf_run; cbn; apply lookup_insert_eq].
  erewrite M_bind_Some; [|reflexivity]. cbn [ipsec_lib upd set_mbufs].
  pose proof (prepare_law (ipsec_lib st) (sa_ipsec_session sa) x1) as Hlaw.
  destruct (rte_ipsec_pkt_crypto_prepare _ _ x1) as [[ok x2] lib']. cbn in Hlaw.
  apply kept_info in Hlaw as (Hi & Hm & H2 & H3).
  erewrite M_bind_Some; [|reflexivity]. erewrite M_bind_Some; [|reflexivity].
  destruct ok; cbn [negb]; eexists _, _, x2; (split; [reflexivity|]); cbn; rewrite insert_insert_eq.
  - split_and!; [done..|]. right. done.
  - split_and!; [done..|]. left. by rewrite dp_failed_error.
Qed.

(** ** Stage invariants *)

Section burst.
Context (e : crypto_env) (objs : list ptr) (sa_of : ptr -> option ptr).
(** facts about each packet, and what the gate adds for a packet and its
    association *)
Context (B : ptr -> Z * Z * Z * bool -> Prop) (G : ptr -> ptr -> Z * Z * Z * bool -> Prop).
Hypothesis Hsa : forall m p, sa_of m = Some p -> exists sa, ipsec_heap (cenv_ipsec e) !! p = Some (ObjSa sa).

Definition undecided st : Prop :=
  forall m, m ∈ objs -> exists x, mbufs st !! m = Some x /\ crypto_failed (mark x) = true /\ B m (info x).

(** Packet [m] has been handed to the association [p]. *)
Definition handed st m p : Prop :=
  m ∈ objs /\ sa_of m = Some p /\ EvPrepared p m ∈ events st
  /\ exists x, mbufs st !! m = Some x /\ l2_len x = 14 /\ l3_len x = 40 /\ G m p (info x).

Record prepared (ops : list ptr) (prs : list (ptr * ptr)) st : Prop := {
  pr_undecided : undecided st;
  pr_handed m p : (m, p) ∈ prs -> handed st m p;
  pr_ops k m p : prs !! k = Some (m, p) ->
    exists op, ops !! k = Some op /\ op_fields st !! op = Some (mk_op m p);
  pr_nodup : NoDup prs.*1
}.

(** A change to one packet that is not handed over yet. *)
Lemma undecided_upd st st' m x' :
  undecided st -> mbufs st' = <[m := x']> (mbufs st) -> crypto_failed (mark x') = true -> B m (info x') ->
  undecided st'.
Proof.
  intros Hu Hm Hf HB m' Hm'. rewrite Hm, lookup_insert. case_decide; subst; [by exists x'|]. by apply Hu.
Qed.

Lemma handed_other st st' m x' m' p' evs :
  handed st m' p' -> mbufs st' = <[m := x']> (mbufs st) -> m <> m' -> events st' = events st ++ evs ->
  handed st' m' p'.
Proof.
  intros (? & ? & ? & x & ? & ?) Hm Hne He. split_and!; [done..| |].
  - rewrite He. apply elem_of_app. by left.
  - exists x. by rewrite Hm, lookup_insert_ne.
Qed.

(** What is asked of a gate: it returns, and touches only the packet. *)
Definition gate_ok (gate : ptr -> ptr -> M burst_state bool) : Prop :=
  forall m p st x, m ∈ objs -> sa_of m = Some p -> mbufs st !! m = Some x ->
    crypto_failed (mark x) = true -> B m (info x) ->
    exists b x', gate m p st = Some (b, upd st m x')
      /\ crypto_failed (mark x') = true /\ B m (info x') /\ (b = true -> G m p (info x')).

Lemma prepared_upd ops prs st st' m x' :
  prepared ops prs st -> m ∉ prs.*1 -> mbufs st' = <[m := x']> (mbufs st) ->
  crypto_failed (mark x') = true -> B m (info x') -> op_fields st' = op_fields st -> events st' = events st ->
  prepared ops prs st'.
Proof.
  intros [Hu Hh Ho Hn] Hm Hx Hf HB Hop Hev. split; [by eapply undecided_upd | | by rewrite Hop | done].
  intros m' p' Hin. eapply (handed_other st st' m x' m' p' []); [by apply Hh | done | | by rewrite app_nil_r].
  intros <-. apply Hm. apply list_elem_of_fmap. by exists (m, p').
Qed.

Lemma prepared_snoc ops prs st st' m p x' op :
  NoDup ops -> prepared ops prs st -> m ∉ prs.*1 -> ops !! length prs = Some op ->
  m ∈ objs -> sa_of m = Some p -> mbufs st' = <[m := x']> (mbufs st) ->
  crypto_failed (mark x') = true -> B m (info x') -> G m p (info x') -> l2_len x' = 14 -> l3_len x' = 40 ->
  op_fields st' = <[op := mk_op m p]> (op_fields st) -> events st' = events st ++ [EvPrepared p m] ->
  prepared ops (prs ++ [(m, p)]) st'.
Proof.
  intros Hnd [Hu Hh Ho Hn] Hm Hop Hin Hsam Hx Hf HB HG H2 H3 Hop' Hev. split.
  - by eapply undecided_upd.
  - intros m' p' [Hin'|Hin']%elem_of_app.
    + eapply handed_other; [by apply Hh | done | | done]. intros <-. apply Hm, list_elem_of_fmap. by exists (m, p').
    + apply list_elem_of_singleton in Hin' as [= -> ->]. split_and!; [done..| |].
      * rewrite Hev. apply elem_of_app. right. by apply list_elem_of_singleton.
      * exists x'. rewrite Hx. by rewrite lookup_insert_eq.
  - intros k m' p' Hk. apply lookup_snoc_Some in Hk as [[Hlt Hk]|[-> [= <- <-]]].
    + destruct (Ho k m' p' Hk) as (op' & Hop1 & Hop2). exists op'. split; [done|].
      rewrite Hop', lookup_insert_ne; [done|]. intros <-. pose proof (NoDup_lookup _ _ _ _ Hnd Hop Hop1). lia.
    + exists op. rewrite Hop'. split; [done|]. apply lookup_insert_eq.
  - rewrite fmap_app. apply NoDup_app. split_and!; [done| |apply NoDup_singleton].
    intros m' H1 ->%list_elem_of_singleton. done.
Qed.

(** ** Preparing the burst *)

Lemma prepare_loop_run gate ops l st prs :
  gate_ok gate -> NoDup ops -> prepared ops prs st ->
  (forall m o, (m, o) ∈ l -> m ∈ objs /\ o = sa_of m) -> NoDup (prs.*1 ++ l.*1) ->
  (length prs + length l <= length ops)%nat ->
  exists prs' st', prepare_loop e gate l ops (length prs) st = Some (length prs', st')
    /\ prepared ops prs' st' /\ device st' = device st /\ live_ops st' = live_ops st
    /\ (length prs' <= length ops)%nat.
Proof.
  intros Hg Hnd; revert st prs; induction l as [|[m o] l IH]; intros st prs Hp Hl Hdup Hlen.
  { exists prs, st. split_and!; try done. cbn in Hlen. lia. }
  destruct (Hl m o) as [Hm ->]; [by left|]. cbn [fmap list_fmap fst] in Hdup. cbn [length] in Hlen.
  assert (m ∉ prs.*1) as Hnm.
  { apply NoDup_app in Hdup as (_ & Hd & _). intros Hin. apply (Hd m Hin). by left. }
  assert (NoDup (prs.*1 ++ l.*1)) as Hdup'.
  { apply NoDup_app in Hdup as (? & Hd & [_ ?]%NoDup_cons). apply NoDup_app. split_and!; try done.
    intros y Hy Hy'. apply (Hd y Hy). by right. }
  assert (forall m' o', (m', o') ∈ l -> m' ∈ objs /\ o' = sa_of m') as Hl' by (intros; apply Hl; by right).
  cbn [prepare_loop]. destruct (sa_of m) as [p|] eqn:Hs; [|apply IH; try done; lia].
  destruct (pr_undecided _ _ _ Hp m Hm) as (x & Hx & Hf & HB).
  destruct (Hg m p st x Hm Hs Hx Hf HB) as (b & x1 & Hgate & Hf1 & HB1 & HG).
  erewrite M_bind_Some; [|exact Hgate].
  assert (prepared ops prs (upd st m x1)) as Hp1 by (by eapply prepared_upd).
  destruct b; cbn [negb]; [|destruct (IH (upd st m x1) prs) as (prs' & st' & ? & ? & ? & ? & ?); try done; [lia|]; eauto 10].
  destruct (lookup_lt_is_Some_2 ops (length prs)) as [op Hop]; [lia|]. rewrite Hop.
  erewrite M_bind_Some; [|reflexivity]. destruct (Hsa m p Hs) as [sa Hsap].
  destruct (crypto_prepare_run e (upd st m x1) m p op x1 sa) as
    (r & st2 & x2 & Hrun & Hm2 & Hi2 & Hk2 & H2 & H3 & Hd2 & Hlv2 & Hcase); [apply lookup_insert_eq | done |].
  erewrite M_bind_Some; [|exact Hrun]. rewrite <-Hi2 in HB1, HG. rewrite <-Hk2 in Hf1.
  destruct Hcase as [(-> & Hop2 & Hev2)|(-> & Hop2 & Hev2)].
  - destruct (IH st2 prs) as (prs' & st' & ? & ? & Hd & Hlv & ?); try done; [by eapply prepared_upd | lia|].
    exists prs', st'. split_and!; try done; [by rewrite Hd, Hd2 | by rewrite Hlv, Hlv2].
  - change (DP_FAILED DP_OK) with false. cbv iota.
    destruct (IH st2 (prs ++ [(m, p)])) as (prs' & st' & Hrun' & ? & Hd & Hlv & ?);
      [by eapply (prepared_snoc ops prs (upd st m x1)); auto | done | | rewrite length_app; cbn; lia |].
    + rewrite fmap_app. cbn. by rewrite <-app_assoc.
    + rewrite length_app, Nat.add_1_r in Hrun'. exists prs', st'.
      split_and!; try done; [by rewrite Hd, Hd2 | by rewrite Hlv, Hlv2].
Qed.

(** ** Submitting *)

(** Changing the bytes or the flags of a packet keeps the invariant. *)
Lemma prepared_kept ops prs st st' m x x' evs :
  prepared ops prs st -> mbufs st !! m = Some x -> kept x' = kept x ->
  mbufs st' = <[m := x']> (mbufs st) -> op_fields st' = op_fields st -> events st' = events st ++ evs ->
  prepared ops prs st'.
Proof.
  intros [Hu Hh Ho Hn] Hx Hk Hm Hop Hev. apply kept_info in Hk as (Hi & Hmk & H2 & H3).
  split; [| |by rewrite Hop|done].
  - intros m' Hm'. rewrite Hm, lookup_insert. destruct (Hu m' Hm') as (y & Hy & Hf & HB).
    case_decide; subst; [|by exists y]. assert (x = y) as <- by congruence. exists x'. by rewrite Hmk, Hi.
  - intros m' p' Hin. destruct (Hh m' p' Hin) as (? & ? & ? & y & Hy & ? & ? & ?).
    split_and!; [done..| |]; [rewrite Hev; apply elem_of_app; by left|]. rewrite Hm, lookup_insert.
    case_decide; subst; [|by exists y]. assert (x = y) as <- by congruence. exists x'. by rewrite H2, H3, Hi.
Qed.

Lemma prepared_device ops prs st d : prepared ops prs st -> prepared ops prs (set_device d st).
Proof. intros [Hu Hh Ho Hn]. by split. Qed.

(** The operations in use, and the packets they are for. *)
Lemma prepared_op ops prs st op : prepared ops prs st -> op ∈ take (length prs) ops ->
  exists m p x, (m, p) ∈ prs /\ op_fields st !! op = Some (mk_op m p) /\ mbufs st !! m = Some x.
Proof.
  intros Hp (k & Hk)%list_elem_of_lookup. apply lookup_take_Some in Hk as [Hk Hlt].
  destruct (lookup_lt_is_Some_2 prs k Hlt) as [[m p] Hmp].
  destruct (pr_ops _ _ _ Hp k m p Hmp) as (op' & Hop & Hf). simplify_eq.
  assert ((m, p) ∈ prs) as Hin by (apply list_elem_of_lookup; eauto).
  destruct (pr_handed _ _ _ Hp m p Hin) as (_ & _ & _ & x & Hx & _). by exists m, p, x.
Qed.

Definition completed st (d : done_op) : Prop :=
  exists o, op_fields st !! done_addr d = Some o /\ EvCompleted (op_m o) (done_ok d) ∈ events st.

Lemma complete_each ops prs st (l : list (done_op * rte_buf)) :
  prepared ops prs st -> (forall x, x ∈ l -> done_addr x.1 ∈ take (length prs) ops) ->
  exists st', for_each (fun x =>
          fields ← gets op_fields;
          o ← get_some (fields !! done_addr x.1);
          on_mbuf (op_m o) (modify (set_buf x.2)) ;;
          log_event (EvCompleted (op_m o) (done_ok x.1))) l st = Some (tt, st')
    /\ prepared ops prs st' /\ device st' = device st /\ live_ops st' = live_ops st
    /\ op_fields st' = op_fields st /\ (exists evs, events st' = events st ++ evs)
    /\ forall x, x ∈ l -> completed st' x.1.
Proof.
  revert st; induction l as [|[d b] l IH]; intros st Hp Hl.
  { exists st. split_and!; try done; [exists []; by rewrite app_nil_r|]. intros x Hx. by apply elem_of_nil in Hx. }
  destruct (prepared_op ops prs st (done_addr d) Hp) as (m & p & x & Hin & Hop & Hx); [by apply (Hl (d, b)); left|].
  set (st1 := mk_burst (<[m := set_buf b x]> (mbufs st)) (live_ops st) (op_fields st) (device st)
                (ipsec_lib st) (events st ++ [EvCompleted m (done_ok d)])).
  assert (prepared ops prs st1) as Hp1 by (by eapply (prepared_kept ops prs st st1 m x (set_buf b x))).
  destruct (IH st1 Hp1) as (st' & Hrun & Hp' & Hd & Hlv & Hof & (evs & Hev) & Hc); [intros; apply Hl; by right|].
  exists st'. split.
  { cbn [for_each]. erewrite M_bind_Some; [exact Hrun|]. erewrite M_bind_Some; [|reflexivity]. cbn [fst].
    rewrite Hop. erewrite M_bind_Some; [|reflexivity]. erewrite M_bind_Some; [|by eapply on_mbuf_run]. done. }
  split_and!; try done; [eexists; rewrite Hev; cbn; by rewrite <-app_assoc|].
  intros y [-> | Hy]%elem_of_cons; [|by apply Hc]. exists (mk_op m p). split; [by rewrite Hof|].
  rewrite Hev. cbn. rewrite !elem_of_app, list_elem_of_singleton. auto.
Qed.

Lemma dequeue_loop_run ops prs enq retries dequeued enqueued done st :
  NoDup enq -> (forall op, op ∈ enq -> op ∈ take (length prs) ops) -> prepared ops prs st ->
  Permutation enq ((done_addr <$> done) ++ dev_pending (device st)) ->
  (forall d, d ∈ done -> completed st d) ->
  exists done' st', dequeue_loop retries dequeued enqueued done st = Some (done', st')
    /\ prepared ops prs st' /\ live_ops st' = live_ops st
    /\ Permutation enq ((done_addr <$> done') ++ dev_pending (device st'))
    /\ (forall d, d ∈ done' -> completed st' d).
Proof.
  intros Hnd Henq; revert dequeued done st; induction retries as [|retries IH]; intros dequeued done st Hp Hperm Hc;
    [by exists done, st|].
  cbn [dequeue_loop]. destruct (dequeued <? enqueued)%nat; [|by exists done, st].
  erewrite M_bind_Some; [|reflexivity]. pose proof (dequeue_law (device st) (enqueued - dequeued)) as Hlaw.
  destruct (rte_cryptodev_dequeue_burst (device st) (enqueued - dequeued)) as [l d'].
  destruct Hlaw as [_ Hpend]. erewrite M_bind_Some; [|reflexivity].
  destruct (complete_each ops prs (set_device d' st) l) as (st1 & Hrun & Hp1 & Hd1 & Hlv1 & Hof1 & (evs & Hev1) & Hc1).
  { by apply prepared_device. }
  { intros x Hx. apply Henq. rewrite Hperm, Hpend. rewrite !elem_of_app. right. left.
    apply list_elem_of_fmap. by exists x. }
  erewrite M_bind_Some; [|exact Hrun].
  destruct (IH (dequeued + length l)%nat (done ++ l.*1) st1) as (done' & st' & Hrun' & Hp' & Hlv' & Hperm' & Hc').
  - done.
  - rewrite Hperm, Hpend, Hd1. cbn. rewrite fmap_app, <-list_fmap_compose, <-app_assoc. done.
  - intros d [Hd|Hd]%elem_of_app.
    + destruct (Hc d Hd) as (op & Hop & Hin). exists op. rewrite Hof1, Hev1. split; [done|].
      cbn. apply elem_of_app. by left.
    + apply list_elem_of_fmap in Hd as (y & -> & Hy). by apply Hc1.
  - exists done', st'. split_and!; try done. by rewrite Hlv', Hlv1.
Qed.

Lemma process_burst_run ops prs st :
  NoDup ops -> prepared ops prs st -> dev_pending (device st) = [] ->
  exists done st', dp_ipsec_process_burst (take (length prs) ops) st = Some (done, st')
    /\ prepared ops prs st' /\ live_ops st' = live_ops st
    /\ NoDup (done_addr <$> done) /\ (forall d, d ∈ done -> done_addr d ∈ take (length prs) ops)
    /\ (forall d, d ∈ done -> completed st' d).
Proof.
  intros Hnd Hp Hidle. unfold dp_ipsec_process_burst. erewrite M_bind_Some; [|reflexivity].
  pose proof (enqueue_law (device st) (take (length prs) ops)) as Hlaw.
  destruct (rte_cryptodev_enqueue_burst _ _) as [n d']. destruct Hlaw as [_ Hpend].
  rewrite Hidle in Hpend. cbn in Hpend. erewrite M_bind_Some; [|reflexivity].
  set (enq := take n (take (length prs) ops)) in *.
  assert (NoDup enq) as Hne by (do 2 apply NoDup_take; done).
  assert (forall op, op ∈ enq -> op ∈ take (length prs) ops) as Hsub by (intros op; apply take_subset).
  destruct (dequeue_loop_run ops prs enq DP_IPSEC_DEQUEUE_RETRIES 0 n [] (set_device d' st))
    as (done & st' & Hrun & Hp' & Hlv & Hperm & Hc).
  { done. } { done. } { by apply prepared_device. } { cbn. by rewrite Hpend. }
  { intros d Hd. by apply elem_of_nil in Hd. }
  exists done, st'. split_and!; try done.
  - rewrite Hperm in Hne. by apply NoDup_app in Hne as (? & _).
  - intros d Hd. apply Hsub. rewrite Hperm. apply elem_of_app. left. apply list_elem_of_fmap. by exists d.
Qed.

(** ** Grouping *)

Lemma done_fields_run ops prs st done :
  prepared ops prs st -> (forall d, d ∈ done -> done_addr d ∈ take (length prs) ops) ->
  exists l, done_fields (op_fields st) done = Some l
    /\ Forall2 (fun d y => op_fields st !! done_addr d = Some y.1 /\ y.2 = done_ok d) done l.
Proof.
  intros Hp; induction done as [|d done IH]; intros Hd; [exists []; by split|].
  destruct (prepared_op ops prs st (done_addr d) Hp) as (m & p & x & _ & Hop & _); [apply Hd; by left|].
  destruct IH as (l & Hl & HF); [intros; apply Hd; by right|].
  exists ((mk_op m p, done_ok d) :: l). cbn. rewrite Hop, Hl. split; [done|]. by constructor.
Qed.

(** Different operations are for different packets. *)
Lemma prepared_op_inj ops prs st a b m p p' :
  prepared ops prs st -> a ∈ take (length prs) ops -> b ∈ take (length prs) ops ->
  op_fields st !! a = Some (mk_op m p) -> op_fields st !! b = Some (mk_op m p') -> a = b.
Proof.
  intros Hp (k & Hk)%list_elem_of_lookup (k' & Hk')%list_elem_of_lookup Ha Hb.
  apply lookup_take_Some in Hk as [Hk Hlt]. apply lookup_take_Some in Hk' as [Hk' Hlt'].
  destruct (lookup_lt_is_Some_2 prs k Hlt) as [[m1 p1] H1]. destruct (lookup_lt_is_Some_2 prs k' Hlt') as [[m2 p2] H2].
  destruct (pr_ops _ _ _ Hp _ _ _ H1) as (? & ? & ?). destruct (pr_ops _ _ _ Hp _ _ _ H2) as (? & ? & ?).
  simplify_eq. assert (k = k') as <-; [|congruence].
  eapply (NoDup_lookup prs.*1 _ _ m); [apply Hp | |]; rewrite list_lookup_fmap; [by rewrite H1 | by rewrite H2].
Qed.

Lemma done_packets_nodup ops prs st done l :
  prepared ops prs st -> (forall d, d ∈ done -> done_addr d ∈ take (length prs) ops) ->
  NoDup (done_addr <$> done) ->
  Forall2 (fun d y => op_fields st !! done_addr d = Some y.1 /\ y.2 = done_ok d) done l ->
  NoDup ((fun y => op_m y.1) <$> l).
Proof.
  intros Hp Hd Hnd HF. revert Hd Hnd.
  induction HF as [|d [o ok] done l [Hf _] HF IH]; intros Hd Hnd; cbn; [constructor|]. cbn in Hnd, Hf.
  apply NoDup_cons in Hnd as [Hnin Hnd]. constructor; [|apply IH; [intros; apply Hd; by right|done]].
  intros ([o' ok'] & Heq & Hin)%list_elem_of_fmap. cbn in Heq.
  destruct (Forall2_elem_of_r _ _ _ _ HF Hin) as (d' & Hd' & Hf' & _). cbn in Hf'.
  apply Hnin. apply list_elem_of_fmap. exists d'. split; [|done].
  destruct o as [m1 p1], o' as [m2 p2]. cbn in Heq. subst m2.
  eapply prepared_op_inj; [done | apply Hd; by left | apply Hd; by right | done | done].
Qed.

Definition failed_flag (x : rte_mbuf) : bool := Z.testbit (ol_flags x) 19.

Lemma flag_each ops prs st (l : list (rte_crypto_op * bool)) :
  prepared ops prs st -> (forall y, y ∈ l -> exists x, mbufs st !! op_m y.1 = Some x) ->
  exists st', for_each flag_done l st = Some (tt, st')
    /\ prepared ops prs st' /\ live_ops st' = live_ops st /\ op_fields st' = op_fields st
    /\ events st' = events st
    /\ (forall m x, mbufs st !! m = Some x ->
          exists x', mbufs st' !! m = Some x' /\ (failed_flag x = true -> failed_flag x' = true))
    /\ forall y x', y ∈ l -> y.2 = false -> mbufs st' !! op_m y.1 = Some x' -> failed_flag x' = true.
Proof.
  revert st; induction l as [|[o ok] l IH]; intros st Hp Hl.
  { exists st. split_and!; try done; [by eauto|]. intros y x' Hy. by apply elem_of_nil in Hy. }
  destruct (Hl (o, ok)) as [x Hx]; [by left|]. cbn [fst] in Hx.
  set (x1 := set_ol_flags (Z.lor (ol_flags x) (Z.lor RTE_MBUF_F_RX_SEC_OFFLOAD
               (if ok : bool then 0 else RTE_MBUF_F_RX_SEC_OFFLOAD_FAILED))) x).
  assert (failed_flag x1 = failed_flag x || negb ok) as Hfl.
  { unfold failed_flag, x1. cbn [ol_flags set_ol_flags]. rewrite !Z.lor_spec. by destruct ok. }
  set (st1 := upd st (op_m o) x1).
  assert (prepared ops prs st1) as Hp1.
  { eapply (prepared_kept ops prs st st1 (op_m o) x x1 []); try done. by rewrite app_nil_r. }
  destruct (IH st1 Hp1) as (st' & Hrun & Hp' & Hlv & Hof & Hev & Hmono & Hset).
  { intros y Hy. unfold st1. rewrite lookup_upd. case_decide; [by eexists|]. apply Hl. by right. }
  exists st'. split; [cbn [for_each]; erewrite M_bind_Some; [exact Hrun|]; by eapply on_mbuf_run|].
  split_and!; try done.
  - intros m y Hy. destruct (Hmono m (if decide (op_m o = m) then x1 else y)) as (x' & Hx' & Hi).
    { unfold st1. rewrite lookup_upd. by case_decide. }
    exists x'. split; [done|]. intros Hf. apply Hi. case_decide; [|done]. subst m.
    rewrite Hfl. assert (x = y) as -> by congruence. by rewrite Hf.
  - intros y x' [-> | Hy]%elem_of_cons Hok Hx'; [|by eapply Hset]. cbn in Hok, Hx'. subst ok.
    destruct (Hmono (op_m o) x1) as (x2 & Hx2 & Hi); [unfold st1; rewrite lookup_upd; by rewrite decide_True|].
    assert (x' = x2) as -> by congruence. apply Hi. rewrite Hfl. apply orb_true_r.
Qed.

(** The (association, packet) pairs of the groups, in order. *)
Definition grouped (gs : list (ptr * list ptr)) : list (ptr * ptr) :=
  gs ≫= fun g => pair (fst g) <$> snd g.

(** A packet waiting for its association's finalisation. *)
Definition waiting st m p : Prop :=
  handed st m p
  /\ forall x, mbufs st !! m = Some x -> failed_flag x = false -> EvCompleted m true ∈ events st.

Lemma crypto_group_run ops prs st done :
  prepared ops prs st -> NoDup (done_addr <$> done) ->
  (forall d, d ∈ done -> done_addr d ∈ take (length prs) ops) -> (forall d, d ∈ done -> completed st d) ->
  exists gs st', crypto_group done st = Some (gs, st')
    /\ undecided st' /\ live_ops st' = live_ops st
    /\ NoDup (grouped gs).*2 /\ Forall (fun g => snd g <> []) gs
    /\ forall p m, (p, m) ∈ grouped gs -> waiting st' m p.
Proof.
  intros Hp Hnd Hd Hc. destruct (done_fields_run ops prs st done Hp Hd) as (l & Hl & HF).
  pose proof (done_packets_nodup ops prs st done l Hp Hd Hnd HF) as Hndm.
  assert (forall y, y ∈ l -> exists m p d, y = (mk_op m p, done_ok d) /\ (m, p) ∈ prs /\ d ∈ done
            /\ op_fields st !! done_addr d = Some (mk_op m p)) as Hly.
  { intros [o ok] Hy. destruct (Forall2_elem_of_r _ _ _ _ HF Hy) as (d & Hd' & Hf & Hok). cbn in Hf, Hok.
    destruct (prepared_op ops prs st (done_addr d) Hp (Hd d Hd')) as (m & p & x & Hin & Hop & _).
    exists m, p, d. split_and!; try done. congruence. }
  destruct (flag_each ops prs st l Hp) as (st' & Hrun & Hp' & Hlv & Hof & Hev & _ & Hset).
  { intros y Hy. destruct (Hly y Hy) as (m & p & d & -> & Hin & _). cbn.
    destruct (pr_handed _ _ _ Hp m p Hin) as (_ & _ & _ & x & Hx & _). by exists x. }
  destruct (group_law l) as [Hne [rest Hperm]]. fold (grouped (rte_ipsec_pkt_crypto_group l)) in Hperm.
  exists (rte_ipsec_pkt_crypto_group l), st'. split.
  { unfold crypto_group. erewrite M_bind_Some; [|reflexivity]. rewrite Hl. erewrite M_bind_Some; [|reflexivity].
    erewrite M_bind_Some; [|exact Hrun]. done. }
  split_and!; [apply Hp' | done | | done |].
  - assert (NoDup ((fun y => (op_ses y.1, op_m y.1)) <$> l).*2) as H2.
    { rewrite <-list_fmap_compose. exact Hndm. }
    rewrite Hperm, fmap_app in H2. by apply NoDup_app in H2 as (? & _).
  - intros p m Hin. assert ((p, m) ∈ (fun y => (op_ses y.1, op_m y.1)) <$> l) as Hin'.
    { rewrite Hperm. apply elem_of_app. by left. }
    apply list_elem_of_fmap in Hin' as (y & Heq & Hy). destruct (Hly y Hy) as (m' & p' & d & -> & Hprs & Hdd & Hop).
    cbn in Heq. injection Heq as -> ->. split; [by apply Hp'|]. intros x Hx Hflag.
    destruct (done_ok d) eqn:Hok; [|by rewrite (Hset (mk_op m' p', false) x Hy eq_refl Hx) in Hflag].
    destruct (Hc d Hdd) as (o & Ho & Hin2). rewrite Hev. rewrite Hop in Ho. injection Ho as <-. by rewrite Hok in Hin2.
Qed.

(** ** Finalising *)

Lemma get_mbufs_run st l : (forall m, m ∈ l -> exists x, mbufs st !! m = Some x) ->
  exists ms, get_mbufs l st = Some (ms, st) /\ ms.*1 = l
    /\ forall m x, (m, x) ∈ ms -> mbufs st !! m = Some x.
Proof.
  induction l as [|m l IH]; intros Hl.
  { exists []. split_and!; try done. intros m x H. by apply elem_of_nil in H. }
  destruct (Hl m) as [x Hx]; [by left|]. destruct IH as (ms & Hrun & H1 & Hms); [intros; apply Hl; by right|].
  exists ((m, x) :: ms). split_and!.
  - cbn [get_mbufs]. erewrite M_bind_Some; [|by apply get_mbuf_run]. erewrite M_bind_Some; [|exact Hrun]. done.
  - cbn. by rewrite H1.
  - intros m' x' [[= -> ->]|H]%elem_of_cons; [done | by apply Hms].
Qed.

Lemma put_all_run st ms : NoDup ms.*1 ->
  exists st', for_each (fun y => put_mbuf y.1 y.2) ms st = Some (tt, st')
    /\ (forall m x, (m, x) ∈ ms -> mbufs st' !! m = Some x)
    /\ (forall m, m ∉ ms.*1 -> mbufs st' !! m = mbufs st !! m)
    /\ live_ops st' = live_ops st /\ events st' = events st.
Proof.
  revert st; induction ms as [|[m x] ms IH]; intros st Hnd; cbn in Hnd.
  { exists st. split_and!; try done. intros m x H. by apply elem_of_nil in H. }
  apply NoDup_cons in Hnd as [Hm Hnd]. destruct (IH (upd st m x) Hnd) as (st' & Hrun & Hin & Hout & Hl & He).
  exists st'. split_and!; try done.
  - intros m' x' [[= -> ->]|H]%elem_of_cons; [|by apply Hin].
    rewrite Hout, lookup_upd by done. by rewrite decide_True.
  - intros m' [Hne Hn]%not_elem_of_cons. rewrite Hout, lookup_upd by done. by rewrite decide_False.
Qed.

(** A step of the loop over a group on one packet. *)
Definition step_ok (body : ptr -> M burst_state unit) (ev : ptr -> list crypto_event)
    (pre : rte_mbuf -> Prop) (post : rte_mbuf -> Prop) : Prop :=
  forall st m x, mbufs st !! m = Some x -> pre x ->
    exists x' st', body m st = Some (tt, st') /\ mbufs st' = <[m := x']> (mbufs st)
      /\ live_ops st' = live_ops st /\ events st' = events st ++ ev m /\ info x' = info x /\ post x'.

Lemma each_run body ev pre post st (ms : list (ptr * rte_mbuf)) :
  step_ok body ev pre post -> NoDup ms.*1 ->
  (forall m x, (m, x) ∈ ms -> mbufs st !! m = Some x /\ pre x) ->
  exists st', for_each (fun y => body y.1) ms st = Some (tt, st')
    /\ (forall m x, (m, x) ∈ ms -> exists x', mbufs st' !! m = Some x' /\ info x' = info x /\ post x')
    /\ (forall m, m ∉ ms.*1 -> mbufs st' !! m = mbufs st !! m)
    /\ live_ops st' = live_ops st /\ events st' = events st ++ (ms.*1 ≫= ev).
Proof.
  intros Hb; revert st; induction ms as [|[m x] ms IH]; intros st Hnd Hms; cbn in Hnd.
  { exists st. split_and!; try done; [|by rewrite app_nil_r]. intros m x H. by apply elem_of_nil in H. }
  apply NoDup_cons in Hnd as [Hm Hnd]. destruct (Hms m x) as [Hx Hpre]; [by left|].
  destruct (Hb st m x Hx Hpre) as (x' & st1 & Hrun1 & Hm1 & Hl1 & He1 & Hi1 & Hpost).
  destruct (IH st1 Hnd) as (st' & Hrun & Hin & Hout & Hl & He).
  { intros m' y Hy. assert (m <> m') by (intros <-; apply Hm, list_elem_of_fmap; by exists (m, y)).
    rewrite Hm1, lookup_insert_ne by done. apply Hms. by right. }
  exists st'. split_and!.
  - cbn [for_each]. erewrite M_bind_Some; [exact Hrun | exact Hrun1].
  - intros m' y [[= -> ->]|Hy]%elem_of_cons; [|by apply Hin]. exists x'. rewrite Hout by done.
    by rewrite Hm1, lookup_insert_eq.
  - intros m' [Hne Hn]%not_elem_of_cons. by rewrite Hout, Hm1, lookup_insert_ne.
  - by rewrite Hl, Hl1.
  - rewrite He, He1. cbn. by rewrite <-app_assoc.
Qed.

Context (K : rte_mbuf -> Prop).

(** A packet whose failure mark is cleared has been through every stage,
    under the association its key names. *)
Definition cleared st m x : Prop :=
  exists p, sa_of m = Some p /\ EvPrepared p m ∈ events st /\ EvCompleted m true ∈ events st
    /\ EvFinalized p m ∈ events st /\ G m p (info x) /\ K x.

Definition decided st : Prop :=
  forall m, m ∈ objs -> exists x, mbufs st !! m = Some x /\ B m (info x)
    /\ (crypto_failed (mark x) = false -> cleared st m x).

Definition marked st m : Prop := exists x, mbufs st !! m = Some x /\ crypto_failed (mark x) = true.

Lemma undecided_decided st : undecided st -> decided st.
Proof. intros Hu m Hm. destruct (Hu m Hm) as (x & ? & Hf & ?). exists x. split_and!; try done. by rewrite Hf. Qed.

Lemma cleared_mono st st' m x evs : cleared st m x -> events st' = events st ++ evs -> cleared st' m x.
Proof.
  intros (p & ? & ? & ? & ? & ? & ?) He. exists p. rewrite He, !elem_of_app. split_and!; try done; by left.
Qed.

Lemma waiting_other st st' m p evs :
  waiting st m p -> mbufs st' !! m = mbufs st !! m -> events st' = events st ++ evs -> waiting st' m p.
Proof.
  intros [(? & ? & ? & ?) Hw] Hm He. split; [split_and!; try done; [rewrite He; apply elem_of_app; by left | by rewrite Hm]|].
  rewrite Hm, He. intros x Hx Hf. apply elem_of_app. left. by eapply Hw.
Qed.

(** What finalisation leaves of the packets of one group. *)
Lemma process_packets l ses (ms : list (ptr * rte_mbuf)) n ms' l' :
  rte_ipsec_pkt_process l ses ms = (n, ms', l') -> NoDup ms.*1 ->
  NoDup ms'.*1 /\ (forall m, m ∈ ms'.*1 <-> m ∈ ms.*1)
  /\ (forall m x', (m, x') ∈ ms' -> exists x, (m, x) ∈ ms /\ kept x' = kept x)
  /\ forall m x', (m, x') ∈ take n ms' ->
       l2_len x' + l3_len x' <= pkt_len x' /\ exists x, (m, x) ∈ ms /\ failed_flag x = false.
Proof.
  intros Hrun Hnd. pose proof (process_law l ses ms) as Hlaw. rewrite Hrun in Hlaw.
  destruct Hlaw as (_ & Hperm & Hsucc).
  assert (Permutation ms.*1 ms'.*1) as Hp1.
  { apply (Permutation_map fst) in Hperm. change (Permutation ((prod_map id kept <$> ms).*1)
      ((prod_map id kept <$> ms').*1)) in Hperm. by rewrite <-!list_fmap_compose in Hperm. }
  split_and!.
  - by rewrite <-Hp1.
  - intros m. by rewrite Hp1.
  - intros m x' Hin. assert ((m, kept x') ∈ prod_map id kept <$> ms) as H.
    { rewrite Hperm. apply list_elem_of_fmap. by exists (m, x'). }
    apply list_elem_of_fmap in H as ([m1 x] & Heq & H1).
    assert (m = m1) as -> by exact (f_equal fst Heq). exists x. split; [done | exact (f_equal snd Heq)].
  - intros m x' Hin. destruct (Hsucc m x' Hin) as (Hlen & x & Hx & Hfl). split; [done|]. exists x.
    split; [done|]. by apply (land_pow2 (ol_flags x) 19).
Qed.

Lemma not_in_both {A C} n (l : list (A * C)) a : NoDup l.*1 -> a ∈ (take n l).*1 -> a ∉ (drop n l).*1.
Proof.
  intros Hnd Ht Hd. rewrite <-(take_drop n l), fmap_app in Hnd. apply NoDup_app in Hnd as (_ & H & _). by apply (H a).
Qed.

Section group.
Context (ok bad : ptr -> M burst_state unit).
Hypothesis Hok : step_ok ok (fun _ => []) (fun x => 54 <= pkt_len x /\ crypto_failed (mark x) = true) (fun x => crypto_failed (mark x) = false -> K x).
Hypothesis Hbad : step_ok bad (fun _ => []) (fun x => crypto_failed (mark x) = true)
                    (fun x => crypto_failed (mark x) = true).

Lemma ok_logged p : step_ok (fun m => log_event (EvFinalized p m) ;; ok m) (fun m => [EvFinalized p m])
  (fun x => 54 <= pkt_len x /\ crypto_failed (mark x) = true) (fun x => crypto_failed (mark x) = false -> K x).
Proof using Hok.
  intros st m x Hx Hpre.
  destruct (Hok (mk_burst (mbufs st) (live_ops st) (op_fields st) (device st) (ipsec_lib st)
                   (events st ++ [EvFinalized p m])) m x Hx Hpre) as (x' & st' & Hrun & H1 & H2 & H3 & H4 & H5).
  exists x', st'. split; [erewrite M_bind_Some; [exact Hrun | done]|]. cbn in *. rewrite app_nil_r in H3. by split_and!.
Qed.

Lemma group_loops st p n ms' : NoDup ms'.*1 ->
  (forall m x, (m, x) ∈ ms' -> mbufs st !! m = Some x /\ crypto_failed (mark x) = true) ->
  (forall m x, (m, x) ∈ take n ms' -> 54 <= pkt_len x) ->
  exists st', (for_each (fun y => log_event (EvFinalized p y.1) ;; ok y.1) (take n ms') ;;
               for_each (fun y => bad y.1) (drop n ms')) st = Some (tt, st')
    /\ (forall m x, (m, x) ∈ ms' -> exists x', mbufs st' !! m = Some x' /\ info x' = info x
          /\ (crypto_failed (mark x') = false -> (m, x) ∈ take n ms' /\ K x' /\ EvFinalized p m ∈ events st'))
    /\ (forall m, m ∉ ms'.*1 -> mbufs st' !! m = mbufs st !! m)
    /\ live_ops st' = live_ops st /\ exists evs, events st' = events st ++ evs.
Proof using Hok Hbad.
  intros Hnd Hms Hlen.
  assert (NoDup (take n ms').*1 /\ NoDup (drop n ms').*1) as [Hn1 Hn2].
  { rewrite <-(take_drop n ms'), fmap_app in Hnd. by apply NoDup_app in Hnd as (? & _ & ?). }
  destruct (each_run _ _ _ _ st (take n ms') (ok_logged p) Hn1) as (st1 & Hr1 & Hi1 & Ho1 & Hl1 & He1).
  { intros m x Hin. apply take_subset in Hin as Hin'. destruct (Hms m x Hin'). split_and!; try done. by eapply Hlen. }
  destruct (each_run _ _ _ _ st1 (drop n ms') Hbad Hn2) as (st2 & Hr2 & Hi2 & Ho2 & Hl2 & He2).
  { intros m x Hin. rewrite Ho1.
    - apply Hms. by eapply drop_subset.
    - intros Ht. apply (not_in_both n ms' m Hnd Ht). apply list_elem_of_fmap. by exists (m, x). }
  exists st2. split; [erewrite M_bind_Some; [exact Hr2 | exact Hr1]|]. split_and!.
  - intros m x Hin. rewrite <-(take_drop n ms') in Hin. apply elem_of_app in Hin as [Hin|Hin].
    + destruct (Hi1 m x Hin) as (x' & Hx' & Hinf & HK). assert (m ∈ (take n ms').*1) as Hm.
      { apply list_elem_of_fmap. by exists (m, x). }
      exists x'. rewrite Ho2 by (by apply not_in_both). split_and!; try done. intros Hf. split_and!; [done | auto |].
      rewrite He2, He1, !elem_of_app. left. right. apply list_elem_of_bind. exists m. split; [|done].
      by apply list_elem_of_singleton.
    + destruct (Hi2 m x Hin) as (x' & Hx' & Hinf & Hf). exists x'. split_and!; try done. by rewrite Hf.
  - intros m Hm. rewrite <-(take_drop n ms'), fmap_app, not_elem_of_app in Hm. destruct Hm as [H1 H2].
    by rewrite Ho2, Ho1.
  - by rewrite Hl2, Hl1.
  - rewrite He2, He1, <-app_assoc. by eexists.
Qed.

Lemma process_group_run st p ms0 sa :
  decided st -> NoDup ms0 -> (forall m, m ∈ ms0 -> waiting st m p /\ marked st m) ->
  ipsec_heap (cenv_ipsec e) !! p = Some (ObjSa sa) ->
  exists st' evs, process_group e ok bad (p, ms0) st = Some (tt, st') /\ decided st'
    /\ (forall m, m ∉ ms0 -> mbufs st' !! m = mbufs st !! m)
    /\ live_ops st' = live_ops st /\ events st' = events st ++ evs.
Proof using Hok Hbad.
  intros Hdec Hnd Hw Hsap.
  destruct (get_mbufs_run st ms0) as (ms & Hget & Hfst & Hms).
  { intros m Hm. destruct (Hw m Hm) as [_ (x & Hx & _)]. by exists x. }
  destruct (rte_ipsec_pkt_process (ipsec_lib st) (sa_ipsec_session sa) ms) as [[n ms'] lib'] eqn:Hproc.
  destruct (process_packets _ _ _ _ _ _ Hproc) as (Hnd' & Hiff & Hkept & Hsucc); [by rewrite Hfst|].
  rewrite Hfst in Hiff. destruct (put_all_run (set_lib lib' st) ms' Hnd') as (st1 & Hr1 & Hi1 & Ho1 & Hl1 & He1).
  destruct (group_loops st1 p n ms' Hnd') as (st2 & Hr2 & Hi2 & Ho2 & Hl2 & evs & He2).
  { intros m x' Hin. split; [by apply Hi1|]. destruct (Hkept m x' Hin) as (x & Hx & Hk).
    apply kept_info in Hk as (_ & -> & _). apply Hms in Hx.
    destruct (Hw m) as [_ (y & Hy & Hf)]; [apply Hiff, list_elem_of_fmap; by exists (m, x')|]. congruence. }
  { intros m x' Hin. destruct (Hsucc m x' Hin) as [Hlen _]. apply take_subset in Hin as Hin'.
    destruct (Hkept m x' Hin') as (x & Hx & Hk). apply kept_info in Hk as (_ & _ & H2 & H3). apply Hms in Hx.
    destruct (Hw m) as [[(_ & _ & _ & y & Hy & Hy2 & Hy3 & _) _] _];
      [apply Hiff, list_elem_of_fmap; by exists (m, x')|]. assert (x = y) as -> by congruence. lia. }
  exists st2, evs. split.
  { unfold process_group. cbn [fst snd]. erewrite M_bind_Some; [|by apply sa_at_run].
    erewrite M_bind_Some; [|exact Hget]. erewrite M_bind_Some; [|reflexivity]. rewrite Hproc.
    erewrite M_bind_Some; [|reflexivity]. erewrite M_bind_Some; [|exact Hr1]. exact Hr2. }
  cbn in Hl1, He1. rewrite He1 in He2. split_and!; [|intros m Hm; by rewrite Ho2, Ho1; rewrite ?Hiff |by rewrite Hl2, Hl1|done].
  intros m Hm. destruct (Hdec m Hm) as (x & Hx & HB & Hcl). destruct (decide (m ∈ ms0)) as [Hin|Hin].
  - destruct (Hw m Hin) as [[(_ & Hsam & Hevp & y & Hy & Hy2 & Hy3 & HG) Hfl] _].
    assert (y = x) as -> by congruence. apply Hiff, list_elem_of_fmap in Hin as ([m1 x1] & Heq & Hin1). cbn in Heq. subst m1.
    destruct (Hkept m x1 Hin1) as (x0 & Hx0 & Hk). apply Hms in Hx0. assert (x0 = x) as -> by congruence.
    apply kept_info in Hk as (Hk & _). destruct (Hi2 m x1 Hin1) as (x2 & Hx2 & Hinf & Hdone).
    exists x2. split_and!; [done | by rewrite Hinf, Hk |]. intros Hf. destruct (Hdone Hf) as (Htake & HK & Hfin).
    destruct (Hsucc m x1 Htake) as [_ (x3 & Hx3 & Hflag)]. apply Hms in Hx3. assert (x3 = x) as -> by congruence.
    exists p. rewrite Hinf, Hk. split_and!; try done; rewrite He2; apply elem_of_app; left; [done|].
    by eapply Hfl.
  - exists x. rewrite Ho2, Ho1 by (by rewrite Hiff). split_and!; try done. intros Hf. by eapply cleared_mono, He2; auto.
Qed.

Lemma groups_run st gs :
  decided st -> NoDup (grouped gs).*2 ->
  (forall p m, (p, m) ∈ grouped gs -> waiting st m p /\ marked st m) ->
  (forall p ms0, (p, ms0) ∈ gs -> exists sa, ipsec_heap (cenv_ipsec e) !! p = Some (ObjSa sa)) ->
  exists st', for_each (process_group e ok bad) gs st = Some (tt, st') /\ decided st'
    /\ live_ops st' = live_ops st.
Proof using Hok Hbad.
  revert st; induction gs as [|[p ms0] gs IH]; intros st Hdec Hnd Hw Hsas; [by exists st|].
  assert (grouped ((p, ms0) :: gs) = (pair p <$> ms0) ++ grouped gs) as Hg by done.
  rewrite Hg, fmap_app, <-list_fmap_compose in Hnd. change (snd ∘ pair p) with (fun m : ptr => m) in Hnd.
  rewrite list_fmap_id in Hnd. apply NoDup_app in Hnd as (Hn1 & Hdisj & Hn2).
  destruct (Hsas p ms0) as [sa Hsap]; [by left|].
  destruct (process_group_run st p ms0 sa) as (st1 & evs & Hr1 & Hd1 & Ho1 & Hl1 & He1); [done|done| |done|].
  { intros m Hm. apply Hw. rewrite Hg. apply elem_of_app. left. apply list_elem_of_fmap. by exists m. }
  destruct (IH st1) as (st' & Hr & Hd & Hl); [done|done| | |].
  - intros p' m Hin. assert (m ∉ ms0) as Hm.
    { intros H. apply (Hdisj m H). apply list_elem_of_fmap. by exists (p', m). }
    destruct (Hw p' m) as [Hwt (x & Hx & Hf)]; [rewrite Hg; apply elem_of_app; by right|].
    split; [by eapply waiting_other; [|apply Ho1|]; eauto|]. exists x. by rewrite Ho1.
  - intros p' ms1 Hin. eapply Hsas. by right.
  - exists st'. split; [cbn [for_each]; erewrite M_bind_Some; [exact Hr | exact Hr1]|]. by rewrite Hl, Hl1.
Qed.
End group.

(** ** The whole round *)

Lemma free_ops_run st ops : NoDup ops -> (forall op, op ∈ ops -> op ∈ live_ops st) ->
  exists st', for_each free_op ops st = Some (tt, st') /\ live_ops st' = live_ops st ∖ list_to_set ops
    /\ mbufs st' = mbufs st /\ events st' = events st.
Proof.
  revert st; induction ops as [|op ops IH]; intros st Hnd Hl.
  { exists st. cbn. split_and!; try done. set_solver. }
  apply NoDup_cons in Hnd as [Hop Hnd].
  destruct (IH (set_live_ops (live_ops st ∖ {[op]}) st) Hnd) as (st' & Hr & Hlv & Hm & He).
  { intros o Ho. cbn. apply elem_of_difference. split; [apply Hl; by right|].
    intros ->%elem_of_singleton. done. }
  exists st'. split_and!; try done.
  - cbn [for_each]. erewrite M_bind_Some; [exact Hr|]. unfold free_op. erewrite M_bind_Some; [|reflexivity].
    rewrite decide_True by (apply Hl; by left). done.
  - rewrite Hlv. cbn. set_solver.
Qed.

(** From marked packets to decided ones: preparing, submitting, finalising and
    freeing the operations. *)
Lemma round_run gate ok bad ops st :
  gate_ok gate ->
  step_ok ok (fun _ => []) (fun x => 54 <= pkt_len x /\ crypto_failed (mark x) = true) (fun x => crypto_failed (mark x) = false -> K x) ->
  step_ok bad (fun _ => []) (fun x => crypto_failed (mark x) = true) (fun x => crypto_failed (mark x) = true) ->
  NoDup objs -> NoDup ops -> length ops = length objs -> undecided st -> dev_pending (device st) = [] ->
  (forall op, op ∈ ops -> op ∈ live_ops st) ->
  exists st', (nb_ops ← prepare_loop e gate (zip objs (sa_of <$> objs)) ops 0;
               (if (0 <? nb_ops)%nat then
                  done ← dp_ipsec_process_burst (take nb_ops ops);
                  groups ← crypto_group done;
                  for_each (process_group e ok bad) groups
                else mret tt) ;;
               for_each free_op ops) st = Some (tt, st')
    /\ decided st' /\ live_ops st' = live_ops st ∖ list_to_set ops.
Proof using Hsa.
  intros Hg Hok Hbad Hno Hnd Hlen Hu Hidle Hlive.
  assert ((zip objs (sa_of <$> objs)).*1 = objs) as Hz by (rewrite fst_zip; [done | by rewrite length_fmap]).
  destruct (prepare_loop_run gate ops (zip objs (sa_of <$> objs)) st []) as (prs & st1 & Hr1 & Hp1 & Hd1 & Hl1 & Hle).
  { done. } { done. }
  { split; [done | | |constructor]; [intros m p H; by apply elem_of_nil in H | done]. }
  { intros m o Hin. apply list_elem_of_lookup in Hin as [i Hi]. apply lookup_zip_with_Some in Hi as (m' & o' & Heq & Hm & Ho).
    injection Heq as -> ->. rewrite list_lookup_fmap, Hm in Ho. injection Ho as <-.
    split; [by eapply list_elem_of_lookup_2 | done]. }
  { cbn. by rewrite Hz. }
  { cbn. rewrite length_zip_with, length_fmap. lia. }
  assert (exists st2, (if (0 <? length prs)%nat then
            done ← dp_ipsec_process_burst (take (length prs) ops);
            groups ← crypto_group done;
            for_each (process_group e ok bad) groups
          else mret tt) st1 = Some (tt, st2) /\ decided st2 /\ live_ops st2 = live_ops st1) as (st2 & Hr2 & Hd2 & Hl2).
  { destruct (0 <? length prs)%nat; [|exists st1; split_and!; try done; apply undecided_decided, Hp1].
    destruct (process_burst_run ops prs st1) as (dl & s2 & Hr & Hp2 & Hl2 & Hn2 & Hin & Hc); [done|done|by rewrite Hd1|].
    destruct (crypto_group_run ops prs s2 dl) as (gs & s3 & Hr3 & Hu3 & Hl3 & Hn3 & Hne & Hw3); [done..|].
    destruct (groups_run ok bad Hok Hbad s3 gs) as (s4 & Hr4 & Hd4 & Hl4); [by apply undecided_decided|done| | |].
    { intros p m Hpm. split; [by apply Hw3|]. destruct (Hw3 p m Hpm) as [(Hm & _) _].
      destruct (Hu3 m Hm) as (x & ? & ? & _). by exists x. }
    { intros p ms0 Hpm. rewrite Forall_forall in Hne. pose proof (Hne _ Hpm) as Hnil. destruct ms0 as [|m ms0]; [done|].
      destruct (Hw3 p m) as [(_ & Hsam & _) _]; [|by apply (Hsa m)].
      apply list_elem_of_bind. exists (p, m :: ms0). split; [by left | done]. }
    exists s4. split; [|by rewrite Hl4, Hl3, Hl2].
    erewrite M_bind_Some; [|exact Hr]. erewrite M_bind_Some; [|exact Hr3]. done. }
  destruct (free_ops_run st2 ops Hnd) as (st3 & Hr3 & Hl3 & Hm3 & He3); [by rewrite Hl2, Hl1|].
  exists st3. split_and!.
  - erewrite M_bind_Some; [|exact Hr1]. erewrite M_bind_Some; [exact Hr3 | exact Hr2].
  - intros m Hm. destruct (Hd2 m Hm) as (x & Hx & HB & Hcl). exists x. rewrite Hm3. split_and!; try done.
    intros Hf. eapply cleared_mono; [by apply Hcl | by rewrite He3, app_nil_r].
  - by rewrite Hl3, Hl2, Hl1.
Qed.
End burst.

(** ** The loops over the whole burst *)

Lemma map_mbufs_run {A} (f : M rte_mbuf A) st objs : NoDup objs ->
  (forall m, m ∈ objs -> exists x a x', mbufs st !! m = Some x /\ f x = Some (a, x')) ->
  exists l st', map_mbufs f objs st = Some (l, st')
    /\ Forall2 (fun m a => exists x x', mbufs st !! m = Some x /\ f x = Some (a, x') /\ mbufs st' !! m = Some x')
         objs l
    /\ (forall m, m ∉ objs -> mbufs st' !! m = mbufs st !! m)
    /\ st' = set_mbufs (mbufs st') st.
Proof.
  revert st; induction objs as [|m objs IH]; intros st Hnd Hf.
  { exists [], st. split_and!; try done. by destruct st. }
  apply NoDup_cons in Hnd as [Hm Hnd]. destruct (Hf m) as (x & a & x' & Hx & Hfx); [by left|].
  destruct (IH (upd st m x') Hnd) as (l & st' & Hr & HF & Ho & Hst).
  { intros m' Hm'. rewrite lookup_upd, decide_False by (by intros <-). apply Hf. by right. }
  exists (a :: l), st'. split_and!.
  - cbn [map_mbufs]. erewrite M_bind_Some; [|by eapply on_mbuf_run]. erewrite M_bind_Some; [|exact Hr]. done.
  - constructor.
    + exists x, x'. split_and!; try done. rewrite Ho, lookup_upd by done. by rewrite decide_True.
    + apply Forall2_same_length_lookup in HF as [Hlen HF]. apply Forall2_same_length_lookup. split; [done|].
      intros i m' a' Hi Ha. destruct (HF i m' a' Hi Ha) as (y & y' & Hy & ? & ?). exists y, y'.
      rewrite lookup_upd, decide_False in Hy; [done|]. intros <-. apply Hm. by eapply list_elem_of_lookup_2.
  - intros m' [Hne Hn]%not_elem_of_cons. rewrite Ho, lookup_upd by done. by rewrite decide_False.
  - rewrite Hst. done.
Qed.

(** The last loop only looks at the packets. *)
Lemma map_mbufs_reads {A} (f : M rte_mbuf A) st objs : NoDup objs ->
  (forall m, m ∈ objs -> exists x a, mbufs st !! m = Some x /\ f x = Some (a, x)) ->
  exists l st', map_mbufs f objs st = Some (l, st')
    /\ Forall2 (fun m a => exists x, mbufs st !! m = Some x /\ f x = Some (a, x)) objs l
    /\ live_ops st' = live_ops st /\ events st' = events st
    /\ (forall m, m ∈ objs -> mbufs st' !! m = mbufs st !! m).
Proof.
  intros Hnd Hf. destruct (map_mbufs_run f st objs Hnd) as (l & st' & Hr & HF & _ & Hst).
  { intros m Hm. destruct (Hf m Hm) as (x & a & ? & ?). by exists x, a, x. }
  assert (forall m a, (exists x x', mbufs st !! m = Some x /\ f x = Some (a, x') /\ mbufs st' !! m = Some x') ->
            m ∈ objs -> (exists x, mbufs st !! m = Some x /\ f x = Some (a, x)) /\ mbufs st' !! m = mbufs st !! m) as H.
  { intros m a (x & x' & Hx & Hfx & Hx') Hm. destruct (Hf m Hm) as (y & a' & Hy & Hfy).
    assert (y = x) as -> by congruence. rewrite Hfy in Hfx. injection Hfx as <- <-. split; [by exists x|congruence]. }
  exists l, st'. split_and!; [done | | by rewrite Hst | by rewrite Hst |].
  - apply Forall2_same_length_lookup in HF as [Hlen HF]. apply Forall2_same_length_lookup. split; [done|].
    intros i m a Hi Ha. apply (H m a); [by eapply HF | by eapply list_elem_of_lookup_2].
  - intros m Hm. apply list_elem_of_lookup in Hm as [i Hi]. destruct (Forall2_lookup_l _ _ _ _ _ HF Hi) as (a & Ha & Hx).
    apply (H m a Hx). by eapply list_elem_of_lookup_2.
Qed.

Definition fail_mark (x : rte_mbuf) : rte_mbuf := set_mark (mk_mark (mark_id (mark x)) (is_recirc (mark x)) true) x.

Lemma mark_all_run st objs : (forall m, m ∈ objs -> exists x, mbufs st !! m = Some x) ->
  exists st', for_each (fun m => on_mbuf m (set_crypto_failed true)) objs st = Some (tt, st')
    /\ live_ops st' = live_ops st
    /\ forall m, exists o, mbufs st !! m = o
         /\ (m ∈ objs -> mbufs st' !! m = fail_mark <$> o) /\ (m ∉ objs -> mbufs st' !! m = o).
Proof.
  revert st; induction objs as [|m objs IH]; intros st Hl.
  { exists st. split_and!; try done. intros m. exists (mbufs st !! m). split_and!; try done.
    intros H. by apply elem_of_nil in H. }
  destruct (Hl m) as [x Hx]; [by left|].
  destruct (IH (upd st m (fail_mark x))) as (st' & Hr & Hlv & Hm').
  { intros m' Hm'. rewrite lookup_upd. case_decide; [by eexists|]. apply Hl. by right. }
  exists st'. split_and!; try done.
  - cbn [for_each]. erewrite M_bind_Some; [exact Hr|]. by eapply on_mbuf_run.
  - intros m'. exists (mbufs st !! m'). split; [done|]. destruct (Hm' m') as (o & Ho & Hin & Hout).
    rewrite lookup_upd in Ho. split.
    + intros [-> | Hin']%elem_of_cons.
      * rewrite decide_True in Ho by done. subst o. rewrite Hx. destruct (decide (m ∈ objs)) as [H|H].
        -- rewrite (Hin H). done.
        -- rewrite (Hout H). done.
      * rewrite (Hin Hin'), <-Ho. case_decide; [subst; by rewrite Hx|done].
    + intros [Hne Hn]%not_elem_of_cons. rewrite (Hout Hn), <-Ho. by rewrite decide_False.
Qed.
End stages.
