(* ===== verification/IpsecProofs.v ===== *)
(** Correctness of the Security Association database: memory safety, the
    ownership invariant, and refinement of a finite map. *)

From S2P Require Import Prelude Errors IpAddr Ipsec.

Section core.
Context `{ERR : RteErrno} `{SAD : RteIpsecSad}.
Implicit Types (h : gmap ptr ipsec_obj) (v : gmap rte_ipsec_sad_key ptr)
  (l : list (option ptr)) (p q : ptr) (sa : dp_ipsec_sa).

(** ** The ownership invariant *)

Definition sa_spec sa : dp_ipsec_sa_spec :=
  mk_spec (sa_spi sa) (sa_vni sa) (sa_dir sa) (sa_src sa) (sa_dst sa).

(** The key an association is filed under. *)
Definition sa_filed_key sa : rte_ipsec_sad_key := spec_key (sa_spec sa).

(** A fully built association: its session and its librte_ipsec state are live
    and are the ones its embedded [rte_ipsec_session] refers to. *)
Definition sa_live h p sa : Prop :=
  h !! p = Some (ObjSa sa)
  /\ exists ses isa x prm,
       sa_session sa = Some ses /\ sa_ipsec_sa sa = Some isa
       /\ h !! ses = Some (ObjSession x) /\ h !! isa = Some (ObjIpsecSa (Some prm))
       /\ sa_ipsec_session sa = mk_session (Some isa) (Some RTE_SECURITY_ACTION_TYPE_NONE) (Some ses).

(** What owns a live object: a slot owns an association, an association owns
    its session and its librte_ipsec state. *)
Definition owner h l (q : ptr) (o : ipsec_obj) : Prop :=
  match o with
  | ObjSa _ => exists i, l !! i = Some (Some q)
  | ObjSession _ => exists i p sa, l !! i = Some (Some p) /\ h !! p = Some (ObjSa sa)
                                   /\ sa_session sa = Some q
  | ObjIpsecSa _ => exists i p sa, l !! i = Some (Some p) /\ h !! p = Some (ObjSa sa)
                                   /\ sa_ipsec_sa sa = Some q
  end.

Record core_inv (wf : dp_ipsec_sa -> Prop) h v l : Prop := {
  ci_slot i p : l !! i = Some (Some p) ->
    exists sa, sa_live h p sa /\ wf sa /\ v !! sa_filed_key sa = Some p;
  ci_sad k p : v !! k = Some p ->
    exists i sa, l !! i = Some (Some p) /\ h !! p = Some (ObjSa sa) /\ sa_filed_key sa = k;
  ci_slot_inj i j p : l !! i = Some (Some p) -> l !! j = Some (Some p) -> i = j;
  ci_owned q o : h !! q = Some o -> owner h l q o;
  ci_unshared i p p' sa sa' : l !! i = Some (Some p) ->
    h !! p = Some (ObjSa sa) -> h !! p' = Some (ObjSa sa') ->
    sa_session sa = sa_session sa' \/ sa_ipsec_sa sa = sa_ipsec_sa sa' -> p = p'
}.

Context (wf : dp_ipsec_sa -> Prop).

Lemma core_inv_empty l : Forall (fun o => o = None) l -> core_inv wf ∅ ∅ l.
Proof.
  intros Hl. assert (forall i p, l !! i <> Some (Some p)) as Hn.
  { intros i p Hi. by pose proof (Forall_lookup_1 _ _ _ _ Hl Hi). }
  split; intros *; rewrite ?lookup_empty; naive_solver.
Qed.

Definition insert_triple p isa ses sa x prm h : gmap ptr ipsec_obj :=
  <[p := ObjSa sa]> (<[isa := ObjIpsecSa (Some prm)]> (<[ses := ObjSession x]> h)).

Definition delete_triple p isa ses h : gmap ptr ipsec_obj :=
  delete p (delete ses (delete isa h)).

Lemma lookup_insert_triple_old p isa ses sa x prm h q o :
  p ∉ dom h -> isa ∉ dom h -> ses ∉ dom h ->
  h !! q = Some o -> insert_triple p isa ses sa x prm h !! q = Some o.
Proof.
  intros Hp Hi Hs Hq. apply elem_of_dom_2 in Hq as Hd. unfold insert_triple.
  rewrite !lookup_insert_ne by (intros <-; done). done.
Qed.

Lemma insert_delete_triple p isa ses sa x prm h :
  p ∉ dom h -> isa ∉ dom h -> ses ∉ dom h -> p <> isa -> p <> ses -> isa <> ses ->
  delete_triple p isa ses (insert_triple p isa ses sa x prm h) = h.
Proof.
  rewrite !not_elem_of_dom. intros Hp Hi Hs H1 H2 H3. unfold delete_triple, insert_triple.
  apply map_eq; intros q. rewrite !lookup_delete, !lookup_insert. repeat case_decide; subst; done.
Qed.

Lemma insert_triple_sa p isa ses sa x prm h q sa' :
  insert_triple p isa ses sa x prm h !! q = Some (ObjSa sa') ->
  (q = p /\ sa' = sa) \/ (q <> p /\ h !! q = Some (ObjSa sa')).
Proof.
  intros Hq. unfold insert_triple in Hq. rewrite !lookup_insert in Hq.
  repeat case_decide; simplify_eq; eauto.
Qed.

Lemma insert_triple_live p isa ses sa x prm h :
  p <> isa -> p <> ses -> isa <> ses ->
  sa_session sa = Some ses -> sa_ipsec_sa sa = Some isa ->
  sa_ipsec_session sa = mk_session (Some isa) (Some RTE_SECURITY_ACTION_TYPE_NONE) (Some ses) ->
  sa_live (insert_triple p isa ses sa x prm h) p sa.
Proof.
  intros. unfold sa_live, insert_triple. split; [by rewrite lookup_insert_eq|].
  exists ses, isa, x, prm. rewrite !lookup_insert. repeat case_decide; by simplify_eq.
Qed.

Lemma slot_insert_cases l i p j q :
  <[i := Some p]> l !! j = Some (Some q) ->
  (j = i /\ q = p) \/ (j <> i /\ l !! j = Some (Some q)).
Proof. intros [(-> & ? & ?)|[? Hj]]%list_lookup_insert_Some; simplify_eq; eauto. Qed.

Lemma slot_insert_keep l i p j q :
  l !! i = Some None -> l !! j = Some (Some q) -> <[i := Some p]> l !! j = Some (Some q).
Proof. intros Hi Hj. rewrite list_lookup_insert_ne; [done|]. intros ->; congruence. Qed.

Section core_inv.
Context {h v l} (CI : core_inv wf h v l).

Lemma core_inv_live q sa : h !! q = Some (ObjSa sa) ->
  exists i, l !! i = Some (Some q) /\ sa_live h q sa /\ wf sa /\ v !! sa_filed_key sa = Some q.
Proof.
  intros Hq. destruct (ci_owned _ _ _ _ CI _ _ Hq) as [i Hi]. exists i.
  destruct (ci_slot _ _ _ _ CI _ _ Hi) as (sa' & Hl & ? & ?). pose proof Hl as [? _].
  by simplify_eq.
Qed.

Lemma core_inv_fresh q sa r : r ∉ dom h -> h !! q = Some (ObjSa sa) ->
  sa_session sa <> Some r /\ sa_ipsec_sa sa <> Some r.
Proof.
  intros Hr Hq.
  destruct (core_inv_live _ _ Hq) as (i & _ & [_ (s3 & i3 & x3 & m3 & Es & Ei & Hs & Hi & _)] & _).
  apply elem_of_dom_2 in Hs, Hi. split; congruence.
Qed.

Lemma core_inv_unshared p p' sa sa' :
  h !! p = Some (ObjSa sa) -> h !! p' = Some (ObjSa sa') ->
  sa_session sa = sa_session sa' \/ sa_ipsec_sa sa = sa_ipsec_sa sa' -> p = p'.
Proof.
  intros Hp. destruct (core_inv_live _ _ Hp) as (i & Hi & _). by apply (ci_unshared _ _ _ _ CI i).
Qed.

Lemma core_inv_slot_fresh i p : p ∉ dom h -> l !! i <> Some (Some p).
Proof.
  intros Hp Hi. destruct (ci_slot _ _ _ _ CI _ _ Hi) as (? & [Hl _] & _).
  by apply elem_of_dom_2 in Hl.
Qed.
End core_inv.

Lemma sa_live_mono h h' p sa :
  sa_live h p sa -> (forall q o, h !! q = Some o -> h' !! q = Some o) -> sa_live h' p sa.
Proof.
  intros [Hp (s' & i' & x' & m' & ? & ? & ? & ? & ?)] Hm. split; [auto|].
  exists s', i', x', m'. auto 10.
Qed.

(** Filing a freshly built association in a free slot. *)
Lemma core_inv_insert h v l i p isa ses sa x prm :
  core_inv wf h v l ->
  l !! i = Some None ->
  p ∉ dom h -> isa ∉ dom h -> ses ∉ dom h -> p <> isa -> p <> ses -> isa <> ses ->
  sa_session sa = Some ses -> sa_ipsec_sa sa = Some isa ->
  sa_ipsec_session sa = mk_session (Some isa) (Some RTE_SECURITY_ACTION_TYPE_NONE) (Some ses) ->
  wf sa -> v !! sa_filed_key sa = None ->
  core_inv wf (insert_triple p isa ses sa x prm h) (<[sa_filed_key sa := p]> v) (<[i := Some p]> l).
Proof.
  intros CI Hi Hp Hisa Hses Hpi Hps His Es Ei Eis Hwf Hk.
  pose proof (insert_triple_live p isa ses sa x prm h Hpi Hps His Es Ei Eis) as Hlive.
  pose proof (fun q o => lookup_insert_triple_old p isa ses sa x prm h q o Hp Hisa Hses) as Hmono.
  assert (Hnew : <[i:=Some p]> l !! i = Some (Some p)).
  { apply list_lookup_insert_eq. by eapply lookup_lt_Some. }
  split.
  - intros j q [[-> ->]|(? & Hj)]%slot_insert_cases.
    + exists sa. by rewrite lookup_insert_eq.
    + destruct (ci_slot _ _ _ _ CI j q Hj) as (sa' & Hl & ? & Hv). exists sa'.
      split_and!; [by eapply sa_live_mono | done | rewrite lookup_insert_ne; congruence].
  - intros k q [[<- <-]|[Hne Hv]]%lookup_insert_Some.
    + exists i, sa. destruct Hlive; auto.
    + destruct (ci_sad _ _ _ _ CI k q Hv) as (j & sa' & Hj & Hq & Hkey). exists j, sa'.
      split_and!; [by apply slot_insert_keep | by apply Hmono | done].
  - pose proof (fun j => core_inv_slot_fresh CI j p Hp). pose proof (ci_slot_inj _ _ _ _ CI).
    intros j j' q Hj Hj'. apply slot_insert_cases in Hj, Hj'. naive_solver.
  - intros q o Hq. unfold insert_triple in Hq. rewrite !lookup_insert in Hq.
    destruct Hlive as [Hlive _].
    repeat case_decide; simplify_eq; cbn; [by eauto 10..|].
    apply (ci_owned _ _ _ _ CI) in Hq. pose proof (slot_insert_keep l i p).
    destruct o; cbn in *; naive_solver.
  - intros j q q' sa1 sa2 _ Hq Hq' Hor. apply insert_triple_sa in Hq, Hq'.
    pose proof (fun q sa => core_inv_fresh CI q sa ses Hses) as Hfs.
    pose proof (fun q sa => core_inv_fresh CI q sa isa Hisa) as Hfi.
    destruct Hq as [[-> ->]|[? Hq]], Hq' as [[-> ->]|[? Hq']]; [done|..|].
    + destruct (Hfs _ _ Hq'), (Hfi _ _ Hq'), Hor; congruence.
    + destruct (Hfs _ _ Hq), (Hfi _ _ Hq), Hor; congruence.
    + by eapply (core_inv_unshared CI).
Qed.
Lemma lookup_delete_triple p isa ses h q o :
  delete_triple p isa ses h !! q = Some o <->
  q <> p /\ q <> isa /\ q <> ses /\ h !! q = Some o.
Proof. unfold delete_triple. rewrite !lookup_delete_Some. naive_solver. Qed.

Lemma slot_clear_cases l i j q :
  <[i := None]> l !! j = Some (Some q) <-> j <> i /\ l !! j = Some (Some q).
Proof. rewrite list_lookup_insert_Some. naive_solver. Qed.

Section remove.
Context {h v l} (CI : core_inv wf h v l).
Context {p isa ses sa} (Hsa : h !! p = Some (ObjSa sa))
  (Es : sa_session sa = Some ses) (Ei : sa_ipsec_sa sa = Some isa).

(** The three objects of one association are distinct from those of another. *)
Lemma other_survives q sa' :
  h !! q = Some (ObjSa sa') -> q <> p -> sa_live (delete_triple p isa ses h) q sa'.
Proof.
  intros Hq Hne.
  destruct (core_inv_live CI _ _ Hsa) as (_ & _ & [_ (s1 & i1 & x1 & m1 & ? & ? & Hs1 & Hi1 & _)] & _).
  destruct (core_inv_live CI _ _ Hq) as (_ & _ & [_ (s2 & i2 & x2 & m2 & ? & ? & Hs2 & Hi2 & ?)] & _).
  pose proof (core_inv_unshared CI _ _ _ _ Hsa Hq) as Hun. simplify_eq.
  split; [|exists s2, i2, x2, m2]; split_and?; try done;
    apply lookup_delete_triple; split_and!; try done; try congruence.
  all: intros ->; apply Hne; symmetry; apply Hun; rewrite ?Es, ?Ei; auto.
Qed.

Lemma core_inv_remove i :
  l !! i = Some (Some p) ->
  core_inv wf (delete_triple p isa ses h) (delete (sa_filed_key sa) v) (<[i := None]> l).
Proof.
  intros Hi. pose proof (ci_slot_inj _ _ _ _ CI) as Hinj.
  destruct (core_inv_live CI _ _ Hsa) as (i' & Hi' & _ & _ & Hkp).
  assert (Hne : forall j q, j <> i -> l !! j = Some (Some q) -> q <> p) by (intros j q ? ? ->; eauto).
  split.
  - intros j q [? Hj]%slot_clear_cases. destruct (ci_slot _ _ _ _ CI _ _ Hj) as (sa' & [Hq _] & ? & ?).
    exists sa'. pose proof (Hne _ _ ltac:(done) Hj).
    split_and!; [by apply other_survives | done | rewrite lookup_delete_ne; congruence].
  - intros k q [Hk Hv]%lookup_delete_Some.
    destruct (ci_sad _ _ _ _ CI _ _ Hv) as (j & sa' & Hj & Hq & <-).
    assert (q <> p) by (intros ->; congruence).
    exists j, sa'. split_and!; [apply slot_clear_cases; split; congruence | | done].
    by apply other_survives.
  - intros j j' q. rewrite !slot_clear_cases. naive_solver.
  - intros q o (? & ? & ? & Hq)%lookup_delete_triple. apply (ci_owned _ _ _ _ CI) in Hq.
    destruct o; cbn in *.
    + destruct Hq as [j Hj]. exists j. apply slot_clear_cases; split; congruence.
    + destruct Hq as (j & p' & sa' & Hj & Hp' & ?). assert (p' <> p) by congruence.
      exists j, p', sa'. rewrite slot_clear_cases.
      split_and!; [congruence | done | by apply other_survives | done].
    + destruct Hq as (j & p' & sa' & Hj & Hp' & ?). assert (p' <> p) by congruence.
      exists j, p', sa'. rewrite slot_clear_cases.
      split_and!; [congruence | done | by apply other_survives | done].
  - intros j q q' sa1 sa2 _ (_ & _ & _ & Hq)%lookup_delete_triple
      (_ & _ & _ & Hq')%lookup_delete_triple. by apply (core_inv_unshared CI).
Qed.
End remove.
End core.

(** ** The building blocks *)

Section blocks.
Context `{ERR : RteErrno} `{SAD : RteIpsecSad}.
Implicit Types (s : ipsec_state) (e : ipsec_env) (p q : ptr) (sa request : dp_ipsec_sa).

Definition delete_opt (o : option ptr) (h : gmap ptr ipsec_obj) : gmap ptr ipsec_obj :=
  match o with Some q => delete q h | None => h end.

Definition opt_live (h : gmap ptr ipsec_obj) (o : option ptr) (p : ptr) : Prop :=
  forall q, o = Some q -> is_Some (h !! q) /\ q <> p.

Ltac heap_simp :=
  repeat first [ rewrite lookup_insert_eq | rewrite lookup_insert_ne by done
               | rewrite lookup_delete_ne by done ].

Ltac heap_eq :=
  apply map_eq; intros ?; rewrite ?lookup_delete, ?lookup_insert;
  repeat case_decide; subst; rewrite ?lookup_delete, ?lookup_insert;
  repeat case_decide; subst; first [done | congruence].

Ltac fresh_side :=
  first [ done | intros ? [= <-]; split_and?; first [done | congruence] | by intros | heap_eq ].

Lemma set_heap_id s : set_heap (ipsec_heap s) s = s.
Proof. by destruct s. Qed.

Lemma set_heap_twice s h h' : set_heap h (set_heap h' s) = set_heap h s.
Proof. done. Qed.

Lemma free_obj_spec s q : is_Some (ipsec_heap s !! q) ->
  free_obj q s = Some (tt, set_heap (delete q (ipsec_heap s)) s).
Proof. intros [o Ho]. unfold free_obj; m_unfold. by rewrite Ho. Qed.

Lemma store_obj_spec s q o : is_Some (ipsec_heap s !! q) ->
  store_obj q o s = Some (tt, set_heap (<[q := o]> (ipsec_heap s)) s).
Proof. intros [o' Ho]. unfold store_obj; m_unfold. by rewrite Ho. Qed.

Lemma load_sa_spec s q sa : ipsec_heap s !! q = Some (ObjSa sa) ->
  load_sa q s = Some (sa, s).
Proof. intros Ho. unfold load_sa; m_unfold. by rewrite Ho. Qed.

Lemma new_obj_spec s f o :
  new_obj f o s = match f (dom (ipsec_heap s)) with
                  | Some q => Some (Some q, set_heap (<[q := o]> (ipsec_heap s)) s)
                  | None => Some (None, s)
                  end.
Proof. unfold new_obj; m_unfold. by destruct (f _). Qed.

(** Releasing an association, complete or not. *)
Lemma free_sa_spec s p sa :
  ipsec_heap s !! p = Some (ObjSa sa) ->
  opt_live (ipsec_heap s) (sa_session sa) p -> opt_live (ipsec_heap s) (sa_ipsec_sa sa) p ->
  (forall q, sa_session sa = Some q -> sa_ipsec_sa sa <> Some q) ->
  dp_ipsec_free_sa p s
  = Some (tt, set_heap (delete p (delete_opt (sa_session sa)
                (delete_opt (sa_ipsec_sa sa) (ipsec_heap s)))) s).
Proof.
  intros Hp Hs Hi Hne. unfold dp_ipsec_free_sa.
  rewrite (M_bind_Some _ _ _ _ _ (load_sa_spec _ _ _ Hp)).
  destruct (sa_ipsec_sa sa) as [isa|] eqn:Ei; cbn [delete_opt].
  - destruct (Hi isa eq_refl) as [Hl Hpi]. rewrite (M_bind_Some _ _ _ _ _ (free_obj_spec _ _ Hl)).
    destruct (sa_session sa) as [ses|] eqn:Es; cbn [delete_opt].
    + destruct (Hs ses eq_refl) as [Hls Hps]. assert (isa <> ses) by (specialize (Hne ses eq_refl); congruence).
      erewrite M_bind_Some; [|apply free_obj_spec; cbn; by rewrite lookup_delete_ne].
      erewrite free_obj_spec; [done|]. cbn. rewrite !lookup_delete_ne by done. by eexists.
    + rewrite (M_bind_Some _ _ _ tt _ eq_refl).
      erewrite free_obj_spec; [done|]. cbn. rewrite lookup_delete_ne by done. by eexists.
  - rewrite (M_bind_Some _ _ _ tt _ eq_refl).
    destruct (sa_session sa) as [ses|] eqn:Es; cbn [delete_opt].
    + destruct (Hs ses eq_refl) as [Hls Hps].
      erewrite M_bind_Some; [|by apply free_obj_spec].
      erewrite free_obj_spec; [done|]. cbn. rewrite lookup_delete_ne by done. by eexists.
    + rewrite (M_bind_Some _ _ _ tt _ eq_refl). apply free_obj_spec. by eexists.
Qed.

Definition mask64 (a : dp_ipv6) : dp_ipv6 := mk_ipv6 (_prefix a) 0.

(** The association a request is built into. *)
Definition built_sa (row : dp_ipsec_algo_spec) request (isa ses : ptr) : dp_ipsec_sa :=
  mk_sa (sa_spi request) (sa_vni request) (sa_algo request) (sa_dir request)
    (mask64 (sa_src request)) (mask64 (sa_dst request)) (sa_key request) (sa_salt request)
    (u16 (algo_salt_len row)) (sa_replay_window request) (sa_esn request) (Some ses) (Some isa)
    (mk_session (Some isa) (Some RTE_SECURITY_ACTION_TYPE_NONE) (Some ses)).

(** [dp_ipsec_create_ipsec_sa] on an association with a session. *)
Lemma create_ipsec_sa_spec e s p sa xform :
  ipsec_env_ok e -> ipsec_heap s !! p = Some (ObjSa sa) ->
  exists r s', dp_ipsec_create_ipsec_sa e p xform s = Some (r, s')
  /\ ((r < 0 /\ s' = s)
      \/ (r < 0 /\ exists q o iss, q ∉ dom (ipsec_heap s) /\
            s' = set_heap (<[p := ObjSa (with_ipsec_session iss (with_ipsec_sa (Some q) sa))]>
                            (<[q := o]> (ipsec_heap s))) s)
      \/ (r < 0 /\ s' = set_heap (<[p := ObjSa (with_ipsec_sa None sa)]> (ipsec_heap s)) s)
      \/ (r = 0 /\ exists q, q ∉ dom (ipsec_heap s) /\
            s' = set_heap (<[p := ObjSa (with_ipsec_session
                    (mk_session (Some q) (Some RTE_SECURITY_ACTION_TYPE_NONE) (sa_session sa))
                    (with_ipsec_sa (Some q) sa))]>
                    (<[q := ObjIpsecSa (Some (ipsec_sa_prm xform sa))]> (ipsec_heap s))) s)).
Proof.
  intros Hok Hp. unfold dp_ipsec_create_ipsec_sa.
  rewrite (M_bind_Some _ _ _ _ _ (load_sa_spec _ _ _ Hp)).
  pose proof dp_error_negative as Herr. unfold DP_FAILED.
  destruct (_ <? 0) eqn:Esz; [by eauto 10|].
  destruct (env_ipsec_sa_alloc e (env_ipsec_sa_size e (ipsec_sa_prm xform sa))
              (dom (ipsec_heap s))) as [q|] eqn:Eq.
  - apply (ipsec_sa_fresh _ Hok) in Eq as Hq. assert (p <> q) by (apply elem_of_dom_2 in Hp; congruence).
    erewrite M_bind_Some; [|rewrite new_obj_spec, Eq; reflexivity].
    erewrite M_bind_Some; [|apply store_obj_spec; cbn; rewrite lookup_insert_ne by done; by eexists].
    destruct (env_ipsec_sa_init e _ _ <? 0) eqn:Ein.
    + eexists _, _; split; [done|]. right; left; split; [done|].
      exists q, (ObjIpsecSa None), (sa_ipsec_session sa). by destruct sa.
    + erewrite M_bind_Some; [|apply store_obj_spec; cbn; rewrite lookup_insert_ne, lookup_insert_eq by done; by eexists].
      erewrite M_bind_Some; [|apply store_obj_spec; cbn; rewrite lookup_insert_ne, lookup_insert_eq by done; by eexists].
      cbn [ipsec_heap set_heap].
      assert (forall a b c d, <[p:=a]> (<[q:=b]> (<[p:=c]> (<[q:=d]> (ipsec_heap s))))
                = <[p:=a]> (<[q:=b]> (ipsec_heap s))) as Hh by (intros; heap_eq).
      rewrite Hh. destruct (env_session_prepare e _ <? 0); eexists _, _; (split; [done|]).
      * right; left; split; [done|]. by eexists q, _, _.
      * do 3 right; split; [done|]. by exists q.
  - erewrite M_bind_Some; [|rewrite new_obj_spec, Eq; reflexivity].
    erewrite M_bind_Some; [|apply store_obj_spec; by eexists].
    eexists _, _; split; [done|]. right; right; left; done.
Qed.
Definition insert_opt (o : option ptr) (x : ipsec_obj) (h : gmap ptr ipsec_obj) : gmap ptr ipsec_obj :=
  match o with Some q => <[q := x]> h | None => h end.

Definition opt_fresh (h : gmap ptr ipsec_obj) (o : option ptr) (p : ptr) : Prop :=
  forall q, o = Some q -> q ∉ dom h /\ q <> p.

(** Releasing a partly built association gives back the state before it. *)
Lemma abandon_spec s h' p sa os oi :
  p ∉ dom (ipsec_heap s) ->
  opt_fresh (ipsec_heap s) (sa_session sa) p -> opt_fresh (ipsec_heap s) (sa_ipsec_sa sa) p ->
  (forall q, sa_session sa = Some q -> sa_ipsec_sa sa <> Some q) ->
  h' = <[p := ObjSa sa]> (insert_opt (sa_ipsec_sa sa) oi (insert_opt (sa_session sa) os (ipsec_heap s))) ->
  dp_ipsec_free_sa p (set_heap h' s) = Some (tt, s).
Proof.
  intros Hp Hs Hi Hne Hh. rewrite not_elem_of_dom in Hp.
  rewrite (free_sa_spec _ _ sa); cbn [set_heap ipsec_heap].
  - do 2 f_equal. rewrite <-(set_heap_id s) at 2. rewrite set_heap_twice. f_equal. subst h'.
    unfold opt_fresh in *. setoid_rewrite not_elem_of_dom in Hs. setoid_rewrite not_elem_of_dom in Hi.
    destruct (sa_ipsec_sa sa) as [isa|]; [specialize (Hi isa eq_refl) as []|];
      (destruct (sa_session sa) as [ses|]; [specialize (Hs ses eq_refl) as []|]);
      cbn [insert_opt delete_opt]; heap_eq.
  - subst h'. apply lookup_insert_eq.
  - intros q Hq. destruct (Hs q Hq). split; [|done]. subst h'. rewrite lookup_insert_ne by done.
    specialize (Hne q Hq). rewrite Hq; cbn [insert_opt].
    destruct (sa_ipsec_sa sa) as [isa|]; cbn [insert_opt];
      [rewrite lookup_insert_ne by congruence|]; rewrite lookup_insert_eq; by eexists.
  - intros q Hq. destruct (Hi q Hq). split; [|done]. subst h'. rewrite lookup_insert_ne by done.
    rewrite Hq; cbn [insert_opt]. rewrite lookup_insert_eq; by eexists.
  - done.
Qed.

(** A failed build leaves the state as it was; a successful one adds exactly
    the three objects of the new association. *)
Lemma build_sa_spec e s request lookup_spi row :
  ipsec_env_ok e -> dp_ipsec_algos (sa_algo request) = Some row ->
  exists ret s', dp_ipsec_build_sa e request lookup_spi s = Some (ret, s') /\
  ((exists r, (r = OUT_OF_MEMORY \/ r = SA_CREATE) /\ ret = (DP_GRPC_ERR r, None) /\ s' = s)
   \/ (exists p isa ses x prm,
        p ∉ dom (ipsec_heap s) /\ isa ∉ dom (ipsec_heap s) /\ ses ∉ dom (ipsec_heap s)
        /\ p <> isa /\ p <> ses /\ isa <> ses /\ ret = (DP_OK, Some p)
        /\ s' = set_heap (insert_triple p isa ses (built_sa row request isa ses) x prm
                            (ipsec_heap s)) s)).
Proof.
  intros Hok Hrow. unfold dp_ipsec_build_sa.
  destruct (env_zmalloc e (dom (ipsec_heap s))) as [p|] eqn:Ep;
    [|erewrite M_bind_Some; [|rewrite new_obj_spec, Ep; reflexivity];
      eexists _, _; split; [done|]; left; by eauto].
  apply (zmalloc_fresh _ Hok) in Ep as Hp.
  assert (Hpn : ipsec_heap s !! p = None) by by apply not_elem_of_dom.
  erewrite M_bind_Some; [|rewrite new_obj_spec, Ep; reflexivity].
  rewrite Hrow. erewrite M_bind_Some; [|reflexivity].
  erewrite M_bind_Some; [|apply store_obj_spec; cbn; rewrite lookup_insert_eq; by eexists].
  unfold dp_ipsec_fill_xform at 1. cbn [sa_algo with_session with_ipsec_sa with_salt_len].
  rewrite Hrow. cbn [fmap option_fmap option_map]. erewrite M_bind_Some; [|reflexivity].
  cbn [set_heap ipsec_heap]. rewrite set_heap_twice, insert_insert_eq.
  set (x := mk_xform _ _ _ _ _ _ _ _). set (sa0 := with_session None _).
  destruct (env_sym_session_create e x (dom (<[p:=ObjSa sa0]> (ipsec_heap s)))) as [ses|] eqn:Es.
  - apply (session_fresh _ Hok) in Es as Hs. rewrite dom_insert_L, not_elem_of_union, not_elem_of_singleton in Hs.
    destruct Hs as [Hsp Hs]. assert (ipsec_heap s !! ses = None) by by apply not_elem_of_dom.
    erewrite M_bind_Some; [|rewrite new_obj_spec; cbn; rewrite Es; reflexivity].
    erewrite M_bind_Some; [|apply store_obj_spec; cbn; rewrite lookup_insert_ne, lookup_insert_eq by done; by eexists].
    rewrite !set_heap_twice. cbn [set_heap ipsec_heap].
    set (s1 := set_heap _ s).
    assert (Hs1 : ipsec_heap s1 = <[p:=ObjSa (with_session (Some ses) sa0)]>
                     (<[ses:=ObjSession x]> (ipsec_heap s))) by (subst s1; cbn; heap_eq).
    assert (Hs1p : ipsec_heap s1 !! p = Some (ObjSa (with_session (Some ses) sa0)))
      by (rewrite Hs1; apply lookup_insert_eq).
    destruct (create_ipsec_sa_spec e s1 p _ x Hok Hs1p) as (r & s' & Hr & Hcase).
    rewrite (M_bind_Some _ _ _ _ _ Hr). unfold DP_FAILED.
    destruct Hcase as [[Hneg ->]|[[Hneg (q & o & iss & Hq & ->)]|[[Hneg ->]|[-> (q & Hq & ->)]]]];
      try (rewrite (proj2 (Z.ltb_lt _ _) Hneg); eexists _, s; split; [|left; by eauto]);
      try (assert (q <> p /\ q <> ses /\ q ∉ dom (ipsec_heap s)) as (? & ? & ?)
             by (rewrite Hs1, !dom_insert_L in Hq; set_solver)).
    + erewrite M_bind_Some; [done|].
      apply (abandon_spec s _ p (with_session (Some ses) sa0) (ObjSession x) (ObjSession x));
        unfold opt_fresh; cbn; fresh_side.
    + erewrite M_bind_Some; [done|]. rewrite Hs1. subst s1. rewrite set_heap_twice.
      eapply (abandon_spec s _ p (with_ipsec_session iss (with_ipsec_sa (Some q)
                 (with_session (Some ses) sa0))) (ObjSession x) o);
        unfold opt_fresh; cbn; fresh_side.
    + erewrite M_bind_Some; [done|]. rewrite Hs1. subst s1. rewrite set_heap_twice.
      eapply (abandon_spec s _ p (with_ipsec_sa None (with_session (Some ses) sa0)) (ObjSession x) (ObjSession x));
        unfold opt_fresh; cbn; fresh_side.
    + cbn [Z.ltb Z.compare].
      erewrite M_bind_Some; [|apply load_sa_spec; cbn; apply lookup_insert_eq].
      erewrite M_bind_Some; [|apply store_obj_spec; cbn; rewrite lookup_insert_eq; by eexists].
      eexists _, _; split; [done|]; right.
      exists p, q, ses, x, (ipsec_sa_prm x (with_session (Some ses) sa0)).
      split_and!; try done. rewrite Hs1. subst s1. rewrite !set_heap_twice. f_equal.
      unfold insert_triple, built_sa. cbn. heap_eq.
  - erewrite M_bind_Some; [|rewrite new_obj_spec; cbn; rewrite Es; reflexivity].
    erewrite M_bind_Some; [|apply store_obj_spec; cbn; rewrite lookup_insert_eq; by eexists].
    eexists _, s; split; [|left; by eauto]. erewrite M_bind_Some; [done|]. cbn [set_heap ipsec_heap].
    apply (abandon_spec s _ p (with_session None sa0) (ObjSession x) (ObjSession x));
      unfold opt_fresh; cbn; fresh_side.
Qed.
End blocks.
