(* ===== verification/IpsecGrpc.v ===== *)
(** The Security Association requests of the gRPC interface
    ([src/grpc/dp_grpc_impl.c]) and the contract of the database.

    The abstract database is a finite map from lookup keys to associations.
    [create_outcome], [update_outcome], [delete_outcome] and [get_outcome] say
    what each operation may answer and do to that map; the theorems show that
    the operations of [src/dp_ipsec.c], with their heap and their slots, do
    exactly that, never touch an object that is not live, and leak nothing. *)

From S2P Require Import Prelude Errors IpAddr Ipsec IpsecProofs.

(** ** Requests *)

Record dpgrpc_ipsec_sa_id := mk_sa_id {
  id_spi : Z;
  id_vni : Z;
  id_dir : dp_ipsec_dir;
  id_src : dp_ipv6;
  id_dst : dp_ipv6
}.

Record dpgrpc_ipsec_sa := mk_grpc_sa {
  req_id : dpgrpc_ipsec_sa_id;
  req_algo : dp_ipsec_algo;
  req_key : list Z;
  req_salt : list Z;
  req_replay_window : Z;
  req_esn : bool
}.

Record dpgrpc_ipsec_sa_update := mk_grpc_update {
  upd_sa : dpgrpc_ipsec_sa;
  upd_new_spi : Z
}.

Definition id_spec (i : dpgrpc_ipsec_sa_id) : dp_ipsec_sa_spec :=
  mk_spec (id_spi i) (id_vni i) (id_dir i) (id_src i) (id_dst i).

(** The association a handler puts on its stack; the fields it does not name
    are zero. *)
Definition request_sa (new_spi : Z) (r : dpgrpc_ipsec_sa) : dp_ipsec_sa :=
  mk_sa new_spi (id_vni (req_id r)) (req_algo r) (id_dir (req_id r))
    (id_src (req_id r)) (id_dst (req_id r)) (req_key r) (req_salt r) 0
    (req_replay_window r) (req_esn r) None None (mk_session None None None).

Section handlers.
Context `{ERR : RteErrno} `{SAD : RteIpsecSad}.
Implicit Types (e : ipsec_env).

Definition dp_process_create_security_association e (request : dpgrpc_ipsec_sa)
  : M ipsec_state Z :=
  dp_ipsec_create_sa e (request_sa (id_spi (req_id request)) request).

Definition dp_process_delete_security_association (request : dpgrpc_ipsec_sa_id)
  : M ipsec_state Z :=
  dp_ipsec_delete_sa (id_spec request).

Definition dp_process_update_security_association e (request : dpgrpc_ipsec_sa_update)
  : M ipsec_state Z :=
  dp_ipsec_update_sa e (id_spec (req_id (upd_sa request)))
    (request_sa (upd_new_spi request) (upd_sa request)).

Definition dp_process_get_security_association (request : dpgrpc_ipsec_sa_id)
  : M ipsec_state (Z * option dpgrpc_ipsec_sa) :=
  r ← dp_ipsec_get_sa (id_spec request);
  if DP_FAILED (fst r) then mret (fst r, None)
  else
    sa ← get_some (snd r);
    mret (DP_OK, Some (mk_grpc_sa
      (mk_sa_id (sa_spi sa) (sa_vni sa) (sa_dir sa) (sa_src sa) (sa_dst sa))
      (sa_algo sa) (sa_key sa) (sa_salt sa) (sa_replay_window sa) (sa_esn sa))).
End handlers.

(** ** The abstract database *)

Section abstract.
Context `{ERR : RteErrno} `{SAD : RteIpsecSad}.
Implicit Types (s : ipsec_state) (e : ipsec_env) (p q : ptr) (sa request : dp_ipsec_sa)
  (h : gmap ptr ipsec_obj) (v : gmap rte_ipsec_sad_key ptr) (m : gmap rte_ipsec_sad_key dp_ipsec_sa).

(** An association without the pointers the implementation attaches to it. *)
Definition public sa : dp_ipsec_sa :=
  with_session None (with_ipsec_sa None (with_ipsec_session (mk_session None None None) sa)).

Definition deref h p : option dp_ipsec_sa :=
  match h !! p with Some (ObjSa sa) => Some (public sa) | _ => None end.

Definition abs_core h v : gmap rte_ipsec_sad_key dp_ipsec_sa := omap (deref h) v.

Definition view_of s : gmap rte_ipsec_sad_key ptr :=
  match dp_ipsec_sad s with Some t => sad_view t | None => ∅ end.

Definition ipsec_abs s : gmap rte_ipsec_sad_key dp_ipsec_sa := abs_core (ipsec_heap s) (view_of s).

(** What a valid request is stored as. *)
Definition filed request : dp_ipsec_sa :=
  public (with_salt_len 4 (with_addrs (mask64 (sa_src request)) (mask64 (sa_dst request)) request)).

(** What every stored association satisfies. *)
Definition local_prefix sa : Z :=
  match sa_dir sa with
  | DP_IPSEC_DIR_EGRESS => _prefix (sa_src sa)
  | DP_IPSEC_DIR_INGRESS => _prefix (sa_dst sa)
  end.

Record sa_wf (ul : dp_ipv6) sa : Prop := {
  wf_algo : sa_algo sa <> DP_IPSEC_ALGO_MAX;
  wf_masked : sa_src sa = mask64 (sa_src sa) /\ sa_dst sa = mask64 (sa_dst sa);
  wf_local : local_prefix sa = _prefix ul;
  wf_replay : dp_ipsec_is_replay_window_valid sa = true;
  wf_salt_len : sa_salt_len sa = 4
}.

Record ipsec_inv (ul : dp_ipv6) s : Prop := {
  inv_slots : length (dp_ipsec_sas s) = DP_IPSEC_MAX_SA;
  inv_core : core_inv (sa_wf ul) (ipsec_heap s) (view_of s) (dp_ipsec_sas s)
}.

(** *** Lemmas on the abstraction *)

Section abs_lemmas.
Context {ul h v l} (CI : core_inv (sa_wf ul) h v l).

Lemma abs_lookup k : abs_core h v !! k = v !! k ≫= deref h.
Proof. apply lookup_omap. Qed.

Lemma abs_lookup_view k p : v !! k = Some p ->
  exists sa, h !! p = Some (ObjSa sa) /\ sa_filed_key sa = k /\ sa_wf ul sa
             /\ abs_core h v !! k = Some (public sa).
Proof.
  intros Hk. destruct (ci_sad _ _ _ _ CI _ _ Hk) as (i & sa & Hi & Hp & Hf).
  destruct (core_inv_live _ CI _ _ Hp) as (_ & _ & _ & Hwf & _).
  exists sa. split_and!; try done. rewrite abs_lookup, Hk; cbn. unfold deref. by rewrite Hp.
Qed.

Lemma abs_dom : dom (abs_core h v) = dom v.
Proof.
  apply set_eq; intros k. rewrite !elem_of_dom. split.
  - rewrite abs_lookup. destruct (v !! k); [by eexists | intros [? ?]; done].
  - intros [p Hk]. destruct (abs_lookup_view _ _ Hk) as (? & _ & _ & _ & ->). by eexists.
Qed.

Lemma view_inj k k' p : v !! k = Some p -> v !! k' = Some p -> k = k'.
Proof.
  intros (i & sa & _ & Hp & <-)%(ci_sad _ _ _ _ CI) (i' & sa' & _ & Hp' & <-)%(ci_sad _ _ _ _ CI).
  by simplify_eq.
Qed.

Lemma abs_size : size (abs_core h v) = length (omap id l).
Proof.
  rewrite <-size_dom, abs_dom, size_dom, <-length_map_to_list, <-(length_fmap snd).
  apply Permutation_length, NoDup_Permutation.
  - apply NoDup_fmap_2_strong; [|apply NoDup_map_to_list].
    intros [k p] [k' p'] Hk%elem_of_map_to_list Hk'%elem_of_map_to_list ?; simplify_eq/=.
    f_equal. by eapply view_inj.
  - apply NoDup_alt. intros i j p Hi Hj.
    assert (forall (l' : list (option ptr)), (forall i j p, l' !! i = Some (Some p) -> l' !! j = Some (Some p) -> i = j) ->
              NoDup (omap id l')) as Hnd.
    { clear. induction l' as [|o l' IH]; intros Hl; [constructor|].
      assert (NoDup (omap id l')) by (apply IH; intros i j p ? ?; by apply (inj S), (Hl (S i) (S j) p)).
      destruct o as [q|]; cbn; [|done]. constructor; [|done].
      intros (o & Ho & Hq)%list_elem_of_omap. cbn in Hq; subst.
      apply list_elem_of_lookup in Ho as [j Hj]. by specialize (Hl 0%nat (S j) q eq_refl Hj). }
    apply (proj1 (NoDup_alt _) (Hnd l (ci_slot_inj _ _ _ _ CI)) i j p Hi Hj).
  - intros p. rewrite list_elem_of_fmap, list_elem_of_omap. split.
    + intros ([k q] & -> & Hk%elem_of_map_to_list).
      destruct (ci_sad _ _ _ _ CI _ _ Hk) as (i & sa & Hi & _). exists (Some q).
      split; [by eapply list_elem_of_lookup_2 | done].
    + intros (o & Ho & Hq). cbn in Hq; subst. apply list_elem_of_lookup in Ho as [i Hi].
      destruct (ci_slot _ _ _ _ CI _ _ Hi) as (sa & _ & _ & Hv).
      exists (sa_filed_key sa, p). by rewrite elem_of_map_to_list.
Qed.

Lemma abs_insert p isa ses sa x prm :
  p ∉ dom h -> isa ∉ dom h -> ses ∉ dom h ->
  abs_core (insert_triple p isa ses sa x prm h) (<[sa_filed_key sa := p]> v)
  = <[sa_filed_key sa := public sa]> (abs_core h v).
Proof.
  intros Hp Hi Hs. apply map_eq; intros k. unfold abs_core. rewrite lookup_omap.
  destruct (decide (k = sa_filed_key sa)) as [->|Hne].
  - rewrite !lookup_insert_eq; cbn. unfold deref, insert_triple. by rewrite lookup_insert_eq.
  - rewrite !lookup_insert_ne, lookup_omap by done.
    destruct (v !! k) as [q|] eqn:Hk; [cbn|done].
    destruct (abs_lookup_view _ _ Hk) as (sa' & Hq & _). unfold deref.
    by rewrite (lookup_insert_triple_old _ _ _ _ _ _ _ _ _ Hp Hi Hs Hq), Hq.
Qed.

Lemma abs_remove p isa ses sa :
  h !! p = Some (ObjSa sa) -> sa_session sa = Some ses -> sa_ipsec_sa sa = Some isa ->
  abs_core (delete_triple p isa ses h) (delete (sa_filed_key sa) v)
  = delete (sa_filed_key sa) (abs_core h v).
Proof.
  intros Hp Es Ei. apply map_eq; intros k. unfold abs_core. rewrite lookup_omap.
  destruct (decide (k = sa_filed_key sa)) as [->|Hne].
  - by rewrite !lookup_delete_eq.
  - rewrite !lookup_delete_ne, lookup_omap by done.
    destruct (v !! k) as [q|] eqn:Hk; [cbn|done].
    destruct (abs_lookup_view _ _ Hk) as (sa' & Hq & <- & _).
    assert (q <> p) by (intros ->; congruence). unfold deref.
    destruct (other_survives _ CI Hp Es Ei q sa' Hq) as [-> _]; [done|]. by rewrite Hq.
Qed.
End abs_lemmas.

Lemma free_slot_full (l : list (option ptr)) :
  free_slot l = length l <-> length (omap id l) = length l.
Proof.
  unfold free_slot. induction l as [|[p|] l IH]; [done|..].
  - change (omap id (Some p :: l)) with (p :: omap id l).
    cbn [find_index]. change (ptr_is None (Some p)) with false. cbv iota.
    destruct (find_index (ptr_is None) l) as [i|]; cbn [fmap option_fmap option_map from_option id length] in *; lia.
  - change (omap id (None :: l)) with (omap id l). pose proof (length_omap_le id l).
    cbn [find_index]. change (ptr_is None None) with true. cbn [from_option id length]. lia.
Qed.
(** ** The contract *)

Definition enabled s : bool := match dp_ipsec_sad s with Some _ => true | None => false end.

(** The checks [dp_ipsec_create_sa] and [dp_ipsec_update_sa] share. *)
Definition request_error (ul : dp_ipv6) request : option grpc_err :=
  if algo_out_of_range (sa_algo request) then Some SA_ALGO
  else if negb (local_prefix request =? _prefix ul) then Some SA_BAD_ADDR
  else if negb (dp_ipsec_is_replay_window_valid request) then Some SA_REPLAY_WINDOW
  else None.

(** A request that gets as far as building an association either succeeds
    with [m'] or fails for want of resources and changes nothing. *)
Definition build_outcome m (ret : Z) m' m_new : Prop :=
  (ret = DP_OK /\ m' = m_new)
  \/ ((ret = DP_GRPC_ERR OUT_OF_MEMORY \/ ret = DP_GRPC_ERR SA_CREATE) /\ m' = m).

Definition create_outcome (ul : dp_ipv6) (on : bool) m request (ret : Z) m' : Prop :=
  let k := spec_key (request_spec request) in
  if negb on then ret = DP_GRPC_ERR IPSEC_DISABLED /\ m' = m
  else match request_error ul request with
       | Some err => ret = DP_GRPC_ERR err /\ m' = m
       | None =>
           if decide (is_Some (m !! k)) then ret = DP_GRPC_ERR SA_EXISTS /\ m' = m
           else if decide (size m = DP_IPSEC_MAX_SA) then ret = DP_GRPC_ERR LIMIT_REACHED /\ m' = m
           else build_outcome m ret m' (<[k := filed request]> m)
       end.

(** The association a specification names: filed under its key and carrying
    its direction, VNI and SPI. *)
Definition named m (spec : dp_ipsec_sa_spec) : option dp_ipsec_sa :=
  sa ← m !! spec_key spec;
  if decide (sa_dir sa = spec_dir spec /\ sa_vni sa = spec_vni spec /\ sa_spi sa = spec_spi spec)
  then Some sa else None.

Definition update_outcome (ul : dp_ipv6) (on : bool) m (spec : dp_ipsec_sa_spec) request
    (ret : Z) m' : Prop :=
  if negb on then ret = DP_GRPC_ERR IPSEC_DISABLED /\ m' = m
  else if decide (spec_dir spec = DP_IPSEC_DIR_EGRESS) then
    match request_error ul request with
    | Some err => ret = DP_GRPC_ERR err /\ m' = m
    | None =>
        match named m spec with
        | None => ret = DP_GRPC_ERR SA_NOT_FOUND /\ m' = m
        | Some _ => build_outcome m ret m' (<[spec_key spec := filed request]> m)
        end
    end
  else ret = DP_GRPC_ERR SA_DIRECTION /\ m' = m.

Definition delete_outcome (on : bool) m (spec : dp_ipsec_sa_spec) (ret : Z) m' : Prop :=
  if negb on then ret = DP_GRPC_ERR IPSEC_DISABLED /\ m' = m
  else match named m spec with
       | None => ret = DP_GRPC_ERR SA_NOT_FOUND /\ m' = m
       | Some _ => ret = DP_OK /\ m' = delete (spec_key spec) m
       end.

(** ** Lookups *)

Lemma lookup_one_spec s t spec : dp_ipsec_sad s = Some t ->
  dp_ipsec_lookup_one spec s = Some (view_of s !! spec_key spec, s).
Proof.
  intros Ht. unfold dp_ipsec_lookup_one, dp_ipsec_lookup_sa, view_of; m_unfold.
  rewrite Ht. cbn. by rewrite sad_lookup_law.
Qed.

Lemma find_sa_spec ul s t spec :
  ipsec_inv ul s -> dp_ipsec_sad s = Some t ->
  match named (ipsec_abs s) spec with
  | None => dp_ipsec_find_sa spec s = Some (None, s)
  | Some d => exists p sa, dp_ipsec_find_sa spec s = Some (Some p, s)
      /\ view_of s !! spec_key spec = Some p /\ ipsec_heap s !! p = Some (ObjSa sa) /\ d = public sa
      /\ sa_filed_key sa = spec_key spec
  end.
Proof.
  intros [_ CI] Ht. unfold dp_ipsec_find_sa, named, ipsec_abs.
  rewrite (M_bind_Some _ _ _ _ _ (lookup_one_spec s t spec Ht)).
  destruct (view_of s !! spec_key spec) as [p|] eqn:Hk.
  - destruct (abs_lookup_view CI _ _ Hk) as (sa & Hp & Hf & _ & ->); cbn.
    rewrite (M_bind_Some _ _ _ _ _ (load_sa_spec _ _ _ Hp)).
    destruct (decide _) as [(-> & -> & ->)|Hne].
    + rewrite bool_decide_eq_true_2, !Z.eqb_refl by done. cbn. by eauto 10.
    + destruct (bool_decide (sa_dir sa = spec_dir spec)) eqn:E1; cbn; [|done].
      destruct (sa_vni sa =? spec_vni spec) eqn:E2; cbn; [|done].
      destruct (sa_spi sa =? spec_spi spec) eqn:E3; cbn; [|done]. bools; tauto.
  - rewrite abs_lookup, Hk; cbn. done.
Qed.
(** ** Steps shared by the operations *)

Lemma local_side_valid_eq e request :
  dp_ipsec_is_local_side_valid e request = (local_prefix request =? _prefix (env_underlay_ip e)).
Proof. unfold dp_ipsec_is_local_side_valid, local_prefix. by destruct (sa_dir request). Qed.

Lemma request_error_None ul request : request_error ul request = None ->
  exists row, dp_ipsec_algos (sa_algo request) = Some row /\ u16 (algo_salt_len row) = 4
    /\ local_prefix request = _prefix ul /\ dp_ipsec_is_replay_window_valid request = true.
Proof.
  unfold request_error, algo_out_of_range. intros Hr. dp_cases_in Hr. bools.
  destruct (sa_algo request); [by eexists.. | done].
Qed.

Lemma built_sa_wf ul row request isa ses :
  request_error ul request = None -> dp_ipsec_algos (sa_algo request) = Some row ->
  sa_wf ul (built_sa row request isa ses).
Proof.
  intros Hr Hrow. destruct (request_error_None _ _ Hr) as (row' & Hrow' & Hsl & Hloc & Hrep).
  simplify_eq. split; try done. cbn. intros Heq. by rewrite Heq in Hrow.
Qed.

Lemma public_built ul row request isa ses :
  request_error ul request = None -> dp_ipsec_algos (sa_algo request) = Some row ->
  public (built_sa row request isa ses) = filed request.
Proof.
  intros Hr Hrow. destruct (request_error_None _ _ Hr) as (row' & Hrow' & Hsl & _).
  simplify_eq. unfold filed, public, built_sa; cbn. by rewrite Hsl.
Qed.

Lemma sad_add_spec s t k p : dp_ipsec_sad s = Some t ->
  exists r t', sad_add k p s = Some (r, set_sad (Some t') s)
  /\ ((0 <= r /\ sad_view t' = <[k := p]> (view_of s)) \/ (r < 0 /\ sad_view t' = view_of s)).
Proof.
  intros Ht. unfold sad_add, view_of; m_unfold. rewrite Ht.
  pose proof (sad_add_law t k p) as Hl. destruct (rte_ipsec_sad_add t k p) as [r t'].
  exists r, t'. by destruct Hl as [[]|[]]; auto.
Qed.

Lemma sad_del_spec s t k : dp_ipsec_sad s = Some t -> is_Some (view_of s !! k) ->
  exists r t', sad_del k s = Some (r, set_sad (Some t') s)
  /\ 0 <= r /\ sad_view t' = delete k (view_of s).
Proof.
  intros Ht Hk. unfold sad_del, view_of in *; m_unfold. rewrite Ht in *.
  pose proof (sad_del_law t k) as Hl. destruct (rte_ipsec_sad_del t k) as [r t'].
  exists r, t'. destruct Hl as [(? & ? & ?)|(? & Hn & ?)]; [done|]. rewrite Hn in Hk. by destruct Hk.
Qed.

Lemma write_slot_spec s i o o' : dp_ipsec_sas s !! i = Some o' ->
  write_slot i o s = Some (tt, set_sas (<[i := o]> (dp_ipsec_sas s)) s).
Proof.
  intros Hi%lookup_lt_Some. unfold write_slot; m_unfold.
  by rewrite (proj2 (Nat.ltb_lt _ _) Hi).
Qed.

(** A build that is given up after the database refused it. *)
Lemma free_built_spec s p isa ses row request x prm :
  p ∉ dom (ipsec_heap s) -> isa ∉ dom (ipsec_heap s) -> ses ∉ dom (ipsec_heap s) ->
  p <> isa -> p <> ses -> isa <> ses ->
  dp_ipsec_free_sa p (set_heap (insert_triple p isa ses (built_sa row request isa ses) x prm
                                  (ipsec_heap s)) s) = Some (tt, s).
Proof.
  intros. eapply (abandon_spec s _ p (built_sa row request isa ses) (ObjSession x) (ObjIpsecSa (Some prm)));
    unfold opt_fresh; cbn; try naive_solver.
Qed.

(** Releasing a filed association. *)
Lemma free_filed_spec ul s p sa isa ses v l :
  core_inv (sa_wf ul) (ipsec_heap s) v l -> ipsec_heap s !! p = Some (ObjSa sa) ->
  sa_session sa = Some ses -> sa_ipsec_sa sa = Some isa ->
  dp_ipsec_free_sa p s = Some (tt, set_heap (delete_triple p isa ses (ipsec_heap s)) s).
Proof.
  intros CI Hp Es Ei.
  destruct (core_inv_live _ CI _ _ Hp) as (_ & _ & [_ (s' & i' & x & m' & ? & ? & Hs & Hi & _)] & _).
  simplify_eq. rewrite (free_sa_spec s p sa Hp); rewrite ?Es, ?Ei; unfold opt_live.
  - done.
  - intros q [=<-]. split; [by eexists | congruence].
  - intros q [=<-]. split; [by eexists | congruence].
  - intros q [=<-]. congruence.
Qed.

Lemma get_slot_spec (l : list (option ptr)) i p :
  l !! i = Some (Some p) -> (forall j, l !! j = Some (Some p) -> j = i) -> dp_ipsec_get_slot l p = i.
Proof.
  intros Hi Hinj. unfold dp_ipsec_get_slot.
  destruct (find_index (ptr_is (Some p)) l) as [j|] eqn:Hf; cbn.
  - apply find_index_Some in Hf as (o & Hj & Ho & _). unfold ptr_is in Ho. bools; subst. by apply Hinj.
  - rewrite find_index_None in Hf. specialize (Hf _ (list_elem_of_lookup_2 _ _ _ Hi)).
    unfold ptr_is in Hf. by bools.
Qed.

Lemma free_slot_hole (l : list (option ptr)) :
  free_slot l <> length l -> l !! free_slot l = Some None.
Proof.
  unfold free_slot. destruct (find_index (ptr_is None) l) as [j|] eqn:Hf; cbn; [|done]. intros _.
  apply find_index_Some in Hf as (o & Hj & Ho & _). unfold ptr_is in Ho. by bools; subst.
Qed.
(** ** The operations implement the contract *)

Ltac m_return := eexists _, _; split; [reflexivity|].

Lemma ipsec_inv_same_view ul s t t' :
  ipsec_inv ul s -> dp_ipsec_sad s = Some t -> sad_view t' = view_of s ->
  ipsec_inv ul (set_sad (Some t') s) /\ ipsec_abs (set_sad (Some t') s) = ipsec_abs s.
Proof.
  intros [Hlen CI] Ht Hv. change (sad_view t') with (view_of (set_sad (Some t') s)) in Hv.
  unfold ipsec_abs. rewrite Hv. split; [|done]. split; [done|]. by rewrite Hv.
Qed.

Lemma create_sa_correct ul e s request :
  ipsec_inv ul s -> ipsec_env_ok e -> env_underlay_ip e = ul ->
  exists ret s', dp_ipsec_create_sa e request s = Some (ret, s') /\ ipsec_inv ul s'
    /\ enabled s' = enabled s
    /\ create_outcome ul (enabled s) (ipsec_abs s) request ret (ipsec_abs s').
Proof.
  intros Hinv Hok <-. pose proof Hinv as [Hlen CI].
  unfold dp_ipsec_create_sa, create_outcome, enabled; cbv zeta.
  rewrite (M_bind_Some _ _ s _ s eq_refl).
  destruct (dp_ipsec_sad s) as [t|] eqn:Ht; cbn [negb]; [|m_return; by rewrite Ht].
  rewrite local_side_valid_eq.
  destruct (request_error (env_underlay_ip e) request) as [err|] eqn:Hreq.
  { unfold request_error in Hreq. repeat case_match; simplify_eq; m_return; by rewrite Ht. }
  pose proof Hreq as Hreq'. unfold request_error in Hreq'. dp_cases_in Hreq'.
  destruct (request_error_None _ _ Hreq) as (row & Hrow & _).
  rewrite (M_bind_Some _ _ _ _ _ (lookup_one_spec s t _ Ht)).
  set (k := spec_key (request_spec request)).
  destruct (view_of s !! k) as [p0|] eqn:Hk.
  { m_return. destruct (abs_lookup_view CI _ _ Hk) as (? & _ & _ & _ & Ha).
    unfold ipsec_abs. rewrite Ha, decide_True by by eexists. by rewrite Ht. }
  assert (ipsec_abs s !! k = None) as Ha by (unfold ipsec_abs; rewrite abs_lookup, Hk; done).
  destruct (decide (is_Some (ipsec_abs s !! k))) as [[? ?]|_]; [congruence|].
  rewrite (M_bind_Some _ _ s _ s eq_refl).
  destruct (Nat.eqb_spec (free_slot (dp_ipsec_sas s)) (length (dp_ipsec_sas s))) as [Hfull|Hfree].
  { m_return. unfold ipsec_abs. rewrite (abs_size CI), (proj1 (free_slot_full _) Hfull), Hlen.
    by rewrite decide_True, Ht by done. }
  destruct (decide (size (ipsec_abs s) = DP_IPSEC_MAX_SA)) as [Hsz|_];
    [unfold ipsec_abs in Hsz; by rewrite (abs_size CI), <-Hlen, <-free_slot_full in Hsz|].
  pose proof (free_slot_hole _ Hfree) as Hslot.
  destruct (build_sa_spec e s request (dp_ipsec_get_lookup_spi (request_spec request)) row Hok Hrow)
    as (ret & s1 & Hb & [(r & Hr & -> & ->)|(p & isa & ses & x & prm & Hp & Hisa & Hses & ? & ? & ? & -> & ->)]).
  { rewrite (M_bind_Some _ _ _ _ _ Hb). cbn [fst]. rewrite dp_failed_grpc_err. m_return.
    rewrite Ht. split_and!; try done. right. destruct Hr as [-> | ->]; auto. }
  rewrite (M_bind_Some _ _ _ _ _ Hb). cbn [fst snd]. change (DP_FAILED DP_OK) with false; cbv iota.
  erewrite M_bind_Some; [|reflexivity].
  erewrite M_bind_Some; [|apply load_sa_spec; apply lookup_insert_eq].
  set (sa := built_sa row request isa ses). set (s1 := set_heap _ s).
  change (dp_ipsec_build_key _ (sa_src sa) (sa_dst sa)) with k.
  destruct (sad_add_spec s1 t k p) as (r & t' & Hadd & Hview); [done|].
  rewrite (M_bind_Some _ _ _ _ _ Hadd). unfold DP_FAILED.
  change (view_of s1) with (view_of s) in Hview.
  destruct Hview as [[Hr Hv]|[Hr Hv]].
  - rewrite (proj2 (Z.ltb_ge _ _) Hr).
    erewrite M_bind_Some; [|by eapply write_slot_spec]. m_return.
    change k with (sa_filed_key sa) in *.
    pose proof (core_inv_insert (sa_wf _) _ _ _ _ p isa ses sa x prm CI Hslot) as Hci.
    split_and!; [split; cbn; [by rewrite length_insert|] | done | left; split; [done|]].
    + rewrite Hv. apply Hci; try done. by apply built_sa_wf.
    + transitivity (abs_core (insert_triple p isa ses sa x prm (ipsec_heap s)) (sad_view t'));
        [done|]. rewrite Hv, (abs_insert CI) by done.
      apply (f_equal (fun d => <[k := d]> (ipsec_abs s))). by apply (public_built (env_underlay_ip e)).
  - rewrite (proj2 (Z.ltb_lt _ _) Hr). erewrite M_bind_Some;
      [|exact (free_built_spec (set_sad (Some t') s) _ _ _ _ _ _ _ Hp Hisa Hses ltac:(done) ltac:(done) ltac:(done))].
    m_return. destruct (ipsec_inv_same_view _ s t t' Hinv Ht Hv) as [? ->].
    split_and!; [done..|]. right; auto.
Qed.

(** A live object of one association and three new ones do not meet. *)
Definition apart (q p isa ses : ptr) : Prop := q <> p /\ q <> isa /\ q <> ses.

Lemma apart_fresh h q o p isa ses :
  h !! q = Some o -> p ∉ dom h -> isa ∉ dom h -> ses ∉ dom h -> apart q p isa ses.
Proof. intros Hq%elem_of_dom_2 ? ? ?. split_and!; congruence. Qed.

Lemma insert_delete_triple_comm p isa ses p' isa' ses' sa x prm h :
  apart p' p isa ses -> apart isa' p isa ses -> apart ses' p isa ses ->
  delete_triple p' isa' ses' (insert_triple p isa ses sa x prm h)
  = insert_triple p isa ses sa x prm (delete_triple p' isa' ses' h).
Proof.
  intros (? & ? & ?) (? & ? & ?) (? & ? & ?). unfold delete_triple, insert_triple.
  by rewrite !delete_insert_ne by done.
Qed.

(** Replacing an association: what filing the new one and releasing the old
    one do to heap, database and slots. *)
Lemma core_inv_replace ul h v l i old osa oisa oses ox p isa ses sa x prm :
  core_inv (sa_wf ul) h v l -> l !! i = Some (Some old) -> h !! old = Some (ObjSa osa) ->
  sa_session osa = Some oses -> sa_ipsec_sa osa = Some oisa ->
  h !! oses = Some ox -> is_Some (h !! oisa) ->
  p ∉ dom h -> isa ∉ dom h -> ses ∉ dom h -> p <> isa -> p <> ses -> isa <> ses ->
  sa_session sa = Some ses -> sa_ipsec_sa sa = Some isa ->
  sa_ipsec_session sa = mk_session (Some isa) (Some RTE_SECURITY_ACTION_TYPE_NONE) (Some ses) ->
  sa_wf ul sa -> sa_filed_key sa = sa_filed_key osa ->
  let h' := delete_triple old oisa oses (insert_triple p isa ses sa x prm h) in
  let v' := <[sa_filed_key sa := p]> v in
  core_inv (sa_wf ul) h' v' (<[i := Some p]> l)
  /\ abs_core h' v' = <[sa_filed_key sa := public sa]> (abs_core h v).
Proof.
  intros CI Hi Hold Eos Eoi Hos [oo Hoi] Hp Hisa Hses ? ? ? Es Ei Eis Hwf Hkey h' v'.
  assert (h' = insert_triple p isa ses sa x prm (delete_triple old oisa oses h)) as ->.
  { apply insert_delete_triple_comm; by eapply apart_fresh. }
  assert (v' = <[sa_filed_key sa := p]> (delete (sa_filed_key osa) v)) as ->.
  { subst v'. rewrite Hkey. by rewrite insert_delete_eq. }
  pose proof (core_inv_remove _ CI Hold Eos Eoi i Hi) as CI0.
  assert (forall q, q ∉ dom h -> q ∉ dom (delete_triple old oisa oses h)) as Hsub.
  { intros q Hq. unfold delete_triple. rewrite !dom_delete_L. set_solver. }
  split.
  - rewrite <-(list_insert_insert_eq l i (Some p) None).
    apply (core_inv_insert _ _ _ _ i p isa ses sa x prm CI0); auto.
    + apply list_lookup_insert_eq. by eapply lookup_lt_Some.
    + rewrite Hkey. apply lookup_delete_eq.
  - rewrite (abs_insert CI0) by auto. rewrite (abs_remove CI _ _ _ _ Hold Eos Eoi), Hkey.
    by rewrite insert_delete_eq.
Qed.

(** The update of a handler keeps the identity it was given, apart from the
    wire SPI. *)
Definition update_consistent (spec : dp_ipsec_sa_spec) request : Prop :=
  sa_dir request = spec_dir spec /\ sa_vni request = spec_vni spec
  /\ sa_src request = spec_src spec /\ sa_dst request = spec_dst spec.

Lemma update_sa_correct ul e s spec request :
  ipsec_inv ul s -> ipsec_env_ok e -> env_underlay_ip e = ul -> update_consistent spec request ->
  exists ret s', dp_ipsec_update_sa e spec request s = Some (ret, s') /\ ipsec_inv ul s'
    /\ enabled s' = enabled s
    /\ update_outcome ul (enabled s) (ipsec_abs s) spec request ret (ipsec_abs s').
Proof.
  intros Hinv Hok <- (Hd & Hvn & Hsrc & Hdst). pose proof Hinv as [Hlen CI].
  unfold dp_ipsec_update_sa, update_outcome, enabled; cbv zeta.
  rewrite (M_bind_Some _ _ s _ s eq_refl).
  destruct (dp_ipsec_sad s) as [t|] eqn:Ht; cbn [negb]; [|m_return; by rewrite Ht].
  rewrite local_side_valid_eq. destruct (decide (spec_dir spec = DP_IPSEC_DIR_EGRESS)) as [Heg|Heg];
    [rewrite bool_decide_eq_true_2 by done | rewrite bool_decide_eq_false_2 by done]; cbn [negb];
    [|m_return; by rewrite Ht].
  destruct (request_error (env_underlay_ip e) request) as [err|] eqn:Hreq.
  { unfold request_error in Hreq. repeat case_match; simplify_eq; m_return; by rewrite Ht. }
  pose proof Hreq as Hreq'. unfold request_error in Hreq'. dp_cases_in Hreq'.
  destruct (request_error_None _ _ Hreq) as (row & Hrow & _).
  pose proof (find_sa_spec _ s t spec Hinv Ht) as Hfind.
  destruct (named (ipsec_abs s) spec) as [d|]; [|rewrite (M_bind_Some _ _ _ _ _ Hfind); m_return; by rewrite Ht].
  destruct Hfind as (old & osa & Hfind & Hvo & Hold & -> & Hfk).
  rewrite (M_bind_Some _ _ _ _ _ Hfind), (M_bind_Some _ _ s _ s eq_refl).
  destruct (core_inv_live _ CI _ _ Hold) as (i & Hi & [_ (oses & oisa & ox & oprm & Eos & Eoi & Hos & Hoi & _)] & _).
  assert (Hslot : dp_ipsec_get_slot (dp_ipsec_sas s) old = i).
  { apply get_slot_spec; [done|]. intros j Hj. by eapply (ci_slot_inj _ _ _ _ CI). }
  rewrite Hslot. pose proof (lookup_lt_Some _ _ _ Hi) as Hlt.
  rewrite (proj2 (Nat.eqb_neq _ _)) by lia.
  set (k := spec_key spec) in *.
  assert (Hkey : forall isa ses, sa_filed_key (built_sa row request isa ses) = k).
  { intros. subst k. unfold sa_filed_key, spec_key, dp_ipsec_get_lookup_spi; cbn. rewrite Hd, Heg.
    unfold dp_ipsec_build_key; cbn. by rewrite Hvn, Hsrc, Hdst. }
  destruct (build_sa_spec e s request (dp_ipsec_get_lookup_spi spec) row Hok Hrow)
    as (ret & s1 & Hb & [(r & Hr & -> & ->)|(p & isa & ses & x & prm & Hp & Hisa & Hses & ? & ? & ? & -> & ->)]);
    rewrite (M_bind_Some _ _ _ _ _ Hb); cbn [fst snd].
  { rewrite dp_failed_grpc_err. m_return. rewrite Ht. split_and!; try done. right.
    destruct Hr as [-> | ->]; auto. }
  change (DP_FAILED DP_OK) with false; cbv iota.
  erewrite M_bind_Some; [|reflexivity].
  erewrite M_bind_Some; [|apply load_sa_spec; apply lookup_insert_eq].
  specialize (Hkey isa ses).
  set (sa := built_sa row request isa ses) in *. set (s1 := set_heap _ s).
  assert (dp_ipsec_build_key (dp_ipsec_get_lookup_spi spec) (sa_src sa) (sa_dst sa) = k) as ->.
  { subst k sa. unfold spec_key, dp_ipsec_build_key; cbn. by rewrite Hsrc, Hdst. }
  destruct (sad_add_spec s1 t k p) as (r & t' & Hadd & Hview); [done|].
  rewrite (M_bind_Some _ _ _ _ _ Hadd). unfold DP_FAILED.
  change (view_of s1) with (view_of s) in Hview.
  destruct Hview as [[Hr Hv]|[Hr Hv]].
  - rewrite (proj2 (Z.ltb_ge _ _) Hr).
    erewrite M_bind_Some; [|by eapply write_slot_spec].
    erewrite M_bind_Some; [|eapply (free_sa_spec _ _ osa); rewrite ?Eos, ?Eoi; unfold opt_live; cbn].
    + m_return. rewrite Eos, Eoi.
      destruct (core_inv_replace _ _ _ _ i old osa oisa oses _ p isa ses sa x prm
                  CI Hi Hold Eos Eoi Hos ltac:(by eexists) Hp Hisa Hses) as [CI' Habs]; try done.
      { by apply built_sa_wf. } { congruence. }
      rewrite Hkey in *. rewrite <-Hv in *.
      split_and!; [split; cbn; [by rewrite length_insert|done] | done | left; split; [done|]].
      etrans; [exact Habs|].
      apply (f_equal (fun d => <[k := d]> (ipsec_abs s))). by apply (public_built (env_underlay_ip e)).
    + by apply lookup_insert_triple_old.
    + intros q [=<-]. split; [|congruence]. eexists. by eapply lookup_insert_triple_old.
    + intros q [=<-]. split; [|congruence]. eexists. by eapply lookup_insert_triple_old.
    + intros q [=<-]. congruence.
  - rewrite (proj2 (Z.ltb_lt _ _) Hr). erewrite M_bind_Some;
      [|exact (free_built_spec (set_sad (Some t') s) _ _ _ _ _ _ _ Hp Hisa Hses ltac:(done) ltac:(done) ltac:(done))].
    m_return. destruct (ipsec_inv_same_view _ s t t' Hinv Ht Hv) as [? ->].
    split_and!; [done..|]. right; auto.
Qed.

Lemma delete_sa_correct ul s spec :
  ipsec_inv ul s ->
  exists ret s', dp_ipsec_delete_sa spec s = Some (ret, s') /\ ipsec_inv ul s'
    /\ enabled s' = enabled s
    /\ delete_outcome (enabled s) (ipsec_abs s) spec ret (ipsec_abs s').
Proof.
  intros Hinv. pose proof Hinv as [Hlen CI].
  unfold dp_ipsec_delete_sa, delete_outcome, enabled; cbv zeta.
  rewrite (M_bind_Some _ _ s _ s eq_refl).
  destruct (dp_ipsec_sad s) as [t|] eqn:Ht; cbn [negb]; [|m_return; by rewrite Ht].
  pose proof (find_sa_spec _ s t spec Hinv Ht) as Hfind.
  destruct (named (ipsec_abs s) spec) as [d|]; [|rewrite (M_bind_Some _ _ _ _ _ Hfind); m_return; by rewrite Ht].
  destruct Hfind as (p & sa & Hfind & Hvp & Hp & _ & Hfk). rewrite (M_bind_Some _ _ _ _ _ Hfind).
  destruct (core_inv_live _ CI _ _ Hp) as (i & Hi & [_ (ses & isa & x & prm & Es & Ei & _)] & _).
  destruct (sad_del_spec s t (spec_key spec) Ht) as (r & t' & Hdel & Hr & Hv); [by eexists|].
  rewrite (M_bind_Some _ _ _ _ _ Hdel). unfold DP_FAILED. rewrite (proj2 (Z.ltb_ge _ _) Hr).
  erewrite M_bind_Some; [|reflexivity].
  assert (dp_ipsec_get_slot (dp_ipsec_sas s) p = i) as Hslot.
  { apply get_slot_spec; [done|]. intros j Hj. by eapply (ci_slot_inj _ _ _ _ CI). }
  cbn [set_sad dp_ipsec_sas]. rewrite Hslot. pose proof (lookup_lt_Some _ _ _ Hi) as Hlt.
  rewrite (proj2 (Nat.ltb_lt _ _) Hlt).
  erewrite M_bind_Some; [|by eapply write_slot_spec].
  erewrite M_bind_Some; [|by eapply (free_filed_spec ul _ p sa isa ses)].
  m_return. rewrite <-Hfk in *. split_and!; [split; cbn; [by rewrite length_insert|] | done | done |].
  - rewrite Hv. by apply core_inv_remove.
  - transitivity (abs_core (delete_triple p isa ses (ipsec_heap s)) (sad_view t')); [done|].
    rewrite Hv. by apply (abs_remove CI).
Qed.

(** What [dp_ipsec_get_sa] answers. *)
Definition get_outcome (on : bool) m (spec : dp_ipsec_sa_spec) (r : Z * option dp_ipsec_sa) : Prop :=
  if negb on then r = (DP_GRPC_ERR IPSEC_DISABLED, None)
  else match named m spec with
       | None => r = (DP_GRPC_ERR SA_NOT_FOUND, None)
       | Some d => fst r = DP_OK /\ public <$> snd r = Some d
       end.

Lemma get_sa_correct ul s spec :
  ipsec_inv ul s ->
  exists r, dp_ipsec_get_sa spec s = Some (r, s)
    /\ get_outcome (enabled s) (ipsec_abs s) spec r.
Proof.
  intros Hinv. unfold dp_ipsec_get_sa, get_outcome, enabled.
  rewrite (M_bind_Some _ _ s _ s eq_refl).
  destruct (dp_ipsec_sad s) as [t|] eqn:Ht; cbn [negb]; [|eexists; by split].
  pose proof (find_sa_spec _ s t spec Hinv Ht) as Hfind.
  destruct (named (ipsec_abs s) spec) as [d|];
    [|rewrite (M_bind_Some _ _ _ _ _ Hfind); eexists; by split].
  destruct Hfind as (p & sa & Hfind & Hvp & Hp & -> & Hfk). rewrite (M_bind_Some _ _ _ _ _ Hfind).
  erewrite M_bind_Some; [|by apply load_sa_spec]. eexists; split; [done|]. done.
Qed.

(** Shutdown: the loop of [dp_ipsec_free] from slot [i] on. *)
Lemma free_slots_correct ul s v n i :
  core_inv (sa_wf ul) (ipsec_heap s) v (dp_ipsec_sas s) ->
  (i + n = length (dp_ipsec_sas s))%nat ->
  (forall j p, (j < i)%nat -> dp_ipsec_sas s !! j <> Some (Some p)) ->
  exists s', free_slots (seq i n) s = Some (tt, s') /\ ipsec_heap s' = ∅
    /\ dp_ipsec_sas s' = replicate (i + n) None /\ dp_ipsec_active s' = dp_ipsec_active s.
Proof.
  revert i s v. induction n as [|n IH]; intros i s v CI Hlen Hdone; cbn [seq free_slots].
  - rewrite Nat.add_0_r in *. exists s.
    assert (forall j p, dp_ipsec_sas s !! j <> Some (Some p)) as Hnone.
    { intros j p Hj. pose proof (lookup_lt_Some _ _ _ Hj). apply (Hdone j p); [lia|done]. }
    split_and!; [done| | |done].
    + apply map_eq; intros q. rewrite lookup_empty. destruct (ipsec_heap s !! q) as [o|] eqn:Hq; [|done].
      apply (ci_owned _ _ _ _ CI) in Hq. destruct o; cbn in Hq; naive_solver.
    + apply list_eq_Forall2, Forall2_same_length_lookup. rewrite length_replicate. split; [done|].
      intros j o o' Hj [-> _]%lookup_replicate. destruct o as [p|]; [by destruct (Hnone j p)|done].
  - rewrite (M_bind_Some _ _ s _ s eq_refl).
    destruct (lookup_lt_is_Some_2 (dp_ipsec_sas s) i) as [o Hi]; [lia|]. rewrite Hi.
    erewrite M_bind_Some; [|reflexivity]. destruct o as [p|].
    + destruct (ci_slot _ _ _ _ CI _ _ Hi) as (sa & [Hp (ses & isa & x & prm & Es & Ei & _)] & _).
      erewrite M_bind_Some; [|by eapply (free_filed_spec ul s p sa isa ses)].
      erewrite M_bind_Some; [|by eapply write_slot_spec].
      pose proof (core_inv_remove _ CI Hp Es Ei i Hi) as CI'.
      destruct (IH (S i) (set_sas (<[i:=None]> (dp_ipsec_sas s))
                  (set_heap (delete_triple p isa ses (ipsec_heap s)) s)) _ CI') as (s' & ? & ? & ? & ?).
      * cbn. rewrite length_insert. lia.
      * intros j q Hj [? Hq]%slot_clear_cases. apply (Hdone j q); [lia|done].
      * exists s'. rewrite Nat.add_succ_r in *. by split_and!.
    + destruct (IH (S i) s v CI) as (s' & ? & ? & ? & ?); [lia| |].
      * intros j q Hj Hq. destruct (decide (j = i)) as [->|]; [congruence|]. apply (Hdone j q); [lia|done].
      * exists s'. rewrite Nat.add_succ_r in *. by split_and!.
Qed.

Lemma free_correct ul s :
  ipsec_inv ul s ->
  exists s', dp_ipsec_free s = Some (tt, s') /\ ipsec_heap s' = ∅ /\ dp_ipsec_sad s' = None
    /\ dp_ipsec_active s' = false /\ ipsec_inv ul s'.
Proof.
  intros [Hlen CI]. unfold dp_ipsec_free.
  set (s0 := if dp_ipsec_active s then set_active false s else s).
  erewrite M_bind_Some; [|reflexivity]. fold s0.
  assert (ipsec_heap s0 = ipsec_heap s /\ dp_ipsec_sas s0 = dp_ipsec_sas s
          /\ dp_ipsec_active s0 = false) as (Hh & Hl & Ha)
    by (subst s0; by destruct (dp_ipsec_active s) eqn:?).
  destruct (free_slots_correct ul s0 (view_of s) DP_IPSEC_MAX_SA 0) as (s1 & Hf & Hh1 & Hl1 & Ha1).
  { by rewrite Hh, Hl. } { by rewrite Hl. } { intros j p Hj. lia. }
  rewrite (M_bind_Some _ _ _ _ _ Hf). eexists; split; [done|]. cbn.
  split_and!; [done|done|congruence|]. split; cbn; rewrite ?Hl1, ?length_replicate; [done|].
  rewrite Hh1. apply core_inv_empty. by apply Forall_replicate.
Qed.
End abstract.
