(* ===== verification/Grpc.v ===== *)
(** The requests of the control plane: [src/grpc/dp_grpc_impl.c].

    A handler checks the request, changes the tables of the components it
    concerns and undoes its own steps when a later one fails.  The handlers of
    Security Associations are in [IpsecGrpc]; [dp_process_request] is the
    dispatcher over all of them. *)

From S2P Require Import Prelude Errors RteHash IpAddr Port Packet Ipsec IpsecProofs IpsecGrpc Vnf Firewall FlowKey Nat Flow Maglev Lb VirtsvcConn Rib Multipath Control Lpm Iface.

(** ** Requests *)

Record dpgrpc_iface := mk_grpc_iface {
  gi_iface_id : list Z;
  gi_ip4_addr : Z;
  gi_ip6_addr : dp_ipv6;
  gi_vni : Z;
  gi_pxe_addr : dp_ip_address;
  gi_pxe_str : list Z;
  gi_hostname : list Z;
  gi_pci_name : list Z;
  gi_ul_addr6 : dp_ipv6;
  gi_total_flow_rate_cap : Z;
  gi_public_flow_rate_cap : Z;
  gi_encrypt : bool
}.

Record dpgrpc_prefix := mk_grpc_prefix { gp_iface_id : list Z; gp_addr : dp_ip_address; gp_length : Z; gp_ul_addr6 : dp_ipv6 }.
Record dpgrpc_route := mk_grpc_route {
  gr_pfx_addr : dp_ip_address; gr_pfx_length : Z; gr_vni : Z; gr_trgt_addr : dp_ip_address; gr_trgt_vni : Z
}.
Record dpgrpc_vip := mk_grpc_vip { gv_iface_id : list Z; gv_addr : dp_ip_address; gv_ul_addr6 : dp_ipv6 }.
Record dpgrpc_nat := mk_grpc_nat {
  gn_iface_id : list Z; gn_addr : dp_ip_address; gn_min_port : Z; gn_max_port : Z; gn_vni : Z;
  gn_neigh_addr6 : dp_ipv6; gn_ul_addr6 : dp_ipv6
}.
Record dpgrpc_lb_target := mk_grpc_target { gt_lb_id : list Z; gt_addr : dp_ip_address }.
Record dpgrpc_fwrule := mk_grpc_fwrule { gf_iface_id : list Z; gf_rule : dp_fwall_rule }.
Record dpgrpc_fwrule_id := mk_grpc_fwrule_id { gfi_iface_id : list Z; gfi_rule_id : list Z }.
Inductive dpgrpc_vni_type := DP_VNI_IPV4 | DP_VNI_IPV6 | DP_VNI_BOTH.
Record dpgrpc_vni := mk_grpc_vni { gvn_vni : Z; gvn_type : dpgrpc_vni_type }.
Inductive dpgrpc_capture_interface := CAPTURE_VF (iface_id : list Z) | CAPTURE_PF (pf_index : Z).
Record dpgrpc_capture := mk_grpc_capture {
  gc_dst_addr6 : dp_ipv6; gc_udp_src_port : Z; gc_udp_dst_port : Z; gc_interfaces : list dpgrpc_capture_interface; gc_is_active : bool
}.

(** What a request depends on besides its contents: whether memory is found for
    each table, the configuration, the random numbers, the hardware. *)
Record grpc_env := mk_grpc_env {
  ge_ul : ul_config;
  ge_underlay : dp_ipv6;
  ge_rand1 : Z;
  ge_rand2 : Z;
  ge_vni : vni_env;
  ge_hw : port_hw;
  ge_malloc_vnf : bool;
  ge_malloc_vnf_value : bool;
  ge_malloc_snat : bool;
  ge_malloc_dnat : bool;
  ge_malloc_neighnat : bool;
  ge_malloc_rule : bool;
  ge_malloc_lb : gset ptr -> option ptr;
  ge_malloc_lb_key : bool;
  ge_malloc_maglev : bool * bool;
  ge_reply_ok : nat -> bool;
  ge_sync_enabled : bool;
  ge_flow_timeout : Z;
  ge_ipsec_enabled : bool
}.

Section grpc.
Context `{ERR : RteErrno} {HT : RteHash dp_ipv6 dp_vnf} {VT : RteHash dp_vnf dp_ipv6}
  {ST : RteHash nat_key snat_data} {DT : RteHash nat_key dnat_data}
  {PM : RteHash netnat_portmap_key netnat_portmap_data}
  {PO : RteHash netnat_portoverload_tbl_key (option netnat_portoverload_sync_metadata)}
  {FT : RteHash flow_key ptr} {LT : RteHash lb_key ptr} {IT : RteHash (list Z) lb_key} {OP : RteHash dp_virtsvc_conn_key Z}
  {R4 : RteRib Z} {R6 : RteRib dp_ipv6} {NT : RteHash Z dp_vni_data} {IF : RteHash (list Z) Z}.
Implicit Types (e : grpc_env) (st : ctl_state) (port : dp_port) (id vni : Z) (ul : dp_ipv6).
Abbreviation CM := (M ctl_state).

Definition flow_env_of e st : flow_env :=
  mk_flow_env (hw_offload (ge_hw e)) (ge_flow_timeout e) (ge_sync_enabled e) (c_ports st) (c_vnf st).
Definition on_flows_env {A} e (f : flow_env -> M flow_state A) : CM A := st ← gets id; on_flows (f (flow_env_of e st)).

(** ** Underlay addresses and routes *)

Definition dp_create_vnf_route e ul (type : dp_vnf_type) vni port (pfx_ip : dp_ip_address) (prefix_len : Z) : CM (Z * dp_ipv6) :=
  ul ← (if dp_ipv6_match ul dp_empty_ipv6 then
          counter ← gets c_ul_counter;
          let '(a, counter) := dp_generate_ul_ipv6 (ge_ul e) (ge_underlay e) (ge_rand1 e) (ge_rand2 e) counter
                                 (Z.of_nat (vnf_type_number type)) in
          modify (set_c_ul_counter counter) ;; mret a
        else mret ul);
  ret ← on_vnf (dp_add_vnf (ge_malloc_vnf e) (ge_malloc_vnf_value e) ul type (port_id port) vni pfx_ip prefix_len);
  mret (ret, ul).

Definition dp_grpc_add_route port vni t_vni (addr : dp_ip_address) (t_ip6 : dp_ipv6) (depth : Z) : CM Z :=
  match dp_ipv6_from_ipaddr addr with
  | (_, Some ip6) => dp_add_route6 port vni t_vni ip6 t_ip6 depth
  | (_, None) => dp_add_route port vni t_vni (ipv4 addr) t_ip6 depth
  end.

Definition dp_grpc_del_route port vni (addr : dp_ip_address) (depth : Z) : CM Z :=
  match dp_ipv6_from_ipaddr addr with
  | (_, Some ip6) => dp_del_route6 port vni ip6 depth
  | (_, None) => dp_del_route port vni (ipv4 addr) depth
  end.

Definition del_vnf ul : CM unit := on_vnf (dp_del_vnf ul) ;; mret tt.

(** An address that is left at zero. *)
Definition zero_pfx (v6 : bool) : dp_ip_address := mk_ipaddr dp_empty_ipv6 v6.

(** The interface a request names, or an error. *)
Definition with_iface {A} (name : list Z) (missing : CM A) (f : Z -> CM A) : CM A :=
  o ← gets (dp_get_port_with_iface_id name);
  match o with None => missing | Some id => f id end.

(** ** Load balancers *)

Definition dp_process_create_lb e (request : dpgrpc_lb) : CM (Z * dp_ipv6) :=
  pf0 ← dp_get_pf0;
  r ← dp_create_vnf_route e (glb_ul request) DP_VNF_TYPE_LB (glb_vni request) pf0 (zero_pfx (is_v6 (glb_addr request))) 0;
  let ul := snd r in
  if DP_FAILED (fst r) then mret (DP_GRPC_ERR VNF_INSERT, ul)
  else
    ret ← on_lbs (dp_create_lb (ge_malloc_lb e) (ge_malloc_lb_key e) request ul);
    if DP_FAILED ret then del_vnf ul ;; mret (ret, ul)
    else
      ret ← dp_create_vni_route_tables (ge_vni e) (glb_vni request) (socket_id pf0);
      if DP_FAILED ret then
        on_lbs (dp_delete_lb (glb_id request)) ;; del_vnf ul ;; mret (DP_GRPC_ERR VNI_INIT4, ul)
      else mret (DP_OK, ul).

Definition dp_process_delete_lb (lb_id : list Z) : CM Z :=
  r ← on_lbs (dp_get_lb lb_id);
  if DP_FAILED (fst r) then mret (fst r)
  else
    lb ← get_some (snd r);
    del_vnf (glb_ul lb) ;;
    ret ← on_lbs (dp_delete_lb lb_id);
    if DP_FAILED ret then mret ret
    else
      ret ← dp_delete_vni_route_tables (glb_vni lb);
      if DP_FAILED ret then mret (DP_GRPC_ERR VNI_FREE4) else mret DP_OK.

Definition dp_process_get_lb (lb_id : list Z) : CM (Z * option dpgrpc_lb) := on_lbs (dp_get_lb lb_id).
Definition dp_process_list_lbs e : CM (Z * list dpgrpc_lb) := on_lbs (dp_list_lbs (ge_reply_ok e)).

Definition dp_process_create_lbtarget e (request : dpgrpc_lb_target) : CM Z :=
  match dp_ipv6_from_ipaddr (gt_addr request) with
  | (_, None) => mret (DP_GRPC_ERR BAD_IPVER)
  | (_, Some ip6) => on_lbs (dp_add_lb_back_ip (fst (ge_malloc_maglev e)) (snd (ge_malloc_maglev e)) (gt_lb_id request) ip6)
  end.

Definition dp_process_delete_lbtarget e (request : dpgrpc_lb_target) : CM Z :=
  match dp_ipv6_from_ipaddr (gt_addr request) with
  | (_, None) => mret (DP_GRPC_ERR BAD_IPVER)
  | (_, Some ip6) =>
      ret ← on_lbs (dp_del_lb_back_ip (fst (ge_malloc_maglev e)) (snd (ge_malloc_maglev e)) (gt_lb_id request) ip6);
      if DP_FAILED ret then mret ret
      else on_flows_env e (fun fe => dp_remove_lbtarget_flows fe ip6) ;; mret DP_OK
  end.

(** ** VNIs *)

Definition dp_process_initialize e : CM Z :=
  on_nat_tables (fun nat => (tt, dp_del_all_neigh_nat_entries_in_vni DP_NETWORK_NAT_ALL_VNI nat)) ;;
  dp_lpm_reset_all_route_tables (ge_vni e).

Definition dp_process_check_vniinuse (request : dpgrpc_vni) : CM (Z * bool) :=
  match gvn_type request with
  | DP_VNI_IPV4 => b ← gets (dp_is_vni_route_table_available (gvn_vni request) IPPROTO_IPIP); mret (DP_OK, b)
  | DP_VNI_IPV6 => b ← gets (dp_is_vni_route_table_available (gvn_vni request) IPPROTO_IPV6); mret (DP_OK, b)
  | DP_VNI_BOTH => mret (DP_GRPC_ERR WRONG_TYPE, false)
  end.

Definition dp_process_reset_vni e (request : dpgrpc_vni) : CM Z :=
  match gvn_type request with
  | DP_VNI_BOTH => dp_lpm_reset_route_tables (ge_vni e) (gvn_vni request)
  | _ => mret (DP_GRPC_ERR WRONG_TYPE)
  end.

(** ** Firewall rules *)

Definition dp_process_create_fwrule e (request : dpgrpc_fwrule) : CM Z :=
  with_iface (gf_iface_id request) (mret (DP_GRPC_ERR NO_VM)) (fun id =>
    port ← get_port id;
    if bool_decide (is_Some (dp_get_firewall_rule (rule_id (gf_rule request)) port)) then mret (DP_GRPC_ERR ALREADY_EXISTS)
    else if bool_decide (rule_action (gf_rule request) = DP_FWALL_DROP) then mret (DP_GRPC_ERR NO_DROP_SUPPORT)
    else
      upd_port id (fun p => snd (dp_add_firewall_rule (ge_malloc_rule e) (gf_rule request) p)) ;;
      if DP_FAILED (fst (dp_add_firewall_rule (ge_malloc_rule e) (gf_rule request) port)) then mret (DP_GRPC_ERR OUT_OF_MEMORY) else mret DP_OK).

Definition dp_process_get_fwrule (request : dpgrpc_fwrule_id) : CM (Z * option dp_fwall_rule) :=
  with_iface (gfi_iface_id request) (mret (DP_GRPC_ERR NO_VM, None)) (fun id =>
    port ← get_port id;
    match dp_get_firewall_rule (gfi_rule_id request) port with
    | None => mret (DP_GRPC_ERR NOT_FOUND, None)
    | Some rule => mret (DP_OK, Some rule)
    end).

Definition dp_process_delete_fwrule (request : dpgrpc_fwrule_id) : CM Z :=
  with_iface (gfi_iface_id request) (mret (DP_GRPC_ERR NO_VM)) (fun id =>
    port ← get_port id;
    upd_port id (fun p => snd (dp_delete_firewall_rule (gfi_rule_id request) p)) ;;
    if DP_FAILED (fst (dp_delete_firewall_rule (gfi_rule_id request) port)) then mret (DP_GRPC_ERR NOT_FOUND) else mret DP_OK).

Definition dp_process_list_fwrules e (name : list Z) : CM (Z * list dp_fwall_rule) :=
  with_iface name (mret (DP_GRPC_ERR NO_VM, [])) (fun id =>
    port ← get_port id; mret (dp_list_firewall_rules (ge_reply_ok e) port)).

(** ** Virtual addresses *)

Definition dp_process_create_vip e (request : dpgrpc_vip) : CM (Z * dp_ipv6) :=
  with_iface (gv_iface_id request) (mret (DP_GRPC_ERR NO_VM, gv_ul_addr6 request)) (fun id =>
    port ← get_port id;
    if is_v6 (gv_addr request) then mret (DP_GRPC_ERR BAD_IPVER, gv_ul_addr6 request)
    else
      let iface_ip := own_ip (cfg (iface port)) in
      let vni := iface_vni (iface port) in
      r ← dp_create_vnf_route e (gv_ul_addr6 request) DP_VNF_TYPE_VIP vni port (zero_pfx false) 0;
      let ul := snd r in
      if DP_FAILED (fst r) then mret (DP_GRPC_ERR VNF_INSERT, ul)
      else
        let vip := ipv4 (gv_addr request) in
        ret ← on_nat_tables (dp_set_iface_vip_ip (ge_malloc_snat e) iface_ip vip vni ul);
        if DP_FAILED ret then del_vnf ul ;; mret (ret, ul)
        else
          ret ← on_nat_tables (dp_set_dnat_ip (ge_malloc_dnat e) vip iface_ip vni);
          if DP_FAILED ret then on_nat_tables (dp_del_iface_vip_ip iface_ip vni) ;; del_vnf ul ;; mret (ret, ul)
          else mret (DP_OK, ul)).

(** The address and network of an interface with its NAT data, if [set] says
    that the address in question is configured. *)
Definition with_snat {A} (name : list Z) (set : snat_data -> Z) (missing : Z -> CM A) (f : Z -> dp_port -> snat_data -> CM A) : CM A :=
  with_iface name (missing (DP_GRPC_ERR NO_VM)) (fun id =>
    port ← get_port id;
    nat ← gets c_nat;
    match dp_get_iface_snat_data (own_ip (cfg (iface port))) (iface_vni (iface port)) nat with
    | None => missing (DP_GRPC_ERR SNAT_NO_DATA)
    | Some data => if set data =? 0 then missing (DP_GRPC_ERR SNAT_NO_DATA) else f id port data
    end).

Definition dp_process_delete_vip e (name : list Z) : CM (Z * option dp_ip_address) :=
  with_snat name vip_ip (fun ret => mret (ret, None)) (fun id port data =>
    let iface_ip := own_ip (cfg (iface port)) in
    let vni := iface_vni (iface port) in
    del_vnf (ul_vip_ip6 data) ;;
    on_nat_tables (dp_del_dnat_ip (vip_ip data) vni) ;;
    on_nat_tables (dp_del_iface_vip_ip iface_ip vni) ;;
    on_flows_env e (fun fe => dp_remove_nat_flows fe (port_id port) DP_FLOW_NAT_TYPE_VIP) ;;
    mret (DP_OK, Some (dp_set_ipaddr4 (vip_ip data)))).

Definition dp_process_get_vip (name : list Z) : CM (Z * option (dp_ip_address * dp_ipv6)) :=
  with_snat name vip_ip (fun ret => mret (ret, None)) (fun _ _ data =>
    mret (DP_OK, Some (dp_set_ipaddr4 (vip_ip data), ul_vip_ip6 data))).

(** ** Prefixes *)

Definition dp_process_create_lbprefix e (request : dpgrpc_prefix) : CM (Z * dp_ipv6) :=
  with_iface (gp_iface_id request) (mret (DP_GRPC_ERR NO_VM, gp_ul_addr6 request)) (fun id =>
    port ← get_port id;
    exists_ ← gets (fun st => dp_vnf_lbprefix_exists (port_id port) (iface_vni (iface port)) (gp_addr request) (gp_length request) (c_vnf st));
    if exists_ : bool then mret (DP_GRPC_ERR ALREADY_EXISTS, gp_ul_addr6 request)
    else
      r ← dp_create_vnf_route e (gp_ul_addr6 request) DP_VNF_TYPE_LB_ALIAS_PFX (iface_vni (iface port)) port (gp_addr request) (gp_length request);
      if DP_FAILED (fst r) then mret (DP_GRPC_ERR VNF_INSERT, snd r) else mret (DP_OK, snd r)).

Definition dp_process_delete_lbprefix (request : dpgrpc_prefix) : CM Z :=
  with_iface (gp_iface_id request) (mret (DP_GRPC_ERR NO_VM)) (fun id =>
    port ← get_port id;
    on_vnf (dp_del_vnf_by_value DP_VNF_TYPE_LB_ALIAS_PFX (port_id port) (iface_vni (iface port)) (gp_addr request) (gp_length request))).

Definition dp_process_create_prefix e (request : dpgrpc_prefix) : CM (Z * dp_ipv6) :=
  with_iface (gp_iface_id request) (mret (DP_GRPC_ERR NO_VM, gp_ul_addr6 request)) (fun id =>
    port ← get_port id;
    let vni := iface_vni (iface port) in
    ret ← dp_grpc_add_route port vni 0 (gp_addr request) dp_empty_ipv6 (gp_length request);
    if DP_FAILED ret then mret (ret, gp_ul_addr6 request)
    else
      r ← dp_create_vnf_route e (gp_ul_addr6 request) DP_VNF_TYPE_ALIAS_PFX vni port (gp_addr request) (gp_length request);
      if DP_FAILED (fst r) then
        dp_grpc_del_route port vni (gp_addr request) (gp_length request) ;; mret (DP_GRPC_ERR VNF_INSERT, snd r)
      else mret (DP_OK, snd r)).

Definition dp_process_delete_prefix (request : dpgrpc_prefix) : CM Z :=
  with_iface (gp_iface_id request) (mret (DP_GRPC_ERR NO_VM)) (fun id =>
    port ← get_port id;
    let vni := iface_vni (iface port) in
    ret ← dp_grpc_del_route port vni (gp_addr request) (gp_length request);
    ret2 ← on_vnf (dp_del_vnf_by_value DP_VNF_TYPE_ALIAS_PFX (port_id port) vni (gp_addr request) (gp_length request));
    mret (if DP_FAILED ret then ret else ret2)).

Definition dp_process_list_lbprefixes e (name : list Z) : CM (Z * list vnf_reply) :=
  with_iface name (mret (DP_GRPC_ERR NO_VM, [])) (fun id =>
    port ← get_port id; gets (fun st => dp_list_vnf_alias_prefixes (ge_reply_ok e) (port_id port) DP_VNF_TYPE_LB_ALIAS_PFX (c_vnf st))).
Definition dp_process_list_prefixes e (name : list Z) : CM (Z * list vnf_reply) :=
  with_iface name (mret (DP_GRPC_ERR NO_VM, [])) (fun id =>
    port ← get_port id; gets (fun st => dp_list_vnf_alias_prefixes (ge_reply_ok e) (port_id port) DP_VNF_TYPE_ALIAS_PFX (c_vnf st))).

(** ** Interfaces *)

(** [strnlen] with one byte less than the field. *)
Definition strnlen (s : list Z) (n : nat) : Z :=
  Z.of_nat (default (length (take n s)) (find_index (fun c => c =? 0) (take n s))).

Definition DP_LPM_DHCP_IP6_DEPTH : Z := 128.

(** The members that the request sets. *)
Definition configure_iface (request : dpgrpc_iface) ul (i : dp_port_iface) : dp_port_iface :=
  set_encrypt (gi_encrypt request)
    (set_hostname_len (strnlen (gi_hostname request) (DP_IFACE_HOSTNAME_MAX_LEN - 1))
      (set_cfg (mk_iface_cfg (gi_ip4_addr request) (neigh_ip (cfg i)) DP_LPM_DHCP_IP_DEPTH (gi_ip6_addr request) DP_LPM_DHCP_IP6_DEPTH
                  (dp_copy_ipaddr (gi_pxe_addr request)) (gi_pxe_str request) (gi_hostname request))
        (set_ul_ipv6 ul i))).

(** The part after the interface was set up; on failure the caller removes it
    again.  [Some ret] is the result of a request that failed. *)
Definition install_iface e (request : dpgrpc_iface) id : CM (option Z) :=
  port ← get_port id;
  let undo6 ret := dp_del_route6 port (gi_vni request) (gi_ip6_addr request) 128 ;;
                   dp_del_route port (gi_vni request) (gi_ip4_addr request) 32 ;; mret (Some ret) in
  ret ← (if negb (gi_ip4_addr request =? 0) then dp_add_route port (gi_vni request) 0 (gi_ip4_addr request) dp_empty_ipv6 32 else mret DP_OK);
  if DP_FAILED ret then mret (Some ret)
  else
    ret ← (if negb (dp_is_ipv6_zero (gi_ip6_addr request))
           then dp_add_route6 port (gi_vni request) 0 (gi_ip6_addr request) dp_empty_ipv6 128 else mret DP_OK);
    if DP_FAILED ret then dp_del_route port (gi_vni request) (gi_ip4_addr request) 32 ;; mret (Some ret)
    else
      ret ← (if negb (is_pf port) then dp_port_meter_config (ge_hw e) id (gi_total_flow_rate_cap request) (gi_public_flow_rate_cap request)
             else mret DP_OK);
      if DP_FAILED ret then undo6 (DP_GRPC_ERR PORT_METER)
      else
        ret ← dp_start_port (ge_hw e) id;
        if DP_FAILED ret then dp_port_meter_config (ge_hw e) id 0 0 ;; undo6 (DP_GRPC_ERR PORT_START)
        else mret None.

Definition dp_process_create_interface e (request : dpgrpc_iface) : CM (Z * dp_ipv6) :=
  let ul0 := gi_ul_addr6 request in
  if gi_encrypt request && negb (ge_ipsec_enabled e) then mret (DP_GRPC_ERR IPSEC_DISABLED, ul0)
  else
    o ← gets (dp_get_port_by_name (ge_hw e) (gi_pci_name request));
    match o with
    | None => mret (DP_GRPC_ERR NOT_FOUND, ul0)
    | Some id =>
        port ← get_port id;
        if allocated port then mret (DP_GRPC_ERR ALREADY_EXISTS, ul0)
        else
          r ← dp_create_vnf_route e ul0 DP_VNF_TYPE_INTERFACE_IP (gi_vni request) port (zero_pfx false) 0;
          let ul := snd r in
          if DP_FAILED (fst r) then mret (DP_GRPC_ERR VNF_INSERT, ul)
          else
            ret ← dp_map_iface_id (gi_iface_id request) id;
            if DP_FAILED ret then del_vnf ul ;; mret (DP_GRPC_ERR VM_HANDLE, ul)
            else
              ret ← dp_setup_iface (ge_vni e) id (gi_vni request);
              if DP_FAILED ret then dp_unmap_iface_id (gi_iface_id request) ;; del_vnf ul ;; mret (DP_GRPC_ERR VNI_INIT4, ul)
              else
                upd_port id (upd_iface (configure_iface request ul)) ;;
                failed ← install_iface e request id;
                match failed with
                | Some ret =>
                    dp_delete_iface id ;; dp_unmap_iface_id (gi_iface_id request) ;; del_vnf ul ;; mret (ret, ul)
                | None => mret (DP_OK, ul)
                end
    end.

Definition virtsvc_del_iface id : CM unit := fun st =>
  match dp_virtsvc_del_iface id (c_virtsvc st) with Some l => Some (tt, set_c_virtsvc l st) | None => None end.

Definition dp_process_delete_interface e (name : list Z) : CM Z :=
  with_iface name (mret (DP_GRPC_ERR NOT_FOUND)) (fun id =>
    port ← get_port id;
    let ipv4 := own_ip (cfg (iface port)) in
    let vni := iface_vni (iface port) in
    r1 ← (if negb (is_pf port) then dp_port_meter_config (ge_hw e) id 0 0 else mret DP_OK);
    let ret := if DP_FAILED r1 then DP_GRPC_ERR PORT_METER else DP_OK in
    del_vnf (ul_ipv6 (iface port)) ;;
    r2 ← dp_stop_port (ge_hw e) id;
    let ret := if DP_FAILED r2 then DP_GRPC_ERR PORT_STOP else ret in
    dp_unmap_iface_id name ;;
    dp_delete_iface id ;;
    virtsvc_del_iface (port_id port) ;;
    on_flows_env e (fun fe => dp_remove_iface_flows fe (port_id port) ipv4 vni) ;;
    mret ret).

(** What is told of an interface; the name of its device is not kept here. *)
Definition iface_reply port : dpgrpc_iface :=
  let i := iface port in
  mk_grpc_iface (iface_id i) (own_ip (cfg i)) (own_ipv6 (cfg i)) (iface_vni i) (zero_pfx false) [] (hostname (cfg i)) []
    (ul_ipv6 i) (total_flow_rate_cap i) (public_flow_rate_cap i) (encrypt i).

Definition dp_process_get_interface (name : list Z) : CM (Z * option dpgrpc_iface) :=
  with_iface name (mret (DP_GRPC_ERR NOT_FOUND, None)) (fun id => port ← get_port id; mret (DP_OK, Some (iface_reply port))).

Fixpoint list_interfaces_loop (reply_ok : nat -> bool) (order : list Z) (replies : list dpgrpc_iface) : CM (Z * list dpgrpc_iface) :=
  match order with
  | [] => mret (DP_OK, replies)
  | id :: order =>
      port ← get_port id;
      if negb (ready (iface port)) then list_interfaces_loop reply_ok order replies
      else if negb (reply_ok (length replies)) then mret (DP_GRPC_ERR OUT_OF_MEMORY, replies)
      else list_interfaces_loop reply_ok order (replies ++ [iface_reply port])
  end.
Definition dp_process_list_interfaces e : CM (Z * list dpgrpc_iface) :=
  order ← gets c_order; list_interfaces_loop (ge_reply_ok e) order [].

(** ** Routes *)

Definition dp_process_create_route (request : dpgrpc_route) : CM Z :=
  match dp_ipv6_from_ipaddr (gr_trgt_addr request) with
  | (_, None) => mret (DP_GRPC_ERR BAD_IPVER)
  | (_, Some t_ipv6) =>
      pf0 ← dp_get_pf0;
      dp_grpc_add_route pf0 (gr_vni request) (gr_trgt_vni request) (gr_pfx_addr request) t_ipv6 (gr_pfx_length request)
  end.

Definition dp_process_delete_route (request : dpgrpc_route) : CM Z :=
  pf0 ← dp_get_pf0; dp_grpc_del_route pf0 (gr_vni request) (gr_pfx_addr request) (gr_pfx_length request).

Definition dp_process_list_routes e vni : CM (Z * list route_reply) :=
  pf0 ← dp_get_pf0; gets (dp_list_routes (ge_reply_ok e) pf0 vni true).

(** ** Network address translation *)

Definition set_iface_nat (ip min max : Z) port : dp_port :=
  upd_iface (fun i => set_nat_port_max max (set_nat_port_min min (set_nat_ip ip i))) port.

Definition dp_process_create_nat e (request : dpgrpc_nat) : CM (Z * dp_ipv6) :=
  with_iface (gn_iface_id request) (mret (DP_GRPC_ERR NO_VM, gn_ul_addr6 request)) (fun id =>
    port ← get_port id;
    if is_v6 (gn_addr request) then mret (DP_GRPC_ERR BAD_IPVER, gn_ul_addr6 request)
    else
      let iface_ip := own_ip (cfg (iface port)) in
      let vni := iface_vni (iface port) in
      let ip := ipv4 (gn_addr request) in
      r ← dp_create_vnf_route e (gn_ul_addr6 request) DP_VNF_TYPE_NAT vni port (zero_pfx false) 0;
      let ul := snd r in
      if DP_FAILED (fst r) then mret (DP_GRPC_ERR VNF_INSERT, ul)
      else
        ret ← on_nat_tables (dp_set_iface_nat_ip (ge_malloc_snat e) iface_ip ip vni (gn_min_port request) (gn_max_port request) ul);
        if DP_FAILED ret then del_vnf ul ;; mret (ret, ul)
        else
          ret ← on_nat_tables (dp_set_dnat_ip (ge_malloc_dnat e) ip 0 vni);
          if DP_FAILED ret && negb (ret =? DP_GRPC_ERR DNAT_EXISTS) then
            on_nat_tables (dp_del_iface_nat_ip iface_ip vni) ;; del_vnf ul ;; mret (ret, ul)
          else
            upd_port id (set_iface_nat ip (gn_min_port request) (gn_max_port request)) ;;
            mret (DP_OK, ul)).

Definition dp_process_delete_nat e (name : list Z) : CM (Z * option dp_ip_address) :=
  with_snat name snat_ip (fun ret => mret (ret, None)) (fun id port data =>
    let iface_ip := own_ip (cfg (iface port)) in
    let vni := iface_vni (iface port) in
    del_vnf (ul_nat_ip6 data) ;;
    on_nat_tables (fun nat => (tt, dp_del_vip_from_dnat (snat_ip data) vni nat)) ;;
    upd_port id (set_iface_nat 0 0 0) ;;
    on_flows_env e (fun fe => dp_remove_nat_flows fe (port_id port) DP_FLOW_NAT_TYPE_NETWORK_LOCAL) ;;
    ret ← on_nat_tables (dp_del_iface_nat_ip iface_ip vni);
    mret (ret, Some (dp_set_ipaddr4 (snat_ip data)))).

Definition dp_process_get_nat (name : list Z) : CM (Z * option dpgrpc_nat) :=
  with_snat name snat_ip (fun ret => mret (ret, None)) (fun _ _ data =>
    mret (DP_OK, Some (mk_grpc_nat [] (dp_set_ipaddr4 (snat_ip data)) (snat_min_port data) (snat_max_port data) 0 dp_empty_ipv6 (ul_nat_ip6 data)))).

Definition dp_process_create_neighnat e (request : dpgrpc_nat) : CM Z :=
  if is_v6 (gn_addr request) then mret (DP_GRPC_ERR BAD_IPVER)
  else
    let ip := ipv4 (gn_addr request) in
    ret ← on_nat_tables (dp_add_neighnat_entry (ge_malloc_neighnat e) ip (gn_vni request) (gn_min_port request) (gn_max_port request) (gn_neigh_addr6 request));
    if DP_FAILED ret then mret ret
    else
      ret ← on_nat_tables (dp_set_dnat_ip (ge_malloc_dnat e) ip 0 (gn_vni request));
      if DP_FAILED ret && negb (ret =? DP_GRPC_ERR DNAT_EXISTS) then
        on_nat_tables (dp_del_neighnat_entry ip (gn_vni request) (gn_min_port request) (gn_max_port request)) ;; mret ret
      else mret DP_OK.

Definition dp_process_delete_neighnat e (request : dpgrpc_nat) : CM Z :=
  if is_v6 (gn_addr request) then mret (DP_GRPC_ERR BAD_IPVER)
  else
    let ip := ipv4 (gn_addr request) in
    ret ← on_nat_tables (dp_del_neighnat_entry ip (gn_vni request) (gn_min_port request) (gn_max_port request));
    if ret =? DP_GRPC_ERR NOT_FOUND then mret ret
    else
      on_nat_tables (fun nat => (tt, dp_del_vip_from_dnat ip (gn_vni request) nat)) ;;
      on_flows_env e (fun fe => dp_remove_neighnat_flows fe ip (gn_vni request) (gn_min_port request) (gn_max_port request)) ;;
      mret ret.

Definition dp_process_list_localnats e (addr : dp_ip_address) : CM (Z * list nat_reply) :=
  if is_v6 addr then mret (DP_GRPC_ERR BAD_IPVER, [])
  else gets (fun st => dp_list_nat_local_entries (ge_reply_ok e) (ipv4 addr) (c_nat st)).
Definition dp_process_list_neighnats e (addr : dp_ip_address) : CM (Z * list nat_reply) :=
  if is_v6 addr then mret (DP_GRPC_ERR BAD_IPVER, [])
  else gets (fun st => dp_list_nat_neigh_entries (ge_reply_ok e) (ipv4 addr) (c_nat st)).
Definition dp_process_list_lbtargets e (lb_id : list Z) : CM (Z * list dp_ip_address) :=
  on_lbs (dp_get_lb_back_ips (ge_reply_ok e) lb_id).

(** ** Packet capture *)

Definition capture_port (i : dpgrpc_capture_interface) st : option Z :=
  match i with
  | CAPTURE_VF name => dp_get_port_with_iface_id name st
  | CAPTURE_PF index => dp_get_port_by_pf_index index st
  end.

(** The message about an interface that is not there reads the port that was not
    found. *)
Fixpoint capture_start_loop e (interfaces : list dpgrpc_capture_interface) (status : Z) : CM Z :=
  match interfaces with
  | [] => mret status
  | i :: interfaces =>
      o ← gets (capture_port i);
      match o with
      | None => ub
      | Some id =>
          status ← dp_enable_pkt_capture (ge_hw e) id;
          if DP_FAILED status then mret status else capture_start_loop e interfaces status
      end
  end.

Definition set_capture_enabled (b : bool) (c : capture_state) : capture_state :=
  mk_capture b (capture_dst c) (capture_src_port c) (capture_dst_port c).

Definition dp_process_capture_start e (request : dpgrpc_capture) : CM Z :=
  if negb (hw_offload (ge_hw e)) then mret (DP_GRPC_ERR NOT_ACTIVE)
  else
    c ← gets c_capture;
    if capture_enabled c then mret (DP_GRPC_ERR ALREADY_ACTIVE)
    else
      modify (set_c_capture (mk_capture false (gc_dst_addr6 request) (gc_udp_src_port request) (gc_udp_dst_port request))) ;;
      status ← capture_start_loop e (gc_interfaces request) DP_OK;
      if DP_FAILED status then
        ret ← dp_disable_pkt_capture_on_all_ifaces (ge_hw e);
        if DP_FAILED ret then mret (DP_GRPC_ERR ROLLBACK) else mret status
      else modify (fun st => set_c_capture (set_capture_enabled true (c_capture st)) st) ;; mret status.

Definition dp_process_capture_stop e : CM (Z * Z) :=
  c ← gets c_capture;
  if negb (capture_enabled c) then mret (DP_GRPC_ERR NOT_ACTIVE, 0)
  else
    ret ← dp_disable_pkt_capture_on_all_ifaces (ge_hw e);
    if DP_FAILED ret then mret (ret, 0)
    else modify (fun st => set_c_capture (set_capture_enabled false (c_capture st)) st) ;; mret (DP_OK, u16 ret).

Definition DP_CAPTURE_MAX_PORT_NUM : nat := 16.

Fixpoint capture_status_loop (pf0 : Z) (order : list Z) (found : list dpgrpc_capture_interface) : CM (Z * list dpgrpc_capture_interface) :=
  match order with
  | [] => mret (DP_OK, found)
  | id :: order =>
      port ← get_port id;
      if negb (allocated port) || negb (captured port) then capture_status_loop pf0 order found
      else if (DP_CAPTURE_MAX_PORT_NUM <=? length found)%nat then mret (DP_GRPC_ERR LIMIT_REACHED, found)
      else
        let i := if is_pf port then CAPTURE_PF (if id =? pf0 then 0 else 1) else CAPTURE_VF (iface_id (iface port)) in
        capture_status_loop pf0 order (found ++ [i])
  end.

Definition dp_process_capture_status : CM (Z * dpgrpc_capture) :=
  c ← gets c_capture;
  if negb (capture_enabled c) then mret (DP_OK, mk_grpc_capture dp_empty_ipv6 0 0 [] false)
  else
    pfs ← gets c_pfs;
    pf0 ← get_some (pfs !! 0%nat);
    order ← gets c_order;
    r ← capture_status_loop pf0 order [];
    if DP_FAILED (fst r) then mret (fst r, mk_grpc_capture dp_empty_ipv6 0 0 (snd r) false)
    else mret (DP_OK, mk_grpc_capture (capture_dst c) (capture_src_port c) (capture_dst_port c) (snd r) true).

(** ** Encryption of interfaces *)

Definition dp_process_enable_interface_encryption e (name : list Z) : CM Z :=
  if negb (ge_ipsec_enabled e) then mret (DP_GRPC_ERR IPSEC_DISABLED)
  else
    with_iface name (mret (DP_GRPC_ERR NOT_FOUND)) (fun id =>
      port ← get_port id;
      if encrypt (iface port) then mret (DP_GRPC_ERR ALREADY_ACTIVE)
      else upd_port id (upd_iface (set_encrypt true)) ;; mret DP_OK).

Definition dp_process_disable_interface_encryption (name : list Z) : CM Z :=
  with_iface name (mret (DP_GRPC_ERR NOT_FOUND)) (fun id =>
    port ← get_port id;
    if negb (encrypt (iface port)) then mret (DP_GRPC_ERR NOT_ACTIVE)
    else upd_port id (upd_iface (set_encrypt false)) ;; mret DP_OK).

Definition dp_process_get_interface_encryption (name : list Z) : CM (Z * bool) :=
  with_iface name (mret (DP_GRPC_ERR NOT_FOUND, false)) (fun id => port ← get_port id; mret (DP_OK, encrypt (iface port))).

(** ** The dispatcher *)

Inductive grpc_request :=
| Initialize | GetVersion
| CreateInterface (r : dpgrpc_iface) | DeleteInterface (n : list Z) | GetInterface (n : list Z) | ListInterfaces
| CreatePrefix (r : dpgrpc_prefix) | DeletePrefix (r : dpgrpc_prefix) | ListPrefixes (n : list Z)
| CreateRoute (r : dpgrpc_route) | DeleteRoute (r : dpgrpc_route) | ListRoutes (vni : Z)
| CreateVip (r : dpgrpc_vip) | DeleteVip (n : list Z) | GetVip (n : list Z)
| CreateNat (r : dpgrpc_nat) | DeleteNat (n : list Z) | GetNat (n : list Z)
| CreateNeighborNat (r : dpgrpc_nat) | DeleteNeighborNat (r : dpgrpc_nat)
| ListLocalNats (a : dp_ip_address) | ListNeighborNats (a : dp_ip_address)
| CreateLoadBalancer (r : dpgrpc_lb) | DeleteLoadBalancer (n : list Z) | GetLoadBalancer (n : list Z) | ListLoadBalancers
| CreateLoadBalancerTarget (r : dpgrpc_lb_target) | DeleteLoadBalancerTarget (r : dpgrpc_lb_target) | ListLoadBalancerTargets (n : list Z)
| CreateLoadBalancerPrefix (r : dpgrpc_prefix) | DeleteLoadBalancerPrefix (r : dpgrpc_prefix) | ListLoadBalancerPrefixes (n : list Z)
| CreateFirewallRule (r : dpgrpc_fwrule) | DeleteFirewallRule (r : dpgrpc_fwrule_id) | GetFirewallRule (r : dpgrpc_fwrule_id) | ListFirewallRules (n : list Z)
| CheckVniInUse (r : dpgrpc_vni) | ResetVni (r : dpgrpc_vni)
| CaptureStart (r : dpgrpc_capture) | CaptureStop | CaptureStatus
| CreateSecurityAssociation (r : dpgrpc_ipsec_sa) | DeleteSecurityAssociation (r : dpgrpc_ipsec_sa_id)
| UpdateSecurityAssociation (r : dpgrpc_ipsec_sa_update) | GetSecurityAssociation (r : dpgrpc_ipsec_sa_id)
| EnableInterfaceEncryption (n : list Z) | DisableInterfaceEncryption (n : list Z) | GetInterfaceEncryption (n : list Z)
| OtherRequest.

Inductive grpc_reply :=
| NoReply | UlAddr (a : dp_ipv6) | Version | Iface (o : option dpgrpc_iface) | Ifaces (l : list dpgrpc_iface)
| Prefixes (l : list vnf_reply) | Routes (l : list route_reply) | VipAddr (o : option dp_ip_address) | Vip (o : option (dp_ip_address * dp_ipv6))
| Nat (o : option dpgrpc_nat) | Nats (l : list nat_reply) | Balancer (o : option dpgrpc_lb) | Balancers (l : list dpgrpc_lb)
| Targets (l : list dp_ip_address) | Rule (o : option dp_fwall_rule) | Rules (l : list dp_fwall_rule)
| InUse (b : bool) | PortCount (n : Z) | Capture (c : dpgrpc_capture) | Sa (o : option dpgrpc_ipsec_sa) | Encryption (b : bool).

Context `{SAD : RteIpsecSad}.

(** The control plane and the database of Security Associations. *)
Record service := mk_service { s_ctl : ctl_state; s_ipsec : ipsec_state }.
Definition on_ctl {A} (f : CM A) : M service A := fun s =>
  match f (s_ctl s) with Some (a, x) => Some (a, mk_service x (s_ipsec s)) | None => None end.
Definition on_ipsec {A} (f : M ipsec_state A) : M service A := fun s =>
  match f (s_ipsec s) with Some (a, x) => Some (a, mk_service (s_ctl s) x) | None => None end.

Definition plain (f : CM Z) : M service (Z * grpc_reply) := ret ← on_ctl f; mret (ret, NoReply).
Definition told {A} (c : A -> grpc_reply) (f : CM (Z * A)) : M service (Z * grpc_reply) := r ← on_ctl f; mret (fst r, c (snd r)).

(** Whether interfaces may encrypt is a matter of the database. *)
Definition with_ipsec e (s : service) : grpc_env :=
  mk_grpc_env (ge_ul e) (ge_underlay e) (ge_rand1 e) (ge_rand2 e) (ge_vni e) (ge_hw e) (ge_malloc_vnf e) (ge_malloc_vnf_value e)
    (ge_malloc_snat e) (ge_malloc_dnat e) (ge_malloc_neighnat e) (ge_malloc_rule e) (ge_malloc_lb e) (ge_malloc_lb_key e)
    (ge_malloc_maglev e) (ge_reply_ok e) (ge_sync_enabled e) (ge_flow_timeout e) (dp_ipsec_is_enabled (s_ipsec s)).

Definition grpc_dispatch e (ie : ipsec_env) (request : grpc_request) : M service (Z * grpc_reply) :=
  match request with
  | Initialize => plain (dp_process_initialize e)
  | GetVersion => mret (DP_OK, Version)
  | CreateInterface r => told UlAddr (dp_process_create_interface e r)
  | DeleteInterface n => plain (dp_process_delete_interface e n)
  | GetInterface n => told Iface (dp_process_get_interface n)
  | ListInterfaces => told Ifaces (dp_process_list_interfaces e)
  | CreatePrefix r => told UlAddr (dp_process_create_prefix e r)
  | DeletePrefix r => plain (dp_process_delete_prefix r)
  | ListPrefixes n => told Prefixes (dp_process_list_prefixes e n)
  | CreateRoute r => plain (dp_process_create_route r)
  | DeleteRoute r => plain (dp_process_delete_route r)
  | ListRoutes vni => told Routes (dp_process_list_routes e vni)
  | CreateVip r => told UlAddr (dp_process_create_vip e r)
  | DeleteVip n => told VipAddr (dp_process_delete_vip e n)
  | GetVip n => told Vip (dp_process_get_vip n)
  | CreateNat r => told UlAddr (dp_process_create_nat e r)
  | DeleteNat n => told VipAddr (dp_process_delete_nat e n)
  | GetNat n => told Nat (dp_process_get_nat n)
  | CreateNeighborNat r => plain (dp_process_create_neighnat e r)
  | DeleteNeighborNat r => plain (dp_process_delete_neighnat e r)
  | ListLocalNats a => told Nats (dp_process_list_localnats e a)
  | ListNeighborNats a => told Nats (dp_process_list_neighnats e a)
  | CreateLoadBalancer r => told UlAddr (dp_process_create_lb e r)
  | DeleteLoadBalancer n => plain (dp_process_delete_lb n)
  | GetLoadBalancer n => told Balancer (dp_process_get_lb n)
  | ListLoadBalancers => told Balancers (dp_process_list_lbs e)
  | CreateLoadBalancerTarget r => plain (dp_process_create_lbtarget e r)
  | DeleteLoadBalancerTarget r => plain (dp_process_delete_lbtarget e r)
  | ListLoadBalancerTargets n => told Targets (dp_process_list_lbtargets e n)
  | CreateLoadBalancerPrefix r => told UlAddr (dp_process_create_lbprefix e r)
  | DeleteLoadBalancerPrefix r => plain (dp_process_delete_lbprefix r)
  | ListLoadBalancerPrefixes n => told Prefixes (dp_process_list_lbprefixes e n)
  | CreateFirewallRule r => plain (dp_process_create_fwrule e r)
  | DeleteFirewallRule r => plain (dp_process_delete_fwrule r)
  | GetFirewallRule r => told Rule (dp_process_get_fwrule r)
  | ListFirewallRules n => told Rules (dp_process_list_fwrules e n)
  | CheckVniInUse r => told InUse (dp_process_check_vniinuse r)
  | ResetVni r => plain (dp_process_reset_vni e r)
  | CaptureStart r => plain (dp_process_capture_start e r)
  | CaptureStop => told PortCount (dp_process_capture_stop e)
  | CaptureStatus => told Capture dp_process_capture_status
  | CreateSecurityAssociation r => ret ← on_ipsec (dp_process_create_security_association ie r); mret (ret, NoReply)
  | DeleteSecurityAssociation r => ret ← on_ipsec (dp_process_delete_security_association r); mret (ret, NoReply)
  | UpdateSecurityAssociation r => ret ← on_ipsec (dp_process_update_security_association ie r); mret (ret, NoReply)
  | GetSecurityAssociation r => x ← on_ipsec (dp_process_get_security_association r); mret (fst x, Sa (snd x))
  | EnableInterfaceEncryption n => plain (dp_process_enable_interface_encryption e n)
  | DisableInterfaceEncryption n => plain (dp_process_disable_interface_encryption n)
  | GetInterfaceEncryption n => told Encryption (dp_process_get_interface_encryption n)
  | OtherRequest => mret (DP_GRPC_ERR BAD_REQUEST, NoReply)
  end.

(** The number in the answer: an error becomes the positive number of the
    interface description. *)
Definition dp_process_request e (ie : ipsec_env) (request : grpc_request) : M service (Z * grpc_reply) :=
  s ← gets id;
  r ← grpc_dispatch (with_ipsec e s) ie request;
  if DP_FAILED (fst r) then code ← get_some (dp_errcode_to_grpc_errcode (fst r)); mret (code, snd r)
  else mret r.
End grpc.
