(* ===== verification/GrpcFrames.v ===== *)
(** What the requests of the control plane leave alone. *)

From S2P Require Import Prelude Errors RteHash IpAddr Port Packet Ipsec IpsecProofs IpsecGrpc Vnf Firewall FlowKey Nat Flow Maglev Lb VirtsvcConn Rib Multipath Control Lpm Iface Grpc.

(** The first step of a program. *)
Ltac bind_inv H a st' Ha := apply M_bind_inv in H as (a & st' & Ha & H).

(** What the control plane remembers of a port. *)
Record port_facts := mk_facts { pf_ready : bool; pf_allocated : bool; pf_vni : Z; pf_name : list Z; pf_encrypt : bool }.
Definition facts (p : dp_port) : port_facts :=
  mk_facts (ready (iface p)) (allocated p) (iface_vni (iface p)) (iface_id (iface p)) (encrypt (iface p)).

Section frames.
Context `{ERR : RteErrno} {HT : RteHash dp_ipv6 dp_vnf} {VT : RteHash dp_vnf dp_ipv6}
  {ST : RteHash nat_key snat_data} {DT : RteHash nat_key dnat_data}
  {PM : RteHash netnat_portmap_key netnat_portmap_data}
  {PO : RteHash netnat_portoverload_tbl_key (option netnat_portoverload_sync_metadata)}
  {FT : RteHash flow_key ptr} {LT : RteHash lb_key ptr} {IT : RteHash (list Z) lb_key} {OP : RteHash dp_virtsvc_conn_key Z}
  {R4 : RteRib Z} {R6 : RteRib dp_ipv6} {NT : RteHash Z dp_vni_data} {IF : RteHash (list Z) Z}.
Implicit Types (e : grpc_env) (st : ctl_state) (port : dp_port) (id vni : Z) (ve : vni_env) (v : dp_vni_data).
Abbreviation CM := (M ctl_state).

(** Ports, names, reference counts, load balancers. *)
Record ledger := mk_ledger {
  lg_ports : gmap Z port_facts;
  lg_names : gmap (list Z) Z;
  lg_refs : gmap Z Z;
  lg_lbs : gmap (list Z) lb_key
}.
Definition lb_ids (x : lb_state) : gmap (list Z) lb_key := hash_view (id_map_lb_tbl x).
Definition names st : gmap (list Z) Z := hash_view (c_iface_ids st).
Definition vnis st : gmap Z dp_vni_data := hash_view (c_vnis st).
Definition lbs st : gmap (list Z) lb_key := lb_ids (c_lb st).
Definition ledger_of st : ledger := mk_ledger (facts <$> c_ports st) (names st) (vd_ref <$> vnis st) (lbs st).

Definition quiet {A} (f : CM A) : Prop := preserves ledger_of f.

Lemma quiet_ret {A} (a : A) : quiet (mret a).
Proof. apply preserves_ret. Qed.
Lemma quiet_gets {A} (f : ctl_state -> A) : quiet (gets f).
Proof. apply preserves_gets. Qed.
Lemma quiet_get_some {A} (o : option A) : quiet (get_some o).
Proof. apply preserves_get_some. Qed.
Lemma quiet_bind {A B} (f : CM A) (g : A -> CM B) : quiet f -> (forall a, quiet (g a)) -> quiet (mbind g f).
Proof. apply preserves_bind. Qed.
Lemma quiet_if {A} (b : bool) (f g : CM A) : quiet f -> quiet g -> quiet (if b then f else g).
Proof. by destruct b. Qed.
Lemma quiet_ub {A} : quiet (ub (A := A)).
Proof. done. Qed.
Lemma quiet_get_port id : quiet (get_port id).
Proof. apply quiet_bind; [apply quiet_gets | intros; apply quiet_get_some]. Qed.
Lemma quiet_modify (f : ctl_state -> ctl_state) : (forall st, ledger_of (f st) = ledger_of st) -> quiet (modify f).
Proof. apply preserves_modify. Qed.

Lemma quiet_on_vnf {A} (f : vnf_state -> A * vnf_state) : quiet (on_vnf f).
Proof. intros st a st'. unfold on_vnf. destruct (f (c_vnf st)). by intros [= _ <-]. Qed.
Lemma quiet_on_nat_tables {A} (f : nat_state -> A * nat_state) : quiet (on_nat_tables f).
Proof. intros st a st'. unfold on_nat_tables. destruct (f (c_nat st)). by intros [= _ <-]. Qed.
Lemma quiet_on_flows {A} (f : M flow_state A) : quiet (on_flows f).
Proof. intros st a st'. unfold on_flows. destruct (f (c_flow st)) as [[]|]; [|done]. by intros [= _ <-]. Qed.
Lemma quiet_on_lbs {A} (f : M lb_state A) : preserves lb_ids f -> quiet (on_lbs f).
Proof.
  intros Hf st a st'. unfold on_lbs. destruct (f (c_lb st)) as [[b x]|] eqn:E; [|done]. intros [= _ <-].
  unfold ledger_of, lbs. cbn. f_equal. exact (Hf _ _ _ E).
Qed.

Lemma facts_insert (ports : port_table) id p p' : ports !! id = Some p -> facts p' = facts p -> facts <$> <[id := p']> ports = facts <$> ports.
Proof. intros Hp Hf. rewrite fmap_insert, Hf. apply insert_id. by rewrite lookup_fmap, Hp. Qed.

Lemma quiet_upd_port id f : (forall p, facts (f p) = facts p) -> quiet (upd_port id f).
Proof.
  intros Hf st a st' (p & st1 & Hp & H)%M_bind_inv. unfold get_port in Hp. m_inv Hp. injection H as _ <-.
  unfold ledger_of, names, vnis, lbs. cbn. f_equal. by eapply facts_insert.
Qed.

(** A write to the data of a VNI. *)
Lemma put_vni_view vni v st : is_Some (vnis st !! vni) -> vnis (put_vni_data vni v st) = <[vni := v]> (vnis st).
Proof. apply hash_poke_view. Qed.

Lemma get_vni_data_view vni st : get_vni_data vni st = vnis st !! vni.
Proof. unfold get_vni_data. rewrite hash_lookup_view. fold (vnis st). by destruct (vnis st !! vni). Qed.

Lemma put_vni_quiet vni v v' st : vnis st !! vni = Some v -> vd_ref v' = vd_ref v -> ledger_of (put_vni_data vni v' st) = ledger_of st.
Proof.
  intros Hv Hr. unfold ledger_of. rewrite put_vni_view by eauto. unfold names, lbs. cbn. f_equal.
  rewrite fmap_insert, Hr. apply insert_id. by rewrite lookup_fmap, Hv.
Qed.

(** *** Routes *)

Lemma quiet_on_rib4 vni f : quiet (on_rib4 vni f).
Proof.
  intros st a st'. unfold on_rib4. destruct (get_vni_data vni st) as [v|] eqn:Hv; cbn; [|by intros [= _ <-]].
  destruct (rib4_of v) as [root|]; cbn; [|by intros [= _ <-]]. destruct (f root) as [ret root']. intros [= _ <-].
  rewrite get_vni_data_view in Hv. by eapply put_vni_quiet.
Qed.
Lemma quiet_on_rib6 vni f : quiet (on_rib6 vni f).
Proof.
  intros st a st'. unfold on_rib6. destruct (get_vni_data vni st) as [v|] eqn:Hv; cbn; [|by intros [= _ <-]].
  destruct (rib6_of v) as [root|]; cbn; [|by intros [= _ <-]]. destruct (f root) as [ret root']. intros [= _ <-].
  rewrite get_vni_data_view in Hv. by eapply put_vni_quiet.
Qed.

Lemma reset_vni_data_ref ve vni v : vd_ref (snd (dp_reset_vni_data ve vni v)) = vd_ref v.
Proof.
  unfold dp_reset_vni_data, dp_create_rib, dp_create_rib6. repeat (case_match; simplify_eq/=); done.
Qed.

End frames.

Create HintDb quiet.
#[export] Hint Resolve quiet_ret quiet_gets quiet_get_some quiet_ub quiet_get_port quiet_on_vnf quiet_on_nat_tables quiet_on_flows
  quiet_on_rib4 quiet_on_rib6 : quiet.
(** Walks through a program. *)
Ltac quiet :=
  repeat first
    [ progress intros
    | solve [auto with quiet nocore]
    | lazymatch goal with
      | |- quiet (mbind _ _) => apply quiet_bind
      | |- quiet (if _ then _ else _) => apply quiet_if
      | |- quiet (match ?x with _ => _ end) => destruct x
      | |- quiet (let '(_, _) := ?x in _) => destruct x
      | |- quiet (upd_port _ _) => apply quiet_upd_port; intros; done
      | |- quiet (modify _) => apply quiet_modify; intros; done
      end ].

Section requests.
Context `{ERR : RteErrno} {HT : RteHash dp_ipv6 dp_vnf} {VT : RteHash dp_vnf dp_ipv6}
  {ST : RteHash nat_key snat_data} {DT : RteHash nat_key dnat_data}
  {PM : RteHash netnat_portmap_key netnat_portmap_data}
  {PO : RteHash netnat_portoverload_tbl_key (option netnat_portoverload_sync_metadata)}
  {FT : RteHash flow_key ptr} {LT : RteHash lb_key ptr} {IT : RteHash (list Z) lb_key} {OP : RteHash dp_virtsvc_conn_key Z}
  {R4 : RteRib Z} {R6 : RteRib dp_ipv6} {NT : RteHash Z dp_vni_data} {IF : RteHash (list Z) Z}.
Implicit Types (e : grpc_env) (st : ctl_state) (port : dp_port) (id vni : Z) (ve : vni_env) (v : dp_vni_data).
Abbreviation CM := (M ctl_state).

Lemma quiet_reset_vni ve vni : quiet (dp_reset_vni_route_tables ve vni).
Proof.
  intros st a st'. unfold dp_reset_vni_route_tables. destruct (get_vni_data vni st) as [v|] eqn:Hv; [|by intros [= _ <-]].
  pose proof (reset_vni_data_ref ve vni v) as Hr. destruct (dp_reset_vni_data ve vni v) as [ret v']. intros [= _ <-].
  rewrite get_vni_data_view in Hv. by eapply put_vni_quiet.
Qed.

Lemma iterate_view st iter vni v iter' : rte_hash_iterate (c_vnis st) iter = Some (vni, v, iter') -> vnis st !! vni = Some v.
Proof.
  rewrite hash_iterate_law. intros (p & _ & _ & Hp & _)%first_entry_spec. apply slot_lookup_view. eauto.
Qed.

Lemma quiet_reset_all_loop fuel ve iter : quiet (reset_all_loop fuel ve iter).
Proof.
  revert iter; induction fuel as [|fuel IH]; intros iter st a st'; cbn [reset_all_loop]; [by intros [= _ <-]|].
  destruct (rte_hash_iterate (c_vnis st) iter) as [[[vni v] iter']|] eqn:E; [|by intros [= _ <-]].
  pose proof (reset_vni_data_ref ve vni v) as Hr. destruct (dp_reset_vni_data ve vni v) as [ret v'] eqn:Ev. apply iterate_view in E.
  assert (ledger_of (put_vni_data vni v' st) = ledger_of st) as Hl by (by eapply put_vni_quiet).
  destruct (DP_FAILED ret); [by intros [= _ <-] | intros H; by rewrite (IH _ _ _ _ H)].
Qed.

Lemma quiet_reset_all ve : quiet (dp_reset_all_vni_route_tables ve).
Proof.
  intros st a st'. unfold dp_reset_all_vni_route_tables. destruct (_ =? 0); [by intros [= _ <-] | apply quiet_reset_all_loop].
Qed.

Lemma quiet_fill_loop skip order : quiet (fill_loop skip order).
Proof.
  induction order as [|id order IH]; cbn [fill_loop]; [apply quiet_ret|].
  unfold dp_lpm_fill_route_tables, dp_add_route, dp_add_route6. quiet.
Qed.

Hint Resolve quiet_reset_vni quiet_reset_all quiet_fill_loop : quiet.

Lemma quiet_reset_routes ve vni : quiet (dp_lpm_reset_route_tables ve vni).
Proof. unfold dp_lpm_reset_route_tables. quiet. Qed.
Lemma quiet_reset_all_routes ve : quiet (dp_lpm_reset_all_route_tables ve).
Proof. unfold dp_lpm_reset_all_route_tables. quiet. Qed.

Lemma quiet_add_route port vni t_vni addr t_ip6 depth : quiet (dp_grpc_add_route port vni t_vni addr t_ip6 depth).
Proof. unfold dp_grpc_add_route, dp_add_route, dp_add_route6. quiet. Qed.
Lemma quiet_del_route port vni addr depth : quiet (dp_grpc_del_route port vni addr depth).
Proof. unfold dp_grpc_del_route, dp_del_route, dp_del_route6. quiet. Qed.
Lemma quiet_vnf_route e ul type vni port pfx len : quiet (dp_create_vnf_route e ul type vni port pfx len).
Proof. unfold dp_create_vnf_route. quiet. Qed.
Lemma quiet_meter hw id total public : quiet (dp_port_meter_config hw id total public).
Proof. unfold dp_port_meter_config, dp_port_public_flow_meter_config. quiet. Qed.
Lemma quiet_del_vnf ul : quiet (del_vnf ul).
Proof. unfold del_vnf. quiet. Qed.
Lemma quiet_pf0 : quiet dp_get_pf0.
Proof. unfold dp_get_pf0. quiet. Qed.
Lemma quiet_on_flows_env {A} e (f : flow_env -> M flow_state A) : quiet (on_flows_env e f).
Proof. unfold on_flows_env. quiet. Qed.
Lemma quiet_with_iface {A} name (missing : CM A) f : quiet missing -> (forall id, quiet (f id)) -> quiet (with_iface name missing f).
Proof. intros. unfold with_iface. quiet. Qed.
Lemma quiet_with_snat {A} name set (missing : Z -> CM A) f :
  (forall ret, quiet (missing ret)) -> (forall id port data, quiet (f id port data)) -> quiet (with_snat name set missing f).
Proof. intros. apply quiet_with_iface; [done|]. quiet. Qed.
Lemma quiet_virtsvc id : quiet (virtsvc_del_iface id).
Proof. intros st a st'. unfold virtsvc_del_iface. destruct (dp_virtsvc_del_iface _ _); [|done]. by intros [= _ <-]. Qed.
Lemma quiet_enable_capture hw id : quiet (dp_enable_pkt_capture hw id).
Proof. unfold dp_enable_pkt_capture. quiet. Qed.
Lemma quiet_disable_all hw order count : quiet (disable_all_loop hw order count).
Proof.
  revert count; induction order as [|id order IH]; intros count; cbn [disable_all_loop]; [apply quiet_ret|].
  pose proof (quiet_enable_capture hw id). quiet.
Qed.
Lemma quiet_capture_start e interfaces status : quiet (capture_start_loop e interfaces status).
Proof.
  revert status; induction interfaces as [|i interfaces IH]; intros status; cbn [capture_start_loop]; [apply quiet_ret|].
  apply quiet_bind; [apply quiet_gets|]. intros [id|]; [|apply quiet_ub]. pose proof (quiet_enable_capture (ge_hw e) id). quiet.
Qed.
Lemma quiet_capture_status pf0 order found : quiet (capture_status_loop pf0 order found).
Proof. revert found; induction order as [|id order IH]; intros found; cbn [capture_status_loop]; [apply quiet_ret|]. quiet. Qed.
Lemma quiet_list_interfaces reply_ok order replies : quiet (list_interfaces_loop reply_ok order replies).
Proof. revert replies; induction order as [|id order IH]; intros replies; cbn [list_interfaces_loop]; [apply quiet_ret|]. quiet. Qed.

(** *** Load balancers *)

Lemma load_lb_ids p : preserves lb_ids (load_lb p).
Proof. unfold load_lb. auto with preserves. Qed.
Lemma store_lb_ids p w : preserves lb_ids (store_lb p w).
Proof. unfold store_lb, load_lb. auto with preserves. Qed.
Lemma free_lb_ids p : preserves lb_ids (free_lb p).
Proof. unfold free_lb, load_lb. auto with preserves. Qed.
Lemma find_lb_ids (id : list Z) : preserves lb_ids (find_lb id).
Proof. unfold find_lb. repeat (case_match || apply preserves_bind || intros || apply preserves_gets || apply preserves_ret). Qed.
Hint Resolve load_lb_ids store_lb_ids free_lb_ids find_lb_ids : preserves.
Ltac lb_ids := repeat first [solve [auto with preserves nocore] | progress intros | case_match | apply preserves_bind].

Lemma get_lb_ids (id : list Z) : preserves lb_ids (dp_get_lb id).
Proof. unfold dp_get_lb. lb_ids. Qed.
Lemma list_lbs_loop_ids fuel reply_ok iter replies : preserves lb_ids (list_lbs_loop fuel reply_ok iter replies).
Proof. revert iter replies; induction fuel as [|fuel IH]; intros iter replies; cbn [list_lbs_loop]; lb_ids. Qed.
Lemma list_lbs_ids reply_ok : preserves lb_ids (dp_list_lbs reply_ok).
Proof. unfold dp_list_lbs. pose proof list_lbs_loop_ids. lb_ids. Qed.
Lemma add_target_ids perm_ok next_ok (id : list Z) ip : preserves lb_ids (dp_add_lb_back_ip perm_ok next_ok id ip).
Proof. unfold dp_add_lb_back_ip. lb_ids. Qed.
Lemma del_target_ids perm_ok next_ok (id : list Z) ip : preserves lb_ids (dp_del_lb_back_ip perm_ok next_ok id ip).
Proof. unfold dp_del_lb_back_ip. lb_ids. Qed.
Lemma all_back_ips_ids fuel reply_ok iter replies : preserves lb_ids (all_back_ips_loop fuel reply_ok iter replies).
Proof. revert iter replies; induction fuel as [|fuel IH]; intros iter replies; cbn [all_back_ips_loop]; lb_ids. Qed.
Lemma back_ips_ids reply_ok (id : list Z) : preserves lb_ids (dp_get_lb_back_ips reply_ok id).
Proof. unfold dp_get_lb_back_ips, dp_get_all_lb_back_ips. pose proof all_back_ips_ids. lb_ids. Qed.

Lemma quiet_get_lb (id : list Z) : quiet (on_lbs (dp_get_lb id)).
Proof. apply quiet_on_lbs, get_lb_ids. Qed.
Lemma quiet_list_lbs reply_ok : quiet (on_lbs (dp_list_lbs reply_ok)).
Proof. apply quiet_on_lbs, list_lbs_ids. Qed.
Lemma quiet_add_target perm_ok next_ok (id : list Z) ip : quiet (on_lbs (dp_add_lb_back_ip perm_ok next_ok id ip)).
Proof. apply quiet_on_lbs, add_target_ids. Qed.
Lemma quiet_del_target perm_ok next_ok (id : list Z) ip : quiet (on_lbs (dp_del_lb_back_ip perm_ok next_ok id ip)).
Proof. apply quiet_on_lbs, del_target_ids. Qed.
Lemma quiet_back_ips reply_ok (id : list Z) : quiet (on_lbs (dp_get_lb_back_ips reply_ok id)).
Proof. apply quiet_on_lbs, back_ips_ids. Qed.

(** *** Requests *)

Lemma quiet_add_rule id ok rule : quiet (upd_port id (fun p => snd (dp_add_firewall_rule ok rule p))).
Proof. apply quiet_upd_port. intros p. unfold dp_add_firewall_rule. repeat case_match; done. Qed.
Lemma quiet_del_rule id rule : quiet (upd_port id (fun p => snd (dp_delete_firewall_rule rule p))).
Proof. apply quiet_upd_port. intros p. unfold dp_delete_firewall_rule. repeat case_match; done. Qed.

Hint Resolve quiet_reset_routes quiet_reset_all_routes quiet_add_route quiet_del_route quiet_vnf_route quiet_meter quiet_del_vnf
  quiet_pf0 quiet_on_flows_env quiet_virtsvc quiet_enable_capture quiet_disable_all quiet_capture_start quiet_capture_status
  quiet_list_interfaces quiet_get_lb quiet_list_lbs quiet_add_target quiet_del_target quiet_back_ips quiet_add_rule quiet_del_rule : quiet.

(** The requests that leave the ledger alone. *)
Definition changes_ledger (r : grpc_request) : bool :=
  match r with
  | CreateInterface _ | DeleteInterface _ | CreateLoadBalancer _ | DeleteLoadBalancer _
  | EnableInterfaceEncryption _ | DisableInterfaceEncryption _ => true
  | _ => false
  end.

Context `{SAD : RteIpsecSad}.

Lemma quiet_request e ie r s a s' : changes_ledger r = false -> grpc_dispatch e ie r s = Some (a, s') ->
  ledger_of (s_ctl s') = ledger_of (s_ctl s).
Proof.
  assert (forall (f : CM Z), quiet f -> preserves (fun s => ledger_of (s_ctl s)) (plain f)) as Hplain.
  { intros f Hf. apply preserves_bind; [|intros; apply preserves_ret].
    intros s0 b s1. unfold on_ctl. destruct (f (s_ctl s0)) as [[x y]|] eqn:E; [|done]. intros [= _ <-]. exact (Hf _ _ _ E). }
  assert (forall B (c : B -> grpc_reply) (f : CM (Z * B)), quiet f -> preserves (fun s => ledger_of (s_ctl s)) (told c f)) as Htold.
  { intros B c f Hf. apply preserves_bind; [|intros; apply preserves_ret].
    intros s0 b s1. unfold on_ctl. destruct (f (s_ctl s0)) as [[x y]|] eqn:E; [|done]. intros [= _ <-]. exact (Hf _ _ _ E). }
  assert (forall B (f : M ipsec_state B), preserves (fun s => ledger_of (s_ctl s)) (on_ipsec f)) as Hsa.
  { intros B f s0 b s1. unfold on_ipsec. destruct (f (s_ipsec s0)) as [[x y]|]; [|done]. by intros [= _ <-]. }
  intros Hr. revert s a s'. change (preserves (fun s => ledger_of (s_ctl s)) (grpc_dispatch e ie r)).
  destruct r; try discriminate Hr; cbn [grpc_dispatch];
    try apply preserves_ret; try (apply preserves_bind; [apply Hsa | intros; apply preserves_ret]);
    first [apply Hplain | apply Htold].
  all: try solve [unfold dp_process_initialize, dp_process_get_interface, dp_process_list_interfaces, dp_process_create_prefix,
    dp_process_delete_prefix, dp_process_list_prefixes, dp_process_create_route, dp_process_delete_route, dp_process_list_routes,
    dp_process_create_vip, dp_process_delete_vip, dp_process_get_vip, dp_process_create_nat, dp_process_delete_nat,
    dp_process_get_nat, dp_process_create_neighnat, dp_process_delete_neighnat, dp_process_list_localnats, dp_process_list_neighnats,
    dp_process_get_lb, dp_process_list_lbs, dp_process_create_lbtarget, dp_process_delete_lbtarget, dp_process_list_lbtargets,
    dp_process_create_lbprefix, dp_process_delete_lbprefix, dp_process_list_lbprefixes, dp_process_create_fwrule,
    dp_process_delete_fwrule, dp_process_get_fwrule, dp_process_list_fwrules, dp_process_check_vniinuse, dp_process_reset_vni,
    dp_process_capture_start, dp_process_capture_stop, dp_process_capture_status, dp_disable_pkt_capture_on_all_ifaces,
    dp_process_get_interface_encryption, with_snat, with_iface; quiet].
Qed.
End requests.

#[export] Hint Resolve quiet_reset_vni quiet_reset_all quiet_fill_loop quiet_reset_routes quiet_reset_all_routes quiet_add_route
  quiet_del_route quiet_vnf_route quiet_meter quiet_del_vnf quiet_pf0 quiet_on_flows_env quiet_virtsvc quiet_enable_capture
  quiet_disable_all quiet_capture_start quiet_capture_status quiet_list_interfaces quiet_get_lb quiet_list_lbs quiet_add_target
  quiet_del_target quiet_back_ips quiet_add_rule quiet_del_rule : quiet.
