(* ===== verification/GrpcLedger.v ===== *)
(** The accounts of the control plane: which interfaces and load balancers use a
    virtual network, under which names, and who may encrypt. *)

From S2P Require Import Prelude Errors RteHash IpAddr Port Packet Ipsec IpsecProofs IpsecGrpc Vnf Firewall FlowKey Nat Flow Maglev Lb VirtsvcConn Rib Multipath Control Lpm Iface Grpc GrpcFrames.

(** ** Counting the entries of a map *)

Section count.
Context `{Countable K} {V : Type}.
Implicit Types (m : gmap K V) (p : V -> bool).

Definition tally p m : Z := map_fold (fun _ v n => Z.b2z (p v) + n) 0 m.
(** The share of one entry. *)
Definition share p (o : option V) : Z := match o with Some v => Z.b2z (p v) | None => 0 end.

Lemma tally_fresh p m k v : m !! k = None -> tally p (<[k := v]> m) = Z.b2z (p v) + tally p m.
Proof. intros Hk. exact (map_fold_insert_L (fun _ v n => Z.b2z (p v) + n) 0 k v m ltac:(intros; cbv beta; lia) Hk). Qed.

Lemma tally_delete p m k : tally p (delete k m) = tally p m - share p (m !! k).
Proof.
  destruct (m !! k) as [v|] eqn:Hk; cbn.
  - rewrite <- (insert_delete_id m k v) at 2 by done. rewrite tally_fresh by apply lookup_delete_eq. lia.
  - rewrite delete_id by done. lia.
Qed.

Lemma tally_insert p m k v : tally p (<[k := v]> m) = tally p m - share p (m !! k) + Z.b2z (p v).
Proof. rewrite <- insert_delete_eq, tally_fresh by apply lookup_delete_eq. rewrite tally_delete. lia. Qed.

Lemma tally_nonneg p m : 0 <= tally p m.
Proof.
  induction m as [|k v m Hk IH] using map_ind; [done|]. rewrite tally_fresh by done. destruct (p v); cbn; lia.
Qed.
End count.

Lemma tally_none {K V} `{Countable K} (p : V -> bool) (m : gmap K V) : (forall k v, m !! k = Some v -> p v = false) -> tally p m = 0.
Proof.
  induction m as [|k v m Hk IH] using map_ind; intros Hall; [done|]. rewrite tally_fresh by done.
  rewrite (Hall k v (lookup_insert_eq _ _ _)), IH; [done|]. intros k' v' Hv. apply (Hall k'). rewrite lookup_insert_ne; [done|]. congruence.
Qed.

Lemma tally_fmap {K A B} `{Countable K} (f : A -> B) (p : B -> bool) (m : gmap K A) : tally p (f <$> m) = tally (fun x => p (f x)) m.
Proof.
  induction m as [|k v m Hk IH] using map_ind; [by rewrite fmap_empty|]. rewrite fmap_insert, !tally_fresh, IH by (rewrite ?lookup_fmap, ?Hk; done). done.
Qed.

Section ledger.
Context `{ERR : RteErrno} {HT : RteHash dp_ipv6 dp_vnf} {VT : RteHash dp_vnf dp_ipv6}
  {ST : RteHash nat_key snat_data} {DT : RteHash nat_key dnat_data}
  {PM : RteHash netnat_portmap_key netnat_portmap_data}
  {PO : RteHash netnat_portoverload_tbl_key (option netnat_portoverload_sync_metadata)}
  {FT : RteHash flow_key ptr} {LT : RteHash lb_key ptr} {IT : RteHash (list Z) lb_key} {OP : RteHash dp_virtsvc_conn_key Z}
  {R4 : RteRib Z} {R6 : RteRib dp_ipv6} {NT : RteHash Z dp_vni_data} {IF : RteHash (list Z) Z}.
Implicit Types (e : grpc_env) (st : ctl_state) (port : dp_port) (id vni : Z) (ve : vni_env) (v : dp_vni_data) (l : ledger) (name : list Z).
Abbreviation CM := (M ctl_state).

(** ** Steps on the ledger *)

Definition with_port id (f : port_facts) l : ledger := mk_ledger (<[id := f]> (lg_ports l)) (lg_names l) (lg_refs l) (lg_lbs l).
Definition with_name name id l : ledger := mk_ledger (lg_ports l) (<[name := id]> (lg_names l)) (lg_refs l) (lg_lbs l).
Definition without_name name l : ledger := mk_ledger (lg_ports l) (delete name (lg_names l)) (lg_refs l) (lg_lbs l).
Definition with_ref vni l : ledger :=
  mk_ledger (lg_ports l) (lg_names l) (<[vni := default 0 (lg_refs l !! vni) + 1]> (lg_refs l)) (lg_lbs l).
Definition without_ref vni l : ledger :=
  mk_ledger (lg_ports l) (lg_names l)
    (match lg_refs l !! vni with
     | Some n => if n - 1 =? 0 then delete vni (lg_refs l) else <[vni := n - 1]> (lg_refs l)
     | None => lg_refs l
     end) (lg_lbs l).
Definition with_lb name (key : lb_key) l : ledger := mk_ledger (lg_ports l) (lg_names l) (lg_refs l) (<[name := key]> (lg_lbs l)).
Definition without_lb name l : ledger := mk_ledger (lg_ports l) (lg_names l) (lg_refs l) (delete name (lg_lbs l)).

Lemma get_port_inv id st p st' : get_port id st = Some (p, st') -> st' = st /\ c_ports st !! id = Some p.
Proof. unfold get_port. intros H. m_inv H. done. Qed.

Lemma get_port_facts id st p st' : get_port id st = Some (p, st') -> st' = st /\ lg_ports (ledger_of st) !! id = Some (facts p).
Proof. intros [-> Hp]%get_port_inv. split; [done|]. cbn. by rewrite lookup_fmap, Hp. Qed.

(** Changes of a port. *)
Definition renamed name (x : port_facts) : port_facts := mk_facts (pf_ready x) (pf_allocated x) (pf_vni x) name (pf_encrypt x).
Definition activated vni (x : port_facts) : port_facts := mk_facts true (pf_allocated x) vni (pf_name x) (pf_encrypt x).
Definition protected (b : bool) (x : port_facts) : port_facts := mk_facts (pf_ready x) (pf_allocated x) (pf_vni x) (pf_name x) b.
Definition allocated_as (b : bool) (x : port_facts) : port_facts := mk_facts (pf_ready x) b (pf_vni x) (pf_name x) (pf_encrypt x).
Definition cleared (x : port_facts) : port_facts := mk_facts false (pf_allocated x) 0 (replicate DP_IFACE_ID_MAX_LEN 0) false.

Lemma upd_port_ledger id f g st a st' : (forall p, facts (f p) = g (facts p)) -> upd_port id f st = Some (a, st') ->
  exists x, lg_ports (ledger_of st) !! id = Some x /\ ledger_of st' = with_port id (g x) (ledger_of st).
Proof.
  intros Hf (p & st1 & [-> Hp]%get_port_inv & H)%M_bind_inv. injection H as _ <-. exists (facts p). split.
  - cbn. by rewrite lookup_fmap, Hp.
  - unfold ledger_of, with_port, names, vnis, lbs. cbn. f_equal. by rewrite fmap_insert, Hf.
Qed.

Lemma port_with_iface_id name st : dp_get_port_with_iface_id name st = lg_names (ledger_of st) !! name.
Proof. unfold dp_get_port_with_iface_id. rewrite hash_lookup_view. cbn. unfold names. by destruct (hash_view _ !! name). Qed.

Lemma create_vni_ledger ve vni socket st ret st' : dp_create_vni_route_tables ve vni socket st = Some (ret, st') ->
  c_ports st' = c_ports st /\
  (DP_FAILED ret = true /\ ledger_of st' = ledger_of st \/
   DP_FAILED ret = false /\ ledger_of st' = with_ref vni (ledger_of st) /\ lg_refs (ledger_of st) !! vni <> Some 0).
Proof.
  unfold dp_create_vni_route_tables. rewrite hash_lookup_view. fold (vnis st). destruct (vnis st !! vni) as [v|] eqn:Hv.
  - destruct (Z.eqb_spec (vd_ref v) 0); [done|]. intros [= <- <-]. split; [done|]. right. split_and!; [done| |].
    + unfold ledger_of, with_ref. rewrite put_vni_view by eauto. unfold names, lbs. cbn.
      f_equal. rewrite fmap_insert, lookup_fmap, Hv. done.
    + cbn. rewrite lookup_fmap, Hv. cbn. congruence.
  - rewrite Z.eqb_refl. cbn [negb]. unfold dp_allocate_vni_route_tables, dp_create_rib, dp_create_rib6.
    destruct (ve_zmalloc ve); cbn; [|intros [= <- <-]; split; [done | auto using dp_failed_error]]. destruct (ve_rib4 ve vni); cbn; [|rewrite dp_failed_error; intros [= <- <-]; split; [done | auto using dp_failed_error]].
    destruct (ve_rib6 ve vni); cbn; [|rewrite dp_failed_error; intros [= <- <-]; split; [done | auto using dp_failed_error]].
    set (d := set_vd_ref 1 _). pose proof (hash_add_cases (c_vnis st) vni d) as Hadd.
    destruct (rte_hash_add_key_data (c_vnis st) vni d) as [r t].
    destruct Hadd as [(_ & -> & Ht)|(_ & -> & Ht & _)]; intros [= <- <-]; (split; [done|]).
    + right. split_and!; [done| |].
      * unfold ledger_of, with_ref, names, lbs, vnis. cbn. rewrite Ht, fmap_insert, lookup_fmap. fold (vnis st). by rewrite Hv.
      * cbn. rewrite lookup_fmap, Hv. done.
    + left. split; [apply dp_failed_error|]. unfold ledger_of, names, lbs, vnis. cbn. by rewrite Ht.
Qed.

Lemma delete_vni_ledger vni st ret st' : dp_delete_vni_route_tables vni st = Some (ret, st') ->
  c_ports st' = c_ports st /\ ledger_of st' = without_ref vni (ledger_of st).
Proof.
  unfold dp_delete_vni_route_tables. rewrite hash_lookup_view. fold (vnis st). destruct (vnis st !! vni) as [v|] eqn:Hv.
  - set (st1 := put_vni_data vni _ st). assert (vnis st1 = <[vni := set_vd_ref (vd_ref v - 1) v]> (vnis st)) as H1
      by (apply put_vni_view; eauto).
    destruct (Z.eqb_spec (vd_ref v - 1) 0) as [H0|H0].
    + change (c_vnis (dp_free_vni_data v st1)) with (c_vnis st1).
      pose proof (hash_del_cases (c_vnis st1) vni) as Hdel. destruct (rte_hash_del_key (c_vnis st1) vni) as [r t].
      destruct Hdel as [-> Ht]; [fold (vnis st1); rewrite H1, lookup_insert_eq; eauto|]. intros [= _ <-]. split; [done|].
      unfold ledger_of, without_ref, names, lbs, vnis. cbn. rewrite Ht. fold (vnis st1) (vnis st). rewrite H1, delete_insert_eq, fmap_delete, lookup_fmap, Hv.
      cbn. by rewrite H0.
    + intros [= _ <-]. split; [done|]. unfold ledger_of, without_ref. rewrite H1. unfold names, lbs. cbn.
      rewrite lookup_fmap, Hv, fmap_insert. cbn. apply Z.eqb_neq in H0. by rewrite H0.
  - intros [= _ <-]. split; [done|]. unfold ledger_of, without_ref. cbn. by rewrite lookup_fmap, Hv.
Qed.

Lemma unmap_ledger name st a st' : dp_unmap_iface_id name st = Some (a, st') ->
  c_ports st' = c_ports st /\ ledger_of st' = without_name name (ledger_of st).
Proof.
  intros [= _ <-]. split; [done|]. unfold ledger_of, without_name, names, vnis, lbs. cbn.
  destruct (rte_hash_del_key (c_iface_ids st) name) as [r t] eqn:E. cbn. by destruct (hash_del_view _ _ _ _ E) as [-> _].
Qed.

Lemma map_ledger name id st ret st' : dp_map_iface_id name id st = Some (ret, st') ->
  DP_FAILED ret = true /\ ledger_of st' = ledger_of st \/
  DP_FAILED ret = false /\ lg_names (ledger_of st) !! name = None /\
    exists x, lg_ports (ledger_of st) !! id = Some x /\ ledger_of st' = with_port id (renamed name x) (with_name name id (ledger_of st)).
Proof.
  unfold dp_map_iface_id. intros H. m_inv H. rewrite hash_lookup_view in H. fold (names st) in H.
  destruct (names st !! name) eqn:Hn; [m_inv H; auto using dp_failed_error|]. rewrite Z.eqb_refl in H. cbn [negb] in H.
  pose proof (hash_add_cases (c_iface_ids st) name id) as Hadd. destruct (rte_hash_add_key_data (c_iface_ids st) name id) as [r t].
  m_inv H. destruct Hadd as [(_ & Hr & Ht)|(_ & Hr & Ht & _)]; rewrite Hr in H; m_inv H.
  - right. split; [done|]. split; [done|]. apply (upd_port_ledger _ _ (renamed name)) in Ha as (x & Hx & Hl); [|done].
    exists x. split; [done|]. rewrite Hl. unfold ledger_of, with_name, names, lbs, vnis. cbn. by rewrite Ht.
  - left. split; [apply dp_failed_error|]. unfold ledger_of, names, lbs, vnis. cbn. by rewrite Ht.
Qed.

Lemma setup_ledger ve id vni st ret st' : dp_setup_iface ve id vni st = Some (ret, st') ->
  DP_FAILED ret = true /\ ledger_of st' = ledger_of st \/
  DP_FAILED ret = false /\ lg_refs (ledger_of st) !! vni <> Some 0 /\
    exists x, lg_ports (ledger_of st) !! id = Some x /\ ledger_of st' = with_port id (activated vni x) (with_ref vni (ledger_of st)).
Proof.
  intros (p & st1 & [-> _]%get_port_inv & (r & st2 & [_ Hr]%create_vni_ledger & H)%M_bind_inv)%M_bind_inv.
  destruct Hr as [[Hr Hl]|(Hr & Hl & H0)]; rewrite Hr in H.
  - injection H as <- <-. auto using dp_failed_error.
  - right. apply M_bind_inv in H as ([] & st3 & Hu & H). injection H as <- <-. split; [done|]. split; [done|].
    apply (upd_port_ledger _ _ (activated vni)) in Hu as (x & Hx & Hl'); [|done]. rewrite Hl in Hx, Hl'. eauto.
Qed.

Lemma delete_iface_ledger id st a st' : dp_delete_iface id st = Some (a, st') ->
  exists x, lg_ports (ledger_of st) !! id = Some x /\ ledger_of st' = with_port id (cleared x) (without_ref (pf_vni x) (ledger_of st)).
Proof.
  intros (p & st1 & [-> Hp]%get_port_facts & H)%M_bind_inv. exists (facts p). split; [done|].
  apply M_bind_inv in H as (r1 & st1 & H1 & H). apply M_bind_inv in H as (r2 & st2 & H2 & H).
  apply M_bind_inv in H as (r3 & st3 & [_ H3]%delete_vni_ledger & H). apply M_bind_inv in H as ([] & st4 & H4 & H). injection H as _ <-.
  apply quiet_on_rib4 in H1. apply quiet_on_rib6 in H2.
  apply (upd_port_ledger _ _ cleared) in H4 as (x & Hx & Hl); [|done]. rewrite H3, H2, H1 in Hx, Hl. change (lg_ports (ledger_of st) !! id = Some x) in Hx. assert (x = facts p) as -> by congruence. done.
Qed.

Lemma start_ledger hw id st ret st' : dp_start_port hw id st = Some (ret, st') ->
  DP_FAILED ret = true /\ ledger_of st' = ledger_of st \/
  DP_FAILED ret = false /\ exists x, lg_ports (ledger_of st) !! id = Some x /\ ledger_of st' = with_port id (allocated_as true x) (ledger_of st).
Proof.
  intros (p & st1 & [-> _]%get_port_inv & H)%M_bind_inv. cbv zeta in H. destruct (DP_FAILED (hw_dev_start hw (port_id p))) eqn:E.
  { injection H as <- <-. by left. }
  apply M_bind_inv in H as (r & st1 & Hi & H).
  assert (st1 = st) as -> by (unfold dp_init_port in Hi; repeat case_match; first [discriminate Hi | by injection Hi as _ <-]).
  destruct (DP_FAILED r) eqn:Er; [injection H as <- <-; by left|]. right.
  apply M_bind_inv in H as ([] & st1 & Hu & H). injection H as <- <-. split; [done|]. by eapply (upd_port_ledger _ _ (allocated_as true)) in Hu.
Qed.

Lemma stop_ledger hw id st ret st' : dp_stop_port hw id st = Some (ret, st') ->
  ledger_of st' = ledger_of st \/
  exists x, lg_ports (ledger_of st) !! id = Some x /\ ledger_of st' = with_port id (allocated_as false x) (ledger_of st).
Proof.
  intros (p & st1 & [-> _]%get_port_inv & H)%M_bind_inv. destruct (hw_destroy_flow hw (port_id p)); [|injection H as _ <-; by left].
  cbn [negb] in H. destruct (DP_FAILED _); [injection H as _ <-; by left|]. right.
  apply M_bind_inv in H as ([] & st1 & Hu & H). injection H as _ <-. by eapply (upd_port_ledger _ _ (allocated_as false)) in Hu.
Qed.

(** ** Requests *)

(** A step of a program that leaves the ledger alone. *)
Ltac quiet_at H Q :=
  lazymatch type of H with
  | ?f ?st = Some (?a, ?st') =>
      assert (ledger_of st' = ledger_of st) as Q
        by (refine ((_ : quiet f) st a st' H); unfold dp_add_route, dp_add_route6, dp_del_route, dp_del_route6; quiet)
  end.

Lemma undo_quiet port vni ip4 ip6 (ret : Z) :
  quiet (dp_del_route6 port vni ip6 128 ;; dp_del_route port vni ip4 32 ;; mret (Some ret)).
Proof. unfold dp_del_route, dp_del_route6. quiet. Qed.

Lemma install_ledger e request id st o st' : install_iface e request id st = Some (o, st') ->
  (exists ret, o = Some ret /\ DP_FAILED ret = true /\ ledger_of st' = ledger_of st) \/
  o = None /\ exists x, lg_ports (ledger_of st) !! id = Some x /\ ledger_of st' = with_port id (allocated_as true x) (ledger_of st).
Proof.
  intros (p & st0 & [-> _]%get_port_inv & H)%M_bind_inv. cbv zeta in H.
  bind_inv H r1 st1 H1. quiet_at H1 Q1. destruct (DP_FAILED r1) eqn:E1; [injection H as <- <-; left; eauto|].
  bind_inv H r2 st2 H2. quiet_at H2 Q2. rewrite Q1 in Q2. destruct (DP_FAILED r2) eqn:E2.
  { bind_inv H r3 st3 H3. quiet_at H3 Q3. injection H as <- <-. left. rewrite Q3. eauto. }
  bind_inv H r3 st3 H3. quiet_at H3 Q3. rewrite Q2 in Q3. destruct (DP_FAILED r3) eqn:E3.
  { pose proof (undo_quiet _ _ _ _ _ _ _ _ H) as Q. rewrite Q, Q3. left.
    bind_inv H r4 st4 H4. bind_inv H r5 st5 H5. injection H as <- _. eauto using dp_failed_grpc_err. }
  bind_inv H r4 st4 H4. apply start_ledger in H4 as [[E4 Q4]|[E4 (x & Hx & Q4)]]; rewrite E4 in H.
  - bind_inv H r5 st5 H5. quiet_at H5 Q5. pose proof (undo_quiet _ _ _ _ _ _ _ _ H) as Q. rewrite Q, Q5, Q4, Q3. left.
    bind_inv H r6 st6 H6. bind_inv H r7 st7 H7. injection H as <- _. eauto using dp_failed_grpc_err.
  - injection H as <- <-. right. rewrite Q3 in Hx, Q4. eauto.
Qed.

(** What a request to create an interface does to the ledger: nothing but to a
    port without an interface, or everything. *)
Definition iface_created e (request : dpgrpc_iface) (ret : Z) l l' : Prop :=
  DP_FAILED ret = true /\ l' = l \/
  exists id x, lg_ports l !! id = Some x /\ pf_allocated x = false /\
    (DP_FAILED ret = true /\ (exists x', (x' = renamed (gi_iface_id request) x \/ x' = cleared x) /\ l' = with_port id x' l) \/
     DP_FAILED ret = false /\ lg_names l !! gi_iface_id request = None /\ lg_refs l !! gi_vni request <> Some 0 /\
       (gi_encrypt request = true -> ge_ipsec_enabled e = true) /\
       l' = with_port id (mk_facts true true (gi_vni request) (gi_iface_id request) (gi_encrypt request))
              (with_ref (gi_vni request) (with_name (gi_iface_id request) id l))).

Lemma ledger_eq ports ports' names names' refs refs' lbs lbs' :
  ports = ports' -> names = names' -> refs = refs' -> lbs = lbs' -> mk_ledger ports names refs lbs = mk_ledger ports' names' refs' lbs'.
Proof. by intros -> -> -> ->. Qed.

Lemma ref_undone (refs : gmap Z Z) vni : refs !! vni <> Some 0 ->
  match <[vni := default 0 (refs !! vni) + 1]> refs !! vni with
  | Some n => if n - 1 =? 0 then delete vni (<[vni := default 0 (refs !! vni) + 1]> refs) else <[vni := n - 1]> (<[vni := default 0 (refs !! vni) + 1]> refs)
  | None => <[vni := default 0 (refs !! vni) + 1]> refs
  end = refs.
Proof.
  intros H0. rewrite lookup_insert_eq. destruct (refs !! vni) as [n|] eqn:E; cbn.
  - assert (n + 1 - 1 = n) as -> by lia. destruct (Z.eqb_spec n 0); [congruence|]. rewrite insert_insert_eq. by apply insert_id.
  - rewrite delete_insert_eq. by apply delete_id.
Qed.

Lemma create_interface_ledger e request st ret ul st' : dp_process_create_interface e request st = Some ((ret, ul), st') ->
  iface_created e request ret (ledger_of st) (ledger_of st').
Proof.
  unfold dp_process_create_interface. destruct (gi_encrypt request && negb (ge_ipsec_enabled e)) eqn:Henc.
  { intros [= <- _ <-]. left. auto using dp_failed_grpc_err. }
  intros H. bind_inv H o st0 H0. injection H0 as <- <-. destruct (dp_get_port_by_name _ _ st) as [id|];
    [|injection H as <- _ <-; left; auto using dp_failed_grpc_err].
  bind_inv H p st1 H1. apply get_port_facts in H1 as [-> Hp]. destruct (allocated p) eqn:Ha;
    [injection H as <- _ <-; left; auto using dp_failed_grpc_err|].
  bind_inv H r st2 H2. quiet_at H2 Q2. cbv zeta in H. destruct (DP_FAILED (fst r)); [injection H as <- _ <-; left; auto using dp_failed_grpc_err|].
  bind_inv H r3 st3 H3. apply map_ledger in H3 as [[E3 Q3]|(E3 & Hn & x & Hx & Q3)]; rewrite E3 in H.
  { bind_inv H r4 st4 H4. quiet_at H4 Q4. injection H as <- _ <-. left. rewrite Q4, Q3, Q2. auto using dp_failed_grpc_err. }
  rewrite Q2 in Hn, Hx, Q3. assert (x = facts p) as -> by congruence. right. exists id, (facts p). split; [done|]. split; [done|].
  bind_inv H r4 st4 H4. apply setup_ledger in H4 as [[E4 Q4]|(E4 & Hz & x & Hx4 & Q4)]; rewrite E4 in H.
  { left. bind_inv H r5 st5 H5. apply unmap_ledger in H5 as [_ Q5]. bind_inv H r6 st6 H6. quiet_at H6 Q6. injection H as <- _ <-.
    split; [apply dp_failed_grpc_err|]. exists (renamed (gi_iface_id request) (facts p)). split; [by left|].
    rewrite Q6, Q5, Q4, Q3. apply ledger_eq; [done | by apply delete_insert_id | done | done]. }
  rewrite Q3 in Hx4, Hz, Q4. cbn in Hx4. rewrite lookup_insert_eq in Hx4. injection Hx4 as <-.
  bind_inv H u5 st5 H5. apply (upd_port_ledger _ _ (protected (gi_encrypt request))) in H5 as (x & Hx5 & Q5); [|done].
  rewrite Q4 in Hx5, Q5. cbn in Hx5. rewrite lookup_insert_eq in Hx5. injection Hx5 as <-.
  bind_inv H o st6 H6. apply install_ledger in H6 as [(r6 & -> & E6 & Q6)|(-> & x & Hx6 & Q6)].
  - left. bind_inv H r7 st7 H7. apply delete_iface_ledger in H7 as (x & Hx7 & Q7). rewrite Q6, Q5 in Hx7, Q7. cbn in Hx7.
    rewrite lookup_insert_eq in Hx7. injection Hx7 as <-.
    bind_inv H r8 st8 H8. apply unmap_ledger in H8 as [_ Q8]. bind_inv H r9 st9 H9. quiet_at H9 Q9. injection H as <- _ <-.
    split; [done|]. exists (cleared (facts p)). split; [by right|]. rewrite Q9, Q8, Q7. apply ledger_eq; cbn.
    + by rewrite !insert_insert_eq.
    + by apply delete_insert_id.
    + by apply ref_undone.
    + done.
  - right. injection H as <- _ <-. split_and!; [done|done|done| |].
    + intros Hen. rewrite Hen in Henc. cbn in Henc. by destruct (ge_ipsec_enabled e).
    + rewrite Q5 in Hx6, Q6. cbn in Hx6. rewrite lookup_insert_eq in Hx6. injection Hx6 as <-. rewrite Q6.
      apply ledger_eq; cbn; [|done|done|done]. rewrite !insert_insert_eq. by destruct p.
Qed.

Definition iface_deleted name l l' : Prop :=
  l' = l \/
  exists id x x', lg_names l !! name = Some id /\ lg_ports l !! id = Some x /\ (x' = cleared x \/ x' = cleared (allocated_as false x)) /\
    l' = with_port id x' (without_ref (pf_vni x) (without_name name l)).

Lemma delete_interface_ledger e name st ret st' : dp_process_delete_interface e name st = Some (ret, st') ->
  iface_deleted name (ledger_of st) (ledger_of st').
Proof.
  unfold dp_process_delete_interface, with_iface. intros H. bind_inv H o st0 H0. injection H0 as <- <-.
  rewrite port_with_iface_id in H. destruct (lg_names (ledger_of st) !! name) as [id|] eqn:Hn; [|injection H as _ <-; by left].
  bind_inv H p st1 H1. apply get_port_facts in H1 as [-> Hp]. cbv zeta in H.
  bind_inv H r2 st2 H2. quiet_at H2 Q2. bind_inv H r3 st3 H3. quiet_at H3 Q3. rewrite Q2 in Q3.
  right. exists id, (facts p).
  bind_inv H r4 st4 H4. apply stop_ledger in H4.
  bind_inv H r5 st5 H5. apply unmap_ledger in H5 as [_ Q5].
  bind_inv H r6 st6 H6. apply delete_iface_ledger in H6 as (y & Hy & Q6).
  bind_inv H r7 st7 H7. quiet_at H7 Q7. bind_inv H r8 st8 H8. quiet_at H8 Q8. injection H as _ <-.
  rewrite Q8, Q7, Q6, Q5. rewrite Q5 in Hy. destruct H4 as [Q4|(x & Hx & Q4)]; rewrite Q4, Q3 in Hy |- *.
  - change (lg_ports (ledger_of st) !! id = Some y) in Hy. assert (y = facts p) as -> by congruence.
    exists (cleared (facts p)). split_and!; [done|done|by left|done].
  - rewrite Q3 in Hx. assert (x = facts p) as -> by congruence. cbn in Hy. rewrite lookup_insert_eq in Hy. injection Hy as <-.
    exists (cleared (allocated_as false (facts p))). split_and!; [done|done|by right|].
    apply ledger_eq; [by cbn; rewrite insert_insert_eq | done..].
Qed.

(** *** Load balancers *)

Lemma on_lbs_ledger {A} (f : M lb_state A) st a st' : on_lbs f st = Some (a, st') ->
  exists x, f (c_lb st) = Some (a, x) /\
    ledger_of st' = mk_ledger (lg_ports (ledger_of st)) (lg_names (ledger_of st)) (lg_refs (ledger_of st)) (lb_ids x).
Proof. unfold on_lbs. destruct (f (c_lb st)) as [[b x]|]; [|done]. intros [= <- <-]. eauto. Qed.

Lemma map_handle_ids malloc_ok name key q x ret x' : dp_map_lb_handle malloc_ok name key q x = Some (ret, x') ->
  DP_FAILED ret = true /\ lb_ids x' = lb_ids x \/ DP_FAILED ret = false /\ lb_ids x' = <[name := key]> (lb_ids x).
Proof.
  unfold dp_map_lb_handle. destruct malloc_ok; cbn [negb]; [|intros [= <- <-]; left; auto using dp_failed_error].
  intros H. bind_inv H w x1 H1. apply load_lb_ids in H1. bind_inv H u x2 H2. apply store_lb_ids in H2. bind_inv H t x3 H3. injection H3 as <- <-.
  pose proof (hash_add_cases (id_map_lb_tbl x2) name key) as Hadd. destruct (rte_hash_add_key_data _ name key) as [r t].
  bind_inv H u4 x4 H4. injection H4 as _ <-. injection H as <- <-. fold (lb_ids x2) in Hadd. rewrite H2, H1 in Hadd.
  destruct Hadd as [(_ & Hr & Ht)|(_ & Hr & Ht & _)]; rewrite Hr; [right | left]; auto.
Qed.

Lemma create_lb_ids zmalloc malloc_ok request ul x ret x' : dp_create_lb zmalloc malloc_ok request ul x = Some (ret, x') ->
  DP_FAILED ret = true /\ lb_ids x' = lb_ids x \/
  DP_FAILED ret = false /\ lb_ids x' = <[glb_id request := mk_lb_key (glb_vni request) (dp_copy_ipaddr (glb_addr request))]> (lb_ids x).
Proof.
  unfold dp_create_lb. intros H. bind_inv H t x1 H1. injection H1 as <- <-. destruct (rte_hash_lookup_data _ _) as [r|q].
  2: { bind_inv H w x1 H1. apply load_lb_ids in H1. injection H as <- <-. left. auto using dp_failed_grpc_err. }
  bind_inv H h x1 H1. injection H1 as <- <-. destruct (zmalloc _) as [q|]; [|injection H as <- <-; left; auto using dp_failed_grpc_err].
  bind_inv H u1 x1 H1. injection H1 as _ <-. destruct (rte_hash_add_key_data _ _ q) as [r2 t2].
  bind_inv H u2 x2 H2. injection H2 as _ <-. destruct (DP_FAILED r2).
  { bind_inv H u3 x3 H3. apply free_lb_ids in H3. injection H as <- <-. left. auto using dp_failed_grpc_err. }
  bind_inv H r3 x3 H3. apply map_handle_ids in H3 as [[E3 Q3]|[E3 Q3]]; rewrite E3 in H.
  - bind_inv H u4 x4 H4. apply free_lb_ids in H4. injection H as <- <-. left. rewrite H4, Q3. auto using dp_failed_grpc_err.
  - bind_inv H w x4 H4. apply load_lb_ids in H4. bind_inv H u5 x5 H5. apply store_lb_ids in H5. injection H as <- <-.
    right. rewrite H5, H4, Q3. done.
Qed.

Lemma delete_lb_ids name x ret x' : dp_delete_lb name x = Some (ret, x') ->
  DP_FAILED ret = true /\ lb_ids x !! name = None /\ x' = x \/ ret = DP_OK /\ lb_ids x' = delete name (lb_ids x).
Proof.
  unfold dp_delete_lb. intros H. bind_inv H t x1 H1. injection H1 as <- <-. rewrite hash_lookup_view in H. fold (lb_ids x) in H.
  destruct (lb_ids x !! name) as [key|] eqn:Hn; [|injection H as <- <-; left; auto using dp_failed_grpc_err].
  bind_inv H t x1 H1. injection H1 as <- <-. bind_inv H u2 x2 H2. bind_inv H u3 x3 H3. injection H3 as _ <-. injection H as <- <-.
  right. split; [done|]. assert (lb_ids x2 = lb_ids x) as <-.
  { destruct (rte_hash_lookup_data _ _); [by injection H2 as _ <-|]. bind_inv H2 u4 x4 H4. apply free_lb_ids in H4. by injection H2 as _ <-. }
  unfold lb_ids. cbn. destruct (rte_hash_del_key _ name) as [r t] eqn:E. cbn. by destruct (hash_del_view _ _ _ _ E) as [-> _].
Qed.

Definition lb_created (request : dpgrpc_lb) (ret : Z) l l' : Prop :=
  DP_FAILED ret = true /\ l' = l \/
  DP_FAILED ret = false /\ lg_refs l !! glb_vni request <> Some 0 /\
    l' = with_ref (glb_vni request) (with_lb (glb_id request) (mk_lb_key (glb_vni request) (dp_copy_ipaddr (glb_addr request))) l).

Lemma ledger_lbs l : mk_ledger (lg_ports l) (lg_names l) (lg_refs l) (lg_lbs l) = l.
Proof. by destruct l. Qed.

Lemma create_lb_ledger e request st ret ul st' : lg_lbs (ledger_of st) !! glb_id request = None ->
  dp_process_create_lb e request st = Some ((ret, ul), st') -> lb_created request ret (ledger_of st) (ledger_of st').
Proof.
  intros Hfree. unfold dp_process_create_lb. intros H. bind_inv H p st1 H1. quiet_at H1 Q1. bind_inv H r st2 H2. quiet_at H2 Q2. cbv zeta in H.
  rewrite Q1 in Q2. destruct (DP_FAILED (fst r)); [injection H as <- _ <-; left; auto using dp_failed_grpc_err|].
  bind_inv H r3 st3 H3. apply on_lbs_ledger in H3 as (x & H3 & Q3). rewrite Q2 in Q3.
  change (lb_ids (c_lb st2)) with (lg_lbs (ledger_of st2)) in *.
  apply create_lb_ids in H3. change (lb_ids (c_lb st2)) with (lg_lbs (ledger_of st2)) in H3. rewrite Q2 in H3.
  destruct H3 as [[E3 Hx]|[E3 Hx]]; rewrite E3 in H; rewrite Hx in Q3.
  { rewrite ledger_lbs in Q3. bind_inv H r4 st4 H4. quiet_at H4 Q4. injection H as <- _ <-. left. by rewrite Q4, Q3. }
  bind_inv H r4 st4 H4. apply create_vni_ledger in H4 as [_ [[E4 Q4]|(E4 & Q4 & Hz)]]; rewrite E4 in H.
  - bind_inv H r5 st5 H5. apply on_lbs_ledger in H5 as (y & H5 & Q5). bind_inv H r6 st6 H6. quiet_at H6 Q6. injection H as <- _ <-.
    left. split; [apply dp_failed_grpc_err|]. apply delete_lb_ids in H5. change (lb_ids (c_lb st4)) with (lg_lbs (ledger_of st4)) in H5.
    rewrite Q4, Q3 in H5, Q5. cbn in H5. rewrite Q6, Q5. destruct H5 as [(_ & Hc & _)|[_ ->]].
    + by rewrite lookup_insert_eq in Hc.
    + cbn. by rewrite delete_insert_id by done.
  - injection H as <- _ <-. right. rewrite Q3 in Hz, Q4. done.
Qed.

Definition lb_deleted name l l' : Prop :=
  l' = l \/ exists key, lg_lbs l !! name = Some key /\ l' = without_ref (lbk_vni key) (without_lb name l).

Lemma get_lb_key name x r x' : dp_get_lb name x = Some (r, x') ->
  x' = x /\ (DP_FAILED (fst r) = false -> exists key lb, lb_ids x !! name = Some key /\ snd r = Some lb /\ glb_vni lb = lbk_vni key).
Proof.
  unfold dp_get_lb. intros H. bind_inv H t x1 H1. injection H1 as <- <-. rewrite hash_lookup_view in H. fold (lb_ids x) in H.
  destruct (lb_ids x !! name) as [key|] eqn:Hn; [|injection H as <- <-; split; [done|]; cbn; by rewrite dp_failed_grpc_err].
  bind_inv H t x1 H1. injection H1 as <- <-. destruct (rte_hash_lookup_data _ _) as [|q];
    [injection H as <- <-; split; [done|]; cbn; by rewrite dp_failed_grpc_err|].
  bind_inv H w x1 H1. assert (x1 = x) as -> by (unfold load_lb in H1; m_inv H1; done). injection H as <- <-. split; [done|]. intros _. by exists key, (lb_reply [] key w).
Qed.

Lemma delete_lb_ledger name st ret st' : dp_process_delete_lb name st = Some (ret, st') -> lb_deleted name (ledger_of st) (ledger_of st').
Proof.
  unfold dp_process_delete_lb. intros H. bind_inv H r st1 H1. quiet_at H1 Q1. apply on_lbs_ledger in H1 as (x & [-> Hg]%get_lb_key & _).
  destruct (DP_FAILED (fst r)); [injection H as _ <-; by left|]. destruct (Hg eq_refl) as (key & lb & Hk & Hr & Hv). rewrite Hr in H.
  bind_inv H lb2 st2 H2. injection H2 as <- <-. bind_inv H u3 st3 H3. quiet_at H3 Q3. rewrite Q1 in Q3.
  bind_inv H r4 st4 H4. apply on_lbs_ledger in H4 as (y & H4 & Q4). apply delete_lb_ids in H4.
  change (lb_ids (c_lb st3)) with (lg_lbs (ledger_of st3)) in H4. rewrite Q3 in H4, Q4.
  destruct H4 as [(_ & Hc & _)|[-> Hy]]; [by rewrite (Hk : lg_lbs (ledger_of st) !! name = Some key) in Hc|].
  change (DP_FAILED DP_OK) with false in H. cbv iota in H. bind_inv H r5 st5 H5. apply delete_vni_ledger in H5 as [_ Q5].
  right. exists key. split; [done|]. rewrite Q4, Hv, Hy in Q5. destruct (DP_FAILED r5); injection H as _ <-; exact Q5.
Qed.

(** *** Encryption *)

Lemma enable_ledger e name st ret st' : dp_process_enable_interface_encryption e name st = Some (ret, st') ->
  ledger_of st' = ledger_of st \/
  ge_ipsec_enabled e = true /\ exists id x, lg_names (ledger_of st) !! name = Some id /\ lg_ports (ledger_of st) !! id = Some x /\
    ledger_of st' = with_port id (protected true x) (ledger_of st).
Proof.
  unfold dp_process_enable_interface_encryption, with_iface. destruct (ge_ipsec_enabled e); cbn [negb]; [|intros [= _ <-]; by left].
  intros H. bind_inv H o st0 H0. injection H0 as <- <-.
  rewrite port_with_iface_id in H. destruct (lg_names (ledger_of st) !! name) as [id|] eqn:Hn; [|injection H as _ <-; by left].
  bind_inv H p st1 H1. apply get_port_inv in H1 as [-> _]. destruct (encrypt (iface p)); [injection H as _ <-; by left|].
  bind_inv H u st2 H2. injection H as _ <-. right. split; [done|].
  apply (upd_port_ledger _ _ (protected true)) in H2 as (x & Hx & Hl); [|done]. eauto.
Qed.

Lemma disable_ledger name st ret st' : dp_process_disable_interface_encryption name st = Some (ret, st') ->
  ledger_of st' = ledger_of st \/
  exists id x, lg_names (ledger_of st) !! name = Some id /\ lg_ports (ledger_of st) !! id = Some x /\
    ledger_of st' = with_port id (protected false x) (ledger_of st).
Proof.
  unfold dp_process_disable_interface_encryption, with_iface. intros H. bind_inv H o st0 H0. injection H0 as <- <-.
  rewrite port_with_iface_id in H. destruct (lg_names (ledger_of st) !! name) as [id|] eqn:Hn; [|injection H as _ <-; by left].
  bind_inv H p st1 H1. apply get_port_inv in H1 as [-> _]. destruct (encrypt (iface p)); [|injection H as _ <-; by left].
  bind_inv H u st2 H2. injection H as _ <-. right.
  apply (upd_port_ledger _ _ (protected false)) in H2 as (x & Hx & Hl); [|done]. eauto.
Qed.
End ledger.
