(* ===== verification/GrpcCodes.v ===== *)
(** The codes that requests fail with are the codes of the interface
    description, which the conversion at the end asserts. *)

From S2P Require Import Prelude Errors RteHash IpAddr Port Packet Ipsec IpsecProofs IpsecGrpc Vnf Firewall FlowKey Nat Flow Maglev Lb VirtsvcConn Rib Multipath Control Lpm Iface Grpc.

Section results.
Context `{ERR : RteErrno}.

(** Success, or one of the codes. *)
Definition grpc_result (ret : Z) : Prop := ret = DP_OK \/ exists err, ret = DP_GRPC_ERR err.
Definition coded {S A} (c : A -> Z) (f : M S A) : Prop := forall s a s', f s = Some (a, s') -> grpc_result (c a).

Lemma result_err err : grpc_result (DP_GRPC_ERR err).
Proof. right. eauto. Qed.
Lemma result_ok : grpc_result DP_OK.
Proof. by left. Qed.
Lemma result_if (b : bool) x y : grpc_result x -> grpc_result y -> grpc_result (if b then x else y).
Proof. by destruct b. Qed.
Lemma coded_ret {S A} (c : A -> Z) (a : A) : grpc_result (c a) -> coded (S := S) c (mret a).
Proof. by intros H s b s' [= <- _]. Qed.
Lemma coded_gets {S A} (c : A -> Z) (f : S -> A) : (forall s, grpc_result (c (f s))) -> coded c (gets f).
Proof. by intros H s b s' [= <- _]. Qed.
Lemma coded_ub {S A} (c : A -> Z) : coded (S := S) c ub.
Proof. done. Qed.
(** The result of the first program matters when it is passed on. *)
Lemma coded_bind {S A B} (c : B -> Z) (f : M S A) (g : A -> M S B) : (forall a, coded c (g a)) -> coded c (mbind g f).
Proof. intros Hg s b s' (a & s1 & _ & H)%M_bind_inv. by eapply Hg. Qed.
Lemma coded_bind_with {S A B} (c1 : A -> Z) (c : B -> Z) (f : M S A) (g : A -> M S B) :
  coded c1 f -> (forall a, grpc_result (c1 a) -> coded c (g a)) -> coded c (mbind g f).
Proof. intros Hf Hg s b s' (a & s1 & Ha & H)%M_bind_inv. eapply Hg; [by eapply Hf|done]. Qed.
Lemma coded_if {S A} (c : A -> Z) (b : bool) (f g : M S A) : coded c f -> coded c g -> coded c (if b then f else g).
Proof. by destruct b. Qed.
Lemma coded_ok {S} : coded (S := S) id (mret DP_OK).
Proof. apply coded_ret, result_ok. Qed.
End results.

Create HintDb codes.
#[export] Hint Resolve result_err result_ok result_if coded_ub coded_if coded_ok : codes.
(** Codes of plain results. *)
Ltac result := repeat first [solve [auto with codes nocore] | progress intros | progress cbn [fst snd default from_option id] | case_match].
(** Walks through a program. *)
Ltac codes :=
  repeat first
    [ progress intros
    | solve [auto with codes nocore]
    | lazymatch goal with
      | |- coded _ (mbind _ _) =>
          first [eapply coded_bind_with; [solve [auto with codes nocore] | progress intros; cbn [fst snd id] in *] | apply coded_bind]
      | |- coded _ (mret _) => apply coded_ret; result
      | |- coded _ (gets _) => apply coded_gets; result
      | |- coded _ (if ?b then _ else _) => destruct b eqn:?
      | |- coded _ (match ?x with _ => _ end) => destruct x eqn:?
      | |- coded _ (let '(_, _) := ?x in _) => destruct x eqn:?
      end
    | progress cbv zeta ].

Section codes.
Context `{ERR : RteErrno} {HT : RteHash dp_ipv6 dp_vnf} {VT : RteHash dp_vnf dp_ipv6}
  {ST : RteHash nat_key snat_data} {DT : RteHash nat_key dnat_data}
  {PM : RteHash netnat_portmap_key netnat_portmap_data}
  {PO : RteHash netnat_portoverload_tbl_key (option netnat_portoverload_sync_metadata)}
  {FT : RteHash flow_key ptr} {LT : RteHash lb_key ptr} {IT : RteHash (list Z) lb_key} {OP : RteHash dp_virtsvc_conn_key Z}
  {R4 : RteRib Z} {R6 : RteRib dp_ipv6} {NT : RteHash Z dp_vni_data} {IF : RteHash (list Z) Z} `{SAD : RteIpsecSad}.
Implicit Types (e : grpc_env) (st : ctl_state) (port : dp_port) (id vni : Z) (ve : vni_env) (name : list Z).
Abbreviation CM := (M ctl_state).

(** *** Tables *)

Lemma coded_on_vnf (f : vnf_state -> Z * vnf_state) : (forall x, grpc_result (fst (f x))) -> coded id (on_vnf f).
Proof. intros Hf st a st'. unfold on_vnf. specialize (Hf (c_vnf st)). destruct (f (c_vnf st)). by intros [= <- _]. Qed.
Lemma coded_on_nat (f : nat_state -> Z * nat_state) : (forall x, grpc_result (fst (f x))) -> coded id (on_nat_tables f).
Proof. intros Hf st a st'. unfold on_nat_tables. specialize (Hf (c_nat st)). destruct (f (c_nat st)). by intros [= <- _]. Qed.
Lemma coded_on_lbs {A} (c : A -> Z) (f : M lb_state A) : coded c f -> coded c (on_lbs f).
Proof. intros Hf st a st'. unfold on_lbs. destruct (f (c_lb st)) as [[b x]|] eqn:E; [|done]. intros [= <- _]. by eapply Hf. Qed.

Lemma coded_on_rib4 vni (f : rte_rib Z -> Z * rte_rib Z) : (forall x, grpc_result (fst (f x))) -> coded id (on_rib4 vni f).
Proof.
  intros Hf st a st'. unfold on_rib4. destruct (get_vni_data vni st) as [v|]; cbn; [|intros [= <- _]; apply result_err].
  destruct (rib4_of v) as [root|]; cbn; [|intros [= <- _]; apply result_err]. specialize (Hf root). destruct (f root). by intros [= <- _].
Qed.
Lemma coded_on_rib6 vni (f : rte_rib dp_ipv6 -> Z * rte_rib dp_ipv6) : (forall x, grpc_result (fst (f x))) -> coded id (on_rib6 vni f).
Proof.
  intros Hf st a st'. unfold on_rib6. destruct (get_vni_data vni st) as [v|]; cbn; [|intros [= <- _]; apply result_err].
  destruct (rib6_of v) as [root|]; cbn; [|intros [= <- _]; apply result_err]. specialize (Hf root). destruct (f root). by intros [= <- _].
Qed.

Lemma coded_add_route port vni t_vni ip t_ip6 depth : coded id (dp_add_route port vni t_vni ip t_ip6 depth).
Proof. apply coded_on_rib4. intros x. unfold add_to_table. result. Qed.
Lemma coded_add_route6 port vni t_vni ip t_ip6 depth : coded id (dp_add_route6 port vni t_vni ip t_ip6 depth).
Proof. apply coded_on_rib6. intros x. unfold add_to_table. result. Qed.
Lemma coded_del_route port vni ip depth : coded id (dp_del_route port vni ip depth).
Proof. apply coded_on_rib4. intros x. unfold del_from_table. result. Qed.
Lemma coded_del_route6 port vni ip depth : coded id (dp_del_route6 port vni ip depth).
Proof. apply coded_on_rib6. intros x. unfold del_from_table. result. Qed.
Hint Resolve coded_add_route coded_add_route6 coded_del_route coded_del_route6 : codes.

Lemma coded_grpc_add_route port vni t_vni addr t_ip6 depth : coded id (dp_grpc_add_route port vni t_vni addr t_ip6 depth).
Proof. unfold dp_grpc_add_route. codes. Qed.
Lemma coded_grpc_del_route port vni addr depth : coded id (dp_grpc_del_route port vni addr depth).
Proof. unfold dp_grpc_del_route. codes. Qed.
Lemma coded_fill port : coded id (dp_lpm_fill_route_tables port).
Proof. unfold dp_lpm_fill_route_tables. codes. Qed.
Hint Resolve coded_grpc_add_route coded_grpc_del_route coded_fill : codes.
Lemma coded_fill_loop skip order : coded id (fill_loop skip order).
Proof. induction order as [|i order IH]; cbn [fill_loop]; codes. Qed.
Hint Resolve coded_fill_loop : codes.
Lemma coded_reset ve vni : coded id (dp_lpm_reset_route_tables ve vni).
Proof. unfold dp_lpm_reset_route_tables. codes. Qed.
Lemma coded_reset_all ve : coded id (dp_lpm_reset_all_route_tables ve).
Proof. unfold dp_lpm_reset_all_route_tables. codes. Qed.

Lemma coded_del_vnf_by_value type port_id vni pfx len : coded id (on_vnf (dp_del_vnf_by_value type port_id vni pfx len)).
Proof. apply coded_on_vnf. intros x. unfold dp_del_vnf_by_value. result. Qed.
Lemma coded_set_vip ok ip vip vni ul : coded id (on_nat_tables (dp_set_iface_vip_ip ok ip vip vni ul)).
Proof. apply coded_on_nat. intros x. unfold dp_set_iface_vip_ip. result. Qed.
Lemma coded_set_nat ok ip nip vni min max ul : coded id (on_nat_tables (dp_set_iface_nat_ip ok ip nip vni min max ul)).
Proof. apply coded_on_nat. intros x. unfold dp_set_iface_nat_ip. result. Qed.
Lemma coded_set_dnat ok ip dip vni : coded id (on_nat_tables (dp_set_dnat_ip ok ip dip vni)).
Proof. apply coded_on_nat. intros x. unfold dp_set_dnat_ip. result. Qed.
Lemma coded_del_nat ip vni : coded id (on_nat_tables (dp_del_iface_nat_ip ip vni)).
Proof. apply coded_on_nat. intros x. unfold dp_del_iface_nat_ip. result. Qed.
Lemma coded_add_neighnat ok ip vni min max ul : coded id (on_nat_tables (dp_add_neighnat_entry ok ip vni min max ul)).
Proof. apply coded_on_nat. intros x. unfold dp_add_neighnat_entry. result. Qed.
Lemma coded_del_neighnat ip vni min max : coded id (on_nat_tables (dp_del_neighnat_entry ip vni min max)).
Proof. apply coded_on_nat. intros x. unfold dp_del_neighnat_entry. result. Qed.

(** *** Load balancers *)

Lemma coded_create_lb zmalloc ok lb ip : coded id (on_lbs (dp_create_lb zmalloc ok lb ip)).
Proof. apply coded_on_lbs. unfold dp_create_lb. codes. Qed.
Lemma coded_delete_lb name : coded id (on_lbs (dp_delete_lb name)).
Proof. apply coded_on_lbs. unfold dp_delete_lb. codes. Qed.
Lemma coded_get_lb name : coded fst (on_lbs (dp_get_lb name)).
Proof. apply coded_on_lbs. unfold dp_get_lb. codes. Qed.
Lemma coded_list_lbs reply_ok : coded fst (on_lbs (dp_list_lbs reply_ok)).
Proof.
  assert (forall fuel iter replies, coded fst (list_lbs_loop fuel reply_ok iter replies)) as Hloop
    by (induction fuel as [|fuel IH]; intros iter replies; cbn [list_lbs_loop]; codes).
  apply coded_on_lbs. unfold dp_list_lbs. codes.
Qed.
Lemma coded_find_lb name : coded (fun r => match r with inl ret => ret | inr _ => DP_OK end) (find_lb name).
Proof. unfold find_lb. codes. Qed.
Hint Resolve coded_find_lb : codes.
Lemma coded_add_target perm next name ip : coded id (on_lbs (dp_add_lb_back_ip perm next name ip)).
Proof. apply coded_on_lbs. unfold dp_add_lb_back_ip. eapply coded_bind_with; [apply coded_find_lb|]. codes. Qed.
Lemma coded_del_target perm next name ip : coded id (on_lbs (dp_del_lb_back_ip perm next name ip)).
Proof.
  apply coded_on_lbs. unfold dp_del_lb_back_ip. eapply coded_bind_with; [apply coded_find_lb|]. intros [ret|q] Hr; [by apply coded_ret|].
  apply coded_bind. intros v. eapply (coded_bind_with fst); [|codes].
  intros x a x' H. unfold get_some in H. destruct (dp_delete_maglev_backend perm next ip v) as [b|] eqn:E; [|done]. injection H as <- _.
  unfold dp_delete_maglev_backend in E. case_match; [|injection E as <-; apply result_err].
  case_bool_decide; [injection E as <-; apply result_ok|]. destruct (dp_maglev_calc_hash_lookup_table _ _ _ _); [|done]. injection E as <-. result.
Qed.
Lemma coded_back_ips reply_ok name : coded fst (on_lbs (dp_get_lb_back_ips reply_ok name)).
Proof.
  assert (forall ips replies, grpc_result (fst (single_back_ips reply_ok ips replies))) as Hs
    by (induction ips as [|b ips IH]; intros replies; cbn [single_back_ips]; result).
  assert (forall fuel iter replies, coded fst (all_back_ips_loop fuel reply_ok iter replies)) as Hloop
    by (induction fuel as [|fuel IH]; intros iter replies; cbn [all_back_ips_loop]; codes).
  apply coded_on_lbs. unfold dp_get_lb_back_ips, dp_get_all_lb_back_ips, dp_get_single_lb_back_ips.
  apply coded_if; [codes|]. eapply coded_bind_with; [apply coded_find_lb|]. codes.
Qed.

(** *** Lists *)

Lemma result_list_rules reply_ok n l : grpc_result (fst (list_rules_loop reply_ok n l)).
Proof.
  revert n. induction l as [|x l IH]; intros n; cbn [list_rules_loop]; [result|]. destruct (reply_ok n); cbn [negb]; [|result].
  specialize (IH (S n)). destruct (list_rules_loop reply_ok (S n) l). done.
Qed.
Lemma result_list_prefixes reply_ok port_id type st : grpc_result (fst (dp_list_vnf_alias_prefixes reply_ok port_id type (c_vnf st))).
Proof.
  unfold dp_list_vnf_alias_prefixes. case_match; [apply result_ok|]. generalize (S (length (hash_slots (vnf_handle_tbl (c_vnf st))))) as fuel. generalize 0%nat as iter.
  generalize (@nil vnf_reply) as replies. intros replies iter fuel. revert iter replies.
  induction fuel as [|fuel IH]; intros iter replies; cbn [list_alias_loop]; result.
Qed.
Lemma result_list_local reply_ok ip st : grpc_result (fst (dp_list_nat_local_entries reply_ok ip (c_nat st))).
Proof.
  unfold dp_list_nat_local_entries. case_match; [apply result_ok|]. generalize (S (length (hash_slots (ipv4_snat_tbl (c_nat st))))) as fuel. generalize 0%nat as iter.
  generalize (@nil nat_reply) as replies. intros replies iter fuel. revert iter replies.
  induction fuel as [|fuel IH]; intros iter replies; cbn [list_local_loop]; result.
Qed.
Lemma result_list_neigh reply_ok ip st : grpc_result (fst (dp_list_nat_neigh_entries reply_ok ip (c_nat st))).
Proof.
  unfold dp_list_nat_neigh_entries. generalize (@nil nat_reply) as replies.
  induction (neighnat_head (c_nat st)) as [|x l IH]; intros replies; cbn [list_neigh_loop]; result.
Qed.
Lemma result_list_entry reply_ok ports ip depth node port ext replies :
  grpc_result (fst (dp_list_route_entry reply_ok ports ip depth node port ext replies)).
Proof. unfold dp_list_route_entry. result. Qed.
Lemma result_list_nodes reply_ok ports port ext nodes replies : grpc_result (fst (list_nodes reply_ok ports port ext nodes replies)).
Proof.
  revert replies. induction nodes as [|[[ip depth] node] nodes IH]; intros replies; cbn [list_nodes]; [apply result_ok|].
  pose proof (result_list_entry reply_ok ports ip depth node port ext replies) as H. destruct (dp_list_route_entry _ _ _ _ _ _ _ _) as [ret replies'].
  by destruct (DP_FAILED ret).
Qed.
Lemma result_list_routes reply_ok port vni ext st : grpc_result (fst (dp_list_routes reply_ok port vni ext st)).
Proof.
  unfold dp_list_routes. destruct (vni =? 0).
  - unfold dp_list_all_route_tables. case_match; [apply result_ok|]. generalize (S (length (hash_slots (c_vnis st)))) as fuel. generalize 0%nat as iter.
    generalize (@nil route_reply) as replies. intros replies iter fuel. revert iter replies.
    induction fuel as [|fuel IH]; intros iter replies; cbn [list_tables_loop]; result.
  - unfold dp_list_single_route_table. destruct (dp_get_vni_route4_table vni st) as [root|]; [|apply result_err].
    unfold dp_list_route_table. destruct (rte_rib_lookup_exact root 0 0) as [node|].
    + pose proof (result_list_entry reply_ok (c_ports st) 0 0 node port ext []) as H. destruct (dp_list_route_entry _ _ _ _ _ _ _ _) as [ret replies'].
      destruct (DP_FAILED ret); [done | apply result_list_nodes].
    + apply result_list_nodes.
Qed.

(** *** Capture and interfaces *)

Lemma coded_enable_capture hw i : coded id (dp_enable_pkt_capture hw i).
Proof. unfold dp_enable_pkt_capture. codes. Qed.
Hint Resolve coded_enable_capture : codes.
(** A count of ports is a success. *)
Definition outcome (ret : Z) : Z := if DP_FAILED ret then ret else DP_OK.
Lemma result_outcome ret : grpc_result ret -> grpc_result (outcome ret).
Proof. unfold outcome. intros. result. Qed.
Lemma coded_disable_all hw order count : 0 <= count -> coded outcome (disable_all_loop hw order count).
Proof.
  revert count; induction order as [|i order IH]; intros count Hc; cbn [disable_all_loop].
  - apply coded_ret. unfold outcome, DP_FAILED. rewrite (proj2 (Z.ltb_ge _ _)) by done. apply result_ok.
  - apply coded_bind. intros p. apply coded_if; [|by apply IH]. eapply coded_bind_with; [apply coded_enable_capture|].
    intros ret Hr. apply coded_if; [apply coded_ret, result_outcome, Hr | apply IH; lia].
Qed.
Lemma coded_capture_start e interfaces status : grpc_result status -> coded id (capture_start_loop e interfaces status).
Proof. revert status; induction interfaces as [|i interfaces IH]; intros status Hs; cbn [capture_start_loop]; codes. Qed.
Lemma coded_capture_status pf0 order found : coded fst (capture_status_loop pf0 order found).
Proof. revert found; induction order as [|i order IH]; intros found; cbn [capture_status_loop]; codes. Qed.
Lemma coded_list_interfaces reply_ok order replies : coded fst (list_interfaces_loop reply_ok order replies).
Proof. revert replies; induction order as [|i order IH]; intros replies; cbn [list_interfaces_loop]; codes. Qed.
Lemma coded_install e request i : coded (default DP_OK) (install_iface e request i).
Proof. unfold install_iface. codes. Qed.

Lemma coded_capture_stop e : coded fst (dp_process_capture_stop e).
Proof.
  unfold dp_process_capture_stop, dp_disable_pkt_capture_on_all_ifaces. apply coded_bind. intros c. apply coded_if; [codes|].
  eapply (coded_bind_with outcome); [apply coded_bind; intros; by apply coded_disable_all|]. intros ret Hr. unfold outcome in Hr. codes.
Qed.

(** *** Security Associations *)

Lemma coded_build_sa (ie : ipsec_env) request spi : coded fst (dp_ipsec_build_sa ie request spi).
Proof. unfold dp_ipsec_build_sa. codes. Qed.
Hint Resolve coded_build_sa : codes.
Lemma coded_create_sa (ie : ipsec_env) request : coded id (dp_ipsec_create_sa ie request).
Proof. unfold dp_ipsec_create_sa. codes. Qed.
Lemma coded_update_sa (ie : ipsec_env) spec request : coded id (dp_ipsec_update_sa ie spec request).
Proof. unfold dp_ipsec_update_sa. codes. Qed.
Lemma coded_delete_sa spec : coded id (dp_ipsec_delete_sa spec).
Proof. unfold dp_ipsec_delete_sa. codes. Qed.
Lemma coded_get_sa spec : coded fst (dp_ipsec_get_sa spec).
Proof. unfold dp_ipsec_get_sa. codes. Qed.
Hint Resolve coded_get_sa : codes.
Lemma coded_create_request (ie : ipsec_env) request : coded id (dp_process_create_security_association ie request).
Proof. apply coded_create_sa. Qed.
Lemma coded_update_request (ie : ipsec_env) request : coded id (dp_process_update_security_association ie request).
Proof. apply coded_update_sa. Qed.
Lemma coded_delete_request request : coded id (dp_process_delete_security_association request).
Proof. apply coded_delete_sa. Qed.
Lemma coded_get_request request : coded fst (dp_process_get_security_association request).
Proof. unfold dp_process_get_security_association. codes. Qed.

(** ** The dispatcher *)

Hint Resolve coded_reset coded_reset_all coded_del_vnf_by_value coded_set_vip coded_set_nat coded_set_dnat coded_del_nat coded_add_neighnat
  coded_del_neighnat coded_create_lb coded_delete_lb coded_get_lb coded_list_lbs coded_add_target coded_del_target coded_back_ips
  result_list_rules result_list_prefixes result_list_local result_list_neigh result_list_routes coded_capture_start coded_capture_status
  coded_list_interfaces coded_install coded_capture_stop coded_create_request coded_update_request coded_delete_request coded_get_request : codes.

Lemma coded_plain (f : CM Z) : coded id f -> coded fst (plain f).
Proof.
  intros Hf s a s' (ret & s1 & H & H1)%M_bind_inv. injection H1 as <- _. unfold on_ctl in H. destruct (f (s_ctl s)) as [[b y]|] eqn:E; [|done].
  injection H as <- _. exact (Hf _ _ _ E).
Qed.
Lemma coded_told {A} (c : A -> grpc_reply) (f : CM (Z * A)) : coded fst f -> coded fst (told c f).
Proof.
  intros Hf s a s' (ret & s1 & H & H1)%M_bind_inv. injection H1 as <- _. unfold on_ctl in H. destruct (f (s_ctl s)) as [[b y]|] eqn:E; [|done].
  injection H as <- _. exact (Hf _ _ _ E).
Qed.
Lemma coded_on_ipsec {A} (c : A -> Z) (f : M ipsec_state A) : coded c f -> coded c (on_ipsec f).
Proof.
  intros Hf s a s' H. unfold on_ipsec in H. destruct (f (s_ipsec s)) as [[b y]|] eqn:E; [|done]. injection H as <- _. exact (Hf _ _ _ E).
Qed.

Lemma coded_interface e request : coded fst (dp_process_create_interface e request).
Proof.
  unfold dp_process_create_interface. cbv zeta. apply coded_if; [codes|]. apply coded_bind. intros [i|]; [|codes].
  apply coded_bind. intros p. apply coded_if; [codes|]. apply coded_bind. intros r. apply coded_if; [codes|].
  apply coded_bind. intros ret. apply coded_if; [codes|]. apply coded_bind. intros ret'. apply coded_if; [codes|]. apply coded_bind. intros _.
  eapply coded_bind_with; [apply coded_install|]. intros [ret2|] Hr; cbn in Hr; codes.
Qed.

Lemma dispatch_codes e (ie : ipsec_env) (r : grpc_request) : coded fst (grpc_dispatch e ie r).
Proof.
  destruct r; cbn [grpc_dispatch];
    first [apply coded_plain | apply coded_told | eapply coded_bind_with; [apply coded_on_ipsec; auto with codes nocore|] | idtac].
  all: try apply coded_interface.
  all: unfold dp_process_initialize, dp_process_delete_interface, dp_process_get_interface, dp_process_list_interfaces, dp_process_create_prefix,
    dp_process_delete_prefix, dp_process_list_prefixes, dp_process_create_route, dp_process_delete_route, dp_process_list_routes,
    dp_process_create_vip, dp_process_delete_vip, dp_process_get_vip, dp_process_create_nat, dp_process_delete_nat,
    dp_process_get_nat, dp_process_create_neighnat, dp_process_delete_neighnat, dp_process_list_localnats, dp_process_list_neighnats,
    dp_process_create_lb, dp_process_delete_lb, dp_process_get_lb, dp_process_list_lbs, dp_process_create_lbtarget, dp_process_delete_lbtarget,
    dp_process_list_lbtargets, dp_process_create_lbprefix, dp_process_delete_lbprefix, dp_process_list_lbprefixes, dp_process_create_fwrule,
    dp_process_delete_fwrule, dp_process_get_fwrule, dp_process_list_fwrules, dp_list_firewall_rules, dp_process_check_vniinuse, dp_process_reset_vni,
    dp_process_capture_start, dp_process_capture_status, dp_process_enable_interface_encryption, dp_process_disable_interface_encryption,
    dp_process_get_interface_encryption, with_snat, with_iface.
  all: try solve [codes].
  all: try solve [intros; apply coded_ret; auto with codes nocore].
Qed.
End codes.
