(* ===== verification/GrpcTheorems.v ===== *)
(** What holds of the control plane after any sequence of requests. *)

From S2P Require Import Prelude Errors RteHash IpAddr Port Packet Ipsec IpsecProofs IpsecGrpc Vnf Firewall FlowKey Nat Flow Maglev Lb VirtsvcConn Rib Multipath Control Lpm Iface Grpc GrpcFrames GrpcLedger GrpcCodes.

Section accounts.
Context `{ERR : RteErrno} {HT : RteHash dp_ipv6 dp_vnf} {VT : RteHash dp_vnf dp_ipv6}
  {ST : RteHash nat_key snat_data} {DT : RteHash nat_key dnat_data}
  {PM : RteHash netnat_portmap_key netnat_portmap_data}
  {PO : RteHash netnat_portoverload_tbl_key (option netnat_portoverload_sync_metadata)}
  {FT : RteHash flow_key ptr} {LT : RteHash lb_key ptr} {IT : RteHash (list Z) lb_key} {OP : RteHash dp_virtsvc_conn_key Z}
  {R4 : RteRib Z} {R6 : RteRib dp_ipv6} {NT : RteHash Z dp_vni_data} {IF : RteHash (list Z) Z} `{SAD : RteIpsecSad}.
Implicit Types (e : grpc_env) (l : ledger) (id vni : Z) (x : port_facts) (name : list Z) (s : service) (r : grpc_request).

(** ** The accounts *)

Definition uses_vni vni x : bool := pf_ready x && (pf_vni x =? vni).
(** The interfaces and load balancers of a virtual network. *)
Definition users l vni : Z := tally (uses_vni vni) (lg_ports l) + tally (fun k => lbk_vni k =? vni) (lg_lbs l).
Definition ref_entry (n : Z) : option Z := if n =? 0 then None else Some n.

Record accounts l : Prop := {
  ac_names : forall name id, lg_names l !! name = Some id <-> exists x, lg_ports l !! id = Some x /\ pf_ready x = true /\ pf_name x = name;
  ac_alloc : forall id x, lg_ports l !! id = Some x -> pf_ready x = true -> pf_allocated x = true;
  ac_refs : forall vni, lg_refs l !! vni = ref_entry (users l vni)
}.

Lemma users_nonneg l vni : 0 <= users l vni.
Proof. unfold users. pose proof (tally_nonneg (uses_vni vni) (lg_ports l)). pose proof (tally_nonneg (fun k => lbk_vni k =? vni) (lg_lbs l)). lia. Qed.

Lemma with_ref_entry (refs : gmap Z Z) (u : Z -> Z) vni : (forall vni, refs !! vni = ref_entry (u vni)) -> 0 <= u vni ->
  forall vni', <[vni := default 0 (refs !! vni) + 1]> refs !! vni' = ref_entry (u vni' + Z.b2z (vni =? vni')).
Proof.
  intros Hr Hu vni'. destruct (Z.eqb_spec vni vni') as [<-|Hne].
  - rewrite lookup_insert_eq, Hr. unfold ref_entry. cbn. destruct (Z.eqb_spec (u vni) 0) as [->|]; [done|].
    cbn. by rewrite (proj2 (Z.eqb_neq _ _)) by lia.
  - rewrite lookup_insert_ne, Hr by done. cbn. by rewrite Z.add_0_r.
Qed.

Lemma without_ref_entry l (u : Z -> Z) vni : (forall vni, lg_refs l !! vni = ref_entry (u vni)) -> 0 < u vni ->
  forall vni', lg_refs (without_ref vni l) !! vni' = ref_entry (u vni' - Z.b2z (vni =? vni')).
Proof.
  intros Hr Hu vni'. cbn. rewrite (Hr vni). unfold ref_entry at 1. rewrite (proj2 (Z.eqb_neq _ _)) by lia.
  destruct (Z.eqb_spec vni vni') as [<-|Hne]; cbn.
  - unfold ref_entry. destruct (u vni - 1 =? 0); [apply lookup_delete_eq | apply lookup_insert_eq].
  - rewrite Z.sub_0_r, <- Hr. destruct (u vni - 1 =? 0); [by apply lookup_delete_ne | by apply lookup_insert_ne].
Qed.

(** A port that has no interface, or whose interface stays as it is, but for
    what is not in the accounts. *)
Lemma accounts_port l id x x' : accounts l -> lg_ports l !! id = Some x -> pf_ready x' = pf_ready x ->
  (pf_ready x = true -> pf_allocated x' = true /\ pf_vni x' = pf_vni x /\ pf_name x' = pf_name x) -> accounts (with_port id x' l).
Proof.
  intros Hl Hx Hr Hsame. split.
  - intros name id'. cbn. rewrite (ac_names l Hl). destruct (decide (id = id')) as [<-|Hne].
    + rewrite lookup_insert_eq. split.
      * intros (y & Hy & Hry & <-). simplify_eq. exists x'. destruct (Hsame Hry) as (_ & _ & ->). by rewrite Hr.
      * intros (y & [= <-] & Hry & <-). rewrite Hr in Hry. exists x. destruct (Hsame Hry) as (_ & _ & ->). done.
    + by rewrite lookup_insert_ne.
  - intros id' y. cbn. destruct (decide (id = id')) as [<-|Hne].
    + rewrite lookup_insert_eq. intros [= <-]. rewrite Hr. intros H. by destruct (Hsame H).
    + rewrite lookup_insert_ne by done. apply (ac_alloc l Hl).
  - intros vni. cbn. rewrite (ac_refs l Hl). f_equal. unfold users. cbn. rewrite tally_insert, Hx. cbn.
    assert (uses_vni vni x' = uses_vni vni x) as ->; [|lia]. unfold uses_vni. rewrite Hr. destruct (pf_ready x); [|done].
    by destruct (Hsame eq_refl) as (_ & -> & _).
Qed.

Lemma accounts_created l id x vni name enc : accounts l -> lg_ports l !! id = Some x -> pf_allocated x = false -> lg_names l !! name = None ->
  accounts (with_port id (mk_facts true true vni name enc) (with_ref vni (with_name name id l))).
Proof.
  intros Hl Hx Ha Hn. assert (pf_ready x = false) as Hr.
  { destruct (pf_ready x) eqn:E; [|done]. pose proof (ac_alloc l Hl id x Hx E). congruence. }
  split; cbn.
  - intros name' id'. destruct (decide (id = id')) as [<-|Hne].
    + rewrite lookup_insert_eq. split.
      * intros [[<- _]|[_ H]]%lookup_insert_Some; [by eexists|]. apply (ac_names l Hl) in H as (y & ? & ? & _). congruence.
      * intros (y & [= <-] & _ & <-). apply lookup_insert_eq.
    + rewrite (lookup_insert_ne (lg_ports l)) by done. rewrite <- (ac_names l Hl). destruct (decide (name = name')) as [<-|].
      * rewrite lookup_insert_eq, Hn. naive_solver.
      * by rewrite lookup_insert_ne.
  - intros id' y [[_ <-]|[_ H]]%lookup_insert_Some; [done | by apply (ac_alloc l Hl id')].
  - intros vni'. rewrite (with_ref_entry (lg_refs l) (users l) vni (ac_refs l Hl) (users_nonneg l vni)).
    f_equal. unfold users. cbn. rewrite tally_insert, Hx. cbn [share].
    assert (uses_vni vni' x = false) as -> by (unfold uses_vni; by rewrite Hr). unfold uses_vni at 3. cbn. lia.
Qed.

Lemma accounts_deleted l id x x' name : accounts l -> lg_names l !! name = Some id -> lg_ports l !! id = Some x -> pf_ready x' = false ->
  accounts (with_port id x' (without_ref (pf_vni x) (without_name name l))).
Proof.
  intros Hl Hn Hx Hr'. destruct (proj1 (ac_names l Hl name id) Hn) as (y & Hy & Hr & Hname). simplify_eq.
  assert (forall vni, users (with_port id x' l) vni = users l vni - Z.b2z (pf_vni x =? vni)) as Hu.
  { intros vni. unfold users. cbn. rewrite tally_insert, Hx. cbn [share].
    assert (uses_vni vni x' = false) as -> by (unfold uses_vni; by rewrite Hr').
    assert (uses_vni vni x = (pf_vni x =? vni)) as -> by (unfold uses_vni; by rewrite Hr). cbn. lia. }
  split; cbn.
  - intros name' id'. rewrite lookup_delete_Some, (ac_names l Hl). destruct (decide (id = id')) as [<-|Hne].
    + rewrite lookup_insert_eq. split; [intros (Hne & z & Hz & _ & <-); congruence | intros (z & [= <-] & H & _); congruence].
    + rewrite lookup_insert_ne by done. split; [by intros [_ H]|]. intros H. split; [|done]. intros <-.
      apply (ac_names l Hl) in H. congruence.
  - intros id' z [[_ <-]|[_ H]]%lookup_insert_Some; [congruence | by apply (ac_alloc l Hl id')].
  - intros vni. change (lg_refs (without_ref (pf_vni x) l) !! vni = ref_entry (users (with_port id x' l) vni)).
    rewrite Hu. apply without_ref_entry; [apply (ac_refs l Hl)|].
    pose proof (users_nonneg (with_port id x' l) (pf_vni x)) as H0. rewrite Hu, Z.eqb_refl in H0. cbn in H0. lia.
Qed.

Lemma accounts_lb_created l name key : accounts l -> lg_lbs l !! name = None -> accounts (with_ref (lbk_vni key) (with_lb name key l)).
Proof.
  intros Hl Hn. split; cbn; [apply (ac_names l Hl) | apply (ac_alloc l Hl)|].
  intros vni. rewrite (with_ref_entry (lg_refs l) (users l) (lbk_vni key) (ac_refs l Hl) (users_nonneg l _)).
  f_equal. unfold users. cbn. rewrite (tally_insert _ (lg_lbs l)), Hn. cbn. lia.
Qed.

Lemma accounts_lb_deleted l name key : accounts l -> lg_lbs l !! name = Some key -> accounts (without_ref (lbk_vni key) (without_lb name l)).
Proof.
  intros Hl Hn. assert (forall vni, users (without_lb name l) vni = users l vni - Z.b2z (lbk_vni key =? vni)) as Hu.
  { intros vni. unfold users. cbn. rewrite tally_delete, Hn. cbn. lia. }
  split; cbn; [apply (ac_names l Hl) | apply (ac_alloc l Hl)|].
  intros vni. change (lg_refs (without_ref (lbk_vni key) l) !! vni = ref_entry (users (without_lb name l) vni)).
  rewrite Hu. apply without_ref_entry; [apply (ac_refs l Hl)|].
  pose proof (users_nonneg (without_lb name l) (lbk_vni key)) as H0. rewrite Hu, Z.eqb_refl in H0. cbn in H0. lia.
Qed.

(** ** Requests *)

Lemma plain_inv (f : M ctl_state Z) s a s' : plain f s = Some (a, s') -> exists ret, f (s_ctl s) = Some (ret, s_ctl s').
Proof.
  intros (ret & s1 & H & H1)%M_bind_inv. injection H1 as _ <-. unfold on_ctl in H. destruct (f (s_ctl s)) as [[b y]|]; [|done].
  injection H as <- <-. eauto.
Qed.
Lemma told_inv {A} (c : A -> grpc_reply) (f : M ctl_state (Z * A)) s a s' : told c f s = Some (a, s') ->
  exists ret y, f (s_ctl s) = Some ((ret, y), s_ctl s').
Proof.
  intros (ret & s1 & H & H1)%M_bind_inv. injection H1 as _ <-. unfold on_ctl in H. destruct (f (s_ctl s)) as [[[b z] y]|]; [|done].
  injection H as <- <-. eauto.
Qed.

Lemma request_inv e (ie : ipsec_env) r s a s' : dp_process_request e ie r s = Some (a, s') ->
  exists b, grpc_dispatch (with_ipsec e s) ie r s = Some (b, s').
Proof.
  intros H. unfold dp_process_request in H. bind_inv H s0 s1 H0. injection H0 as <- <-. bind_inv H b s2 H2. exists b.
  destruct (DP_FAILED (fst b)); [|by injection H as _ <-]. bind_inv H c s3 H3. unfold get_some in H3. case_match; [|done].
  injection H3 as _ <-. by injection H as _ <-.
Qed.

(** The identifiers of load balancers are not given twice. *)
Definition fresh_lb r s : Prop :=
  match r with CreateLoadBalancer lb => lg_lbs (ledger_of (s_ctl s)) !! glb_id lb = None | _ => True end.

Lemma request_keeps_accounts e ie r s a s' : accounts (ledger_of (s_ctl s)) -> fresh_lb r s ->
  dp_process_request e ie r s = Some (a, s') -> accounts (ledger_of (s_ctl s')).
Proof.
  intros Hl Hfresh (b & H)%request_inv. destruct (changes_ledger r) eqn:Hr; [|by rewrite (quiet_request _ _ _ _ _ _ Hr H)].
  destruct r; try discriminate Hr; cbn [grpc_dispatch] in H.
  - apply told_inv in H as (ret & ul & [[_ ->]|(id & x & Hx & Ha & [(_ & x' & Hx' & ->)|(_ & Hn & _ & _ & ->)])]%create_interface_ledger);
      [done| |by eapply accounts_created].
    assert (pf_ready x = false) as Hf.
    { destruct (pf_ready x) eqn:E; [|done]. pose proof (ac_alloc _ Hl id x Hx E). congruence. }
    apply (accounts_port _ id x); [done|done| |congruence]. destruct Hx' as [-> | ->]; [done | by rewrite Hf].
  - apply plain_inv in H as (ret & [->|(id & x & x' & Hn & Hx & Hx' & ->)]%delete_interface_ledger); [done|].
    apply accounts_deleted; [done|done|done|]. by destruct Hx' as [-> | ->].
  - apply told_inv in H as (ret & ul & [[_ ->]|(_ & _ & ->)]%create_lb_ledger); [done| |done]. by apply (accounts_lb_created _ _ (mk_lb_key _ _)).
  - apply plain_inv in H as (ret & [->|(key & Hk & ->)]%delete_lb_ledger); [done|]. by apply accounts_lb_deleted.
  - apply plain_inv in H as (ret & [->|(_ & id & x & _ & Hx & ->)]%enable_ledger); [done|].
    apply (accounts_port _ id x); [done..|]. intros Hy. split; [exact (ac_alloc _ Hl id x Hx Hy) | done].
  - apply plain_inv in H as (ret & [->|(id & x & _ & Hx & ->)]%disable_ledger); [done|].
    apply (accounts_port _ id x); [done..|]. intros Hy. split; [exact (ac_alloc _ Hl id x Hx Hy) | done].
Qed.

(** A service that has just started: the ports are there, nothing is
    configured. *)
Definition started s : Prop :=
  hash_view (c_iface_ids (s_ctl s)) = ∅ /\ hash_view (c_vnis (s_ctl s)) = ∅ /\ hash_view (id_map_lb_tbl (c_lb (s_ctl s))) = ∅ /\
  forall id p, c_ports (s_ctl s) !! id = Some p -> ready (iface p) = false.

Inductive served : service -> Prop :=
| served_start s : started s -> served s
| served_request e ie r s a s' : served s -> fresh_lb r s -> dp_process_request e ie r s = Some (a, s') -> served s'.

Lemma started_accounts s : started s -> accounts (ledger_of (s_ctl s)).
Proof.
  intros (Hn & Hv & Hlb & Hp). assert (forall id x, lg_ports (ledger_of (s_ctl s)) !! id = Some x -> pf_ready x = false) as Hr.
  { cbn. intros id x. rewrite lookup_fmap. intros (p & H & ->)%fmap_Some. by eapply Hp. }
  split.
  - intros name id. cbn. unfold names. rewrite Hn, lookup_empty. split; [done|]. intros (x & Hx & H & _). rewrite (Hr id x) in H; done.
  - intros id x Hx H. by rewrite (Hr id x Hx) in H.
  - intros vni. cbn. unfold vnis. rewrite Hv, lookup_fmap, lookup_empty. cbn. unfold users. cbn. unfold lbs, lb_ids. rewrite Hlb.
    rewrite tally_none; [done|]. intros id x Hx. unfold uses_vni. by rewrite (Hr id x Hx).
Qed.

Lemma served_accounts s : served s -> accounts (ledger_of (s_ctl s)).
Proof. induction 1; [by apply started_accounts | by eapply request_keeps_accounts]. Qed.

(** The interfaces of a network. *)
Definition ifaces_in vni (ports : port_table) : Z := tally (fun p => ready (iface p) && (iface_vni (iface p) =? vni)) ports.
Definition balancers_in vni s : Z := tally (fun k => lbk_vni k =? vni) (hash_view (id_map_lb_tbl (c_lb (s_ctl s)))).


(** ** Who may encrypt *)

(** What lets a request change the protection of a port. *)
Definition may_protect s r id x : Prop :=
  dp_ipsec_is_enabled (s_ipsec s) = true /\
  ((exists name, r = EnableInterfaceEncryption name /\ dp_get_port_with_iface_id name (s_ctl s) = Some id) \/
   (exists q, r = CreateInterface q /\ gi_encrypt q = true /\ pf_allocated x = false)).
Definition may_unprotect s r id x : Prop :=
  (exists name, (r = DisableInterfaceEncryption name \/ r = DeleteInterface name) /\ dp_get_port_with_iface_id name (s_ctl s) = Some id) \/
  (exists q, r = CreateInterface q /\ pf_allocated x = false).

Lemma port_changed l id id' x x' y y' : lg_ports l !! id = Some x -> lg_ports l !! id' = Some y ->
  lg_ports (with_port id x' l) !! id' = Some y' -> pf_encrypt y' <> pf_encrypt y -> id = id' /\ x = y /\ x' = y'.
Proof.
  cbn. intros Hx Hy Hy' Hne. destruct (decide (id = id')) as [<-|].
  - rewrite lookup_insert_eq in Hy'. by simplify_eq.
  - rewrite lookup_insert_ne in Hy' by done. congruence.
Qed.

Lemma create_lb_ports e q : preserves (fun st => lg_ports (ledger_of st)) (dp_process_create_lb e q).
Proof.
  assert (forall A (f : M ctl_state A), quiet f -> preserves (fun st => lg_ports (ledger_of st)) f) as Hq
    by (intros A f Hf st a st' H; by rewrite (Hf _ _ _ H)).
  assert (forall A (f : M lb_state A), preserves (fun st => lg_ports (ledger_of st)) (on_lbs f)) as Hlb
    by (intros A f st a st' (y & _ & Hl)%on_lbs_ledger; by rewrite Hl).
  assert (forall ve vni socket, preserves (fun st => lg_ports (ledger_of st)) (dp_create_vni_route_tables ve vni socket)) as Hv
    by (intros ve vni socket st a st' [Hp _]%create_vni_ledger; cbn; by rewrite Hp).
  unfold dp_process_create_lb. cbv zeta.
  repeat first [apply preserves_bind; intros | apply Hlb | apply Hv | apply Hq; quiet; fail | apply preserves_ret | case_match].
Qed.

Lemma protection_changes e ie r s a s' id x x' : dp_process_request e ie r s = Some (a, s') ->
  lg_ports (ledger_of (s_ctl s)) !! id = Some x -> lg_ports (ledger_of (s_ctl s')) !! id = Some x' -> pf_encrypt x' <> pf_encrypt x ->
  if pf_encrypt x' then may_protect s r id x else may_unprotect s r id x.
Proof.
  intros (b & H)%request_inv Hx Hx' Hne. destruct (changes_ledger r) eqn:Hr;
    [|rewrite (quiet_request _ _ _ _ _ _ Hr H) in Hx'; congruence].
  destruct r; try discriminate Hr; cbn [grpc_dispatch] in H.
  - apply told_inv in H as (ret & ul & [[_ Hl]|(i & y & Hy & Ha & Hc)]%create_interface_ledger); [rewrite Hl in Hx'; congruence|].
    destruct Hc as [(_ & y' & Hy' & Hl)|(_ & _ & _ & Hen & Hl)]; rewrite Hl in Hx'.
    + destruct (port_changed _ _ _ _ _ _ _ Hy Hx Hx' Hne) as (-> & -> & ->). destruct Hy' as [-> | ->]; [done|]. cbn. right. eauto.
    + destruct (port_changed (with_ref _ (with_name _ i _)) _ _ _ _ _ _ Hy Hx Hx' Hne) as (-> & -> & <-). cbn in Hen |- *.
      destruct (gi_encrypt r) eqn:E; [split; [by apply Hen|] |]; right; eauto.
  - apply plain_inv in H as (ret & [Hl|(i & y & y' & Hn & Hy & Hy' & Hl)]%delete_interface_ledger); rewrite Hl in Hx'; [congruence|].
    destruct (port_changed (without_ref _ (without_name n _)) _ _ _ _ _ _ Hy Hx Hx' Hne) as (-> & -> & <-).
    assert (pf_encrypt y' = false) as -> by (by destruct Hy' as [-> | ->]). left. exists n. rewrite port_with_iface_id. auto.
  - apply told_inv in H as (ret & ul & H%create_lb_ports). cbv beta in H. rewrite H in Hx'. congruence.
  - apply plain_inv in H as (ret & [Hl|(key & Hk & Hl)]%delete_lb_ledger); rewrite Hl in Hx'; cbn in Hx, Hx'; congruence.
  - apply plain_inv in H as (ret & [Hl|(He & i & y & Hn & Hy & Hl)]%enable_ledger); rewrite Hl in Hx'; [congruence|].
    destruct (port_changed _ _ _ _ _ _ _ Hy Hx Hx' Hne) as (-> & -> & <-). split; [done|]. left. exists n. by rewrite port_with_iface_id.
  - apply plain_inv in H as (ret & [Hl|(i & y & Hn & Hy & Hl)]%disable_ledger); rewrite Hl in Hx'; [congruence|].
    destruct (port_changed _ _ _ _ _ _ _ Hy Hx Hx' Hne) as (-> & -> & <-). left. exists n. rewrite port_with_iface_id. auto.
Qed.

(** C7: Whether a port encrypts changes only by a request about it.  A port
    starts to encrypt only while IPsec is enabled, by the request that names its
    interface or by the creation of an interface that asks for it; it stops only
    by the request that names its interface, by the deletion of the interface, or
    while the port carries no interface.  No other request, and no error path of
    these, takes the protection from an interface. *)
Theorem protection_changes_by_name e ie r s a s' id p p' :
  dp_process_request e ie r s = Some (a, s') ->
  c_ports (s_ctl s) !! id = Some p -> c_ports (s_ctl s') !! id = Some p' -> encrypt (iface p') <> encrypt (iface p) ->
  if encrypt (iface p') then may_protect s r id (facts p) else may_unprotect s r id (facts p).
Proof.
  intros H Hp Hp' Hne. apply (protection_changes e ie r s a s' id (facts p) (facts p')); [done| | |done]; cbn; rewrite lookup_fmap.
  - by rewrite Hp.
  - by rewrite Hp'.
Qed.


(** C40: Every request is answered with a number of the interface description:
    zero when the handler succeeded, and otherwise the number of the very error it
    failed with.  The assertion in the conversion of codes never fails. *)
Theorem replies_have_codes e ie r s b s' : grpc_dispatch (with_ipsec e s) ie r s = Some (b, s') ->
  exists code, dp_process_request e ie r s = Some ((code, snd b), s') /\
    (code = 0 /\ fst b = DP_OK \/ exists err, fst b = DP_GRPC_ERR err /\ code = grpc_err_number err).
Proof.
  intros H. pose proof (dispatch_codes _ _ _ _ _ _ H) as Hc. unfold dp_process_request. rewrite M_bind_Some with (a := s) (s' := s) by done.
  rewrite (M_bind_Some _ _ _ _ _ H). destruct b as [ret reply]; cbn in *. destruct Hc as [->|[err ->]].
  - exists 0. split; [done | by left].
  - exists (grpc_err_number err). rewrite dp_failed_grpc_err. split; [|right; eauto].
    unfold dp_errcode_to_grpc_errcode, DP_GRPC_ERR. pose proof (grpc_err_number_pos err).
    rewrite (proj2 (Z.ltb_lt _ _)) by lia.
    assert (- (_DP_GRPC_ERRCODES - grpc_err_number err - _DP_GRPC_ERRCODES) = grpc_err_number err) as -> by lia. done.
Qed.
End accounts.
