(* ===== verification/IpsecTheorems.v ===== *)
(** What the Security Association database guarantees, for every history of
    requests.

    [ipsec_reachable ul s]: [s] is a state of the database after start-up with
    underlay address [ul] and any sequence of the four requests, whatever the
    libraries answered on the way.  The theorems are about such states. *)

From S2P Require Import Prelude Errors IpAddr Ipsec IpsecProofs IpsecGrpc.

Section theorems.
Context `{ERR : RteErrno} `{SAD : RteIpsecSad}.
Implicit Types (s : ipsec_state) (e : ipsec_env) (ul : dp_ipv6).

Inductive ipsec_reachable ul : ipsec_state -> Prop :=
| reach_init e ret s :
    ipsec_env_ok e -> env_underlay_ip e = ul ->
    dp_ipsec_init e ipsec_boot = Some (ret, s) -> ipsec_reachable ul s
| reach_create e r ret s s' :
    ipsec_reachable ul s -> ipsec_env_ok e -> env_underlay_ip e = ul ->
    dp_process_create_security_association e r s = Some (ret, s') -> ipsec_reachable ul s'
| reach_update e r ret s s' :
    ipsec_reachable ul s -> ipsec_env_ok e -> env_underlay_ip e = ul ->
    dp_process_update_security_association e r s = Some (ret, s') -> ipsec_reachable ul s'
| reach_delete r ret s s' :
    ipsec_reachable ul s ->
    dp_process_delete_security_association r s = Some (ret, s') -> ipsec_reachable ul s'
| reach_get r ret s s' :
    ipsec_reachable ul s ->
    dp_process_get_security_association r s = Some (ret, s') -> ipsec_reachable ul s'.

(** ** Lemmas on the handlers *)


Lemma fresh_inv ul s :
  dp_ipsec_sas s = replicate DP_IPSEC_MAX_SA None -> ipsec_heap s = ∅ -> view_of s = ∅ ->
  ipsec_inv ul s.
Proof.
  intros Hl Hh Hv. split; [by rewrite Hl, length_replicate|].
  rewrite Hl, Hh, Hv. apply core_inv_empty. by apply Forall_replicate.
Qed.

Lemma init_inv ul e : ipsec_env_ok e ->
  exists ret s, dp_ipsec_init e ipsec_boot = Some (ret, s) /\ ipsec_inv ul s
    /\ (ret = DP_OK <-> env_ipsec_enabled e = false \/ dp_ipsec_is_enabled s = true)
    /\ (dp_ipsec_is_enabled s = true -> enabled s = true).
Proof.
  intros Hok. unfold dp_ipsec_init, dp_ipsec_create_pools, dp_ipsec_create_sad; m_unfold.
  assert (DP_ERROR <> DP_OK) by (pose proof dp_error_negative; unfold DP_OK; lia).
  pose proof (sad_create_empty _ Hok) as He.
  destruct (env_ipsec_enabled e), (DP_FAILED (dp_ipsec_create_device e)),
    (env_session_pool_create e), (env_op_pool_create e), (env_sad_create e) as [t|],
    (DP_FAILED (env_cryptodev_start e)); cbn [negb];
    rewrite ?dp_failed_error; change (DP_FAILED DP_OK) with false; cbv iota;
    eexists _, _; (split; [reflexivity|]);
    split_and!; try (apply fresh_inv; [done..|]; unfold view_of; cbn; by auto);
    cbn; by naive_solver.
Qed.

Lemma update_handler_consistent r :
  update_consistent (id_spec (req_id (upd_sa r))) (request_sa (upd_new_spi r) (upd_sa r)).
Proof. done. Qed.

Lemma get_handler_state ul s r : ipsec_inv ul s ->
  exists ret, dp_process_get_security_association r s = Some (ret, s).
Proof.
  intros Hinv. destruct (get_sa_correct ul s (id_spec r) Hinv) as (x & Hx & Ho).
  unfold dp_process_get_security_association. rewrite (M_bind_Some _ _ _ _ _ Hx).
  unfold get_outcome in Ho. destruct (enabled s); cbn in Ho.
  - destruct (named _ _) as [d|].
    + destruct Ho as [-> Hd]. destruct (snd x) as [sa|]; [|done]. by eexists.
    + subst x; cbn [fst]. rewrite dp_failed_grpc_err. by eexists.
  - subst x; cbn [fst]. rewrite dp_failed_grpc_err. by eexists.
Qed.

Lemma reachable_inv ul s : ipsec_reachable ul s -> ipsec_inv ul s.
Proof.
  induction 1 as [e ret s Hok Hul Hs|e r ret s s' _ IH Hok Hul Hs|e r ret s s' _ IH Hok Hul Hs
                 |r ret s s' _ IH Hs|r ret s s' _ IH Hs].
  - destruct (init_inv ul e Hok) as (? & ? & Hs' & ? & _). by simplify_eq.
  - destruct (create_sa_correct ul e s (request_sa (id_spi (req_id r)) r) IH Hok Hul) as (? & ? & Hs' & ? & _).
    unfold dp_process_create_security_association in Hs. by simplify_eq.
  - destruct (update_sa_correct ul e s _ _ IH Hok Hul (update_handler_consistent r)) as (? & ? & Hs' & ? & _).
    unfold dp_process_update_security_association in Hs. by simplify_eq.
  - destruct (delete_sa_correct ul s (id_spec r) IH) as (? & ? & Hs' & ? & _).
    unfold dp_process_delete_security_association in Hs. by simplify_eq.
  - destruct (get_handler_state ul s r IH) as [? Hs']. by simplify_eq.
Qed.
Lemma named_filed m request :
  named (<[spec_key (request_spec request) := filed request]> m) (request_spec request)
  = Some (filed request).
Proof. unfold named. rewrite lookup_insert_eq; cbn. by rewrite decide_True. Qed.

Lemma ok_not_err (err : grpc_err) : DP_OK <> DP_GRPC_ERR err.
Proof. intros H. symmetry in H. by apply dp_grpc_err_not_ok in H. Qed.

Lemma create_outcome_ok ul on m request m' :
  create_outcome ul on m request DP_OK m' ->
  on = true /\ m' = <[spec_key (request_spec request) := filed request]> m.
Proof.
  unfold create_outcome, build_outcome. pose proof ok_not_err.
  destruct on; cbn; [|naive_solver]. destruct (request_error ul request); [naive_solver|].
  destruct (decide _); [naive_solver|]. destruct (decide _); naive_solver.
Qed.

(** ** Properties *)

(** C5: After start-up and any sequence of Security Association requests, the
    database is consistent: 64 slots, each slot owns exactly one live
    association that is filed under its own key, the lookup database points
    only at owned associations, every live session and librte_ipsec object
    belongs to one of them (nothing leaks, nothing is shared).  In such a state
    no request, and not the shutdown either, follows a dangling pointer or
    frees an object twice, whatever the libraries answer. *)
Theorem ipsec_requests_memory_safe ul s :
  ipsec_reachable ul s ->
  ipsec_inv ul s
  /\ (forall e r, ipsec_env_ok e -> env_underlay_ip e = ul ->
        is_Some (dp_process_create_security_association e r s))
  /\ (forall e r, ipsec_env_ok e -> env_underlay_ip e = ul ->
        is_Some (dp_process_update_security_association e r s))
  /\ (forall r, is_Some (dp_process_delete_security_association r s))
  /\ (forall r, is_Some (dp_process_get_security_association r s))
  /\ is_Some (dp_ipsec_free s).
Proof.
  intros Hinv%reachable_inv. split_and!; [done|..].
  - intros e r Hok Hul.
    destruct (create_sa_correct ul e s (request_sa (id_spi (req_id r)) r) Hinv Hok Hul) as (? & ? & ? & _).
    by eexists.
  - intros e r Hok Hul.
    destruct (update_sa_correct ul e s _ _ Hinv Hok Hul (update_handler_consistent r)) as (? & ? & ? & _).
    by eexists.
  - intros r. destruct (delete_sa_correct ul s (id_spec r) Hinv) as (? & ? & ? & _). by eexists.
  - intros r. destruct (get_handler_state ul s r Hinv) as [? ?]. by eexists.
  - destruct (free_correct ul s Hinv) as (? & ? & _). by eexists.
Qed.

(** C9: A create request answers and changes the database exactly as the
    contract says: refused when the subsystem is off, when the algorithm, the
    local address or the replay window is invalid, when the key is taken, when
    64 associations exist; otherwise it either files the association with its
    addresses masked to 64 bits, or fails for want of memory or crypto
    resources and changes nothing. *)
Theorem create_request_refines ul e s r :
  ipsec_reachable ul s -> ipsec_env_ok e -> env_underlay_ip e = ul ->
  exists ret s', dp_process_create_security_association e r s = Some (ret, s')
    /\ create_outcome ul (enabled s) (ipsec_abs s) (request_sa (id_spi (req_id r)) r)
         ret (ipsec_abs s').
Proof.
  intros Hinv%reachable_inv Hok Hul.
  destruct (create_sa_correct ul e s (request_sa (id_spi (req_id r)) r) Hinv Hok Hul)
    as (ret & s' & ? & _ & _ & ?). by exists ret, s'.
Qed.

(** C8: An update request is all or nothing and stays in place: it is only
    for outbound associations, it needs the full identity to match (a stale SPI
    replaces nothing), and it either replaces the named entry under the very
    key it is filed under, leaving every other entry alone, or leaves the whole
    database as it was.  It works at full capacity, since it needs no slot. *)
Theorem update_request_refines ul e s r :
  ipsec_reachable ul s -> ipsec_env_ok e -> env_underlay_ip e = ul ->
  exists ret s', dp_process_update_security_association e r s = Some (ret, s')
    /\ update_outcome ul (enabled s) (ipsec_abs s) (id_spec (req_id (upd_sa r)))
         (request_sa (upd_new_spi r) (upd_sa r)) ret (ipsec_abs s').
Proof.
  intros Hinv%reachable_inv Hok Hul.
  destruct (update_sa_correct ul e s _ _ Hinv Hok Hul (update_handler_consistent r))
    as (ret & s' & ? & _ & _ & ?). by exists ret, s'.
Qed.

(** C10: A delete request removes the association it names, and only that
    one; when the identity does not match in full it removes nothing. *)
Theorem delete_request_refines ul s r :
  ipsec_reachable ul s ->
  exists ret s', dp_process_delete_security_association r s = Some (ret, s')
    /\ delete_outcome (enabled s) (ipsec_abs s) (id_spec r) ret (ipsec_abs s').
Proof.
  intros Hinv%reachable_inv.
  destruct (delete_sa_correct ul s (id_spec r) Hinv) as (ret & s' & ? & _ & _ & ?). by exists ret, s'.
Qed.

(** C11: What a successful create request stored is what a get request for
    the same identity reports, with the addresses masked to their prefix. *)
Theorem create_get_roundtrip ul e s r s' :
  ipsec_reachable ul s -> ipsec_env_ok e -> env_underlay_ip e = ul ->
  dp_process_create_security_association e r s = Some (DP_OK, s') ->
  dp_process_get_security_association (req_id r) s'
  = Some ((DP_OK, Some (mk_grpc_sa
       (mk_sa_id (id_spi (req_id r)) (id_vni (req_id r)) (id_dir (req_id r))
          (mask64 (id_src (req_id r))) (mask64 (id_dst (req_id r))))
       (req_algo r) (req_key r) (req_salt r) (req_replay_window r) (req_esn r))), s').
Proof.
  intros Hinv%reachable_inv Hok Hul Hc.
  destruct (create_sa_correct ul e s (request_sa (id_spi (req_id r)) r) Hinv Hok Hul)
    as (ret & s2 & Hc' & Hinv' & Hon & Hout).
  unfold dp_process_create_security_association in Hc. simplify_eq.
  apply create_outcome_ok in Hout as [Hen Habs].
  destruct (get_sa_correct _ s' (id_spec (req_id r)) Hinv') as (x & Hx & Ho).
  unfold dp_process_get_security_association. rewrite (M_bind_Some _ _ _ _ _ Hx).
  unfold get_outcome in Ho. rewrite Hon, Hen, Habs in Ho. cbn [negb] in Ho.
  rewrite (named_filed _ (request_sa (id_spi (req_id r)) r)) in Ho.
  destruct Ho as [-> Hd]. destruct (snd x) as [sa|]; [|done]. cbn in Hd. change (DP_FAILED DP_OK) with false.
  destruct sa. apply (inj Some) in Hd. cbv in Hd. by injection Hd; intros; subst.
Qed.

(** C12: Inbound and outbound associations share one table but are never
    mistaken for each other on traffic with another host: a lookup with this
    host's prefix as the source finds only outbound associations, of the VNI
    looked up; with this host's prefix as the destination, only inbound ones,
    with the SPI looked up. *)
Theorem lookup_direction_separated ul s n a b p :
  ipsec_reachable ul s -> view_of s !! dp_ipsec_build_key n a b = Some p ->
  _prefix a <> _prefix b ->
  exists sa, ipsec_heap s !! p = Some (ObjSa sa)
    /\ _prefix (sa_src sa) = _prefix a /\ _prefix (sa_dst sa) = _prefix b
    /\ (_prefix a = _prefix ul -> sa_dir sa = DP_IPSEC_DIR_EGRESS /\ sa_vni sa = n)
    /\ (_prefix b = _prefix ul -> sa_dir sa = DP_IPSEC_DIR_INGRESS /\ sa_spi sa = n).
Proof.
  intros [_ CI]%reachable_inv Hk Hab.
  destruct (abs_lookup_view CI _ _ Hk) as (sa & Hp & Hf & Hwf & _). exists sa.
  unfold sa_filed_key, spec_key, dp_ipsec_get_lookup_spi, dp_ipsec_build_key in Hf. cbn in Hf.
  injection Hf as Hn Hdst Hsrc. pose proof (wf_local _ _ Hwf) as Hl. unfold local_prefix in Hl.
  split_and!; [done..| |]; intros Heq; destruct (sa_dir sa); split; congruence.
Qed.

(** A packet too short for an ESP header is looked up with an all-zero
    key ([ipsec_decap_build_key]); it never matches, provided this instance's
    underlay prefix is not zero. *)
Theorem zero_key_never_matches ul s :
  ipsec_reachable ul s -> _prefix ul <> 0 ->
  view_of s !! mk_sad_key 0 dp_empty_ipv6 dp_empty_ipv6 = None.
Proof.
  intros [_ CI]%reachable_inv Hul. destruct (view_of s !! _) as [p|] eqn:Hk; [|done]. exfalso.
  destruct (abs_lookup_view CI _ _ Hk) as (sa & Hp & Hf & Hwf & _).
  change dp_empty_ipv6 with (mk_ipv6 0 0) in Hf.
  unfold sa_filed_key, spec_key, dp_ipsec_build_key in Hf. cbn in Hf.
  injection Hf as Hn Hdst Hsrc. pose proof (wf_local _ _ Hwf) as Hl. unfold local_prefix in Hl.
  destruct (sa_dir sa); congruence.
Qed.

(** C13: At most 64 associations exist at any time, and shutting down
    releases all of them, their sessions and the database. *)
Theorem shutdown_releases_everything ul s :
  ipsec_reachable ul s ->
  (size (ipsec_abs s) <= DP_IPSEC_MAX_SA)%nat
  /\ exists s', dp_ipsec_free s = Some (tt, s') /\ ipsec_heap s' = ∅ /\ dp_ipsec_sad s' = None
      /\ ipsec_abs s' = ∅ /\ dp_ipsec_is_enabled s' = false.
Proof.
  intros Hinv%reachable_inv. pose proof Hinv as [Hlen CI]. split.
  - unfold ipsec_abs. rewrite (abs_size CI), <-Hlen. apply length_omap_le.
  - destruct (free_correct ul s Hinv) as (s' & ? & ? & Hs & ? & ?). exists s'. split_and!; try done.
    unfold ipsec_abs, view_of. rewrite Hs. apply omap_empty.
Qed.
End theorems.

(** ** A concrete database

    The interface instantiated with a bounded finite map and an allocator that
    hands out the first unused address; one inbound and one outbound
    association are created in it. *)

Module Example.

Definition bounded_add (cap : nat) (t : gmap rte_ipsec_sad_key ptr) (k : rte_ipsec_sad_key) (p : ptr)
  : Z * gmap rte_ipsec_sad_key ptr :=
  if decide (is_Some (t !! k) \/ (size t < cap)%nat) then (0, <[k := p]> t) else (- ENOSPC, t).

Definition map_del (t : gmap rte_ipsec_sad_key ptr) (k : rte_ipsec_sad_key)
  : Z * gmap rte_ipsec_sad_key ptr :=
  match t !! k with Some _ => (0, delete k t) | None => (- ENOENT, t) end.

Lemma bounded_add_law cap t k p :
  let '(r, t') := bounded_add cap t k p in
  (0 <= r /\ t' = <[k := p]> t) \/ (r < 0 /\ t' = t).
Proof. unfold bounded_add. case_decide; [by left | right; unfold ENOSPC; split; [lia|done]]. Qed.

Lemma map_del_law t k :
  let '(r, t') := map_del t k in
  (0 <= r /\ is_Some (t !! k) /\ t' = delete k t) \/ (r < 0 /\ t !! k = None /\ t' = t).
Proof.
  unfold map_del. destruct (t !! k) eqn:Hk; [left | right; unfold ENOENT];
    split_and!; try done; lia || by eexists.
Qed.

Lemma map_lookup_law (t : gmap rte_ipsec_sad_key ptr) k : t !! k = t !! k.
Proof. done. Qed.

#[export] Instance map_sad : RteIpsecSad :=
  {| rte_ipsec_sad := gmap rte_ipsec_sad_key ptr;
     rte_ipsec_sad_lookup t k := t !! k;
     rte_ipsec_sad_add := bounded_add DP_IPSEC_MAX_SA;
     rte_ipsec_sad_del := map_del;
     sad_view t := t;
     sad_lookup_law := map_lookup_law;
     sad_add_law := bounded_add_law DP_IPSEC_MAX_SA;
     sad_del_law := map_del_law |}.

#[export] Instance errno : RteErrno := dpdk_errno.

Definition underlay : dp_ipv6 := mk_ipv6 0x1020 0x30.
Definition peer : dp_ipv6 := mk_ipv6 0x4050 0x60.

Definition next_addr (l : gset ptr) : ptr := Pos.succ (foldr Pos.max 1%positive (elements l)).

Lemma next_addr_fresh l : next_addr l ∉ l.
Proof.
  assert (forall (xs : list ptr) x, x ∈ xs -> (x <= foldr Pos.max 1 xs)%positive) as Hle.
  { induction xs as [|y xs IH]; intros x Hx; [by apply elem_of_nil in Hx|].
    apply elem_of_cons in Hx as [->|Hx]; cbn [foldr]; [apply Pos.le_max_l|].
    etrans; [by apply IH | apply Pos.le_max_r]. }
  intros Hin%elem_of_elements%Hle. unfold next_addr in Hin. by apply Pos.le_succ_l, Pos.lt_irrefl in Hin.
Qed.

Definition env : ipsec_env :=
  {| env_underlay_ip := underlay; env_ipsec_enabled := true; env_hotplug_add := 0;
     env_get_dev_id := 0; env_cryptodev_configure := 0; env_queue_pair_setup := 0;
     env_session_pool_create := true; env_op_pool_create := true;
     env_sad_create := Some (∅ : gmap rte_ipsec_sad_key ptr); env_cryptodev_start := 0; env_iv_offset := 0;
     env_zmalloc l := Some (next_addr l); env_sym_session_create _ l := Some (next_addr l);
     env_ipsec_sa_size _ := 512; env_ipsec_sa_alloc _ l := Some (next_addr l);
     env_ipsec_sa_init _ _ := 512; env_session_prepare _ := 0 |}.

Lemma env_ok : ipsec_env_ok env.
Proof. split; cbn; intros; simplify_eq; try apply next_addr_fresh; done. Qed.

Definition key_bytes : list Z := seqZ 0 32.
Definition salt_bytes : list Z := [1; 2; 3; 4].

Definition egress : dpgrpc_ipsec_sa :=
  mk_grpc_sa (mk_sa_id 7 100 DP_IPSEC_DIR_EGRESS underlay peer) DP_IPSEC_ALGO_AES_256_GCM
    key_bytes salt_bytes 0 false.

Definition ingress : dpgrpc_ipsec_sa :=
  mk_grpc_sa (mk_sa_id 100 200 DP_IPSEC_DIR_INGRESS peer underlay) DP_IPSEC_ALGO_AES_128_GCM
    key_bytes salt_bytes 64 true.

(** The state a computation ends in. *)
Definition final {S A} (m : M S A) (s : S) : S :=
  match m s with Some (_, s') => s' | None => s end.

Lemma run_final {S A} (m : M S A) s a : fst <$> m s = Some a -> m s = Some (a, final m s).
Proof. unfold final. destruct (m s) as [[a' s']|]; [|done]. cbn. by intros [=->]. Qed.

Definition started : ipsec_state := final (dp_ipsec_init env) ipsec_boot.
Definition with_egress : ipsec_state :=
  final (dp_process_create_security_association env egress) started.
Definition with_both : ipsec_state :=
  final (dp_process_create_security_association env ingress) with_egress.

Lemma started_reachable : ipsec_reachable underlay started.
Proof.
  apply (reach_init underlay env DP_OK); [apply env_ok | done |].
  apply run_final. vm_compute. reflexivity.
Qed.

Lemma with_egress_run :
  dp_process_create_security_association env egress started = Some (DP_OK, with_egress).
Proof.
  unfold with_egress. apply (run_final (dp_process_create_security_association env egress) started).
  vm_compute. reflexivity.
Qed.

Lemma with_egress_reachable : ipsec_reachable underlay with_egress.
Proof.
  apply (reach_create underlay env egress DP_OK started); [apply started_reachable | apply env_ok | done |].
  apply with_egress_run.
Qed.

Lemma with_both_reachable : ipsec_reachable underlay with_both.
Proof.
  apply (reach_create underlay env ingress DP_OK with_egress);
    [apply with_egress_reachable | apply env_ok | done |].
  unfold with_both. apply (run_final (dp_process_create_security_association env ingress) with_egress).
  vm_compute. reflexivity.
Qed.

Lemma ipsec_requests_memory_safe_witness : ipsec_inv underlay with_both.
Proof. apply (ipsec_requests_memory_safe underlay with_both with_both_reachable). Defined.

Lemma create_request_refines_witness :
  exists ret s', dp_process_create_security_association env ingress with_egress = Some (ret, s')
    /\ create_outcome underlay (enabled with_egress) (ipsec_abs with_egress) (request_sa 100 ingress) ret (ipsec_abs s').
Proof.
  exact (create_request_refines underlay env with_egress ingress with_egress_reachable env_ok eq_refl).
Defined.

(** The outbound association is rekeyed: SPI 7 becomes SPI 9. *)
Definition rekey : dpgrpc_ipsec_sa_update := mk_grpc_update egress 9.

Lemma update_request_refines_witness :
  exists ret s', dp_process_update_security_association env rekey with_both = Some (ret, s')
    /\ update_outcome underlay (enabled with_both) (ipsec_abs with_both) (id_spec (req_id egress))
         (request_sa 9 egress) ret (ipsec_abs s').
Proof.
  exact (update_request_refines underlay env with_both rekey with_both_reachable env_ok eq_refl).
Defined.

Lemma delete_request_refines_witness :
  exists ret s', dp_process_delete_security_association (req_id ingress) with_both = Some (ret, s')
    /\ delete_outcome (enabled with_both) (ipsec_abs with_both) (id_spec (req_id ingress)) ret (ipsec_abs s').
Proof. exact (delete_request_refines underlay with_both (req_id ingress) with_both_reachable). Defined.

Lemma create_get_roundtrip_witness :
  dp_process_get_security_association (req_id egress) with_egress
  = Some ((DP_OK, Some (mk_grpc_sa
       (mk_sa_id 7 100 DP_IPSEC_DIR_EGRESS (mk_ipv6 0x1020 0) (mk_ipv6 0x4050 0))
       DP_IPSEC_ALGO_AES_256_GCM key_bytes salt_bytes 0 false)), with_egress).
Proof.
  exact (create_get_roundtrip underlay env started egress with_egress started_reachable env_ok eq_refl
           with_egress_run).
Defined.

(** Inbound SPI 100 and outbound VNI 100 coexist. *)
Lemma lookup_direction_separated_witness :
  exists p sa, view_of with_both !! dp_ipsec_build_key 100 underlay peer = Some p
    /\ ipsec_heap with_both !! p = Some (ObjSa sa)
    /\ sa_dir sa = DP_IPSEC_DIR_EGRESS /\ sa_vni sa = 100.
Proof.
  destruct (view_of with_both !! dp_ipsec_build_key 100 underlay peer) as [p|] eqn:Hp; [|by vm_compute in Hp].
  destruct (lookup_direction_separated underlay with_both 100 underlay peer p with_both_reachable Hp)
    as (sa & ? & _ & _ & Hd & _); [done|].
  exists p, sa. split_and!; [done | done | apply Hd; done | apply Hd; done].
Defined.

Lemma zero_key_never_matches_witness :
  view_of with_both !! mk_sad_key 0 dp_empty_ipv6 dp_empty_ipv6 = None.
Proof. apply (zero_key_never_matches underlay with_both with_both_reachable). done. Defined.

Lemma shutdown_releases_everything_witness :
  (size (ipsec_abs with_both) <= 64)%nat
  /\ exists s', dp_ipsec_free with_both = Some (tt, s') /\ ipsec_heap s' = ∅ /\ dp_ipsec_sad s' = None
      /\ ipsec_abs s' = ∅ /\ dp_ipsec_is_enabled s' = false.
Proof. exact (shutdown_releases_everything underlay with_both with_both_reachable). Defined.

End Example.
