(* ===== verification/IpsecNodesTheorems.v ===== *)
(** Correctness of the IPsec nodes: no packet of a burst leaves ipsec_encap or
    ipsec_decap by a forwarding edge unless the crypto device and librte_ipsec
    have both accepted it, in that burst, under the association that the
    packet's own key names. *)

From S2P Require Import Prelude Errors RteHash IpAddr Port Graph Packet Virtsvc Vnf Tunnel TunnelTheorems Ipsec.
From S2P Require Import IpsecNodes IpsecNodesProofs IpsecProofs IpsecGrpc IpsecTheorems.

Section theorems.
Context `{ERR : RteErrno} `{SAD : RteIpsecSad} `{CR : RteCrypto}
  {HT : RteHash dp_ipv6 dp_vnf} {VT : RteHash dp_vnf dp_ipv6}.
Implicit Types (e : crypto_env) (st : burst_state) (m p op : ptr).

(** ** The structure the two nodes share *)

Definition crypto_node e (build : M rte_mbuf rte_ipsec_sad_key) (gate : ptr -> ptr -> M burst_state bool)
    (ok bad : ptr -> M burst_state unit) (next : M rte_mbuf Z) (objs : list ptr) : M burst_state (list Z) :=
  live ← gets live_ops;
  match rte_crypto_op_bulk_alloc live (length objs) with
  | None =>
      for_each (fun m => on_mbuf m (set_crypto_failed true)) objs ;;
      map_mbufs next objs
  | Some ops =>
      modify (set_live_ops (live ∪ list_to_set ops)) ;;
      keys ← map_mbufs (set_crypto_failed true ;; build) objs;
      sas ← lookup_sas e keys;
      nb_ops ← prepare_loop e gate (zip objs sas) ops 0;
      (if (0 <? nb_ops)%nat then
         done ← dp_ipsec_process_burst (take nb_ops ops);
         groups ← crypto_group done;
         for_each (process_group e ok bad) groups
       else mret tt) ;;
      for_each free_op ops ;;
      map_mbufs next objs
  end.

(** The association found for a packet of the burst. *)
Definition sa_for e (build : M rte_mbuf rte_ipsec_sad_key) st m : option ptr :=
  x ← mbufs st !! m; r ← build x; view_of (cenv_ipsec e) !! fst r.

Section node.
Context (ul : dp_ipv6) (e : crypto_env) (st : burst_state) (objs : list ptr).
Context (build : M rte_mbuf rte_ipsec_sad_key) (gate : ptr -> ptr -> M burst_state bool).
Context (ok bad : ptr -> M burst_state unit) (next : M rte_mbuf Z).
Context (B : ptr -> Z * Z * Z * bool -> Prop) (G : ptr -> ptr -> Z * Z * Z * bool -> Prop) (K : rte_mbuf -> Prop).
Local Notation sa_of := (sa_for e build st).
Hypothesis Hinv : ipsec_inv ul (cenv_ipsec e).
Hypothesis Hsad : is_Some (dp_ipsec_sad (cenv_ipsec e)).
Hypothesis Hobjs : NoDup objs.
Hypothesis Hidle : dev_pending (device st) = [].
Hypothesis Hpkts : forall m, m ∈ objs -> exists x k, mbufs st !! m = Some x /\ build x = Some (k, x)
  /\ build (fail_mark x) = Some (k, fail_mark x) /\ B m (info x).
Hypothesis Hgate : gate_ok objs sa_of B G gate.
Hypothesis Hok : step_ok ok (fun _ => []) (fun x => 54 <= pkt_len x /\ crypto_failed (mark x) = true) (fun x => crypto_failed (mark x) = false -> K x).
Hypothesis Hbad : step_ok bad (fun _ => []) (fun x => crypto_failed (mark x) = true)
                    (fun x => crypto_failed (mark x) = true).
Hypothesis Hnext : forall m x, m ∈ objs -> B m (info x) ->
  exists edge, next x = Some (edge, x) /\ (crypto_failed (mark x) = true -> edge = 0).

Lemma sa_for_live m p : sa_of m = Some p -> exists sa, ipsec_heap (cenv_ipsec e) !! p = Some (ObjSa sa).
Proof using Hinv.
  intros H. apply bind_Some in H as (x & _ & H). apply bind_Some in H as ([k y] & _ & H).
  destruct Hinv as [_ CI]. destruct (abs_lookup_view CI _ _ H) as (sa & Hp & _). by exists sa.
Qed.

(** The keys of the burst name exactly those associations, and the packets are
    marked as failed until proven otherwise. *)
Lemma keys_run live : exists keys st', map_mbufs (set_crypto_failed true ;; build) objs (set_live_ops live st) = Some (keys, st')
  /\ lookup_sas e keys st' = Some (sa_of <$> objs, st')
  /\ undecided objs B st' /\ device st' = device st /\ live_ops st' = live.
Proof using Hsad Hobjs Hpkts.
  destruct (map_mbufs_run (set_crypto_failed true ;; build) (set_live_ops live st) objs Hobjs)
    as (keys & st' & Hrun & HF & _ & Hst).
  { intros m Hm. destruct (Hpkts m Hm) as (x & k & Hx & Hb & Hb' & _). exists x, k, (fail_mark x).
    split; [done|]. erewrite M_bind_Some; [exact Hb' | done]. }
  assert (Forall2 (fun m k => exists x, mbufs st !! m = Some x /\ build x = Some (k, x)
            /\ mbufs st' !! m = Some (fail_mark x) /\ B m (info x)) objs keys) as HF'.
  { apply Forall2_same_length_lookup in HF as [Hlen HF]. apply Forall2_same_length_lookup. split; [done|].
    intros i m k Hi Hk. destruct (HF i m k Hi Hk) as (x & x' & Hx & Hb & Hx'). cbn in Hx.
    apply list_elem_of_lookup_2 in Hi. destruct (Hpkts m Hi) as (y & k' & Hy & Hb1 & Hb2 & HB).
    assert (y = x) as -> by congruence. change (build (fail_mark x) = Some (k, x')) in Hb.
    rewrite Hb2 in Hb. injection Hb as -> <-. by exists x. }
  exists keys, st'. split_and!; [done | | | by rewrite Hst | by rewrite Hst].
  - destruct Hsad as [t Ht].
    assert (rte_ipsec_sad_lookup t <$> keys = sa_of <$> objs) as Heq.
    { clear Hrun HF Hobjs Hpkts Hgate Hnext. induction HF' as [|m k objs' keys' (x & Hx & Hb & _) HF' IH]; [done|].
      rewrite !fmap_cons, IH. f_equal. rewrite sad_lookup_law. unfold sa_for. rewrite Hx. cbn. rewrite Hb. cbn.
      unfold view_of. by rewrite Ht. }
    unfold lookup_sas, dp_ipsec_lookup_sa, gets, mbind, M_bind. rewrite Ht. cbn. by rewrite Heq.
  - intros m Hm. apply list_elem_of_lookup in Hm as [i Hi].
    destruct (Forall2_lookup_l _ _ _ _ _ HF' Hi) as (k & _ & x & _ & _ & Hx & HB). by exists (fail_mark x).
Qed.

Definition forwarded st' m edge : Prop :=
  edge = 0 \/ exists x, mbufs st' !! m = Some x /\ next x = Some (edge, x) /\ B m (info x)
    /\ cleared sa_of G K st' m x.

Lemma edges_run st1 : decided objs sa_of B G K st1 ->
  exists edges st', map_mbufs next objs st1 = Some (edges, st') /\ live_ops st' = live_ops st1
    /\ Forall2 (forwarded st') objs edges.
Proof using Hobjs Hnext.
  intros Hd. destruct (map_mbufs_reads next st1 objs Hobjs) as (edges & st' & Hrun & HF & Hl & He & Hm).
  { intros m Hm. destruct (Hd m Hm) as (x & Hx & HB & _). destruct (Hnext m x Hm HB) as (edge & ? & _). by exists x, edge. }
  exists edges, st'. split_and!; [done..|]. apply Forall2_same_length_lookup in HF as [Hlen HF].
  apply Forall2_same_length_lookup. split; [done|]. intros i m edge Hi Hk.
  destruct (HF i m edge Hi Hk) as (x & Hx & Hnx). apply list_elem_of_lookup_2 in Hi.
  destruct (Hd m Hi) as (y & Hy & HB & Hcl). assert (y = x) as -> by congruence.
  destruct (Hnext m x Hi HB) as (edge' & Hnx' & Hdrop). assert (edge' = edge) as -> by congruence.
  destruct (crypto_failed (mark x)) eqn:Hf; [left; auto|]. right. exists x. rewrite Hm by done.
  split_and!; try done. eapply cleared_mono; [by apply Hcl | by rewrite He, app_nil_r].
Qed.

Lemma crypto_node_run : exists edges st', crypto_node e build gate ok bad next objs st = Some (edges, st')
  /\ live_ops st' = live_ops st /\ Forall2 (forwarded st') objs edges.
Proof using All.
  unfold crypto_node. erewrite M_bind_Some; [|reflexivity].
  destruct (rte_crypto_op_bulk_alloc (live_ops st) (length objs)) as [ops|] eqn:Halloc.
  - destruct (alloc_law _ _ _ Halloc) as (Hlen & Hnd & Hfresh). erewrite M_bind_Some; [|reflexivity].
    destruct (keys_run (live_ops st ∪ list_to_set ops)) as (keys & st1 & Hr1 & Hlk & Hu & Hd1 & Hl1).
    erewrite M_bind_Some; [|exact Hr1]. erewrite M_bind_Some; [|exact Hlk].
    destruct (round_run e objs sa_of B G sa_for_live K gate ok bad ops st1) as (st2 & Hr2 & Hdec & Hl2);
      [done..|by rewrite Hd1| |].
    { intros op Hop. rewrite Hl1. apply elem_of_union. right. by apply elem_of_list_to_set. }
    destruct (edges_run st2 Hdec) as (edges & st3 & Hr3 & Hl3 & HF). exists edges, st3. split_and!; [| |done].
    + m_inv Hr2. erewrite M_bind_Some; [|eassumption]. erewrite M_bind_Some; [|eassumption].
      erewrite M_bind_Some; [|eassumption]. exact Hr3.
    + rewrite Hl3, Hl2, Hl1. assert (live_ops st ## list_to_set ops); [|set_solver].
      intros op H1 H2%elem_of_list_to_set. by apply (Hfresh op).
  - destruct (mark_all_run st objs) as (st1 & Hr1 & Hl1 & Hm1).
    { intros m Hm. destruct (Hpkts m Hm) as (x & _ & Hx & _). by exists x. }
    destruct (edges_run st1) as (edges & st2 & Hr2 & Hl2 & HF).
    { intros m Hm. destruct (Hpkts m Hm) as (x & k & Hx & _ & _ & HB). destruct (Hm1 m) as (o & Ho & Hin & _).
      rewrite Hx in Ho. subst o. exists (fail_mark x). split_and!; [by apply Hin | done | done]. }
    exists edges, st2. split_and!; [|by rewrite Hl2, Hl1|done]. erewrite M_bind_Some; [exact Hr2 | exact Hr1].
Qed.
End node.

(** ** ipsec_encap *)

(** A packet the tunnel encapsulation hands over: it has a source port, an
    Ethernet and an IPv6 header, and a port to leave by. *)
Record encap_input e (x : rte_mbuf) : Prop := {
  ei_port : exists port, port_table_at (cenv_ports e) (m_port x) = Some (Some port);
  ei_headers : (54 <= length (memory (buf x)))%nat;
  ei_out : is_Some (edge_at (cenv_tx_index e) (nxt_hop (flow x)))
}.

Lemma rd_ipv6_run x off : (off + 16 <= length (memory (buf x)))%nat ->
  exists a, read_ipv6 (buf x) off = Some a /\ forall y, buf y = buf x -> rd_ipv6 off y = Some (a, y).
Proof.
  intros H. unfold rd_ipv6, read_ipv6, read_bytes, gets, get_some, mbind, M_bind.
  eexists. split; [|intros y ->]; rewrite decide_True by done; reflexivity.
Qed.

Lemma encap_key_run e x : encap_input e x ->
  exists k, forall y, buf y = buf x -> m_port y = m_port x -> ipsec_encap_build_key (cenv_ports e) y = Some (k, y).
Proof.
  intros [[port Hp] Hh _]. destruct (rd_ipv6_run x (14 + ipv6_src_off)) as (a & _ & Ha); [cbn; lia|].
  destruct (rd_ipv6_run x (14 + ipv6_dst_off)) as (b & _ & Hb); [cbn; lia|].
  exists (dp_ipsec_build_key (iface_vni (iface port)) a b). intros y Hy Hport. unfold ipsec_encap_build_key.
  erewrite (M_bind_Some _ _ _ port y); [|unfold get_in_port, gets, get_some, mbind, M_bind; by rewrite Hport, Hp].
  erewrite M_bind_Some; [|by apply Ha]. erewrite M_bind_Some; [|by apply Hb]. done.
Qed.

Lemma encap_ok_step : step_ok (fun m => on_mbuf m (set_crypto_failed false ;; clear_rx_flags)) (fun _ => [])
  (fun x => 54 <= pkt_len x /\ crypto_failed (mark x) = true) (fun x => crypto_failed (mark x) = false -> True).
Proof.
  intros st m x Hx _. eexists _, _. split; [by eapply on_mbuf_run|]. cbn. by rewrite app_nil_r.
Qed.

Lemma encap_bad_step : step_ok (fun m => on_mbuf m clear_rx_flags) (fun _ => [])
  (fun x => crypto_failed (mark x) = true) (fun x => crypto_failed (mark x) = true).
Proof.
  intros st m x Hx Hf. eexists _, _. split; [by eapply on_mbuf_run|]. cbn. by rewrite app_nil_r.
Qed.


(** ** ipsec_decap *)

Lemma rd_run x off n : (off + n <= length (memory (buf x)))%nat ->
  exists v, forall y, buf y = buf x -> rd off n y = Some (v, y).
Proof.
  intros H. unfold rd, read_le, read_bytes, gets, get_some, mbind, M_bind. eexists. intros y ->.
  rewrite decide_True by done. reflexivity.
Qed.

Lemma decap_key_run x : exists k, forall y, buf y = buf x -> ipsec_decap_build_key y = Some (k, y).
Proof.
  unfold ipsec_decap_build_key. destruct (pkt_len x <? IPSEC_DECAP_MIN_LEN) eqn:Hlen.
  - exists zero_key. intros y Hy. m_unfold. replace (pkt_len y) with (pkt_len x); [by rewrite Hlen|].
    unfold pkt_len. by rewrite Hy.
  - apply Z.ltb_ge in Hlen. unfold pkt_len, IPSEC_DECAP_MIN_LEN in Hlen.
    assert (62 <= length (memory (buf x)))%nat as Hm by (unfold memory; rewrite length_app; lia).
    destruct (rd_run x (14 + 40) 4) as (spi & Hs); [cbn; lia|].
    destruct (rd_ipv6_run x (14 + ipv6_src_off)) as (a & _ & Ha); [cbn; lia|].
    destruct (rd_ipv6_run x (14 + ipv6_dst_off)) as (b & _ & Hb); [cbn; lia|].
    exists (dp_ipsec_build_key (ntohl spi) a b). intros y Hy.
    erewrite M_bind_Some; [|reflexivity]. replace (pkt_len y <? IPSEC_DECAP_MIN_LEN) with false.
    2: { symmetry. apply Z.ltb_ge. unfold pkt_len, IPSEC_DECAP_MIN_LEN. rewrite Hy. lia. }
    erewrite M_bind_Some; [|by apply Hs]. erewrite M_bind_Some; [|by apply Ha].
    erewrite M_bind_Some; [|by apply Hb]. done.
Qed.

(** What the protocol check leaves on an accepted packet. *)
Definition inner_restored (x : rte_mbuf) : Prop :=
  (proto_id (flow x) = IPPROTO_IPIP /\ l3_type (flow x) = RTE_ETHER_TYPE_IPV4)
  \/ (proto_id (flow x) = IPPROTO_IPV6 /\ l3_type (flow x) = RTE_ETHER_TYPE_IPV6).

Lemma decap_accept_run x : 54 <= pkt_len x -> exists x', decap_accept x = Some (tt, x') /\ info x' = info x
  /\ (x' = x \/ inner_restored x').
Proof.
  intros Hlen. unfold pkt_len in Hlen.
  destruct (rd_run x (14 + ipv6_proto_off) 1) as (v & Hv).
  { unfold memory. rewrite length_app. cbn. lia. }
  unfold decap_accept, ipsec_decap_restore_flow.
  destruct (v =? IPPROTO_IPIP) eqn:H1; [|destruct (v =? IPPROTO_IPV6) eqn:H2].
  - exists (snd (default (tt, x) ((upd_flow (set_l3_type RTE_ETHER_TYPE_IPV4) ;; upd_flow (set_proto_id v) ;; set_crypto_failed false) x))).
    m_unfold. rewrite (Hv x eq_refl), H1. apply Z.eqb_eq in H1 as ->. split_and!; [done..|]. right. by left.
  - exists (snd (default (tt, x) ((upd_flow (set_l3_type RTE_ETHER_TYPE_IPV6) ;; upd_flow (set_proto_id v) ;; set_crypto_failed false) x))).
    m_unfold. rewrite (Hv x eq_refl), H1, H2. apply Z.eqb_eq in H2 as ->. split_and!; [done..|]. right. by right.
  - exists x. m_unfold. rewrite (Hv x eq_refl), H1, H2, dp_failed_error. auto.
Qed.

Lemma decap_ok_step : step_ok (fun m => on_mbuf m decap_accept) (fun _ => [])
  (fun x => 54 <= pkt_len x /\ crypto_failed (mark x) = true)
  (fun x => crypto_failed (mark x) = false -> inner_restored x).
Proof.
  intros st m x Hx [Hlen Hf]. destruct (decap_accept_run x Hlen) as (x' & Hrun & Hi & Hor).
  eexists _, _. split; [by eapply on_mbuf_run|]. cbn. rewrite app_nil_r. split_and!; try done.
  destruct Hor as [-> |]; [by rewrite Hf | done].
Qed.

Lemma decap_bad_step : step_ok (fun _ => mret tt) (fun _ => [])
  (fun x => crypto_failed (mark x) = true) (fun x => crypto_failed (mark x) = true).
Proof. intros st m x Hx Hf. exists x, st. cbn. by rewrite insert_id, app_nil_r. Qed.

(** The destination is resolved to an interface of the association's VNI. *)
Definition in_vni e p (i : Z * Z * Z * bool) : Prop :=
  exists sa, ipsec_heap (cenv_ipsec e) !! p = Some (ObjSa sa) /\ i.1.2 = sa_vni sa /\ i.2 = true.

Lemma decap_gate_ok e objs sa_of :
  (forall m p, sa_of m = Some p -> exists sa, ipsec_heap (cenv_ipsec e) !! p = Some (ObjSa sa)) ->
  gate_ok objs sa_of (fun _ _ => True) (fun _ => in_vni e) (decap_gate e).
Proof.
  intros Hsa m p st x Hm Hp Hx Hf _. destruct (Hsa m p Hp) as [sa Hheap].
  destruct (dp_vnf_resolve_tunnel_dst (cenv_ports e) (cenv_vnf e) x) as [port x'] eqn:Hres.
  assert (mark x' = mark x /\ (is_Some port -> tun_dst_resolved (flow x') = true)) as [Hmark Hr].
  { unfold dp_vnf_resolve_tunnel_dst in Hres. destruct (tun_dst_resolved (flow x)) eqn:Ht; [by injection Hres as <- <-|].
    destruct (dp_get_vnf _ _); [|injection Hres as <- <-; split; [done | by intros []]].
    destruct (dp_get_port_by_id _ _); injection Hres as <- <-; split; try done; by intros []. }
  assert (decap_gate e m p st = Some ((match port with None => false | Some _ => dst_vni (flow x') =? sa_vni sa end), upd st m x')) as Hrun.
  { unfold decap_gate. erewrite M_bind_Some; [|eapply on_mbuf_run; [done|]; rewrite Hres; reflexivity]. cbn [fst snd].
    destruct port; [|done]. erewrite M_bind_Some; [|by apply sa_at_run]. done. }
  eexists _, x'. split; [exact Hrun|]. rewrite Hmark. split_and!; try done. destruct port; [|done].
  intros Hv%Z.eqb_eq. exists sa. split_and!; try done. by apply Hr.
Qed.

End theorems.

(** ** A concrete device

    Every operation is accepted and, [latency] polls later, returned with
    success; the packets then hold the bytes [result]. *)

Module CryptoExample.
Import Example TunnelExample.

Fixpoint alloc_ops (live : gset ptr) (n : nat) : list ptr :=
  match n with
  | O => []
  | S n' => let p := next_addr live in p :: alloc_ops ({[p]} ∪ live) n'
  end.

Lemma alloc_ops_law live n :
  length (alloc_ops live n) = n /\ NoDup (alloc_ops live n) /\ forall p, p ∈ alloc_ops live n -> p ∉ live.
Proof.
  revert live; induction n as [|n IH]; intros live; cbn.
  { split_and!; [done | constructor |]. intros p H. by apply elem_of_nil in H. }
  destruct (IH ({[next_addr live]} ∪ live)) as (Hl & Hn & Hf). split_and!.
  - by rewrite Hl.
  - constructor; [|done]. intros H%Hf. set_solver.
  - intros p [-> | H%Hf]%elem_of_cons; [apply next_addr_fresh | set_solver].
Qed.

Definition poll (result : rte_buf) (d : nat * list ptr) (n : nat) : list (done_op * rte_buf) * (nat * list ptr) :=
  match d with
  | (S k, ops) => ([], (k, ops))
  | (O, ops) => ((fun op => (mk_done op true, result)) <$> take n ops, (O, drop n ops))
  end.

Definition finalize (ms : list (ptr * rte_mbuf)) : nat * list (ptr * rte_mbuf) :=
  let good x := bool_decide (Z.land (ol_flags x.2) RTE_MBUF_F_RX_SEC_OFFLOAD_FAILED = 0
                             /\ l2_len x.2 + l3_len x.2 <= pkt_len x.2) in
  (length (base.filter (fun x => good x = true) ms),
   base.filter (fun x => good x = true) ms ++ base.filter (fun x => ~ good x = true) ms).

Lemma simple_alloc_law live n ops : Some (alloc_ops live n) = Some ops ->
  length ops = n /\ NoDup ops /\ forall p, p ∈ ops -> p ∉ live.
Proof. intros [= <-]. apply alloc_ops_law. Qed.

Lemma simple_enqueue_law (d : nat * list ptr) (ops : list ptr) :
  (length ops <= length ops)%nat /\ d.2 ++ ops = d.2 ++ take (length ops) ops.
Proof. by rewrite firstn_all. Qed.

Lemma simple_dequeue_law result d n : let '(l, d') := poll result d n in
  (length l <= n)%nat /\ Permutation d.2 (((fun x => done_addr x.1) <$> l) ++ d'.2).
Proof.
  destruct d as [[|k] ops]; cbn; [|split; [lia | done]]. split.
  - rewrite length_fmap, length_take. lia.
  - rewrite <-list_fmap_compose. change ((fun x => done_addr x.1) ∘ (fun op => (mk_done op true, result))) with (fun op : ptr => op).
    by rewrite list_fmap_id, take_drop.
Qed.

Definition single (done : list (rte_crypto_op * bool)) : list (ptr * list ptr) :=
  (fun x => (op_ses x.1, [op_m x.1])) <$> done.

Lemma simple_group_law done :
  Forall (fun g => snd g <> []) (single done)
  /\ exists rest, Permutation ((fun x => (op_ses x.1, op_m x.1)) <$> done)
                 ((single done ≫= fun g => pair (fst g) <$> snd g) ++ rest).
Proof.
  split; [by apply Forall_fmap, Forall_forall|]. exists []. rewrite app_nil_r. unfold single.
  induction done as [|x done IH]; [done|]. cbn. by constructor.
Qed.

Lemma simple_process_law (ms : list (ptr * rte_mbuf)) : let '(n, ms') := finalize ms in
  (n <= length ms')%nat
  /\ Permutation (prod_map id kept <$> ms) (prod_map id kept <$> ms')
  /\ forall p m', (p, m') ∈ take n ms' ->
       l2_len m' + l3_len m' <= pkt_len m'
       /\ exists m, (p, m) ∈ ms /\ Z.land (ol_flags m) RTE_MBUF_F_RX_SEC_OFFLOAD_FAILED = 0.
Proof.
  unfold finalize. cbn zeta. split_and!.
  - rewrite length_app. lia.
  - apply fmap_Permutation. symmetry. apply filter_app_complement.
  - intros p m'. rewrite take_app_length. intros [Hg Hin]%list_elem_of_filter.
    apply bool_decide_eq_true in Hg as [Hf Hl]. split; [exact Hl|]. by exists m'.
Qed.

Definition crypto (result : rte_buf) : RteCrypto := {|
  lib_state := unit; dev_state := nat * list ptr; dev_pending := snd;
  rte_crypto_op_bulk_alloc live n := Some (alloc_ops live n);
  rte_ipsec_pkt_crypto_prepare l _ m := (true, m, l);
  rte_cryptodev_enqueue_burst d ops := (length ops, (d.1, d.2 ++ ops));
  rte_cryptodev_dequeue_burst := poll result;
  rte_ipsec_pkt_crypto_group := single;
  rte_ipsec_pkt_process l _ ms := (finalize ms, l);
  alloc_law := simple_alloc_law;
  prepare_law _ _ _ := eq_refl;
  enqueue_law := simple_enqueue_law;
  dequeue_law := simple_dequeue_law result;
  group_law := simple_group_law;
  process_law _ _ := simple_process_law |}.

Import VnfExample.

Definition frame (proto : Z) (src dst : dp_ipv6) (payload : list Z) : rte_buf :=
  mk_buf (replicate 16 0) (replicate 14 0 ++ [0x60; 0; 0; 0; 0; 8; proto; 64] ++ ipv6_bytes src ++ ipv6_bytes dst ++ payload)
    (replicate 16 0).
Definition crypto_ports : port_table :=
  list_to_map [(0, host_port true false 0);
               (3, mk_port false 3 0 1 true 0 0 (mac 3) (mac 103) (set_iface_vni 100 blank_iface) false 0)].
Definition cenv : crypto_env := mk_crypto_env with_both crypto_ports one {[ 0 := 2 ]}.

Definition clear_packet : rte_mbuf :=
  mk_mbuf (frame IPPROTO_IPIP underlay peer inner) 3 0 0 0 0 0 0 0 dp_init_flow (mk_mark 1 false false).
Definition esp_packet : rte_mbuf :=
  mk_mbuf (frame 50 peer underlay ([0; 0; 0; 100; 0; 0; 0; 1] ++ inner)) 0 0 0 0 0 0 0 0
    (set_dst_vni 200 (set_nxt_hop 3 (set_tun_dst_resolved true dp_init_flow))) (mk_mark 2 false false).

#[local] Instance encrypting : RteCrypto := crypto (frame 50 underlay peer ([0; 0; 0; 7; 0; 0; 0; 1] ++ inner)).

(** One packet to process, on a device that answers after [latency] polls. *)
Definition burst (latency : nat) (x : rte_mbuf) : burst_state :=
  mk_burst {[ 1%positive := x ]} ∅ ∅ (latency, []) tt [].

Lemma example_sad : is_Some (dp_ipsec_sad with_both).
Proof.
  assert (match dp_ipsec_sad with_both with Some _ => true | None => false end = true) as H
    by (vm_compute; reflexivity).
  destruct (dp_ipsec_sad with_both); [by eexists | done].
Qed.

Lemma example_packet latency x (P : rte_mbuf -> Prop) : P x ->
  forall m, m ∈ [1%positive] -> exists y, mbufs (burst latency x) !! m = Some y /\ P y.
Proof. intros HP m ->%list_elem_of_singleton. by exists x. Qed.

Lemma clear_packet_ok : encap_input cenv clear_packet.
Proof. split; [by eexists; vm_compute | vm_compute; lia | by eexists; vm_compute]. Qed.


(** When the device has not answered after 32 polls, ipsec_encap returns
    the operations to their pool although the device still holds them. *)
Theorem slow_device_holds_freed_operations :
  exists op, (fun r => (fst r, dev_pending (device (snd r)), bool_decide (op ∈ live_ops (snd r))))
    <$> ipsec_encap_node_process cenv [1%positive] (burst 32 clear_packet)
  = Some ([IPSEC_ENCAP_NEXT_DROP], [op], false).
Proof. exists 2%positive. vm_compute. reflexivity. Qed.
End CryptoExample.

(** Decryption: the device leaves the decrypted frame. *)
Module DecryptExample.
Import Example TunnelExample VnfExample CryptoExample.
#[local] Instance decrypting : RteCrypto := crypto (frame IPPROTO_IPIP peer underlay inner).

Definition received : burst_state := mk_burst {[ 1%positive := esp_packet ]} ∅ ∅ (0%nat, []) tt [].

Lemma received_packets m : m ∈ [1%positive] -> is_Some (mbufs received !! m).
Proof. intros ->%list_elem_of_singleton. by eexists. Qed.

End DecryptExample.
