(* ===== verification/GrpcExamples.v ===== *)
(** The control plane on concrete states: witnesses, and behaviours that the
    requests do not mean to have. *)

From S2P Require Import Prelude Errors RteHash IpAddr Port Packet Ipsec IpsecProofs IpsecGrpc Vnf Firewall FlowKey Nat Flow Maglev Lb VirtsvcConn Rib Multipath Control Lpm LpmTheorems Iface Grpc GrpcFrames GrpcLedger GrpcCodes GrpcTheorems IpsecTheorems.

Module GrpcExample.
Export IpsecTheorems.Example.
#[export] Instance vnf_hash : RteHash dp_ipv6 dp_vnf := slot_hash (fun _ => 0).
#[export] Instance vnf_value_hash : RteHash dp_vnf dp_ipv6 := slot_hash (fun _ => 0).
#[export] Instance snat_hash : RteHash nat_key snat_data := slot_hash (fun _ => 0).
#[export] Instance dnat_hash : RteHash nat_key dnat_data := slot_hash (fun _ => 0).
#[export] Instance portmap_hash : RteHash netnat_portmap_key netnat_portmap_data := slot_hash (fun _ => 0).
#[export] Instance overload_hash : RteHash netnat_portoverload_tbl_key (option netnat_portoverload_sync_metadata) := slot_hash (fun _ => 0).
#[export] Instance flow_hash : RteHash flow_key ptr := slot_hash (fun _ => 0).
#[export] Instance lb_hash : RteHash lb_key ptr := slot_hash (fun _ => 0).
#[export] Instance lb_id_hash : RteHash (list Z) lb_key := slot_hash (fun _ => 0).
#[export] Instance conn_hash : RteHash dp_virtsvc_conn_key Z := slot_hash (fun _ => 0).
#[export] Instance rib4 : RteRib Z := map_rib Z 16.
#[export] Instance rib6 : RteRib dp_ipv6 := map_rib dp_ipv6 16.
#[export] Instance vni_hash : RteHash Z dp_vni_data := slot_hash (fun _ => 0).
#[export] Instance iface_hash : RteHash (list Z) Z := slot_hash (fun _ => 0).

(** ** A host with an uplink and two virtual functions *)

Definition free_port (pf alloc : bool) (n : Z) : dp_port := mk_port pf n 0 1 alloc 0 0 [] [] zero_iface false 0.
Definition zero_flow_key : flow_key := mk_flow_key (zero_pfx false) 0 0 (zero_pfx false) DP_VNF_TYPE_UNDEFINED 0 0.
Definition boot_ctl : ctl_state :=
  mk_ctl (list_to_map [(0, free_port true true 0); (1, free_port false false 1); (2, free_port false false 2)]) [0; 1; 2] [0]
    (slot_empty _ 4) (slot_empty _ 4) (mk_vnf_state (slot_empty _ 4) (slot_empty _ 4))
    (mk_flow_state (slot_empty _ 4) ∅ ∅ (mk_nat_state (slot_empty _ 4) (slot_empty _ 4) (slot_empty _ 4) (slot_empty _ 4) [] ∅ [])
       (zero_flow_key, zero_flow_key) false None None)
    (mk_lb_state (slot_empty _ 4) ∅ (slot_empty _ 4)) [] ∅ (mk_capture false dp_empty_ipv6 0 0) 0.
Definition boot (ipsec : bool) : service := mk_service boot_ctl (if ipsec then started else ipsec_boot).

(** The device is named by the number of its port. *)
Definition hw : port_hw :=
  mk_hw NIC_TYPE_MELLANOX true (fun name => head name) (fun _ => 0) (fun _ => 0) (fun _ => true) (fun _ => true) (fun _ => true)
    (fun _ => Some 1) (fun _ => true) (fun _ _ => 0) (fun _ => true) (fun _ => true) (fun _ _ => true).
Definition genv : grpc_env :=
  mk_grpc_env {| ENABLE_UNDERLAY_TYPE := true; ENABLE_STATIC_UNDERLAY_IP := false |} underlay 11 22
    (mk_vni_env true (fun _ => true) (fun _ => true)) hw true true true true true true (fun l => Some (next_addr l)) true (true, true)
    (fun _ => true) false 30 true.

Definition vm (name dev : Z) (ip : Z) (enc : bool) : dpgrpc_iface :=
  mk_grpc_iface [name] ip dp_empty_ipv6 100 (zero_pfx false) [] [] [dev] dp_empty_ipv6 100 50 enc.
Definition lb (name vip : Z) : dpgrpc_lb := mk_grpc_lb [name] (dp_set_ipaddr4 vip) 100 [mk_lb_port IPPROTO_TCP 80] dp_empty_ipv6.

(** Requests one after the other; the codes of the replies. *)
Fixpoint serve (rs : list grpc_request) (s : service) : option (list Z * service) :=
  match rs with
  | [] => Some ([], s)
  | r :: rs => '((code, _), s) ← dp_process_request genv env r s; '(codes, s) ← serve rs s; Some (code :: codes, s)
  end.
Definition codes_of (rs : list grpc_request) (s : service) : option (list Z) := fst <$> serve rs s.
Definition after (rs : list grpc_request) (s : service) : service := default s (snd <$> serve rs s).

Example first_run : codes_of [CreateInterface (vm 7 1 10 true); CreateInterface (vm 8 2 11 false); CreateLoadBalancer (lb 9 20); DeleteInterface [8]] (boot true)
  = Some [0; 0; 0; 0].
Proof. vm_compute. reflexivity. Qed.

(** ** Witnesses *)

Lemma boot_started ipsec : GrpcTheorems.started (boot ipsec).
Proof.
  split; [done|]. split; [done|]. split; [done|]. intros id p Hp%elem_of_list_to_map_2.
  cbn in Hp. repeat (apply elem_of_cons in Hp as [[= -> ->]|Hp]; [done|]). by apply not_elem_of_nil in Hp.
Qed.

Lemma served_after r s code : served s -> fresh_lb r s -> codes_of [r] s = Some [code] -> served (after [r] s).
Proof.
  intros Hs Hf Hx. unfold codes_of, after in *. cbn in *. destruct (dp_process_request genv env r s) as [[[c reply] s']|] eqn:E; [|done].
  cbn. by eapply served_request.
Qed.

Definition one_vm : service := after [CreateInterface (vm 7 1 10 false)] (boot true).
Definition vm_and_lb : service := after [CreateLoadBalancer (lb 9 20)] one_vm.

Lemma one_vm_served : served one_vm.
Proof. exact (served_after (CreateInterface (vm 7 1 10 false)) (boot true) 0 (served_start _ (boot_started true)) I ltac:(vm_compute; reflexivity)). Qed.
Lemma vm_and_lb_served : served vm_and_lb.
Proof.
  assert (fresh_lb (CreateLoadBalancer (lb 9 20)) one_vm) as Hf by (vm_compute; reflexivity).
  exact (served_after (CreateLoadBalancer (lb 9 20)) one_vm 0 one_vm_served Hf ltac:(vm_compute; reflexivity)).
Qed.


Definition port1 (s : service) : dp_port := default (free_port false false 1) (c_ports (s_ctl s) !! 1).

Definition now_protected : service := after [EnableInterfaceEncryption [7]] one_vm.
Lemma after_run r s reply : (fst <$> dp_process_request genv env r s) = Some reply -> dp_process_request genv env r s = Some (reply, after [r] s).
Proof.
  unfold after. cbn. destruct (dp_process_request genv env r s) as [[[c x] s']|]; cbn; [|done]. by intros [= <-].
Qed.
Lemma port1_there : c_ports (s_ctl one_vm) !! 1 = Some (port1 one_vm).
Proof. vm_compute. reflexivity. Qed.
Lemma port1_still_there : c_ports (s_ctl now_protected) !! 1 = Some (port1 now_protected).
Proof. vm_compute. reflexivity. Qed.
Lemma port1_before : encrypt (iface (port1 one_vm)) = false.
Proof. vm_compute. reflexivity. Qed.
Lemma port1_after : encrypt (iface (port1 now_protected)) = true.
Proof. vm_compute. reflexivity. Qed.

Lemma protection_changes_by_name_witness : may_protect one_vm (EnableInterfaceEncryption [7]) 1 (facts (port1 one_vm)).
Proof.
  pose proof (protection_changes_by_name genv env (EnableInterfaceEncryption [7]) one_vm (0, NoReply) now_protected
    1 (port1 one_vm) (port1 now_protected)) as H. rewrite port1_after, port1_before in H.
  apply H; [|apply port1_there | apply port1_still_there | discriminate].
  apply after_run. vm_compute. reflexivity.
Defined.

Definition first_vm : ctl_state := final (dp_process_create_interface genv (vm 7 1 10 false)) boot_ctl.
Lemma first_vm_code : fst <$> (fst <$> dp_process_create_interface genv (vm 7 1 10 false) boot_ctl) = Some DP_OK.
Proof. vm_compute. reflexivity. Qed.
Lemma boot_refs : lg_refs (ledger_of boot_ctl) = ∅.
Proof. vm_compute. reflexivity. Qed.

Lemma unknown_code : fst <$> grpc_dispatch (with_ipsec genv (boot true)) env (GetInterface [5]) (boot true) = Some (DP_GRPC_ERR NOT_FOUND, Iface None).
Proof. vm_compute. reflexivity. Qed.
Lemma replies_have_codes_witness : exists s', dp_process_request genv env (GetInterface [5]) (boot true) = Some ((201, Iface None), s').
Proof.
  pose proof unknown_code as Hc. destruct (grpc_dispatch (with_ipsec genv (boot true)) env (GetInterface [5]) (boot true)) as [[b s']|] eqn:E; [|discriminate Hc].
  injection Hc as Hb. destruct (replies_have_codes genv env (GetInterface [5]) (boot true) b s' E) as (code & H & Hc).
  exists s'. rewrite Hb in H, Hc. destruct Hc as [[_ Hc]|(err & He & ->)]; [by apply dp_grpc_err_not_ok in Hc|].
  by apply dp_grpc_err_inj in He as <-.
Defined.

(** A route for the second /8 of the guest's network. *)
Lemma new_route_code : fst <$> dp_add_route (free_port true true 0) 100 200 0x0b000000 peer 8 (s_ctl one_vm) = Some DP_OK.
Proof. vm_compute. reflexivity. Qed.
Lemma no_route_yet dst : dst ∈ [0x0b010203; 0x0c010203] -> route4 (s_ctl one_vm) 100 dst = None.
Proof. intros H. repeat (apply elem_of_cons in H as [->|H]; [vm_compute; reflexivity|]). by apply not_elem_of_nil in H. Qed.

Lemma route_added_exactly_witness :
  exists st' nd, dp_add_route (free_port true true 0) 100 200 0x0b000000 peer 8 (s_ctl one_vm) = Some (DP_OK, st') /\
    rib_ext nd = mk_route 200 peer /\ route4 st' 100 0x0b010203 = Some (0x0b000000, 8, nd) /\ route4 st' 100 0x0c010203 = None.
Proof.
  pose proof new_route_code as Hc.
  destruct (dp_add_route (free_port true true 0) 100 200 0x0b000000 peer 8 (s_ctl one_vm)) as [[ret st']|] eqn:E; [|discriminate Hc].
  injection Hc as ->. destruct (route_added_exactly _ _ _ _ _ _ _ _ _ E) as [[Hne _]|(_ & nd & _ & Hext & Hr & _)]; [done|].
  exists st', nd. split; [done|]. split; [by apply Hext|]. rewrite !Hr. change (100 =? 100) with true. cbv iota.
  rewrite !no_route_yet by (rewrite !elem_of_cons; auto). split; reflexivity.
Defined.

(** ** What requests should not do *)

(** Packet capture that was started cannot be stopped: stopping turns the capture
    on again for each captured port, which fails since it is on. *)
Example capture_never_stops :
  codes_of [CreateInterface (vm 7 1 10 false); CaptureStart (mk_grpc_capture underlay 1 2 [CAPTURE_VF [7]] false); CaptureStop] (boot true)
  = Some [0; 0; grpc_err_number ALREADY_ACTIVE].
Proof. vm_compute. reflexivity. Qed.

(** A capture that names an unknown interface reads through a null pointer to
    report it. *)
Example capture_unknown_crashes : codes_of [CaptureStart (mk_grpc_capture underlay 1 2 [CAPTURE_VF [7]] false)] (boot true) = None.
Proof. vm_compute. reflexivity. Qed.

(** A load balancer with the identifier of another takes its place; the first
    one cannot be removed any more and keeps its network alive. *)
Definition two_lbs : service := after [CreateLoadBalancer (lb 9 20); CreateLoadBalancer (lb 9 21); DeleteLoadBalancer [9]] (boot true).
Example lb_identifier_reused :
  codes_of [CreateLoadBalancer (lb 9 20); CreateLoadBalancer (lb 9 21); DeleteLoadBalancer [9]; DeleteLoadBalancer [9]] (boot true)
    = Some [0; 0; 0; grpc_err_number NOT_FOUND] /\
  size (hash_view (lb_table (c_lb (s_ctl two_lbs)))) = 1%nat /\ vd_ref <$> vnis (s_ctl two_lbs) !! 100 = Some 1.
Proof. vm_compute. auto. Qed.

(** Two interfaces without an IPv4 address: resetting their network tries to
    install the route of the zero address twice. *)
Definition vm6 (name dev lo : Z) : dpgrpc_iface :=
  mk_grpc_iface [name] 0 (mk_ipv6 5 lo) 100 (zero_pfx false) [] [] [dev] dp_empty_ipv6 100 50 false.
Example reset_of_ipv6_network_fails :
  codes_of [CreateInterface (vm6 7 1 1); CreateInterface (vm6 8 2 2); ResetVni (mk_grpc_vni 100 DP_VNI_BOTH)] (boot true)
  = Some [0; 0; grpc_err_number ROUTE_EXISTS].
Proof. vm_compute. reflexivity. Qed.

(** The rate of the meter for public traffic is computed in 32 bits, after
    dividing by eight. *)
Example meter_rate_lost : meter_cir (public_meter_params 32768) = 0 /\ meter_cir (public_meter_params 7) = 0 /\ meter_cir (public_meter_params 15) = 1048576.
Proof. vm_compute. auto. Qed.

(** The meter cannot be set up, and the request succeeds all the same. *)
Definition no_meter : port_hw :=
  mk_hw NIC_TYPE_MELLANOX true (fun name => head name) (fun _ => 0) (fun _ => 0) (fun _ => true) (fun _ => true) (fun _ => true)
    (fun _ => Some 1) (fun _ => true) (fun _ _ => 0) (fun _ => false) (fun _ => true) (fun _ _ => true).
Definition metered : option (Z * ctl_state) := dp_port_meter_config no_meter 1 100 50 boot_ctl.
Example meter_failure_hidden :
  fst <$> metered = Some DP_OK /\ (fun r => c_meters (snd r)) <$> metered = Some ∅ /\
  (fun r => (fun p => total_flow_rate_cap (iface p)) <$> c_ports (snd r) !! 1) <$> metered = Some (Some 0).
Proof. vm_compute. auto. Qed.

(** An interface whose port cannot be stopped is gone, but the port stays taken. *)
Definition stuck : port_hw :=
  mk_hw NIC_TYPE_MELLANOX true (fun name => head name) (fun _ => 0) (fun _ => -1) (fun _ => true) (fun _ => true) (fun _ => true)
    (fun _ => Some 1) (fun _ => true) (fun _ _ => 0) (fun _ => true) (fun _ => true) (fun _ _ => true).
Definition stuck_env : grpc_env :=
  mk_grpc_env (ge_ul genv) underlay 11 22 (ge_vni genv) stuck true true true true true true (fun l => Some (next_addr l)) true (true, true)
    (fun _ => true) false 30 true.
Definition deleted : option ((Z * grpc_reply) * service) := dp_process_request stuck_env env (DeleteInterface [7]) one_vm.
Example port_lost_on_failed_stop :
  (fun r => fst (fst r)) <$> deleted = Some (grpc_err_number PORT_STOP) /\
  (fun r => codes_of [GetInterface [7]; CreateInterface (vm 7 1 10 false)] (snd r)) <$> deleted
    = Some (Some [grpc_err_number NOT_FOUND; grpc_err_number ALREADY_EXISTS]).
Proof. vm_compute. auto. Qed.

(** A request for an interface that fails at its last step removes the entries of
    neighbours in a network that nothing else uses. *)
Definition no_start : port_hw :=
  mk_hw NIC_TYPE_MELLANOX true (fun name => head name) (fun _ => -1) (fun _ => 0) (fun _ => true) (fun _ => true) (fun _ => true)
    (fun _ => Some 1) (fun _ => true) (fun _ _ => 0) (fun _ => true) (fun _ => true) (fun _ _ => true).
Definition no_start_env : grpc_env :=
  mk_grpc_env (ge_ul genv) underlay 11 22 (ge_vni genv) no_start true true true true true true (fun l => Some (next_addr l)) true (true, true)
    (fun _ => true) false 30 true.
Definition neighbour : dpgrpc_nat := mk_grpc_nat [] (dp_set_ipaddr4 30) 100 200 100 peer dp_empty_ipv6.
Definition with_neighbour : service := after [CreateNeighborNat neighbour] (boot true).
Definition entries (s : service) : nat := length (neighnat_head (c_nat (s_ctl s))).
Example failed_creation_wipes_neighbours :
  entries with_neighbour = 1%nat /\
  (fun r => (fst (fst r), entries (snd r))) <$> dp_process_request no_start_env env (CreateInterface (vm 7 1 10 false)) with_neighbour
    = Some (grpc_err_number PORT_START, 0%nat).
Proof. vm_compute. auto. Qed.
End GrpcExample.
