(* ===== verification/Sync.v ===== *)
(** High availability: the messages between the active instance and its backup
    ([src/dp_sync.c], [include/dp_sync.h]), the node that receives them
    ([src/nodes/sync_node.c]), the ports' part of it ([src/dp_port.c]) and the
    change from backup to active ([graph_main_loop] of [src/dpdk_layer.c]).

    Messages are the bytes on the wire, with the layout of the packed structures;
    both instances run on one machine, so numbers are in its byte order. *)

From S2P Require Import Prelude Errors RteHash IpAddr Port Packet Ipsec Vnf FlowKey Nat Flow Cntrack Maglev Lb Virtsvc VirtsvcConn Rib Control.

(** ** Messages *)

Definition DP_SYNC_ETHERTYPE : Z := 0x88B5.
Definition DP_SYNC_MSG_NAT_CREATE : Z := 1.
Definition DP_SYNC_MSG_NAT_DELETE : Z := 2.
Definition DP_SYNC_MSG_VIRTSVC_CONN : Z := 3.
Definition DP_SYNC_MSG_PORT_MAC : Z := 4.
Definition DP_SYNC_MSG_REQUEST_DUMP : Z := 5.

Definition sync_mac_src : list Z := [0x02; 100; 112; 115; 0; 1].
Definition sync_mac_dst : list Z := [0x02; 100; 112; 115; 0; 2].

Definition sizeof_dp_sync_hdr : nat := 1.
Definition DP_SYNC_HEADERS_LEN : nat := (sizeof_ether + sizeof_dp_sync_hdr)%nat.

(** The keys as they lie in memory. *)
Definition portmap_key_bytes (k : netnat_portmap_key) : list Z :=
  le_split 4 (pk_vni k) ++ ipv6_bytes (ipv6 (pk_src_ip k)) ++ [Z.b2z (is_v6 (pk_src_ip k))] ++ le_split 2 (pk_iface_src_port k).
Definition portoverload_key_bytes (k : netnat_portoverload_tbl_key) : list Z :=
  le_split 4 (po_nat_ip k) ++ le_split 2 (po_nat_port k) ++ le_split 4 (po_dst_ip k) ++ le_split 2 (po_dst_port k)
    ++ le_split 1 (po_l4_type k).

(** What the library does with packet number [n]: whether there is a buffer,
    whether it has room, whether it can be sent. *)
Record sync_env := mk_sync_env {
  se_alloc : nat -> bool; se_append : nat -> nat -> bool; se_tx : nat -> bool; se_port_id : Z
}.

(** Packets asked for, and those that left, with the port they left by. *)
Record sync_out := mk_sync_out { so_count : nat; so_wire : list (Z * list Z) }.

Abbreviation OM := (M sync_out).

Section send.
Context `{ERR : RteErrno} (se : sync_env).

Definition dp_sync_alloc_message (msg_type : Z) (payload_len : nat) : OM (option (list Z)) :=
  n ← gets so_count;
  modify (fun o => mk_sync_out (S n) (so_wire o)) ;;
  if negb (se_alloc se n) then mret None
  else if negb (se_append se n (DP_SYNC_HEADERS_LEN + payload_len)%nat) then mret None
  else mret (Some (sync_mac_dst ++ sync_mac_src ++ le_split 2 (htons DP_SYNC_ETHERTYPE) ++ le_split 1 msg_type)).

Definition dp_sync_send_message (pkt : list Z) : OM Z :=
  n ← gets so_count;
  (if se_tx se n then modify (fun o => mk_sync_out (so_count o) (so_wire o ++ [(se_port_id se, pkt)])) else mret tt) ;;
  mret DP_OK.

(** A message is its headers and the structure behind them. *)
Definition send_payload (msg_type : Z) (payload : list Z) : OM Z :=
  pkt ← dp_sync_alloc_message msg_type (length payload);
  match pkt with
  | None => mret DP_ERROR
  | Some hdrs => dp_sync_send_message (hdrs ++ payload)
  end.

Definition dp_sync_send_nat_create (pk : netnat_portmap_key) (po : netnat_portoverload_tbl_key)
    (created_port_id icmp_type_src icmp_err_ip_cksum : Z) : OM Z :=
  send_payload DP_SYNC_MSG_NAT_CREATE
    (portmap_key_bytes pk ++ portoverload_key_bytes po ++ le_split 2 created_port_id ++ le_split 2 icmp_type_src
       ++ le_split 2 icmp_err_ip_cksum).

Definition dp_sync_send_nat_delete (pk : netnat_portmap_key) (po : netnat_portoverload_tbl_key) : OM Z :=
  send_payload DP_SYNC_MSG_NAT_DELETE (portmap_key_bytes pk ++ portoverload_key_bytes po).

Definition dp_sync_send_virtsvc_conn (virtsvc : dp_virtsvc) (conn_port vf_ip vf_l4_port vf_port_id : Z) : OM Z :=
  send_payload DP_SYNC_MSG_VIRTSVC_CONN
    (le_split 4 (virtual_addr virtsvc) ++ le_split 2 (virtual_port virtsvc) ++ le_split 2 conn_port ++ le_split 4 vf_ip
       ++ le_split 2 vf_l4_port ++ le_split 2 vf_port_id ++ le_split 1 (virtsvc_proto virtsvc)).

Definition dp_sync_send_mac (port_id : Z) (mac : list Z) : OM Z :=
  send_payload DP_SYNC_MSG_PORT_MAC (le_split 2 port_id ++ mac).

Definition dp_sync_send_request_dump : OM Z := send_payload DP_SYNC_MSG_REQUEST_DUMP [].

(** The messages the NAT component asks for; failures are ignored. *)
Definition send_nat_sync (msg : nat_sync) : OM Z :=
  match msg with
  | SyncNatCreate pk po created icmp_type_src cksum => dp_sync_send_nat_create pk po created icmp_type_src cksum
  | SyncNatDelete pk po => dp_sync_send_nat_delete pk po
  end.

Fixpoint send_all {A} (send : A -> OM Z) (l : list A) : OM unit :=
  match l with
  | [] => mret tt
  | a :: l => send a ;; send_all send l
  end.

(** Over all services, each connection in use. *)
Fixpoint dp_synchronize_virtsvc_connections {OP : RteHash dp_virtsvc_conn_key Z} (services : list virtsvc_data) : OM unit :=
  match services with
  | [] => mret tt
  | s :: services =>
      send_all (fun '(conn_port, ip, l4_port, port_id) => dp_sync_send_virtsvc_conn (vs_service s) conn_port ip l4_port port_id)
        (sync_messages s) ;;
      dp_synchronize_virtsvc_connections services
  end.
End send.

(** ** The instance *)

Section sync.
Context `{ERR : RteErrno} {HT : RteHash dp_ipv6 dp_vnf} {VT : RteHash dp_vnf dp_ipv6}
  {ST : RteHash nat_key snat_data} {DT : RteHash nat_key dnat_data}
  {PM : RteHash netnat_portmap_key netnat_portmap_data}
  {PO : RteHash netnat_portoverload_tbl_key (option netnat_portoverload_sync_metadata)}
  {FT : RteHash flow_key ptr} {LT : RteHash lb_key ptr} {IT : RteHash (list Z) lb_key} {OP : RteHash dp_virtsvc_conn_key Z}
  {R4 : RteRib Z} {R6 : RteRib dp_ipv6} {NT : RteHash Z dp_vni_data} {IF : RteHash (list Z) Z}.

Record instance := mk_instance { in_ctl : ctl_state; backup_mode : bool; in_out : sync_out }.
Abbreviation XM := (M instance).

Definition on_ctl {A} (f : M ctl_state A) : XM A := fun x =>
  match f (in_ctl x) with Some (a, st) => Some (a, mk_instance st (backup_mode x) (in_out x)) | None => None end.
Definition on_out {A} (f : OM A) : XM A := fun x =>
  match f (in_out x) with Some (a, o) => Some (a, mk_instance (in_ctl x) (backup_mode x) o) | None => None end.
Definition on_virtsvc {A} (f : M (list virtsvc_data) A) : M ctl_state A := fun st =>
  match f (c_virtsvc st) with Some (a, l) => Some (a, set_c_virtsvc l st) | None => None end.

(** The memory the library finds for a message, the clock, and the services'
    search tree. *)
Record node_env := mk_node_env {
  ne_malloc : bool; ne_zmalloc : bool; ne_conn : conn_env; ne_tree : dp_virtsvc_lookup_entry; ne_send : sync_env
}.
Implicit Types (e : node_env) (b : rte_buf).

(** *** Ports *)

Definition set_neigh_mac_of (ok : dp_port -> bool) (id : Z) (mac : list Z) : M ctl_state Z :=
  ports ← gets c_ports;
  match dp_get_port_by_id ports id with
  | None => mret DP_ERROR
  | Some port => if negb (ok port) then mret DP_ERROR else upd_port id (set_neigh_mac mac) ;; mret DP_OK
  end.

Definition dp_set_pf_neigh_mac (id : Z) (mac : list Z) : M ctl_state Z := set_neigh_mac_of is_pf id mac.
Definition dp_set_port_sync_neigh_mac (id : Z) (mac : list Z) : M ctl_state Z :=
  set_neigh_mac_of (fun port => negb (is_pf port)) id mac.

(** Whether messages are wanted at all is not asked. *)
Definition dp_l2_addr_set e (id : Z) (l2_addr : list Z) : XM unit :=
  port ← on_ctl (get_port id);
  if bool_decide (l2_addr = neigh_mac port) then mret tt
  else
    on_ctl (upd_port id (set_neigh_mac l2_addr)) ;;
    on_out (dp_sync_send_mac (ne_send e) (port_id port) l2_addr) ;;
    mret tt.

Fixpoint neigh_macs_loop e (ids : list Z) : XM unit :=
  match ids with
  | [] => mret tt
  | id :: ids =>
      port ← on_ctl (get_port id);
      (if negb (is_pf port) && allocated port
       then on_out (dp_sync_send_mac (ne_send e) (port_id port) (neigh_mac port)) ;; mret tt
       else mret tt) ;;
      neigh_macs_loop e ids
  end.
Definition dp_synchronize_port_neigh_macs e : XM unit := ids ← on_ctl (gets c_order); neigh_macs_loop e ids.

(** *** Receiving *)

Definition get_le b (off n : nat) : XM Z := get_some (read_le b off n).
Definition get_bytes b (off n : nat) : XM (list Z) := get_some (read_bytes b off n).
(** A byte other than 0 and 1 is no [bool]. *)
Definition get_bool b (off : nat) : XM bool :=
  x ← get_le b off 1; if x =? 0 then mret false else if x =? 1 then mret true else ub.

Definition get_portmap_key b (off : nat) : XM netnat_portmap_key :=
  vni ← get_le b off 4;
  addr ← get_some (read_ipv6 b (off + 4));
  v6 ← get_bool b (off + 20);
  port ← get_le b (off + 21) 2;
  mret (mk_portmap_key vni (mk_ipaddr addr v6) port).
Definition get_portoverload_key b (off : nat) : XM netnat_portoverload_tbl_key :=
  nat_ip ← get_le b off 4;
  nat_port ← get_le b (off + 4) 2;
  dst_ip ← get_le b (off + 6) 4;
  dst_port ← get_le b (off + 10) 2;
  l4 ← get_le b (off + 12) 1;
  mret (mk_overload_key nat_ip nat_port dst_ip dst_port l4).

(** The answer to a request: the NAT component notes what it sends, and that is
    put on the wire. *)
Definition send_dump e : XM unit :=
  old ← on_ctl (gets (fun st => nat_sync_out (c_nat st)));
  on_ctl (on_flows (dp_synchronize_local_nat_flows DP_OK)) ;;
  new ← on_ctl (gets (fun st => nat_sync_out (c_nat st)));
  on_out (send_all (send_nat_sync (ne_send e)) (drop (length old) new)) ;;
  services ← on_ctl (gets c_virtsvc);
  on_out (dp_synchronize_virtsvc_connections (ne_send e) services) ;;
  dp_synchronize_port_neigh_macs e.

Definition receive_nat_create e b (off : nat) : XM unit :=
  pk ← get_portmap_key b off;
  po ← get_portoverload_key b (off + 23);
  created ← get_le b (off + 36) 2;
  icmp_type_src ← get_le b (off + 38) 2;
  cksum ← get_le b (off + 40) 2;
  on_ctl (on_nat_tables (dp_allocate_sync_snat_port (ne_malloc e) (ne_zmalloc e) pk po created icmp_type_src cksum)) ;;
  mret tt.

Definition receive_nat_delete b (off : nat) : XM unit :=
  pk ← get_portmap_key b off;
  po ← get_portoverload_key b (off + 23);
  on_ctl (on_nat_tables (dp_remove_sync_snat_port pk po)) ;;
  mret tt.

Definition receive_virtsvc_conn e b (off : nat) : XM unit :=
  addr ← get_le b off 4;
  port ← get_le b (off + 4) 2;
  conn_port ← get_le b (off + 6) 2;
  ip ← get_le b (off + 8) 4;
  l4_port ← get_le b (off + 12) 2;
  port_id ← get_le b (off + 14) 2;
  proto ← get_le b (off + 16) 1;
  on_ctl (on_virtsvc (dp_virtsvc_open_sync_connection (ne_conn e) (ne_tree e) addr port proto ip l4_port port_id conn_port)) ;;
  mret tt.

Definition receive_port_mac b (off : nat) : XM unit :=
  id ← get_le b off 2;
  mac ← get_bytes b (off + 2) 6;
  on_ctl (dp_set_port_sync_neigh_mac id mac) ;;
  mret tt.

(** The length of the packet is not looked at. *)
Definition process_packet e b : XM unit :=
  ether_type ← get_le b 12 2;
  if negb (ether_type =? htons DP_SYNC_ETHERTYPE) then mret tt
  else
    msg_type ← get_le b sizeof_ether 1;
    backup ← gets backup_mode;
    if msg_type =? DP_SYNC_MSG_REQUEST_DUMP then if negb backup then send_dump e else mret tt
    else if msg_type =? DP_SYNC_MSG_NAT_CREATE then
      if negb backup then mret tt else receive_nat_create e b DP_SYNC_HEADERS_LEN
    else if msg_type =? DP_SYNC_MSG_NAT_DELETE then
      if negb backup then mret tt else receive_nat_delete b DP_SYNC_HEADERS_LEN
    else if msg_type =? DP_SYNC_MSG_VIRTSVC_CONN then
      if negb backup then mret tt else receive_virtsvc_conn e b DP_SYNC_HEADERS_LEN
    else if msg_type =? DP_SYNC_MSG_PORT_MAC then
      if negb backup then mret tt else receive_port_mac b DP_SYNC_HEADERS_LEN
    else mret tt.

Fixpoint process_burst (e : node_env) (pkts : list rte_buf) : XM unit :=
  match pkts with
  | [] => mret tt
  | pkt :: pkts => process_packet e pkt ;; process_burst e pkts
  end.

(** [bursts] are what the port has to offer, one burst per call: a backup reads
    until there is nothing left.  With the result comes what was not read. *)
Fixpoint sync_node_process (e : node_env) (bursts : list (list rte_buf)) : XM (Z * list (list rte_buf)) :=
  match bursts with
  | [] => mret (0, [])
  | pkts :: bursts =>
      if (length pkts =? 0)%nat then mret (0, bursts)
      else
        process_burst e pkts ;;
        backup ← gets backup_mode;
        if negb backup then mret (Z.of_nat (length pkts), bursts) else sync_node_process e bursts
  end.

(** *** Taking over *)

Definition sync_node_switch_mode : XM unit := modify (fun x => mk_instance (in_ctl x) false (in_out x)).

Definition take_over (ce : cntrack_env) : XM Z :=
  sync_node_switch_mode ;; on_ctl (on_flows (dp_create_sync_snat_flows ce)).
End sync.
