(* ===== verification/SyncTheorems.v ===== *)
(** The messages between two instances: what is sent is what is understood, and
    a backup that receives them keeps the same NAT tables as the active
    instance. *)

From S2P Require Import Prelude Errors RteHash IpAddr Port Packet Ipsec Vnf FlowKey Nat NatTheorems Flow Cntrack Maglev Lb Virtsvc VirtsvcConn Rib Control Sync.

(** ** Bytes in a buffer *)

(** The bytes [bs] lie at [off] in the memory of the buffer. *)
Definition lies (b : rte_buf) (off : nat) (bs : list Z) : Prop :=
  exists pre post, memory b = pre ++ bs ++ post /\ length pre = off.

Lemma lies_app b off x y : lies b off (x ++ y) -> lies b off x /\ lies b (off + length x) y.
Proof.
  intros (pre & post & Hm & Hl). split.
  - exists pre, (y ++ post). by rewrite Hm, <-app_assoc.
  - exists (pre ++ x), post. rewrite Hm, length_app, Hl, <-!app_assoc. done.
Qed.

Lemma lies_at b o o' bs : lies b o bs -> o' = o -> lies b o' bs.
Proof. by intros ? ->. Qed.

Lemma lies_start b bs tail : memory b = bs ++ tail -> lies b 0 bs.
Proof. intros Hm. by exists [], tail. Qed.

Lemma lies_read b off bs : lies b off bs -> read_bytes b off (length bs) = Some bs.
Proof.
  intros (pre & post & Hm & <-). unfold read_bytes. rewrite decide_True.
  - unfold bytes_at. by rewrite Hm, drop_app_length, take_app_length.
  - rewrite Hm, !length_app. lia.
Qed.

Lemma lies_read_le b off n x : lies b off (le_split n x) -> 0 <= x < 256 ^ Z.of_nat n -> read_le b off n = Some x.
Proof.
  intros Hl Hx. apply lies_read in Hl. rewrite length_le_split in Hl. unfold read_le. rewrite Hl. cbn.
  by rewrite le_join_split, Z.mod_small.
Qed.

(** Splits [lies] of a concatenation into its fields. *)
Ltac lies_split H :=
  lazymatch type of H with
  | lies _ _ (_ ++ _) =>
      let H1 := fresh "L" in let H2 := fresh "L" in
      apply lies_app in H as [H1 H2]; lies_split H1; lies_split H2
  | _ => rewrite ?length_le_split in H
  end.

(** ** Contents of messages *)

Inductive sync_msg :=
| MsgNat (msg : nat_sync)
| MsgVirtsvc (virtsvc : dp_virtsvc) (conn_port ip l4_port port_id : Z)
| MsgMac (port_id : Z) (mac : list Z)
| MsgRequest.

(** The values of the keys' C types. *)
Definition portmap_key_ok (k : netnat_portmap_key) : Prop :=
  is_u32 (pk_vni k) /\ ipv6_ok (ipv6 (pk_src_ip k)) /\ is_u16 (pk_iface_src_port k).
Definition overload_key_ok (k : netnat_portoverload_tbl_key) : Prop :=
  is_u32 (po_nat_ip k) /\ is_u16 (po_nat_port k) /\ is_u32 (po_dst_ip k) /\ is_u16 (po_dst_port k) /\ is_u8 (po_l4_type k).
Definition nat_sync_ok (msg : nat_sync) : Prop :=
  match msg with
  | SyncNatCreate pk po created icmp_type cksum =>
      portmap_key_ok pk /\ overload_key_ok po /\ is_u16 created /\ is_u16 icmp_type /\ is_u16 cksum
  | SyncNatDelete pk po => portmap_key_ok pk /\ overload_key_ok po
  end.
Definition sync_msg_ok (m : sync_msg) : Prop :=
  match m with
  | MsgNat msg => nat_sync_ok msg
  | MsgVirtsvc v conn_port ip l4_port port_id =>
      is_u32 (virtual_addr v) /\ is_u16 (virtual_port v) /\ is_u8 (virtsvc_proto v)
      /\ is_u16 conn_port /\ is_u32 ip /\ is_u16 l4_port /\ is_u16 port_id
  | MsgMac port_id mac => is_u16 port_id /\ length mac = 6%nat
  | MsgRequest => True
  end.

Definition msg_type (m : sync_msg) : Z :=
  match m with
  | MsgNat (SyncNatCreate _ _ _ _ _) => DP_SYNC_MSG_NAT_CREATE
  | MsgNat (SyncNatDelete _ _) => DP_SYNC_MSG_NAT_DELETE
  | MsgVirtsvc _ _ _ _ _ => DP_SYNC_MSG_VIRTSVC_CONN
  | MsgMac _ _ => DP_SYNC_MSG_PORT_MAC
  | MsgRequest => DP_SYNC_MSG_REQUEST_DUMP
  end.
Definition msg_payload (m : sync_msg) : list Z :=
  match m with
  | MsgNat (SyncNatCreate pk po created icmp_type cksum) =>
      portmap_key_bytes pk ++ portoverload_key_bytes po ++ le_split 2 created ++ le_split 2 icmp_type ++ le_split 2 cksum
  | MsgNat (SyncNatDelete pk po) => portmap_key_bytes pk ++ portoverload_key_bytes po
  | MsgVirtsvc v conn_port ip l4_port port_id =>
      le_split 4 (virtual_addr v) ++ le_split 2 (virtual_port v) ++ le_split 2 conn_port ++ le_split 4 ip
        ++ le_split 2 l4_port ++ le_split 2 port_id ++ le_split 1 (virtsvc_proto v)
  | MsgMac port_id mac => le_split 2 port_id ++ mac
  | MsgRequest => []
  end.
Definition msg_frame (m : sync_msg) : list Z :=
  sync_mac_dst ++ sync_mac_src ++ le_split 2 (htons DP_SYNC_ETHERTYPE) ++ le_split 1 (msg_type m) ++ msg_payload m.

Section sync.
Context `{ERR : RteErrno} {HT : RteHash dp_ipv6 dp_vnf} {VT : RteHash dp_vnf dp_ipv6}
  {ST : RteHash nat_key snat_data} {DT : RteHash nat_key dnat_data}
  {PM : RteHash netnat_portmap_key netnat_portmap_data}
  {PO : RteHash netnat_portoverload_tbl_key (option netnat_portoverload_sync_metadata)}
  {FT : RteHash flow_key ptr} {LT : RteHash lb_key ptr} {IT : RteHash (list Z) lb_key} {OP : RteHash dp_virtsvc_conn_key Z}
  {R4 : RteRib Z} {R6 : RteRib dp_ipv6} {NT : RteHash Z dp_vni_data} {IF : RteHash (list Z) Z}.
Implicit Types (e : node_env) (b : rte_buf) (x : instance) (m : sync_msg).

Definition send_msg (se : sync_env) m : M sync_out Z :=
  match m with
  | MsgNat msg => send_nat_sync se msg
  | MsgVirtsvc v conn_port ip l4_port port_id => dp_sync_send_virtsvc_conn se v conn_port ip l4_port port_id
  | MsgMac port_id mac => dp_sync_send_mac se port_id mac
  | MsgRequest => dp_sync_send_request_dump se
  end.

(** What a message asks of a backup, and a request of the active instance. *)
Definition msg_effect e m : M instance unit := fun x =>
  if backup_mode x then
    match m with
    | MsgNat (SyncNatCreate pk po created icmp_type cksum) =>
        (on_ctl (on_nat_tables (dp_allocate_sync_snat_port (ne_malloc e) (ne_zmalloc e) pk po created icmp_type cksum)) ;; mret tt) x
    | MsgNat (SyncNatDelete pk po) => (on_ctl (on_nat_tables (dp_remove_sync_snat_port pk po)) ;; mret tt) x
    | MsgVirtsvc v conn_port ip l4_port port_id =>
        (on_ctl (on_virtsvc (dp_virtsvc_open_sync_connection (ne_conn e) (ne_tree e) (virtual_addr v) (virtual_port v)
           (virtsvc_proto v) ip l4_port port_id conn_port)) ;; mret tt) x
    | MsgMac port_id mac => (on_ctl (dp_set_port_sync_neigh_mac port_id mac) ;; mret tt) x
    | MsgRequest => Some (tt, x)
    end
  else match m with MsgRequest => send_dump e x | _ => Some (tt, x) end.

(** *** Decoding *)

Lemma get_le_lies b off n v x : lies b off (le_split n v) -> 0 <= v < 256 ^ Z.of_nat n -> get_le b off n x = Some (v, x).
Proof. intros Hl Hv. unfold get_le. by rewrite (lies_read_le b off n v). Qed.

Lemma get_bytes_lies b off n bs x : lies b off bs -> n = length bs -> get_bytes b off n x = Some (bs, x).
Proof. intros Hl ->. unfold get_bytes. by rewrite (lies_read b off bs). Qed.

Lemma get_ipv6_lies b off a x : lies b off (ipv6_bytes a) -> ipv6_ok a ->
  get_some (S := instance) (read_ipv6 b off) x = Some (a, x).
Proof.
  intros Hl Ha. apply lies_read in Hl. unfold read_ipv6.
  replace (length (ipv6_bytes a)) with 16%nat in Hl by (unfold ipv6_bytes; by rewrite length_app, !length_le_split).
  rewrite Hl. cbn -[ipv6_of_bytes ipv6_bytes]. by rewrite ipv6_bytes_roundtrip.
Qed.

Lemma get_bool_lies b off (v : bool) x : lies b off (le_split 1 (Z.b2z v)) -> get_bool b off x = Some (v, x).
Proof.
  intros Hl. unfold get_bool. erewrite M_bind_Some; [|apply (get_le_lies b off 1 (Z.b2z v)); [done | by destruct v]].
  by destruct v.
Qed.
End sync.

(** Finds the field at an offset. *)
Ltac at_field :=
  match goal with
  | H : lies ?b ?o ?bs |- lies ?b ?o' _ =>
      refine (lies_at _ _ _ _ H _); unfold DP_SYNC_HEADERS_LEN, sizeof_ether, sizeof_dp_sync_hdr; lia
  end.
(** Reads the next field. *)
Ltac take_field :=
  erewrite M_bind_Some;
  [|first [ eapply get_le_lies; [at_field | assumption]
          | eapply get_bool_lies; at_field
          | eapply get_ipv6_lies; [at_field | assumption]
          | eapply get_bytes_lies; [at_field | done] ]].

Section decode.
Context `{ERR : RteErrno} {HT : RteHash dp_ipv6 dp_vnf} {VT : RteHash dp_vnf dp_ipv6}
  {ST : RteHash nat_key snat_data} {DT : RteHash nat_key dnat_data}
  {PM : RteHash netnat_portmap_key netnat_portmap_data}
  {PO : RteHash netnat_portoverload_tbl_key (option netnat_portoverload_sync_metadata)}
  {FT : RteHash flow_key ptr} {LT : RteHash lb_key ptr} {IT : RteHash (list Z) lb_key} {OP : RteHash dp_virtsvc_conn_key Z}
  {R4 : RteRib Z} {R6 : RteRib dp_ipv6} {NT : RteHash Z dp_vni_data} {IF : RteHash (list Z) Z}.
Implicit Types (e : node_env) (b : rte_buf) (x : instance) (m : sync_msg).

Lemma length_portmap_key k : length (portmap_key_bytes k) = 23%nat.
Proof. unfold portmap_key_bytes, ipv6_bytes. by rewrite !length_app, !length_le_split. Qed.

Lemma length_overload_key k : length (portoverload_key_bytes k) = 13%nat.
Proof. unfold portoverload_key_bytes. by rewrite !length_app, !length_le_split. Qed.

Lemma get_portmap_key_lies b off k x :
  lies b off (portmap_key_bytes k) -> portmap_key_ok k -> get_portmap_key b off x = Some (k, x).
Proof.
  intros Hl (Hv & Ha & Hp). unfold portmap_key_bytes in Hl.
  assert ([Z.b2z (is_v6 (pk_src_ip k))] = le_split 1 (Z.b2z (is_v6 (pk_src_ip k)))) as E by (by destruct (is_v6 _)).
  rewrite E in Hl. assert (length (ipv6_bytes (ipv6 (pk_src_ip k))) = 16%nat) as E6
    by (unfold ipv6_bytes; by rewrite length_app, !length_le_split).
  lies_split Hl. rewrite ?E6, ?length_le_split in *. unfold get_portmap_key.
  do 4 take_field. by destruct k as [? [] ?].
Qed.

Lemma get_overload_key_lies b off k x :
  lies b off (portoverload_key_bytes k) -> overload_key_ok k -> get_portoverload_key b off x = Some (k, x).
Proof.
  intros Hl (Hn & Hp & Hd & Hq & H4). unfold portoverload_key_bytes in Hl. lies_split Hl.
  rewrite ?length_le_split in *. unfold get_portoverload_key. do 5 take_field. by destruct k.
Qed.

(** The body of a message, once its headers are accepted. *)
Definition receive e b (type : Z) (backup : bool) : M instance unit :=
  if type =? DP_SYNC_MSG_REQUEST_DUMP then if negb backup then send_dump e else mret tt
  else if negb backup then mret tt
  else if type =? DP_SYNC_MSG_NAT_CREATE then receive_nat_create e b DP_SYNC_HEADERS_LEN
  else if type =? DP_SYNC_MSG_NAT_DELETE then receive_nat_delete b DP_SYNC_HEADERS_LEN
  else if type =? DP_SYNC_MSG_VIRTSVC_CONN then receive_virtsvc_conn e b DP_SYNC_HEADERS_LEN
  else if type =? DP_SYNC_MSG_PORT_MAC then receive_port_mac b DP_SYNC_HEADERS_LEN
  else mret tt.

Lemma process_headers e b m x : lies b 0 (msg_frame m) ->
  process_packet e b x = receive e b (msg_type m) (backup_mode x) x /\ lies b DP_SYNC_HEADERS_LEN (msg_payload m).
Proof.
  intros Hl. unfold msg_frame in Hl. apply lies_app in Hl as [_ Hl]. apply lies_app in Hl as [_ Hl].
  apply lies_app in Hl as [Ht Hl]. apply lies_app in Hl as [Hm Hp]. rewrite !length_le_split in *.
  change (0 + length sync_mac_dst + length sync_mac_src)%nat with 12%nat in *. split; [|exact Hp].
  assert (0 <= htons DP_SYNC_ETHERTYPE < 256 ^ Z.of_nat 2) by (vm_compute; by split).
  assert (0 <= msg_type m < 256 ^ Z.of_nat 1) by (destruct m as [[]| | |]; vm_compute; by split).
  unfold process_packet. take_field. rewrite Z.eqb_refl. cbn [negb]. take_field.
  erewrite M_bind_Some; [|reflexivity]. unfold receive. by destruct (backup_mode x); destruct m as [[]| | |].
Qed.

Lemma receive_effect e b m x : lies b DP_SYNC_HEADERS_LEN (msg_payload m) -> sync_msg_ok m ->
  receive e b (msg_type m) (backup_mode x) x = msg_effect e m x.
Proof.
  intros Hl Hok. unfold receive, msg_effect. destruct (backup_mode x); [|by destruct m as [[]| | |]].
  destruct m as [[pk po created ty ck|pk po]|v cp ip l4 id|id mac|]; [| | | |done]; cbn [msg_type msg_payload sync_msg_ok nat_sync_ok] in *;
    destruct_and? Hok; lies_split Hl; rewrite ?length_portmap_key, ?length_overload_key, ?length_le_split in *;
    cbn [Z.eqb DP_SYNC_MSG_REQUEST_DUMP DP_SYNC_MSG_NAT_CREATE DP_SYNC_MSG_NAT_DELETE DP_SYNC_MSG_VIRTSVC_CONN
         DP_SYNC_MSG_PORT_MAC Pos.eqb negb].
  - unfold receive_nat_create. erewrite M_bind_Some; [|eapply get_portmap_key_lies; [at_field | done]].
    erewrite M_bind_Some; [|eapply get_overload_key_lies; [at_field | done]]. by do 3 take_field.
  - unfold receive_nat_delete. erewrite M_bind_Some; [|eapply get_portmap_key_lies; [at_field | done]].
    by erewrite M_bind_Some; [|eapply get_overload_key_lies; [at_field | done]].
  - unfold receive_virtsvc_conn. by do 7 take_field.
  - unfold receive_port_mac. by do 2 take_field.
Qed.

Lemma frame_effect e b m tail x : memory b = msg_frame m ++ tail -> sync_msg_ok m -> process_packet e b x = msg_effect e m x.
Proof.
  intros Hm%lies_start Hok. destruct (process_headers e b m x Hm) as [-> Hp]. by apply receive_effect.
Qed.

(** *** Encoding *)

Lemma send_payload_frame se m o :
  send_payload se (msg_type m) (msg_payload m) o
  = (let n := so_count o in
     if se_alloc se n && se_append se n (DP_SYNC_HEADERS_LEN + length (msg_payload m))%nat
     then Some (DP_OK, mk_sync_out (S n) (so_wire o ++ (if se_tx se (S n) then [(se_port_id se, msg_frame m)] else [])))
     else Some (DP_ERROR, mk_sync_out (S n) (so_wire o))).
Proof.
  unfold send_payload, dp_sync_alloc_message, dp_sync_send_message, msg_frame. m_unfold. cbv zeta beta.
  destruct (se_alloc se (so_count o)); cbn [negb andb]; [|done].
  destruct (se_append se _ _); cbn [negb]; [|done]. cbn [so_count so_wire].
  destruct (se_tx se _); [by rewrite <-!app_assoc | by rewrite app_nil_r].
Qed.

(** C20: Messages between the instances are understood.  Every message fits the
    format: when there is a buffer, it leaves by the port for messages, or is
    lost in the card, which is not an error; otherwise sending it fails.  An
    instance that receives those bytes, whatever follows them in the buffer, does
    what the message says, on exactly the values it was made from: a backup
    follows changes and ignores requests, an active instance ignores changes and
    answers requests. *)
Theorem sync_message_understood se m o : sync_msg_ok m ->
  exists ret o', send_msg se m o = Some (ret, o')
    /\ (if se_alloc se (so_count o) && se_append se (so_count o) (DP_SYNC_HEADERS_LEN + length (msg_payload m))%nat
        then ret = DP_OK /\ so_wire o' = so_wire o ++ (if se_tx se (S (so_count o)) then [(se_port_id se, msg_frame m)] else [])
        else ret = DP_ERROR /\ so_wire o' = so_wire o)
    /\ forall e b tail x, memory b = msg_frame m ++ tail -> process_packet e b x = msg_effect e m x.
Proof.
  intros Hok.
  assert (send_msg se m o = send_payload se (msg_type m) (msg_payload m) o) as -> by (by destruct m as [[]| | |]).
  rewrite send_payload_frame. cbv zeta. destruct (_ && _).
  - do 2 eexists. split_and!; [done | done | done |]. intros e b tail x Hm. by apply (frame_effect e b m tail).
  - do 2 eexists. split_and!; [done | done | done |]. intros e b tail x Hm. by apply (frame_effect e b m tail).
Qed.
End decode.

(** ** The backup's tables *)

Section replica.
Context `{ERR : RteErrno} {HT : RteHash dp_ipv6 dp_vnf} {VT : RteHash dp_vnf dp_ipv6}
  {ST : RteHash nat_key snat_data} {DT : RteHash nat_key dnat_data}
  {PM : RteHash netnat_portmap_key netnat_portmap_data}
  {PO : RteHash netnat_portoverload_tbl_key (option netnat_portoverload_sync_metadata)}
  {FT : RteHash flow_key ptr} {LT : RteHash lb_key ptr} {IT : RteHash (list Z) lb_key} {OP : RteHash dp_virtsvc_conn_key Z}
  {R4 : RteRib Z} {R6 : RteRib dp_ipv6} {NT : RteHash Z dp_vni_data} {IF : RteHash (list Z) Z}.
Implicit Types (e : node_env) (x : instance) (a : nat_state).

(** The backup knows the same sources with the same NAT ports and counts, the
    same translations in use, and of each of them what it takes to make a flow of
    it. *)
Record mirrors (active backup : nat_state) : Prop := {
  mi_portmaps : portmaps backup = portmaps active;
  mi_overloads : dom (overloads backup) = dom (overloads active);
  mi_metadata po md : overloads backup !! po = Some md -> is_Some md
}.

(** Changes of the active instance's tables: a packet of a new connection, the
    end of a flow. *)
Inductive nat_event :=
| EvAllocate (env : nat_env) (sk : nat_key) (data : snat_data) (df : dp_flow) (port : dp_port) (icmp_err_ip_cksum : Z)
| EvRelease (ports : port_table) (cntrack : flow_value).

Definition event_step (ev : nat_event) a : nat_state :=
  match ev with
  | EvAllocate env sk data df port cksum => snd (dp_allocate_network_snat_port env sk data df port cksum a)
  | EvRelease ports cntrack => snd (dp_remove_network_snat_port true ports cntrack a)
  end.
Definition event_synced (ev : nat_event) : Prop :=
  match ev with EvAllocate env _ _ _ _ _ => conf_is_sync_enabled env = true | EvRelease _ _ => True end.

(** What the active instance sends for a change. *)
Definition event_messages (ev : nat_event) a : list nat_sync := drop (length (nat_sync_out a)) (nat_sync_out (event_step ev a)).

Definition carries (b : rte_buf) (msg : nat_sync) : Prop := exists tail, memory b = msg_frame (MsgNat msg) ++ tail.

Definition has_room e x : Prop :=
  ne_malloc e = true /\ ne_zmalloc e = true
  /\ (forall po md, 0 <= fst (rte_hash_add_key_data (portoverload_tbl (c_nat (in_ctl x))) po md))
  /\ (forall pk d, 0 <= fst (rte_hash_add_key_data (portmap_tbl (c_nat (in_ctl x))) pk d)).

(** The two instances side by side.  They start with empty tables; every message
    arrives at the backup, which has room for it. *)
Inductive ha_run : nat_state -> instance -> Prop :=
| ha_start a x :
    portmaps a = ∅ -> overloads a = ∅ -> portmaps (c_nat (in_ctl x)) = ∅ -> overloads (c_nat (in_ctl x)) = ∅ ->
    backup_mode x = true -> ha_run a x
| ha_step ev e bursts a x n rest x' :
    ha_run a x -> event_synced ev -> Forall nat_sync_ok (event_messages ev a) ->
    Forall2 carries bursts (event_messages ev a) -> has_room e x ->
    sync_node_process e [bursts] x = Some ((n, rest), x') ->
    ha_run (event_step ev a) x'.

(** *** The active instance *)

(** A translation as it is after an allocation: what the source has from then
    on. *)
Definition allocated_data (pms : gmap netnat_portmap_key netnat_portmap_data) (pk : netnat_portmap_key)
    (po : netnat_portoverload_tbl_key) : netnat_portmap_data :=
  match pms !! pk with
  | Some d => bump 1 d
  | None => mk_portmap_data (po_nat_ip po) (po_nat_port po) 1
  end.

(** The port of a translation is the one its source has. *)
Definition port_fits (pms : gmap netnat_portmap_key netnat_portmap_data) (pk : netnat_portmap_key)
    (po : netnat_portoverload_tbl_key) : Prop :=
  forall d, pms !! pk = Some d -> po = set_po_nat_port (pm_nat_port d) po.

Lemma use_existing_log pk po md a : nat_sync_out (snd (dp_use_existing_portmap_entry pk po md a)) = nat_sync_out a.
Proof.
  unfold dp_use_existing_portmap_entry. destruct (rte_hash_lookup_data _ _); [done|]. destruct (rte_hash_lookup_data _ _); [|done].
  destruct (negb _); [done|]. destruct (rte_hash_add_key_data _ _ _). by destruct (DP_FAILED _).
Qed.

Lemma create_new_log ok pk po md a : nat_sync_out (snd (dp_create_new_portmap_entry ok pk po md a)) = nat_sync_out a.
Proof.
  unfold dp_create_new_portmap_entry. destruct (rte_hash_add_key_data _ _ _). destruct (DP_FAILED _); [done|].
  destruct ok; [|done]. cbn [negb]. destruct (rte_hash_add_key_data _ _ _). by destruct (DP_FAILED _).
Qed.

Lemma find_new_port_free now delay sk data pk po a :
  let '(ret, po', a') := dp_find_new_port now delay sk data pk po a in
  portmaps a' = portmaps a /\ overloads a' = overloads a /\ nat_sync_out a' = nat_sync_out a
  /\ (ret = DP_OK /\ overloads a !! po' = None \/ ret = - ENOENT).
Proof.
  unfold dp_find_new_port.
  pose proof (find_port_loop_spec (Z.to_nat (u16 (snat_max_port data - snat_min_port data))) 0
    (u32 (rte_hash_hash (portmap_tbl a) pk)) (snat_min_port data) (u16 (snat_max_port data - snat_min_port data)) po a) as Hs.
  destruct (find_port_loop _ _ _ _ _ _ _) as [ret po']. split_and!; [by destruct (_ && _).. |].
  destruct Hs as [(-> & _ & _ & _ & Hno)|(-> & _)]; [by left | by right].
Qed.

(** An allocation changes the tables and tells the backup, or does neither. *)
Lemma allocate_messages env sk data df port cksum a : conf_is_sync_enabled env = true ->
  let a' := snd (dp_allocate_network_snat_port env sk data df port cksum a) in
  (nat_sync_out a' = nat_sync_out a /\ portmaps a' = portmaps a /\ overloads a' = overloads a)
  \/ exists pk po, nat_sync_out a' = nat_sync_out a ++ [SyncNatCreate pk po (port_id port) (icmp_type df) cksum]
       /\ overloads a !! po = None /\ port_fits (portmaps a) pk po
       /\ overloads a' = <[po := None]> (overloads a)
       /\ portmaps a' = <[pk := allocated_data (portmaps a) pk po]> (portmaps a).
Proof.
  intros Hsync. unfold dp_allocate_network_snat_port. destruct (snat_keys _ _ _) as [[pk po]|]; [|by left].
  pose proof (use_existing_spec pk po None a) as Hu. pose proof (use_existing_log pk po None a) as Hlog.
  destruct (dp_use_existing_portmap_entry pk po None a) as [[ret po1] a1]. cbn [snd] in Hlog.
  destruct (portmaps a !! pk) as [d|] eqn:Hpk.
  - destruct Hu as (-> & [(-> & Hno & Ho & Hp)|[(-> & _ & ->)|(-> & Ho & Hp)]]); [|by left..].
    right. exists pk, (set_po_nat_port (pm_nat_port d) po). cbn. unfold send_sync. rewrite Hsync. cbn. rewrite Hlog.
    unfold allocated_data, port_fits. rewrite Hpk. split_and!; [done | done | by intros ? [= <-] | done | done].
  - destruct Hu as (-> & -> & ->). change (DP_FAILED (- ENOENT)) with true. replace (negb (- ENOENT =? - ENOENT)) with false by done.
    cbv iota. pose proof (find_new_port_free (nat_now env) (nat_full_log_delay env) sk data pk po a) as Hf.
    destruct (dp_find_new_port _ _ sk data pk po a) as [[ret po1] a1]. destruct Hf as (Hp1 & Ho1 & Hl1 & [[-> Hno]| ->]); [|by left].
    change (DP_FAILED DP_OK) with false. cbv iota.
    pose proof (create_new_spec (nat_zmalloc_ok env) pk po1 None a1) as Hc. pose proof (create_new_log (nat_zmalloc_ok env) pk po1 None a1) as Hl2.
    rewrite Hp1, Ho1 in Hc. specialize (Hc Hno Hpk). destruct (dp_create_new_portmap_entry _ _ _ _ _) as [ret2 a2]. cbn [snd] in Hl2.
    rewrite Hl1 in Hl2. destruct Hc as [(-> & Ho2 & Hp2)|(Hf2 & _ & Ho2 & Hp2)]; [|rewrite Hf2; by left].
    right. exists pk, po1. cbn. unfold send_sync. rewrite Hsync. cbn. rewrite Hl2. unfold allocated_data, port_fits. rewrite Hpk. done.
Qed.

(** What a release leaves. *)
Definition released (pms : gmap netnat_portmap_key netnat_portmap_data) (pk : netnat_portmap_key)
  : gmap netnat_portmap_key netnat_portmap_data :=
  match pms !! pk with
  | None => pms
  | Some d => if u16 (pm_flow_cnt d - 1) =? 0 then delete pk pms else <[pk := bump (-1) d]> pms
  end.

Lemma delete_entries_any pk po a :
  let '(ret, a') := dp_delete_snat_entries pk po a in
  ret = DP_OK /\ overloads a' = delete po (overloads a) /\ portmaps a' = released (portmaps a) pk.
Proof.
  unfold dp_delete_snat_entries.
  assert (forall a1, let '(ret, a') := match rte_hash_lookup_data (portmap_tbl a1) pk with
      | inl ret => if ret =? - ENOENT then (DP_OK, a1) else (ret, a1) | inr data => delete_portmap pk data a1 end in
    ret = DP_OK /\ overloads a' = overloads a1 /\ portmaps a' = released (portmaps a1) pk) as Hnext.
  { intros a1. rewrite hash_lookup_view. fold (portmaps a1). unfold released. destruct (portmaps a1 !! pk) as [d|] eqn:Hpk; [|done].
    pose proof (delete_portmap_spec pk d a1 Hpk) as Hd. destruct (delete_portmap pk d a1). destruct Hd as (-> & -> & ->).
    by destruct (_ =? 0). }
  rewrite hash_lookup_view. fold (overloads a). destruct (overloads a !! po) as [o|] eqn:Hpo.
  - pose proof (hash_del_cases (portoverload_tbl a) po) as Hd. destruct (rte_hash_del_key (portoverload_tbl a) po) as [r t].
    destruct Hd as [-> Hv]; [change (is_Some (overloads a !! po)); by rewrite Hpo|].
    specialize (Hnext (set_portoverload_tbl t a)). cbn. cbn in Hnext.
    destruct (match rte_hash_lookup_data (portmap_tbl a) pk with inl _ => _ | inr _ => _ end) as [ret a'].
    destruct Hnext as (-> & -> & ->). by split_and!.
  - replace (negb (- ENOENT =? - ENOENT)) with false by done. cbv iota. specialize (Hnext a). rewrite (delete_id _ _ Hpo). exact Hnext.
Qed.

Lemma delete_entries_log pk po a : nat_sync_out (snd (dp_delete_snat_entries pk po a)) = nat_sync_out a.
Proof.
  unfold dp_delete_snat_entries, delete_portmap.
  destruct (rte_hash_lookup_data (portoverload_tbl a) po); [destruct (negb _); [done|]|
    destruct (rte_hash_del_key _ _); destruct (DP_FAILED _); [done|]];
    (destruct (rte_hash_lookup_data _ _); [by destruct (_ =? _)|]);
    (destruct (_ =? 0); [|done]); destruct (rte_hash_del_key _ _); by destruct (DP_FAILED _).
Qed.

Lemma release_messages ports cntrack a :
  let a' := snd (dp_remove_network_snat_port true ports cntrack a) in
  a' = a
  \/ exists pk po, nat_sync_out a' = nat_sync_out a ++ [SyncNatDelete pk po]
       /\ overloads a' = delete po (overloads a) /\ portmaps a' = released (portmaps a) pk.
Proof.
  unfold dp_remove_network_snat_port. destruct (dp_flow_to_snat_keys cntrack) as [r [[pk po]|]]; [|by left].
  right. exists pk, po. pose proof (delete_entries_any pk po a) as Hd. pose proof (delete_entries_log pk po a) as Hl.
  destruct (dp_delete_snat_entries pk po a) as [ret a1]. cbn [snd] in Hl. destruct Hd as (-> & Ho & Hp).
  change (DP_FAILED DP_OK) with false. cbv iota.
  destruct (dp_get_port_by_id _ _); cbn; rewrite Hl; by split_and!.
Qed.

(** *** The backup *)

Lemma room_add_zero `{RH : RteHash K V} (t : rte_hash K V) k v : 0 <= fst (rte_hash_add_key_data t k v) ->
  exists t', rte_hash_add_key_data t k v = (0, t') /\ hash_view t' = <[k := v]> (hash_view t).
Proof.
  intros Hr. pose proof (hash_add_cases t k v) as Hc. destruct (rte_hash_add_key_data t k v) as [r t'].
  destruct Hc as [(-> & _ & Hv)|(-> & _)]; [by exists t' | by cbn in Hr].
Qed.

(** With room, a creation is followed exactly. *)
Lemma sync_create_follows pk po created ty ck st :
  (forall po md, 0 <= fst (rte_hash_add_key_data (portoverload_tbl st) po md)) ->
  (forall pk d, 0 <= fst (rte_hash_add_key_data (portmap_tbl st) pk d)) ->
  overloads st !! po = None -> port_fits (portmaps st) pk po ->
  let '(ret, st') := dp_allocate_sync_snat_port true true pk po created ty ck st in
  ret = DP_OK
  /\ overloads st' = <[po := Some (mk_sync_metadata pk created ty ck)]> (overloads st)
  /\ portmaps st' = <[pk := allocated_data (portmaps st) pk po]> (portmaps st).
Proof.
  intros Hr1 Hr2 Hno Hfit. unfold dp_allocate_sync_snat_port, allocated_data. cbn [negb]. set (md := Some (mk_sync_metadata _ _ _ _)).
  destruct (portmaps st !! pk) as [d|] eqn:Hpk.
  - unfold dp_use_existing_portmap_entry. rewrite hash_lookup_view. fold (portmaps st). rewrite Hpk. rewrite <-(Hfit d Hpk).
    rewrite hash_lookup_view. fold (overloads st). rewrite Hno. replace (negb (- ENOENT =? - ENOENT)) with false by done. cbv iota.
    destruct (room_add_zero (portoverload_tbl st) po md (Hr1 po md)) as (t & -> & Hv).
    split_and!; [done | exact Hv |]. unfold portmaps. cbn. rewrite hash_poke_view; [done|].
    change (is_Some (portmaps st !! pk)). by rewrite Hpk.
  - pose proof (use_existing_spec pk po md st) as Hu. destruct (dp_use_existing_portmap_entry pk po md st) as [[ret po1] st1].
    rewrite Hpk in Hu. destruct Hu as (-> & -> & ->).
    change (DP_FAILED (- ENOENT)) with true. replace (- ENOENT =? - EEXIST) with false by done.
    replace (negb (- ENOENT =? - ENOENT)) with false by done. cbv iota. unfold dp_create_new_portmap_entry.
    destruct (room_add_zero (portoverload_tbl st) po md (Hr1 po md)) as (t & -> & Hv).
    change (DP_FAILED 0) with false. cbn [negb portmap_tbl set_portoverload_tbl]. cbv iota.
    destruct (room_add_zero (portmap_tbl st) pk (mk_portmap_data (po_nat_ip po) (po_nat_port po) 1) (Hr2 _ _)) as (t2 & -> & Hv2).
    by split_and!.
Qed.

Lemma mirrors_create a a' st st' pk po md : mirrors a st ->
  overloads a' = <[po := None]> (overloads a) -> portmaps a' = <[pk := allocated_data (portmaps a) pk po]> (portmaps a) ->
  overloads st' = <[po := Some md]> (overloads st) ->
  portmaps st' = <[pk := allocated_data (portmaps st) pk po]> (portmaps st) -> mirrors a' st'.
Proof.
  intros [Hp Ho Hmd] Hoa Hpa Hob Hpb. split.
  - by rewrite Hpb, Hpa, Hp.
  - by rewrite Hob, Hoa, !dom_insert_L, Ho.
  - intros po' md'. rewrite Hob, lookup_insert. case_decide; [intros [= <-]; by eexists | apply Hmd].
Qed.

Lemma mirrors_delete a a' st st' pk po : mirrors a st ->
  overloads a' = delete po (overloads a) -> portmaps a' = released (portmaps a) pk ->
  overloads st' = delete po (overloads st) -> portmaps st' = released (portmaps st) pk -> mirrors a' st'.
Proof.
  intros [Hp Ho Hmd] Hoa Hpa Hob Hpb. split.
  - by rewrite Hpb, Hpa, Hp.
  - by rewrite Hob, Hoa, !dom_delete_L, Ho.
  - intros po' md'. rewrite Hob, lookup_delete_Some. intros [_ H]. by apply (Hmd po').
Qed.

Lemma mirrors_unchanged a a' st : mirrors a st -> portmaps a' = portmaps a -> overloads a' = overloads a -> mirrors a' st.
Proof. intros [Hp Ho Hmd] Hpa Hoa. split; [by rewrite Hpa | by rewrite Hoa | done]. Qed.

(** The node on a burst of one message that changes the NAT tables. *)
Lemma process_one e b msg x : carries b msg -> nat_sync_ok msg -> backup_mode x = true ->
  sync_node_process e [[b]] x
  = Some ((0, []), mk_instance (set_c_nat (snd (match msg with
      | SyncNatCreate pk po created ty ck => dp_allocate_sync_snat_port (ne_malloc e) (ne_zmalloc e) pk po created ty ck
      | SyncNatDelete pk po => dp_remove_sync_snat_port pk po
      end (c_nat (in_ctl x)))) (in_ctl x)) true (in_out x)).
Proof.
  intros [tail Hm] Hok Hb. destruct x as [st bm o]. cbn in Hb. subst bm. cbn [sync_node_process length Nat.eqb process_burst].
  assert (process_packet e b (mk_instance st true o) = msg_effect e (MsgNat msg) (mk_instance st true o)) as Hp by (by apply (frame_effect e b (MsgNat msg) tail)).
  destruct msg as [pk po created ty ck|pk po]; unfold msg_effect, on_ctl, on_nat_tables, mbind, M_bind in *;
    cbn [backup_mode in_ctl in_out] in Hp |- *; rewrite Hp.
  - destruct (dp_allocate_sync_snat_port _ _ _ _ _ _ _ _) as [r n]. done.
  - destruct (dp_remove_sync_snat_port _ _ _) as [r n]. done.
Qed.

Lemma c_nat_set n (st : ctl_state) : c_nat (set_c_nat n st) = n.
Proof. by destruct st as [? ? ? ? ? ? [] ? ? ? ? ?]. Qed.

Lemma drop_appended {A} (l l' : list A) : drop (length l) (l ++ l') = l'.
Proof. by rewrite drop_app_length. Qed.

Lemma burst_of_nothing e bufs (msgs : list nat_sync) x : msgs = [] -> Forall2 carries bufs msgs ->
  sync_node_process e [bufs] x = Some ((0, []), x).
Proof. intros -> Hf. by apply Forall2_nil_inv_r in Hf as ->. Qed.

(** One change of the active instance, seen by the backup. *)
Lemma event_followed ev e bufs a x : mirrors a (c_nat (in_ctl x)) -> backup_mode x = true ->
  event_synced ev -> Forall nat_sync_ok (event_messages ev a) -> Forall2 carries bufs (event_messages ev a) -> has_room e x ->
  exists x', sync_node_process e [bufs] x = Some ((0, []), x')
    /\ mirrors (event_step ev a) (c_nat (in_ctl x')) /\ backup_mode x' = true.
Proof.
  intros Hmi Hb Hs Hok Hc (Hm & Hz & Hr1 & Hr2). unfold event_messages in *.
  destruct ev as [env sk data df port ck|ports cntrack]; cbn [event_step event_synced] in *.
  - destruct (allocate_messages env sk data df port ck a Hs) as [(Hl & Hp & Ho)|(pk & po & Hl & Hno & Hfit & Ho & Hp)]; rewrite Hl in *.
    + rewrite drop_all in Hc. exists x. split_and!; [by eapply burst_of_nothing | by eapply mirrors_unchanged | done].
    + rewrite drop_appended in *. apply List.Forall_inv in Hok. apply Forall2_cons_inv_r in Hc as (b & ? & Hc & ->%Forall2_nil_inv_r & ->).
      eexists. split; [eapply process_one; [exact Hc | exact Hok | exact Hb]|]. split; [|done]. cbn [in_ctl]. rewrite c_nat_set, Hm, Hz.
      pose proof (sync_create_follows pk po (port_id port) (icmp_type df) ck (c_nat (in_ctl x)) Hr1 Hr2) as Hf.
      destruct (dp_allocate_sync_snat_port _ _ _ _ _ _ _ _) as [ret st']. destruct Hf as (_ & Hob & Hpb).
      * apply not_elem_of_dom. rewrite (mi_overloads _ _ Hmi). by apply not_elem_of_dom.
      * by rewrite (mi_portmaps _ _ Hmi).
      * by eapply mirrors_create.
  - destruct (release_messages ports cntrack a) as [He|(pk & po & Hl & Ho & Hp)]; [rewrite He in *|rewrite Hl in *].
    + rewrite drop_all in Hc. exists x. split_and!; [by eapply burst_of_nothing | done | done].
    + rewrite drop_appended in *. apply List.Forall_inv in Hok. apply Forall2_cons_inv_r in Hc as (b & ? & Hc & ->%Forall2_nil_inv_r & ->).
      eexists. split; [eapply process_one; [exact Hc | exact Hok | exact Hb]|]. split; [|done]. cbn [in_ctl]. rewrite c_nat_set. unfold dp_remove_sync_snat_port.
      pose proof (delete_entries_any pk po (c_nat (in_ctl x))) as Hd. destruct (dp_delete_snat_entries _ _ _) as [ret st'].
      destruct Hd as (-> & Hob & Hpb). by eapply mirrors_delete.
Qed.

(** C19: A backup stays a replica.  However connections come and go on the active
    instance, as long as its messages arrive and the backup has room, the backup
    has the same NAT tables: each source with the same NAT port and number of
    flows, the same translations in use, and each with the data from which its
    flow is made when the backup takes over.  The backup always gets through the
    messages of the next change. *)
Theorem backup_stays_replica a x : ha_run a x ->
  mirrors a (c_nat (in_ctl x)) /\ backup_mode x = true
  /\ forall ev e bufs, event_synced ev -> Forall nat_sync_ok (event_messages ev a) ->
       Forall2 carries bufs (event_messages ev a) -> has_room e x ->
       exists x', sync_node_process e [bufs] x = Some ((0, []), x').
Proof.
  intros Hrun. assert (mirrors a (c_nat (in_ctl x)) /\ backup_mode x = true) as [Hmi Hb].
  { induction Hrun as [a x Hp Ho Hp' Ho' Hb|ev e bufs a x n rest x' _ [Hmi Hb] Hs Hok Hc Hr Hrun].
    - split; [|done]. split; [by rewrite Hp, Hp' | by rewrite Ho, Ho' | intros po md; by rewrite Ho', lookup_empty].
    - destruct (event_followed ev e bufs a x) as (x1 & Hrun1 & Hmi1 & Hb1); try done. rewrite Hrun in Hrun1. by simplify_eq. }
  split_and!; [done | done |]. intros ev e bufs Hs Hok Hc Hr.
  destruct (event_followed ev e bufs a x) as (x1 & Hrun1 & _); try done. by exists x1.
Qed.
End replica.
