(* ===== verification/SyncExamples.v ===== *)
(** Two instances on concrete states: witnesses, and behaviours of the messages
    that are not meant. *)

From S2P Require Import Prelude Errors RteHash IpAddr Port Packet Ipsec Vnf FlowKey Nat NatTheorems Flow Cntrack Maglev Lb Virtsvc VirtsvcConn Rib Control Sync SyncTheorems GrpcExamples.

Module SyncExample.
Import GrpcExample.

(** Every packet is sent, by port 9. *)
Definition sending : sync_env := mk_sync_env (fun _ => true) (fun _ _ => true) (fun _ => true) 9.
Definition nenv : node_env := mk_node_env true true (mk_conn_env 1 1 1) VNull sending.
Definition standby : instance := mk_instance boot_ctl true (mk_sync_out 0 []).
Definition in_memory (bs : list Z) : rte_buf := mk_buf [] bs [].

Definition guest_mac : list Z := [2; 0; 0; 0; 0; 7].

(** The neighbour's address of a virtual function, on its way to the backup. *)
Lemma sync_message_understood_witness :
  exists o', send_msg sending (MsgMac 1 guest_mac) (mk_sync_out 0 []) = Some (DP_OK, o')
    /\ so_wire o' = [(9, msg_frame (MsgMac 1 guest_mac))]
    /\ process_packet nenv (in_memory (msg_frame (MsgMac 1 guest_mac))) standby
       = msg_effect nenv (MsgMac 1 guest_mac) standby.
Proof.
  destruct (sync_message_understood sending (MsgMac 1 guest_mac) (mk_sync_out 0 []) ltac:(split; [by split | done]))
    as (ret & o' & Hs & Hw & Hp).
  cbn [sending se_alloc se_append se_tx andb] in Hw. destruct Hw as [-> Hw]. exists o'. split; [exact Hs|]. split; [exact Hw|].
  apply (Hp nenv _ []). by rewrite app_nil_r.
Defined.

(** ** A connection of the active instance, known to the backup *)

Definition active : nat_state := mk_nat_state (slot_empty _ 4) (slot_empty _ 4) (slot_empty _ 4) (slot_empty _ 4) [] ∅ [].
Definition nat_address : Z := 0xcb007101.
Definition dns_query : nat_event :=
  EvAllocate (mk_nat_env true 100 5 true) (mk_nat_key 0x0a000001 100) NatExample.nat_data (NatExample.udp 7 0x08080808)
    NatExample.vm 0.
Definition source : netnat_portmap_key := mk_portmap_key 100 (dp_set_ipaddr4 0x0a000001) 7.
Definition translation : netnat_portoverload_tbl_key := mk_overload_key nat_address 1000 0x08080808 53 IPPROTO_UDP.

Lemma dns_messages : event_messages dns_query active = [SyncNatCreate source translation 3 0 0].
Proof. vm_compute. reflexivity. Qed.

Lemma standby_has_room : has_room nenv standby.
Proof. split; [done|]. split; [done|]. split; intros; vm_compute; discriminate. Qed.

Lemma source_known : portmaps (event_step dns_query active) !! source = Some (mk_portmap_data nat_address 1000 1).
Proof. vm_compute. reflexivity. Qed.

Lemma both_start : ha_run active standby.
Proof. by apply ha_start. Qed.

Lemma backup_stays_replica_witness :
  exists x', sync_node_process nenv [[in_memory (msg_frame (MsgNat (SyncNatCreate source translation 3 0 0)))]] standby
             = Some ((0, []), x')
    /\ portmaps (c_nat (in_ctl x')) !! source = Some (mk_portmap_data nat_address 1000 1).
Proof.
  destruct (proj2 (proj2 (backup_stays_replica active standby both_start)) dns_query nenv
    [in_memory (msg_frame (MsgNat (SyncNatCreate source translation 3 0 0)))]) as (x' & Hx).
  - done.
  - rewrite dns_messages. repeat constructor; done.
  - rewrite dns_messages. repeat constructor. exists []. by rewrite app_nil_r.
  - exact standby_has_room.
  - exists x'. split; [exact Hx|].
    assert (ha_run (event_step dns_query active) x') as Hrun.
    { eapply (ha_step dns_query nenv); [exact both_start | done | | | exact standby_has_room | exact Hx]; rewrite dns_messages;
        repeat constructor; try done. exists []. by rewrite app_nil_r. }
    rewrite (mi_portmaps _ _ (proj1 (backup_stays_replica _ _ Hrun))). exact source_known.
Defined.

(** ** Behaviours that are not meant *)

(** Messages about neighbours' addresses are sent although there is no backup:
    the port for messages is then the zero-initialised one, number 0, which is an
    uplink. *)
Example mac_message_without_backup :
  so_wire <$> ((fun r => in_out r.2) <$> dp_l2_addr_set
    (mk_node_env true true (mk_conn_env 1 1 1) VNull (mk_sync_env (fun _ => true) (fun _ _ => true) (fun _ => true) 0))
    1 guest_mac standby)
  = Some [(0, msg_frame (MsgMac 1 guest_mac))].
Proof. vm_compute. reflexivity. Qed.

(** A frame that ends after its type is read past its end: here what is left in
    the buffer becomes the neighbour's address of port 1. *)
Example short_frame_accepted :
  let b := mk_buf [] (take 15 (msg_frame (MsgMac 1 guest_mac))) ([1; 0] ++ [0xaa; 0xbb; 0xcc; 0xdd; 0xee; 0xff]) in
  match process_packet nenv b standby with
  | Some (_, x) => neigh_mac <$> (c_ports (in_ctl x) !! 1)
  | None => None
  end = Some [0xaa; 0xbb; 0xcc; 0xdd; 0xee; 0xff].
Proof. vm_compute. reflexivity. Qed.
End SyncExample.
