(* ===== verification/Guest.v ===== *)
(** Answers to guests that look for their gateway: ARP
    ([src/nodes/arp_node.c]) and IPv6 neighbour discovery
    ([src/nodes/ipv6_nd_node.c]).

    The nodes rewrite the packet they got and send it back.  They run on the
    packet, the instance ([Sync.instance]: a learnt address is told to the
    backup) and the mode the DHCP node keeps between packets. *)

From S2P Require Import Prelude Errors RteHash IpAddr Port Graph Packet Ipsec Vnf FlowKey Nat Flow Maglev Lb Virtsvc VirtsvcConn Rib NatRewrite Control Sync.

Definition DP_ARP_REQUEST : Z := 1.
Definition DP_ARP_REPLY : Z := 2.
Definition NDISC_ROUTER_SOLICITATION : Z := 133.
Definition NDISC_ROUTER_ADVERTISEMENT : Z := 134.
Definition NDISC_NEIGHBOUR_SOLICITATION : Z := 135.
Definition NDISC_NEIGHBOUR_ADVERTISEMENT : Z := 136.
Definition ND_OPT_SOURCE_LL_ADDR : Z := 1.
Definition ND_OPT_TARGET_LL_ADDR : Z := 2.
Definition ND_OPT_LEN_OCTET_1 : Z := 1.

Inductive dp_pxe_mode := DP_PXE_MODE_NONE | DP_PXE_MODE_TFTP | DP_PXE_MODE_HTTP.
#[export] Instance dp_pxe_mode_eq_dec : EqDecision dp_pxe_mode.
Proof. solve_decision. Defined.

(** Offsets in packets: the ARP header, and the ICMPv6 message behind an IPv6
    header. *)
Definition eth_dst_off : nat := 0.
Definition eth_src_off : nat := 6.
Definition arp_off : nat := sizeof_ether.
Definition arp_opcode_off : nat := (arp_off + 6)%nat.
Definition arp_sha_off : nat := (arp_off + 8)%nat.
Definition arp_sip_off : nat := (arp_off + 14)%nat.
Definition arp_tha_off : nat := (arp_off + 18)%nat.
Definition arp_tip_off : nat := (arp_off + 24)%nat.
Definition ip6_off : nat := sizeof_ether.
Definition icmp6_off : nat := (ip6_off + sizeof_ipv6)%nat.
Definition nd_target_off : nat := (icmp6_off + 8)%nat.
Definition nd_opt_off : nat := (icmp6_off + 24)%nat.
Definition sizeof_ra_msg : nat := 16.
Definition sizeof_nd_opt_source_link_layer : nat := 8.
Definition ra_opt_off : nat := (icmp6_off + sizeof_ra_msg)%nat.

Definition rd_bytes (off n : nat) : M rte_mbuf (list Z) := b ← gets buf; get_some (read_bytes b off n).
(** A copy of [n] bytes to [dst]. *)
Definition copy_bytes (src dst n : nat) : M rte_mbuf unit := bs ← rd_bytes src n; wr_bytes dst bs.

(** [m->data_len = n]: where the data ends in its buffer. *)
Definition set_data_len (n : nat) : M rte_mbuf unit := fun m =>
  let l := memory (buf m) in
  if decide (n <= length l)%nat then Some (tt, set_buf (mk_buf (headroom (buf m)) (take n l) (drop n l)) m) else None.

Section guest.
Context `{ERR : RteErrno} {CK : RteCksum} {HT : RteHash dp_ipv6 dp_vnf} {VT : RteHash dp_vnf dp_ipv6}
  {ST : RteHash nat_key snat_data} {DT : RteHash nat_key dnat_data}
  {PM : RteHash netnat_portmap_key netnat_portmap_data}
  {PO : RteHash netnat_portoverload_tbl_key (option netnat_portoverload_sync_metadata)}
  {FT : RteHash flow_key ptr} {LT : RteHash lb_key ptr} {IT : RteHash (list Z) lb_key} {OP : RteHash dp_virtsvc_conn_key Z}
  {R4 : RteRib Z} {R6 : RteRib dp_ipv6} {NT : RteHash Z dp_vni_data} {IF : RteHash (list Z) Z}.

Record guest_state := mk_guest { g_pkt : rte_mbuf; g_inst : instance; g_pxe : dp_pxe_mode }.
Abbreviation GM := (M guest_state).

(** The configuration the nodes read when they are started, and the edges to
    the ports. *)
Record guest_env := mk_guest_env {
  ge_node : node_env;
  ge_gw_ip4 : Z;
  ge_gw_ip6 : dp_ipv6;
  ge_tx : gmap Z Z;
  ge_ipv6_overlay : bool;
  ge_virtsvc : bool;
  ge_dhcp_mtu : Z;
  ge_dhcp_dns : list Z;
  ge_dhcpv6_dns : list Z
}.
Implicit Types (e : guest_env) (x : guest_state).

Definition pkt {A} (f : M rte_mbuf A) : GM A := fun x =>
  match f (g_pkt x) with Some (a, m) => Some (a, mk_guest m (g_inst x) (g_pxe x)) | None => None end.
Definition inst {A} (f : M instance A) : GM A := fun x =>
  match f (g_inst x) with Some (a, i) => Some (a, mk_guest (g_pkt x) i (g_pxe x)) | None => None end.

Definition in_port : GM dp_port :=
  ports ← gets (fun x => c_ports (in_ctl (g_inst x)));
  pkt (get_in_port ports).

(** The address of the guest behind the port is learnt. *)
Definition l2_addr_set e (mac : list Z) : GM unit := id ← gets (fun x => m_port (g_pkt x)); inst (dp_l2_addr_set (ge_node e) id mac).

Definition back_to_port e : GM Z := id ← gets (fun x => m_port (g_pkt x)); get_some (edge_at (ge_tx e) id).

(** ** ARP *)

Definition ARP_NEXT_DROP : Z := 0.

Definition arp_handled e : GM bool :=
  requested_ip ← pkt (rd arp_tip_off 4);
  sender_ip ← pkt (rd arp_sip_off 4);
  port ← in_port;
  if dp_arp_cycle_needed port && (sender_ip =? htonl (own_ip (cfg (iface port)))) then
    mac ← pkt (rd_bytes eth_src_off 6);
    l2_addr_set e mac ;;
    id ← gets (fun x => m_port (g_pkt x));
    inst (on_ctl (upd_port id (fun p => set_iface (set_arp_done true (iface p)) p))) ;;
    mret true
  else
    opcode ← pkt (rd arp_opcode_off 2);
    if negb (opcode =? htons DP_ARP_REQUEST) || negb (requested_ip =? htonl (ge_gw_ip4 e)) then mret false
    else
      pkt (copy_bytes arp_sha_off eth_dst_off 6) ;;
      pkt (wr_bytes eth_src_off (own_mac port)) ;;
      tmp_addr ← pkt (rd_bytes arp_sha_off 6);
      pkt (wr_bytes arp_sha_off (own_mac port)) ;;
      pkt (wr_bytes arp_tha_off tmp_addr) ;;
      temp_ip ← pkt (rd arp_sip_off 4);
      pkt (copy_bytes arp_tip_off arp_sip_off 4) ;;
      pkt (wr arp_tip_off 4 temp_ip) ;;
      pkt (wr arp_opcode_off 2 (htons DP_ARP_REPLY)) ;;
      mret true.

Definition arp_get_next_index e : GM Z :=
  handled ← arp_handled e;
  if negb handled then mret ARP_NEXT_DROP else back_to_port e.

(** ** Neighbour discovery *)

Definition IPV6_ND_NEXT_DROP : Z := 0.

(** Returns the length of the packet.  [src_mac] is [None] for [NULL]. *)
Definition dp_ipv6_fill_ra (src_mac : option (list Z)) : M rte_mbuf nat :=
  wr_bytes icmp6_off (replicate 8 0) ;;
  wr icmp6_off 1 NDISC_ROUTER_ADVERTISEMENT ;;
  wr (icmp6_off + 5) 1 0xC0 ;;
  wr (icmp6_off + 6) 2 0xffff ;;
  wr (icmp6_off + 8) 4 0 ;;
  wr (icmp6_off + 12) 4 0 ;;
  wr (icmp6_off + 4) 1 255 ;;
  wr (ip6_off + ipv6_payload_len_off) 2 (htons (Z.of_nat (sizeof_ra_msg + sizeof_nd_opt_source_link_layer))) ;;
  wr ra_opt_off 1 ND_OPT_SOURCE_LL_ADDR ;;
  wr (ra_opt_off + 1) 1 ND_OPT_LEN_OCTET_1 ;;
  (match src_mac with Some mac => wr_bytes (ra_opt_off + 2) mac | None => mret tt end) ;;
  mret (sizeof_ether + sizeof_ipv6 + sizeof_ra_msg + sizeof_nd_opt_source_link_layer)%nat.

(** The flags of an advertisement are the upper bits of one byte. *)
Definition set_advt_flags : M rte_mbuf unit := flags ← rd (icmp6_off + 4) 1; wr (icmp6_off + 4) 1 (Z.lor flags 0xE0).

Definition fill_icmp6_cksum : M rte_mbuf unit :=
  wr (icmp6_off + 2) 2 0 ;;
  ip ← memory_from ip6_off;
  icmp ← memory_from icmp6_off;
  wr (icmp6_off + 2) 2 (rte_ipv6_udptcp_cksum ip icmp).

Definition ipv6_nd_get_next_index e : GM Z :=
  icmp_type ← pkt (rd icmp6_off 1);
  port ← in_port;
  pkt (copy_bytes eth_src_off eth_dst_off 6) ;;
  pkt (wr_bytes eth_src_off (own_mac port)) ;;
  src_ipv6 ← pkt (rd_ipv6 (ip6_off + ipv6_src_off));
  pkt (wr_ipv6 (ip6_off + ipv6_dst_off) (if dp_ipv6_match src_ipv6 dp_empty_ipv6 then dp_multicast_ipv6 else src_ipv6)) ;;
  pkt (wr_ipv6 (ip6_off + ipv6_src_off) (ge_gw_ip6 e)) ;;
  if negb (icmp_type =? NDISC_NEIGHBOUR_SOLICITATION) && negb (icmp_type =? NDISC_ROUTER_SOLICITATION) then mret IPV6_ND_NEXT_DROP
  else
    dropped ← (if icmp_type =? NDISC_NEIGHBOUR_SOLICITATION then
        target ← pkt (rd_ipv6 nd_target_off);
        if negb (dp_ipv6_match target (ge_gw_ip6 e)) then mret true
        else
          mac ← pkt (rd_bytes eth_dst_off 6);
          l2_addr_set e mac ;;
          pkt (wr icmp6_off 1 NDISC_NEIGHBOUR_ADVERTISEMENT) ;;
          pkt set_advt_flags ;;
          pkt (wr nd_opt_off 1 ND_OPT_TARGET_LL_ADDR) ;;
          pkt (wr (nd_opt_off + 1) 1 ND_OPT_LEN_OCTET_1) ;;
          pkt (copy_bytes eth_src_off (nd_opt_off + 2) 6) ;;
          mret false
      else
        len ← pkt (dp_ipv6_fill_ra (Some (own_mac port)));
        pkt (set_data_len len) ;;
        mret false);
    if negb dropped then pkt fill_icmp6_cksum ;; back_to_port e else mret IPV6_ND_NEXT_DROP.

(** The whole burst is dropped where guests have no IPv6. *)
Definition ipv6_nd_node e : GM Z := if negb (ge_ipv6_overlay e) then mret IPV6_ND_NEXT_DROP else ipv6_nd_get_next_index e.
End guest.
